(* ===== verification/_CoqProject ===== *)
-Q . S2P
Prelude.v
Monad.v
Mem.v
Font.v
Display.v
Cbuf.v
Devices.v
Rtc.v
Klog.v
Acpi.v
Irq.v
Pmm.v
Vmm.v
Teardown.v
Paging.v
Kmalloc.v
Keyboard.v
Kernel.v
Task.v
Process.v
Syscall.v
Cpu.v
System.v
Panic.v
User.v
Trap.v
Loader.v
Spawn.v
Shell.v
Boot.v
Main.v
Selftest.v
