(* ===== verification/Prelude.v ===== *)
(** * SamOS: a verification development for a small x86_64 kernel

    SamOS is a UEFI boot loader (src/boot/bootloader.c), a kernel (src/kernel)
    and two user programs (src/user).  The loader reads kernel.elf, builds the
    first page tables, leaves the firmware and jumps to [kernel_main], which
    starts the components in order: display and log, descriptor tables, ACPI
    and interrupt controllers, page allocator, kernel page tables, heap,
    self-tests, scheduler, processes.  From then on the system runs on
    interrupts: the stubs of isr.S save the registers and call the C handlers,
    the timer drives the scheduler, the keyboard wakes the shell task, and
    [int $0x80] from user mode enters the system calls.

    ** How the program is modelled

    - Memory is one finite map from addresses to bytes (Mem.v), and a pointer
      is the physical address it has in the kernel's identity map.  The page
      bitmap, page tables, heap headers, stack frames, descriptor tables,
      framebuffer, ACPI tables and ELF images are bytes of that map, laid out
      as the C structures are.
    - An integer type of w bits is a [Z] with its wrap-around written out
      ([u8], [u16], [u32], [u64], [i32] below).
    - A function that changes state is a function of the state monad of
      Monad.v.  Its outcomes are [Ok] and [Panic]: a failed [kassert], a call
      of [panic], a halted machine, or an access outside a static array.  A
      theorem that gives [Ok] therefore says that none of these happens.
    - A component's static variables are a record.  Components are put
      together with lenses: the memory components inside [kernel] (Kernel.v),
      that and the devices inside [os] (System.v), that and the processor, the
      display and the early tables inside [computer] (Main.v).
    - What the program does not contain is a parameter: devices are a
      [machine] (Devices.v) and the UEFI firmware is a [firmware] (Boot.v).
      What the code relies on is a class of such parameters: [Uart] (Klog.v),
      [CmosStable] (Rtc.v), [IrqHardware] (Irq.v), [FirmwareOk] (Boot.v), each
      shown to hold of a concrete device that the examples use.  The keyboard driver is
      written against the interface [KbdEnv] (Keyboard.v), which the scheduler
      and the interrupt statistics discharge in System.v.
    - Console output is a trace of events ([out] in Kernel.v) in the kernel
      components; Display.v models what printing does to the pixels.

    ** Files

    - Prelude.v, Monad.v, Mem.v, Cbuf.v: integers, lists, tactics and hints;
      state, panic and lenses; memory; bounded character arrays.
    - Font.v, Display.v: font8x8_basic.c, display.c.
    - Devices.v: io.h, mmio.h and the MSR accesses.
    - Rtc.v: rtc.c.  Klog.v: serial.c, klog.c, the stored panic message.
    - Acpi.v: acpi.c.  Irq.v: pic.c, apic.c, irq.c.
    - Pmm.v: pmm.c.  Paging.v: paging.c.  Vmm.v and Teardown.v: vmm.c.
      Kmalloc.v: kmalloc.c.
    - Keyboard.v: keyboard.c.  Kernel.v: the shared state.
    - Task.v: scheduler/task.c and the reaper of process.c.  Process.v:
      process.c.  Syscall.v: syscall.c.
    - Cpu.v: gdt.c, tss.c, idt.c (the gates), percpu.c.
    - System.v: timer.c, [interrupt_handler] of idt.c, the start of the
      keyboard.  Panic.v: panic.c.
    - User.v: hello.c, burn.c, user/syscall.h.
    - Trap.v: isr.S and [schedule] of task.c.
    - Loader.v: what the ELF loader and [map_user_stack] of process.c leave in
      memory.  Spawn.v: the way from an ELF image to a running process.
    - Shell.v: shell.c, string.c.
    - Boot.v: bootloader.c.  Main.v and Selftest.v: kernel.c.

    ** What the theorems show

    - Memory.  No page is handed out twice over any sequence of allocations
      and releases, [pmm_init] leaves exactly the unreserved conventional
      pages free, and the skipping run search is first fit.  [paging_init]
      loads tables with the intended translation.  [vmm_map] and [vmm_unmap]
      change exactly one translation, address spaces that share no table do
      not affect each other, creation is described on all branches and
      destruction frees exactly the tables of slots 1 to 510.  [kmalloc] is
      total and returns memory apart from all live blocks; [kfree] keeps the
      heap and the live blocks.
    - Boot.  The loader reaches its jump with the promised state;
      [init_memory] ends with intact tables, heap and shadow buffer or stops
      for lack of memory; both self-tests pass; the first kernel task is
      entered at its entry point on its own stack.
    - Scheduling.  A context switch does what it should on every well-formed
      table, every reachable table is well-formed, a ready task is passed over
      at most fifteen times, interrupt entry and exit restore all registers,
      and a preempted task continues with the registers it had.
    - Processes and system calls.  Spawning on every branch; for a well-formed
      image at free addresses the spawned task enters user mode at the entry
      point under page tables that show image and stack, byte by byte and with
      the flags of the segments, each page in memory of its own; a [write] of a
      part of the image shows what the file holds there; exit and collection,
      unique pids, [sys_write] through the user's page tables, [sys_exit], and
      what the user programs write appears in full.
    - Devices and console.  Keyboard input refines a decoder with a bounded
      queue and reaches the sleeping shell; the console's partial flush equals
      a full one; the shell's line editing refines an abstract editor; the log
      ring holds the last lines; MADT parsing refines its entry list and ACPI
      initialisation ends on any tables; the switch to the APIC routes every
      IRQ; the clock returns the encoded time and its text stays inside the
      buffer; descriptor tables deliver every installed vector.
    - Flaws of the code are theorems too: user tasks lose their registers
      ([user_registers_lost], all user tasks share the TSS stack), a switch
      without a ready task revives an exited one ([switch_revives_current]), a
      key press can be lost ([sleep_misses_key]), [coalesce] merges blocks
      that are not adjacent ([coalesce_swallows_foreign_page]), all address
      spaces share PML4 slot 0 ([slot0_shared]).

    ** Fuel

    Loops with a bound in the source run exactly that often.  The others take
    a fuel argument and panic when it runs out.  Walks of the heap list need
    more fuel than the list has blocks ([kmalloc_spec], [kfree_spec]);
    busy-waiting needs more than the device's bound on consecutive busy polls
    ([Uart]); the MADT loop advances by at least two bytes or stops and table
    lengths have 32 bits, so 2^32 is enough for any tables
    ([acpi_init_terminates]); a clock that is not being updated is read with
    any positive fuel.  The polls of the keyboard controller at start-up and
    the [wait] command of the shell, which wait for another party, take fuel
    without a bound that would suffice for every device or process.

    ** Not modelled

    - boot.S sets the stack pointer and calls [kernel_main]; syscall_entry.S
      is not built and nothing installs it.  [idle_task] and the ends of
      [panic] and of the error paths are [hlt] loops.
    - The stack that compiled C code uses: only interrupt frames and initial
      frames are bytes in memory.  The TLB is a trace of flushed pages.
    - Console messages inside the memory components and the drivers of the
      descriptor tables, and the loader's messages to the firmware console.
    - Interrupts inside a C function: the operations run to their end, as they
      do with interrupts masked, except where a theorem interleaves them
      explicitly ([sleep_misses_key], [preempted_task_resumes]).
    - Commented-out older versions: bootloader.c 1-292, pmm.c 1-183,
      paging.c 1-74, tss.c 1-41, and the files kept under other names. *)

From stdpp Require Import base gmap sets list list_numbers strings.
From Stdlib Require Import ZArith Lia.

#[global] Open Scope Z_scope.

(** ** Machine integers

    A [uintN_t] is a [Z] in [0, 2^N); the wrap-around of the C type is written
    at every operation that can leave the range. *)
Definition u8  (z : Z) : Z := z `mod` 2 ^ 8.
Definition u16 (z : Z) : Z := z `mod` 2 ^ 16.
Definition u32 (z : Z) : Z := z `mod` 2 ^ 32.
Definition u64 (z : Z) : Z := z `mod` 2 ^ 64.

(** [(int)x]: the two's-complement value of the low 32 bits. *)
Definition i32 (z : Z) : Z := (z + 2 ^ 31) `mod` 2 ^ 32 - 2 ^ 31.

Definition PAGE_SIZE : Z := 4096.

(** A C [int] used as a truth value. *)
Definition b2i (b : bool) : Z := if b then 1 else 0.

Create HintDb samos.

(** [arith] is [lia] with division and remainder by constants unfolded. *)
Ltac arith := Z.to_euclidean_division_equations; lia.

(** Reflect boolean integer tests found in the goal or the context. *)
Ltac zb_case :=
  match goal with
  | |- context [?a =? ?b] => destruct (Z.eqb_spec a b)
  | |- context [?a <? ?b] => destruct (Z.ltb_spec a b)
  | |- context [?a <=? ?b] => destruct (Z.leb_spec a b)
  | H : context [?a =? ?b] |- _ => destruct (Z.eqb_spec a b)
  | H : context [?a <? ?b] |- _ => destruct (Z.ltb_spec a b)
  | H : context [?a <=? ?b] |- _ => destruct (Z.leb_spec a b)
  end.

(** ** Facts on machine integers *)
Lemma u64_small z : 0 <= z < 2 ^ 64 → u64 z = z.
Proof. apply Z.mod_small. Qed.

Lemma u8_small z : 0 <= z < 256 → u8 z = z.
Proof. apply Z.mod_small. Qed.

Lemma u64_range z : 0 <= u64 z < 2 ^ 64.
Proof. by apply Z.mod_pos_bound. Qed.

Lemma u8_range z : 0 <= u8 z < 256.
Proof. by apply Z.mod_pos_bound. Qed.

#[export] Hint Resolve u64_range u8_range : samos.

(** ** Bits *)
Lemma testbit_lt z n i : 0 <= z < 2 ^ n → 0 <= n → n <= i → Z.testbit z i = false.
Proof.
  intros Hz Hn Hi. destruct (Z.eq_dec z 0) as [->|Hz0]; [apply Z.bits_0|].
  apply Z.bits_above_log2; [lia|].
  apply Z.lt_le_trans with n; [|lia]. apply Z.log2_lt_pow2; lia.
Qed.

Lemma land_range a b n : 0 <= n → 0 <= a < 2 ^ n → 0 <= Z.land a b < 2 ^ n.
Proof.
  intros Hn Ha.
  assert (0 <= Z.land a b) by (apply Z.land_nonneg; lia).
  split; [done|].
  replace (Z.land a b) with (Z.land (Z.land a b) (Z.ones n)).
  - rewrite Z.land_ones by lia. apply Z.mod_pos_bound. lia.
  - apply Z.bits_inj'. intros i Hi. rewrite !Z.land_spec.
    destruct (Z.lt_ge_cases i n).
    + rewrite (Z.ones_spec_low n i) by lia. by rewrite andb_true_r.
    + by rewrite (testbit_lt a n i).
Qed.

Lemma lor_range a b n :
  0 <= n → 0 <= a < 2 ^ n → 0 <= b < 2 ^ n → 0 <= Z.lor a b < 2 ^ n.
Proof.
  intros Hn Ha Hb.
  assert (0 <= Z.lor a b) by (apply Z.lor_nonneg; lia).
  split; [done|].
  replace (Z.lor a b) with (Z.land (Z.lor a b) (Z.ones n)).
  - rewrite Z.land_ones by lia. apply Z.mod_pos_bound. lia.
  - apply Z.bits_inj'. intros i Hi. rewrite Z.land_spec, Z.lor_spec.
    destruct (Z.lt_ge_cases i n).
    + rewrite (Z.ones_spec_low n i) by lia. by rewrite andb_true_r.
    + by rewrite (testbit_lt a n i), (testbit_lt b n i).
Qed.

(** [x & (1 << k)] is zero exactly when bit [k] of [x] is clear. *)
Lemma land_bit_0 x k : 0 <= k → (Z.land x (Z.shiftl 1 k) =? 0) = negb (Z.testbit x k).
Proof.
  intros Hk. destruct (Z.eqb_spec (Z.land x (Z.shiftl 1 k)) 0) as [E|E].
  - assert (Z.testbit (Z.land x (Z.shiftl 1 k)) k = false) as F by (by rewrite E, Z.bits_0).
    rewrite Z.land_spec, Z.shiftl_spec, Z.sub_diag in F by lia.
    simpl in F. rewrite andb_true_r in F. by rewrite F.
  - destruct (Z.testbit x k) eqn:T; [done|]. exfalso. apply E.
    apply Z.bits_inj'. intros i Hi. rewrite Z.land_spec, Z.bits_0.
    destruct (Z.eq_dec i k) as [->|]; [by rewrite T|].
    rewrite Z.shiftl_1_l, Z.pow2_bits_false by done. by rewrite andb_false_r.
Qed.

(** ** Counting over an initial segment of the naturals *)
Fixpoint countb (f : Z → bool) (n : nat) : Z :=
  match n with
  | O => 0
  | S n' => b2i (f (Z.of_nat n')) + countb f n'
  end.

Lemma countb_ext f g n :
  (∀ i, 0 <= i < Z.of_nat n → f i = g i) → countb f n = countb g n.
Proof.
  induction n as [|n IH]; intros H; [done|]. cbn [countb].
  rewrite H by lia. f_equal. apply IH. intros; apply H; lia.
Qed.

Lemma countb_range f n : 0 <= countb f n <= Z.of_nat n.
Proof. induction n as [|n IH]; cbn [countb]; [lia|]. destruct (f _); simpl; lia. Qed.

(** Changing the predicate at one point changes the count by that point. *)
Lemma countb_upd f g n i :
  0 <= i < Z.of_nat n →
  (∀ j, 0 <= j < Z.of_nat n → j ≠ i → f j = g j) →
  countb g n = countb f n - b2i (f i) + b2i (g i).
Proof.
  induction n as [|n IH]; intros Hi H; [lia|]. cbn [countb].
  destruct (Z.eq_dec i (Z.of_nat n)) as [->|Hne].
  - rewrite (countb_ext g f n); [lia|]. intros j ?. symmetry. apply H; lia.
  - rewrite <-(H (Z.of_nat n)) by lia. rewrite IH by (try lia; intros; apply H; lia). lia.
Qed.

Lemma countb_pos f n : 0 < countb f n → ∃ i, 0 <= i < Z.of_nat n ∧ f i = true.
Proof.
  induction n as [|n IH]; cbn [countb]; [lia|]. intros H.
  destruct (f (Z.of_nat n)) eqn:E; [exists (Z.of_nat n); split; [lia|done]|].
  destruct IH as (i & ? & ?); [simpl in H; lia|]. exists i. split; [lia|done].
Qed.

(** A decidable property of a short range, by computation. *)
Lemma forallb_range (f : Z → bool) n :
  forallb f (seqZ 0 n) = true → ∀ v, 0 <= v < n → f v = true.
Proof. intros H v Hv. rewrite forallb_forall in H. apply H, list_elem_of_In, elem_of_seqZ. lia. Qed.

(** ** Invariants of reachable states *)
Lemma rtc_invariant {A} (R : relation A) (I : A → Prop) x y :
  (∀ x y, R x y → I x → I y) → rtc R x y → I x → I y.
Proof. intros HR. induction 1; eauto. Qed.
