(* ===== verification/Monad.v ===== *)
(** * State and panic

    The kernel's C functions read and write static variables and physical
    memory, and may stop the machine with [panic].  A function is a map from
    the state to an outcome: [Ok a s] (it returned [a] in state [s]) or
    [Panic msg s] ([panic(msg)] was reached in state [s]).  Components live on
    their own state records; [zoom] runs an operation of a component inside a
    larger state through a lens. *)
From stdpp Require Import base list strings.
From S2P Require Import Prelude.

Inductive outcome (S A : Type) : Type :=
| Ok (a : A) (s : S)
| Panic (msg : string) (s : S).
Arguments Ok {S A} a s.
Arguments Panic {S A} msg s.

Definition M (S A : Type) : Type := S → outcome S A.

#[export] Instance M_ret S : MRet (M S) := λ A a s, Ok a s.
#[export] Instance M_bind S : MBind (M S) := λ A B f m s,
  match m s with
  | Ok a s' => f a s'
  | Panic msg s' => Panic msg s'
  end.

Definition gets {S A} (f : S → A) : M S A := λ s, Ok (f s) s.
Definition modify {S} (f : S → S) : M S unit := λ s, Ok tt (f s).

(** A function of the C code that cannot panic, as a state transformer. *)
Definition lift {S A} (f : S → A * S) : M S A := λ s, let '(a, s') := f s in Ok a s'.

(** [panic(message)] and [kassert(condition, message)] of panic.c as their
    callers see them: control never comes back from a failed assertion. *)
Definition panic {S A} (message : string) : M S A := λ s, Panic message s.
Definition kassert {S} (condition : bool) (message : string) : M S unit :=
  if condition then mret tt else panic message.

(** [for (i = i0; i < i0 + n; i++) f(i);] *)
Fixpoint forZ {S} (n : nat) (i : Z) (f : Z → M S unit) : M S unit :=
  match n with
  | O => mret tt
  | Datatypes.S n' => f i ;; forZ n' (i + 1) f
  end.

(** [for (i = a; i < b; i++) f(i);] *)
Definition for_range {S} (a b : Z) (f : Z → M S unit) : M S unit :=
  forZ (Z.to_nat (b - a)) a f.

(** The same loop with a body that may [return] early from the function:
    [false] stops it. *)
Fixpoint for_ok {S} (n : nat) (i : Z) (f : Z → M S bool) : M S bool :=
  match n with
  | O => mret true
  | Datatypes.S n' => b ← f i; if b : bool then for_ok n' (i + 1) f else mret false
  end.

(** ** Running a component inside a larger state *)
Record lens (S T : Type) := Lens { lget : S → T; lset : T → S → S }.
Arguments Lens {S T} _ _.
Arguments lget {S T} _ _.
Arguments lset {S T} _ _ _.

Class LensLaws {S T} (l : lens S T) : Prop := {
  lget_lset : ∀ t s, lget l (lset l t s) = t;
  lset_lget : ∀ s, lset l (lget l s) s = s;
  lset_lset : ∀ t t' s, lset l t (lset l t' s) = lset l t s
}.

Definition zoom {S T A} (l : lens S T) (m : M T A) : M S A := λ s,
  match m (lget l s) with
  | Ok a t => Ok a (lset l t s)
  | Panic msg t => Panic msg (lset l t s)
  end.

(** ** Evaluation lemmas *)
Section eval.
Context {S : Type}.
Implicit Types s : S.

Lemma bind_Ok {A B} (m : M S A) (f : A → M S B) s a s' :
  m s = Ok a s' → (m ≫= f) s = f a s'.
Proof. intros H. unfold mbind, M_bind. by rewrite H. Qed.

Lemma bind_Panic {A B} (m : M S A) (f : A → M S B) s msg s' :
  m s = Panic msg s' → (m ≫= f) s = Panic msg s'.
Proof. intros H. unfold mbind, M_bind. by rewrite H. Qed.

Lemma bind_inv {A B} (m : M S A) (f : A → M S B) s b s'' :
  (m ≫= f) s = Ok b s'' → ∃ a s', m s = Ok a s' ∧ f a s' = Ok b s''.
Proof. unfold mbind, M_bind. destruct (m s) as [a s'|] eqn:E; [eauto|done]. Qed.

Lemma kassert_inv b msg s (a : unit) s' : kassert b msg s = Ok a s' → b = true ∧ s' = s.
Proof. unfold kassert. destruct b; [|done]. by intros [= _ ->]. Qed.

Lemma forZ_app n k i (f : Z → M S unit) s s' :
  forZ n i f s = Ok tt s' → forZ (n + k) i f s = forZ k (i + Z.of_nat n) f s'.
Proof.
  revert i s. induction n as [|n IH]; intros i s; cbn [forZ Nat.add].
  - intros [= ->]. by rewrite Z.add_0_r.
  - intros ([] & s1 & H1 & H2)%bind_inv. rewrite (bind_Ok _ _ _ _ _ H1).
    rewrite (IH _ _ H2). f_equal. lia.
Qed.

(** A loop whose body always returns, under an invariant indexed by the
    loop variable, returns with the invariant at the final value. *)
Lemma forZ_inv (I : Z → S → Prop) n i (f : Z → M S unit) s :
  I i s →
  (∀ j s, i <= j < i + Z.of_nat n → I j s → ∃ s', f j s = Ok tt s' ∧ I (j + 1) s') →
  ∃ s', forZ n i f s = Ok tt s' ∧ I (i + Z.of_nat n) s'.
Proof.
  revert i s. induction n as [|n IH]; intros i s HI Hf.
  - exists s. rewrite Z.add_0_r. done.
  - destruct (Hf i s) as (s1 & H1 & HI1); [lia|done|].
    destruct (IH (i + 1) s1) as (s2 & H2 & HI2); [done| |].
    { intros j t ?. apply Hf. lia. }
    exists s2. cbn [forZ]. rewrite (bind_Ok _ _ _ _ _ H1), H2.
    split; [done|]. by replace (i + Z.of_nat (Datatypes.S n)) with (i + 1 + Z.of_nat n) by lia.
Qed.
End eval.

Lemma zoom_Ok {S T A} (l : lens S T) (m : M T A) s a t :
  m (lget l s) = Ok a t → zoom l m s = Ok a (lset l t s).
Proof. unfold zoom. by intros ->. Qed.

Lemma zoom_inv {S T A} (l : lens S T) (m : M T A) s a s' :
  zoom l m s = Ok a s' → ∃ t, m (lget l s) = Ok a t ∧ s' = lset l t s.
Proof. unfold zoom. destruct (m (lget l s)); [|done]. intros [= -> <-]. eauto. Qed.

(** ** Total correctness

    [wp m Q s]: started in [s], [m] returns (it does not panic) with a result
    and a state that satisfy [Q]. *)
Definition wp {S A} (m : M S A) (Q : A → S → Prop) (s : S) : Prop :=
  match m s with Ok a s' => Q a s' | Panic _ _ => False end.

Section wp.
Context {S : Type}.
Implicit Types s : S.

Lemma wp_Ok {A} (m : M S A) Q s : wp m Q s ↔ ∃ a s', m s = Ok a s' ∧ Q a s'.
Proof.
  unfold wp. destruct (m s) as [a s'|msg s'].
  - split; [eauto|]. by intros (? & ? & [= <- <-] & ?).
  - split; [done|]. by intros (? & ? & ? & ?).
Qed.

Lemma wp_ret {A} (a : A) (Q : A → S → Prop) s : Q a s → wp (mret a) Q s.
Proof. done. Qed.

Lemma wp_gets {A} (f : S → A) (Q : A → S → Prop) s : Q (f s) s → wp (gets f) Q s.
Proof. done. Qed.

Lemma wp_get (Q : S → S → Prop) s : Q s s → wp (gets id) Q s.
Proof. done. Qed.

Lemma wp_modify (f : S → S) (Q : unit → S → Prop) s : Q tt (f s) → wp (modify f) Q s.
Proof. done. Qed.

Lemma wp_bind {A B} (m : M S A) (f : A → M S B) Q s :
  wp m (λ a, wp (f a) Q) s → wp (m ≫= f) Q s.
Proof. unfold wp, mbind, M_bind. by destruct (m s). Qed.

Lemma wp_mono {A} (m : M S A) (Q Q' : A → S → Prop) s :
  wp m Q s → (∀ a s', Q a s' → Q' a s') → wp m Q' s.
Proof. unfold wp. destruct (m s); [auto|done]. Qed.

Lemma wp_forZ (I : Z → S → Prop) n i (f : Z → M S unit) s :
  I i s →
  (∀ j s, i <= j < i + Z.of_nat n → I j s → wp (f j) (λ _, I (j + 1)) s) →
  wp (forZ n i f) (λ _, I (i + Z.of_nat n)) s.
Proof.
  intros HI Hf. apply wp_Ok. destruct (forZ_inv I n i f s HI) as (s' & ? & ?); [|by eauto].
  intros j t Hj Ht. destruct (proj1 (wp_Ok _ _ _) (Hf j t Hj Ht)) as ([] & t' & ? & ?). eauto.
Qed.

Lemma wp_for_range (I : Z → S → Prop) a b (f : Z → M S unit) s :
  a <= b → I a s →
  (∀ j s, a <= j < b → I j s → wp (f j) (λ _, I (j + 1)) s) →
  wp (for_range a b f) (λ _, I b) s.
Proof.
  intros Hab HI Hf. unfold for_range.
  eapply wp_mono; [apply (wp_forZ I)|]; [done| |].
  - intros j t Hj. apply Hf. lia.
  - intros [] t. cbn. by rewrite Z2Nat.id, Zplus_minus by lia.
Qed.
End wp.

(** [mstep] takes the first operation of a sequence apart in a hypothesis. *)
Ltac mstep H :=
  lazymatch type of H with
  | (mbind _ _) _ = Ok _ _ =>
      let a := fresh "a" in let s := fresh "s" in let E := fresh "E" in
      apply bind_inv in H; destruct H as (a & s & E & H)
  | kassert _ _ _ = Ok _ _ => apply kassert_inv in H; destruct H as [? ->]
  end.
