(* ===== verification/Mem.v ===== *)
(** * Physical memory

    The kernel reaches physical memory through an identity map, so a pointer
    is a physical address.  Memory is a finite map from addresses to bytes (an
    address without an entry reads as 0), and 16/32/64-bit accesses are
    little-endian sequences of byte accesses, so that page tables, heap
    headers, the PMM bitmap and loaded program bytes live in one store. *)
From stdpp Require Import base gmap list.
From S2P Require Import Prelude.

Abbreviation memory := (gmap Z Z).

Definition rd8 (m : memory) (a : Z) : Z := u8 (default 0 (m !! a)).
Definition wr8 (m : memory) (a v : Z) : memory := <[a := u8 v]> m.

Fixpoint rdn (m : memory) (a : Z) (n : nat) : Z :=
  match n with
  | O => 0
  | S n' => rd8 m a + 256 * rdn m (a + 1) n'
  end.

Fixpoint wrn (m : memory) (a : Z) (n : nat) (v : Z) : memory :=
  match n with
  | O => m
  | S n' => wrn (wr8 m a v) (a + 1) n' (v / 256)
  end.

Definition rd16 m a := rdn m a 2.
Definition rd32 m a := rdn m a 4.
Definition rd64 m a := rdn m a 8.
Definition wr16 m a v := wrn m a 2 v.
Definition wr32 m a v := wrn m a 4 v.
Definition wr64 m a v := wrn m a 8 v.

(** [for (i = 0; i < n; i++) ((uint8_t* )a)[i] = v;] *)
Fixpoint fill8 (m : memory) (a : Z) (n : nat) (v : Z) : memory :=
  match n with
  | O => m
  | S n' => fill8 (wr8 m a v) (a + 1) n' v
  end.

(** [for (i = 0; i < n; i++) ((uint64_t* )a)[i] = v;] *)
Fixpoint fill64 (m : memory) (a : Z) (n : nat) (v : Z) : memory :=
  match n with
  | O => m
  | S n' => fill64 (wr64 m a v) (a + 8) n' v
  end.

#[global] Arguments rd8 : simpl never.
#[global] Arguments wr8 : simpl never.
#[global] Arguments rd16 : simpl never.
#[global] Arguments rd32 : simpl never.
#[global] Arguments rd64 : simpl never.
#[global] Arguments wr16 : simpl never.
#[global] Arguments wr32 : simpl never.
#[global] Arguments wr64 : simpl never.

(** ** Bytes *)
Lemma rd8_range m a : 0 <= rd8 m a < 256.
Proof. apply u8_range. Qed.
#[export] Hint Resolve rd8_range : samos.

Lemma rd8_wr8 m a v b : rd8 (wr8 m a v) b = if decide (a = b) then u8 v else rd8 m b.
Proof.
  unfold rd8, wr8. rewrite lookup_insert. case_decide; [|done].
  simpl. apply u8_small, u8_range.
Qed.

Lemma rd8_wr8_eq m a v : rd8 (wr8 m a v) a = u8 v.
Proof. rewrite rd8_wr8. by case_decide. Qed.

Lemma rd8_wr8_ne m a v b : a ≠ b → rd8 (wr8 m a v) b = rd8 m b.
Proof. intros. rewrite rd8_wr8. by case_decide. Qed.

(** ** Two memories with the same contents *)
Definition mem_eq (m m' : memory) : Prop := ∀ a, rd8 m a = rd8 m' a.
Infix "≈" := mem_eq (at level 70) : stdpp_scope.

#[export] Instance mem_eq_equivalence : Equivalence mem_eq.
Proof.
  split.
  - by intros m a.
  - by intros m m' H a.
  - intros m1 m2 m3 H1 H2 a. by rewrite H1, H2.
Qed.

#[export] Instance rd8_proper : Proper (mem_eq ==> eq ==> eq) rd8.
Proof. by intros m m' H a ? <-. Qed.

#[export] Instance wr8_proper : Proper (mem_eq ==> eq ==> eq ==> mem_eq) wr8.
Proof. intros m m' H a ? <- v ? <- b. rewrite !rd8_wr8. by case_decide. Qed.

(** ** Agreement outside an address range: what a write leaves alone *)
Definition same_outside (lo hi : Z) (m m' : memory) : Prop :=
  ∀ a, a < lo ∨ hi <= a → rd8 m' a = rd8 m a.

Lemma same_outside_refl lo hi m : same_outside lo hi m m.
Proof. by intros a _. Qed.

Lemma same_outside_trans lo hi m1 m2 m3 :
  same_outside lo hi m1 m2 → same_outside lo hi m2 m3 → same_outside lo hi m1 m3.
Proof. intros H1 H2 a Ha. by rewrite H2, H1. Qed.

Lemma same_outside_weaken lo hi lo' hi' m m' :
  lo' <= lo → hi <= hi' → same_outside lo hi m m' → same_outside lo' hi' m m'.
Proof. intros ?? H a ?. apply H. lia. Qed.

#[export] Hint Resolve same_outside_refl : samos.

(** ** Words *)
Lemma rdn_range m a n : 0 <= rdn m a n < 256 ^ Z.of_nat n.
Proof.
  revert a. induction n as [|n IH]; intros a; [done|]. cbn [rdn].
  rewrite Nat2Z.inj_succ, Z.pow_succ_r by lia.
  pose proof (rd8_range m a). pose proof (IH (a + 1)). lia.
Qed.

Lemma rdn_ext m m' a n :
  (∀ i, a <= i < a + Z.of_nat n → rd8 m' i = rd8 m i) → rdn m' a n = rdn m a n.
Proof.
  revert a. induction n as [|n IH]; intros a H; [done|]. cbn [rdn].
  rewrite H by lia. do 2 f_equal. apply IH. intros i ?. apply H. lia.
Qed.

(** The value read determines the bytes. *)
Lemma rdn_bytes m m' a n :
  rdn m' a n = rdn m a n → ∀ i, a <= i < a + Z.of_nat n → rd8 m' i = rd8 m i.
Proof.
  revert a. induction n as [|n IH]; intros a H i Hi; [lia|]. cbn [rdn] in H.
  pose proof (rd8_range m a). pose proof (rd8_range m' a).
  destruct (decide (i = a)) as [->|]; [lia|]. apply (IH (a + 1)); lia.
Qed.

#[export] Instance rdn_proper : Proper (mem_eq ==> eq ==> eq ==> eq) rdn.
Proof. intros m m' H a ? <- n ? <-. symmetry. by apply rdn_ext. Qed.

Lemma rdn_same_outside lo hi m m' a n :
  same_outside lo hi m m' → a + Z.of_nat n <= lo ∨ hi <= a → rdn m' a n = rdn m a n.
Proof. intros H Ha. apply rdn_ext. intros i ?. apply H. lia. Qed.

Lemma rd8_wrn_out m a n v b :
  b < a ∨ a + Z.of_nat n <= b → rd8 (wrn m a n v) b = rd8 m b.
Proof.
  revert m a v. induction n as [|n IH]; intros m a v H; [done|]. cbn [wrn].
  rewrite IH by lia. apply rd8_wr8_ne. lia.
Qed.

Lemma wrn_same_outside m a n v : same_outside a (a + Z.of_nat n) m (wrn m a n v).
Proof. intros b Hb. apply rd8_wrn_out. lia. Qed.

Lemma rdn_wrn_eq m a n v : rdn (wrn m a n v) a n = v `mod` 256 ^ Z.of_nat n.
Proof.
  revert m a v. induction n as [|n IH]; intros m a v.
  { simpl. by rewrite Z.mod_1_r. }
  cbn [rdn wrn]. rewrite IH, rd8_wrn_out, rd8_wr8_eq by lia.
  rewrite Nat2Z.inj_succ, Z.pow_succ_r by lia.
  rewrite Z.rem_mul_r by lia. unfold u8. change (2 ^ 8) with 256. lia.
Qed.

Lemma rdn_wrn_ne m a n v b k :
  b + Z.of_nat k <= a ∨ a + Z.of_nat n <= b → rdn (wrn m a n v) b k = rdn m b k.
Proof. intros H. apply rdn_ext. intros i ?. apply rd8_wrn_out. lia. Qed.

Lemma rd64_range m a : 0 <= rd64 m a < 2 ^ 64.
Proof. apply (rdn_range m a 8). Qed.
#[export] Hint Resolve rd64_range : samos.

Lemma rd64_wr64_eq m a v : rd64 (wr64 m a v) a = u64 v.
Proof. apply (rdn_wrn_eq m a 8 v). Qed.

Lemma rd64_wr64_ne m a v b : b + 8 <= a ∨ a + 8 <= b → rd64 (wr64 m a v) b = rd64 m b.
Proof. intros. apply rdn_wrn_ne. lia. Qed.

Lemma wr64_same_outside m a v : same_outside a (a + 8) m (wr64 m a v).
Proof. apply (wrn_same_outside m a 8 v). Qed.

Lemma wr8_same_outside m a v : same_outside a (a + 1) m (wr8 m a v).
Proof. intros b ?. apply rd8_wr8_ne. lia. Qed.

Lemma rd64_same_outside lo hi m m' a :
  same_outside lo hi m m' → a + 8 <= lo ∨ hi <= a → rd64 m' a = rd64 m a.
Proof. intros H ?. eapply rdn_same_outside; [done|lia]. Qed.

#[export] Hint Resolve wr64_same_outside wr8_same_outside wrn_same_outside : samos.

(** ** Fills *)
Lemma rd8_fill8 m a n v b :
  rd8 (fill8 m a n v) b =
    if decide (a <= b < a + Z.of_nat n) then u8 v else rd8 m b.
Proof.
  revert m a. induction n as [|n IH]; intros m a; cbn [fill8].
  - case_decide; [lia|done].
  - rewrite IH, rd8_wr8. repeat case_decide; (done || lia).
Qed.

Lemma fill8_same_outside m a n v : same_outside a (a + Z.of_nat n) m (fill8 m a n v).
Proof. intros b ?. rewrite rd8_fill8. case_decide; [lia|done]. Qed.

Lemma rdn_zero m a n : (∀ i, a <= i < a + Z.of_nat n → rd8 m i = 0) → rdn m a n = 0.
Proof.
  revert a. induction n as [|n IH]; intros a H; [done|]. cbn [rdn].
  rewrite H, IH; [done| |lia]. intros i ?. apply H. lia.
Qed.

Lemma fill64_same_outside m a n v :
  same_outside a (a + 8 * Z.of_nat n) m (fill64 m a n v).
Proof.
  revert m a. induction n as [|n IH]; intros m a; cbn [fill64]; [by intros ??|].
  eapply same_outside_trans.
  - eapply (same_outside_weaken a (a + 8)); [lia|lia|]. auto with samos.
  - eapply same_outside_weaken; [| |apply IH]; lia.
Qed.

(** Every word of a zero-filled block reads back as zero. *)
Lemma rd64_fill64 m a n i v :
  0 <= i < Z.of_nat n → rd64 (fill64 m a n v) (a + 8 * i) = u64 v.
Proof.
  revert m a i. induction n as [|n IH]; intros m a i Hi; [lia|]. cbn [fill64].
  destruct (decide (i = 0)) as [->|].
  - rewrite Z.mul_0_r, Z.add_0_r. rewrite <-(rd64_wr64_eq m a v).
    eapply rd64_same_outside; [apply fill64_same_outside|lia].
  - replace (a + 8 * i) with (a + 8 + 8 * (i - 1)) by lia. apply IH. lia.
Qed.

Lemma rd8_wr64_out m a v b : b < a ∨ a + 8 <= b → rd8 (wr64 m a v) b = rd8 m b.
Proof. intros. apply rd8_wrn_out. lia. Qed.

(** ** Copies *)

(** [for (i = 0; i < n; i++) ((uint64_t* )dst)[i] = ((uint64_t* )src)[i];] *)
Fixpoint copy64 (m : memory) (dst src : Z) (n : nat) : memory :=
  match n with
  | O => m
  | S n' => copy64 (wr64 m dst (rd64 m src)) (dst + 8) (src + 8) n'
  end.

(** Storing a word read elsewhere moves its bytes. *)
Lemma rd8_wrn_rdn m m0 a b n j :
  0 <= j < Z.of_nat n → rd8 (wrn m a n (rdn m0 b n)) (a + j) = rd8 m0 (b + j).
Proof.
  revert m a b j. induction n as [|n IH]; intros m a b j Hj; [lia|]. cbn [wrn rdn].
  pose proof (rd8_range m0 b) as Hb.
  destruct (decide (j = 0)) as [->|].
  - rewrite !Z.add_0_r, rd8_wrn_out, rd8_wr8_eq by lia. unfold u8.
    rewrite Z.mul_comm, Z.mod_add by lia. by apply Z.mod_small.
  - replace ((rd8 m0 b + 256 * rdn m0 (b + 1) n) / 256) with (rdn m0 (b + 1) n).
    2: { rewrite Z.mul_comm, Z.div_add, Z.div_small by lia. lia. }
    replace (a + j) with (a + 1 + (j - 1)) by lia. rewrite IH by lia. f_equal. lia.
Qed.

Lemma copy64_same_outside m dst src n :
  same_outside dst (dst + 8 * Z.of_nat n) m (copy64 m dst src n).
Proof.
  revert m dst src. induction n as [|n IH]; intros m dst src; cbn [copy64]; [by intros ??|].
  eapply same_outside_trans.
  - eapply (same_outside_weaken dst (dst + 8)); [lia|lia|]. auto with samos.
  - eapply same_outside_weaken; [| |apply IH]; lia.
Qed.

(** An ascending copy moves the source as it was, when the destination lies
    below the source or past its end. *)
Lemma rd8_copy64 m dst src n j :
  dst <= src ∨ src + 8 * Z.of_nat n <= dst → 0 <= j < 8 * Z.of_nat n →
  rd8 (copy64 m dst src n) (dst + j) = rd8 m (src + j).
Proof.
  revert m dst src j. induction n as [|n IH]; intros m dst src j Hd Hj; [lia|]. cbn [copy64].
  destruct (Z.lt_ge_cases j 8).
  - rewrite copy64_same_outside by lia. apply (rd8_wrn_rdn m m dst src 8). lia.
  - replace (dst + j) with (dst + 8 + (j - 8)) by lia. rewrite IH by lia.
    rewrite rd8_wr64_out by lia. f_equal. lia.
Qed.

(** Words whose bytes agree are equal. *)
Lemma rdn_shift m m' a b n :
  (∀ i, 0 <= i < Z.of_nat n → rd8 m' (a + i) = rd8 m (b + i)) → rdn m' a n = rdn m b n.
Proof.
  revert a b. induction n as [|n IH]; intros a b H; [done|]. cbn [rdn].
  pose proof (H 0) as H0. rewrite !Z.add_0_r in H0. rewrite H0 by lia. do 2 f_equal.
  apply IH. intros i ?. rewrite <-!Z.add_assoc. apply H. lia.
Qed.

Lemma rd32_wr32_eq m a v : rd32 (wr32 m a v) a = u32 v.
Proof. apply (rdn_wrn_eq m a 4 v). Qed.

Lemma rd32_wr32_ne m a v b : b + 4 <= a ∨ a + 4 <= b → rd32 (wr32 m a v) b = rd32 m b.
Proof. intros. apply rdn_wrn_ne. lia. Qed.

Lemma wr32_same_outside m a v : same_outside a (a + 4) m (wr32 m a v).
Proof. apply (wrn_same_outside m a 4 v). Qed.

Lemma rd32_same_outside lo hi m m' a :
  same_outside lo hi m m' → a + 4 <= lo ∨ hi <= a → rd32 m' a = rd32 m a.
Proof. intros H ?. eapply rdn_same_outside; [done|lia]. Qed.

#[export] Hint Resolve wr32_same_outside copy64_same_outside : samos.

#[global] Arguments copy64 : simpl never.
#[global] Arguments fill8 : simpl never.
#[global] Arguments fill64 : simpl never.
