(* ===== verification/Display.v ===== *)
(** * Framebuffer console (kernel/display.c)

    Text is drawn into a shadow buffer in memory; [display_flush] copies the
    rows marked dirty to the framebuffer.  Both buffers live in the physical
    memory of Mem.v.  An access outside a static array ([dirty_rows], the font)
    is undefined in C and is an [undefined] outcome here, so a theorem that an
    operation returns also says that it stays inside them.  Characters are
    byte values; a C string is the list of its characters before the NUL. *)
From stdpp Require Import base gmap list list_numbers strings.
From Stdlib Require Import ZArith Lia.
From S2P Require Import Prelude Monad Mem Font.

Record display := Display {
  dmem : memory;
  sb : Z; fb : Z;
  screen_w : Z; screen_h : Z; pitch : Z;
  cursor_x : Z; cursor_y : Z;
  fg_color : Z; bg_color : Z;
  dirty_rows : list Z; dirty : Z
}.

Definition MAX_ROWS : Z := 2160.

Definition set_dmem (m : memory) (d : display) : display :=
  Display m (sb d) (fb d) (screen_w d) (screen_h d) (pitch d) (cursor_x d) (cursor_y d)
    (fg_color d) (bg_color d) (dirty_rows d) (dirty d).
Definition set_cursor (x y : Z) (d : display) : display :=
  Display (dmem d) (sb d) (fb d) (screen_w d) (screen_h d) (pitch d) x y
    (fg_color d) (bg_color d) (dirty_rows d) (dirty d).
Definition set_dirty (rows : list Z) (v : Z) (d : display) : display :=
  Display (dmem d) (sb d) (fb d) (screen_w d) (screen_h d) (pitch d) (cursor_x d) (cursor_y d)
    (fg_color d) (bg_color d) rows v.

Definition undefined {A} (what : string) : M display A := panic what.

(** [dirty_rows[y] = v] and [dirty_rows[y]]. *)
Definition store_row (y v : Z) : M display unit :=
  if MAX_ROWS <=? y then undefined "dirty_rows out of bounds"
  else modify (λ d, set_dirty (<[Z.to_nat y := v]> (dirty_rows d)) (dirty d) d).
Definition load_row (y : Z) : M display Z :=
  if MAX_ROWS <=? y then undefined "dirty_rows out of bounds"
  else gets (λ d, default 0 (dirty_rows d !! Z.to_nat y)).

(** [dirty = v] *)
Definition store_dirty (v : Z) : M display unit := modify (λ d, set_dirty (dirty_rows d) v d).

(** [p[i] = v] for a [uint32_t] pointer and a [uint32_t] index. *)
Definition store32 (p i v : Z) : M display unit :=
  modify (λ d, set_dmem (wr32 (dmem d) (u64 (p + 4 * i)) v) d).

(** [y * pitch + x] in [uint32_t]. *)
Definition index (d : display) (x y : Z) : Z := u32 (u32 (y * pitch d) + x).

Definition mark_dirty (y : Z) : M display unit := store_row y 1 ;; store_dirty 1.

Definition display_set_shadow (buffer : Z) : M display unit :=
  modify (λ d, Display (dmem d) buffer (fb d) (screen_w d) (screen_h d) (pitch d)
    (cursor_x d) (cursor_y d) (fg_color d) (bg_color d) (dirty_rows d) (dirty d)).

Definition flush_row (y : Z) : M display unit :=
  r ← load_row y;
  if r =? 0 then mret tt else
  modify (λ d,
    let src := u64 (sb d + 4 * u32 (y * pitch d)) in
    let dst := u64 (fb d + 4 * u32 (y * pitch d)) in
    let words := u32 (pitch d * 4) / 8 in
    set_dmem (copy64 (dmem d) dst src (Z.to_nat words)) d) ;;
  store_row y 0.

Definition display_flush : M display unit :=
  d ← gets id;
  if (sb d =? 0) || (fb d =? 0) || (dirty d =? 0) then mret tt else
  for_range 0 (screen_h d) flush_row ;; store_dirty 0.

(** [for (x = 0; x < pitch; x++) p[y * pitch + x] = bg_color;] *)
Definition clear_row (p y : Z) : M display unit :=
  d ← gets id;
  for_range 0 (pitch d) (λ x, store32 p (index d x y) (bg_color d)).

Definition scroll : M display unit :=
  d ← gets id;
  let row_bytes := u32 (pitch d * 4) in
  let src := u64 (sb d + u64 (10 * row_bytes)) in
  let dst := sb d in
  let copy_bytes := u64 (u32 (screen_h d - 10) * row_bytes) in
  modify (λ d, set_dmem (copy64 (dmem d) dst src (Z.to_nat (copy_bytes / 8))) d) ;;
  for_range (u32 (screen_h d - 10)) (screen_h d) (clear_row (sb d)) ;;
  modify (λ d, set_cursor (cursor_x d) (u32 (cursor_y d - 10)) d) ;;
  for_range 0 (screen_h d) (λ y, store_row y 1) ;;
  store_dirty 1.

Definition display_init (framebuffer width height pixels_per_scanline : Z) : M display unit :=
  modify (λ d, Display (dmem d) (sb d) framebuffer width height pixels_per_scanline 0 0
    (fg_color d) (bg_color d) (dirty_rows d) 0) ;;
  for_range 0 height (λ i, store_row i 0).

Definition display_get_height : M display Z := gets screen_h.
Definition display_get_pitch : M display Z := gets pitch.

Definition clear_screen : M display unit :=
  d ← gets id;
  for_range 0 (screen_h d) (clear_row (fb d)).

Definition put_pixel (x y color : Z) : M display unit :=
  d ← gets id;
  if (screen_w d <=? x) || (screen_h d <=? y) then mret tt else
  if negb (sb d =? 0) then store32 (sb d) (index d x y) color ;; mark_dirty y
  else store32 (fb d) (index d x y) color.

(** [font8x8_basic[c][row]] *)
Definition glyph_row (c row : Z) : M display Z :=
  match font8x8_basic !! Z.to_nat c with
  | Some g => mret (default 0 (g !! Z.to_nat row))
  | None => undefined "font8x8_basic out of bounds"
  end.

Definition draw_char (c x y : Z) : M display unit :=
  forZ 8 0 (λ row, forZ 8 0 (λ col,
    bits ← glyph_row (u8 c) row;
    d ← gets id;
    if negb (Z.land bits (Z.shiftl 1 col) =? 0)
    then put_pixel (u32 (x + col)) (u32 (y + row)) (fg_color d)
    else put_pixel (u32 (x + col)) (u32 (y + row)) (bg_color d))).

(** [cursor_x = 0; cursor_y += 10; if (cursor_y + 10 >= screen_h) scroll();] *)
Definition new_line : M display unit :=
  modify (λ d, set_cursor 0 (u32 (cursor_y d + 10)) d) ;;
  d ← gets id;
  if screen_h d <=? u32 (cursor_y d + 10) then scroll else mret tt.

Definition print_char (c : Z) : M display unit :=
  if c =? 10 then new_line
  else if c =? 13 then modify (λ d, set_cursor 0 (cursor_y d) d)
  else if c =? 8 then
    d ← gets id;
    if 8 <=? cursor_x d then
      modify (set_cursor (cursor_x d - 8) (cursor_y d)) ;;
      draw_char 32 (cursor_x d - 8) (cursor_y d)
    else if 10 <=? cursor_y d then
      let x := if 8 <=? screen_w d then screen_w d - 8 else 0 in
      modify (set_cursor x (cursor_y d - 10)) ;;
      draw_char 32 x (cursor_y d - 10)
    else mret tt
  else
    d ← gets id;
    draw_char c (cursor_x d) (cursor_y d) ;;
    modify (λ d, set_cursor (u32 (cursor_x d + 8)) (cursor_y d) d) ;;
    d ← gets id;
    if screen_w d <=? u32 (cursor_x d + 8) then new_line else mret tt.

Fixpoint print (str : list Z) : M display unit :=
  match str with
  | [] => mret tt
  | c :: str' => print_char c ;; print str'
  end.

(** ** Numbers *)

(** [hex[(val >> i) & 0xF]] *)
Definition hex_digit (val i : Z) : Z :=
  let n := Z.land (Z.shiftr val i) 0xF in if n <? 10 then 48 + n else 55 + n.

(** [for (i = 60; i >= 0; i -= 4) print_char(hex[(val >> i) & 0xF]);] *)
Definition hex_chars (val : Z) : list Z := map (λ k, hex_digit val (60 - 4 * k)) (seqZ 0 16).

Definition print_hex (val : Z) : M display unit :=
  print [48; 120] ;; print (hex_chars val).

(** [while (val > 0) { buf[i++] = '0' + val % 10; val /= 10; }] with at most
    [n] places left in [buf]; [None] is a write past its end. *)
Fixpoint dec_buf (n : nat) (val : Z) : option (list Z) :=
  if val <=? 0 then Some []
  else match n with
       | O => None
       | S n' => cons (48 + val `mod` 10) <$> dec_buf n' (val / 10)
       end.

Definition print_dec (val : Z) : M display unit :=
  if val =? 0 then print [48] else
  match dec_buf 32 val with
  | Some buf => print (rev buf)
  | None => undefined "buf out of bounds"
  end.

Definition display_clear : M display unit :=
  d ← gets id;
  if sb d =? 0 then mret tt else
  for_range 0 (screen_h d) (λ y, clear_row (sb d) y ;; store_row y 1) ;;
  store_dirty 1 ;;
  modify (set_cursor 0 0).

(** ** The screen *)
Definition bytes (d : display) : Z := 4 * (pitch d * screen_h d).
Definition row_at (p : Z) (d : display) (y : Z) : Z := p + 4 * (y * pitch d).
Definition pixel (d : display) (x y : Z) : Z := rd32 (dmem d) (row_at (sb d) d y + 4 * x).
Definition clean (d : display) (y : Z) : Prop := default 0 (dirty_rows d !! Z.to_nat y) = 0.

(** The geometry the boot loader reports and the shadow buffer fits: both
    buffers exist, do not overlap and are addressable, a row is a whole number
    of 64-bit words, and the rows fit the dirty map. *)
Record display_wf (d : display) : Prop := {
  dw_sb : 0 < sb d ∧ sb d + bytes d <= 2 ^ 64;
  dw_fb : 0 < fb d ∧ fb d + bytes d <= 2 ^ 64;
  dw_apart : sb d + bytes d <= fb d ∨ fb d + bytes d <= sb d;
  dw_w : 8 <= screen_w d <= pitch d;
  dw_h : 10 < screen_h d <= MAX_ROWS;
  dw_even : pitch d `mod` 2 = 0;
  dw_size : bytes d < 2 ^ 32;
  dw_rows : length (dirty_rows d) = Z.to_nat MAX_ROWS
}.

(** A cell of 8 by 10 pixels at the cursor is on the screen. *)
Definition cursor_ok (d : display) : Prop :=
  0 <= cursor_x d ∧ cursor_x d + 8 <= screen_w d ∧ 0 <= cursor_y d ∧ cursor_y d + 10 < screen_h d.

(** A row that is not marked dirty shows what the shadow buffer holds, and
    nothing is marked while the global flag is clear. *)
Definition synced (d : display) : Prop :=
  (∀ y k, 0 <= y < screen_h d → 0 <= k < 4 * pitch d → clean d y →
     rd8 (dmem d) (row_at (fb d) d y + k) = rd8 (dmem d) (row_at (sb d) d y + k)) ∧
  (dirty d = 0 → ∀ y, 0 <= y < screen_h d → clean d y).

Definition same_screen (d d' : display) : Prop :=
  sb d' = sb d ∧ fb d' = fb d ∧ screen_w d' = screen_w d ∧ screen_h d' = screen_h d ∧
  pitch d' = pitch d ∧ fg_color d' = fg_color d ∧ bg_color d' = bg_color d ∧
  length (dirty_rows d') = length (dirty_rows d).

Lemma same_screen_wf d d' : same_screen d d' → display_wf d → display_wf d'.
Proof.
  intros (E1 & E2 & E3 & E4 & E5 & E6 & E7 & E8) [].
  assert (bytes d' = bytes d) as Eb by (unfold bytes; by rewrite E4, E5).
  split; rewrite ?Eb, ?E1, ?E2, ?E3, ?E4, ?E5, ?E8; done.
Qed.

(** What drawing does: it writes inside the shadow buffer, and a row it leaves
    clean was clean and is unchanged. *)
Record drawn (d d' : display) : Prop := {
  dr_screen : same_screen d d';
  dr_mem : same_outside (sb d) (sb d + bytes d) (dmem d) (dmem d');
  dr_clean : ∀ y, 0 <= y < screen_h d → clean d' y → clean d y ∧
    ∀ k, 0 <= k < 4 * pitch d →
      rd8 (dmem d') (row_at (sb d) d y + k) = rd8 (dmem d) (row_at (sb d) d y + k);
  dr_dirty : dirty d' = 0 → dirty d = 0 ∧ dirty_rows d' = dirty_rows d
}.

#[export] Instance drawn_preorder : PreOrder drawn.
Proof.
  split.
  - intros d. split; [done|by intros ??|done|done].
  - intros d1 d2 d3 [S1 M1 C1 D1] [S2 M2 C2 D2].
    destruct S1 as (E1 & E2 & E3 & E4 & E5 & E6 & E7 & E8), S2 as (F1 & F2 & F3 & F4 & F5 & F6 & F7 & F8).
    assert (bytes d2 = bytes d1) as Eb by (unfold bytes; by rewrite E4, E5).
    unfold row_at in *. rewrite ?E1, ?E4, ?E5, ?Eb in *.
    split.
    + unfold same_screen. split_and!; congruence.
    + by eapply same_outside_trans.
    + intros y Hy Hc. destruct (C2 y Hy Hc) as [Hc2 H2], (C1 y Hy Hc2) as [Hc1 H1].
      split; [done|]. intros k Hk. by rewrite H2, H1.
    + intros Hd. destruct (D2 Hd) as [Hd2 R2], (D1 Hd2) as [Hd1 R1]. by rewrite R2, R1.
Qed.

Section geometry.
Context (d : display) (W : display_wf d).

Lemma row_bound y : 0 <= y < screen_h d → 0 <= y * pitch d ∧ 4 * (y * pitch d) + 4 * pitch d <= bytes d.
Proof. destruct W. unfold bytes. intros. nia. Qed.

Lemma row_apart y y' : y < y' → y * pitch d + pitch d <= y' * pitch d.
Proof. destruct W. intros. nia. Qed.

Lemma index_at x y : 0 <= x < pitch d → 0 <= y < screen_h d → index d x y = y * pitch d + x.
Proof.
  intros Hx Hy. pose proof (row_bound y Hy). pose proof (dw_size _ W).
  unfold index, u32. by rewrite !Z.mod_small by (rewrite ?Z.mod_small by lia; lia).
Qed.

Lemma store_at p x y : 0 < p → p + bytes d <= 2 ^ 64 → 0 <= x < pitch d → 0 <= y < screen_h d →
  u64 (p + 4 * index d x y) = row_at p d y + 4 * x.
Proof.
  intros. pose proof (row_bound y ltac:(lia)). rewrite index_at by lia. unfold row_at.
  rewrite u64_small by lia. lia.
Qed.

Lemma drawn_synced d' : drawn d d' → synced d → synced d'.
Proof.
  intros [(E1 & E2 & E3 & E4 & E5 & E6 & E7 & E8) Hm Hc Hd] [Hs Hn]. unfold synced, row_at in *.
  rewrite E1, E2, E4, E5. destruct W as [Wsb Wfb Wap Ww Wh _ Wsz _]. split.
  - intros y k Hy Hk Hcl. pose proof (row_bound y Hy). destruct (Hc y Hy Hcl) as [Hcl' Hk'].
    rewrite Hk' by done. rewrite <-Hs by done. apply Hm. lia.
  - intros Hd' y Hy. destruct (Hd Hd') as [Hd0 Hr]. unfold clean. rewrite Hr. by apply Hn.
Qed.

(** A write inside row [y] that marks the row. *)
Lemma drawn_row y m' :
  0 <= y < screen_h d →
  same_outside (row_at (sb d) d y) (row_at (sb d) d y + 4 * pitch d) (dmem d) m' →
  drawn d (set_dirty (<[Z.to_nat y := 1]> (dirty_rows d)) 1 (set_dmem m' d)).
Proof.
  intros Hy Hm. pose proof (row_bound y Hy) as Hb. destruct W as [Wsb Wfb Wap Ww Wh _ Wsz Wr].
  unfold MAX_ROWS in *. split; [|..|done]; cbn.
  - unfold same_screen. cbn. by rewrite length_insert.
  - eapply same_outside_weaken; [| |exact Hm]; unfold row_at; lia.
  - intros y' Hy'. unfold clean. cbn. destruct (decide (y' = y)) as [->|Hne].
    + rewrite list_lookup_insert_eq by lia. done.
    + rewrite list_lookup_insert_ne by lia. intros Hcl. split; [done|].
      intros k Hk. apply Hm. unfold row_at.
      destruct (Z.lt_total y y') as [Hl|[?|Hl]]; [|done|]; pose proof (row_apart _ _ Hl); lia.
Qed.
End geometry.

(** ** Operations on one row *)
Lemma wp_store_row y v (Q : unit → display → Prop) d : 0 <= y < MAX_ROWS →
  Q tt (set_dirty (<[Z.to_nat y := v]> (dirty_rows d)) (dirty d) d) → wp (store_row y v) Q d.
Proof. intros Hy HQ. unfold store_row. destruct (Z.leb_spec MAX_ROWS y); [lia|done]. Qed.

Lemma clear_row_wp p y d : display_wf d → 0 < p → p + bytes d <= 2 ^ 64 → 0 <= y < screen_h d →
  wp (clear_row p y) (λ _ d', ∃ m', d' = set_dmem m' d ∧
    same_outside (row_at p d y) (row_at p d y + 4 * pitch d) (dmem d) m' ∧
    ∀ x, 0 <= x < pitch d → rd32 m' (row_at p d y + 4 * x) = u32 (bg_color d)) d.
Proof.
  intros W Hp Hp' Hy. unfold clear_row. apply wp_bind, wp_get.
  pose (I x d' := ∃ m', d' = set_dmem m' d ∧
    same_outside (row_at p d y) (row_at p d y + 4 * pitch d) (dmem d) m' ∧
    ∀ x', 0 <= x' < x → rd32 m' (row_at p d y + 4 * x') = u32 (bg_color d)).
  pose proof (dw_w _ W) as Hw.
  apply (wp_for_range I); [lia| |].
  - exists (dmem d). split_and!; [by destruct d|by intros ??|lia].
  - intros x d' Hx (m' & -> & Hm & Hv). apply wp_modify. rewrite (store_at d W) by lia.
    eexists. split_and!; [reflexivity| |].
    + eapply same_outside_trans; [exact Hm|].
      eapply same_outside_weaken; [| |apply wr32_same_outside]; lia.
    + intros x' Hx'. cbn. destruct (decide (x' = x)) as [->|].
      * apply rd32_wr32_eq.
      * rewrite rd32_wr32_ne by lia. apply Hv. lia.
Qed.

(** Marking all rows. *)
Lemma mark_all_wp v d : display_wf d →
  wp (for_range 0 (screen_h d) (λ y, store_row y v)) (λ _ d', ∃ rows,
    d' = set_dirty rows (dirty d) d ∧ length rows = length (dirty_rows d) ∧
    ∀ y, 0 <= y < screen_h d → rows !! Z.to_nat y = Some v) d.
Proof.
  intros [_ _ _ _ Wh _ _ Wr]. unfold MAX_ROWS in *.
  apply (wp_for_range (λ h d', ∃ rows, d' = set_dirty rows (dirty d) d ∧
    length rows = length (dirty_rows d) ∧ ∀ y, 0 <= y < h → rows !! Z.to_nat y = Some v)); [lia| |].
  - exists (dirty_rows d). split_and!; [by destruct d|done|lia].
  - intros y d' Hy (rows & -> & Hl & Hv). apply wp_store_row; [unfold MAX_ROWS; lia|].
    eexists. split_and!; [reflexivity|by rewrite length_insert|].
    intros y' Hy'. cbn. destruct (decide (y' = y)) as [->|].
    + rewrite list_lookup_insert_eq; [done|lia].
    + rewrite list_lookup_insert_ne by lia. apply Hv. lia.
Qed.

Lemma put_pixel_wp x y c d : display_wf d → 0 <= x < screen_w d → 0 <= y < screen_h d →
  wp (put_pixel x y c) (λ _ d', d' = set_dirty (<[Z.to_nat y := 1]> (dirty_rows d)) 1
    (set_dmem (wr32 (dmem d) (row_at (sb d) d y + 4 * x) c) d)) d.
Proof.
  intros W Hx Hy. pose proof W as [Wsb _ _ Ww Wh _ _ _].
  unfold put_pixel. apply wp_bind, wp_get.
  destruct (Z.leb_spec (screen_w d) x), (Z.leb_spec (screen_h d) y), (Z.eqb_spec (sb d) 0); try lia.
  cbn [orb negb]. apply wp_bind, wp_modify. rewrite (store_at d W) by lia.
  apply wp_bind, wp_store_row; [lia|]. by apply wp_modify.
Qed.

(** ** Glyphs *)

(** The colour of a pixel of a character cell. *)
Definition ink (d : display) (c col row : Z) : Z :=
  if Z.testbit (default 0 (default [] (font8x8_basic !! Z.to_nat c) !! Z.to_nat row)) col
  then u32 (fg_color d) else u32 (bg_color d).

Lemma font_entry c : 0 <= c < 128 → ∃ g, font8x8_basic !! Z.to_nat c = Some g.
Proof.
  intros Hc. destruct (lookup_lt_is_Some_2 font8x8_basic (Z.to_nat c)) as [g ?]; [|eauto].
  replace (length font8x8_basic) with 128%nat by done. lia.
Qed.

Lemma glyph_row_wp c row (Q : Z → display → Prop) d : 0 <= c < 128 →
  Q (default 0 (default [] (font8x8_basic !! Z.to_nat c) !! Z.to_nat row)) d →
  wp (glyph_row c row) Q d.
Proof. intros Hc HQ. unfold glyph_row. destruct (font_entry c Hc) as [g E]. rewrite E in *. exact HQ. Qed.

(** The cell of a drawing in progress: rows before [r] and, in row [r],
    columns before [k] are done. *)
Definition cell_done (c x y r k : Z) (d d' : display) : Prop :=
  drawn d d' ∧ cursor_x d' = cursor_x d ∧ cursor_y d' = cursor_y d ∧
  ∀ px py, 0 <= px < pitch d → 0 <= py < screen_h d →
    pixel d' px py =
      if decide (x <= px < x + 8 ∧ y <= py ∧ (py < y + r ∨ py = y + r ∧ px < x + k))
      then ink d c (px - x) (py - y) else pixel d px py.

Lemma cell_step c x y r k d d' : display_wf d → cell_done c x y r k d d' →
  0 <= c < 128 → 0 <= x → x + 8 <= screen_w d → 0 <= y → y + 8 <= screen_h d → 0 <= r < 8 → 0 <= k < 8 →
  wp (bits ← glyph_row (u8 c) r;
      d ← gets id;
      if negb (Z.land bits (Z.shiftl 1 k) =? 0)
      then put_pixel (u32 (x + k)) (u32 (y + r)) (fg_color d)
      else put_pixel (u32 (x + k)) (u32 (y + r)) (bg_color d))
    (λ _, cell_done c x y r (k + 1) d) d'.
Proof.
  intros W (D & Ecx & Ecy & P) Hc Hx Hx' Hy Hy' Hr Hk.
  pose proof (same_screen_wf _ _ (dr_screen _ _ D) W) as W'.
  pose proof (dr_screen _ _ D) as (E1 & _ & E3 & E4 & E5 & E6 & E7 & _).
  pose proof (dw_size _ W) as Hsz. pose proof (dw_w _ W). pose proof (row_bound d W (y + r) ltac:(lia)).
  pose proof (dw_h _ W) as Hh. unfold MAX_ROWS in Hh.
  assert (u32 (x + k) = x + k) as -> by (apply Z.mod_small; lia).
  assert (u32 (y + r) = y + r) as -> by (apply Z.mod_small; lia).
  rewrite u8_small by lia. apply wp_bind, glyph_row_wp; [done|]. apply wp_bind, wp_get.
  rewrite land_bit_0 by lia. rewrite negb_involutive.
  set (bit := Z.testbit _ k). set (col := if bit then fg_color d' else bg_color d').
  assert (u32 col = ink d c k r) as Hcol.
  { unfold ink, col. fold bit. rewrite <-E6, <-E7. by destruct bit. }
  assert (wp (put_pixel (x + k) (y + r) col) (λ _, cell_done c x y r (k + 1) d) d') as Hwp.
  2: { unfold col in Hwp. by destruct bit. }
  eapply wp_mono; [apply put_pixel_wp; [done|rewrite E3; lia|rewrite E4; lia]|].
  intros [] d2 ->. unfold row_at. rewrite E1, E5. split_and!; [|done..|].
  - etrans; [exact D|].
    apply (drawn_row d' W' (y + r)); [rewrite E4; lia|].
    eapply same_outside_weaken; [| |apply wr32_same_outside]; unfold row_at; rewrite E1, E5; lia.
  - intros px py Hpx Hpy. unfold pixel, row_at in *. cbn. rewrite E1, E5.
    specialize (P px py Hpx Hpy). rewrite E1, E5 in P.
    destruct (decide (py = y + r ∧ px = x + k)) as [[-> ->]|Hne].
    + rewrite rd32_wr32_eq, decide_True by lia. rewrite Hcol. f_equal; lia.
    + rewrite rd32_wr32_ne.
      * rewrite P. apply decide_ext. lia.
      * destruct (Z.lt_total py (y + r)) as [Hl|[->|Hl]]; [pose proof (row_apart d W _ _ Hl); lia|lia|].
        pose proof (row_apart d W _ _ Hl). lia.
Qed.

Lemma cell_done_refl c x y d : cell_done c x y 0 0 d d.
Proof. split_and!; [done..|]. intros px py _ _. rewrite decide_False; [done|lia]. Qed.

Lemma draw_char_wp c x y d : display_wf d → 0 <= c < 128 →
  0 <= x → x + 8 <= screen_w d → 0 <= y → y + 8 <= screen_h d →
  wp (draw_char c x y) (λ _, cell_done c x y 8 0 d) d.
Proof.
  intros W Hc Hx Hx' Hy Hy'. unfold draw_char.
  apply (wp_forZ (λ r, cell_done c x y r 0 d) 8 0); [apply cell_done_refl|].
  intros r d1 Hr D1.
  eapply wp_mono; [apply (wp_forZ (λ k, cell_done c x y r k d) 8 0); [done|]|].
  - intros k d2 Hk D2. by apply cell_step.
  - intros [] d2 (D & Ex & Ey & P). split_and!; [done..|].
    intros px py Hpx Hpy. rewrite (P px py Hpx Hpy). apply decide_ext. lia.
Qed.

(** Drawing a character inside the screen paints its 8 by 8 cell: every
    pixel of the cell takes the foreground colour where the font has a bit
    and the background colour elsewhere, and every other pixel keeps its
    value.  Nothing outside the shadow buffer is written, the cursor does not
    move, and a row left clean is unchanged ([drawn]). *)
Theorem draw_char_spec c x y d : display_wf d → 0 <= c < 128 →
  0 <= x → x + 8 <= screen_w d → 0 <= y → y + 8 <= screen_h d →
  ∃ d', draw_char c x y d = Ok tt d' ∧ drawn d d' ∧
    cursor_x d' = cursor_x d ∧ cursor_y d' = cursor_y d ∧
    ∀ px py, 0 <= px < pitch d → 0 <= py < screen_h d →
      pixel d' px py = if decide (x <= px < x + 8 ∧ y <= py < y + 8)
                       then ink d c (px - x) (py - y) else pixel d px py.
Proof.
  intros W Hc Hx Hx' Hy Hy'.
  destruct (proj1 (wp_Ok _ _ _) (draw_char_wp c x y d W Hc Hx Hx' Hy Hy')) as ([] & d' & E & D & Ex & Ey & P).
  exists d'. split_and!; [done..|].
  intros px py Hpx Hpy. rewrite (P px py Hpx Hpy). apply decide_ext. lia.
Qed.

(** ** Scrolling *)
Definition scrolled (d d' : display) : Prop :=
  drawn d d' ∧ cursor_x d' = cursor_x d ∧ cursor_y d' = u32 (cursor_y d - 10) ∧
  (∀ x y, 0 <= x < pitch d → 0 <= y < screen_h d → pixel d' x y =
     if decide (y < screen_h d - 10) then pixel d x (y + 10) else u32 (bg_color d)) ∧
  (∀ y, 0 <= y < screen_h d → ¬ clean d' y) ∧ dirty d' = 1.

(** The ascending copy of everything below the tenth row. *)
Lemma scroll_copy d x y : display_wf d → 0 <= x < pitch d → 0 <= y < screen_h d - 10 →
  let n := Z.to_nat (u64 (u32 (screen_h d - 10) * u32 (pitch d * 4)) / 8) in
  let src := u64 (sb d + u64 (10 * u32 (pitch d * 4))) in
  let m := copy64 (dmem d) (sb d) src n in
  rd32 m (row_at (sb d) d y + 4 * x) = pixel d x (y + 10).
Proof.
  intros W Hx Hy. pose proof W as [Wsb _ _ Ww Wh We Wsz _]. unfold MAX_ROWS in *.
  pose proof (row_bound d W 10 ltac:(lia)). pose proof (row_bound d W (y + 10) ltac:(lia)).
  pose proof (row_apart d W y (screen_h d - 10) ltac:(lia)).
  assert (u32 (pitch d * 4) = 4 * pitch d) as -> by (unfold u32; rewrite Z.mod_small; lia).
  assert (u32 (screen_h d - 10) = screen_h d - 10) as -> by (apply Z.mod_small; lia).
  assert (u64 (10 * (4 * pitch d)) = 40 * pitch d) as -> by (rewrite u64_small; lia).
  rewrite (u64_small (sb d + _)) by lia.
  assert ((screen_h d - 10) * pitch d = pitch d * screen_h d - 10 * pitch d) as Ep by lia.
  rewrite u64_small by (unfold bytes in *; lia).
  assert (pitch d = 2 * (pitch d / 2)) as Eh by (pose proof (Z.div_mod (pitch d) 2); lia).
  set (q := pitch d / 2) in Eh. assert (0 <= (screen_h d - 10) * q) as Hq by (apply Z.mul_nonneg_nonneg; lia).
  assert (((screen_h d - 10) * (4 * pitch d)) / 8 = (screen_h d - 10) * q) as ->.
  { replace ((screen_h d - 10) * (4 * pitch d)) with ((screen_h d - 10) * q * 8) by (rewrite Eh; ring).
    apply Z.div_mul. lia. }
  set (n := Z.to_nat ((screen_h d - 10) * q)). unfold pixel. apply rdn_shift. intros i Hi.
  assert (8 * Z.of_nat n = 4 * ((screen_h d - 10) * pitch d)) as En.
  { subst n. rewrite Z2Nat.id by done. rewrite Eh at 1. ring. }
  replace (row_at (sb d) d y + 4 * x + i) with (sb d + (4 * (y * pitch d) + 4 * x + i)) by (unfold row_at; lia).
  rewrite rd8_copy64 by (rewrite ?En; lia). f_equal. unfold row_at. lia.
Qed.

Lemma set_dmem_wf m d : display_wf d → display_wf (set_dmem m d).
Proof. by intros []. Qed.

(** Clearing the rows from [lo] on. *)
Lemma clear_rows_wp p lo d : display_wf d → 0 < p → p + bytes d <= 2 ^ 64 → 0 <= lo <= screen_h d →
  wp (for_range lo (screen_h d) (clear_row p)) (λ _ d', ∃ m', d' = set_dmem m' d ∧
    same_outside (row_at p d lo) (p + bytes d) (dmem d) m' ∧
    ∀ x y, 0 <= x < pitch d → lo <= y < screen_h d →
      rd32 m' (row_at p d y + 4 * x) = u32 (bg_color d)) d.
Proof.
  intros W Hp Hp' Hlo.
  apply (wp_for_range (λ h d', ∃ m', d' = set_dmem m' d ∧
    same_outside (row_at p d lo) (p + bytes d) (dmem d) m' ∧
    ∀ x y, 0 <= x < pitch d → lo <= y < h → rd32 m' (row_at p d y + 4 * x) = u32 (bg_color d))); [lia| |].
  - exists (dmem d). split_and!; [by destruct d|by intros ??|lia].
  - intros y d' Hy (m' & -> & Hm & Hv). pose proof (set_dmem_wf m' d W) as W'.
    eapply wp_mono; [by apply clear_row_wp; [..|cbn; lia]|].
    intros [] d' (m2 & -> & Hm2 & Hv2). exists m2. cbn in Hm2, Hv2.
    change (row_at p (set_dmem m' d) y) with (row_at p d y) in *.
    pose proof (row_bound d W y ltac:(lia)). pose proof (row_apart d W (lo - 1) y ltac:(lia)).
    split_and!; [done| |].
    + eapply same_outside_trans; [exact Hm|].
      eapply same_outside_weaken; [| |exact Hm2]; unfold row_at; lia.
    + intros x y' Hx Hy'. destruct (decide (y' = y)) as [->|]; [by apply Hv2|].
      erewrite rd32_same_outside; [apply Hv; lia|exact Hm2|].
      left. pose proof (row_apart d W y' y ltac:(lia)). unfold row_at. lia.
Qed.

Lemma scroll_wp d : display_wf d → wp scroll (λ _, scrolled d) d.
Proof.
  intros W. pose proof W as [Wsb _ _ Ww Wh _ Wsz Wr]. unfold MAX_ROWS in *.
  unfold scroll. apply wp_bind, wp_get. apply wp_bind, wp_modify.
  set (n := Z.to_nat (u64 _ / 8)). set (src := u64 (sb d + _)). set (m1 := copy64 _ _ _ _).
  assert (∀ x y, 0 <= x < pitch d → 0 <= y < screen_h d - 10 →
    rd32 m1 (row_at (sb d) d y + 4 * x) = pixel d x (y + 10)) as Hm1 by (intros; by apply scroll_copy).
  assert (same_outside (sb d) (row_at (sb d) d (screen_h d - 10)) (dmem d) m1) as Ho1.
  { eapply same_outside_weaken; [| |apply copy64_same_outside]; [lia|]. subst n. unfold row_at, u32, u64.
    pose proof (row_bound d W (screen_h d - 10) ltac:(lia)).
    rewrite (Z.mod_small (screen_h d - 10)), (Z.mod_small (pitch d * 4)) by lia.
    rewrite Z.mod_small by lia. rewrite Z2Nat.id by (apply Z.div_pos; lia).
    pose proof (Z.mul_div_le ((screen_h d - 10) * (pitch d * 4)) 8). lia. }
  clearbody m1. clear n src.
  assert (u32 (screen_h d - 10) = screen_h d - 10) as -> by (apply Z.mod_small; lia).
  apply wp_bind. eapply wp_mono.
  { apply (clear_rows_wp (sb d) (screen_h d - 10) (set_dmem m1 d)); [by apply set_dmem_wf|apply Wsb..|cbn; lia]. }
  intros [] d' (m2 & -> & Ho2 & Hv2). apply wp_bind, wp_modify, wp_bind.
  cbn [dmem set_dmem bg_color pitch screen_h] in Ho2, Hv2.
  change (row_at ?p (set_dmem m1 d)) with (row_at p d) in Ho2, Hv2.
  change (bytes (set_dmem m1 d)) with (bytes d) in Ho2.
  eapply wp_mono; [apply (mark_all_wp 1 (set_cursor (cursor_x d) (u32 (cursor_y d - 10)) (set_dmem m2 d))); by destruct W|].
  intros [] d' (rows & -> & Hl & Hr). cbn in Hl, Hr. apply wp_modify.
  assert (same_outside (sb d) (sb d + bytes d) (dmem d) m2) as Ho.
  { pose proof (row_bound d W (screen_h d - 10) ltac:(lia)).
    eapply same_outside_trans; (eapply same_outside_weaken; [| |done]); unfold row_at; lia. }
  assert (∀ y, 0 <= y < screen_h d → default 0 (rows !! Z.to_nat y) ≠ 0) as Hcl by (intros; by rewrite Hr).
  split_and!; [|done|done| |done|done].
  - split; cbn; [done|done| |done]. intros y Hy Hc. by destruct (Hcl y Hy).
  - intros x y Hx Hy. unfold pixel at 1. cbn. case_decide; [|apply Hv2; lia].
    rewrite <-Hm1 by lia. apply (rd32_same_outside _ _ _ _ _ Ho2). left.
    pose proof (row_apart d W y (screen_h d - 10) ltac:(lia)). unfold row_at. cbn [pitch set_dirty set_cursor set_dmem]. lia.
Qed.

(** Scrolling moves the text up by one line: row [y] of the shadow buffer
    takes the pixels of row [y + 10], although the two ranges of the copy
    overlap, the last ten rows are cleared to the background, every row
    becomes dirty and nothing outside the shadow buffer is written. *)
Theorem scroll_spec d : display_wf d →
  ∃ d', scroll d = Ok tt d' ∧ drawn d d' ∧
    (∀ x y, 0 <= x < pitch d → 0 <= y < screen_h d → pixel d' x y =
       if decide (y < screen_h d - 10) then pixel d x (y + 10) else u32 (bg_color d)) ∧
    (∀ y, 0 <= y < screen_h d → ¬ clean d' y) ∧
    (10 <= cursor_y d < 2 ^ 32 → cursor_y d' = cursor_y d - 10).
Proof.
  intros W. destruct (proj1 (wp_Ok _ _ _) (scroll_wp d W)) as ([] & d' & E & D & Ex & Ey & P & C & _).
  exists d'. split_and!; [done..|]. intros Hy. rewrite Ey. apply Z.mod_small. lia.
Qed.

(** ** Printing *)
Lemma drawn_cursor x y d : drawn d (set_cursor x y d).
Proof. by split; [|intros ??| |]. Qed.

Lemma drawn_wf d d' : display_wf d → drawn d d' → display_wf d'.
Proof. intros W D. eapply same_screen_wf; [apply D|done]. Qed.

Lemma new_line_wp d : display_wf d → 0 <= cursor_y d → cursor_y d + 10 < screen_h d →
  wp new_line (λ _ d', drawn d d' ∧ cursor_ok d') d.
Proof.
  intros W Hy Hy'. pose proof (dw_h _ W) as Hh. pose proof (dw_w _ W). unfold MAX_ROWS in Hh.
  unfold new_line. apply wp_bind, wp_modify, wp_bind, wp_get.
  set (d1 := set_cursor 0 _ d). pose proof (drawn_cursor 0 (u32 (cursor_y d + 10)) d : drawn d d1) as D1.
  assert (cursor_y d1 = cursor_y d + 10) as Ecy by (apply Z.mod_small; lia).
  assert (u32 (cursor_y d1 + 10) = cursor_y d + 20) as -> by (rewrite Ecy; unfold u32; rewrite Z.mod_small; lia).
  change (screen_h d1) with (screen_h d). destruct (Z.leb_spec (screen_h d) (cursor_y d + 20)).
  - eapply wp_mono; [apply scroll_wp; by eapply drawn_wf|].
    intros [] d' (D & Ex & Ey & _). split; [by etrans|].
    destruct (dr_screen _ _ D) as (_ & _ & E3 & E4 & _). unfold cursor_ok. rewrite Ex, Ey, Ecy, E3, E4.
    assert (u32 (cursor_y d + 10 - 10) = cursor_y d) as -> by (unfold u32; rewrite Z.mod_small; lia).
    cbn. lia.
  - apply wp_ret. split; [done|]. unfold cursor_ok. rewrite Ecy. cbn. lia.
Qed.

Lemma draw_cursor_wp c d : display_wf d → cursor_ok d → 0 <= c < 128 →
  wp (draw_char c (cursor_x d) (cursor_y d))
     (λ _ d', drawn d d' ∧ cursor_x d' = cursor_x d ∧ cursor_y d' = cursor_y d) d.
Proof.
  intros W (? & ? & ? & ?) Hc. eapply wp_mono; [apply draw_char_wp; (done || lia)|].
  by intros [] d' (? & ? & ? & _).
Qed.

Lemma print_char_wp c d : display_wf d → cursor_ok d → 0 <= c < 128 →
  wp (print_char c) (λ _ d', drawn d d' ∧ cursor_ok d') d.
Proof.
  intros W K Hc. pose proof K as (? & ? & ? & ?). pose proof (dw_w _ W).
  pose proof (row_bound d W 0 ltac:(lia)) as Hb. pose proof (dw_size _ W) as Hsz.
  assert (∀ x y, cursor_ok (set_cursor x y d) →
    wp (draw_char 32 x y) (λ _ d', drawn d d' ∧ cursor_ok d') (set_cursor x y d)) as Hdel.
  { intros x y Kx. eapply wp_mono; [apply (draw_cursor_wp 32 (set_cursor x y d)); [by destruct W|done|lia]|].
    intros [] d' (D & Ex & Ey). split; [etrans; [apply (drawn_cursor x y)|exact D]|].
    destruct (dr_screen _ _ D) as (_ & _ & E3 & E4 & _). unfold cursor_ok in *. by rewrite Ex, Ey, E3, E4. }
  unfold print_char. destruct (Z.eqb_spec c 10); [by apply new_line_wp|].
  destruct (Z.eqb_spec c 13).
  { apply wp_modify. split; [apply drawn_cursor|]. unfold cursor_ok. cbn. lia. }
  destruct (Z.eqb_spec c 8).
  { apply wp_bind, wp_get. destruct (Z.leb_spec 8 (cursor_x d)), (Z.leb_spec 10 (cursor_y d)).
    1-2: apply wp_bind, wp_modify, Hdel; unfold cursor_ok; cbn; lia.
    - destruct (Z.leb_spec 8 (screen_w d)); [|lia].
      apply wp_bind, wp_modify, Hdel. unfold cursor_ok; cbn; lia.
    - by apply wp_ret. }
  apply wp_bind, wp_get, wp_bind. eapply wp_mono; [by apply draw_cursor_wp|].
  intros [] d1 (D1 & Ex & Ey). destruct (dr_screen _ _ D1) as (_ & _ & E3 & E4 & _).
  apply wp_bind, wp_modify, wp_bind, wp_get. set (d2 := set_cursor _ _ d1).
  assert (drawn d d2) as D2 by (etrans; [exact D1|apply drawn_cursor]).
  assert (cursor_x d2 = cursor_x d + 8) as Ex2 by (cbn; rewrite Ex; apply Z.mod_small; lia).
  assert (u32 (cursor_x d2 + 8) = cursor_x d + 16) as -> by (rewrite Ex2; unfold u32; rewrite Z.mod_small; lia).
  change (screen_w d2) with (screen_w d1). rewrite E3. destruct (Z.leb_spec (screen_w d) (cursor_x d + 16)).
  - eapply wp_mono; [apply new_line_wp; [by eapply drawn_wf|cbn; lia..]|].
    intros [] d' [D K']. split; [by etrans|done].
  - apply wp_ret. split; [done|]. unfold cursor_ok. rewrite Ex2. cbn. lia.
Qed.

(** ** Clearing and flushing *)
Lemma display_clear_wp d : display_wf d →
  wp display_clear (λ _ d', same_screen d d' ∧ synced d' ∧ cursor_ok d' ∧
    same_outside (sb d) (sb d + bytes d) (dmem d) (dmem d') ∧
    ∀ x y, 0 <= x < pitch d → 0 <= y < screen_h d → pixel d' x y = u32 (bg_color d)) d.
Proof.
  intros W. pose proof W as [Wsb _ _ Ww Wh _ _ Wr]. unfold MAX_ROWS in *.
  unfold display_clear. apply wp_bind, wp_get. destruct (Z.eqb_spec (sb d) 0); [lia|].
  apply wp_bind. eapply wp_mono.
  { apply (wp_for_range (λ h d', ∃ m' rows, d' = set_dirty rows (dirty d) (set_dmem m' d) ∧
      length rows = length (dirty_rows d) ∧ same_outside (sb d) (sb d + bytes d) (dmem d) m' ∧
      (∀ y, 0 <= y < h → rows !! Z.to_nat y = Some 1) ∧
      ∀ x y, 0 <= x < pitch d → 0 <= y < h →
        rd32 m' (row_at (sb d) d y + 4 * x) = u32 (bg_color d))); [lia| |].
    - exists (dmem d), (dirty_rows d). split_and!; [by destruct d|done|by intros ??|lia..].
    - intros y d' Hy (m' & rows & -> & Hl & Hm & Hr & Hv). set (d' := set_dirty _ _ _).
      assert (display_wf d') as W' by (destruct W; split; cbn; try done; by rewrite Hl).
      apply wp_bind. eapply wp_mono; [apply clear_row_wp; [done|apply Wsb..|cbn; lia]|].
      intros [] d2 (m2 & -> & Hm2 & Hv2). change (row_at ?p d') with (row_at p d) in *.
      change (pitch d') with (pitch d) in *. change (bg_color d') with (bg_color d) in *. cbn in Hm2.
      apply wp_store_row; [unfold MAX_ROWS; lia|]. pose proof (row_bound d W y ltac:(lia)).
      exists m2, (<[Z.to_nat y := 1]> rows). split_and!; [done|by rewrite length_insert|..].
      + eapply same_outside_trans; [exact Hm|].
        eapply same_outside_weaken; [| |exact Hm2]; unfold row_at; lia.
      + intros y' Hy'. destruct (decide (y' = y)) as [->|]; [rewrite list_lookup_insert_eq by lia; done|].
        rewrite list_lookup_insert_ne by lia. apply Hr. lia.
      + intros x y' Hx Hy'. destruct (decide (y' = y)) as [->|]; [by apply Hv2|].
        erewrite rd32_same_outside; [apply Hv; lia|exact Hm2|].
        left. pose proof (row_apart d W y' y ltac:(lia)). unfold row_at. lia. }
  intros [] d' (m' & rows & -> & Hl & Hm & Hr & Hv). apply wp_bind, wp_modify, wp_modify.
  split_and!; [done| |unfold cursor_ok; cbn; lia|done|exact Hv].
  split; [|done]. intros y k Hy _. unfold clean. cbn. by rewrite Hr.
Qed.

(** Row [y] has been handled: it is clean and shows the shadow row; the rows
    after it are as at the start. *)
Definition flushed_to (y : Z) (d d' : display) : Prop :=
  ∃ m rows, d' = set_dirty rows (dirty d) (set_dmem m d) ∧ length rows = length (dirty_rows d) ∧
    same_outside (fb d) (fb d + bytes d) (dmem d) m ∧
    (∀ y' k, 0 <= y' < y → 0 <= k < 4 * pitch d → clean d' y' ∧
       rd8 m (row_at (fb d) d y' + k) = rd8 (dmem d) (row_at (sb d) d y' + k)) ∧
    (∀ y' k, y <= y' < screen_h d → 0 <= k < 4 * pitch d →
       rows !! Z.to_nat y' = dirty_rows d !! Z.to_nat y' ∧
       rd8 m (row_at (fb d) d y' + k) = rd8 (dmem d) (row_at (fb d) d y' + k)).

Lemma flush_words d : display_wf d → 8 * (u32 (pitch d * 4) / 8) = 4 * pitch d.
Proof.
  intros W. pose proof (row_bound d W 0 ltac:(destruct W; lia)). destruct W as [_ _ _ Ww _ We Wsz _].
  unfold u32. rewrite Z.mod_small by lia. arith.
Qed.

Lemma flush_row_wp y d d' : display_wf d → synced d → 0 <= y < screen_h d →
  flushed_to y d d' → wp (flush_row y) (λ _, flushed_to (y + 1) d) d'.
Proof.
  intros W [Sy _] Hy (m & rows & -> & Hl & Hm & Hd & Hr).
  pose proof (row_bound d W y Hy) as Hb. pose proof (flush_words d W) as Hw.
  pose proof W as [Wsb Wfb Wap Ww Wh _ Wsz Wr]. unfold MAX_ROWS in *.
  assert (∀ k, 0 <= k < 4 * pitch d → rd8 m (row_at (sb d) d y + k) = rd8 (dmem d) (row_at (sb d) d y + k)) as Hs.
  { intros k Hk. apply Hm. unfold row_at. lia. }
  unfold flush_row, load_row. apply wp_bind. destruct (Z.leb_spec MAX_ROWS y) as [?|_]; [unfold MAX_ROWS in *; lia|].
  apply wp_gets. cbn [dirty_rows set_dirty]. rewrite (proj1 (Hr y 0 ltac:(lia) ltac:(lia))).
  destruct (Z.eqb_spec (default 0 (dirty_rows d !! Z.to_nat y)) 0) as [Hcl|Hcl].
  - apply wp_ret. exists m, rows. split_and!; [done..| |intros; apply Hr; lia].
    intros y' k Hy' Hk. destruct (decide (y' = y)) as [->|]; [|apply Hd; lia].
    destruct (Hr y k ltac:(lia) Hk) as [Er Ek]. split; [unfold clean; cbn; by rewrite Er|].
    rewrite Ek. by apply Sy.
  - apply wp_bind, wp_modify. cbn [set_dmem set_dirty dmem sb fb pitch].
    assert (u32 (y * pitch d) = y * pitch d) as -> by (apply Z.mod_small; lia).
    rewrite !u64_small by lia. fold (row_at (sb d) d y) (row_at (fb d) d y).
    set (n := Z.to_nat _).
    assert (8 * Z.of_nat n = 4 * pitch d) as Hn by (subst n; rewrite Z2Nat.id; [done|apply Z.div_pos; [apply Z.mod_pos_bound; lia|lia]]).
    pose proof (copy64_same_outside m (row_at (fb d) d y) (row_at (sb d) d y) n) as Hm2.
    apply wp_store_row; [unfold MAX_ROWS; lia|]. eexists _, _. split_and!; [reflexivity|..].
    + cbn. by rewrite length_insert.
    + eapply same_outside_trans; [exact Hm|].
      eapply same_outside_weaken; [| |exact Hm2]; unfold row_at; lia.
    + intros y' k Hy' Hk. unfold clean. cbn. destruct (decide (y' = y)) as [->|].
      * rewrite list_lookup_insert_eq by lia. split; [done|].
        rewrite rd8_copy64 by (unfold row_at; lia). by apply Hs.
      * rewrite list_lookup_insert_ne by lia. destruct (Hd y' k ltac:(lia) Hk) as [Hc' Hk']. split; [done|].
        rewrite <-Hk'. apply Hm2. pose proof (row_apart d W y' y ltac:(lia)). unfold row_at. lia.
    + intros y' k Hy' Hk. cbn. rewrite list_lookup_insert_ne by lia. destruct (Hr y' k ltac:(lia) Hk) as [Er Ek].
      split; [done|]. rewrite <-Ek. apply Hm2. pose proof (row_apart d W y y' ltac:(lia)). unfold row_at. lia.
Qed.

Lemma display_flush_wp d : display_wf d → synced d →
  wp display_flush (λ _ d', same_screen d d' ∧ cursor_x d' = cursor_x d ∧ cursor_y d' = cursor_y d ∧
    same_outside (fb d) (fb d + bytes d) (dmem d) (dmem d') ∧ dirty d' = 0 ∧
    ∀ y k, 0 <= y < screen_h d → 0 <= k < 4 * pitch d → clean d' y ∧
      rd8 (dmem d') (row_at (fb d) d y + k) = rd8 (dmem d) (row_at (sb d) d y + k)) d.
Proof.
  intros W S. pose proof W as [Wsb Wfb _ _ Wh _ _ _].
  unfold display_flush. apply wp_bind, wp_get.
  destruct (Z.eqb_spec (sb d) 0), (Z.eqb_spec (fb d) 0); try lia. cbn [orb].
  destruct (Z.eqb_spec (dirty d) 0) as [Hd|Hd].
  - apply wp_ret. split_and!; [done..|by intros ??|done|]. destruct S as [S1 S2].
    intros y k Hy Hk. split; [by apply S2|]. apply S1; [done..|by apply S2].
  - apply wp_bind. eapply wp_mono; [apply (wp_for_range (λ y, flushed_to y d)); [lia| |]|].
    + exists (dmem d), (dirty_rows d). split_and!; [by destruct d|done|by intros ??|lia|done].
    + intros y d' Hy F. by apply flush_row_wp.
    + intros [] d' (m & rows & -> & Hl & Hm & Hdone & _). apply wp_modify.
      split_and!; [done|done|done|done|done|]. intros y k Hy Hk. by apply Hdone.
Qed.

Lemma flush_synced d d' : display_wf d → same_screen d d' →
  same_outside (fb d) (fb d + bytes d) (dmem d) (dmem d') →
  (∀ y k, 0 <= y < screen_h d → 0 <= k < 4 * pitch d → clean d' y ∧
      rd8 (dmem d') (row_at (fb d) d y + k) = rd8 (dmem d) (row_at (sb d) d y + k)) → synced d'.
Proof.
  intros W (E1 & E2 & _ & E4 & E5 & _) Hm H. pose proof W as [Wsb Wfb Wap _ _ _ _ _].
  unfold synced, row_at in *. rewrite E1, E2, E4, E5. split.
  - intros y k Hy Hk _. rewrite (proj2 (H y k Hy Hk)). symmetry. apply Hm.
    pose proof (row_bound d W y Hy). lia.
  - intros _ y Hy. apply (H y 0); [done|]. destruct W. lia.
Qed.

(** ** Whole runs of the console *)
Inductive console_op := Put (c : Z) | FlushOp | ClearOp.

Definition run_op (o : console_op) : M display unit :=
  match o with Put c => print_char c | FlushOp => display_flush | ClearOp => display_clear end.

Fixpoint run_ops (ops : list console_op) : M display unit :=
  match ops with [] => mret tt | o :: ops' => run_op o ;; run_ops ops' end.

(** Characters of the font. *)
Definition op_ok (o : console_op) : Prop :=
  match o with Put c => 0 <= c < 128 | _ => True end.

Record console_inv (d0 d : display) : Prop := {
  ci_screen : same_screen d0 d;
  ci_wf : display_wf d;
  ci_synced : synced d;
  ci_cursor : cursor_ok d;
  ci_frame : ∀ a, a < sb d0 ∨ sb d0 + bytes d0 <= a → a < fb d0 ∨ fb d0 + bytes d0 <= a →
    rd8 (dmem d) a = rd8 (dmem d0) a
}.

Lemma same_screen_trans d1 d2 d3 : same_screen d1 d2 → same_screen d2 d3 → same_screen d1 d3.
Proof. unfold same_screen. intros. destruct_and!. split_and!; congruence. Qed.

Lemma same_screen_bytes d d' : same_screen d d' → sb d' = sb d ∧ fb d' = fb d ∧ bytes d' = bytes d.
Proof. intros (-> & -> & _ & E4 & E5 & _). unfold bytes. by rewrite E4, E5. Qed.

Lemma run_op_inv d0 d o : op_ok o → console_inv d0 d → wp (run_op o) (λ _, console_inv d0) d.
Proof.
  intros Ho [S W Sy K F]. destruct (same_screen_bytes _ _ S) as (Es & Ef & Eb).
  destruct o as [c| |]; cbn in *.
  - eapply wp_mono; [by apply print_char_wp|]. intros [] d' [D K'].
    split; [eapply same_screen_trans; [done|apply D]|by eapply drawn_wf|by eapply drawn_synced|done|].
    intros a Ha Hb. rewrite <-F by done. apply (dr_mem _ _ D). by rewrite Es, Eb.
  - eapply wp_mono; [by apply display_flush_wp|]. intros [] d' (S' & Ex & Ey & Hm & _ & Hr).
    pose proof S' as (_ & _ & E3 & E4 & _).
    split; [by eapply same_screen_trans|by eapply same_screen_wf|by eapply flush_synced| |].
    + unfold cursor_ok. by rewrite Ex, Ey, E3, E4.
    + intros a Ha Hb. rewrite <-F by done. apply Hm. by rewrite Ef, Eb.
  - eapply wp_mono; [by apply display_clear_wp|]. intros [] d' (S' & Sy' & K' & Hm & _).
    split; [by eapply same_screen_trans|by eapply same_screen_wf|done|done|].
    intros a Ha Hb. rewrite <-F by done. apply Hm. by rewrite Es, Eb.
Qed.

Lemma run_ops_inv d0 d ops : Forall op_ok ops → console_inv d0 d →
  wp (run_ops ops) (λ _, console_inv d0) d.
Proof.
  intros Hops. revert d. induction Hops as [|o ops Ho Hops IH]; intros d I; [done|].
  apply wp_bind. eapply wp_mono; [by apply run_op_inv|]. intros [] d' I'. by apply IH.
Qed.

(** Rows cover the buffer. *)
Lemma row_of_byte d k : display_wf d → 0 <= k < bytes d →
  let y := k / (4 * pitch d) in 0 <= y < screen_h d ∧
  0 <= k - 4 * (y * pitch d) < 4 * pitch d.
Proof.
  intros [_ _ _ Ww Wh _ _ _] Hk. unfold bytes in Hk. cbn zeta.
  pose proof (Z.mul_div_le k (4 * pitch d) ltac:(lia)). pose proof (Z.mod_pos_bound k (4 * pitch d) ltac:(lia)).
  pose proof (Z.div_mod k (4 * pitch d) ltac:(lia)).
  split; [|lia]. split; [apply Z.div_pos; lia|]. apply Z.div_lt_upper_bound; lia.
Qed.


(** ** Numbers *)
Fixpoint dec_value (digits : list Z) : Z :=
  match digits with [] => 0 | c :: l => (c - 48) + 10 * dec_value l end.

Lemma dec_buf_spec n val : 0 <= val < 10 ^ Z.of_nat n →
  ∃ l, dec_buf n val = Some l ∧ dec_value l = val ∧ Forall (λ c, 48 <= c < 58) l ∧
    (length l <= n)%nat ∧ (0 < val → ∃ l' c, l = l' ++ [c] ∧ c ≠ 48).
Proof.
  revert val. induction n as [|n IH]; intros val Hv.
  - exists []. cbn in *. destruct (Z.leb_spec val 0); [|lia]. split_and!; [done|lia|done|done|lia].
  - cbn [dec_buf]. destruct (Z.leb_spec val 0).
    + exists []. split_and!; [done|cbn; lia|done|cbn; lia|lia].
    + rewrite Nat2Z.inj_succ, Z.pow_succ_r in Hv by lia.
      destruct (IH (val / 10)) as (l & E & Ev & Hd & Hl & Hlast).
      { split; [apply Z.div_pos; lia|apply Z.div_lt_upper_bound; lia]. }
      rewrite E. cbn. eexists. split_and!; [reflexivity|cbn; rewrite Ev; arith| |cbn; lia|].
      * constructor; [arith|done].
      * intros _. destruct (Z.le_gt_cases (val / 10) 0).
        -- assert (l = []) as ->. { destruct n; cbn in E; destruct (Z.leb_spec (val / 10) 0); by simplify_eq || lia. }
           exists [], (48 + val `mod` 10). split; [done|arith].
        -- destruct Hlast as (l' & c & -> & Hc); [lia|]. by exists ((48 + val `mod` 10) :: l'), c.
Qed.

(** More room changes nothing. *)
Lemma dec_buf_more n k val l : dec_buf n val = Some l → dec_buf (n + k) val = Some l.
Proof.
  revert val l. induction n as [|n IH]; intros val l; cbn [dec_buf Nat.add].
  - destruct (Z.leb_spec val 0); [|done]. intros [= <-]. destruct k; cbn [dec_buf]; by destruct (Z.leb_spec val 0); [|lia].
  - destruct (Z.leb_spec val 0); [done|]. intros (l' & E & ->)%fmap_Some. by rewrite (IH _ _ E).
Qed.

(** [print_dec] of any 64-bit value prints a decimal numeral of that
    value: at most 20 digits, so the 32-byte buffer never overflows, without
    a leading zero except for 0 itself, and reading the printed digits back
    gives the value. *)
Theorem print_dec_numeral val : 0 <= val < 2 ^ 64 →
  ∃ l, (∀ d, print_dec val d = print l d) ∧ dec_value (rev l) = val ∧
    Forall (λ c, 48 <= c < 58) l ∧ (1 <= length l <= 20)%nat ∧
    (head l = Some 48 → val = 0).
Proof.
  intros Hv. destruct (decide (val = 0)) as [->|Hne].
  { exists [48]. split_and!; [done|done|by apply Forall_singleton|cbn; lia|cbn; lia|done]. }
  destruct (dec_buf_spec 20 val) as (l & E & Ev & Hd & Hl & Hlast); [lia|].
  destruct Hlast as (l' & c & -> & Hc); [lia|].
  exists (rev (l' ++ [c])). split_and!.
  - intros d. unfold print_dec. destruct (Z.eqb_spec val 0); [done|].
    pose proof (dec_buf_more 20 12 val _ E) as E'. cbn [Nat.add] in E'. by rewrite E'.
  - by rewrite rev_involutive.
  - by apply Forall_rev.
  - rewrite length_rev, length_app. cbn. lia.
  - by rewrite length_rev.
  - rewrite rev_app_distr. cbn. by intros [= ->].
Qed.

(** ** Examples *)

(** A screen of 16 by 12 pixels. *)
Definition ex_screen : display :=
  Display ∅ 0x1000 0x2000 16 12 16 0 0 0x00FFFFFF 0x00303030 (replicate (Z.to_nat MAX_ROWS) 0) 0.

Lemma ex_screen_wf : display_wf ex_screen.
Proof. split; vm_compute; intuition congruence. Qed.

Lemma draw_char_spec_witness : display_wf ex_screen ∧
  ∃ d', draw_char 65 8 2 ex_screen = Ok tt d' ∧ pixel d' 9 3 = ink ex_screen 65 1 1.
Proof.
  split; [exact ex_screen_wf|].
  destruct (draw_char_spec 65 8 2 ex_screen ex_screen_wf) as (d' & E & _ & _ & _ & P); [cbn; lia..|].
  exists d'. split; [exact E|]. rewrite P by (cbn; lia). reflexivity.
Defined.

Lemma scroll_spec_witness : display_wf ex_screen ∧
  ∃ d', scroll ex_screen = Ok tt d' ∧ pixel d' 3 11 = 0x00303030.
Proof.
  split; [exact ex_screen_wf|]. destruct (scroll_spec ex_screen ex_screen_wf) as (d' & E & _ & P & _).
  exists d'. split; [exact E|]. rewrite P by (cbn; lia). reflexivity.
Defined.


Lemma print_dec_numeral_witness : ∃ l, (∀ d, print_dec 2026 d = print l d) ∧ dec_value (rev l) = 2026.
Proof.
  destruct (print_dec_numeral 2026) as (l & H & V & _); [lia|]. by exists l.
Defined.

(** A character beyond the font, which [sys_write] passes on from user space,
    is read past the end of the table. *)
Lemma print_char_beyond_font c d : 128 <= c < 256 → ∃ d', print_char c d = Panic "font8x8_basic out of bounds" d'.
Proof.
  intros Hc. exists d. unfold print_char.
  destruct (Z.eqb_spec c 10), (Z.eqb_spec c 13), (Z.eqb_spec c 8); try lia.
  unfold draw_char, mbind, M_bind, gets. cbn [forZ]. unfold mbind, M_bind, glyph_row.
  rewrite u8_small by lia. rewrite lookup_ge_None_2; [done|].
  replace (length font8x8_basic) with 128%nat by done. lia.
Qed.
