(* ===== verification/Cbuf.v ===== *)
(** * Character arrays

    A C routine that fills a [char] array keeps the array and a position; a
    store past the end of the array is undefined, here [None]. *)
From stdpp Require Import base list strings.
From Stdlib Require Import ZArith Lia.
From S2P Require Import Prelude.

(** [out[p++] = c;] *)
Definition emit (c : Z) (s : list Z * Z) : option (list Z * Z) :=
  let '(out, p) := s in
  if p <? Z.of_nat (length out) then Some (<[Z.to_nat p := c]> out, p + 1) else None.

Fixpoint emits (cs : list Z) (s : list Z * Z) : option (list Z * Z) :=
  match cs with [] => Some s | c :: cs' => s' ← emit c s; emits cs' s' end.

(** [for (i = 0; cs[i] && p < lim; i++) out[p++] = cs[i];] *)
Fixpoint emit_while (lim : Z) (cs : list Z) (s : list Z * Z) : option (list Z * Z) :=
  match cs with
  | [] => Some s
  | c :: cs' => if snd s <? lim then s' ← emit c s; emit_while lim cs' s' else Some s
  end.

(** The string an array holds: the characters before the first NUL. *)
Fixpoint cstr (out : list Z) : list Z :=
  match out with [] => [] | c :: out' => if c =? 0 then [] else c :: cstr out' end.

Section array.
Context (out : list Z).

(** The array after [w] has been written to its front. *)
Definition wrote (w : list Z) : list Z * Z := (w ++ drop (length w) out, Z.of_nat (length w)).

Lemma emit_wrote c w : (length w < length out)%nat → emit c (wrote w) = Some (wrote (w ++ [c])).
Proof.
  intros Hw. unfold emit, wrote. rewrite length_app, length_drop.
  destruct (Z.ltb_spec (Z.of_nat (length w)) (Z.of_nat (length w + (length out - length w)))); [|lia].
  do 2 f_equal; [|rewrite length_app; cbn; lia]. rewrite Nat2Z.id.
  rewrite <-(Nat.add_0_r (length w)) at 1. rewrite insert_app_r, <-app_assoc. f_equal.
  destruct (drop (length w) out) as [|x l] eqn:E.
  { apply (f_equal length) in E. rewrite length_drop in E. cbn in E. lia. }
  cbn. f_equal. rewrite length_app. cbn. rewrite <-drop_drop, E. done.
Qed.

Lemma emits_wrote cs w : (length w + length cs <= length out)%nat →
  emits cs (wrote w) = Some (wrote (w ++ cs)).
Proof.
  revert w. induction cs as [|c cs IH]; intros w Hw; cbn [emits]; [by rewrite app_nil_r|].
  cbn [length] in Hw. rewrite emit_wrote by lia. cbn. rewrite IH by (rewrite length_app; cbn; lia).
  by rewrite <-app_assoc.
Qed.

Lemma emit_while_wrote lim cs w : (lim <= length out)%nat → (length w <= lim)%nat →
  emit_while (Z.of_nat lim) cs (wrote w) = Some (wrote (w ++ take (lim - length w) cs)).
Proof.
  intros Hl. revert w. induction cs as [|c cs IH]; intros w Hw; cbn [emit_while].
  - by rewrite take_nil, app_nil_r.
  - cbn [snd wrote]. destruct (Z.ltb_spec (Z.of_nat (length w)) (Z.of_nat lim)).
    + rewrite emit_wrote by lia. cbn [mbind option_bind]. rewrite IH by (rewrite length_app; cbn; lia).
      rewrite length_app. cbn [length]. replace (lim - length w)%nat with (S (lim - (length w + 1))) by lia.
      cbn [take]. by rewrite <-app_assoc.
    + replace (lim - length w)%nat with O by lia. by rewrite app_nil_r.
Qed.
End array.

Lemma cstr_wrote w out : Forall (λ c, c ≠ 0) w → cstr (w ++ 0 :: out) = w.
Proof.
  induction 1 as [|c w Hc Hw IH]; [done|]. cbn. destruct (Z.eqb_spec c 0); [done|]. by rewrite IH.
Qed.
