(* ===== verification/Devices.v ===== *)
(** * Ports, device registers and model-specific registers (kernel/io.h, mmio.h)

    The processor's I/O instructions act on hardware that is outside the
    program.  The hardware is a type of states with one function per
    instruction; drivers are programs over any such [machine].  What a driver
    relies on is stated next to it as a class of the machine. *)
From stdpp Require Import base list strings.
From Stdlib Require Import ZArith Lia.
From S2P Require Import Prelude Monad.

Record machine (D : Type) := Machine {
  in8 : Z → D → Z * D;
  out8 : Z → Z → D → D;
  in16 : Z → D → Z * D;
  out16 : Z → Z → D → D;
  read32 : Z → D → Z * D;
  write32 : Z → Z → D → D;
  read_msr : Z → D → Z * D;
  write_msr : Z → Z → D → D
}.
Arguments Machine {D}.
Arguments in8 {D}.
Arguments out8 {D}.
Arguments in16 {D}.
Arguments out16 {D}.
Arguments read32 {D}.
Arguments write32 {D}.
Arguments read_msr {D}.
Arguments write_msr {D}.

Section io.
Context {D : Type} (hw : machine D).

Definition inb (port : Z) : M D Z := v ← lift (in8 hw port); mret (u8 v).
Definition outb (port val : Z) : M D unit := modify (out8 hw port (u8 val)).
Definition inw (port : Z) : M D Z := v ← lift (in16 hw port); mret (u16 v).
Definition outw (port val : Z) : M D unit := modify (out16 hw port (u16 val)).
Definition io_wait : M D unit := outb 0x80 0.
Definition mmio_read32 (addr : Z) : M D Z := v ← lift (read32 hw addr); mret (u32 v).
Definition mmio_write32 (addr val : Z) : M D unit := modify (write32 hw addr (u32 val)).
Definition rdmsr (msr : Z) : M D Z := v ← lift (read_msr hw msr); mret (u64 v).
Definition wrmsr (msr val : Z) : M D unit := modify (write_msr hw msr (u64 val)).
End io.

(** A polling loop [while (cond()) {}] that is given [fuel] polls. *)
Fixpoint poll {S} (fuel : nat) (cond : M S bool) : M S unit :=
  match fuel with
  | O => panic "polled too often"
  | Datatypes.S fuel' => b ← cond; if b : bool then poll fuel' cond else mret tt
  end.
