(* ===== verification/Rtc.v ===== *)
(** * CMOS real-time clock (kernel/rtc.c)

    The clock is read through an index port and a data port, twice in a row
    until two samples agree.  The registers may be in BCD or binary and in 12
    or 24 hour form; the decoded time is compared here with an encoder of the
    register formats.  The busy-wait loops take a fuel argument. *)
From stdpp Require Import base list list_numbers strings.
From Stdlib Require Import ZArith Lia.
From S2P Require Import Prelude Monad Cbuf Devices.

Record RtcDateTime := MkDateTime {
  year : Z; month : Z; day : Z; hour : Z; minute : Z; second : Z
}.

#[export] Instance RtcDateTime_eq_dec : EqDecision RtcDateTime.
Proof. solve_decision. Defined.

Definition bcd_to_bin (v : Z) : Z := u8 (Z.land v 0x0F + Z.shiftr v 4 * 10).

Definition decode_hour (raw : Z) (is_bcd is_24h : bool) : Z :=
  let pm := negb (Z.land raw 0x80 =? 0) in
  let hour := Z.land raw 0x7F in
  let hour := if is_bcd then bcd_to_bin hour else hour in
  if is_24h then hour else
  let hour := if pm && (hour <? 12) then u8 (hour + 12) else hour in
  if negb pm && (hour =? 12) then 0 else hour.

Definition dt_equal (a b : RtcDateTime) : bool :=
  (year a =? year b) && (month a =? month b) && (day a =? day b) &&
  (hour a =? hour b) && (minute a =? minute b) && (second a =? second b).

(** [rtc_read_datetime] from the accepted sample on. *)
Definition rtc_decode (cur : RtcDateTime) (reg_b : Z) : RtcDateTime :=
  let is_bcd := Z.land reg_b 0x04 =? 0 in
  let is_24h := negb (Z.land reg_b 0x02 =? 0) in
  let conv v := if is_bcd then bcd_to_bin v else v in
  let y := if is_bcd then bcd_to_bin (u8 (year cur)) else year cur in
  MkDateTime (u16 (2000 + y `mod` 100)) (conv (month cur)) (conv (day cur))
    (decode_hour (hour cur) is_bcd is_24h) (conv (minute cur)) (conv (second cur)).

Section rtc.
Context {D : Type} (hw : machine D) (fuel : nat).

Definition cmos_read (reg : Z) : M D Z :=
  outb hw 0x70 (u8 (Z.lor reg 0x80)) ;; inb hw 0x71.

Definition rtc_is_updating : M D bool :=
  a ← cmos_read 0x0A; mret (negb (Z.land a 0x80 =? 0)).

Definition rtc_read_raw : M D (RtcDateTime * Z) :=
  s ← cmos_read 0x00;
  mi ← cmos_read 0x02;
  h ← cmos_read 0x04;
  d ← cmos_read 0x07;
  mo ← cmos_read 0x08;
  y ← cmos_read 0x09;
  b ← cmos_read 0x0B;
  mret (MkDateTime y mo d h mi s, b).

(** [while (1) { ... }]: the sample that equals the one before it. *)
Fixpoint rtc_sample (n : nat) (prev : RtcDateTime) : M D (RtcDateTime * Z) :=
  match n with
  | O => panic "sampled too often"
  | Datatypes.S n' =>
      poll fuel rtc_is_updating ;;
      r ← rtc_read_raw;
      if dt_equal prev (fst r) then mret r else rtc_sample n' (fst r)
  end.

(** The time is the result; the C function stores it through [out] and
    returns 0 when [out] is NULL. *)
Definition rtc_read_datetime : M D RtcDateTime :=
  poll fuel rtc_is_updating ;;
  r ← rtc_read_raw;
  r' ← rtc_sample fuel (fst r);
  mret (rtc_decode (fst r') (snd r')).
End rtc.

(** ** Formatting (the caller's array as in Cbuf.v) *)
Definition append_2 (max value : Z) (s : list Z * Z) : option (list Z * Z) :=
  if max <=? u32 (snd s + 2) then Some s else
  emits [48 + (value / 10) `mod` 10; 48 + value `mod` 10] s.

Definition append_4 (max value : Z) (s : list Z * Z) : option (list Z * Z) :=
  if max <=? u32 (snd s + 4) then Some s else
  emits [48 + (value / 1000) `mod` 10; 48 + (value / 100) `mod` 10;
         48 + (value / 10) `mod` 10; 48 + value `mod` 10] s.

(** [if (p + 1 < out_len) out[p++] = c;] *)
Definition append_1 (max c : Z) (s : list Z * Z) : option (list Z * Z) :=
  if u32 (snd s + 1) <? max then emit c s else Some s.

(** [rtc_format(dt, out, out_len)]; [dt] may be a null pointer. *)
Definition rtc_format (dt : option RtcDateTime) (out : list Z) (out_len : Z) : option (list Z) :=
  if out_len =? 0 then Some out else
  match dt with
  | None => fst <$> emit 0 (out, 0)
  | Some dt =>
      s ← append_4 out_len (year dt) (out, 0);
      s ← append_1 out_len 45 s;
      s ← append_2 out_len (month dt) s;
      s ← append_1 out_len 45 s;
      s ← append_2 out_len (day dt) s;
      s ← append_1 out_len 32 s;
      s ← append_2 out_len (hour dt) s;
      s ← append_1 out_len 58 s;
      s ← append_2 out_len (minute dt) s;
      s ← append_1 out_len 58 s;
      s ← append_2 out_len (second dt) s;
      let '(out, p) := s in
      fst <$> emit 0 (out, if out_len <=? p then out_len - 1 else p)
  end.

(** ** Formatted text *)
Definition two (v : Z) : list Z := [48 + (v / 10) `mod` 10; 48 + v `mod` 10].
Definition four (v : Z) : list Z :=
  [48 + (v / 1000) `mod` 10; 48 + (v / 100) `mod` 10; 48 + (v / 10) `mod` 10; 48 + v `mod` 10].

(** [YYYY-MM-DD hh:mm:ss] *)
Definition timestamp (dt : RtcDateTime) : list Z :=
  four (year dt) ++ [45] ++ two (month dt) ++ [45] ++ two (day dt) ++ [32] ++
  two (hour dt) ++ [58] ++ two (minute dt) ++ [58] ++ two (second dt).

Section format.
Context (out : list Z) (max : Z).
Context (Hmax : 0 < max <= Z.of_nat (length out)) (Hlen : Z.of_nat (length out) < 2 ^ 32 - 4).

(** One guarded append of [cs]: nothing when there is no room for it and the
    terminator. *)
Definition guarded (k : Z) (cs : list Z) (s : list Z * Z) : option (list Z * Z) :=
  if max <=? u32 (snd s + k) then Some s else emits cs s.

Lemma guarded_wrote cs w : Z.of_nat (length w) < max → Z.of_nat (length cs) <= 4 →
  ∃ w', guarded (Z.of_nat (length cs)) cs (wrote out w) = Some (wrote out w') ∧ Z.of_nat (length w') < max ∧
    (Z.of_nat (length w + length cs) < max → w' = w ++ cs).
Proof.
  intros Hw Hc. unfold guarded. cbn [snd wrote].
  replace (u32 _) with (Z.of_nat (length w) + Z.of_nat (length cs)) by (symmetry; apply Z.mod_small; lia).
  destruct (Z.leb_spec max (Z.of_nat (length w) + Z.of_nat (length cs))).
  - exists w. split_and!; [done|done|lia].
  - exists (w ++ cs). rewrite emits_wrote by lia. split_and!; [done|rewrite length_app; lia|done].
Qed.

Lemma append_1_guarded c s : append_1 max c s = guarded (Z.of_nat (length [c])) [c] s.
Proof.
  unfold append_1, guarded. change (Z.of_nat (length [c])) with 1. rewrite Z.ltb_antisym. destruct (max <=? u32 (snd s + 1)); [done|].
  cbn. by destruct (emit c s).
Qed.

(** The chunks of a timestamp, appended in turn. *)
Fixpoint chunks (css : list (list Z)) (s : list Z * Z) : option (list Z * Z) :=
  match css with [] => Some s | cs :: css' => s' ← guarded (Z.of_nat (length cs)) cs s; chunks css' s' end.

Lemma chunks_wrote css w : Z.of_nat (length w) < max → Forall (λ cs, Z.of_nat (length cs) <= 4) css →
  ∃ w', chunks css (wrote out w) = Some (wrote out w') ∧ Z.of_nat (length w') < max ∧
    (Z.of_nat (length w + length (concat css)) < max → w' = w ++ concat css).
Proof.
  intros Hw Hcs. revert w Hw. induction Hcs as [|cs css Hc Hcs IH]; intros w Hw; cbn [chunks concat].
  - exists w. split_and!; [done|done|by rewrite app_nil_r].
  - destruct (guarded_wrote cs w Hw Hc) as (w1 & E & H1 & Hw1). rewrite E. cbn.
    destruct (IH w1 H1) as (w' & E' & H' & Hw'). exists w'. split_and!; [done|done|].
    rewrite length_app. intros Hl. rewrite Hw1 in Hw' by lia. rewrite <-app_assoc in Hw'. apply Hw'.
    rewrite length_app. lia.
Qed.
End format.

Ltac format_step E :=
  let s := fresh "s" in let H := fresh "H" in
  apply bind_Some in E as (s & H & E);
  first [rewrite append_1_guarded
        |lazymatch goal with
         | |- append_2 ?m ?v ?s0 ≫= _ = _ => change (append_2 m v s0) with (guarded m (Z.of_nat (length (two v))) (two v) s0)
         | |- append_4 ?m ?v ?s0 ≫= _ = _ => change (append_4 m v s0) with (guarded m (Z.of_nat (length (four v))) (four v) s0)
         end];
  rewrite H; cbn [mbind option_bind].

(** The pieces of a timestamp. *)
Definition pieces (dt : RtcDateTime) : list (list Z) :=
  [four (year dt); [45]; two (month dt); [45]; two (day dt); [32];
   two (hour dt); [58]; two (minute dt); [58]; two (second dt)].

Lemma rtc_format_run dt out out_len :
  0 < out_len <= Z.of_nat (length out) → Z.of_nat (length out) < 2 ^ 32 - 4 →
  ∃ w, rtc_format (Some dt) out out_len = Some (w ++ 0 :: drop (S (length w)) out) ∧
    Z.of_nat (length w) < out_len ∧ (Z.of_nat (length (timestamp dt)) < out_len → w = timestamp dt).
Proof.
  intros Hmax Hlen.
  destruct (chunks_wrote out out_len Hmax Hlen (pieces dt) []) as (w & E & Hw & Ht); [cbn; lia|by repeat constructor|].
  exists w. split_and!; [|done|exact Ht].
  unfold rtc_format. destruct (Z.eqb_spec out_len 0); [lia|].
  change (out, 0) with (wrote out []). cbn [chunks pieces] in E. do 11 format_step E.
  injection E as ->. cbn [wrote]. destruct (Z.leb_spec out_len (Z.of_nat (length w))); [lia|].
  fold (wrote out w). rewrite emit_wrote by lia. cbn. rewrite length_app, Nat.add_1_r. cbn.
  by rewrite <-app_assoc.
Qed.

(** C39. [rtc_format] never writes outside the given length and always leaves
    a terminated string there: the array is some text, a NUL within
    [out_len], and its old contents after that.  With room for twenty bytes
    the text is the full timestamp of nineteen characters. *)
Theorem rtc_format_spec dt out out_len :
  0 < out_len <= Z.of_nat (length out) → Z.of_nat (length out) < 2 ^ 32 - 4 →
  ∃ w, rtc_format (Some dt) out out_len = Some (w ++ 0 :: drop (S (length w)) out) ∧
    Z.of_nat (length w) < out_len ∧ (20 <= out_len → w = timestamp dt).
Proof.
  intros Hmax Hlen. destruct (rtc_format_run dt out out_len Hmax Hlen) as (w & E & Hw & Ht).
  exists w. split_and!; [done|done|]. intros. apply Ht. cbn. lia.
Qed.

(** ** Reading the clock *)

(** The register formats of the clock chip. *)
Definition enc (bcd : bool) (v : Z) : Z := if bcd then 16 * (v / 10) + v `mod` 10 else v.
Definition enc_hour (bcd h24 : bool) (h : Z) : Z :=
  if h24 then enc bcd h
  else enc bcd (if h `mod` 12 =? 0 then 12 else h `mod` 12) + (if 12 <=? h then 0x80 else 0).

Definition valid_time (t : RtcDateTime) : Prop :=
  2000 <= year t < 2100 ∧ 0 <= month t < 100 ∧ 0 <= day t < 100 ∧
  0 <= hour t < 24 ∧ 0 <= minute t < 100 ∧ 0 <= second t < 100.

(** The time registers hold [t] in the mode that register B selects, and no
    update is in progress. *)
Definition cmos_holds (regs : Z → Z) (t : RtcDateTime) : Prop :=
  let bcd := Z.land (regs 0x0B) 0x04 =? 0 in
  let h24 := negb (Z.land (regs 0x0B) 0x02 =? 0) in
  regs 0x00 = enc bcd (second t) ∧ regs 0x02 = enc bcd (minute t) ∧
  regs 0x04 = enc_hour bcd h24 (hour t) ∧ regs 0x07 = enc bcd (day t) ∧
  regs 0x08 = enc bcd (month t) ∧ regs 0x09 = enc bcd (year t - 2000) ∧
  Z.land (regs 0x0A) 0x80 = 0 ∧ 0 <= regs 0x0A < 256 ∧ 0 <= regs 0x0B < 256.

(** A clock chip between two updates: reading the data port after selecting
    a register (bit 7 of the index is the NMI mask) gives that register, and
    reading does not disturb it. *)
Class CmosStable {D} (hw : machine D) (regs : Z → Z) (I : D → Prop) : Prop :=
  cmos_data : ∀ v d, I d → ∃ d',
    in8 hw 0x71 (out8 hw 0x70 v d) = (regs (Z.land v 0x7F), d') ∧ I d'.

Lemma dec_enc (bcd : bool) v : 0 <= v < 100 → (if bcd then bcd_to_bin (enc bcd v) else enc bcd v) = v.
Proof.
  destruct bcd; [|done]. intros Hv. apply Z.eqb_eq. revert v Hv.
  apply (forallb_range (λ v, bcd_to_bin (enc true v) =? v)). by vm_compute.
Qed.

Lemma enc_range bcd v : 0 <= v < 100 → 0 <= enc bcd v < 256.
Proof. intros. unfold enc. destruct bcd; [|lia]. arith. Qed.

Lemma dec_enc_hour bcd h24 h : 0 <= h < 24 → decode_hour (enc_hour bcd h24 h) bcd h24 = h.
Proof.
  intros Hh. apply Z.eqb_eq. revert h Hh.
  apply (forallb_range (λ h, decode_hour (enc_hour bcd h24 h) bcd h24 =? h)). by destruct bcd, h24; vm_compute.
Qed.

Lemma enc_hour_range bcd h24 h : 0 <= h < 24 → 0 <= enc_hour bcd h24 h < 256.
Proof.
  intros Hh. assert ((0 <=? enc_hour bcd h24 h) && (enc_hour bcd h24 h <? 256) = true) as H.
  { revert h Hh. apply (forallb_range (λ h, (0 <=? enc_hour bcd h24 h) && (enc_hour bcd h24 h <? 256))).
    by destruct bcd, h24; vm_compute. }
  apply andb_prop in H as [? ?]. lia.
Qed.

(** The raw sample such registers give. *)
Definition raw_of (regs : Z → Z) : RtcDateTime :=
  MkDateTime (regs 0x09) (regs 0x08) (regs 0x07) (regs 0x04) (regs 0x02) (regs 0x00).

Lemma rtc_decode_raw regs t : valid_time t → cmos_holds regs t →
  rtc_decode (raw_of regs) (regs 0x0B) = t.
Proof.
  intros (Hy & Hmo & Hd & Hh & Hmi & Hs) (Es & Emi & Eh & Ed & Emo & Ey & _).
  unfold rtc_decode, raw_of. cbn. rewrite Es, Emi, Eh, Ed, Emo, Ey.
  rewrite !dec_enc, dec_enc_hour by lia. destruct t as [y mo dd h mi s]. cbn in *. f_equal.
  rewrite u8_small by (apply enc_range; lia). rewrite (dec_enc _ (y - 2000)) by lia.
  rewrite Z.mod_small by lia. unfold u16. rewrite Z.mod_small; lia.
Qed.

Section read.
Context {D : Type} (hw : machine D) (regs : Z → Z) (I : D → Prop) `{!CmosStable hw regs I}.
Context (t : RtcDateTime) (Ht : valid_time t) (Hr : cmos_holds regs t).

Lemma cmos_read_wp reg (Q : Z → D → Prop) d : I d → 0 <= reg < 0x80 → 0 <= regs reg < 256 →
  (∀ d', I d' → Q (regs reg) d') → wp (cmos_read hw reg) Q d.
Proof.
  intros HI Hreg Hv HQ. unfold cmos_read. apply wp_bind, wp_modify.
  assert (u8 (u8 (Z.lor reg 0x80)) = Z.lor reg 0x80 ∧ Z.land (Z.lor reg 0x80) 0x7F = reg) as [-> E].
  { assert ((u8 (u8 (Z.lor reg 0x80)) =? Z.lor reg 0x80) && (Z.land (Z.lor reg 0x80) 0x7F =? reg) = true) as H.
    { revert reg Hreg Hv HQ. intros reg Hreg _ _. revert reg Hreg.
      apply (forallb_range (λ reg, (u8 (u8 (Z.lor reg 0x80)) =? Z.lor reg 0x80) && (Z.land (Z.lor reg 0x80) 0x7F =? reg))).
      by vm_compute. }
    apply andb_prop in H as [? ?]. lia. }
  destruct (cmos_data (Z.lor reg 0x80) d HI) as (d' & E' & HI').
  unfold inb. apply wp_bind. unfold wp, lift. rewrite E', E. apply wp_ret. rewrite u8_small by done. by apply HQ.
Qed.

Lemma poll_wp fuel (Q : unit → D → Prop) d : (0 < fuel)%nat → I d → (∀ d', I d' → Q tt d') →
  wp (poll fuel (rtc_is_updating hw)) Q d.
Proof.
  intros Hf HI HQ. destruct fuel as [|fuel]; [lia|]. destruct Hr as (_ & _ & _ & _ & _ & _ & Ha & Ha' & _).
  cbn [poll]. unfold rtc_is_updating. apply wp_bind, wp_bind, cmos_read_wp; [done|lia|done|].
  intros d' HI'. apply wp_ret. rewrite Ha. cbn. by apply HQ.
Qed.

Lemma rtc_read_raw_wp (Q : RtcDateTime * Z → D → Prop) d : I d →
  (∀ d', I d' → Q (raw_of regs, regs 0x0B) d') → wp (rtc_read_raw hw) Q d.
Proof.
  intros HI HQ. destruct Hr as (Es & Emi & Eh & Ed & Emo & Ey & _ & _ & Hb), Ht as (Hy & Hmo & Hd & Hh & Hmi & Hs).
  unfold rtc_read_raw.
  do 6 (apply wp_bind, cmos_read_wp;
    [done|lia|rewrite ?Es, ?Emi, ?Eh, ?Ed, ?Emo, ?Ey; first [apply enc_hour_range; lia|apply enc_range; lia]|intros ? ?]).
  apply wp_bind, cmos_read_wp; [done|lia|done|intros ? ?]. apply wp_ret. by apply HQ.
Qed.

Lemma rtc_read_datetime_wp fuel (Q : RtcDateTime → D → Prop) d : (0 < fuel)%nat → I d →
  (∀ d', I d' → Q t d') → wp (rtc_read_datetime hw fuel) Q d.
Proof.
  intros Hf HI HQ. unfold rtc_read_datetime. apply wp_bind, poll_wp; [done..|]. intros d1 H1.
  apply wp_bind, rtc_read_raw_wp; [done|]. intros d2 H2. apply wp_bind.
  destruct fuel as [|fuel]; [lia|]. cbn [rtc_sample fst].
  apply wp_bind, poll_wp; [lia|done|]. intros d3 H3. apply wp_bind, rtc_read_raw_wp; [done|].
  intros d4 H4. cbn [fst]. unfold dt_equal. rewrite !Z.eqb_refl. cbn [andb].
  apply wp_ret, wp_ret. cbn [fst snd]. rewrite (rtc_decode_raw regs t) by done. by apply HQ.
Qed.

(** C38. The clock is read right.  Whatever mode register B selects (BCD or
    binary, 12 or 24 hours), when the chip is between updates and its
    registers encode the time [t] of the years 2000 to 2099,
    [rtc_read_datetime] returns exactly [t], after one poll and two samples
    each. *)
Theorem rtc_read_datetime_correct fuel d : (0 < fuel)%nat → I d →
  ∃ d', rtc_read_datetime hw fuel d = Ok t d' ∧ I d'.
Proof.
  intros Hf HI. assert (wp (rtc_read_datetime hw fuel) (λ r d', r = t ∧ I d') d) as H
    by (by apply rtc_read_datetime_wp).
  apply wp_Ok in H as (r & d' & E & -> & H'). eauto.
Qed.
End read.

(** ** Examples *)

(** A clock chip that keeps its index and holds 2026-07-04 21:05:09 in BCD,
    12 hour mode. *)
Definition ex_regs (r : Z) : Z :=
  default 0 ([9; 0; 5; 0; 0x89; 0; 0; 4; 7; 0x26] !! Z.to_nat r).
Definition ex_cmos : machine Z :=
  Machine (λ _ i, (ex_regs i, i)) (λ _ v _, Z.land v 0x7F) (λ _ i, (0, i)) (λ _ _ i, i)
    (λ _ i, (0, i)) (λ _ _ i, i) (λ _ i, (0, i)) (λ _ _ i, i).
Definition ex_time : RtcDateTime := MkDateTime 2026 7 4 21 5 9.

Lemma ex_cmos_stable : CmosStable ex_cmos ex_regs (λ _, True).
Proof. intros v d _. by eexists. Qed.

Lemma rtc_read_datetime_correct_witness : cmos_holds ex_regs ex_time ∧
  ∃ d', rtc_read_datetime ex_cmos 1 0 = Ok ex_time d' ∧ True.
Proof.
  assert (cmos_holds ex_regs ex_time) as H by (vm_compute; intuition congruence).
  split; [exact H|].
  apply (rtc_read_datetime_correct ex_cmos ex_regs (λ _, True) (CmosStable0 := ex_cmos_stable) ex_time);
    [vm_compute; intuition congruence|exact H|lia|exact I].
Defined.

Lemma rtc_format_spec_witness : ∃ w, rtc_format (Some ex_time) (replicate 24 7) 24 = Some (w ++ 0 :: drop (S (length w)) (replicate 24 7)) ∧
  w = timestamp ex_time.
Proof.
  destruct (rtc_format_spec ex_time (replicate 24 7) 24) as (w & E & _ & Ht); [cbn; lia..|].
  exists w. split; [exact E|]. apply Ht. lia.
Defined.
