(* ===== verification/Klog.v ===== *)
(** * Kernel log: serial line and log ring (kernel/serial.c, klog.c, panic.c)

    A log line goes to the screen, to the serial port and into a ring of 64
    lines of 96 bytes that [klog_dump_recent] shows.  The text given to the
    screen is recorded as it is printed; the serial port is a device of
    Devices.v.  Busy-waiting for the port takes a fuel argument. *)
From stdpp Require Import base list list_numbers strings.
From Stdlib Require Import ZArith Lia.
From S2P Require Import Prelude Monad Cbuf Devices Display.

Definition COM1 : Z := 0x3F8.
Definition KLOG_RING_LINES : Z := 64.
Definition KLOG_LINE_MAX : Z := 96.

Record klog (D : Type) := Klog {
  dev : D;
  serial_ready : bool;
  g_ring : list (list Z);
  g_ring_head : Z;
  g_ring_count : Z;
  g_last_panic : list Z;
  screen : list Z
}.
Arguments Klog {D}.
Arguments dev {D}.
Arguments serial_ready {D}.
Arguments g_ring {D}.
Arguments g_ring_head {D}.
Arguments g_ring_count {D}.
Arguments g_last_panic {D}.
Arguments screen {D}.

(** The characters of a C string literal. *)
Definition chars (s : string) : list Z := map (λ a, Z.of_N (Ascii.N_of_ascii a)) (String.list_ascii_of_string s).

Section klog.
Context {D : Type} (hw : machine D) (fuel : nat).

Definition dev_lens : lens (klog D) D :=
  Lens dev (λ d s, Klog d (serial_ready s) (g_ring s) (g_ring_head s) (g_ring_count s) (g_last_panic s) (screen s)).
Definition on_dev {A} (m : M D A) : M (klog D) A := zoom dev_lens m.

(** ** serial.c *)
Definition serial_init : M (klog D) unit :=
  on_dev (outb hw (COM1 + 1) 0x00 ;;
          outb hw (COM1 + 3) 0x80 ;;
          outb hw (COM1 + 0) 0x03 ;;
          outb hw (COM1 + 1) 0x00 ;;
          outb hw (COM1 + 3) 0x03 ;;
          outb hw (COM1 + 2) 0xC7 ;;
          outb hw (COM1 + 4) 0x0B) ;;
  modify (λ s, Klog (dev s) true (g_ring s) (g_ring_head s) (g_ring_count s) (g_last_panic s) (screen s)).

(** [while ((inb(COM1 + 5) & 0x20) == 0) {}  outb(COM1, c);] *)
Definition transmit (c : Z) : M D unit :=
  poll fuel (v ← inb hw (COM1 + 5); mret (Z.land v 0x20 =? 0)) ;;
  outb hw COM1 (u8 c).

Definition serial_write_char (c : Z) : M (klog D) unit :=
  r ← gets serial_ready;
  if negb r then mret tt else
  (if c =? 10 then on_dev (transmit 13) else mret tt) ;;
  on_dev (transmit c).

Fixpoint serial_puts (str : list Z) : M (klog D) unit :=
  match str with [] => mret tt | c :: str' => serial_write_char c ;; serial_puts str' end.

(** A null pointer is [None]. *)
Definition serial_write (str : option (list Z)) : M (klog D) unit :=
  match str with None => mret tt | Some str => serial_puts str end.

Definition serial_write_hex (value : Z) : M (klog D) unit :=
  serial_puts (chars "0x") ;; serial_puts (hex_chars value).

Definition serial_write_dec (value : Z) : M (klog D) unit :=
  if value =? 0 then serial_write_char 48 else
  match dec_buf 32 value with
  | Some buf => serial_puts (rev buf)
  | None => panic "buf out of bounds"
  end.

(** ** The screen *)
Definition put_screen (str : list Z) : M (klog D) unit :=
  modify (λ s, Klog (dev s) (serial_ready s) (g_ring s) (g_ring_head s) (g_ring_count s) (g_last_panic s)
    (screen s ++ str)).

(** [print(str)], which dereferences its argument. *)
Definition print_str (str : option (list Z)) : M (klog D) unit :=
  match str with None => panic "null dereference" | Some str => put_screen str end.

(** ** klog.c *)
Definition message_or_null (message : option (list Z)) : list Z := default (chars "(null)") message.

(** The line of the ring, from its old contents. *)
Definition ring_line (level : list Z) (message : option (list Z)) (out : list Z) : option (list Z) :=
  s ← emit 91 (out, 0);
  s ← emit_while (KLOG_LINE_MAX - 2) level s;
  s ← emit 93 s;
  s ← (if snd s <? KLOG_LINE_MAX - 1 then emit 32 s else Some s);
  s ← emit_while (KLOG_LINE_MAX - 1) (message_or_null message) s;
  fst <$> emit 0 s.

Definition ring_write_line (level : list Z) (message : option (list Z)) : M (klog D) unit :=
  s ← gets id;
  match g_ring s !! Z.to_nat (g_ring_head s) ≫= ring_line level message with
  | None => panic "g_ring out of bounds"
  | Some out =>
      modify (λ s, Klog (dev s) (serial_ready s)
        (<[Z.to_nat (g_ring_head s) := out]> (g_ring s))
        (u32 (g_ring_head s + 1) `mod` KLOG_RING_LINES)
        (if g_ring_count s <? KLOG_RING_LINES then g_ring_count s + 1 else g_ring_count s)
        (g_last_panic s) (screen s))
  end.

Definition klog_prefix (level : list Z) : M (klog D) unit :=
  put_screen (chars "[") ;; put_screen level ;; put_screen (chars "] ") ;;
  serial_puts (chars "[") ;; serial_puts level ;; serial_puts (chars "] ").

Definition newline : list Z := [10].

Definition klog_line (level : list Z) (message : option (list Z)) : M (klog D) unit :=
  ring_write_line level message ;;
  klog_prefix level ;;
  print_str message ;;
  put_screen newline ;;
  serial_write message ;;
  serial_puts newline.

Definition klog_init : M (klog D) unit :=
  serial_init ;; serial_puts (newline ++ chars "[INFO] serial online" ++ newline).

Definition klog_info := klog_line (chars "INFO").
Definition klog_warn := klog_line (chars "WARN").
Definition klog_error := klog_line (chars "ERROR").
Definition klog_panic := klog_line (chars "PANIC").

(** The characters [print_hex] and [print_dec] show (display.c). *)
Definition hex_text (value : Z) : list Z := [48; 120] ++ hex_chars value.
Definition dec_text (value : Z) : list Z :=
  if value =? 0 then [48] else rev (default [] (dec_buf 32 value)).

Definition klog_hex (value : Z) : M (klog D) unit :=
  put_screen (hex_text value) ;; serial_write_hex value.
Definition klog_dec (value : Z) : M (klog D) unit :=
  put_screen (dec_text value) ;; serial_write_dec value.
Definition klog_newline : M (klog D) unit := put_screen newline ;; serial_puts newline.

Definition dump_line (start i : Z) : M (klog D) unit :=
  let idx := u32 (start + i) `mod` KLOG_RING_LINES in
  l ← gets (λ s, default [] (g_ring s !! Z.to_nat idx));
  put_screen (cstr l) ;; put_screen newline.

Definition klog_dump_recent (limit : Z) : M (klog D) unit :=
  s ← gets id;
  if g_ring_count s =? 0 then put_screen (chars "dmesg: empty" ++ newline) else
  let limit := if (limit =? 0) || (g_ring_count s <? limit) then g_ring_count s else limit in
  let start := u32 (g_ring_head s + KLOG_RING_LINES - limit) `mod` KLOG_RING_LINES in
  for_range 0 limit (dump_line start).

(** ** The last panic message (panic.c) *)
Definition panic_store_last (message : option (list Z)) : M (klog D) unit :=
  s ← gets id;
  match (r ← emit_while (128 - 1) (message_or_null message) (g_last_panic s, 0); fst <$> emit 0 r) with
  | None => panic "g_last_panic out of bounds"
  | Some buf =>
      modify (λ s, Klog (dev s) (serial_ready s) (g_ring s) (g_ring_head s) (g_ring_count s) buf (screen s))
  end.

Definition panic_get_last : M (klog D) (list Z) := gets (λ s, cstr (g_last_panic s)).
End klog.

(** ** What is logged *)
Definition crlf (str : list Z) : list Z := concat (map (λ c, if c =? 10 then [13; 10] else [c]) str).
Definition line_text (l : list Z * list Z) : list Z := [91] ++ fst l ++ [93; 32] ++ snd l ++ [10].
Definition line_kept (l : list Z * list Z) : list Z := take 95 ([91] ++ take 93 (fst l) ++ [93; 32] ++ snd l).

Lemma crlf_app a b : crlf (a ++ b) = crlf a ++ crlf b.
Proof. unfold crlf. by rewrite map_app, concat_app. Qed.

Lemma ring_line_spec level message out : length out = 96%nat →
  let w := line_kept (level, message_or_null message) in
  ring_line level message out = Some (w ++ 0 :: drop (S (length w)) out).
Proof.
  intros Hl. cbn zeta. unfold ring_line, line_kept. cbn [fst snd]. set (msg := message_or_null message).
  change (out, 0) with (wrote out []). rewrite emit_wrote by (cbn; lia). cbn [mbind option_bind app].
  rewrite (emit_while_wrote out 94) by (cbn; lia). cbn [mbind option_bind length]. change (94 - 1)%nat with 93%nat.
  change ([91] ++ take 93 level)%list with (91 :: take 93 level)%list. set (w := (91 :: take 93 level)%list).
  assert (1 <= length w <= 94)%nat as Hw by (subst w; cbn [length]; rewrite length_take; lia).
  change (91 :: take 93 level ++ 93 :: 32 :: msg)%list with (w ++ [93; 32] ++ msg)%list. clearbody w.
  rewrite emit_wrote by lia. cbn [mbind option_bind]. cbn [snd wrote].
  assert (∃ w2, (if Z.of_nat (length (w ++ [93])) <? KLOG_LINE_MAX - 1 then emit 32 (wrote out (w ++ [93]))
    else Some (wrote out (w ++ [93]))) = Some (wrote out w2) ∧ (length w2 <= 95)%nat ∧
    w2 ++ take (95 - length w2) msg = take 95 (w ++ [93; 32] ++ msg))%list as (w2 & -> & Hw2 & Hmsg).
  { unfold KLOG_LINE_MAX. destruct (Z.ltb_spec (Z.of_nat (length (w ++ [93]))) (96 - 1)) as [H|H];
      rewrite length_app in H; cbn [length] in H.
    - exists (w ++ [93; 32])%list. rewrite emit_wrote by (rewrite length_app; cbn; lia). rewrite <-app_assoc.
      split_and!; [done|rewrite length_app; cbn; lia|].
      rewrite app_assoc, (take_app_ge (w ++ [93; 32])) by (rewrite length_app; cbn; lia). done.
    - exists (w ++ [93])%list. assert (length w = 94%nat) as E by lia. rewrite length_app, E.
      split_and!; [done|cbn; lia|]. rewrite take_app_ge, E by lia. by rewrite app_nil_r. }
  cbn [mbind option_bind]. rewrite (emit_while_wrote out 95) by lia. cbn [mbind option_bind]. rewrite Hmsg.
  set (r := take 95 _). assert (length r <= 95)%nat by (subst r; rewrite length_take; lia).
  rewrite emit_wrote by lia. cbn. rewrite length_app, Nat.add_1_r. by rewrite <-app_assoc.
Qed.

(** ** The serial port

    A transmitter that reports (bit 5 of the line status register) when it
    can take a character, is busy for a bounded number of polls after one, and
    sends the characters written to it in order. *)
Class Uart {D} (hw : machine D) (sent : D → list Z) (busy : D → nat) (bound : nat) (I : D → Prop) : Prop := {
  uart_status : ∀ d, I d → ∃ v d', in8 hw (COM1 + 5) d = (v, d') ∧ I d' ∧ sent d' = sent d ∧
    if decide (busy d = 0%nat) then Z.land (u8 v) 0x20 ≠ 0
    else Z.land (u8 v) 0x20 = 0 ∧ (busy d' < busy d)%nat;
  uart_send : ∀ v d, I d → 0 <= v < 256 →
    I (out8 hw COM1 v d) ∧ sent (out8 hw COM1 v d) = sent d ++ [v];
  uart_bound : ∀ d, I d → (busy d <= bound)%nat
}.

Lemma dev_set {D} (d : D) (s : klog D) : dev (lset dev_lens d s) = d.
Proof. done. Qed.

Section serial.
Context {D : Type} (hw : machine D) (sent : D → list Z) (busy : D → nat) (bound : nat) (I : D → Prop).
Context `{!Uart hw sent busy bound I} (fuel : nat) (Hfuel : (bound < fuel)%nat).

Lemma transmit_wp c d : I d → 0 <= c < 256 →
  wp (transmit hw fuel c) (λ _ d', I d' ∧ sent d' = sent d ++ [c]) d.
Proof.
  intros HI Hc. unfold transmit. apply wp_bind. rewrite u8_small by done.
  apply (wp_mono _ (λ _ d', I d' ∧ sent d' = sent d)).
  - assert (busy d < fuel)%nat as Hb by (pose proof (uart_bound d HI); lia). clear Hfuel.
    revert d HI Hb. induction fuel as [|n IH]; intros d HI Hb; [lia|]. cbn [poll].
    apply wp_bind, wp_bind. unfold inb. apply wp_bind. unfold wp, lift.
    destruct (uart_status d HI) as (v & d' & -> & HI' & Es & Hs). apply wp_ret, wp_ret. case_decide.
    + destruct (Z.eqb_spec (Z.land (u8 v) 32) 0); [done|]. by apply wp_ret.
    + destruct Hs as [-> Hlt]. cbn. rewrite <-Es. apply IH; [done|lia].
  - intros [] d' [HI' Es]. apply wp_modify. rewrite u8_small by done.
    destruct (uart_send c d' HI' Hc) as [HI'' Es']. split; [done|]. by rewrite Es', Es.
Qed.

Lemma zoom_wp {S T A} (l : lens S T) (m : M T A) (Q : A → S → Prop) s :
  wp m (λ a t, Q a (lset l t s)) (lget l s) → wp (zoom l m) Q s.
Proof. unfold wp, zoom. by destruct (m (lget l s)). Qed.

(** Sending a string from a state in which the port is set up. *)
Definition sends (str : list Z) (s s' : klog D) : Prop :=
  ∃ d, s' = lset dev_lens d s ∧ I d ∧ sent d = sent (dev s) ++ crlf str.

Lemma serial_write_char_wp c s : serial_ready s = true → I (dev s) → 0 <= c < 256 →
  wp (serial_write_char hw fuel c) (λ _, sends [c] s) s.
Proof.
  intros Hr HI Hc. unfold serial_write_char. apply wp_bind, wp_gets. rewrite Hr. cbn [negb].
  assert (∀ s1, I (dev s1) → wp (on_dev (transmit hw fuel c)) (λ _ s', ∃ d, s' = lset dev_lens d s1 ∧ I d ∧
    sent d = sent (dev s1) ++ [c]) s1) as Htx.
  { intros s1 H1. apply zoom_wp. eapply wp_mono; [by apply transmit_wp|]. intros [] d' [? ?]. by exists d'. }
  unfold sends, crlf. cbn [map concat]. rewrite app_nil_r. destruct (Z.eqb_spec c 10) as [->|].
  - apply wp_bind, zoom_wp. eapply wp_mono; [by apply transmit_wp|]. intros [] d1 [H1 E1].
    eapply wp_mono; [by apply Htx|]. intros [] s' (d & -> & Hd & Ed). exists d. cbn in Ed.
    rewrite Ed, E1, <-app_assoc. done.
  - apply wp_bind, wp_ret. by apply Htx.
Qed.

Lemma serial_puts_wp str s : serial_ready s = true → I (dev s) → Forall (λ c, 0 <= c < 256) str →
  wp (serial_puts hw fuel str) (λ _, sends str s) s.
Proof.
  intros Hr HI Hs. revert s Hr HI. induction Hs as [|c str Hc Hs IH]; intros s Hr HI; cbn [serial_puts].
  - apply wp_ret. exists (dev s). rewrite app_nil_r. by destruct s.
  - apply wp_bind. eapply wp_mono; [by apply serial_write_char_wp|]. intros [] s1 (d1 & -> & H1 & E1).
    eapply wp_mono; [by apply IH|]. intros [] s2 (d2 & -> & H2 & E2). exists d2. cbn in E2.
    split_and!; [done|done|]. rewrite E2, E1, <-app_assoc, <-crlf_app. done.
Qed.
End serial.

(** ** The ring *)

(** The ring holds the last 64 lines of [hist]. *)
Record ring_holds {D} (s : klog D) (hist : list (list Z)) : Prop := {
  rh_len : length (g_ring s) = 64%nat;
  rh_lines : Forall (λ l, length l = 96%nat) (g_ring s);
  rh_head : g_ring_head s = Z.of_nat (length hist) `mod` 64;
  rh_count : g_ring_count s = Z.min 64 (Z.of_nat (length hist));
  rh_kept : ∀ i l, hist !! i = Some l → (length hist <= i + 64)%nat →
    cstr <$> g_ring s !! Z.to_nat (Z.of_nat i `mod` 64) = Some l
}.

Lemma ring_holds_ext {D} (s s' : klog D) h :
  g_ring s' = g_ring s → g_ring_head s' = g_ring_head s → g_ring_count s' = g_ring_count s →
  ring_holds s h → ring_holds s' h.
Proof. intros E1 E2 E3 []. by split; rewrite ?E1, ?E2, ?E3. Qed.

Lemma ring_write_line_wp {D} level msg (s : klog D) hist :
  ring_holds s hist → Forall (λ c, c ≠ 0) (level ++ msg) →
  wp (ring_write_line level (Some msg)) (λ _ s', dev s' = dev s ∧ serial_ready s' = serial_ready s ∧
    screen s' = screen s ∧ ring_holds s' (hist ++ [line_kept (level, msg)])) s.
Proof.
  intros [Hl Hls Hh Hc Hk] Hnz. apply Forall_app in Hnz as [Hn1 Hn2].
  unfold ring_write_line. apply wp_bind, wp_get.
  assert (0 <= g_ring_head s < 64) as Hhr by (rewrite Hh; by apply Z.mod_pos_bound).
  destruct (lookup_lt_is_Some_2 (g_ring s) (Z.to_nat (g_ring_head s))) as [out Ho]; [lia|].
  rewrite Ho. cbn [mbind option_bind].
  assert (length out = 96%nat) as Hlo by (by eapply (Forall_lookup_1 (λ l, length l = 96%nat))).
  rewrite (ring_line_spec level (Some msg) out Hlo). change (message_or_null (Some msg)) with msg.
  set (w := line_kept (level, msg)). apply wp_modify. split_and!; [done..|].
  assert (length w <= 95)%nat as Hw by (unfold w, line_kept; rewrite length_take; lia).
  assert (Forall (λ c, c ≠ 0) w) as Hwz.
  { unfold w, line_kept. cbn [fst snd]. apply Forall_take. repeat apply Forall_app_2; try by repeat constructor.
    - by apply Forall_take. }
  clearbody w. split; cbn [g_ring g_ring_head g_ring_count].
  - by rewrite length_insert.
  - apply Forall_insert; [done|]. rewrite length_app. cbn [length]. rewrite length_drop. lia.
  - rewrite Hh, length_app. cbn. unfold u32. rewrite (Z.mod_small (_ + 1)) by (rewrite <-Hh; lia).
    unfold KLOG_RING_LINES. rewrite Zplus_mod_idemp_l. f_equal. lia.
  - rewrite length_app, Hc. cbn. unfold KLOG_RING_LINES. destruct (Z.ltb_spec (64 `min` Z.of_nat (length hist)) 64); lia.
  - intros i l Hi. rewrite length_app. cbn. intros Hi'. rewrite lookup_snoc_Some in Hi.
    destruct Hi as [[Hlt Hi]|[-> <-]].
    + rewrite list_lookup_insert_ne; [apply Hk; [done|lia]|]. rewrite Hh.
      intros E%Z2Nat.inj; [|apply Z.mod_pos_bound; lia..].
      pose proof (Z.mod_eq (Z.of_nat (length hist)) 64). pose proof (Z.mod_eq (Z.of_nat i) 64). lia.
    + rewrite <-Hh, list_lookup_insert_eq by lia. cbn. f_equal. by apply cstr_wrote.
Qed.

Definition last_n {A} (n : nat) (l : list A) : list A := drop (length l - n) l.

Definition screen_add {D} (t : list Z) (s : klog D) : klog D :=
  Klog (dev s) (serial_ready s) (g_ring s) (g_ring_head s) (g_ring_count s) (g_last_panic s) (screen s ++ t).

Lemma klog_dump_recent_wp {D} n (s : klog D) hist : ring_holds s hist → hist ≠ [] → 0 <= n < 2 ^ 32 →
  let k := if (n =? 0) || (Z.min 64 (Z.of_nat (length hist)) <? n)
           then Z.min 64 (Z.of_nat (length hist)) else n in
  wp (klog_dump_recent n) (λ _ s', s' = screen_add (concat (map (λ l, l ++ [10]) (last_n (Z.to_nat k) hist))) s) s.
Proof.
  intros [Hl Hls Hh Hc Hk] Hne Hn k. assert (0 < length hist)%nat as Hpos by (destruct hist; [done|cbn; lia]).
  unfold klog_dump_recent. apply wp_bind, wp_get. rewrite Hc. destruct (Z.eqb_spec (Z.min 64 (Z.of_nat (length hist))) 0); [lia|].
  fold k. set (len := Z.of_nat (length hist)) in *.
  assert (0 < k <= Z.min 64 len) as Hkr.
  { subst k. destruct (Z.eqb_spec n 0), (Z.ltb_spec (Z.min 64 len) n); cbn; lia. }
  assert (u32 (g_ring_head s + KLOG_RING_LINES - k) `mod` KLOG_RING_LINES = (len - k) `mod` 64) as ->.
  { unfold KLOG_RING_LINES, u32. rewrite Hh. rewrite (Z.mod_small (_ + 64 - k)) by (pose proof (Z.mod_pos_bound len 64); lia).
    rewrite <-(Z.mod_add (len - k) 1 64), Z.mul_1_l by lia. replace (len - k + 64) with (len + (64 - k)) by lia.
    rewrite <-(Zplus_mod_idemp_l len). f_equal. lia. }
  eapply wp_mono; [apply (wp_for_range (λ i s', s' = screen_add
    (concat (map (λ l, l ++ [10]) (take (Z.to_nat i) (last_n (Z.to_nat k) hist)))) s)); [lia| |]|].
  - destruct s. unfold screen_add. cbn. by rewrite app_nil_r.
  - intros i s' Hi ->. unfold dump_line. set (j := Z.to_nat (len - k + i)).
    destruct (lookup_lt_is_Some_2 hist j) as [l Hj]; [lia|].
    assert (cstr <$> g_ring s !! Z.to_nat (Z.of_nat j `mod` 64) = Some l) as Hr by (apply Hk; [done|lia]).
    apply wp_bind, wp_gets.
    assert (u32 ((len - k) `mod` 64 + i) `mod` KLOG_RING_LINES = Z.of_nat j `mod` 64) as ->.
    { unfold u32, KLOG_RING_LINES. pose proof (Z.mod_pos_bound (len - k) 64). rewrite (Z.mod_small (_ + i)) by lia.
      rewrite Zplus_mod_idemp_l. f_equal. lia. }
    cbn [g_ring screen_add]. apply fmap_Some in Hr as (arr & -> & ->). cbn [default from_option id].
    apply wp_bind, wp_modify, wp_modify. unfold screen_add. cbn. f_equal. rewrite <-!app_assoc. f_equal.
    rewrite Z2Nat.inj_add by lia. rewrite Nat.add_1_r.
    assert (last_n (Z.to_nat k) hist !! Z.to_nat i = Some (cstr arr)) as Hli.
    { unfold last_n. rewrite lookup_drop. rewrite <-Hj. f_equal. lia. }
    rewrite (take_S_r _ _ _ Hli), map_app, concat_app. cbn. by rewrite ?app_nil_r, <-?app_assoc.
  - intros [] s' ->. do 3 f_equal. apply take_ge. unfold last_n. rewrite length_drop. lia.
Qed.

(** ** Logging *)
Fixpoint klog_lines {D} (hw : machine D) (fuel : nat) (l : list (list Z * list Z)) : M (klog D) unit :=
  match l with
  | [] => mret tt
  | (level, msg) :: l' => klog_line hw fuel level (Some msg) ;; klog_lines hw fuel l'
  end.

Definition printable (l : list Z * list Z) : Prop := Forall (λ c, 0 < c < 256) (fst l ++ snd l).

Section logging.
Context {D : Type} (hw : machine D) (sent : D → list Z) (busy : D → nat) (bound : nat) (I : D → Prop).
Context `{!Uart hw sent busy bound I} (fuel : nat) (Hfuel : (bound < fuel)%nat).

(** What has been shown, sent and kept since [s0]. *)
Definition logged (s0 s : klog D) (hist : list (list Z * list Z)) : Prop :=
  serial_ready s = true ∧ I (dev s) ∧
  screen s = screen s0 ++ concat (map line_text hist) ∧
  sent (dev s) = sent (dev s0) ++ crlf (concat (map line_text hist)) ∧
  ring_holds s (map line_kept hist).

Lemma puts_logged str (s : klog D) : serial_ready s = true → I (dev s) → Forall (λ c, 0 <= c < 256) str →
  wp (serial_puts hw fuel str) (λ _ s', serial_ready s' = true ∧ I (dev s') ∧ screen s' = screen s ∧
    sent (dev s') = sent (dev s) ++ crlf str ∧ ∀ h, ring_holds s h → ring_holds s' h) s.
Proof.
  intros Hr HI Hb. eapply wp_mono; [by eapply serial_puts_wp|]. intros [] s' (d & -> & Hd & E).
  split_and!; [done..|]. by intros h [].
Qed.

Lemma klog_line_wp l s0 s hist : printable l → logged s0 s hist →
  wp (klog_line hw fuel (fst l) (Some (snd l))) (λ _ s', logged s0 s' (hist ++ [l])) s.
Proof.
  intros Hp (Hr & HI & Hsc & Hse & Hh). destruct l as [level msg]. cbn [fst snd].
  assert (Forall (λ c, 0 <= c < 256) level ∧ Forall (λ c, 0 <= c < 256) msg) as [Hb1 Hb2].
  { apply Forall_app. eapply Forall_impl; [exact Hp|]. cbn. lia. }
  unfold klog_line. apply wp_bind. eapply wp_mono; [eapply ring_write_line_wp; [exact Hh|]|].
  { eapply Forall_impl; [exact Hp|]. cbn. lia. }
  intros [] s1 (Ed1 & Er1 & Es1 & H1). unfold klog_prefix. apply wp_bind. do 3 apply wp_bind, wp_modify. apply wp_bind.
  eapply wp_mono; [apply puts_logged; [cbn; congruence|cbn; by rewrite Ed1|by repeat constructor]|].
  intros [] s2 (Er2 & HI2 & Es2 & Ex2 & H2). apply wp_bind.
  eapply wp_mono; [by apply puts_logged|]. intros [] s3 (Er3 & HI3 & Es3 & Ex3 & H3).
  eapply wp_mono; [apply puts_logged; [done..|by repeat constructor]|]. intros [] s4 (Er4 & HI4 & Es4 & Ex4 & H4).
  apply wp_bind, wp_modify, wp_bind, wp_modify, wp_bind.
  eapply wp_mono; [by apply puts_logged|]. intros [] s5 (Er5 & HI5 & Es5 & Ex5 & H5).
  eapply wp_mono; [apply puts_logged; [done..|by repeat constructor]|]. intros [] s6 (Er6 & HI6 & Es6 & Ex6 & H6).
  assert (map line_text [(level, msg)] = [[91] ++ level ++ [93; 32] ++ msg ++ [10]])%list as Elt by done.
  split_and!; [done|done| | |].
  - rewrite Es6, Es5. cbn. rewrite Es4, Es3, Es2. cbn. rewrite Es1, Hsc.
    rewrite map_app, concat_app, Elt. cbn. by rewrite app_nil_r, <-!app_assoc.
  - rewrite Ex6, Ex5. cbn. rewrite Ex4, Ex3, Ex2. cbn [dev put_screen]. rewrite Ed1, Hse.
    rewrite map_app, concat_app, Elt. cbn [concat]. rewrite app_nil_r. unfold newline. rewrite !crlf_app, <-!app_assoc. done.
  - rewrite map_app. apply H6, H5. eapply ring_holds_ext; [..|apply H4, H3, H2; eapply ring_holds_ext; [..|exact H1]]; done.
Qed.

Lemma klog_lines_wp l s0 s hist : Forall printable l → logged s0 s hist →
  wp (klog_lines hw fuel l) (λ _ s', logged s0 s' (hist ++ l)) s.
Proof.
  intros Hl. revert s hist. induction Hl as [|[level msg] l Hp Hl IH]; intros s hist H; cbn [klog_lines].
  - by rewrite app_nil_r.
  - apply wp_bind. eapply wp_mono; [by apply (klog_line_wp (level, msg))|].
    intros [] s' H'. eapply wp_mono; [by apply IH|]. intros [] s''. by rewrite <-app_assoc.
Qed.

End logging.

(** ** Examples *)

(** A port that is always ready and records what is written to it. *)
Definition ex_uart : machine (list Z) :=
  Machine (λ _ d, (0x20, d)) (λ p v d, if p =? COM1 then d ++ [v] else d) (λ _ d, (0, d)) (λ _ _ d, d)
    (λ _ d, (0, d)) (λ _ _ d, d) (λ _ d, (0, d)) (λ _ _ d, d).

Lemma ex_uart_ok : Uart ex_uart id (λ _, O) 0 (λ _, True).
Proof. split; [intros d _; by exists 0x20, d|done|done]. Qed.

Definition ex_log : klog (list Z) := Klog [] true (replicate 64 (replicate 96 0)) 0 0 (replicate 128 0) [].

Lemma ex_log_empty : ring_holds ex_log [].
Proof. split; [done|apply Forall_replicate; reflexivity|done|done|done]. Qed.

