(* ===== verification/Acpi.v ===== *)
(** * ACPI tables (kernel/acpi.c, acpi.h)

    Tables live in physical memory.  [acpi_init] validates the root pointer,
    reads the interrupt controller table (MADT) and finds the values needed to
    power the machine off.  Messages of the log are recorded as notes. *)
From stdpp Require Import base gmap list list_numbers strings.
From Stdlib Require Import ZArith Lia.
From S2P Require Import Prelude Monad Mem Devices Klog.

(** [klog_info], [klog_warn], [klog_error], [klog_hex], [klog_dec] and
    [klog_newline] of klog.c. *)
Inductive note :=
| Info (msg : list Z) | Warn (msg : list Z) | Error (msg : list Z)
| HexNote (v : Z) | DecNote (v : Z) | NewlineNote.

Record AcpiIsoOverride := Iso { source_irq : Z; gsi : Z; iso_flags : Z; valid : bool }.

Record AcpiMadtInfo := MadtInfo {
  present : bool;
  lapic_addr : Z;
  ioapic_addr : Z;
  ioapic_gsi_base : Z;
  cpu_lapic_count : Z;
  iso_count : Z;
  iso : list AcpiIsoOverride
}.

Definition madt_zero : AcpiMadtInfo :=
  MadtInfo false 0 0 0 0 0 (replicate 16 (Iso 0 0 0 false)).

Record acpi := Acpi {
  amem : memory;
  rsdt : Z; xsdt : Z;
  g_madt : AcpiMadtInfo;
  g_pm1a_cnt_port : Z; g_pm1b_cnt_port : Z;
  g_slp_typa : Z; g_slp_typb : Z;
  g_smi_cmd : Z; g_acpi_enable : Z;
  g_have_acpi_poweroff : bool;
  notes : list note
}.

Definition set_root (r x : Z) (s : acpi) : acpi :=
  Acpi (amem s) r x (g_madt s) (g_pm1a_cnt_port s) (g_pm1b_cnt_port s) (g_slp_typa s) (g_slp_typb s)
    (g_smi_cmd s) (g_acpi_enable s) (g_have_acpi_poweroff s) (notes s).
Definition set_madt (g : AcpiMadtInfo) (s : acpi) : acpi :=
  Acpi (amem s) (rsdt s) (xsdt s) g (g_pm1a_cnt_port s) (g_pm1b_cnt_port s) (g_slp_typa s) (g_slp_typb s)
    (g_smi_cmd s) (g_acpi_enable s) (g_have_acpi_poweroff s) (notes s).
Definition set_pm (a b smi en : Z) (s : acpi) : acpi :=
  Acpi (amem s) (rsdt s) (xsdt s) (g_madt s) a b (g_slp_typa s) (g_slp_typb s)
    smi en (g_have_acpi_poweroff s) (notes s).
Definition set_s5 (ta tb : Z) (s : acpi) : acpi :=
  Acpi (amem s) (rsdt s) (xsdt s) (g_madt s) (g_pm1a_cnt_port s) (g_pm1b_cnt_port s) ta tb
    (g_smi_cmd s) (g_acpi_enable s) (g_have_acpi_poweroff s) (notes s).
Definition set_poweroff (b : bool) (s : acpi) : acpi :=
  Acpi (amem s) (rsdt s) (xsdt s) (g_madt s) (g_pm1a_cnt_port s) (g_pm1b_cnt_port s) (g_slp_typa s) (g_slp_typb s)
    (g_smi_cmd s) (g_acpi_enable s) b (notes s).
Definition say (l : list note) (s : acpi) : acpi :=
  Acpi (amem s) (rsdt s) (xsdt s) (g_madt s) (g_pm1a_cnt_port s) (g_pm1b_cnt_port s) (g_slp_typa s) (g_slp_typb s)
    (g_smi_cmd s) (g_acpi_enable s) (g_have_acpi_poweroff s) (notes s ++ l).

(** ** Tables *)
Definition sizeof_SdtHeader : Z := 36.
Definition sizeof_Madt : Z := 44.
Definition sizeof_RsdpV1 : Z := 20.
Definition sizeof_RsdpV2 : Z := 36.
Definition sdt_length (m : memory) (t : Z) : Z := rd32 m (t + 4).

(** [len] characters at [a] against a string constant. *)
Fixpoint memeq (m : memory) (a : Z) (b : list Z) : bool :=
  match b with [] => true | c :: b' => (rd8 m a =? c) && memeq m (a + 1) b' end.

Fixpoint checksum_loop (m : memory) (ptr : Z) (len : nat) (sum : Z) : Z :=
  match len with O => sum | S n => checksum_loop m (ptr + 1) n (u8 (sum + rd8 m ptr)) end.
Definition checksum (m : memory) (ptr len : Z) : Z := checksum_loop m ptr (Z.to_nat len) 0.

Definition table_valid (m : memory) (t : Z) : bool :=
  negb (t =? 0) && (checksum m t (sdt_length m t) =? 0).

(** Entries of the root tables: 64-bit pointers in the XSDT, 32-bit ones in
    the RSDT. *)
Definition xsdt_entries (m : memory) (x : Z) : list Z :=
  map (λ i, rd64 m (x + sizeof_SdtHeader + 8 * i))
    (seqZ 0 (u32 (u64 (sdt_length m x - sizeof_SdtHeader) / 8))).
Definition rsdt_entries (m : memory) (r : Z) : list Z :=
  map (λ i, rd32 m (r + sizeof_SdtHeader + 4 * i))
    (seqZ 0 (u32 (u64 (sdt_length m r - sizeof_SdtHeader) / 4))).

Definition acpi_find_table (signature : list Z) (s : acpi) : Z :=
  let m := amem s in
  let hit t := table_valid m t && memeq m t signature in
  match (if negb (xsdt s =? 0) && table_valid m (xsdt s) then List.find hit (xsdt_entries m (xsdt s)) else None) with
  | Some t => t
  | None =>
      match (if negb (rsdt s =? 0) && table_valid m (rsdt s) then List.find hit (rsdt_entries m (rsdt s)) else None) with
      | Some t => t
      | None => 0
      end
  end.

Definition print_signature (m : memory) (t : Z) : note :=
  Info (Cbuf.cstr [rd8 m t; rd8 m (t + 1); rd8 m (t + 2); rd8 m (t + 3)]).

Definition list_tables (s : acpi) : acpi :=
  let m := amem s in
  let shown ts := map (print_signature m) (List.filter (table_valid m) ts) in
  if negb (xsdt s =? 0) && table_valid m (xsdt s)
  then say (Info (chars "ACPI XSDT tables:") :: shown (xsdt_entries m (xsdt s))) s
  else if negb (rsdt s =? 0) && table_valid m (rsdt s)
  then say (Info (chars "ACPI RSDT tables:") :: shown (rsdt_entries m (rsdt s))) s
  else s.

(** ** The MADT *)
Definition add_iso (o : AcpiIsoOverride) (g : AcpiMadtInfo) : AcpiMadtInfo :=
  if iso_count g <? 16
  then MadtInfo (present g) (lapic_addr g) (ioapic_addr g) (ioapic_gsi_base g) (cpu_lapic_count g)
         (iso_count g + 1) (<[Z.to_nat (iso_count g) := o]> (iso g))
  else g.

(** One entry: the new information and what is logged. *)
Definition madt_entry (m : memory) (entry : Z) (g : AcpiMadtInfo) : AcpiMadtInfo * list note :=
  let type := rd8 m entry in
  let length := rd8 m (entry + 1) in
  if (type =? 0) && (8 <=? length) then
    (MadtInfo (present g) (lapic_addr g) (ioapic_addr g) (ioapic_gsi_base g) (u32 (cpu_lapic_count g + 1))
       (iso_count g) (iso g),
     [Info (chars "MADT CPU local APIC entry")])
  else if (type =? 1) && (12 <=? length) then
    let addr := rd32 m (entry + 4) in
    let gsi_base := rd32 m (entry + 8) in
    (MadtInfo (present g) (lapic_addr g) addr gsi_base (cpu_lapic_count g) (iso_count g) (iso g),
     [Info (chars "MADT IOAPIC address:"); HexNote addr; NewlineNote;
      Info (chars "MADT IOAPIC GSI base:"); DecNote gsi_base; NewlineNote])
  else if (type =? 2) && (10 <=? length) then
    let source := rd8 m (entry + 3) in
    let gsi := rd32 m (entry + 4) in
    let flags := rd16 m (entry + 8) in
    (add_iso (Iso source gsi flags true) g,
     [Info (chars "MADT interrupt source override IRQ:"); DecNote source;
      Info (chars "MADT interrupt source override GSI:"); DecNote gsi;
      Info (chars "MADT interrupt source override flags:"); HexNote flags; NewlineNote])
  else (g, []).

(** [while (entry + sizeof(MadtEntryHeader) <= end)]; [None] when the fuel
    runs out. *)
Fixpoint madt_loop (fuel : nat) (m : memory) (entry end_ : Z) (g : AcpiMadtInfo) (l : list note)
    : option (AcpiMadtInfo * list note) :=
  match fuel with
  | O => None
  | S fuel' =>
      if entry + 2 <=? end_ then
        let length := rd8 m (entry + 1) in
        if (length <? 2) || (end_ <? entry + length) then Some (g, l)
        else let '(g', n) := madt_entry m entry g in
             madt_loop fuel' m (entry + length) end_ g' (l ++ n)
      else Some (g, l)
  end.

Section fuel.
Context (fuel : nat).

Definition parse_madt : M acpi unit :=
  s ← gets id;
  let m := amem s in
  let madt := acpi_find_table (chars "APIC") s in
  if madt =? 0 then modify (say [Warn (chars "ACPI MADT/APIC table not found")]) else
  let g := g_madt s in
  let lapic := rd32 m (madt + 36) in
  let g1 := MadtInfo true lapic (ioapic_addr g) (ioapic_gsi_base g) (cpu_lapic_count g) (iso_count g) (iso g) in
  match madt_loop fuel m (madt + sizeof_Madt) (madt + sdt_length m madt) g1 [] with
  | None => panic "MADT longer than the fuel"
  | Some (g', l) =>
      modify (λ s, say ([Info (chars "ACPI MADT found"); Info (chars "Local APIC address:");
        HexNote lapic; NewlineNote] ++ l) (set_madt g' s))
  end.

(** ** Power off *)
Definition read_u16 (m : memory) (p : Z) : Z := Z.lor (rd8 m p) (Z.shiftl (rd8 m (p + 1)) 8).
Definition read_u32 (m : memory) (p : Z) : Z :=
  Z.lor (Z.lor (Z.lor (rd8 m p) (Z.shiftl (rd8 m (p + 1)) 8)) (Z.shiftl (rd8 m (p + 2)) 16))
        (Z.shiftl (rd8 m (p + 3)) 24).

(** An integer of the package at [pos]: its value and the position of its
    last byte; [None] for [continue]. *)
Definition aml_int (m : memory) (aml aml_len pos : Z) : option (Z * Z) :=
  let a := rd8 m (aml + pos) in
  if a =? 0x0A then
    if aml_len <=? pos + 1 then None else Some (rd8 m (aml + pos + 1), pos + 1)
  else if a =? 0x0B then
    if aml_len <=? pos + 2 then None else Some (u8 (read_u16 m (aml + pos + 1)), pos + 2)
  else Some (a, pos).

(** The body of the search loop at offset [i]; [None] for [continue]. *)
Definition aml_s5_at (m : memory) (aml aml_len i : Z) : option (Z * Z) :=
  let b k := rd8 m (aml + k) in
  if negb ((b i =? 95) && (b (i + 1) =? 83) && (b (i + 2) =? 53) && (b (i + 3) =? 95)) then None else
  if i =? 0 then None else
  let pre := b (i - 1) in
  if negb (pre =? 0x08) && negb ((2 <=? i) && (b (i - 2) =? 0x08) && ((pre =? 92) || (pre =? 94))) then None else
  let pos := i + 4 in
  if aml_len <=? pos then None else
  if negb (b pos =? 0x12) then None else
  let pos := pos + 1 in
  if aml_len <=? pos then None else
  let lead := b pos in
  let pos := pos + 1 in
  let follow := Z.land (Z.shiftr lead 6) 0x3 in
  if aml_len <=? pos + follow then None else
  let pos := pos + follow in
  if aml_len <=? pos then None else
  let pos := pos + 1 in
  if aml_len <=? pos then None else
  '(a, pos) ← aml_int m aml aml_len pos;
  let pos := pos + 1 in
  if aml_len <=? pos then None else
  '(c, _) ← aml_int m aml aml_len pos;
  Some (a, c).

Fixpoint aml_search (n : nat) (m : memory) (aml aml_len i : Z) : option (Z * Z) :=
  match n with
  | O => None
  | S n' =>
      match aml_s5_at m aml aml_len i with
      | Some r => Some r
      | None => aml_search n' m aml aml_len (i + 1)
      end
  end.

Definition aml_extract_s5_types (m : memory) (dsdt dsdt_len : Z) : option (Z * Z) :=
  if (dsdt =? 0) || (dsdt_len <? sizeof_SdtHeader + 8) then None else
  let aml := dsdt + sizeof_SdtHeader in
  let aml_len := dsdt_len - sizeof_SdtHeader in
  aml_search (Z.to_nat (aml_len - 7)) m aml aml_len 0.

Definition parse_fadt_poweroff : M acpi unit :=
  s ← gets id;
  let m := amem s in
  let fadt := acpi_find_table (chars "FACP") s in
  if (fadt =? 0) || negb (table_valid m fadt) then modify (say [Warn (chars "ACPI FADT not found")]) else
  if sdt_length m fadt <? 90 then modify (say [Warn (chars "ACPI FADT too small for poweroff fields")]) else
  let dsdt := read_u32 m (fadt + 40) in
  modify (set_pm (u16 (read_u32 m (fadt + 64))) (u16 (read_u32 m (fadt + 68)))
            (read_u32 m (fadt + 48)) (rd8 m (fadt + 52))) ;;
  if (dsdt =? 0) || negb (table_valid m dsdt) then modify (say [Warn (chars "ACPI DSDT invalid")]) else
  match aml_extract_s5_types m dsdt (sdt_length m dsdt) with
  | None => modify (say [Warn (chars "ACPI _S5 object not found in DSDT")])
  | Some (a, b) =>
      modify (set_s5 a b) ;;
      s ← gets id;
      if g_pm1a_cnt_port s =? 0 then modify (say [Warn (chars "ACPI PM1a control block missing")])
      else modify (set_poweroff true) ;; modify (say [Info (chars "ACPI S5 poweroff path ready")])
  end.

(** [acpi_init(bootInfo)], given [bootInfo->rsdp]. *)
Definition acpi_init (rsdp : Z) : M acpi unit :=
  modify (set_madt madt_zero) ;;
  s ← gets id;
  let m := amem s in
  if rsdp =? 0 then modify (say [Warn (chars "ACPI RSDP not provided by bootloader")]) else
  if negb (memeq m rsdp (chars "RSD PTR ")) then modify (say [Error (chars "ACPI RSDP signature invalid")]) else
  if negb (checksum m rsdp sizeof_RsdpV1 =? 0) then modify (say [Error (chars "ACPI RSDP checksum invalid")]) else
  modify (λ s, set_root (rd32 m (rsdp + 16)) (xsdt s) s) ;;
  (if (2 <=? rd8 m (rsdp + 15)) && (sizeof_RsdpV2 <=? rd32 m (rsdp + 20)) &&
      (checksum m rsdp (rd32 m (rsdp + 20)) =? 0)
   then modify (λ s, say [Info (chars "ACPI 2.0+ XSDT available")] (set_root (rsdt s) (rd64 m (rsdp + 24)) s))
   else modify (say [Info (chars "ACPI 1.0 RSDT available")])) ;;
  modify list_tables ;;
  parse_madt ;;
  parse_fadt_poweroff.
End fuel.

Definition acpi_get_madt_info (s : acpi) : AcpiMadtInfo := g_madt s.

(** The result, and what is stored through [out_gsi] and [out_flags]. *)
Definition acpi_get_irq_override (irq : Z) (s : acpi) : bool * Z * Z :=
  let g := g_madt s in
  match List.find (λ o, valid o && (source_irq o =? irq)) (take (Z.to_nat (iso_count g)) (iso g)) with
  | Some o => (true, gsi o, iso_flags o)
  | None => (false, irq, 0)
  end.

(** ** [shutdown()], up to the final halt loop *)
Section shutdown.
Context {D : Type} (hw : machine D).

(** [for (i = 0; i < n; i++) { if (inw(port) & 1) break; io_wait(); }] *)
Fixpoint wait_sci (n : nat) (port : Z) : M D unit :=
  match n with
  | O => mret tt
  | S n' => v ← inw hw port; if negb (Z.land v 1 =? 0) then mret tt else io_wait hw ;; wait_sci n' port
  end.

(** [val = (inw(port) & 0xE3FF) | (typ << 10) | (1 << 13); outw(port, val);] *)
Definition sleep_write (port typ : Z) : M D unit :=
  v ← inw hw port;
  outw hw port (Z.lor (Z.lor (Z.land v 0xE3FF) (u16 (Z.shiftl typ 10))) (Z.shiftl 1 13)).

Definition shutdown (s : acpi) : M D unit :=
  (if g_have_acpi_poweroff s then
     v ← inw hw (g_pm1a_cnt_port s);
     (if (Z.land v 1 =? 0) && negb (g_smi_cmd s =? 0) && negb (g_acpi_enable s =? 0)
      then outb hw (u16 (g_smi_cmd s)) (g_acpi_enable s) ;; wait_sci 30000 (g_pm1a_cnt_port s)
      else mret tt) ;;
     sleep_write (g_pm1a_cnt_port s) (g_slp_typa s) ;;
     (if negb (g_pm1b_cnt_port s =? 0) then sleep_write (g_pm1b_cnt_port s) (g_slp_typb s) else mret tt)
   else mret tt) ;;
  outw hw 0x604 0x2000 ;;
  outw hw 0xB004 0x2000 ;;
  outw hw 0x4004 0x3400.
End shutdown.

(** ** Termination on any table *)
Record madt_wf (g : AcpiMadtInfo) : Prop := {
  mw_count : 0 <= iso_count g <= 16;
  mw_len : length (iso g) = 16%nat
}.

Lemma madt_zero_wf : madt_wf madt_zero.
Proof. by split. Qed.

Lemma add_iso_wf o g : madt_wf g → madt_wf (add_iso o g).
Proof.
  intros [Hc Hl]. unfold add_iso. destruct (Z.ltb_spec (iso_count g) 16); [|done].
  split; cbn; [lia|by rewrite length_insert].
Qed.

Lemma madt_entry_wf m e g : madt_wf g → madt_wf (fst (madt_entry m e g)).
Proof.
  intros W. unfold madt_entry. repeat case_match; cbn; try done; try (by destruct W; split).
  by apply add_iso_wf.
Qed.

Lemma madt_loop_total fuel m e e' g l : (0 < fuel)%nat → e' - e < Z.of_nat fuel → madt_wf g →
  ∃ g' l', madt_loop fuel m e e' g l = Some (g', l') ∧ madt_wf g'.
Proof.
  revert e g l. induction fuel as [|fuel IH]; intros e g l Hf He W; [lia|]. cbn [madt_loop].
  destruct (Z.leb_spec (e + 2) e'); [|by eauto].
  destruct (Z.ltb_spec (rd8 m (e + 1)) 2), (Z.ltb_spec e' (e + rd8 m (e + 1))); cbn [orb]; try by eauto.
  pose proof (madt_entry_wf m e g W) as W'. destruct (madt_entry m e g) as [g' n]. apply IH; [lia|lia|done].
Qed.

Lemma rd32_range m a : 0 <= rd32 m a < 2 ^ 32.
Proof. apply (rdn_range m a 4). Qed.

Lemma parse_madt_wp fuel s : 2 ^ 32 <= Z.of_nat fuel → madt_wf (g_madt s) →
  wp (parse_madt fuel) (λ _ s', madt_wf (g_madt s')) s.
Proof.
  intros Hf W. unfold parse_madt. apply wp_bind, wp_get. destruct (_ =? 0); [by apply wp_modify|].
  set (madt := acpi_find_table _ s).
  destruct (madt_loop_total fuel (amem s) (madt + sizeof_Madt) (madt + sdt_length (amem s) madt)
    (MadtInfo true (rd32 (amem s) (madt + 36)) (ioapic_addr (g_madt s)) (ioapic_gsi_base (g_madt s))
       (cpu_lapic_count (g_madt s)) (iso_count (g_madt s)) (iso (g_madt s))) []) as (g' & l' & -> & W').
  - lia.
  - pose proof (rd32_range (amem s) (madt + 4)). unfold sdt_length, sizeof_Madt. lia.
  - by destruct W; split.
  - by apply wp_modify.
Qed.

Lemma parse_fadt_wp s : wp parse_fadt_poweroff (λ _ s', g_madt s' = g_madt s) s.
Proof.
  unfold parse_fadt_poweroff. apply wp_bind, wp_get. cbn zeta.
  destruct (_ || _); [by apply wp_modify|]. destruct (_ <? 90); [by apply wp_modify|].
  apply wp_bind, wp_modify. destruct (_ || _); [by apply wp_modify|].
  destruct (aml_extract_s5_types _ _ _) as [[a b]|]; [|by apply wp_modify].
  apply wp_bind, wp_modify, wp_bind, wp_get. destruct (_ =? 0); [by apply wp_modify|].
  apply wp_bind, wp_modify. by apply wp_modify.
Qed.


(** ** What a well-formed MADT says *)
Inductive entry :=
| LocalApic (size : Z)
| IoApic (size addr base : Z)
| Override (size source gsi flags : Z)
| OtherEntry (type size : Z).

Definition entry_size (x : entry) : Z :=
  match x with LocalApic n | IoApic n _ _ | Override n _ _ _ | OtherEntry _ n => n end.

(** The layout of an entry in memory. *)
Definition entry_at (m : memory) (a : Z) (x : entry) : Prop :=
  rd8 m (a + 1) = entry_size x ∧
  match x with
  | LocalApic n => rd8 m a = 0 ∧ 8 <= n
  | IoApic n addr base => rd8 m a = 1 ∧ 12 <= n ∧ rd32 m (a + 4) = addr ∧ rd32 m (a + 8) = base
  | Override n source g flags => rd8 m a = 2 ∧ 10 <= n ∧ rd8 m (a + 3) = source ∧
      rd32 m (a + 4) = g ∧ rd16 m (a + 8) = flags
  | OtherEntry type n => rd8 m a = type ∧ 2 < type ∧ 2 <= n
  end.

Fixpoint entries_at (m : memory) (a : Z) (l : list entry) (e : Z) : Prop :=
  match l with [] => a = e | x :: l' => entry_at m a x ∧ entries_at m (a + entry_size x) l' e end.

(** The same information as lists: overrides in order, the last I/O APIC,
    the number of processors. *)
Definition overrides (l : list entry) : list AcpiIsoOverride :=
  omap (λ x, match x with Override _ s g f => Some (Iso s g f true) | _ => None end) l.
Definition ioapics (l : list entry) : list (Z * Z) :=
  omap (λ x, match x with IoApic _ a b => Some (a, b) | _ => None end) l.
Definition cpus (l : list entry) : Z :=
  Z.of_nat (length (List.filter (λ x, match x with LocalApic _ => true | _ => false end) l)).

Record madt_says (g0 g : AcpiMadtInfo) (l : list entry) : Prop := {
  ms_same : present g = present g0 ∧ lapic_addr g = lapic_addr g0;
  ms_io : (ioapic_addr g, ioapic_gsi_base g) = default (ioapic_addr g0, ioapic_gsi_base g0) (last (ioapics l));
  ms_cpus : cpu_lapic_count g = u32 (cpu_lapic_count g0 + cpus l);
  ms_count : iso_count g = Z.min 16 (Z.of_nat (length (overrides l)));
  ms_len : length (iso g) = 16%nat;
  ms_iso : take (Z.to_nat (iso_count g)) (iso g) = take 16 (overrides l)
}.

Lemma madt_entry_says m a x g0 g l : entry_at m a x → madt_says g0 g l →
  madt_says g0 (fst (madt_entry m a g)) (l ++ [x]).
Proof.
  intros [Es Hx] [H1 H2 H3 H4 H5 H6].
  assert (∀ y, overrides (l ++ [y]) = overrides l ++ overrides [y]) as Eo by (intros; apply omap_app).
  assert (∀ y, ioapics (l ++ [y]) = ioapics l ++ ioapics [y]) as Ei by (intros; apply omap_app).
  assert (∀ y, cpus (l ++ [y]) = cpus l + match y with LocalApic _ => 1 | _ => 0 end) as Ec
    by (intros y; unfold cpus; rewrite List.filter_app, length_app; destruct y; cbn; lia).
  unfold madt_entry. rewrite Es.
  destruct x as [n|n addr base|n source gs fl|ty n]; cbn [entry_size] in *.
  - destruct Hx as [-> Hn]. destruct (Z.leb_spec 8 n); [|lia]. cbn.
    split; cbn; rewrite ?Eo, ?Ei, ?app_nil_r; try done. rewrite H3, Ec. unfold u32.
    rewrite Zplus_mod_idemp_l. f_equal. lia.
  - destruct Hx as (-> & Hn & <- & <-). destruct (Z.leb_spec 12 n); [|lia]. cbn.
    split; cbn; rewrite ?Eo, ?Ei, ?app_nil_r; try done.
    + change (ioapics [IoApic _ ?x ?y]) with [(x, y)]. by rewrite last_snoc.
    + by rewrite H3, Ec, Z.add_0_r.
  - destruct Hx as (-> & Hn & <- & <- & <-). destruct (Z.leb_spec 10 n); [|lia]. cbn [fst Z.eqb Pos.eqb andb].
    set (o := Iso _ _ _ true). assert (overrides (l ++ [Override n (rd8 m (a + 3)) (rd32 m (a + 4)) (rd16 m (a + 8))]) = overrides l ++ [o]) as Eo'
      by (rewrite Eo; done).
    assert (cpu_lapic_count (add_iso o g) = cpu_lapic_count g ∧ present (add_iso o g) = present g ∧
      lapic_addr (add_iso o g) = lapic_addr g ∧ ioapic_addr (add_iso o g) = ioapic_addr g ∧
      ioapic_gsi_base (add_iso o g) = ioapic_gsi_base g) as (E1 & E2 & E3 & E4 & E5) by (unfold add_iso; by case_match).
    split; rewrite ?E1, ?E2, ?E3, ?E4, ?E5, ?Ei, ?Eo', ?app_nil_r; try done.
    + by rewrite H3, Ec, Z.add_0_r.
    + rewrite length_app. unfold add_iso. cbn [length]. destruct (Z.ltb_spec (iso_count g) 16); cbn; lia.
    + unfold add_iso. case_match; [cbn; by rewrite length_insert|done].
    + unfold add_iso. destruct (Z.ltb_spec (iso_count g) 16) as [Hlt|Hge].
      * cbn. replace (Z.to_nat (iso_count g + 1)) with (S (Z.to_nat (iso_count g))) by lia.
        erewrite take_S_r by (apply list_lookup_insert_eq; lia). rewrite take_insert_ge, H6 by lia.
        rewrite !(take_ge (overrides l)), take_ge; rewrite ?length_app; cbn; lia || done.
      * rewrite H6, take_app_le by lia. done.
  - destruct Hx as (-> & Hty & Hn). destruct (Z.eqb_spec ty 0), (Z.eqb_spec ty 1), (Z.eqb_spec ty 2); try lia.
    cbn. split; rewrite ?Eo, ?Ei, ?app_nil_r; try done. by rewrite H3, Ec, Z.add_0_r.
Qed.

Lemma madt_loop_says fuel m a e l g0 g done_ ns : (0 < fuel)%nat → e - a < Z.of_nat fuel →
  entries_at m a l e → madt_says g0 g done_ →
  ∃ g' ns', madt_loop fuel m a e g ns = Some (g', ns') ∧ madt_says g0 g' (done_ ++ l).
Proof.
  revert fuel a g done_ ns. induction l as [|x l IH]; intros fuel a g done_ ns Hf Hl He Hg.
  - destruct fuel; [lia|]. cbn in He |- *. subst a. destruct (Z.leb_spec (e + 2) e); [lia|].
    rewrite app_nil_r. eauto.
  - destruct He as [Hx He]. destruct fuel as [|fuel]; [lia|]. cbn [madt_loop].
    pose proof Hx as [Es Hx']. rewrite Es.
    assert (2 <= entry_size x) as H2 by (destruct x; cbn in *; lia).
    assert (a + entry_size x <= e) as Hle.
    { clear -He. revert He. generalize (a + entry_size x) as b. induction l as [|y l IH]; intros b; cbn; [lia|].
      intros [[_ Hy] He]. specialize (IH _ He). assert (2 <= entry_size y) by (destruct y; cbn in *; lia). lia. }
    destruct (Z.leb_spec (a + 2) e), (Z.ltb_spec (entry_size x) 2), (Z.ltb_spec e (a + entry_size x)); try lia. cbn [orb].
    pose proof (madt_entry_says m a x g0 g done_ Hx Hg) as Hg'. destruct (madt_entry m a g) as [g' n].
    destruct (IH fuel (a + entry_size x) g' (done_ ++ [x]) (ns ++ n)) as (g2 & ns2 & E & Hs); [lia|lia|done|done|].
    rewrite <-app_assoc in Hs. eauto.
Qed.

(** The override that applies to an IRQ: the first of the first sixteen. *)
Definition override_for (l : list entry) (irq : Z) : bool * Z * Z :=
  match List.find (λ o, source_irq o =? irq) (take 16 (overrides l)) with
  | Some o => (true, gsi o, iso_flags o)
  | None => (false, irq, 0)
  end.

Lemma overrides_valid l : Forall (λ o, valid o = true) (overrides l).
Proof. induction l as [|x l IH]; [constructor|]. destruct x; cbn; try done. by constructor. Qed.

Lemma find_valid irq l : Forall (λ o, valid o = true) l →
  List.find (λ o, valid o && (source_irq o =? irq)) l = List.find (λ o, source_irq o =? irq) l.
Proof. induction 1 as [|o l Ho Hl IH]; [done|]. cbn. rewrite Ho. cbn. by rewrite IH. Qed.

(** C35. The interrupt table is understood.  For a MADT whose entries, of any
    kind and size, are [l], parsing it from the cleared record returns and
    records the local APIC address of the header, the number of processors,
    and the address and base of the last I/O APIC; and
    [acpi_get_irq_override] then answers for every IRQ with the first matching
    override among the first sixteen, or the identity. *)
Theorem parse_madt_refines fuel s l t :
  acpi_find_table (chars "APIC") s = t → t ≠ 0 → g_madt s = madt_zero →
  entries_at (amem s) (t + sizeof_Madt) l (t + sdt_length (amem s) t) →
  sdt_length (amem s) t <= Z.of_nat fuel → (0 < fuel)%nat →
  ∃ s', parse_madt fuel s = Ok tt s' ∧ present (g_madt s') = true ∧
    lapic_addr (g_madt s') = rd32 (amem s) (t + 36) ∧
    cpu_lapic_count (g_madt s') = u32 (cpus l) ∧
    (ioapic_addr (g_madt s'), ioapic_gsi_base (g_madt s')) = default (0, 0) (last (ioapics l)) ∧
    ∀ irq, acpi_get_irq_override irq s' = override_for l irq.
Proof.
  intros Et Ht Eg He Hf Hf0. set (g1 := MadtInfo true (rd32 (amem s) (t + 36)) 0 0 0 0 (replicate 16 (Iso 0 0 0 false))).
  destruct (madt_loop_says fuel (amem s) (t + sizeof_Madt) (t + sdt_length (amem s) t) l g1 g1 [] [])
    as (g' & ns & E & [[S1 S2] S3 S4 S5 S6 S7]); [done|unfold sizeof_Madt; lia|done|by split|].
  assert (∃ l0, parse_madt fuel s = Ok tt (say l0 (set_madt g' s))) as [l0 Ep].
  { unfold parse_madt, mbind, M_bind, gets, id. rewrite Et, Eg. cbn [ioapic_addr ioapic_gsi_base cpu_lapic_count iso_count iso madt_zero].
    destruct (Z.eqb_spec t 0); [done|]. fold g1. rewrite E. eexists. reflexivity. }
  exists (say l0 (set_madt g' s)). cbn [app] in *. split_and!; [done|done|done|done|done|].
  intros irq. unfold acpi_get_irq_override, override_for. cbn [g_madt say set_madt]. rewrite S7.
  rewrite find_valid; [done|]. apply Forall_take, overrides_valid.
Qed.

(** ** Examples *)

(** A table of three entries at 0x1000: a processor, an I/O APIC and the
    override of IRQ 0 to GSI 2. *)
Definition ex_bytes (a : Z) (l : list Z) : memory :=
  list_to_map (zip_with (λ i b, (a + i, b)) (seqZ 0 (Z.of_nat (length l))) l).
Definition ex_madt : list Z :=
  chars "APIC" ++ [74; 0; 0; 0] ++ replicate 28 0 ++ [0; 0; 0xE0; 0xFE] ++ [0; 0; 0; 0] ++
  [0; 8; 0; 0; 1; 0; 0; 0] ++ [1; 12; 0; 0; 0; 0; 0xC0; 0xFE; 0; 0; 0; 0] ++ [2; 10; 0; 0; 2; 0; 0; 0; 0; 0].
(** An RSDT at 0x800 that points to it. *)
Definition ex_rsdt : list Z := chars "RSDT" ++ [40; 0; 0; 0] ++ replicate 28 0 ++ [0; 0x10; 0; 0].
(** Set the checksum, byte 9 of a table. *)
Definition sealed (t : list Z) : list Z := <[9%nat := (- foldr Z.add 0 t) `mod` 256]> t.
Definition ex_acpi : acpi :=
  Acpi (ex_bytes 0x1000 (sealed ex_madt) ∪ ex_bytes 0x800 (sealed ex_rsdt)) 0x800 0 madt_zero 0 0 0 0 0 0 false [].
Definition ex_entries : list entry := [LocalApic 8; IoApic 12 0xFEC00000 0; Override 10 0 2 0].

Lemma parse_madt_refines_witness :
  acpi_find_table (chars "APIC") ex_acpi = 0x1000 ∧
  ∃ s', parse_madt 100 ex_acpi = Ok tt s' ∧ acpi_get_irq_override 0 s' = (true, 2, 0).
Proof.
  assert (acpi_find_table (chars "APIC") ex_acpi = 0x1000) as E by (vm_compute; reflexivity).
  split; [exact E|].
  destruct (parse_madt_refines 100 ex_acpi ex_entries 0x1000 E) as (s' & Ep & _ & _ & _ & _ & H).
  - lia.
  - reflexivity.
  - vm_compute. intuition congruence.
  - vm_compute. congruence.
  - lia.
  - exists s'. split; [exact Ep|]. rewrite H. vm_compute. reflexivity.
Defined.

