(* ===== verification/Irq.v ===== *)
(** * Interrupt controllers (kernel/pic.c, apic.c, irq.c)

    The drivers of the legacy PIC and of the local and I/O APIC, and the layer
    that picks one of them.  The firmware's description of the machine comes
    from Acpi.v. *)
From stdpp Require Import base list list_numbers strings.
From Stdlib Require Import ZArith Lia.
From S2P Require Import Prelude Monad Devices Klog Acpi.

Definition PIC1_COMMAND : Z := 0x20.
Definition PIC1_DATA : Z := 0x21.
Definition PIC2_COMMAND : Z := 0xA0.
Definition PIC2_DATA : Z := 0xA1.
Definition PIC_EOI : Z := 0x20.

(** ** pic.c *)
Section pic.
Context {D : Type} (hw : machine D).

(** Without its console message. *)
Definition pic_init : M D unit :=
  mask1 ← inb hw PIC1_DATA;
  mask2 ← inb hw PIC2_DATA;
  outb hw PIC1_COMMAND 0x11 ;; io_wait hw ;;
  outb hw PIC2_COMMAND 0x11 ;; io_wait hw ;;
  outb hw PIC1_DATA 0x20 ;; io_wait hw ;;
  outb hw PIC2_DATA 0x28 ;; io_wait hw ;;
  outb hw PIC1_DATA 0x04 ;; io_wait hw ;;
  outb hw PIC2_DATA 0x02 ;; io_wait hw ;;
  outb hw PIC1_DATA 0x01 ;; io_wait hw ;;
  outb hw PIC2_DATA 0x01 ;; io_wait hw ;;
  outb hw PIC1_DATA mask1 ;;
  outb hw PIC2_DATA mask2 ;;
  outb hw PIC1_DATA 0xFF ;;
  outb hw PIC2_DATA 0xFF.

Definition pic_send_eoi (irq : Z) : M D unit :=
  (if 8 <=? irq then outb hw PIC2_COMMAND PIC_EOI else mret tt) ;;
  outb hw PIC1_COMMAND PIC_EOI.

Definition pic_port (irq : Z) : Z := if irq <? 8 then PIC1_DATA else PIC2_DATA.
Definition pic_bit (irq : Z) : Z := Z.shiftl 1 (if 8 <=? irq then irq - 8 else irq).

Definition pic_mask (irq : Z) : M D unit :=
  v ← inb hw (pic_port irq); outb hw (pic_port irq) (Z.lor v (pic_bit irq)).

Definition pic_unmask (irq : Z) : M D unit :=
  v ← inb hw (pic_port irq); outb hw (pic_port irq) (Z.land v (Z.lnot (pic_bit irq))).
End pic.

(** ** State of apic.c and irq.c *)
Record ApicAddresses := Addrs { a_lapic : Z; a_ioapic : Z; a_gsi_base : Z }.

Inductive IRQBackend := IRQ_BACKEND_PIC | IRQ_BACKEND_APIC.

Record IRQStats := Stats {
  timer_irq_count : Z; keyboard_irq_count : Z; spurious_irq_count : Z;
  eoi_count : Z; apic_route_failures : Z; health_faults : Z
}.

Record irqc (D : Type) := Irqc {
  idev : D;
  g_addrs : ApicAddresses;
  g_backend : IRQBackend;
  g_irq_gsi : list Z;
  g_stats : IRQStats;
  inotes : list note
}.
Arguments Irqc {D}.
Arguments idev {D}.
Arguments g_addrs {D}.
Arguments g_backend {D}.
Arguments g_irq_gsi {D}.
Arguments g_stats {D}.
Arguments inotes {D}.

Definition IA32_APIC_BASE_MSR : Z := 0x1B.
Definition IA32_APIC_BASE_ENABLE : Z := Z.shiftl 1 11.
Definition LAPIC_REG_ID : Z := 0x020.
Definition LAPIC_REG_EOI : Z := 0x0B0.
Definition LAPIC_REG_SVR : Z := 0x0F0.
Definition IOAPIC_REGSEL : Z := 0x00.
Definition IOAPIC_WINDOW : Z := 0x10.
Definition IOAPIC_REG_VER : Z := 0x01.
Definition IRQ_VECTOR_BASE : Z := 0x20.
Definition APIC_SWITCHOVER_DEFAULT : bool := true.

Section irq.
Context {D : Type} (hw : machine D).

Definition idev_lens : lens (irqc D) D :=
  Lens idev (λ d s, Irqc d (g_addrs s) (g_backend s) (g_irq_gsi s) (g_stats s) (inotes s)).
Definition on_hw {A} (m : M D A) : M (irqc D) A := zoom idev_lens m.
Definition on_stats (f : IRQStats → IRQStats) : M (irqc D) unit :=
  modify (λ s, Irqc (idev s) (g_addrs s) (g_backend s) (g_irq_gsi s) (f (g_stats s)) (inotes s)).
Definition inote (n : note) : M (irqc D) unit :=
  modify (λ s, Irqc (idev s) (g_addrs s) (g_backend s) (g_irq_gsi s) (g_stats s) (inotes s ++ [n])).
Definition set_backend (b : IRQBackend) : M (irqc D) unit :=
  modify (λ s, Irqc (idev s) (g_addrs s) b (g_irq_gsi s) (g_stats s) (inotes s)).

(** [g_irq_gsi[irq] = gsi] *)
Definition set_gsi (irq gsi : Z) : M (irqc D) unit :=
  modify (λ s, Irqc (idev s) (g_addrs s) (g_backend s) (<[Z.to_nat irq := gsi]> (g_irq_gsi s)) (g_stats s) (inotes s)).

Definition bump_timer (t : IRQStats) : IRQStats :=
  Stats (u64 (timer_irq_count t + 1)) (keyboard_irq_count t) (spurious_irq_count t) (eoi_count t) (apic_route_failures t) (health_faults t).
Definition bump_keyboard (t : IRQStats) : IRQStats :=
  Stats (timer_irq_count t) (u64 (keyboard_irq_count t + 1)) (spurious_irq_count t) (eoi_count t) (apic_route_failures t) (health_faults t).
Definition bump_spurious (t : IRQStats) : IRQStats :=
  Stats (timer_irq_count t) (keyboard_irq_count t) (u64 (spurious_irq_count t + 1)) (eoi_count t) (apic_route_failures t) (health_faults t).
Definition bump_eoi (t : IRQStats) : IRQStats :=
  Stats (timer_irq_count t) (keyboard_irq_count t) (spurious_irq_count t) (u64 (eoi_count t + 1)) (apic_route_failures t) (health_faults t).
Definition bump_route (t : IRQStats) : IRQStats :=
  Stats (timer_irq_count t) (keyboard_irq_count t) (spurious_irq_count t) (eoi_count t) (u64 (apic_route_failures t + 1)) (health_faults t).
Definition bump_health (t : IRQStats) : IRQStats :=
  Stats (timer_irq_count t) (keyboard_irq_count t) (spurious_irq_count t) (eoi_count t) (apic_route_failures t) (u64 (health_faults t + 1)).

(** ** apic.c *)
Definition lapic_read (reg : Z) : M (irqc D) Z :=
  s ← gets id; on_hw (mmio_read32 hw (a_lapic (g_addrs s) + reg)).
Definition lapic_write (reg value : Z) : M (irqc D) unit :=
  s ← gets id; on_hw (mmio_write32 hw (a_lapic (g_addrs s) + reg) value).

Definition ioapic_read (reg : Z) : M (irqc D) Z :=
  s ← gets id;
  let base := a_ioapic (g_addrs s) in
  on_hw (mmio_write32 hw (base + IOAPIC_REGSEL) reg ;; mmio_read32 hw (base + IOAPIC_WINDOW)).
Definition ioapic_write (reg value : Z) : M (irqc D) unit :=
  s ← gets id;
  let base := a_ioapic (g_addrs s) in
  on_hw (mmio_write32 hw (base + IOAPIC_REGSEL) reg ;; mmio_write32 hw (base + IOAPIC_WINDOW) value).

Definition apic_set_addresses (addrs : ApicAddresses) : M (irqc D) unit :=
  modify (λ s, Irqc (idev s) addrs (g_backend s) (g_irq_gsi s) (g_stats s) (inotes s)).

Definition apic_can_enable (s : irqc D) : bool :=
  negb (a_lapic (g_addrs s) =? 0) && negb (a_ioapic (g_addrs s) =? 0).

Definition apic_enable : M (irqc D) bool :=
  c ← gets apic_can_enable;
  if negb c then mret false else
  apic_base ← on_hw (rdmsr hw IA32_APIC_BASE_MSR);
  on_hw (wrmsr hw IA32_APIC_BASE_MSR (Z.lor apic_base IA32_APIC_BASE_ENABLE)) ;;
  lapic_write LAPIC_REG_SVR (Z.lor 0x100 0xFF) ;;
  inote (Info (chars "APIC: local APIC enabled")) ;;
  mret true.

Definition apic_send_eoi : M (irqc D) unit :=
  s ← gets id;
  if a_lapic (g_addrs s) =? 0 then mret tt else lapic_write LAPIC_REG_EOI 0.

Definition apic_mask_legacy_pic : M (irqc D) unit := on_hw (forZ 16 0 (pic_mask hw)).

Definition apic_lapic_id : M (irqc D) Z :=
  s ← gets id;
  if a_lapic (g_addrs s) =? 0 then mret 0 else
  v ← lapic_read LAPIC_REG_ID; mret (u8 (Z.shiftr v 24)).

Definition apic_set_irq_mask (gsi : Z) (masked : bool) : M (irqc D) unit :=
  s ← gets id;
  if a_ioapic (g_addrs s) =? 0 then mret tt else
  if gsi <? a_gsi_base (g_addrs s) then mret tt else
  let index := gsi - a_gsi_base (g_addrs s) in
  let low_reg := u8 (0x10 + index * 2) in
  low ← ioapic_read low_reg;
  ioapic_write low_reg (if masked then Z.lor low (Z.shiftl 1 16)
                        else Z.land low (u32 (Z.lnot (Z.shiftl 1 16)))).

(** The low word of a redirection entry. *)
Definition redirection (vector flags : Z) : Z :=
  let low := vector in
  let low := if Z.land flags 0x2 =? 0 then low else Z.lor low (Z.shiftl 1 13) in
  let low := if Z.land flags 0x8 =? 0 then low else Z.lor low (Z.shiftl 1 15) in
  Z.land low (u32 (Z.lnot (Z.shiftl 1 16))).

Definition apic_route_irq (gsi vector flags : Z) : M (irqc D) bool :=
  s ← gets id;
  if a_ioapic (g_addrs s) =? 0 then mret false else
  ioapic_ver ← ioapic_read IOAPIC_REG_VER;
  let max_redir := Z.land (Z.shiftr ioapic_ver 16) 0xFF in
  if gsi <? a_gsi_base (g_addrs s) then mret false else
  let index := gsi - a_gsi_base (g_addrs s) in
  if max_redir <? index then mret false else
  let low_reg := u8 (0x10 + index * 2) in
  let hi_reg := u8 (low_reg + 1) in
  lid ← apic_lapic_id;
  ioapic_write hi_reg (Z.shiftl lid 24) ;;
  ioapic_write low_reg (redirection vector flags) ;;
  mret true.

(** ** irq.c *)
Definition pic_is_spurious_irq7 : M (irqc D) bool :=
  on_hw (outb hw 0x20 0x0B ;; isr_val ← inb hw 0x20; mret (Z.land isr_val 0x80 =? 0)).

Definition irq_controller_init : M (irqc D) unit :=
  modify (λ s, Irqc (idev s) (g_addrs s) (g_backend s) (seqZ 0 16) (Stats 0 0 0 0 0 0) (inotes s)) ;;
  on_hw (pic_init hw) ;;
  set_backend IRQ_BACKEND_PIC ;;
  inote (Info (chars "IRQ controller: legacy PIC backend active")).

(** One IRQ of the two routing loops: the critical one routes without
    looking at [gsi_claimed], the other one skips a GSI already claimed.
    [None] is the early [return 0]. *)
Definition route_irq (ac : acpi) (critical : bool) (irq : Z) (gsi_claimed : list bool)
    : M (irqc D) (option (list bool)) :=
  let '(_, gsi, flags) := acpi_get_irq_override irq ac in
  set_gsi irq gsi ;;
  if gsi <? ioapic_gsi_base (g_madt ac) then mret (Some gsi_claimed) else
  if negb critical && (gsi <? 256) && default false (gsi_claimed !! Z.to_nat gsi) then
    inote (Warn (chars "IRQ controller: skipping duplicate GSI route")) ;; mret (Some gsi_claimed)
  else
  ok ← apic_route_irq gsi (u8 (IRQ_VECTOR_BASE + irq)) flags;
  if negb ok then
    inote (Warn (chars "IRQ controller: IOAPIC routing failed for an IRQ")) ;;
    on_stats bump_route ;; on_stats bump_health ;; mret None
  else mret (Some (if gsi <? 256 then <[Z.to_nat gsi := true]> gsi_claimed else gsi_claimed)).

Fixpoint route_all (ac : acpi) (irqs : list (bool * Z)) (gsi_claimed : list bool)
    : M (irqc D) (option (list bool)) :=
  match irqs with
  | [] => mret (Some gsi_claimed)
  | (critical, irq) :: irqs' =>
      r ← route_irq ac critical irq gsi_claimed;
      match r with None => mret None | Some c => route_all ac irqs' c end
  end.

(** IRQ 0 and 1 first, then 2 to 15. *)
Definition route_order : list (bool * Z) :=
  [(true, 0); (true, 1)] ++ map (pair false) (seqZ 2 14).

Definition irq_try_enable_apic (ac : acpi) : M (irqc D) bool :=
  let madt := acpi_get_madt_info ac in
  if negb (present madt) then
    inote (Warn (chars "IRQ controller: MADT not available, keeping PIC")) ;; on_stats bump_health ;; mret false
  else
  apic_set_addresses (Addrs (lapic_addr madt) (ioapic_addr madt) (ioapic_gsi_base madt)) ;;
  e ← apic_enable;
  if negb e then
    inote (Warn (chars "IRQ controller: APIC enable failed, keeping PIC")) ;; on_stats bump_health ;; mret false
  else
  r ← route_all ac route_order (replicate 256 false);
  match r with
  | None => mret false
  | Some _ =>
      if negb APIC_SWITCHOVER_DEFAULT then
        inote (Warn (chars "IRQ controller: APIC routed but switchover disabled, keeping PIC")) ;; mret false
      else
      apic_mask_legacy_pic ;;
      set_backend IRQ_BACKEND_APIC ;;
      inote (Info (chars "IRQ controller: APIC/IOAPIC backend active")) ;;
      mret true
  end.

Definition set_irq_masked (irq : Z) (masked : bool) : M (irqc D) unit :=
  if 16 <=? irq then mret tt else
  s ← gets id;
  match g_backend s with
  | IRQ_BACKEND_APIC => apic_set_irq_mask (default 0 (g_irq_gsi s !! Z.to_nat irq)) masked
  | IRQ_BACKEND_PIC => on_hw (if masked then pic_mask hw irq else pic_unmask hw irq)
  end.
Definition irq_unmask (irq : Z) : M (irqc D) unit := set_irq_masked irq false.
Definition irq_mask (irq : Z) : M (irqc D) unit := set_irq_masked irq true.

Definition irq_send_eoi (irq : Z) : M (irqc D) unit :=
  on_stats bump_eoi ;;
  s ← gets id;
  match g_backend s with
  | IRQ_BACKEND_APIC => apic_send_eoi
  | IRQ_BACKEND_PIC => on_hw (pic_send_eoi hw irq)
  end.

Definition irq_is_spurious (irq : Z) : M (irqc D) bool :=
  s ← gets id;
  match g_backend s with
  | IRQ_BACKEND_APIC => mret false
  | IRQ_BACKEND_PIC =>
      if irq =? 7 then
        spurious ← pic_is_spurious_irq7;
        (if spurious : bool then on_stats bump_spurious else mret tt) ;; mret spurious
      else mret false
  end.

Definition irq_controller_backend (s : irqc D) : IRQBackend := g_backend s.
Definition irq_controller_name (s : irqc D) : list Z :=
  match g_backend s with IRQ_BACKEND_APIC => chars "APIC/IOAPIC" | IRQ_BACKEND_PIC => chars "PIC" end.
Definition irq_resolve_gsi (irq : Z) (s : irqc D) : Z :=
  if irq <? 16 then default 0 (g_irq_gsi s !! Z.to_nat irq) else irq.
Definition irq_get_stats (s : irqc D) : IRQStats := g_stats s.
Definition irq_backend_health (s : irqc D) : bool := health_faults (g_stats s) =? 0.
Definition irq_note_timer_irq : M (irqc D) unit := on_stats bump_timer.
Definition irq_note_keyboard_irq : M (irqc D) unit := on_stats bump_keyboard.
End irq.

(** ** Routing

    What the drivers rely on: the redirection registers [redir] of the I/O
    APIC behind its select and window registers, the version register with
    the number of the last entry, and the mask registers [imr] of the two
    PICs behind their data ports.  The local APIC and the model-specific
    registers do not affect them. *)
Section hardware.
Context {D : Type} (redir imr : D → Z → Z).

Definition quiet (d d' : D) : Prop := (∀ r, redir d' r = redir d r) ∧ (∀ p, imr d' p = imr d p).

Class IrqHardware (hw : machine D) (lapic ioapic max_redir : Z) (I : D → Prop) : Prop := {
  io_write : ∀ r v d, I d → 0x10 <= r < 256 → 0 <= v < 2 ^ 32 →
    let d' := write32 hw (ioapic + IOAPIC_WINDOW) v (write32 hw (ioapic + IOAPIC_REGSEL) r d) in
    I d' ∧ (∀ r', redir d' r' = if decide (r' = r) then v else redir d r') ∧ (∀ p, imr d' p = imr d p);
  io_version : ∀ d, I d → ∃ v d',
    read32 hw (ioapic + IOAPIC_WINDOW) (write32 hw (ioapic + IOAPIC_REGSEL) IOAPIC_REG_VER d) = (v, d') ∧
    I d' ∧ quiet d d' ∧ Z.land (Z.shiftr (u32 v) 16) 0xFF = max_redir;
  lapic_id_read : ∀ d, I d → ∃ v d', read32 hw (lapic + LAPIC_REG_ID) d = (v, d') ∧ I d' ∧ quiet d d';
  lapic_svr_write : ∀ v d, I d → I (write32 hw (lapic + LAPIC_REG_SVR) v d) ∧
    quiet d (write32 hw (lapic + LAPIC_REG_SVR) v d);
  base_msr_read : ∀ d, I d → ∃ v d', read_msr hw IA32_APIC_BASE_MSR d = (v, d') ∧ I d' ∧ quiet d d';
  base_msr_write : ∀ v d, I d → I (write_msr hw IA32_APIC_BASE_MSR v d) ∧
    quiet d (write_msr hw IA32_APIC_BASE_MSR v d);
  pic_read : ∀ p d, p = PIC1_DATA ∨ p = PIC2_DATA → I d →
    ∃ d', in8 hw p d = (imr d p, d') ∧ I d' ∧ quiet d d' ∧ 0 <= imr d p < 256;
  pic_write : ∀ p v d, p = PIC1_DATA ∨ p = PIC2_DATA → I d → 0 <= v < 256 →
    I (out8 hw p v d) ∧ (∀ p', imr (out8 hw p v d) p' = if decide (p' = p) then v else imr d p') ∧
    (∀ r, redir (out8 hw p v d) r = redir d r)
}.
End hardware.

Lemma redirection_range vector flags : 0 <= redirection vector flags < 2 ^ 32.
Proof. unfold redirection. rewrite Z.land_comm. apply land_range; [lia|]. split; vm_compute; congruence. Qed.

Section routing.
Context {D : Type} (hw : machine D) (redir imr : D → Z → Z) (lapic ioapic max_redir : Z) (I : D → Prop).
Context `{HW : !IrqHardware redir imr hw lapic ioapic max_redir I}.
Context (ac : acpi) (gb : Z).
Context (Hlapic : lapic ≠ 0) (Hioapic : ioapic ≠ 0) (Hmax : max_redir <= 119) (Hgb : 0 <= gb).

Notation gsi_of i := (snd (fst (acpi_get_irq_override i ac))).
Notation flags_of i := (snd (acpi_get_irq_override i ac)).

(** The redirection register of a GSI. *)
Definition low_reg (g : Z) : Z := 0x10 + 2 * (g - gb).

Definition addressed (s : irqc D) : Prop := g_addrs s = Addrs lapic ioapic gb ∧ I (idev s).

Lemma ioapic_write_wp r v s : addressed s → 0x10 <= r < 256 → 0 <= v < 2 ^ 32 →
  wp (ioapic_write hw r v) (λ _ s', ∃ d, s' = lset idev_lens d s ∧ I d ∧
    (∀ r', redir d r' = if decide (r' = r) then v else redir (idev s) r') ∧
    (∀ p, imr d p = imr (idev s) p)) s.
Proof.
  intros [Ea HI] Hr Hv. unfold ioapic_write. apply wp_bind, wp_get. rewrite Ea. cbn [a_ioapic].
  apply zoom_wp. apply wp_bind, wp_modify, wp_modify. eexists. split; [reflexivity|].
  assert (u32 r = r) as -> by (apply Z.mod_small; lia). assert (u32 v = v) as -> by (apply Z.mod_small; lia).
  by apply (@io_write _ _ _ _ _ _ _ _ HW).
Qed.

Lemma lapic_id_wp s : addressed s →
  wp (apic_lapic_id hw) (λ v s', 0 <= v < 256 ∧ ∃ d, s' = lset idev_lens d s ∧ I d ∧ quiet redir imr (idev s) d) s.
Proof.
  intros [Ea HI]. unfold apic_lapic_id. apply wp_bind, wp_get. rewrite Ea. cbn [a_lapic].
  destruct (Z.eqb_spec lapic 0); [done|]. apply wp_bind. unfold lapic_read. apply wp_bind, wp_get.
  rewrite Ea. cbn [a_lapic]. apply zoom_wp. unfold mmio_read32. apply wp_bind. unfold wp at 1, lift.
  destruct (@lapic_id_read _ _ _ _ _ _ _ _ HW (idev s) HI) as (v & d & E & Hd & Hq). cbn [lget idev_lens]. rewrite E.
  apply wp_ret, wp_ret. split; [apply u8_range|eauto].
Qed.

Lemma apic_route_wp g vector flags s : addressed s → gb <= g → g - gb <= max_redir →
  wp (apic_route_irq hw g vector flags) (λ b s', b = true ∧ ∃ d, s' = lset idev_lens d s ∧ I d ∧
    redir d (low_reg g) = redirection vector flags ∧
    (∀ r, r ≠ low_reg g → r ≠ low_reg g + 1 → redir d r = redir (idev s) r) ∧
    (∀ p, imr d p = imr (idev s) p)) s.
Proof.
  intros A Hg Hm. pose proof A as [Ea HI]. unfold apic_route_irq. apply wp_bind, wp_get. rewrite Ea. cbn [a_ioapic a_gsi_base].
  destruct (Z.eqb_spec ioapic 0); [done|]. apply wp_bind. unfold ioapic_read. apply wp_bind, wp_get.
  rewrite Ea. cbn [a_ioapic]. apply zoom_wp, wp_bind, wp_modify. unfold mmio_read32. apply wp_bind. unfold wp at 1, lift.
  cbn [lget idev_lens]. change (u32 IOAPIC_REG_VER) with IOAPIC_REG_VER.
  destruct (@io_version _ _ _ _ _ _ _ _ HW (idev s) HI) as (v & d1 & -> & H1 & [Hr1 Hp1] & Hv). apply wp_ret. rewrite Hv.
  destruct (Z.ltb_spec g gb); [lia|]. destruct (Z.ltb_spec max_redir (g - gb)); [lia|].
  assert (u8 (16 + (g - gb) * 2) = low_reg g) as -> by (unfold low_reg; rewrite u8_small; lia).
  assert (u8 (low_reg g + 1) = low_reg g + 1) as -> by (unfold low_reg; rewrite u8_small; lia).
  apply wp_bind. eapply wp_mono; [apply lapic_id_wp; by split|]. intros lid s2 (Hlid & d2 & -> & H2 & [Hr2 Hp2]).
  apply wp_bind. eapply wp_mono; [apply ioapic_write_wp; [by split|unfold low_reg; lia|]|].
  { rewrite Z.shiftl_mul_pow2 by lia. lia. }
  intros [] s3 (d3 & -> & H3 & Hr3 & Hp3). apply wp_bind.
  eapply wp_mono; [apply ioapic_write_wp; [by split|unfold low_reg; lia|apply redirection_range]|].
  intros [] s4 (d4 & -> & H4 & Hr4 & Hp4). apply wp_ret. split; [done|]. exists d4. split_and!; [done|done| | |].
  - rewrite Hr4. by case_decide.
  - intros r Hne1 Hne2. rewrite Hr4, Hr3, Hr2, Hr1. by repeat case_decide.
  - intros p. by rewrite Hp4, Hp3, Hp2, Hp1.
Qed.

(** The entry the firmware asks for. *)
Definition wanted (i : Z) : Z := redirection (IRQ_VECTOR_BASE + i) (flags_of i).
Definition first_claim (i : Z) : Prop := ∀ j, 0 <= j < i → gsi_of j ≠ gsi_of i.

(** The first [n] IRQs have been routed, from state [s0]. *)
Record routed (s0 : irqc D) (n : Z) (s : irqc D) (claimed : list bool) : Prop := {
  rt_addr : addressed s;
  rt_redir : ∀ i, 0 <= i < n → gb <= gsi_of i → first_claim i → redir (idev s) (low_reg (gsi_of i)) = wanted i;
  rt_len : length claimed = 256%nat;
  rt_claimed : ∀ g, 0 <= g < 256 →
    default false (claimed !! Z.to_nat g) = true ↔ gb <= g ∧ ∃ i, 0 <= i < n ∧ gsi_of i = g;
  rt_imr : ∀ p, imr (idev s) p = imr (idev s0) p;
  rt_gsi : length (g_irq_gsi s) = 16%nat ∧ ∀ i, 0 <= i < n → g_irq_gsi s !! Z.to_nat i = Some (gsi_of i);
  rt_rest : g_stats s = g_stats s0 ∧ g_backend s = g_backend s0
}.

Context (Hgsi : ∀ i, 0 <= i < 16 → 0 <= gsi_of i < 256 ∧ gsi_of i - gb <= max_redir).
Context (Hgb_eq : ioapic_gsi_base (g_madt ac) = gb).

Lemma claimed_same n g : gb > gsi_of n ∨ (∃ i, 0 <= i < n ∧ gsi_of i = gsi_of n) → 0 <= n →
  (gb <= g ∧ ∃ i, 0 <= i < n ∧ gsi_of i = g) ↔ (gb <= g ∧ ∃ i, 0 <= i < n + 1 ∧ gsi_of i = g).
Proof.
  intros H Hn. split; intros [Hg (i & Hi & Ei)]; (split; [done|]).
  - exists i. split; [lia|done].
  - destruct (decide (i = n)) as [->|]; [|exists i; split; [lia|done]].
    destruct H as [H|(j & Hj & Ej)]; [lia|]. exists j. split; [lia|congruence].
Qed.

Lemma set_gsi_lookup (l : list Z) n g : length l = 16%nat → 0 <= n < 16 →
  (∀ i, 0 <= i < n → l !! Z.to_nat i = Some (gsi_of i)) → g = gsi_of n →
  length (<[Z.to_nat n := g]> l) = 16%nat ∧
  ∀ i, 0 <= i < n + 1 → <[Z.to_nat n := g]> l !! Z.to_nat i = Some (gsi_of i).
Proof.
  intros Hl Hn H ->. split; [by rewrite length_insert|]. intros i Hi. destruct (decide (i = n)) as [->|].
  - apply list_lookup_insert_eq. lia.
  - rewrite list_lookup_insert_ne by lia. apply H. lia.
Qed.

Lemma route_irq_wp s0 critical n s claimed : routed s0 n s claimed → 0 <= n < 16 →
  (critical = true → first_claim n) →
  wp (route_irq hw ac critical n claimed) (λ r s', ∃ c, r = Some c ∧ routed s0 (n + 1) s' c) s.
Proof.
  intros [A R L C P [Gl G] [St Bk]] Hn Hcrit. unfold route_irq.
  destruct (Hgsi n Hn) as [Hg Hgm].
  destruct (acpi_get_irq_override n ac) as [[b g] fl] eqn:E.
  assert (gsi_of n = g ∧ flags_of n = fl) as [Eg Ef] by (by rewrite E). cbn [fst snd] in Hg, Hgm.
  apply wp_bind, wp_modify. rewrite Hgb_eq. set (s1 := Irqc _ _ _ _ _ _).
  pose proof (set_gsi_lookup (g_irq_gsi s) n g Gl Hn G (eq_sym Eg)) as G1.
  destruct (Z.ltb_spec g gb).
  { apply wp_ret. exists claimed. split; [done|]. split; [done| |done| |done|exact G1|done].
    - intros i Hi Hgi Hf. destruct (decide (i = n)) as [->|]; [rewrite Eg in Hgi; lia|]. apply R; [lia|done|done].
    - intros g' Hg'. rewrite C by done. apply claimed_same; [left; lia|lia]. }
  destruct (Z.ltb_spec g 256); [|lia]. rewrite andb_true_r.
  destruct (negb critical && default false (claimed !! Z.to_nat g)) eqn:Hdup.
  { apply andb_prop in Hdup as [_ Hcl]. apply (C g ltac:(lia)) in Hcl as [_ (j & Hj & Ej)].
    apply wp_bind, wp_modify, wp_ret. exists claimed. split; [done|]. split; [done| |done| |done|exact G1|done].
    - intros i Hi Hgi Hf. destruct (decide (i = n)) as [->|]; [|apply R; [lia|done|done]].
      exfalso. apply (Hf j Hj). congruence.
    - intros g' Hg'. rewrite C by done. apply claimed_same; [right; exists j; split; [lia|congruence]|lia]. }
  assert (∀ j, 0 <= j < n → gsi_of j ≠ g) as Hnew.
  { intros j Hj Ej. destruct critical; [by apply (Hcrit eq_refl j Hj); congruence|]. cbn in Hdup.
    rewrite (proj2 (C g ltac:(lia))) in Hdup; [done|]. split; [done|eauto]. }
  apply wp_bind. eapply wp_mono; [by apply apic_route_wp|].
  intros b' s2 (-> & d & -> & Hd & Hlow & Hoth & Hp). cbn [negb]. apply wp_ret. eexists. split; [reflexivity|].
  split.
  - by destruct A.
  - intros i Hi Hgi Hf. cbn [lset idev_lens idev]. destruct (decide (i = n)) as [->|].
    + rewrite Eg, Hlow. unfold wanted. rewrite Ef. f_equal. apply u8_small. unfold IRQ_VECTOR_BASE. lia.
    + rewrite Hoth; [apply R; [lia|done|done]|..]; pose proof (Hnew i ltac:(lia)); unfold low_reg; lia.
  - by rewrite length_insert.
  - intros g' Hg'. destruct (decide (g' = g)) as [->|].
    + rewrite list_lookup_insert_eq by lia. cbn. split; [|done]. intros _. split; [done|]. exists n. split; [lia|done].
    + rewrite list_lookup_insert_ne by lia. rewrite C by done. split; intros [? (i & Hi & Ei)]; (split; [done|]).
      * exists i. split; [lia|done].
      * exists i. split; [|done]. destruct (decide (i = n)) as [->|]; [congruence|lia].
  - intros p. cbn. rewrite Hp. apply P.
  - exact G1.
  - done.
Qed.

Lemma route_all_wp s0 irqs n s claimed : routed s0 n s claimed → 0 <= n →
  map snd irqs = seqZ n (Z.of_nat (length irqs)) → n + Z.of_nat (length irqs) <= 16 →
  Forall (λ '(critical, i), critical = true → first_claim i) irqs →
  wp (route_all hw ac irqs claimed) (λ r s', ∃ c, r = Some c ∧ routed s0 (n + Z.of_nat (length irqs)) s' c) s.
Proof.
  revert n s claimed. induction irqs as [|[cr i] irqs IH]; intros n s claimed R Hn Hm Hle Hf.
  - apply wp_ret. rewrite Z.add_0_r. eauto.
  - cbn [length] in *. rewrite seqZ_cons in Hm by lia. cbn in Hm. injection Hm as -> Hm. inversion_clear Hf as [|?? Hc Hf'].
    cbn [route_all]. apply wp_bind. eapply wp_mono; [by apply route_irq_wp; [|lia|]|].
    intros r s' (c & -> & R'). eapply wp_mono; [apply IH; [exact R'|lia| |lia|done]|].
    + rewrite Hm. f_equal; lia.
    + intros r s'' (c' & -> & R''). exists c'. split; [done|]. by replace (n + Z.of_nat (S (length irqs))) with (n + 1 + Z.of_nat (length irqs)) by lia.
Qed.

(** ** Masking the legacy controllers *)
Lemma pic_port_data i : pic_port i = PIC1_DATA ∨ pic_port i = PIC2_DATA.
Proof. unfold pic_port. case_match; auto. Qed.

Lemma pic_mask_wp i d : I d → 0 <= i < 16 →
  wp (pic_mask hw i) (λ _ d', I d' ∧ (∀ r, redir d' r = redir d r) ∧
    (∀ p k, 0 <= k → Z.testbit (imr d p) k = true → Z.testbit (imr d' p) k = true) ∧
    Z.testbit (imr d' (pic_port i)) (i `mod` 8) = true) d.
Proof.
  intros HI Hi. unfold pic_mask, inb. apply wp_bind, wp_bind. unfold wp at 1, lift.
  destruct (@pic_read _ _ _ _ _ _ _ _ HW (pic_port i) d (pic_port_data i) HI) as (d1 & -> & H1 & [Hr Hp] & Hv).
  apply wp_ret, wp_modify. rewrite (u8_small (imr d _)) by done.
  assert (pic_bit i = 2 ^ (i `mod` 8) ∧ 0 <= i `mod` 8 < 8) as [-> Hb].
  { split; [|apply Z.mod_pos_bound; lia]. unfold pic_bit. rewrite Z.shiftl_1_l. f_equal.
    destruct (Z.leb_spec 8 i); arith. }
  assert (0 <= Z.lor (imr d (pic_port i)) (2 ^ (i `mod` 8)) < 2 ^ 8) as Hl.
  { apply lor_range; [lia|done|]. split; [lia|]. apply Z.pow_lt_mono_r; lia. }
  rewrite u8_small by exact Hl.
  destruct (@pic_write _ _ _ _ _ _ _ _ HW (pic_port i) _ d1 (pic_port_data i) H1 Hl) as (H2 & Hp2 & Hr2).
  split_and!; [done|intros r; by rewrite Hr2, Hr| |].
  - intros p k Hk Ht. rewrite Hp2. case_decide; [subst p; rewrite Z.lor_spec, Ht; done|by rewrite Hp].
  - rewrite Hp2, decide_True, Z.lor_spec, Z.pow2_bits_true by (done || lia). by rewrite orb_true_r.
Qed.

Lemma all_bits v : 0 <= v < 256 → (∀ k, 0 <= k < 8 → Z.testbit v k = true) → v = 255.
Proof.
  intros Hv H. apply Z.bits_inj'. intros k Hk. destruct (Z.lt_ge_cases k 8).
  - rewrite H by lia. symmetry. by apply (Z.ones_spec_low 8).
  - rewrite (testbit_lt v 8) by lia. symmetry. by apply (Z.ones_spec_high 8).
Qed.

Lemma mask_all_wp d : I d →
  wp (forZ 16 0 (pic_mask hw)) (λ _ d', I d' ∧ (∀ r, redir d' r = redir d r) ∧
    imr d' PIC1_DATA = 255 ∧ imr d' PIC2_DATA = 255) d.
Proof.
  intros HI. eapply wp_mono.
  { apply (wp_forZ (λ j d', I d' ∧ (∀ r, redir d' r = redir d r) ∧
      ∀ i, 0 <= i < j → Z.testbit (imr d' (pic_port i)) (i `mod` 8) = true) 16 0).
    - split_and!; [done|done|lia].
    - intros j d' Hj (H & Hr & Hb). eapply wp_mono; [by apply pic_mask_wp; [|lia]|].
      intros [] d2 (H2 & Hr2 & Hk & Hj'). split_and!; [done|intros r; by rewrite Hr2, Hr|].
      intros i Hi. destruct (decide (i = j)) as [->|]; [done|].
      apply Hk; [apply Z.mod_pos_bound; lia|]. apply Hb. lia. }
  intros [] d' (H & Hr & Hb). split_and!; [done|done|..].
  - destruct (@pic_read _ _ _ _ _ _ _ _ HW PIC1_DATA d' (or_introl eq_refl) H) as (_ & _ & _ & _ & Hv).
    apply all_bits; [done|]. intros k Hk. specialize (Hb k ltac:(lia)). rewrite Z.mod_small in Hb by lia.
    unfold pic_port in Hb. by destruct (Z.ltb_spec k 8); [|lia].
  - destruct (@pic_read _ _ _ _ _ _ _ _ HW PIC2_DATA d' (or_intror eq_refl) H) as (_ & _ & _ & _ & Hv).
    apply all_bits; [done|]. intros k Hk. specialize (Hb (8 + k) ltac:(lia)).
    replace ((8 + k) `mod` 8) with k in Hb by arith.
    unfold pic_port in Hb. by destruct (Z.ltb_spec (8 + k) 8); [lia|].
Qed.

Lemma apic_enable_wp s : addressed s →
  wp (apic_enable hw) (λ b s', b = true ∧ addressed s' ∧ quiet redir imr (idev s) (idev s') ∧
    g_irq_gsi s' = g_irq_gsi s ∧ g_stats s' = g_stats s ∧ g_backend s' = g_backend s) s.
Proof.
  intros [Ea HI]. unfold apic_enable. apply wp_bind, wp_gets. unfold apic_can_enable. rewrite Ea. cbn [a_lapic a_ioapic].
  destruct (Z.eqb_spec lapic 0), (Z.eqb_spec ioapic 0); try done. cbn [negb andb].
  apply wp_bind, zoom_wp. unfold rdmsr. apply wp_bind. unfold wp at 1, lift. cbn [lget idev_lens].
  destruct (@base_msr_read _ _ _ _ _ _ _ _ HW (idev s) HI) as (v & d1 & -> & H1 & [Hr1 Hp1]).
  apply wp_ret, wp_bind, zoom_wp, wp_modify. set (d2 := write_msr _ _ _ _).
  destruct (@base_msr_write _ _ _ _ _ _ _ _ HW (u64 (Z.lor (u64 v) IA32_APIC_BASE_ENABLE)) d1 H1 : I d2 ∧ quiet redir imr d1 d2) as (H2 & [Hr2 Hp2]).
  apply wp_bind. unfold lapic_write. apply wp_bind, wp_get. cbn [g_addrs lset idev_lens]. rewrite Ea. cbn [a_lapic].
  apply zoom_wp, wp_modify. cbn [lget lset idev_lens idev].
  destruct (@lapic_svr_write _ _ _ _ _ _ _ _ HW (u32 (Z.lor 256 255)) d2 H2) as (H3 & [Hr3 Hp3]).
  apply wp_bind, wp_modify, wp_ret. split_and!; [done|by split| |done|done|done].
  split; cbn; intros r; [by rewrite Hr3, Hr2, Hr1|by rewrite Hp3, Hp2, Hp1].
Qed.

End routing.

(** ** Example: the machine of ACPI's example table *)

(** An I/O APIC of 24 entries at 0xFEC00000 and two mask registers. *)
Record ex_chips := Chips { sel : Z; ioregs : Z → Z; masks : Z → Z }.
Definition ex_machine : machine ex_chips :=
  Machine (λ p d, (masks d p, d))
    (λ p v d, Chips (sel d) (ioregs d) (λ p', if decide (p' = p) then v else masks d p'))
    (λ _ d, (0, d)) (λ _ _ d, d)
    (λ a d, (if a =? 0xFEC00010 then (if sel d =? 1 then Z.shiftl 23 16 else ioregs d (sel d)) else 0, d))
    (λ a v d, if a =? 0xFEC00000 then Chips v (ioregs d) (masks d)
              else if a =? 0xFEC00010 then Chips (sel d) (λ r, if decide (r = sel d) then v else ioregs d r) (masks d)
              else d)
    (λ _ d, (0, d)) (λ _ _ d, d).

Lemma ex_machine_ok :
  IrqHardware ioregs masks ex_machine 0xFEE00000 0xFEC00000 23 (λ d, ∀ p, 0 <= masks d p < 256).
Proof.
  split.
  - intros r v d HI Hr Hv. cbn. by split.
  - intros d HI. eexists _, _. split; [reflexivity|]. by split_and!.
  - intros d HI. eexists _, _. split; [reflexivity|]. by split_and!.
  - intros v d HI. cbn. by split_and!.
  - intros d HI. eexists _, _. split; [reflexivity|]. by split_and!.
  - intros v d HI. cbn. by split_and!.
  - intros p d _ HI. eexists. split; [reflexivity|]. split_and!; [done|done|apply HI..].
  - intros p v d _ HI Hv. cbn. split_and!; [|done|done]. intros p'. by case_decide.
Qed.

Definition ex_irqc : irqc ex_chips :=
  Irqc (Chips 0 (λ _, 0x10000) (λ _, 0xFF)) (Addrs 0 0 0) IRQ_BACKEND_PIC (seqZ 0 16) (Stats 0 0 0 0 0 0) [].

(** The firmware data with IRQ 0 on GSI 2, where IRQ 2 would be too. *)
Definition ex_firmware : acpi :=
  Acpi ∅ 0 0 (MadtInfo true 0xFEE00000 0xFEC00000 0 1 1 (<[0%nat := Iso 0 2 0 true]> (replicate 16 (Iso 0 0 0 false))))
    0 0 0 0 0 0 false [].

