(* ===== verification/Pmm.v ===== *)
(** * Physical memory manager (kernel/pmm.c)

    The PMM keeps one bit per 4 KiB page in a bitmap that itself lies in
    physical memory, right after the early page tables.  A set bit is a used
    page.  The file models the active half of pmm.c (its first 183 lines are a
    commented-out older version): the bitmap helpers, [pmm_init], the two
    allocators, [pmm_free_page] and the statistics.  The console output of
    [pmm_init] is not part of the PMM's state and is left out. *)
From stdpp Require Import base gmap list list_numbers.
From S2P Require Import Prelude Monad Mem.

(** ** The boot hand-off (bootinfo.h, types.h) *)
Record BootInfo := {
  framebuffer : Z;
  width : Z;
  height : Z;
  pixels_per_scanline : Z;
  memory_map : Z;
  memory_map_size : Z;
  memory_map_descriptor_size : Z;
  rsdp : Z
}.

(** Fields of the [EFI_MEMORY_DESCRIPTOR] at address [d]. *)
Definition desc_Type (m : memory) (d : Z) : Z := rd32 m d.
Definition desc_PhysicalStart (m : memory) (d : Z) : Z := rd64 m (d + 8).
Definition desc_NumberOfPages (m : memory) (d : Z) : Z := rd64 m (d + 24).

(** Addresses visited by
    [for (off = 0; off < memory_map_size; off += memory_map_descriptor_size)];
    kernel_main asserts that the stride is not 0. *)
Definition descriptors (bi : BootInfo) : list Z :=
  let dsize := memory_map_descriptor_size bi in
  (λ i, memory_map bi + i * dsize) <$> seqZ 0 ((memory_map_size bi + dsize - 1) / dsize).

Definition KERNEL_VIRT_BASE : Z := 0xFFFFFFFF80000000.
Definition KERNEL_PHYS_BASE : Z := 0x100000.

(** ** State: memory and the four static variables *)
Record pmm := Pmm {
  mem : memory;
  bitmap : Z;
  bitmap_size : Z;
  total_pages : Z;
  free_pages : Z
}.

Definition set_mem (m : memory) (s : pmm) : pmm :=
  Pmm m (bitmap s) (bitmap_size s) (total_pages s) (free_pages s).
Definition set_free (f : Z) (s : pmm) : pmm :=
  Pmm (mem s) (bitmap s) (bitmap_size s) (total_pages s) f.

(** ** Bitmap helpers *)
Definition bitmap_set (page_index : Z) (s : pmm) : pmm :=
  let a := bitmap s + page_index / 8 in
  set_mem (wr8 (mem s) a (Z.lor (rd8 (mem s) a) (Z.shiftl 1 (page_index `mod` 8)))) s.

Definition bitmap_clear (page_index : Z) (s : pmm) : pmm :=
  let a := bitmap s + page_index / 8 in
  set_mem (wr8 (mem s) a
    (Z.land (rd8 (mem s) a) (Z.lnot (Z.shiftl 1 (page_index `mod` 8))))) s.

Definition bitmap_test (page_index : Z) (s : pmm) : Z :=
  Z.land (rd8 (mem s) (bitmap s + page_index / 8)) (Z.shiftl 1 (page_index `mod` 8)).

Definition reserve_page (page : Z) (s : pmm) : pmm :=
  if total_pages s <=? page then s
  else if bitmap_test page s =? 0
       then let s' := bitmap_set page s in set_free (u64 (free_pages s' - 1)) s'
       else s.

(** [for (p = start; p < start + n; p++) reserve_page(p);] *)
Fixpoint reserve_loop (n : nat) (start : Z) (s : pmm) : pmm :=
  match n with
  | O => s
  | S n' => reserve_loop n' (start + 1) (reserve_page start s)
  end.

Definition reserve_pages (start_page end_page : Z) (s : pmm) : pmm :=
  reserve_loop (Z.to_nat (end_page - start_page)) start_page s.

Definition reserve_range (start bytes : Z) (s : pmm) : pmm :=
  if bytes =? 0 then s
  else
    let start_page := start / PAGE_SIZE in
    let end_page := u64 (start + bytes + PAGE_SIZE - 1) / PAGE_SIZE in
    reserve_pages start_page end_page s.

(** ** Initialisation *)
Definition max_addr_of (m : memory) (bi : BootInfo) : Z :=
  fold_left (λ acc d,
    let e := u64 (desc_PhysicalStart m d + u64 (desc_NumberOfPages m d * PAGE_SIZE)) in
    if acc <? e then e else acc) (descriptors bi) 0.

(** [for (p = 0; p < n; p++) { bitmap_clear(start + p); free_pages++; }] *)
Fixpoint free_loop (n : nat) (page : Z) (s : pmm) : pmm :=
  match n with
  | O => s
  | S n' =>
      let s1 := bitmap_clear page s in
      free_loop n' (page + 1) (set_free (u64 (free_pages s1 + 1)) s1)
  end.

(** One descriptor of the pass that frees conventional memory. *)
Definition free_descriptor (s : pmm) (d : Z) : pmm :=
  if desc_Type (mem s) d =? 7
  then free_loop (Z.to_nat (desc_NumberOfPages (mem s) d))
                 (desc_PhysicalStart (mem s) d / PAGE_SIZE) s
  else s.

(** One descriptor of the pass that reserves firmware-owned memory. *)
Definition reserve_descriptor (s : pmm) (d : Z) : pmm :=
  let t := desc_Type (mem s) d in
  if (t =? 5) || (t =? 6) || (t =? 9) || (t =? 10) || (t =? 11)
  then reserve_range (desc_PhysicalStart (mem s) d)
                     (u64 (desc_NumberOfPages (mem s) d * PAGE_SIZE)) s
  else s.

Section init.
(** [&_kernel_end] (a linker symbol) and [paging_arena_end] (set by paging.c). *)
Context (kernel_end_virt paging_arena_end : Z).

Definition kernel_end_phys : Z :=
  u64 (kernel_end_virt - KERNEL_VIRT_BASE + KERNEL_PHYS_BASE).

(** Lines 231-251: size the bitmap and mark everything used. *)
Definition pmm_init_bitmap (bi : BootInfo) (m : memory) : pmm :=
  let total := max_addr_of m bi / PAGE_SIZE in
  let bsize := (total + 7) / 8 in
  Pmm (fill8 m paging_arena_end (Z.to_nat bsize) 0xFF) paging_arena_end bsize total 0.

(** Lines 264-294: kernel image, page tables, bitmap, low memory,
    framebuffer and RSDP. *)
Definition pmm_init_reserve (bi : BootInfo) (s : pmm) : pmm :=
  let k_start := KERNEL_PHYS_BASE / PAGE_SIZE in
  let k_end := u64 (kernel_end_phys + PAGE_SIZE - 1) / PAGE_SIZE in
  let s := reserve_pages k_start k_end s in
  let pt_start := k_end in
  let pt_end := paging_arena_end / PAGE_SIZE in
  let s := reserve_pages pt_start pt_end s in
  let bm_start := paging_arena_end / PAGE_SIZE in
  let bm_end := u64 (paging_arena_end + bitmap_size s + PAGE_SIZE - 1) / PAGE_SIZE in
  let s := reserve_pages bm_start bm_end s in
  let s := reserve_page 0 s in
  let s := reserve_pages 1 16 s in
  let fb_bytes := u64 (height bi * pixels_per_scanline bi * 4) in
  let s := reserve_range (framebuffer bi) fb_bytes s in
  reserve_range (rsdp bi) PAGE_SIZE s.

Definition pmm_init (bi : BootInfo) (m : memory) : pmm :=
  let s := pmm_init_bitmap bi m in
  let s := fold_left free_descriptor (descriptors bi) s in
  let s := pmm_init_reserve bi s in
  fold_left reserve_descriptor (descriptors bi) s.
End init.

(** ** Allocation and release *)
Fixpoint alloc_page_loop (n : nat) (i : Z) (s : pmm) : Z * pmm :=
  match n with
  | O => (0, s)
  | S n' =>
      if bitmap_test i s =? 0
      then let s' := bitmap_set i s in
           (i * PAGE_SIZE, set_free (u64 (free_pages s' - 1)) s')
      else alloc_page_loop n' (i + 1) s
  end.

Definition pmm_alloc_page (s : pmm) : Z * pmm :=
  alloc_page_loop (Z.to_nat (total_pages s)) 0 s.

(** The inner loop of [pmm_alloc_pages]: the first used page of a run. *)
Fixpoint first_used (n : nat) (j : Z) (s : pmm) : option Z :=
  match n with
  | O => None
  | S n' => if bitmap_test j s =? 0 then first_used n' (j + 1) s else Some j
  end.

(** [for (j = i; j < i + n; j++) { bitmap_set(j); free_pages--; }] *)
Fixpoint take_loop (n : nat) (j : Z) (s : pmm) : pmm :=
  match n with
  | O => s
  | S n' =>
      let s' := bitmap_set j s in
      take_loop n' (j + 1) (set_free (u64 (free_pages s' - 1)) s')
  end.

(** The outer loop of [pmm_alloc_pages]; the loop variable grows by at least
    one per round, so [total_pages] rounds are enough fuel. *)
Fixpoint alloc_pages_loop (fuel : nat) (i count : Z) (s : pmm) : Z * pmm :=
  match fuel with
  | O => (0, s)
  | S fuel' =>
      if i <=? total_pages s - count
      then match first_used (Z.to_nat count) i s with
           | None => (i * PAGE_SIZE, take_loop (Z.to_nat count) i s)
           | Some j => alloc_pages_loop fuel' (j + 1) count s
           end
      else (0, s)
  end.

Definition pmm_alloc_pages (count : Z) (s : pmm) : Z * pmm :=
  if (count =? 0) || (total_pages s <? count) then (0, s)
  else alloc_pages_loop (S (Z.to_nat (total_pages s))) 1 count s.

Definition pmm_free_page (addr : Z) (s : pmm) : pmm :=
  let page := addr / PAGE_SIZE in
  if (page =? 0) || (total_pages s <=? page) then s
  else if bitmap_test page s =? 0 then s
       else let s' := bitmap_clear page s in set_free (u64 (free_pages s' + 1)) s'.

Definition pmm_get_free_pages (s : pmm) : Z := free_pages s.
Definition pmm_get_total_pages (s : pmm) : Z := total_pages s.

(** ** Well-formed allocator states *)
Definition page_used (p : Z) (s : pmm) : bool :=
  Z.testbit (rd8 (mem s) (bitmap s + p / 8)) (p `mod` 8).
Definition page_free (s : pmm) (p : Z) : bool := negb (page_used p s).

(** The free counter agrees with the bitmap, and the bitmap has room for
    every page. *)
Record pmm_wf (s : pmm) : Prop := {
  wf_total : 0 <= total_pages s < 2 ^ 52;
  wf_size : bitmap_size s = (total_pages s + 7) / 8;
  wf_count : free_pages s = countb (page_free s) (Z.to_nat (total_pages s))
}.

(** What every PMM operation leaves alone: the layout, and all memory outside
    the bitmap. *)
Record pmm_frame (s s' : pmm) : Prop := {
  fr_bitmap : bitmap s' = bitmap s;
  fr_size : bitmap_size s' = bitmap_size s;
  fr_total : total_pages s' = total_pages s;
  fr_mem : same_outside (bitmap s) (bitmap s + bitmap_size s) (mem s) (mem s')
}.

(** [s'] is a well-formed successor of [s] whose used pages are [used']. *)
Definition pmm_step (s s' : pmm) (used' : Z → bool) : Prop :=
  pmm_wf s' ∧ pmm_frame s s' ∧ ∀ q, 0 <= q < total_pages s → page_used q s' = used' q.

Lemma pmm_frame_refl s : pmm_frame s s.
Proof. split; auto with samos. Qed.

Lemma pmm_frame_trans s1 s2 s3 : pmm_frame s1 s2 → pmm_frame s2 s3 → pmm_frame s1 s3.
Proof.
  intros [A1 A2 A3 A4] [B1 B2 B3 B4]. split; try congruence.
  rewrite A1, A2 in B4. eapply same_outside_trans; eauto.
Qed.

#[export] Hint Resolve pmm_frame_refl pmm_frame_trans : samos.

Lemma pmm_step_refl s : pmm_wf s → pmm_step s s (λ q, page_used q s).
Proof. intros W. split_and!; auto with samos. Qed.

Lemma pmm_step_ext s s' u u' :
  pmm_step s s' u → (∀ q, 0 <= q < total_pages s → u q = u' q) → pmm_step s s' u'.
Proof. intros (W & F & U) E. split_and!; [done..|]. intros q ?. rewrite U, E; done. Qed.

Lemma pmm_step_trans s s1 s2 u1 (u2 : (Z → bool) → Z → bool) :
  pmm_step s s1 u1 →
  pmm_step s1 s2 (u2 (λ q, page_used q s1)) →
  (∀ f g q, 0 <= q < total_pages s → f q = g q → u2 f q = u2 g q) →
  pmm_step s s2 (u2 u1).
Proof.
  intros (W1 & F1 & U1) (W2 & F2 & U2) Hext. split_and!; [done|eauto with samos|].
  intros q Hq. rewrite U2 by (by rewrite (fr_total _ _ F1)). apply Hext; auto.
Qed.

Section bits.
Implicit Types s : pmm.

Lemma bitmap_test_0 p s : (bitmap_test p s =? 0) = page_free s p.
Proof. unfold bitmap_test, page_free, page_used. apply land_bit_0. by apply Z.mod_pos_bound. Qed.

Lemma shiftl1_byte k : 0 <= k < 8 → 0 <= Z.shiftl 1 k < 2 ^ 8.
Proof.
  intros. rewrite Z.shiftl_1_l. split; [lia|]. apply Z.pow_lt_mono_r; lia.
Qed.

Lemma shiftl1_bit k i : 0 <= k → Z.testbit (Z.shiftl 1 k) i = (k =? i).
Proof.
  intros. rewrite Z.shiftl_1_l. destruct (Z.eqb_spec k i) as [->|].
  - by apply Z.pow2_bits_true.
  - by apply Z.pow2_bits_false.
Qed.

Lemma page_split p q : 0 <= p → 0 <= q →
  (p =? q) = bool_decide (p / 8 = q / 8) && (p `mod` 8 =? q `mod` 8).
Proof.
  intros. destruct (Z.eqb_spec p q) as [->|Hne].
  { by rewrite bool_decide_eq_true_2, Z.eqb_refl. }
  case_bool_decide as E; [|done]. simpl. symmetry. apply Z.eqb_neq. arith.
Qed.

Lemma page_used_set p q s : 0 <= p → 0 <= q →
  page_used q (bitmap_set p s) = (p =? q) || page_used q s.
Proof.
  intros Hp Hq. unfold page_used, bitmap_set. cbn [mem bitmap set_mem].
  pose proof (Z.mod_pos_bound p 8 eq_refl). rewrite page_split, rd8_wr8 by lia.
  repeat case_decide; repeat case_bool_decide; try lia; [|done].
  rewrite u8_small by (apply (lor_range _ _ 8); auto using shiftl1_byte, rd8_range; lia).
  rewrite Z.lor_spec, shiftl1_bit by lia. simpl.
  replace (q / 8) with (p / 8) by lia. apply orb_comm.
Qed.

Lemma page_used_clear p q s : 0 <= p → 0 <= q →
  page_used q (bitmap_clear p s) = negb (p =? q) && page_used q s.
Proof.
  intros Hp Hq. unfold page_used, bitmap_clear. cbn [mem bitmap set_mem].
  pose proof (Z.mod_pos_bound p 8 eq_refl). pose proof (Z.mod_pos_bound q 8 eq_refl).
  rewrite page_split, rd8_wr8 by lia.
  repeat case_decide; repeat case_bool_decide; try lia; [|done].
  rewrite u8_small by (apply (land_range _ _ 8); auto using rd8_range; lia).
  rewrite Z.land_spec, Z.lnot_spec, shiftl1_bit by lia. simpl.
  replace (q / 8) with (p / 8) by lia. apply andb_comm.
Qed.
End bits.

(** [page_used] only looks at the bitmap. *)
Lemma page_used_frame p s s' :
  bitmap s' = bitmap s →
  rd8 (mem s') (bitmap s + p / 8) = rd8 (mem s) (bitmap s + p / 8) →
  page_used p s' = page_used p s.
Proof. unfold page_used. by intros -> ->. Qed.

Section step_lemmas.
Implicit Types s : pmm.

(** Mark a free page used and count it, as the allocators and
    [reserve_page] do. *)
Lemma take_page_step p s :
  pmm_wf s → 0 <= p < total_pages s → page_used p s = false →
  pmm_step s (set_free (u64 (free_pages (bitmap_set p s) - 1)) (bitmap_set p s))
    (λ q, (p =? q) || page_used q s).
Proof.
  intros [Ht Hs Hc] Hp Hu.
  assert (∀ q, 0 <= q < total_pages s →
    page_used q (bitmap_set p s) = (p =? q) || page_used q s) as HU
    by (intros; apply page_used_set; lia).
  assert (countb (page_free (bitmap_set p s)) (Z.to_nat (total_pages s)) =
    free_pages s - 1) as Hcnt.
  { rewrite (countb_upd (page_free s) _ _ p), <-Hc by
      (try lia; intros; unfold page_free; rewrite HU by lia;
       by destruct (Z.eqb_spec p j); [lia|]).
    unfold page_free. rewrite HU, Hu, Z.eqb_refl by lia. simpl. lia. }
  pose proof (countb_range (page_free (bitmap_set p s)) (Z.to_nat (total_pages s))).
  split_and!; [split|split|]; try done.
  - cbn. rewrite u64_small by lia. rewrite <-Hcnt. by apply countb_ext.
  - cbn. eapply same_outside_weaken; [| |apply wr8_same_outside]; [arith|].
    rewrite Hs. arith.
Qed.

(** Mark a used page free and count it. *)
Lemma give_page_step p s :
  pmm_wf s → 0 <= p < total_pages s → page_used p s = true →
  pmm_step s (set_free (u64 (free_pages (bitmap_clear p s) + 1)) (bitmap_clear p s))
    (λ q, negb (p =? q) && page_used q s).
Proof.
  intros [Ht Hs Hc] Hp Hu.
  assert (∀ q, 0 <= q < total_pages s →
    page_used q (bitmap_clear p s) = negb (p =? q) && page_used q s) as HU
    by (intros; apply page_used_clear; lia).
  assert (countb (page_free (bitmap_clear p s)) (Z.to_nat (total_pages s)) =
    free_pages s + 1) as Hcnt.
  { rewrite (countb_upd (page_free s) _ _ p), <-Hc by
      (try lia; intros; unfold page_free; rewrite HU by lia;
       by destruct (Z.eqb_spec p j); [lia|]).
    unfold page_free. rewrite HU, Hu, Z.eqb_refl by lia. simpl. lia. }
  pose proof (countb_range (page_free (bitmap_clear p s)) (Z.to_nat (total_pages s))).
  split_and!; [split|split|]; try done.
  - cbn. rewrite u64_small by lia. rewrite <-Hcnt. by apply countb_ext.
  - cbn. eapply same_outside_weaken; [| |apply wr8_same_outside]; [arith|].
    rewrite Hs. arith.
Qed.

Lemma reserve_page_step p s :
  pmm_wf s → 0 <= p → pmm_step s (reserve_page p s) (λ q, (p =? q) || page_used q s).
Proof.
  intros W Hp. unfold reserve_page. rewrite bitmap_test_0. unfold page_free.
  destruct (Z.leb_spec (total_pages s) p).
  { eapply pmm_step_ext; [by apply pmm_step_refl|]. intros q ?. simpl.
    by destruct (Z.eqb_spec p q); [lia|]. }
  destruct (page_used p s) eqn:E; simpl.
  - eapply pmm_step_ext; [by apply pmm_step_refl|]. intros q ?. simpl.
    destruct (Z.eqb_spec p q) as [->|]; [by rewrite E|done].
  - apply take_page_step; [done|lia|done].
Qed.

Lemma reserve_loop_step n p s :
  pmm_wf s → 0 <= p →
  pmm_step s (reserve_loop n p s)
    (λ q, ((p <=? q) && (q <? p + Z.of_nat n)) || page_used q s).
Proof.
  revert p s. induction n as [|n IH]; intros p s W Hp; cbn [reserve_loop].
  - eapply pmm_step_ext; [by apply pmm_step_refl|]. intros q ?. simpl. repeat zb_case; simpl; try lia; done.
  - pose proof (reserve_page_step p s W Hp) as S1.
    eapply pmm_step_ext.
    + eapply (pmm_step_trans _ _ _ _ (λ f q, ((p + 1 <=? q) && (q <? p + 1 + Z.of_nat n)) || f q));
        [exact S1|apply IH; [apply S1|lia]|].
      intros f g q _ ->. done.
    + intros q ?. cbn beta. destruct (page_used q s); [by rewrite !orb_true_r|].
      rewrite !orb_false_r. repeat zb_case; simpl; try lia; done.
Qed.

Lemma reserve_pages_step a b s :
  pmm_wf s → 0 <= a →
  pmm_step s (reserve_pages a b s) (λ q, ((a <=? q) && (q <? b)) || page_used q s).
Proof.
  intros W Ha. eapply pmm_step_ext; [by apply reserve_loop_step|].
  intros q ?. cbn beta. f_equal. repeat zb_case; simpl; try lia; done.
Qed.

Lemma reserve_range_step start bytes s :
  pmm_wf s → 0 <= start → 0 < bytes → start + bytes + 4095 < 2 ^ 64 →
  pmm_step s (reserve_range start bytes s)
    (λ q, ((start / PAGE_SIZE <=? q) && (q * PAGE_SIZE <? start + bytes)) || page_used q s).
Proof.
  intros W Hs Hb Hov. unfold reserve_range.
  destruct (Z.eqb_spec bytes 0); [lia|].
  eapply pmm_step_ext; [apply reserve_pages_step; [done|]|].
  { apply Z.div_pos; unfold PAGE_SIZE; lia. }
  intros q ?. cbn beta. do 2 f_equal. unfold PAGE_SIZE.
  rewrite u64_small by lia. repeat zb_case; arith.
Qed.
End step_lemmas.

(** ** Single-page allocation *)
Lemma alloc_page_loop_spec n i s :
  pmm_wf s → 0 <= i → i + Z.of_nat n <= total_pages s →
  let '(a, s') := alloc_page_loop n i s in
  (∃ p, i <= p < i + Z.of_nat n ∧ page_used p s = false ∧
        (∀ q, i <= q < p → page_used q s = true) ∧ a = p * PAGE_SIZE ∧
        pmm_step s s' (λ q, (p =? q) || page_used q s)) ∨
  (a = 0 ∧ s' = s ∧ ∀ q, i <= q < i + Z.of_nat n → page_used q s = true).
Proof.
  intros W. revert i. induction n as [|n IH]; intros i Hi Hn; cbn [alloc_page_loop].
  { right. split_and!; [done..|lia]. }
  rewrite bitmap_test_0. unfold page_free. destruct (page_used i s) eqn:E; cbn [negb].
  - specialize (IH (i + 1)). destruct (alloc_page_loop n (i + 1) s) as [a s'].
    destruct IH as [(p & Hp & Hf & Hl & Ha & Hs)|(Ha & Hs & Hu)]; [lia..| |].
    + left. exists p. split_and!; [lia|lia|done| |done|done].
      intros q ?. destruct (decide (q = i)) as [->|]; [done|]. apply Hl. lia.
    + right. split_and!; [done..|]. intros q ?.
      destruct (decide (q = i)) as [->|]; [done|]. apply Hu. lia.
  - left. exists i. split_and!; [lia|lia|done|lia|done|].
    apply take_page_step; [done|lia|done].
Qed.

Lemma alloc_page_loop_form n i s a s' :
  alloc_page_loop n i s = (a, s') →
  (a = 0 ∧ s' = s) ∨
  ∃ p, a = p * PAGE_SIZE ∧
       s' = set_free (u64 (free_pages (bitmap_set p s) - 1)) (bitmap_set p s).
Proof.
  revert i. induction n as [|n IH]; intros i; cbn [alloc_page_loop].
  - intros [= <- <-]. by left.
  - destruct (_ =? 0); [|apply IH]. intros [= <- <-]. right. by exists i.
Qed.

(** Setting and clearing a free page's bit gives the byte back. *)
Lemma bitmap_set_clear_mem p s s1 :
  0 <= p → page_used p s = false → mem s1 = mem (bitmap_set p s) → bitmap s1 = bitmap s →
  mem (bitmap_clear p s1) ≈ mem s.
Proof.
  intros Hp Hf Em Eb b. unfold bitmap_clear. cbn [mem set_mem]. rewrite Em, Eb.
  pose proof (Z.mod_pos_bound p 8 eq_refl). unfold page_used in Hf.
  unfold bitmap_set. cbn [mem set_mem]. set (a := bitmap s + p / 8) in *.
  rewrite !rd8_wr8. repeat case_decide; subst; try done.
  rewrite (u8_small (Z.lor _ _))
    by (apply (lor_range _ _ 8); auto using shiftl1_byte, rd8_range; lia).
  rewrite u8_small.
  - apply Z.bits_inj'. intros i Hi.
    rewrite Z.land_spec, Z.lnot_spec, Z.lor_spec, shiftl1_bit by lia.
    destruct (Z.eqb_spec (p `mod` 8) i) as [<-|]; [by rewrite Hf|].
    by rewrite orb_false_r, andb_true_r.
  - apply (land_range _ _ 8); [lia|].
    apply (lor_range _ _ 8); auto using shiftl1_byte, rd8_range; lia.
Qed.

(** Extraction of [pmm_alloc_page]'s promise in the form its callers use: on
    success a page that was free is now used, nothing else changed. *)
Definition page_alloc (s : pmm) (a : Z) (s' : pmm) : Prop :=
  ∃ p, 0 < p < total_pages s ∧ page_used p s = false ∧ a = p * PAGE_SIZE ∧
       pmm_step s s' (λ q, (p =? q) || page_used q s).

Lemma pmm_alloc_page_cases s a s' :
  pmm_wf s → page_used 0 s = true → pmm_alloc_page s = (a, s') →
  (a = 0 ∧ s' = s ∧ free_pages s = 0) ∨ (a ≠ 0 ∧ page_alloc s a s').
Proof.
  intros W H0 E. pose proof (wf_total _ W).
  pose proof (alloc_page_loop_spec (Z.to_nat (total_pages s)) 0 s W) as L.
  unfold pmm_alloc_page in E. rewrite E in L.
  destruct L as [(p & Hp & Hf & Hl & -> & Hs)|(-> & -> & Hu)]; [lia..| |].
  - right. assert (p ≠ 0) by (intros ->; congruence). unfold PAGE_SIZE.
    split; [lia|]. exists p. split_and!; (done || lia).
  - left. split_and!; [done..|]. rewrite (wf_count _ W).
    destruct (decide (0 < countb (page_free s) (Z.to_nat (total_pages s)))) as [Hc|Hc].
    + destruct (countb_pos _ _ Hc) as (i & Hi & Hf). unfold page_free in Hf.
      rewrite Hu in Hf by lia. done.
    + pose proof (countb_range (page_free s) (Z.to_nat (total_pages s))). lia.
Qed.

(** Marking one free page used lowers the free counter by one. *)
Lemma take_free_count s s' p :
  pmm_wf s → 0 <= p < total_pages s → page_used p s = false →
  pmm_step s s' (λ q, (p =? q) || page_used q s) → free_pages s' = free_pages s - 1.
Proof.
  intros W Hp Hf (W' & F & U). pose proof (wf_total _ W).
  rewrite (wf_count _ W'), (wf_count _ W), (fr_total _ _ F).
  rewrite (countb_upd (page_free s) _ _ p); [|lia|].
  - unfold page_free at 2 3. rewrite U, Hf, Z.eqb_refl by lia. simpl. lia.
  - intros j ??. unfold page_free. rewrite U by lia. by destruct (Z.eqb_spec p j); [lia|].
Qed.

(** ** Contiguous allocation: the skipping search is the naive first fit *)
Definition run_free (s : pmm) (count i : Z) : bool := forallb (page_free s) (seqZ i count).
Definition first_fit (s : pmm) (count : Z) : option Z :=
  List.find (run_free s count) (seqZ 1 (total_pages s - count)).

Lemma first_used_None n j s :
  first_used n j s = None ↔ ∀ q, j <= q < j + Z.of_nat n → page_used q s = false.
Proof.
  revert j. induction n as [|n IH]; intros j; cbn [first_used]; [split; [lia|done]|].
  rewrite bitmap_test_0. unfold page_free. destruct (page_used j s) eqn:E; cbn [negb].
  - split; [done|]. intros H. rewrite H in E by lia. done.
  - rewrite IH. split; intros H q ?; [|apply H; lia].
    destruct (decide (q = j)) as [->|]; [done|]. apply H. lia.
Qed.

Lemma first_used_Some n j s k :
  first_used n j s = Some k → j <= k < j + Z.of_nat n ∧ page_used k s = true.
Proof.
  revert j. induction n as [|n IH]; intros j; cbn [first_used]; [done|].
  rewrite bitmap_test_0. unfold page_free. destruct (page_used j s) eqn:E; cbn [negb].
  - intros [= <-]. split; [lia|done].
  - intros ?%IH. split; [lia|]. tauto.
Qed.

Lemma run_free_true s count i :
  run_free s count i = true ↔ ∀ q, i <= q < i + count → page_used q s = false.
Proof.
  unfold run_free. rewrite forallb_forall. unfold page_free. split.
  - intros H q ?. specialize (H q). rewrite negb_true_iff in H. apply H.
    apply list_elem_of_In, elem_of_seqZ. lia.
  - intros H q Hq. apply list_elem_of_In, elem_of_seqZ in Hq. rewrite H; [done|lia].
Qed.

Lemma find_seqZ_skip (P : Z → bool) i n k :
  0 <= k → (∀ x, i <= x < i + k → P x = false) →
  List.find P (seqZ i n) = List.find P (seqZ (i + k) (n - k)).
Proof.
  intros Hk H. remember (Z.to_nat k) as kn eqn:Ek. revert i n k Hk Ek H.
  induction kn as [|kn IH]; intros i n k Hk Ek H.
  { replace k with 0 by lia. by rewrite Z.add_0_r, Z.sub_0_r. }
  destruct (decide (0 < n)).
  - rewrite seqZ_cons by lia. cbn [List.find]. rewrite H by lia.
    rewrite (IH (Z.succ i) (Z.pred n) (k - 1)); [|lia|lia|intros; apply H; lia].
    do 2 f_equal; lia.
  - rewrite !seqZ_nil by lia. done.
Qed.

Lemma alloc_pages_loop_first_fit fuel i count s :
  0 < count → total_pages s - count + 1 - i < Z.of_nat fuel →
  alloc_pages_loop fuel i count s =
    match List.find (run_free s count) (seqZ i (total_pages s - count + 1 - i)) with
    | Some k => (k * PAGE_SIZE, take_loop (Z.to_nat count) k s)
    | None => (0, s)
    end.
Proof.
  intros Hc. revert i. induction fuel as [|fuel IH]; intros i Hf; cbn [alloc_pages_loop].
  { rewrite seqZ_nil by lia. done. }
  destruct (Z.leb_spec i (total_pages s - count)); [|rewrite seqZ_nil by lia; done].
  destruct (first_used (Z.to_nat count) i s) as [j|] eqn:E.
  - apply first_used_Some in E as [Hj Hu]. rewrite IH by lia.
    rewrite (find_seqZ_skip _ i _ (j + 1 - i)); [|lia|].
    + by replace (i + (j + 1 - i)) with (j + 1) by lia;
        replace (total_pages s - count + 1 - i - (j + 1 - i))
          with (total_pages s - count + 1 - (j + 1)) by lia.
    + intros x ?. apply not_true_iff_false. rewrite run_free_true. intros F.
      rewrite F in Hu by lia. done.
  - rewrite seqZ_cons by lia. cbn [List.find].
    rewrite (proj2 (run_free_true s count i)); [done|].
    intros q ?. apply (proj1 (first_used_None _ _ _) E). lia.
Qed.

Lemma take_loop_step n j s :
  pmm_wf s → 0 <= j → j + Z.of_nat n <= total_pages s →
  (∀ q, j <= q < j + Z.of_nat n → page_used q s = false) →
  pmm_step s (take_loop n j s)
    (λ q, ((j <=? q) && (q <? j + Z.of_nat n)) || page_used q s).
Proof.
  revert j s. induction n as [|n IH]; intros j s W Hj Hn Hfree; cbn [take_loop].
  - eapply pmm_step_ext; [by apply pmm_step_refl|]. intros q ?. simpl.
    repeat zb_case; simpl; (done || lia).
  - pose proof (take_page_step j s W ltac:(lia) (Hfree j ltac:(lia))) as S1.
    eapply pmm_step_ext.
    + eapply (pmm_step_trans _ _ _ _
        (λ f q, ((j + 1 <=? q) && (q <? j + 1 + Z.of_nat n)) || f q)); [exact S1| |].
      * destruct S1 as (W1 & F1 & U1). pose proof (fr_total _ _ F1) as Et.
        apply IH; [done|lia|cbn in *; lia|].
        intros q ?. rewrite U1 by lia. rewrite Hfree by lia.
        by destruct (Z.eqb_spec j q); [lia|].
      * intros f g q _ ->. done.
    + intros q ?. cbn beta. destruct (page_used q s); [by rewrite !orb_true_r|].
      rewrite !orb_false_r. repeat zb_case; simpl; (done || lia).
Qed.

(** ** Release *)
Lemma pmm_free_page_step addr s :
  pmm_wf s → 0 <= addr →
  pmm_step s (pmm_free_page addr s)
    (λ q, if decide (q = addr / PAGE_SIZE ∧ q ≠ 0) then false else page_used q s).
Proof.
  intros W Ha. unfold pmm_free_page. rewrite bitmap_test_0. unfold page_free.
  set (p := addr / PAGE_SIZE). assert (0 <= p) by (apply Z.div_pos; unfold PAGE_SIZE; lia).
  destruct (Z.eqb_spec p 0); [|destruct (Z.leb_spec (total_pages s) p)]; simpl.
  1,2: eapply pmm_step_ext; [by apply pmm_step_refl|]; intros q ?; simpl;
    case_decide; [lia|done].
  destruct (page_used p s) eqn:E; simpl.
  - eapply pmm_step_ext; [apply give_page_step; [done|lia|done]|].
    intros q ?. cbn beta. case_decide; zb_case; simpl; (done || lia).
  - eapply pmm_step_ext; [by apply pmm_step_refl|]. intros q ?. simpl.
    case_decide as D; [|done]. destruct D as [-> _]. done.
Qed.

(** ** Initialisation: exactly the unreserved conventional pages are free *)
Lemma free_loop_step n p s :
  pmm_wf s → 0 <= p → p + Z.of_nat n <= total_pages s →
  (∀ q, p <= q < p + Z.of_nat n → page_used q s = true) →
  pmm_step s (free_loop n p s)
    (λ q, negb ((p <=? q) && (q <? p + Z.of_nat n)) && page_used q s).
Proof.
  revert p s. induction n as [|n IH]; intros p s W Hp Hn Hu; cbn [free_loop].
  - eapply pmm_step_ext; [by apply pmm_step_refl|]. intros q ?. simpl.
    repeat zb_case; simpl; (done || lia).
  - pose proof (give_page_step p s W ltac:(lia) (Hu p ltac:(lia))) as S1.
    eapply pmm_step_ext.
    + eapply (pmm_step_trans _ _ _ _
        (λ f q, negb ((p + 1 <=? q) && (q <? p + 1 + Z.of_nat n)) && f q)); [exact S1| |].
      * destruct S1 as (W1 & F1 & U1). pose proof (fr_total _ _ F1) as Et.
        apply IH; [done|lia|cbn in *; lia|].
        intros q ?. rewrite U1 by lia. rewrite Hu by lia.
        by destruct (Z.eqb_spec p q); [lia|].
      * intros f g q _ ->. done.
    + intros q ?. cbn beta. repeat zb_case; simpl; (done || lia).
Qed.

Section init_spec.
Context (kernel_end_virt paging_arena_end : Z) (bi : BootInfo) (m : memory).

Local Abbreviation arena := paging_arena_end.
Local Abbreviation kend := (kernel_end_phys kernel_end_virt).
Local Abbreviation total := (max_addr_of m bi / PAGE_SIZE).
Local Abbreviation bsize := ((max_addr_of m bi / PAGE_SIZE + 7) / 8).
Local Abbreviation fb_bytes := (height bi * pixels_per_scanline bi * 4).

(** [q] is a page of the descriptor at [d]. *)
Definition in_desc (d q : Z) : bool :=
  (desc_PhysicalStart m d / PAGE_SIZE <=? q) &&
  (q <? desc_PhysicalStart m d / PAGE_SIZE + desc_NumberOfPages m d).

Definition conventional (q : Z) : bool :=
  existsb (λ d, (desc_Type m d =? 7) && in_desc d q) (descriptors bi).

Definition firmware_type (t : Z) : bool :=
  (t =? 5) || (t =? 6) || (t =? 9) || (t =? 10) || (t =? 11).

Definition firmware (q : Z) : bool :=
  existsb (λ d, firmware_type (desc_Type m d) && in_desc d q) (descriptors bi).

(** The pages [pmm_init] must not hand out: low memory, the kernel image with
    the page tables behind it, the bitmap, the framebuffer, the RSDP's pages
    and the firmware-owned descriptors. *)
Definition reserved (q : Z) : bool :=
  (q <? 16) ||
  ((KERNEL_PHYS_BASE <=? q * PAGE_SIZE) && (q * PAGE_SIZE <? arena + bsize)) ||
  ((framebuffer bi / PAGE_SIZE <=? q) && (q * PAGE_SIZE <? framebuffer bi + fb_bytes)) ||
  ((rsdp bi / PAGE_SIZE <=? q) && (q * PAGE_SIZE <? rsdp bi + PAGE_SIZE)) ||
  firmware q.

(** What the boot loader hands over: page-aligned, non-wrapping descriptors,
    no page in two conventional descriptors, the memory map clear of the
    place the bitmap is written to, and address ranges below 2^64. *)
Record boot_ok : Prop := {
  bo_aligned : ∀ d, d ∈ descriptors bi → desc_PhysicalStart m d `mod` PAGE_SIZE = 0;
  bo_end : ∀ d, d ∈ descriptors bi →
    desc_PhysicalStart m d + desc_NumberOfPages m d * PAGE_SIZE < 2 ^ 64 - PAGE_SIZE;
  bo_disjoint : ∀ i j d e q, descriptors bi !! i = Some d → descriptors bi !! j = Some e →
    i ≠ j → desc_Type m d = 7 → desc_Type m e = 7 →
    in_desc d q = true → in_desc e q = false;
  bo_map : ∀ d, d ∈ descriptors bi → d + 40 <= arena ∨ arena + bsize <= d;
  bo_arena : KERNEL_PHYS_BASE <= kend <= arena ∧ arena `mod` PAGE_SIZE = 0 ∧
    arena + bsize + PAGE_SIZE < 2 ^ 64;
  bo_fb : 0 <= framebuffer bi ∧ 0 < fb_bytes ∧ framebuffer bi + fb_bytes + PAGE_SIZE < 2 ^ 64;
  bo_rsdp : 0 <= rsdp bi ∧ rsdp bi + 2 * PAGE_SIZE < 2 ^ 64
}.

Context (B : boot_ok).

Lemma desc_field_range d : 0 <= desc_PhysicalStart m d ∧ 0 <= desc_NumberOfPages m d.
Proof. split; apply rd64_range. Qed.

Lemma max_addr_fold_ge ds acc :
  (∀ d, d ∈ ds → desc_PhysicalStart m d + desc_NumberOfPages m d * PAGE_SIZE < 2 ^ 64 - PAGE_SIZE) →
  0 <= acc < 2 ^ 64 - PAGE_SIZE →
  let r := fold_left (λ acc d,
    let e := u64 (desc_PhysicalStart m d + u64 (desc_NumberOfPages m d * PAGE_SIZE)) in
    if acc <? e then e else acc) ds acc in
  acc <= r < 2 ^ 64 - PAGE_SIZE ∧
  ∀ d, d ∈ ds → desc_PhysicalStart m d + desc_NumberOfPages m d * PAGE_SIZE <= r.
Proof.
  revert acc. induction ds as [|d ds IH]; intros acc He Ha; cbn [fold_left].
  { split; [lia|]. intros d Hd. by apply elem_of_nil in Hd. }
  pose proof (He d ltac:(apply elem_of_cons; by left)). pose proof (desc_field_range d).
  unfold PAGE_SIZE in *. rewrite !u64_small by (rewrite ?u64_small; lia).
  set (acc' := if acc <? _ then _ else _).
  assert (acc <= acc' ∧ desc_PhysicalStart m d + desc_NumberOfPages m d * 4096 <= acc'
    ∧ 0 <= acc' < 2 ^ 64 - 4096) as (A1 & A2 & A3) by (subst acc'; zb_case; lia).
  destruct (IH acc') as [B1 B2]; [intros; apply He, elem_of_cons; by right|lia|].
  split; [lia|]. intros e [->|Hin]%elem_of_cons; [lia|auto].
Qed.

Lemma max_addr_ge : 0 <= max_addr_of m bi < 2 ^ 64 - PAGE_SIZE ∧
  ∀ d, d ∈ descriptors bi →
    desc_PhysicalStart m d + desc_NumberOfPages m d * PAGE_SIZE <= max_addr_of m bi.
Proof. apply max_addr_fold_ge; [apply (bo_end B)|unfold PAGE_SIZE; lia]. Qed.

Lemma total_range : 0 <= total < 2 ^ 52.
Proof. pose proof max_addr_ge as [? _]. unfold PAGE_SIZE in *. arith. Qed.

Lemma init_bitmap_wf :
  let s := pmm_init_bitmap paging_arena_end bi m in
  pmm_wf s ∧ (∀ q, 0 <= q < total → page_used q s = true) ∧
  same_outside arena (arena + bsize) m (mem s).
Proof.
  pose proof total_range. intros s.
  assert (0 <= bsize) by arith.
  assert (∀ q, 0 <= q < total → page_used q s = true) as U.
  { intros q Hq. unfold page_used. subst s. cbn [mem bitmap pmm_init_bitmap].
    rewrite rd8_fill8, decide_True.
    - pose proof (Z.mod_pos_bound q 8 eq_refl). change (u8 255) with (Z.ones 8).
      apply Z.ones_spec_low. lia.
    - rewrite Z2Nat.id by lia. arith. }
  split_and!; [split|done|].
  - done.
  - done.
  - cbn [free_pages pmm_init_bitmap s]. symmetry.
    rewrite (countb_ext _ (λ _, false)).
    + induction (Z.to_nat _) as [|n IH]; [done|]. cbn [countb]. by rewrite IH.
    + intros i Hi. unfold page_free. by rewrite U by (cbn in Hi; lia).
  - subst s. cbn [mem pmm_init_bitmap].
    eapply same_outside_weaken; [| |apply fill8_same_outside]; lia.
Qed.

(** Reads of a descriptor give the same value before and after bitmap
    updates. *)
Lemma desc_read m' d : d ∈ descriptors bi → same_outside arena (arena + bsize) m m' →
  desc_Type m' d = desc_Type m d ∧ desc_PhysicalStart m' d = desc_PhysicalStart m d ∧
  desc_NumberOfPages m' d = desc_NumberOfPages m d.
Proof.
  intros Hd H. pose proof (bo_map B d Hd).
  split_and!; eapply rdn_same_outside; try done; lia.
Qed.

Lemma in_desc_total d q : d ∈ descriptors bi → in_desc d q = true → 0 <= q < total.
Proof.
  intros Hd Hq. pose proof (proj2 max_addr_ge d Hd). pose proof (bo_aligned B d Hd).
  pose proof (desc_field_range d). unfold in_desc in Hq.
  unfold PAGE_SIZE in *. repeat zb_case; try done. split; [arith|].
  apply Z.lt_le_trans with (desc_PhysicalStart m d / 4096 + desc_NumberOfPages m d); [lia|].
  apply Z.div_le_lower_bound; [lia|]. arith.
Qed.

Local Abbreviation conv d q := ((desc_Type m d =? 7) && in_desc d q).

Lemma free_pass ds s :
  pmm_wf s → bitmap s = arena → bitmap_size s = bsize → total_pages s = total →
  same_outside arena (arena + bsize) m (mem s) →
  (∀ d, d ∈ ds → d ∈ descriptors bi) →
  (∀ d q, d ∈ ds → conv d q = true → page_used q s = true) →
  (∀ i j d e q, ds !! i = Some d → ds !! j = Some e → i ≠ j →
     conv d q = true → conv e q = false) →
  pmm_step s (fold_left free_descriptor ds s)
    (λ q, negb (existsb (λ d, conv d q) ds) && page_used q s).
Proof.
  revert s. induction ds as [|d ds IH]; intros s W Eb Es Et Hm Hin Hu Hd.
  { eapply pmm_step_ext; [by apply pmm_step_refl|done]. }
  cbn [fold_left]. set (s1 := free_descriptor s d).
  assert (d ∈ descriptors bi) as Hdd by (apply Hin, elem_of_cons; by left).
  assert (pmm_step s s1 (λ q, negb (conv d q) && page_used q s)) as S1.
  { subst s1. unfold free_descriptor.
    destruct (desc_read (mem s) d Hdd Hm) as (-> & -> & ->).
    destruct (Z.eqb_spec (desc_Type m d) 7) as [H7|H7].
    - pose proof (desc_field_range d). pose proof (proj2 max_addr_ge d Hdd) as Hend.
      pose proof (bo_aligned B d Hdd) as Hal.
      assert (0 <= desc_PhysicalStart m d / PAGE_SIZE) by (apply Z.div_pos; unfold PAGE_SIZE; lia).
      eapply pmm_step_ext; [apply free_loop_step; [done|lia| |]|].
      + rewrite Z2Nat.id, Et by lia. unfold PAGE_SIZE in *.
        apply Z.div_le_lower_bound; [lia|]. arith.
      + intros q Hq. apply (Hu d); [apply elem_of_cons; by left|].
        rewrite (proj2 (Z.eqb_eq _ _) H7). unfold in_desc. simpl.
        rewrite Z2Nat.id in Hq by lia. repeat zb_case; simpl; (done || lia).
      + intros q ?. cbn beta. unfold in_desc. by rewrite Z2Nat.id by lia.
    - eapply pmm_step_ext; [by apply pmm_step_refl|done]. }
  pose proof S1 as (W1 & F1 & U1). destruct F1 as [Fb Fs Ft Fm].
  eapply pmm_step_ext.
  - eapply (pmm_step_trans _ _ _ _
      (λ f q, negb (existsb (λ d, conv d q) ds) && f q)); [exact S1| |by intros f g q _ ->].
    apply IH; try congruence.
    + eapply same_outside_trans; [done|]. by rewrite <-Eb, <-Es.
    + intros e He. apply Hin, elem_of_cons. by right.
    + intros e q He Hc. assert (0 <= q < total_pages s) as Hq.
      { rewrite Et. apply andb_prop in Hc as [_ Hc].
        apply (in_desc_total e); [apply Hin, elem_of_cons; by right|done]. }
      rewrite U1 by done. rewrite (Hu e) by (done || by apply elem_of_cons; right).
      apply list_elem_of_lookup in He as [j Hj].
      destruct (conv d q) eqn:Hcd; [|done].
      rewrite (Hd 0%nat (S j) d e q) in Hc by done. done.
    + intros i j e e' q Hi Hj Hij. apply (Hd (S i) (S j)); [done..|lia].
  - intros q ?. cbn [existsb]. cbn beta. destruct (conv d q), (existsb _ ds); done.
Qed.

Lemma reserve_descriptor_step d s :
  d ∈ descriptors bi → pmm_wf s → same_outside arena (arena + bsize) m (mem s) →
  total_pages s = total →
  pmm_step s (reserve_descriptor s d)
    (λ q, (firmware_type (desc_Type m d) && in_desc d q) || page_used q s).
Proof.
  intros Hd W Hm Et. unfold reserve_descriptor, firmware_type.
  destruct (desc_read (mem s) d Hd Hm) as (-> & -> & ->).
  pose proof (desc_field_range d). pose proof (bo_end B d Hd) as He.
  pose proof (bo_aligned B d Hd) as Ha. unfold PAGE_SIZE in *.
  destruct (_ || _) eqn:Eft; [|eapply pmm_step_ext; [by apply pmm_step_refl|done]].
  rewrite u64_small by lia.
  destruct (decide (desc_NumberOfPages m d = 0)) as [E0|].
  - unfold reserve_range. rewrite E0. simpl. eapply pmm_step_ext; [by apply pmm_step_refl|].
    intros q ?. unfold in_desc. rewrite E0. simpl. repeat zb_case; simpl; (done || lia).
  - eapply pmm_step_ext; [apply reserve_range_step; [done|lia..]|].
    intros q ?. unfold in_desc, PAGE_SIZE. simpl. do 2 f_equal.
    apply eq_true_iff_eq. rewrite !Z.ltb_lt. split; intros; [|]; arith.
Qed.

Lemma reserve_pass ds s :
  (∀ d, d ∈ ds → d ∈ descriptors bi) → pmm_wf s →
  bitmap s = arena → bitmap_size s = bsize → total_pages s = total →
  same_outside arena (arena + bsize) m (mem s) →
  pmm_step s (fold_left reserve_descriptor ds s)
    (λ q, existsb (λ d, firmware_type (desc_Type m d) && in_desc d q) ds || page_used q s).
Proof.
  revert s. induction ds as [|d ds IH]; intros s Hin W Eb Es Et Hm.
  { by apply pmm_step_refl. }
  cbn [fold_left].
  assert (d ∈ descriptors bi) as Hd by (apply Hin, elem_of_cons; by left).
  pose proof (reserve_descriptor_step d s Hd W Hm Et) as S1.
  pose proof S1 as (W1 & [Fb Fs Ft Fm] & U1).
  eapply pmm_step_ext.
  - eapply (pmm_step_trans _ _ _ _ (λ f q, existsb _ ds || f q)); [exact S1| |by intros f g q _ ->].
    apply IH; try congruence.
    + intros e He. apply Hin, elem_of_cons. by right.
    + eapply same_outside_trans; [done|]. by rewrite <-Eb, <-Es.
  - intros q ?. cbn [existsb]. cbn beta.
    destruct (_ && _), (existsb _ ds), (page_used q s); done.
Qed.

Lemma step_or_trans s s1 s2 R1 R2 :
  pmm_step s s1 (λ q, R1 q || page_used q s) →
  pmm_step s1 s2 (λ q, R2 q || page_used q s1) →
  pmm_step s s2 (λ q, (R2 q || R1 q) || page_used q s).
Proof.
  intros S1 S2. eapply pmm_step_ext.
  - eapply (pmm_step_trans _ _ _ _ (λ f q, R2 q || f q)); [exact S1|exact S2|by intros f g q _ ->].
  - intros q ?. cbn beta. by rewrite orb_assoc.
Qed.

Lemma init_reserve_step s :
  pmm_wf s → bitmap_size s = bsize →
  pmm_step s (pmm_init_reserve kernel_end_virt paging_arena_end bi s)
    (λ q, ((q <? 16) ||
      ((KERNEL_PHYS_BASE <=? q * PAGE_SIZE) && (q * PAGE_SIZE <? arena + bsize)) ||
      ((framebuffer bi / PAGE_SIZE <=? q) && (q * PAGE_SIZE <? framebuffer bi + fb_bytes)) ||
      ((rsdp bi / PAGE_SIZE <=? q) && (q * PAGE_SIZE <? rsdp bi + PAGE_SIZE)))
      || page_used q s).
Proof.
  intros W Es. pose proof total_range. destruct (bo_arena B) as (Hk & Hal & Har).
  destruct (bo_fb B) as (Hf0 & Hf1 & Hf2). destruct (bo_rsdp B) as (Hr0 & Hr1).
  assert (0 <= bsize) by arith.
  unfold KERNEL_PHYS_BASE, PAGE_SIZE in *. unfold pmm_init_reserve.
  set (s1 := reserve_pages _ _ s).
  assert (pmm_step s s1 (λ q, ((256 <=? q) && (q <? u64 (kend + 4096 - 1) / 4096)) || page_used q s)) as S1
    by (apply reserve_pages_step; [done|by vm_compute]).
  set (s2 := reserve_pages _ _ s1).
  assert (pmm_step s1 s2 (λ q, ((u64 (kend + 4096 - 1) / 4096 <=? q) && (q <? arena / 4096)) || page_used q s1)) as S2
    by (apply reserve_pages_step; [apply S1|apply Z.div_pos; [apply u64_range|done]]).
  assert (bitmap_size s2 = bsize) as Es2.
  { by rewrite (fr_size _ _ (proj1 (proj2 S2))), (fr_size _ _ (proj1 (proj2 S1))). }
  rewrite Es2. set (s3 := reserve_pages _ _ s2).
  assert (pmm_step s2 s3 (λ q, ((arena / 4096 <=? q) && (q <? u64 (arena + bsize + 4096 - 1) / 4096)) || page_used q s2)) as S3
    by (apply reserve_pages_step; [apply S2|arith]).
  pose proof (reserve_page_step 0 s3 (proj1 S3) ltac:(lia)) as S4.
  pose proof (reserve_pages_step 1 16 _ (proj1 S4) ltac:(lia)) as S5.
  rewrite (u64_small (height bi * _ * 4)) by lia.
  pose proof (reserve_range_step _ _ _ (proj1 S5) Hf0 Hf1 ltac:(lia)) as S6.
  pose proof (reserve_range_step _ PAGE_SIZE _ (proj1 S6) Hr0 ltac:(done) ltac:(unfold PAGE_SIZE; lia)) as S7.
  pose proof (step_or_trans _ _ _ _ _ (step_or_trans _ _ _ _ _ (step_or_trans _ _ _ _ _
    (step_or_trans _ _ _ _ _ (step_or_trans _ _ _ _ _ (step_or_trans _ _ _ _ _ S1 S2) S3) S4) S5) S6) S7) as S.
  eapply pmm_step_ext; [exact S|]. intros q Hq. cbn beta. f_equal.
  unfold PAGE_SIZE. rewrite !u64_small by lia.
  generalize ((rsdp bi / 4096 <=? q) && (q * 4096 <? rsdp bi + 4096)) as r.
  generalize ((framebuffer bi / 4096 <=? q) && (q * 4096 <? framebuffer bi + fb_bytes)) as f.
  intros f r. rewrite (orb_comm _ r), (orb_comm _ f). do 2 f_equal.
  clear -Hk Hal Har Hq H0. apply eq_true_iff_eq.
  revert Har H0. generalize ((max_addr_of m bi / 4096 + 7) / 8) as b. intros b Hb Hb0.
  repeat rewrite ?orb_true_iff, ?andb_true_iff, ?Z.leb_le, ?Z.ltb_lt, ?Z.eqb_eq.
  split; intros; arith.
Qed.

(** The effect of [pmm_init] on memory and bitmap. *)
Lemma pmm_init_run :
  let s := pmm_init kernel_end_virt paging_arena_end bi m in
  pmm_wf s ∧ bitmap s = arena ∧ bitmap_size s = bsize ∧ total_pages s = total ∧
  same_outside arena (arena + bsize) m (mem s) ∧
  ∀ q, 0 <= q < total → page_used q s = reserved q || negb (conventional q).
Proof.
  destruct init_bitmap_wf as (W0 & U0 & M0). unfold pmm_init.
  set (s0 := pmm_init_bitmap paging_arena_end bi m) in *.
  assert (pmm_step s0 (fold_left free_descriptor (descriptors bi) s0)
    (λ q, negb (conventional q) && page_used q s0)) as S1.
  { apply free_pass; try done.
    - intros d q Hd Hc. apply U0. apply andb_prop in Hc as [_ Hc]. by eapply in_desc_total.
    - intros i j d e q Hi Hj Hij Hc. destruct (Z.eqb_spec (desc_Type m e) 7); [|done].
      apply andb_prop in Hc as [?%Z.eqb_eq Hc]. simpl. by eapply (bo_disjoint B i j d e q). }
  set (s1 := fold_left free_descriptor _ s0) in *.
  assert (bitmap_size s1 = bsize) as Es1 by (by rewrite (fr_size _ _ (proj1 (proj2 S1)))).
  pose proof (init_reserve_step s1 (proj1 S1) Es1) as S2.
  set (s2 := pmm_init_reserve _ _ _ s1) in *.
  pose proof S1 as (W1 & [Fb1 Fs1 Ft1 Fm1] & U1).
  pose proof S2 as (W2 & [Fb2 Fs2 Ft2 Fm2] & U2).
  assert (same_outside arena (arena + bsize) m (mem s2)) as M2.
  { eapply same_outside_trans; [exact M0|].
    eapply same_outside_trans; [exact Fm1|]. by rewrite Fb1, Fs1 in Fm2. }
  assert (pmm_step s2 (fold_left reserve_descriptor (descriptors bi) s2)
    (λ q, firmware q || page_used q s2)) as S3.
  { apply reserve_pass; try done; by rewrite ?Fb2, ?Fb1, ?Fs2, ?Fs1, ?Ft2, ?Ft1. }
  destruct S3 as (W3 & [Fb3 Fs3 Ft3 Fm3] & U3).
  split_and!; [done|by rewrite Fb3, Fb2, Fb1|by rewrite Fs3, Fs2, Fs1|by rewrite Ft3, Ft2, Ft1| |].
  - eapply same_outside_trans; [exact M2|]. by rewrite Fb2, Fs2, Fb1, Fs1 in Fm3.
  - intros q Hq. assert (0 <= q < total_pages s0) as Hq0 by done.
    rewrite U3 by (by rewrite Ft2, Ft1). rewrite U2 by (by rewrite Ft1).
    rewrite U1, U0 by done. unfold reserved. rewrite andb_true_r.
    rewrite orb_assoc. f_equal. apply orb_comm.
Qed.

(** C11. After [pmm_init] the free counter is exact, only the bitmap was
    written, and a page is marked used exactly when it is reserved (low
    memory, kernel image, page tables, the bitmap itself, framebuffer, RSDP,
    ACPI/runtime/MMIO descriptors) or is not conventional memory. *)
Theorem pmm_init_correct :
  let s := pmm_init kernel_end_virt paging_arena_end bi m in
  pmm_wf s ∧ bitmap s = arena ∧ bitmap_size s = bsize ∧ total_pages s = total ∧
  same_outside arena (arena + bsize) m (mem s) ∧
  (∀ q, 0 <= q < total → page_used q s = reserved q || negb (conventional q)) ∧
  free_pages s = countb (λ q, conventional q && negb (reserved q)) (Z.to_nat total).
Proof.
  destruct pmm_init_run as (W & E1 & E2 & E3 & O & U). split_and!; try done.
  rewrite (wf_count _ W), E3. apply countb_ext. intros q Hq. unfold page_free. rewrite U by lia.
  rewrite negb_orb, negb_involutive. apply andb_comm.
Qed.
End init_spec.

(** Only the descriptors' fields matter. *)
Definition map_same (bi : BootInfo) (m m' : memory) : Prop :=
  ∀ d a, d ∈ descriptors bi → d <= a < d + 40 → rd8 m' a = rd8 m a.

Lemma desc_ext bi m m' d : map_same bi m m' → d ∈ descriptors bi →
  desc_Type m' d = desc_Type m d ∧ desc_PhysicalStart m' d = desc_PhysicalStart m d ∧
  desc_NumberOfPages m' d = desc_NumberOfPages m d.
Proof.
  intros H Hd. unfold desc_Type, desc_PhysicalStart, desc_NumberOfPages.
  split_and!; apply rdn_ext; intros i Hi; apply (H d); (done || lia).
Qed.

Lemma fold_ext {A B} (f g : A → B → A) l a : (∀ x b, b ∈ l → f x b = g x b) → fold_left f l a = fold_left g l a.
Proof.
  revert a. induction l as [|b l IH]; intros a H; [done|]. cbn [fold_left]. rewrite H by left.
  apply IH. intros x c Hc. apply H. by right.
Qed.

Lemma max_addr_ext bi m m' : map_same bi m m' → max_addr_of m' bi = max_addr_of m bi.
Proof. intros H. apply fold_ext. intros x d Hd. by destruct (desc_ext bi m m' d H Hd) as (_ & -> & ->). Qed.

Lemma boot_ok_ext kend arena bi m m' : map_same bi m m' → boot_ok kend arena bi m → boot_ok kend arena bi m'.
Proof.
  intros H [B1 B2 B3 B4 B5 B6 B7].
  assert (∀ d q, d ∈ descriptors bi → in_desc m' d q = in_desc m d q) as Hin.
  { intros d q Hd. unfold in_desc. by destruct (desc_ext bi m m' d H Hd) as (_ & -> & ->). }
  split; rewrite ?(max_addr_ext bi m m' H); try done.
  - intros d Hd. destruct (desc_ext bi m m' d H Hd) as (_ & -> & _). auto.
  - intros d Hd. destruct (desc_ext bi m m' d H Hd) as (_ & -> & ->). auto.
  - intros i j d e q Hi Hj Hij. assert (d ∈ descriptors bi ∧ e ∈ descriptors bi) as [Hd He]
      by (split; eapply list_elem_of_lookup_2; done).
    rewrite !Hin by done. destruct (desc_ext bi m m' d H Hd) as (-> & _), (desc_ext bi m m' e H He) as (-> & _). eauto.
Qed.

(** ** Sequences of allocator calls *)

(** One call made by some client, with the list of pages clients currently
    own: an allocation adds its pages, a release gives one back. *)
Inductive client_step : pmm * list Z → pmm * list Z → Prop :=
| step_alloc s own a s' :
    pmm_alloc_page s = (a, s') → a ≠ 0 →
    client_step (s, own) (s', a / PAGE_SIZE :: own)
| step_alloc_fail s own s' :
    pmm_alloc_page s = (0, s') → client_step (s, own) (s', own)
| step_alloc_run s own n a s' :
    0 <= n → pmm_alloc_pages n s = (a, s') → a ≠ 0 →
    client_step (s, own) (s', seqZ (a / PAGE_SIZE) n ++ own)
| step_alloc_run_fail s own n s' :
    0 <= n → pmm_alloc_pages n s = (0, s') → client_step (s, own) (s', own)
| step_free s own p off :
    p ∈ own → 0 <= off < PAGE_SIZE →
    client_step (s, own) (pmm_free_page (p * PAGE_SIZE + off) s, filter (λ q, q ≠ p) own).

(** Ownership invariant relative to the initial state [s0]. *)
Record owned_ok (s0 s : pmm) (own : list Z) : Prop := {
  oo_wf : pmm_wf s;
  oo_total : total_pages s = total_pages s0;
  oo_nodup : NoDup own;
  oo_range : ∀ p, p ∈ own → 0 < p < total_pages s0 ∧ page_used p s0 = false;
  oo_used : ∀ q, 0 <= q < total_pages s0 →
    page_used q s = page_used q s0 || bool_decide (q ∈ own)
}.

Lemma pmm_alloc_pages_cases n s a s' :
  pmm_wf s → 0 <= n → pmm_alloc_pages n s = (a, s') →
  (a = 0 ∧ s' = s) ∨
  (∃ k, 1 <= k ∧ k + n <= total_pages s ∧ a = k * PAGE_SIZE ∧ 0 < n ∧
        (∀ q, k <= q < k + n → page_used q s = false) ∧
        pmm_step s s' (λ q, ((k <=? q) && (q <? k + n)) || page_used q s)).
Proof.
  intros W Hn. pose proof (wf_total _ W). unfold pmm_alloc_pages.
  destruct (Z.eqb_spec n 0); [intros [= <- <-]; by left|].
  destruct (Z.ltb_spec (total_pages s) n); [intros [= <- <-]; by left|]. cbn [orb].
  rewrite alloc_pages_loop_first_fit by lia.
  destruct (List.find _ _) as [k|] eqn:E; intros [= <- <-]; [right|by left].
  apply find_some in E as [Hk%list_elem_of_In%elem_of_seqZ Hr].
  rewrite run_free_true in Hr. exists k. split_and!; try (done || lia).
  eapply pmm_step_ext; [apply take_loop_step; [done|lia|lia|]|].
  - intros q ?. apply Hr. lia.
  - intros q ?. cbn beta. by rewrite Z2Nat.id by lia.
Qed.

Lemma owned_take s0 s own k n s' :
  owned_ok s0 s own → 1 <= k → k + n <= total_pages s →
  (∀ q, k <= q < k + n → page_used q s = false) →
  pmm_step s s' (λ q, ((k <=? q) && (q <? k + n)) || page_used q s) →
  owned_ok s0 s' (seqZ k n ++ own).
Proof.
  intros [W Et ND Hr Hu] Hk Hkn Hf (W' & F & U).
  assert (∀ q, k <= q < k + n → page_used q s0 = false ∧ q ∉ own) as Hf'.
  { intros q Hq. specialize (Hf q Hq). rewrite Hu in Hf by lia.
    apply orb_false_iff in Hf as [? ?%bool_decide_eq_false]. done. }
  split; [done|by rewrite (fr_total _ _ F)| | |].
  - apply NoDup_app. split_and!; [apply NoDup_seqZ| |done].
    intros q Hq%elem_of_seqZ. apply Hf'. lia.
  - intros q [Hq%elem_of_seqZ|Hq]%elem_of_app; [|by apply Hr]. split; [lia|]. apply Hf'. lia.
  - intros q Hq. rewrite U, Hu by lia.
    rewrite (bool_decide_ext (q ∈ seqZ k n ++ own) ((k <= q < k + n) ∨ q ∈ own))
      by (rewrite elem_of_app, elem_of_seqZ; done).
    rewrite bool_decide_or. repeat zb_case; repeat case_bool_decide; try lia;
    destruct (page_used q s0); done.
Qed.

Lemma owned_give s0 s own p off :
  owned_ok s0 s own → p ∈ own → 0 <= off < PAGE_SIZE →
  owned_ok s0 (pmm_free_page (p * PAGE_SIZE + off) s) (filter (λ q, q ≠ p) own).
Proof.
  intros [W Et ND Hr Hu] Hp Ho. destruct (Hr p Hp) as [Hp0 Hpf].
  destruct (pmm_free_page_step (p * PAGE_SIZE + off) s W) as (W' & F & U);
    [unfold PAGE_SIZE in *; lia|].
  replace ((p * PAGE_SIZE + off) / PAGE_SIZE) with p in U by (unfold PAGE_SIZE in *; arith).
  split; [done|by rewrite (fr_total _ _ F)|by apply NoDup_filter| |].
  - intros q [_ Hq]%list_elem_of_filter. by apply Hr.
  - intros q Hq. rewrite U by lia. destruct (decide (q = p)) as [->|Hne].
    + rewrite decide_True, Hpf by lia. symmetry. apply bool_decide_eq_false.
      rewrite list_elem_of_filter. by intros [? _].
    + rewrite decide_False, Hu by lia. f_equal. apply bool_decide_ext.
      rewrite list_elem_of_filter. by split; [split|intros [_ ?]].
Qed.

Lemma client_step_owned s0 x y :
  0 < total_pages s0 → page_used 0 s0 = true →
  client_step x y → owned_ok s0 x.1 x.2 → owned_ok s0 y.1 y.2.
Proof.
  intros Ht H0 Hstep HO. pose proof HO as [W Et ND Hr Hu]. pose proof (wf_total _ W).
  assert (page_used 0 x.1 = true) as H0s by (rewrite Hu, H0 by lia; done).
  destruct Hstep as [s own a s' E Ha|s own s' E|s own n a s' Hn E Ha|s own n s' Hn E|s own p off Hp Ho]; cbn [fst snd] in *.
  - destruct (pmm_alloc_page_cases _ _ _ W H0s E) as [(-> & _)|[_ (p & Hp & Hf & -> & S)]]; [done|].
    rewrite Z.div_mul by done.
    apply (owned_take s0 s own p 1 s'); [done|lia|lia| |].
    + intros q ?. by replace q with p by lia.
    + eapply pmm_step_ext; [exact S|]. intros q ?. cbn beta. f_equal.
      repeat zb_case; simpl; (done || lia).
  - by destruct (pmm_alloc_page_cases _ _ _ W H0s E) as [(_ & -> & _)|[? _]].
  - destruct (pmm_alloc_pages_cases _ _ _ _ W Hn E) as [[-> _]|(k & Hk & Hkn & -> & Hn0 & Hf & S)]; [done|].
    rewrite Z.div_mul by done. by eapply owned_take.
  - destruct (pmm_alloc_pages_cases _ _ _ _ W Hn E) as [[_ ->]|(k & Hk & _ & Ha & _)]; [done|].
    unfold PAGE_SIZE in Ha. lia.
  - by apply owned_give.
Qed.

Lemma owned_ok_free_pages s0 s own :
  pmm_wf s0 → owned_ok s0 s own → free_pages s + Z.of_nat (length own) = free_pages s0.
Proof.
  intros W0 [W Et ND Hr Hu]. rewrite (wf_count _ W), (wf_count _ W0), Et.
  rewrite (countb_ext (page_free s) (λ q, page_free s0 q && negb (bool_decide (q ∈ own)))).
  2:{ intros q ?. unfold page_free. rewrite Hu by lia. apply negb_orb. }
  assert (∀ p, p ∈ own → 0 <= p < Z.of_nat (Z.to_nat (total_pages s0)) ∧ page_free s0 p = true) as Hin.
  { intros p [? Hp]%Hr. unfold page_free. rewrite Hp. split; [lia|done]. }
  clear Hu Hr. revert ND Hin. induction own as [|p own IH]; intros ND Hin; cbn [length].
  - rewrite Z.add_0_r. apply countb_ext. intros q _. by rewrite andb_true_r.
  - apply NoDup_cons in ND as [Hp ND].
    rewrite (countb_upd (λ q, page_free s0 q && negb (bool_decide (q ∈ own))) _ _ p).
    + rewrite !(bool_decide_eq_false_2 (p ∈ own)) by done.
      rewrite !(bool_decide_eq_true_2 (p ∈ p :: own)) by (apply elem_of_cons; by left).
      destruct (Hin p) as [_ ->]; [apply elem_of_cons; by left|]. simpl.
      rewrite <-IH; [lia|done|]. intros q Hq. apply Hin, elem_of_cons. by right.
    + apply Hin, elem_of_cons. by left.
    + intros q _ Hq. do 2 f_equal. apply bool_decide_ext. rewrite elem_of_cons. naive_solver.
Qed.

(** ** Properties *)

(** [pmm_alloc_page] returns the lowest free page, marks exactly that page
    used, decrements the free counter and touches no memory outside the
    bitmap; when it returns 0 the state is unchanged and no page is free. *)
Theorem pmm_alloc_page_spec s :
  pmm_wf s →
  let '(a, s') := pmm_alloc_page s in
  (∃ p, 0 <= p < total_pages s ∧ page_used p s = false ∧
        (∀ q, 0 <= q < p → page_used q s = true) ∧ a = p * PAGE_SIZE ∧
        free_pages s' = free_pages s - 1 ∧
        pmm_step s s' (λ q, (p =? q) || page_used q s)) ∨
  (a = 0 ∧ s' = s ∧ ∀ q, 0 <= q < total_pages s → page_used q s = true).
Proof.
  intros W. pose proof (wf_total _ W) as Ht.
  pose proof (alloc_page_loop_spec (Z.to_nat (total_pages s)) 0 s W) as L.
  unfold pmm_alloc_page. destruct (alloc_page_loop _ 0 s) as [a s'].
  destruct L as [(p & Hp & Hf & Hl & Ha & S)|(Ha & Hs & Hu)]; [lia|lia| |].
  - left. exists p. split_and!; [lia|lia|done|done|done| |done].
    apply (take_free_count s s' p); [done|lia|done|done].
  - right. split_and!; [done..|]. intros q ?. apply Hu. lia.
Qed.

(** C12. The search of [pmm_alloc_pages], which jumps behind the first used page
    of a failed run, finds the same run as trying every start page from 1
    upwards, always terminates within its bound, and takes the whole run. *)
Theorem pmm_alloc_pages_first_fit s count :
  pmm_wf s → 0 < count →
  match first_fit s count with
  | Some k =>
      ∃ s', pmm_alloc_pages count s = (k * PAGE_SIZE, s') ∧
            pmm_step s s' (λ q, ((k <=? q) && (q <? k + count)) || page_used q s)
  | None => pmm_alloc_pages count s = (0, s)
  end.
Proof.
  intros W Hc. pose proof (wf_total _ W). unfold first_fit, pmm_alloc_pages.
  destruct (Z.eqb_spec count 0); [lia|]. cbn [orb].
  destruct (Z.ltb_spec (total_pages s) count); [by rewrite seqZ_nil by lia|].
  rewrite alloc_pages_loop_first_fit by lia.
  replace (total_pages s - count + 1 - 1) with (total_pages s - count) by lia.
  destruct (List.find _ _) as [k|] eqn:E; [|done]. eexists; split; [done|].
  apply find_some in E as [Hk%list_elem_of_In%elem_of_seqZ Hr]. rewrite run_free_true in Hr.
  eapply pmm_step_ext; [apply take_loop_step; [done|lia|lia|]|].
  - intros q ?. apply Hr. lia.
  - intros q ?. cbn beta. by rewrite Z2Nat.id by lia.
Qed.


(** Releasing the page that was just allocated restores the allocator: the
    counter and the layout are back and memory reads the same everywhere;
    releasing it a second time changes nothing. *)
Theorem pmm_alloc_free_roundtrip s a s' :
  pmm_wf s → page_used 0 s = true → pmm_alloc_page s = (a, s') → a ≠ 0 →
  let s'' := pmm_free_page a s' in
  mem s'' ≈ mem s ∧ free_pages s'' = free_pages s ∧ pmm_frame s s'' ∧
  pmm_free_page a s'' = s''.
Proof.
  intros W H0 E Ha s''.
  destruct (pmm_alloc_page_cases _ _ _ W H0 E) as [(-> & _)|[_ (p & Hp & Hf & -> & W1 & F1 & U1)]]; [done|].
  destruct (alloc_page_loop_form _ _ _ _ _ E) as [[? _]|(p' & Ep & Es')]; [done|].
  unfold PAGE_SIZE in Ep. assert (p' = p) as -> by lia. clear Ep.
  destruct (pmm_free_page_step (p * PAGE_SIZE) s' W1) as (W2 & F2 & U2); [unfold PAGE_SIZE; lia|].
  pose proof (fr_total _ _ F1) as Et.
  assert (s'' = set_free (u64 (free_pages s' + 1)) (bitmap_clear p s')) as Es''.
  { subst s''. unfold pmm_free_page. rewrite Z.div_mul, bitmap_test_0, Et by done.
    unfold page_free. rewrite U1, Z.eqb_refl by lia. by repeat zb_case; try lia. }
  assert (mem s'' ≈ mem s) as HM.
  { rewrite Es''. apply bitmap_set_clear_mem; [lia|done|by rewrite Es'|by rewrite Es']. }
  assert (free_pages s'' = free_pages s) as Hfp.
  { change s'' with (pmm_free_page (p * PAGE_SIZE) s') in *.
    rewrite (wf_count _ W2), (wf_count _ W), (fr_total _ _ F2), Et.
    apply countb_ext. intros q ?. unfold page_free. f_equal. apply page_used_frame; [|apply HM].
    by rewrite (fr_bitmap _ _ F2), (fr_bitmap _ _ F1). }
  split_and!; [done|done|by eapply pmm_frame_trans|].
  unfold pmm_free_page at 1. rewrite Z.div_mul, bitmap_test_0 by done. unfold page_free.
  rewrite (page_used_frame p s s''), Hf; [by repeat zb_case| |by apply HM].
  subst s''. by rewrite (fr_bitmap _ _ F2), (fr_bitmap _ _ F1).
Qed.

(** ** Witnesses *)

(** Sixteen pages, the bitmap in page 2, pages 0 to 2 used. *)
Definition ex_pmm : pmm := Pmm {[ 0x2000 := 7 ]} 0x2000 2 16 13.

Lemma ex_pmm_wf : pmm_wf ex_pmm.
Proof. split; [cbn; lia|done|by vm_compute]. Qed.

Lemma pmm_alloc_page_spec_witness :
  ∃ p, 0 <= p < 16 ∧ fst (pmm_alloc_page ex_pmm) = p * PAGE_SIZE ∧ p = 3.
Proof.
  pose proof (pmm_alloc_page_spec ex_pmm ex_pmm_wf) as H.
  destruct (pmm_alloc_page ex_pmm) as [a s'] eqn:E.
  assert (a = 0x3000) as -> by (by vm_compute in E; simplify_eq).
  destruct H as [(p & Hp & _ & _ & Ha & _)|[? _]]; [|done].
  exists p. unfold PAGE_SIZE in *. cbn in *. lia.
Defined.

Lemma pmm_alloc_pages_first_fit_witness :
  first_fit ex_pmm 4 = Some 3 ∧
  ∃ s', pmm_alloc_pages 4 ex_pmm = (3 * PAGE_SIZE, s') ∧
        pmm_step ex_pmm s' (λ q, ((3 <=? q) && (q <? 3 + 4)) || page_used q ex_pmm).
Proof.
  split; [by vm_compute|].
  exact (pmm_alloc_pages_first_fit ex_pmm 4 ex_pmm_wf eq_refl).
Defined.


Lemma pmm_alloc_free_roundtrip_witness :
  mem (pmm_free_page 0x3000 (snd (pmm_alloc_page ex_pmm))) ≈ mem ex_pmm.
Proof.
  apply (pmm_alloc_free_roundtrip ex_pmm 0x3000 (snd (pmm_alloc_page ex_pmm)));
    [exact ex_pmm_wf|by vm_compute..].
Defined.

(** A machine with 300 conventional pages and a 4-page ACPI descriptor. *)
Definition ex_boot_mem : memory :=
  let m := wr32 ∅ 0x5000 7 in
  let m := wr64 m 0x5008 0 in
  let m := wr64 m 0x5018 300 in
  let m := wr32 m 0x5030 9 in
  let m := wr64 m 0x5038 0x12C000 in
  wr64 m 0x5048 4.

Definition ex_boot : BootInfo := {|
  framebuffer := 0x200000; width := 2; height := 2; pixels_per_scanline := 2;
  memory_map := 0x5000; memory_map_size := 96; memory_map_descriptor_size := 48;
  rsdp := 0x120000
|}.

Lemma ex_boot_ok : boot_ok (KERNEL_VIRT_BASE + 0x2000) 0x103000 ex_boot ex_boot_mem.
Proof.
  assert (descriptors ex_boot = [0x5000; 0x5030]) as Ed by (by vm_compute).
  split; try rewrite Ed.
  1,2,4: intros d; rewrite !elem_of_cons, elem_of_nil; intros [->|[->|[]]]; vm_compute;
    (done || (left; done) || (right; done)).
  - intros i j d e q Hi Hj Hij H7 H7'.
    destruct i as [|[|]], j as [|[|]]; simplify_eq/=; by vm_compute in H7, H7'.
  - vm_compute. by split_and!.
  - vm_compute. by split_and!.
  - vm_compute. by split_and!.
Qed.

Lemma pmm_init_correct_witness :
  let s := pmm_init (KERNEL_VIRT_BASE + 0x2000) 0x103000 ex_boot ex_boot_mem in
  pmm_wf s ∧ page_used 16 s = false ∧ page_used 0x102 s = true ∧ free_pages s = 279.
Proof.
  intros s.
  destruct (pmm_init_correct (KERNEL_VIRT_BASE + 0x2000) 0x103000 ex_boot ex_boot_mem ex_boot_ok)
    as (W & _ & _ & _ & _ & U & _).
  split_and!; [exact W|rewrite U; [by vm_compute|by vm_compute]..|by vm_compute].
Defined.
