(* ===== verification/Vmm.v ===== *)
(** * Virtual memory manager (kernel/vmm.c)

    Four-level x86_64 page tables, reached through the identity map, with
    table pages taken from the PMM.  [AddressSpace*] is the address of an
    8-byte structure holding the physical address of the PML4.  The TLB is
    represented by the trace of flushed pages. *)
From stdpp Require Import base gmap list list_numbers strings.
From S2P Require Import Prelude Monad Mem Pmm.

Definition VMM_FLAG_PRESENT : Z := Z.shiftl 1 0.
Definition VMM_FLAG_WRITE : Z := Z.shiftl 1 1.
Definition VMM_FLAG_USER : Z := Z.shiftl 1 2.
Definition VMM_FLAG_NX : Z := Z.shiftl 1 63.

(** The physical-address field of an entry, and the mask used by
    [vmm_unmap] and [vmm_destroy_address_space]. *)
Definition ADDR_MASK : Z := 0x000FFFFFFFFFF000.
Definition NOT_FFF : Z := 0xFFFFFFFFFFFFF000.

Record vmm := Vmm {
  phys : pmm;
  kernel_pml4 : Z;          (* kernel_address_space.pml4 *)
  cr3 : Z;
  flushed : list Z          (* operands of invlpg, newest first *)
}.

Definition set_phys (p : pmm) (s : vmm) : vmm := Vmm p (kernel_pml4 s) (cr3 s) (flushed s).
Definition vmem (s : vmm) : memory := mem (phys s).
Definition set_vmem (m : memory) (s : vmm) : vmm := set_phys (set_mem m (phys s)) s.
Definition phys_lens : lens vmm pmm := Lens phys set_phys.

#[export] Instance phys_lens_laws : LensLaws phys_lens.
Proof. by split; intros; destruct s. Qed.

(** [table[i]] and [table[i] = v]. *)
Definition entry (m : memory) (table i : Z) : Z := rd64 m (table + 8 * i).
Definition set_entry (table i v : Z) (s : vmm) : vmm :=
  set_vmem (wr64 (vmem s) (table + 8 * i) v) s.

Definition present (e : Z) : bool := negb (Z.land e VMM_FLAG_PRESENT =? 0).
Definition huge (e : Z) : bool := negb (Z.land e (Z.shiftl 1 7) =? 0).

Definition as_pml4 (s : vmm) (asp : Z) : Z := rd64 (vmem s) asp.

Definition tlb_flush (virt : Z) : M vmm unit :=
  modify (λ s, Vmm (phys s) (kernel_pml4 s) (cr3 s) (virt :: flushed s)).

Definition alloc_page_table : M vmm Z :=
  pt ← zoom phys_lens (lift pmm_alloc_page);
  if pt =? 0 then panic "VMM: out of memory allocating page table"
  else modify (λ s, set_vmem (fill64 (vmem s) pt 512 0) s) ;; mret pt.

Definition get_or_create_table (table index flags : Z) : M vmm Z :=
  e ← gets (λ s, entry (vmem s) table index);
  if present e then
    (if negb (Z.land flags VMM_FLAG_USER =? 0)
     then modify (set_entry table index (Z.lor e VMM_FLAG_USER))
     else mret tt) ;;
    e' ← gets (λ s, entry (vmem s) table index);
    mret (Z.land e' ADDR_MASK)
  else
    new_table ← alloc_page_table;
    modify (set_entry table index (Z.lor (Z.lor new_table flags) VMM_FLAG_PRESENT)) ;;
    mret new_table.

Definition vmm_init : M vmm unit :=
  modify (λ s, Vmm (phys s) (cr3 s) (cr3 s) (flushed s)).

Definition vmm_create_address_space : M vmm Z :=
  asp ← zoom phys_lens (lift pmm_alloc_page);
  if asp =? 0 then mret 0
  else
    pml4 ← alloc_page_table;
    modify (λ s, set_vmem (wr64 (vmem s) asp pml4) s) ;;
    modify (λ s, set_vmem (fill64 (vmem s) (as_pml4 s asp) 512 0) s) ;;
    modify (λ s, set_entry (as_pml4 s asp) 0
                   (Z.lor (entry (vmem s) (kernel_pml4 s) 0) VMM_FLAG_USER) s) ;;
    modify (λ s, set_entry (as_pml4 s asp) 511 (entry (vmem s) (kernel_pml4 s) 511) s) ;;
    mret asp.

(** [pmm_free_page(p)] from inside the VMM. *)
Definition free_page (p : Z) : M vmm unit :=
  modify (λ s, set_phys (pmm_free_page p (phys s)) s).

(** The three nested loops of [vmm_destroy_address_space], innermost first. *)
Definition destroy_pd_entry (pd pd_i : Z) : M vmm unit :=
  e ← gets (λ s, entry (vmem s) pd pd_i);
  if present e then free_page (Z.land e NOT_FFF) else mret tt.

Definition destroy_pdpt_entry (pdpt pdpt_i : Z) : M vmm unit :=
  e ← gets (λ s, entry (vmem s) pdpt pdpt_i);
  if present e then
    let pd := Z.land e NOT_FFF in
    forZ 512 0 (destroy_pd_entry pd) ;; free_page pd
  else mret tt.

Definition destroy_pml4_entry (asp pml4_i : Z) : M vmm unit :=
  e ← gets (λ s, entry (vmem s) (as_pml4 s asp) pml4_i);
  if present e then
    let pdpt := Z.land e NOT_FFF in
    forZ 512 0 (destroy_pdpt_entry pdpt) ;; free_page pdpt
  else mret tt.

Definition vmm_destroy_address_space (asp : Z) : M vmm unit :=
  forZ 510 1 (destroy_pml4_entry asp) ;;
  pml4 ← gets (λ s, as_pml4 s asp);
  free_page pml4 ;;
  free_page asp.

(** Table indices of a virtual address. *)
Definition pml4_index (virt : Z) : Z := Z.land (Z.shiftr virt 39) 0x1FF.
Definition pdpt_index (virt : Z) : Z := Z.land (Z.shiftr virt 30) 0x1FF.
Definition pd_index (virt : Z) : Z := Z.land (Z.shiftr virt 21) 0x1FF.
Definition pt_index (virt : Z) : Z := Z.land (Z.shiftr virt 12) 0x1FF.

(** The processor's translation of [va] under the root [t], huge pages
    included; [None] is a page fault. *)
Definition mmu (m : memory) (t va : Z) : option Z :=
  let e4 := entry m t (pml4_index va) in
  if negb (present e4) then None else
  let e3 := entry m (Z.land e4 ADDR_MASK) (pdpt_index va) in
  if negb (present e3) then None else
  if huge e3 then Some (Z.lor (Z.land e3 0x000FFFFFC0000000) (Z.land va 0x3FFFFFFF)) else
  let e2 := entry m (Z.land e3 ADDR_MASK) (pd_index va) in
  if negb (present e2) then None else
  if huge e2 then Some (Z.lor (Z.land e2 0x000FFFFFFFE00000) (Z.land va 0x1FFFFF)) else
  let e1 := entry m (Z.land e2 ADDR_MASK) (pt_index va) in
  if negb (present e1) then None else Some (Z.lor (Z.land e1 ADDR_MASK) (Z.land va 0xFFF)).

Definition vmm_map (asp virt phys flags : Z) : M vmm unit :=
  kassert (negb (asp =? 0)) "vmm_map: null address space" ;;
  kassert (Z.land virt 0xFFF =? 0) "vmm_map: virtual address is not page aligned" ;;
  kassert (Z.land phys 0xFFF =? 0) "vmm_map: physical address is not page aligned" ;;
  let table_flags := Z.lor (Z.lor VMM_FLAG_PRESENT VMM_FLAG_WRITE)
    (if negb (Z.land flags VMM_FLAG_USER =? 0) then VMM_FLAG_USER else 0) in
  pml4 ← gets (λ s, as_pml4 s asp);
  pdpt ← get_or_create_table pml4 (pml4_index virt) table_flags;
  pd ← get_or_create_table pdpt (pdpt_index virt) table_flags;
  e ← gets (λ s, entry (vmem s) pd (pd_index virt));
  kassert (negb (huge e)) "vmm_map: cannot map through a huge page" ;;
  pt ← get_or_create_table pd (pd_index virt) table_flags;
  e ← gets (λ s, entry (vmem s) pt (pt_index virt));
  kassert (negb (present e)) "vmm_map: virtual page is already mapped" ;;
  modify (set_entry pt (pt_index virt)
    (Z.lor (Z.lor (Z.land phys NOT_FFF) flags) VMM_FLAG_PRESENT)) ;;
  tlb_flush virt.

Definition vmm_unmap (asp virt : Z) : M vmm unit :=
  kassert (negb (asp =? 0)) "vmm_unmap: null address space" ;;
  kassert (Z.land virt 0xFFF =? 0) "vmm_unmap: virtual address is not page aligned" ;;
  e ← gets (λ s, entry (vmem s) (as_pml4 s asp) (pml4_index virt));
  if negb (present e) then mret tt else
  let pdpt := Z.land e NOT_FFF in
  e ← gets (λ s, entry (vmem s) pdpt (pdpt_index virt));
  if negb (present e) then mret tt else
  let pd := Z.land e NOT_FFF in
  e ← gets (λ s, entry (vmem s) pd (pd_index virt));
  if negb (present e) then mret tt else
  let pt := Z.land e NOT_FFF in
  modify (set_entry pt (pt_index virt) 0) ;;
  tlb_flush virt.

Definition vmm_switch (asp : Z) : M vmm unit :=
  modify (λ s, Vmm (phys s) (kernel_pml4 s) (as_pml4 s asp) (flushed s)).

Definition phys_to_virt_identity (phys : Z) : Z := phys.

Definition vmm_virt_to_phys (asp virt : Z) (s : vmm) : Z :=
  let e4 := entry (vmem s) (as_pml4 s asp) (pml4_index virt) in
  if negb (present e4) then 0 else
  let pdpt := phys_to_virt_identity (Z.land e4 ADDR_MASK) in
  let e3 := entry (vmem s) pdpt (pdpt_index virt) in
  if negb (present e3) then 0 else
  let pd := phys_to_virt_identity (Z.land e3 ADDR_MASK) in
  let e2 := entry (vmem s) pd (pd_index virt) in
  if negb (present e2) then 0 else
  let pt := phys_to_virt_identity (Z.land e2 ADDR_MASK) in
  let e1 := entry (vmem s) pt (pt_index virt) in
  if negb (present e1) then 0 else
  Z.lor (Z.land e1 ADDR_MASK) (Z.land virt 0xFFF).

(** ** Pages owned by a kernel structure *)

(** The PMM state under the VMM: well-formed, page 0 and the bitmap's own
    pages reserved, all physical addresses below 2^52. *)
Record phys_ok (s : pmm) : Prop := {
  po_wf : pmm_wf s;
  po_page0 : page_used 0 s = true;
  po_total : 0 < total_pages s <= 2 ^ 40;
  po_bitmap : ∀ k, 0 <= k < total_pages s →
    k * PAGE_SIZE < bitmap s + bitmap_size s → bitmap s < (k + 1) * PAGE_SIZE →
    page_used k s = true
}.

(** [u] is the address of an allocated page that holds no part of the bitmap. *)
Definition own_page (s : pmm) (u : Z) : Prop :=
  ∃ k, u = k * PAGE_SIZE ∧ 0 < k < total_pages s ∧ page_used k s = true ∧
       (u + PAGE_SIZE <= bitmap s ∨ bitmap s + bitmap_size s <= u).

(** Every owned page stays owned, and its words stay the same except possibly
    those at addresses in [X]. *)
Definition kept (X : Z → Prop) (s s' : pmm) : Prop :=
  ∀ u, own_page s u → own_page s' u ∧
    ∀ i, 0 <= i < 512 → ¬ X (u + 8 * i) → entry (mem s') u i = entry (mem s) u i.

Lemma kept_refl X s : kept X s s.
Proof. done. Qed.

Lemma kept_trans X s1 s2 s3 : kept X s1 s2 → kept X s2 s3 → kept X s1 s3.
Proof.
  intros H1 H2 u Hu. destruct (H1 u Hu) as [Hu2 E1]. destruct (H2 u Hu2) as [Hu3 E2].
  split; [done|]. intros i ??. rewrite E2, E1 by done. done.
Qed.

Lemma kept_weaken X Y s s' : (∀ a, X a → Y a) → kept X s s' → kept Y s s'.
Proof. intros HXY H u Hu. destruct (H u Hu) as [? E]. split; [done|]. intros i ??. apply E; auto. Qed.

#[export] Hint Resolve kept_refl kept_trans : samos.

Lemma own_page_range s u : phys_ok s → own_page s u →
  u `mod` PAGE_SIZE = 0 ∧ 0 < u ∧ u + PAGE_SIZE <= 2 ^ 52.
Proof.
  intros P (k & -> & Hk & _). pose proof (po_total _ P). split; [by apply Z.mod_mul|].
  unfold PAGE_SIZE. lia.
Qed.

Lemma own_page_disjoint s u v : own_page s u → own_page s v → u ≠ v →
  u + PAGE_SIZE <= v ∨ v + PAGE_SIZE <= u.
Proof. intros (k & -> & _) (j & -> & _). unfold PAGE_SIZE. lia. Qed.

(** A write inside one owned page keeps the others and the allocator. *)
Lemma own_page_frame s s' u :
  bitmap s' = bitmap s → bitmap_size s' = bitmap_size s → total_pages s' = total_pages s →
  (∀ q, 0 <= q < total_pages s → page_used q s = true → page_used q s' = true) →
  own_page s u → own_page s' u.
Proof.
  intros Eb Es Et Hu (k & -> & Hk & Hused & Hd). exists k.
  rewrite Eb, Es, Et. split_and!; try (done || lia). apply Hu; [lia|done].
Qed.

(** Writing to memory outside the bitmap leaves the allocator as it is. *)
Lemma phys_ok_set_mem s m :
  phys_ok s →
  (∀ b, bitmap s <= b < bitmap s + bitmap_size s → rd8 m b = rd8 (mem s) b) →
  phys_ok (set_mem m s) ∧
  ∀ q, 0 <= q < total_pages s → page_used q (set_mem m s) = page_used q s.
Proof.
  intros [W P0 Pt Pb] Hm. pose proof (wf_total _ W). pose proof (wf_size _ W).
  assert (∀ q, 0 <= q < total_pages s → page_used q (set_mem m s) = page_used q s) as U.
  { intros q Hq. apply page_used_frame; [done|]. apply Hm. arith. }
  split; [|done]. split; cbn; [split| | |]; cbn; try done.
  - rewrite (wf_count _ W). apply countb_ext. intros i ?. unfold page_free.
    by rewrite U by lia.
  - by rewrite U by lia.
  - intros k Hk ??. rewrite U by done. by apply Pb.
Qed.

Lemma own_page_no_bitmap s u b :
  own_page s u → u <= b < u + PAGE_SIZE → b < bitmap s ∨ bitmap s + bitmap_size s <= b.
Proof. intros (k & _ & _ & _ & H) ?. lia. Qed.

(** Writes confined to the owned page [t], at addresses covered by [X]. *)
Lemma write_page_kept X s m t lo hi :
  phys_ok s → own_page s t → t <= lo → hi <= t + PAGE_SIZE →
  same_outside lo hi (mem s) m →
  (∀ i, 0 <= i < 512 → lo < t + 8 * i + 8 → t + 8 * i < hi → X (t + 8 * i)) →
  phys_ok (set_mem m s) ∧ kept X s (set_mem m s).
Proof.
  intros P Ht Hlo Hhi Hm HX.
  destruct (phys_ok_set_mem s m P) as [P' U'].
  { intros b Hb. apply Hm. destruct (decide (lo <= b < hi)) as [Hin|]; [|lia].
    destruct (own_page_no_bitmap s t b Ht); lia. }
  split; [done|]. intros u Hu. split.
  { apply (own_page_frame s); try done. intros q ??. by rewrite U'. }
  intros i Hi Hx. unfold entry. cbn. eapply rd64_same_outside; [done|].
  destruct (decide (u = t)) as [->|Hne].
  - destruct (decide (t + 8 * i + 8 <= lo ∨ hi <= t + 8 * i)); [lia|].
    exfalso. apply Hx, HX; lia.
  - destruct (own_page_disjoint s u t Hu Ht Hne); unfold PAGE_SIZE in *; lia.
Qed.

(** Allocating a page: it is owned afterwards and was not before. *)
Lemma page_alloc_own s a s' :
  phys_ok s → page_alloc s a s' →
  phys_ok s' ∧ own_page s' a ∧ ¬ own_page s a ∧ kept (λ _, False) s s' ∧ pmm_frame s s'.
Proof.
  intros [W P0 Pt Pb] (p & Hp & Hf & -> & W' & F & U).
  pose proof F as [Fb Fs Ft Fm].
  assert (∀ q, 0 <= q < total_pages s → page_used q s = true → page_used q s' = true) as Hmono.
  { intros q Hq Hu. rewrite U, Hu by done. apply orb_true_r. }
  split_and!; [| | | |done].
  - split; [done|by apply Hmono; [lia|]|by rewrite Ft|].
    intros k. rewrite Fb, Fs, Ft. intros. apply Hmono; [done|]. by apply Pb.
  - exists p. rewrite Fb, Fs, Ft. split_and!; [done|lia|lia| |].
    + by rewrite U, Z.eqb_refl by lia.
    + destruct (decide (p * PAGE_SIZE + PAGE_SIZE <= bitmap s ∨
        bitmap s + bitmap_size s <= p * PAGE_SIZE)); [done|].
      rewrite Pb in Hf; [done|lia|lia|unfold PAGE_SIZE in *; lia].
  - intros (k & Ek & Hk & Hu & _). assert (k = p) as -> by (unfold PAGE_SIZE in *; lia). congruence.
  - intros u Hu. split.
    { eapply own_page_frame; eauto. }
    intros i Hi _. unfold entry. eapply rd64_same_outside; [exact Fm|].
    destruct Hu as (k & -> & _ & _ & Hd). unfold PAGE_SIZE in *. lia.
Qed.

(** The pages owned in [s'] and not in [s] are among [N]. *)
Definition gains (s s' : pmm) (N : Z → Prop) : Prop := ∀ u, own_page s' u → own_page s u ∨ N u.

Lemma gains_trans s1 s2 s3 N1 N2 : gains s1 s2 N1 → gains s2 s3 N2 → gains s1 s3 (λ u, N1 u ∨ N2 u).
Proof. intros H1 H2 u Hu. destruct (H2 u Hu) as [Hu2|]; [destruct (H1 u Hu2)|]; auto. Qed.

Lemma gains_weaken s s' (N N' : Z → Prop) : (∀ u, N u → N' u) → gains s s' N → gains s s' N'.
Proof. intros HN H u Hu. destruct (H u Hu); auto. Qed.

Lemma write_gains s m t lo hi : phys_ok s → own_page s t → t <= lo → hi <= t + PAGE_SIZE →
  same_outside lo hi (mem s) m → gains s (set_mem m s) (λ _, False).
Proof.
  intros P Ht Hlo Hhi Hm. destruct (phys_ok_set_mem s m P) as [_ U].
  { intros b Hb. apply Hm. destruct (decide (lo <= b < hi)) as [Hin|]; [|lia].
    destruct (own_page_no_bitmap s t b Ht); lia. }
  intros u (k & -> & Hk & Hu & Hd). left. exists k. cbn [total_pages bitmap bitmap_size set_mem] in Hk, Hd. rewrite U in Hu by lia. done.
Qed.

Lemma page_alloc_gains s a s' : page_alloc s a s' → gains s s' (eq a).
Proof.
  intros (p & Hp & Hf & -> & W & [Fb Fs Ft _] & U) u (k & -> & Hk & Hu & Hd). rewrite Fb, Fs in Hd. rewrite Ft in Hk.
  rewrite U in Hu by lia. destruct (Z.eqb_spec p k) as [->|]; [by right|]. left. by exists k.
Qed.

(** ** Entry bits *)
Lemma present_bit e : present e = Z.testbit e 0.
Proof. unfold present, VMM_FLAG_PRESENT. rewrite land_bit_0 by lia. apply negb_involutive. Qed.

Lemma huge_bit e : huge e = Z.testbit e 7.
Proof. unfold huge. rewrite land_bit_0 by lia. apply negb_involutive. Qed.

Lemma lor_small_land a b : 0 <= b < 8 → a `mod` 8 = 0 → Z.land a b = 0.
Proof.
  intros Hb Ha. apply Z.bits_inj'. intros i Hi. rewrite Z.land_spec, Z.bits_0.
  destruct (Z.lt_ge_cases i 3).
  - replace (Z.testbit a i) with false; [done|].
    rewrite <-(Z.mod_pow2_bits_low a 3) by lia. change (2 ^ 3) with 8. by rewrite Ha, Z.bits_0.
  - rewrite (testbit_lt b 3 i) by (done || lia). apply andb_false_r.
Qed.

(** The address field of an entry built from a page address and flags. *)
Lemma land_ADDR_MASK_bits e i : 0 <= i →
  Z.testbit (Z.land e ADDR_MASK) i = Z.testbit e i && (12 <=? i) && (i <? 52).
Proof.
  intros Hi. rewrite Z.land_spec.
  replace ADDR_MASK with (Z.shiftl (Z.ones 40) 12) by done.
  rewrite Z.shiftl_spec by lia. rewrite <-andb_assoc. f_equal.
  destruct (Z.leb_spec 12 i); [|by rewrite Z.testbit_neg_r by lia].
  rewrite Z.testbit_ones by lia. repeat zb_case; simpl; (done || lia).
Qed.

Lemma page_bits a i : a `mod` PAGE_SIZE = 0 → 0 <= i < 12 → Z.testbit a i = false.
Proof.
  intros Ha Hi. rewrite <-(Z.mod_pow2_bits_low a 12) by lia.
  change (2 ^ 12) with PAGE_SIZE. by rewrite Ha, Z.bits_0.
Qed.

(** [flags] touches no address bit. *)
Definition flags_ok (flags : Z) : Prop :=
  0 <= flags < 2 ^ 64 ∧ Z.land flags ADDR_MASK = 0.

Lemma entry_addr a flags : a `mod` PAGE_SIZE = 0 → 0 <= a < 2 ^ 52 → flags_ok flags →
  Z.land (Z.lor (Z.lor a flags) VMM_FLAG_PRESENT) ADDR_MASK = a.
Proof.
  intros Ha Hr [_ Hf]. apply Z.bits_inj'. intros i Hi.
  rewrite land_ADDR_MASK_bits, !Z.lor_spec by done.
  assert (12 <= i < 52 → Z.testbit flags i = false) as Hfi.
  { intros ?. assert (Z.testbit (Z.land flags ADDR_MASK) i = false) as E by (by rewrite Hf, Z.bits_0).
    rewrite land_ADDR_MASK_bits in E by done. repeat zb_case; try lia.
    by rewrite !andb_true_r in E. }
  destruct (Z.leb_spec 12 i), (Z.ltb_spec i 52); rewrite ?andb_false_r, ?andb_true_r; simpl.
  - rewrite Hfi by lia. unfold VMM_FLAG_PRESENT. rewrite shiftl1_bit by lia.
    destruct (Z.eqb_spec 0 i); [lia|]. by rewrite !orb_false_r.
  - by rewrite (testbit_lt a 52 i) by lia.
  - by rewrite page_bits by lia.
  - lia.
Qed.

(** ** The table tree *)
Definition next (m : memory) (t i : Z) : option Z :=
  let e := entry m t i in
  if present e && negb (huge e) then Some (Z.land e ADDR_MASK) else None.

Fixpoint walk (m : memory) (t : Z) (p : list Z) : option Z :=
  match p with
  | [] => Some t
  | i :: p' => t' ← next m t i; walk m t' p'
  end.

Definition okp (p : list Z) : Prop := Forall (λ i, 0 <= i < 512) p.

Lemma walk_app m t p q : walk m t (p ++ q) = t' ← walk m t p; walk m t' q.
Proof.
  revert t. induction p as [|i p IH]; intros t; [done|]. cbn.
  destruct (next m t i); [apply IH|done].
Qed.

Lemma walk_snoc m t p i : walk m t (p ++ [i]) = t' ← walk m t p; next m t' i.
Proof. rewrite walk_app. destruct (walk m t p) as [u|]; [|done]. cbn. by destruct (next m u i). Qed.

Lemma okp_snoc p i : okp (p ++ [i]) ↔ okp p ∧ 0 <= i < 512.
Proof. unfold okp. rewrite Forall_app, Forall_singleton. done. Qed.

Lemma walk_ext m m' root n :
  (∀ p t i, okp p → (length p < n)%nat → 0 <= i < 512 → walk m root p = Some t →
     next m' t i = next m t i) →
  ∀ p, okp p → (length p <= n)%nat → walk m' root p = walk m root p.
Proof.
  intros H p. induction p as [|i p IH] using rev_ind; intros Hp Hl; [done|].
  apply okp_snoc in Hp as [Hp Hi]. rewrite length_app in Hl. cbn in Hl.
  rewrite !walk_snoc, IH by (done || lia).
  destruct (walk m root p) as [t|] eqn:E; [|done]. cbn. apply (H p); (done || lia).
Qed.

(** Hanging a fresh empty table under a free slot adds exactly one path. *)
Lemma walk_add m m' root p0 t0 i0 new n :
  okp p0 → (length p0 < n)%nat → walk m root p0 = Some t0 → next m t0 i0 = None →
  next m' t0 i0 = Some new → (∀ i, 0 <= i < 512 → next m' new i = None) →
  (∀ p t i, okp p → (length p < n)%nat → 0 <= i < 512 → walk m root p = Some t →
     (t, i) ≠ (t0, i0) → next m' t i = next m t i) →
  (∀ p, okp p → (length p <= n)%nat → walk m root p = Some t0 → p = p0) →
  ∀ p, okp p → (length p <= n)%nat →
    walk m' root p = if decide (p = p0 ++ [i0]) then Some new else walk m root p.
Proof.
  intros Hp0 Hl0 Hw0 Hn0 Hn0' Hnew Hsame Hinj p.
  induction p as [|j q IH] using rev_ind; intros Hp Hl.
  { case_decide as E; [|done]. apply (f_equal length) in E. rewrite length_app in E. cbn in E. lia. }
  apply okp_snoc in Hp as [Hq Hj]. rewrite length_app in Hl. cbn in Hl.
  rewrite !walk_snoc, IH by (done || lia). case_decide as Eq.
  - subst q. rewrite decide_False.
    2:{ intros E. apply (f_equal length) in E. rewrite !length_app in E. cbn in E. lia. }
    rewrite walk_snoc, Hw0. cbn. rewrite Hn0. cbn. by apply Hnew.
  - destruct (walk m root q) as [t|] eqn:Et; cbn.
    + case_decide as E.
      * apply app_inj_tail in E as [-> ->]. rewrite Hw0 in Et. by injection Et as <-.
      * apply (Hsame q); [done|lia|done|done|]. intros [= -> ->]. apply E. f_equal.
        apply Hinj; (done || lia).
    + rewrite decide_False; [done|]. intros [-> ->]%app_inj_tail. congruence.
Qed.

(** The last-level entry that translates [v], 0 when a table is missing. *)
Definition path3 (v : Z) : list Z := [pml4_index v; pdpt_index v; pd_index v].
Definition leaf (m : memory) (root v : Z) : Z :=
  match walk m root (path3 v) with
  | Some pt => entry m pt (pt_index v)
  | None => 0
  end.

(** Well-formed address space: [asp] points to [root], the tables reachable
    from [root] form a tree of distinct owned pages, none of them the page of
    [asp], and the entries leading to tables hold nothing above bit 51. *)
Record as_wf (s : vmm) (asp root : Z) : Prop := {
  aw_root : as_pml4 s asp = root;
  aw_as : own_page (phys s) asp;
  aw_tables : ∀ p t, okp p → (length p <= 3)%nat → walk (vmem s) root p = Some t →
    own_page (phys s) t ∧ t ≠ asp;
  aw_tree : ∀ p q t, okp p → okp q → (length p <= 3)%nat → (length q <= 3)%nat →
    walk (vmem s) root p = Some t → walk (vmem s) root q = Some t → p = q;
  aw_small : ∀ p t i, okp p → (length p <= 2)%nat → 0 <= i < 512 →
    walk (vmem s) root p = Some t → next (vmem s) t i ≠ None → entry (vmem s) t i < 2 ^ 52;
  aw_upper : ∀ p t i, okp p → (length p <= 1)%nat → 0 <= i < 512 →
    walk (vmem s) root p = Some t → present (entry (vmem s) t i) = true →
    huge (entry (vmem s) t i) = false
}.

Lemma index_range v k : 0 <= Z.land (Z.shiftr v k) 0x1FF < 512.
Proof. change 0x1FF with (Z.ones 9). rewrite Z.land_ones by lia. by apply Z.mod_pos_bound. Qed.

Lemma okp_path3 v : okp (path3 v).
Proof. repeat constructor; apply index_range. Qed.
#[export] Hint Resolve okp_path3 : samos.

(** ** Allocating and linking tables *)
Lemma alloc_page_table_spec s :
  phys_ok (phys s) → 0 < free_pages (phys s) →
  ∃ t p', alloc_page_table s = Ok t (set_phys p' s) ∧ phys_ok p' ∧ own_page p' t ∧
    ¬ own_page (phys s) t ∧ kept (λ _, False) (phys s) p' ∧
    (∀ i, 0 <= i < 512 → entry (mem p') t i = 0) ∧
    free_pages p' = free_pages (phys s) - 1.
Proof.
  intros P Hfree. destruct (pmm_alloc_page (phys s)) as [t p1] eqn:E.
  destruct (pmm_alloc_page_cases _ _ _ (po_wf _ P) (po_page0 _ P) E) as [(_ & _ & ?)|[Ht A]]; [lia|].
  destruct (page_alloc_own _ _ _ P A) as (P1 & O1 & N1 & K1 & F1).
  pose proof (fill64_same_outside (mem p1) t 512 0) as Hout.
  destruct (write_page_kept (λ a, t <= a < t + PAGE_SIZE) p1 (fill64 (mem p1) t 512 0) t t (t + 4096))
    as [P2 K2]; [done|done|lia|unfold PAGE_SIZE; lia|done|unfold PAGE_SIZE; lia|].
  exists t, (set_mem (fill64 (mem p1) t 512 0) p1). split_and!; [|done| |done| | |].
  - unfold alloc_page_table.
    rewrite (bind_Ok _ _ s t (set_phys p1 s)) by (unfold zoom, lift; cbn; by rewrite E).
    by destruct (Z.eqb_spec t 0).
  - by apply K2.
  - intros u Hu. destruct (K1 u Hu) as [Hu1 E1]. destruct (K2 u Hu1) as [Hu2 E2].
    split; [done|]. intros i Hi _. rewrite E2; [rewrite E1; [done|done|tauto]|done|].
    assert (u ≠ t) as Hne by congruence.
    destruct (own_page_disjoint _ _ _ Hu1 O1 Hne); unfold PAGE_SIZE in *; lia.
  - intros i Hi. unfold entry. cbn [mem set_mem]. by rewrite rd64_fill64.
  - cbn. destruct A as (p & Hp & Hf & _ & S). apply (take_free_count (phys s) p1 p); [apply P|lia|done|done].
Qed.

Lemma alloc_page_table_gains s t p' : phys_ok (phys s) → alloc_page_table s = Ok t (set_phys p' s) →
  gains (phys s) p' (eq t).
Proof.
  intros P. unfold alloc_page_table. destruct (pmm_alloc_page (phys s)) as [a p1] eqn:E.
  rewrite (bind_Ok _ _ s a (set_phys p1 s)) by (unfold zoom, lift; cbn; by rewrite E).
  destruct (pmm_alloc_page_cases _ _ _ (po_wf _ P) (po_page0 _ P) E) as [(-> & _)|[Ht A]]; [done|].
  destruct (Z.eqb_spec a 0); [done|]. intros [= -> <-].
  destruct (page_alloc_own _ _ _ P A) as (P1 & O1 & _).
  pose proof (write_gains p1 _ t t (t + 4096) P1 O1 ltac:(lia) ltac:(unfold PAGE_SIZE; lia)
    (fill64_same_outside (mem p1) t 512 0)) as G.
  eapply gains_weaken; [|eapply gains_trans; [by apply page_alloc_gains|exact G]]. cbn. tauto.
Qed.

(** What [get_or_create_table] guarantees for a table of a well-formed space. *)
Record linked (s s' : vmm) (asp root : Z) (p0 : list Z) (table index t : Z) : Prop := {
  li_phys : phys_ok (phys s');
  li_as : as_wf s' asp root;
  li_same : s' = set_phys (phys s') s;
  li_walk : walk (vmem s') root (p0 ++ [index]) = Some t;
  li_other : ∀ p, okp p → (length p <= 3)%nat → p ≠ p0 ++ [index] →
    walk (vmem s') root p = walk (vmem s) root p;
  li_kept : kept (λ a, a = table + 8 * index) (phys s) (phys s');
  li_new : walk (vmem s) root (p0 ++ [index]) = Some t ∨
    (walk (vmem s) root (p0 ++ [index]) = None ∧ ¬ own_page (phys s) t ∧
     ∀ i, 0 <= i < 512 → entry (vmem s') t i = 0);
  li_free : free_pages (phys s) - 1 <= free_pages (phys s');
  li_gains : gains (phys s) (phys s') (eq t)
}.

(** A kept word of an owned page that is not the modified one. *)
Lemma kept_entry s s' table index u i :
  kept (λ a, a = table + 8 * index) s s' → own_page s table → own_page s u →
  0 <= i < 512 → 0 <= index < 512 → (u, i) ≠ (table, index) →
  entry (mem s') u i = entry (mem s) u i.
Proof.
  intros K Ht Hu Hi Hx Hne. apply K; [done|done|]. intros E. apply Hne.
  destruct (decide (u = table)) as [->|Hd]; [f_equal; lia|].
  destruct (own_page_disjoint _ _ _ Hu Ht Hd); unfold PAGE_SIZE in *; lia.
Qed.

Lemma next_entry m m' t i : entry m' t i = entry m t i → next m' t i = next m t i.
Proof. unfold next. by intros ->. Qed.

(** Storing [v] in [table[index]]. *)
Lemma set_entry_spec s table index v :
  phys_ok (phys s) → own_page (phys s) table → 0 <= index < 512 → 0 <= v < 2 ^ 64 →
  let s' := set_entry table index v s in
  phys_ok (phys s') ∧ kept (λ a, a = table + 8 * index) (phys s) (phys s') ∧
  entry (vmem s') table index = v ∧ s' = set_phys (phys s') s.
Proof.
  intros P Ho Hi Hv. cbn. unfold vmem, entry. cbn. rewrite rd64_wr64_eq, u64_small by done.
  destruct (write_page_kept (λ a, a = table + 8 * index) (phys s)
    (wr64 (mem (phys s)) (table + 8 * index) v) table (table + 8 * index) (table + 8 * index + 8))
    as [P' K']; try done.
  - lia.
  - unfold PAGE_SIZE. lia.
  - apply wr64_same_outside.
  - intros i ???. lia.
Qed.

Lemma set_entry_gains s table index v : phys_ok (phys s) → own_page (phys s) table → 0 <= index < 512 →
  gains (phys s) (phys (set_entry table index v s)) (λ _, False).
Proof.
  intros P Ho Hi. eapply (write_gains _ _ table (table + 8 * index) (table + 8 * index + 8) P Ho);
    [lia|unfold PAGE_SIZE; lia|apply wr64_same_outside].
Qed.

Section link.
Context (s : vmm) (asp root : Z) (p0 : list Z) (table index flags : Z).
Context (P : phys_ok (phys s)) (A : as_wf s asp root).
Context (Hp0 : okp p0) (Hl : (length p0 <= 2)%nat) (Hi : 0 <= index < 512).
Context (Hw : walk (vmem s) root p0 = Some table).

Lemma table_own : own_page (phys s) table.
Proof. apply (aw_tables _ _ _ A p0); (done || lia). Qed.

(** Changing only the entry [table[index]]: what holds of a new state whose
    tree is known. *)
Lemma as_wf_relink s' (K : kept (λ a, a = table + 8 * index) (phys s) (phys s'))
    (W : ∀ p, okp p → (length p <= 3)%nat → p ≠ p0 ++ [index] →
       walk (vmem s') root p = walk (vmem s) root p) t :
  own_page (phys s') t → t ≠ asp →
  walk (vmem s') root (p0 ++ [index]) = Some t →
  entry (vmem s') table index < 2 ^ 52 → huge (entry (vmem s') table index) = false →
  (walk (vmem s) root (p0 ++ [index]) = Some t ∨
   (¬ own_page (phys s) t ∧ ∀ i, 0 <= i < 512 → entry (vmem s') t i = 0)) →
  as_wf s' asp root.
Proof.
  intros Ot Hta Hwt Hsm Hhu Hcase. pose proof table_own as Ho.
  assert (table ≠ asp) as Hne by (apply (aw_tables _ _ _ A p0); (done || lia)).
  assert (∀ p u, okp p → (length p <= 3)%nat → walk (vmem s') root p = Some u →
    walk (vmem s) root p = Some u ∨
    (p = p0 ++ [index] ∧ u = t ∧ ¬ own_page (phys s) t ∧ ∀ i, 0 <= i < 512 → entry (vmem s') t i = 0)) as Hcls.
  { intros p u Hp Hpl Hu. destruct (decide (p = p0 ++ [index])) as [->|Hd].
    - rewrite Hwt in Hu. injection Hu as <-. destruct Hcase as [?|[? ?]]; [by left|by right].
    - left. by rewrite <-W. }
  split.
  - unfold as_pml4. rewrite <-(aw_root _ _ _ A). unfold as_pml4, vmem.
    pose proof (kept_entry _ _ _ _ asp 0 K Ho (aw_as _ _ _ A)) as E. unfold entry in E.
    rewrite Z.mul_0_r, Z.add_0_r in E. apply E; [lia|done|congruence].
  - by apply K, (aw_as _ _ _ A).
  - intros p u Hp Hpl Hu. destruct (Hcls p u Hp Hpl Hu) as [Hu0|(-> & -> & _)]; [|done].
    destruct (aw_tables _ _ _ A p u) as [? ?]; [done..|]. split; [by apply K|done].
  - intros p q u Hp Hq Hpl Hql Hpu Hqu.
    destruct (Hcls p u Hp Hpl Hpu) as [H1|(-> & -> & N1 & _)],
      (Hcls q _ Hq Hql Hqu) as [H2|(-> & E2 & N2 & _)]; [|subst..|done].
    + by apply (aw_tree _ _ _ A p q u).
    + exfalso. apply N2. by apply (aw_tables _ _ _ A p).
    + exfalso. apply N1. by apply (aw_tables _ _ _ A q).
  - intros p u i Hp Hpl Hii Hu Hn.
    destruct (Hcls p u Hp ltac:(lia) Hu) as [H1|(-> & -> & _ & Z1)]; [|by rewrite Z1].
    destruct (decide ((u, i) = (table, index))) as [[= -> ->]|Hd]; [done|].
    assert (own_page (phys s) u) as Ou by (apply (aw_tables _ _ _ A p); (done || lia)).
    pose proof (kept_entry _ _ _ _ u i K Ho Ou Hii Hi Hd) as E. unfold vmem in *.
    rewrite (next_entry _ _ _ _ E) in Hn. rewrite E. by apply (aw_small _ _ _ A p).
  - intros p u i Hp Hpl Hii Hu Hn.
    destruct (Hcls p u Hp ltac:(lia) Hu) as [H1|(-> & -> & _ & Z1)]; [|by rewrite Z1].
    destruct (decide ((u, i) = (table, index))) as [[= -> ->]|Hd]; [done|].
    assert (own_page (phys s) u) as Ou by (apply (aw_tables _ _ _ A p); (done || lia)).
    pose proof (kept_entry _ _ _ _ u i K Ho Ou Hii Hi Hd) as E. unfold vmem in *.
    rewrite E in *. by apply (aw_upper _ _ _ A p).
Qed.

Lemma link_user :
  present (entry (vmem s) table index) = true → huge (entry (vmem s) table index) = false →
  linked s (set_entry table index (Z.lor (entry (vmem s) table index) VMM_FLAG_USER) s)
    asp root p0 table index (Z.land (entry (vmem s) table index) ADDR_MASK).
Proof.
  intros Hpr Hhu. set (e := entry (vmem s) table index) in *. pose proof table_own as Ho.
  assert (next (vmem s) table index = Some (Z.land e ADDR_MASK)) as Hn
    by (unfold next; fold e; by rewrite Hpr, Hhu).
  assert (0 <= e < 2 ^ 52) as He.
  { split; [apply rd64_range|]. apply (aw_small _ _ _ A p0); try done. by rewrite Hn. }
  assert (0 <= Z.lor e VMM_FLAG_USER < 2 ^ 52) as He' by (by apply lor_range).
  destruct (set_entry_spec s table index (Z.lor e VMM_FLAG_USER)) as (P' & K & E' & Es); [done..|lia|].
  set (s' := set_entry table index _ s) in *.
  assert (huge (Z.lor e VMM_FLAG_USER) = false) as Hh'.
  { rewrite huge_bit, Z.lor_spec, <-huge_bit, Hhu. done. }
  assert (next (vmem s') table index = Some (Z.land e ADDR_MASK)) as Hn'.
  { unfold next. rewrite E', Hh', present_bit, Z.lor_spec, <-present_bit, Hpr. simpl. f_equal.
    apply Z.bits_inj'. intros i ?. rewrite !land_ADDR_MASK_bits, Z.lor_spec by done.
    unfold VMM_FLAG_USER. rewrite shiftl1_bit by lia.
    destruct (Z.eqb_spec 2 i) as [<-|]; [by rewrite !andb_false_r|by rewrite orb_false_r]. }
  assert (∀ p, okp p → (length p <= 3)%nat → walk (vmem s') root p = walk (vmem s) root p) as Hws.
  { apply walk_ext. intros p u i Hp Hpl Hii Hu.
    destruct (decide ((u, i) = (table, index))) as [[= -> ->]|Hd]; [by rewrite Hn', Hn|].
    apply next_entry. eapply (kept_entry (phys s)); try done.
    apply (aw_tables _ _ _ A p); (done || lia). }
  assert (walk (vmem s) root (p0 ++ [index]) = Some (Z.land e ADDR_MASK)) as Hw'
    by (by rewrite walk_snoc, Hw).
  assert (okp (p0 ++ [index])) as Hok by (by apply okp_snoc).
  assert (length (p0 ++ [index]) <= 3)%nat as Hlen by (rewrite length_app; cbn; lia).
  destruct (aw_tables _ _ _ A _ _ Hok Hlen Hw') as [Ot Hta].
  split; try done.
  - apply (as_wf_relink s' K) with (t := Z.land e ADDR_MASK); try done.
    + by intros; apply Hws.
    + by apply K.
    + by rewrite Hws.
    + rewrite E'. lia.
    + by rewrite E'.
    + by left.
  - by rewrite Hws.
  - intros; by apply Hws.
  - by left.
  - subst s'. cbn. lia.
  - eapply gains_weaken; [|by apply set_entry_gains]. done.
Qed.

Lemma link_same :
  present (entry (vmem s) table index) = true → huge (entry (vmem s) table index) = false →
  linked s s asp root p0 table index (Z.land (entry (vmem s) table index) ADDR_MASK).
Proof.
  intros Hpr Hhu.
  assert (walk (vmem s) root (p0 ++ [index]) = Some (Z.land (entry (vmem s) table index) ADDR_MASK)) as Hw'.
  { rewrite walk_snoc, Hw. cbn. unfold next. by rewrite Hpr, Hhu. }
  split; try done; [by destruct s|by left|lia|by intros u Hu; left].
Qed.

Definition table_flags_ok (f : Z) : Prop := f = 3 ∨ f = 7.

(** The entry written for a table at [t]. *)
Lemma table_entry t fl : table_flags_ok fl → t `mod` PAGE_SIZE = 0 → 0 <= t < 2 ^ 52 →
  let v := Z.lor (Z.lor t fl) VMM_FLAG_PRESENT in
  0 <= v < 2 ^ 52 ∧ Z.land v ADDR_MASK = t ∧ present v = true ∧ huge v = false.
Proof.
  intros Hfl Hta Ht v. assert (0 <= fl < 2 ^ 52) as Hf52 by (destruct Hfl; subst; lia).
  split; [unfold v; apply lor_range; [lia|by apply lor_range; [lia|..]|done]|]. split_and!.
  - apply entry_addr; [done|done|]. split; [lia|]. clear -Hfl. by destruct Hfl as [-> | ->].
  - rewrite present_bit. unfold v. rewrite Z.lor_spec. apply orb_true_r.
  - rewrite huge_bit. unfold v. rewrite !Z.lor_spec, (page_bits t 7) by (done || lia).
    clear -Hfl. by destruct Hfl as [-> | ->].
Qed.

Lemma link_new :
  table_flags_ok flags → present (entry (vmem s) table index) = false →
  0 < free_pages (phys s) →
  ∃ t p', alloc_page_table s = Ok t (set_phys p' s) ∧
    linked s (set_entry table index (Z.lor (Z.lor t flags) VMM_FLAG_PRESENT) (set_phys p' s))
      asp root p0 table index t.
Proof.
  intros Hfl Hpr Hfree. pose proof table_own as Ho.
  destruct (alloc_page_table_spec s P Hfree) as (t & p1 & Eal & P1 & O1 & N1 & K1 & Z1 & F1).
  exists t, p1. split; [done|]. set (s1 := set_phys p1 s).
  destruct (own_page_range _ _ P1 O1) as (Hta & Ht0 & Ht1).
  set (v := Z.lor (Z.lor t flags) VMM_FLAG_PRESENT).
  destruct (table_entry t flags Hfl Hta) as (Hv & Hva & Hvp & Hvh); [unfold PAGE_SIZE in *; lia|]. fold v in Hv, Hva, Hvp, Hvh.
  destruct (set_entry_spec s1 table index v) as (P2 & K2 & E2 & Es2); [done|by apply K1|done|lia|].
  set (s2 := set_entry table index v s1) in *.
  assert (kept (λ a, a = table + 8 * index) (phys s) (phys s2)) as K.
  { eapply kept_trans; [|exact K2]. eapply kept_weaken; [|exact K1]. done. }
  assert (t ≠ table) as Htt by congruence.
  assert (∀ i, 0 <= i < 512 → entry (vmem s2) t i = 0) as Zt.
  { intros i Hii. unfold vmem. rewrite (kept_entry p1 (phys s2) table index t i); try done.
    - by apply Z1.
    - by apply K1.
    - congruence. }
  assert (next (vmem s) table index = None) as Hn by (unfold next; by rewrite Hpr).
  assert (next (vmem s2) table index = Some t) as Hn2
    by (unfold next; by rewrite E2, Hvp, Hvh, Hva).
  assert (∀ p, okp p → (length p <= 3)%nat →
    walk (vmem s2) root p = if decide (p = p0 ++ [index]) then Some t else walk (vmem s) root p) as Hwk.
  { apply (walk_add _ _ _ p0 table index t); try done; [lia| | |].
    - intros i Hii. unfold next. by rewrite Zt.
    - intros p u i Hp Hpl Hii Hu Hd. apply next_entry. eapply (kept_entry (phys s)); try done.
      apply (aw_tables _ _ _ A p); (done || lia).
    - intros p Hp Hpl Hu. apply (aw_tree _ _ _ A p p0 table); (done || lia). }
  assert (okp (p0 ++ [index])) as Hok by (by apply okp_snoc).
  assert (length (p0 ++ [index]) <= 3)%nat as Hlen by (rewrite length_app; cbn; lia).
  assert (walk (vmem s2) root (p0 ++ [index]) = Some t) as Hwt
    by (rewrite Hwk by done; by rewrite decide_True).
  assert (∀ p, okp p → (length p <= 3)%nat → p ≠ p0 ++ [index] →
    walk (vmem s2) root p = walk (vmem s) root p) as Hws
    by (intros; rewrite Hwk by done; by rewrite decide_False).
  split; try done.
  - apply (as_wf_relink s2 K Hws t); try done.
    + by apply K2.
    + intros ->. apply N1, (aw_as _ _ _ A).
    + rewrite E2. lia.
    + by rewrite E2.
    + by right.
  - right. split_and!; [|done|done]. rewrite walk_snoc, Hw. done.
  - cbn. lia.
  - eapply gains_weaken; [|eapply gains_trans; [by apply (alloc_page_table_gains s t p1)|
      apply (set_entry_gains s1 table index v); [done|by apply K1|done]]]. cbn. tauto.
Qed.

(** [get_or_create_table] returns for any table of the tree, with a free page
    at hand and no huge entry in the way, and links one table. *)
Lemma get_or_create_spec :
  table_flags_ok flags → 0 < free_pages (phys s) →
  (present (entry (vmem s) table index) = true → huge (entry (vmem s) table index) = false) →
  ∃ t s', get_or_create_table table index flags s = Ok t s' ∧
          linked s s' asp root p0 table index t.
Proof.
  intros Hfl Hfree Hhu. unfold get_or_create_table.
  rewrite (bind_Ok _ _ s (entry (vmem s) table index) s) by done.
  destruct (present (entry (vmem s) table index)) eqn:Hpr.
  - specialize (Hhu eq_refl). destruct Hfl as [-> | ->]; cbn [Z.land negb Z.eqb].
    + exists (Z.land (entry (vmem s) table index) ADDR_MASK), s. split; [done|by apply link_same].
    + pose proof (link_user Hpr Hhu) as L. eexists _, _. split; [|exact L].
      unfold mbind, M_bind, modify, gets, mret, M_ret. cbn -[set_entry entry]. f_equal.
      assert (walk (vmem s) root (p0 ++ [index]) = Some (Z.land (entry (vmem s) table index) ADDR_MASK)) as Hw'.
      { rewrite walk_snoc, Hw. cbn. unfold next. by rewrite Hpr, Hhu. }
      pose proof (li_walk _ _ _ _ _ _ _ _ L) as Hw2. rewrite walk_snoc in Hw2.
      rewrite (li_other _ _ _ _ _ _ _ _ L p0), Hw in Hw2; [|done|lia|].
      * cbn in Hw2. unfold next in Hw2. by case_match; simplify_eq.
      * intros E. apply (f_equal length) in E. rewrite length_app in E. cbn in E. lia.
  - destruct (link_new Hfl Hpr Hfree) as (t & p' & Eal & L).
    eexists t, _. split; [|exact L]. by rewrite (bind_Ok _ _ _ _ _ Eal).
Qed.
End link.

(** ** Translation *)
Definition full_path (v : Z) : list Z := path3 v ++ [pt_index v].

(** The page-directory entry on the way to [w] has no huge-page bit. *)
Definition no_huge (m : memory) (root w : Z) : Prop :=
  ∀ pd, walk m root [pml4_index w; pdpt_index w] = Some pd →
    huge (entry m pd (pd_index w)) = false.

Lemma next_absent m t i : present (entry m t i) = false → next m t i = None.
Proof. unfold next. by intros ->. Qed.

Lemma virt_to_phys_leaf s asp root w :
  as_wf s asp root → no_huge (vmem s) root w →
  vmm_virt_to_phys asp w s =
    let e := leaf (vmem s) root w in
    if present e then Z.lor (Z.land e ADDR_MASK) (Z.land w 0xFFF) else 0.
Proof.
  intros A NH. unfold vmm_virt_to_phys, leaf, phys_to_virt_identity.
  rewrite (aw_root _ _ _ A). unfold path3. cbn [walk].
  pose proof (index_range w 39). pose proof (index_range w 30).
  set (e4 := entry (vmem s) root (pml4_index w)).
  destruct (present e4) eqn:P4; cbn [negb]; [|by rewrite next_absent].
  assert (next (vmem s) root (pml4_index w) = Some (Z.land e4 ADDR_MASK)) as N4.
  { unfold next. fold e4. rewrite P4. unfold e4 in *.
    by rewrite (aw_upper _ _ _ A [] root (pml4_index w)) by (done || apply index_range || by constructor). }
  rewrite N4. cbn [mbind option_bind]. set (pdpt := Z.land e4 ADDR_MASK) in *.
  assert (walk (vmem s) root [pml4_index w] = Some pdpt) as W1 by (cbn; by rewrite N4).
  set (e3 := entry (vmem s) pdpt (pdpt_index w)).
  destruct (present e3) eqn:P3; cbn [negb]; [|by rewrite next_absent].
  assert (next (vmem s) pdpt (pdpt_index w) = Some (Z.land e3 ADDR_MASK)) as N3.
  { unfold next. fold e3. rewrite P3. unfold e3 in *.
    by rewrite (aw_upper _ _ _ A [pml4_index w] pdpt (pdpt_index w))
      by (done || apply index_range || (repeat constructor; apply index_range)). }
  rewrite N3. cbn [mbind option_bind]. set (pd := Z.land e3 ADDR_MASK) in *.
  set (e2 := entry (vmem s) pd (pd_index w)).
  destruct (present e2) eqn:P2; cbn [negb]; [|by rewrite next_absent].
  assert (huge e2 = false) as H2.
  { apply NH. cbn. rewrite N4. cbn. by rewrite N3. }
  assert (next (vmem s) pd (pd_index w) = Some (Z.land e2 ADDR_MASK)) as N2
    by (unfold next; fold e2; by rewrite P2, H2).
  rewrite N2. cbn [mbind option_bind]. set (e1 := entry _ _ (pt_index w)). by destruct (present e1).
Qed.

Section linked_facts.
Context (s s' : vmm) (asp root : Z) (p0 : list Z) (table index t : Z).
Context (A : as_wf s asp root) (L : linked s s' asp root p0 table index t).
Context (Hp0 : okp p0) (Hl : (length p0 <= 2)%nat) (Hi : 0 <= index < 512).
Context (Hw : walk (vmem s) root p0 = Some table).

Lemma linked_entry q u i :
  okp q → (length q <= 3)%nat → walk (vmem s) root q = Some u → 0 <= i < 512 →
  (q, i) ≠ (p0, index) → entry (vmem s') u i = entry (vmem s) u i.
Proof.
  intros Hq Hql Hu Hii Hne. eapply (kept_entry (phys s)).
  - apply (li_kept _ _ _ _ _ _ _ _ L).
  - apply (aw_tables _ _ _ A p0); (done || lia).
  - by apply (aw_tables _ _ _ A q).
  - done.
  - done.
  - intros [= -> ->]. apply Hne. f_equal. apply (aw_tree _ _ _ A q p0 table); (done || lia).
Qed.

Lemma linked_leaf v : leaf (vmem s') root v = leaf (vmem s) root v.
Proof.
  unfold leaf. pose proof (index_range v 12) as Hx. fold (pt_index v) in Hx.
  destruct (decide (path3 v = p0 ++ [index])) as [E|Hd].
  - rewrite E, (li_walk _ _ _ _ _ _ _ _ L).
    destruct (li_new _ _ _ _ _ _ _ _ L) as [W0|(W0 & _ & Z0)]; rewrite W0; [|by apply Z0].
    apply (linked_entry (path3 v)); [auto with samos|done|by rewrite E|done|].
    intros [= Ep _]. rewrite <-Ep in Hl. cbn in Hl. lia.
  - rewrite (li_other _ _ _ _ _ _ _ _ L) by (done || auto with samos).
    destruct (walk (vmem s) root (path3 v)) as [pt|] eqn:W0; [|done].
    apply (linked_entry (path3 v)); [auto with samos|done|done|done|].
    intros [= Ep _]. rewrite <-Ep in Hl. cbn in Hl. lia.
Qed.

Lemma linked_no_huge w : no_huge (vmem s) root w → no_huge (vmem s') root w.
Proof.
  intros NH pd Wpd. pose proof (index_range w 21) as Hx. fold (pd_index w) in Hx.
  assert (okp [pml4_index w; pdpt_index w]) as Hok by (repeat constructor; apply index_range).
  assert (walk (vmem s) root [pml4_index w; pdpt_index w] = Some pd →
    ([pml4_index w; pdpt_index w], pd_index w) ≠ (p0, index) →
    huge (entry (vmem s') pd (pd_index w)) = false) as Hold.
  { intros W0 Hne. pose proof (linked_entry _ pd (pd_index w) Hok ltac:(cbn; lia) W0 Hx Hne) as E.
    rewrite E in *. by apply NH. }
  destruct (decide ([pml4_index w; pdpt_index w] = p0 ++ [index])) as [E|Hd].
  - rewrite E, (li_walk _ _ _ _ _ _ _ _ L) in Wpd. injection Wpd as <-.
    destruct (li_new _ _ _ _ _ _ _ _ L) as [W0|(W0 & _ & Z0)]; [|by rewrite Z0].
    apply Hold; [by rewrite E|]. intros [= Ep _]. rewrite <-Ep in E. done.
  - rewrite (li_other _ _ _ _ _ _ _ _ L) in Wpd by (done || cbn; lia).
    destruct (decide (([pml4_index w; pdpt_index w], pd_index w) = (p0, index))) as [[= Ep Ei]|Hne];
      [|by apply Hold].
    pose proof (li_walk _ _ _ _ _ _ _ _ L) as Wt. rewrite walk_snoc in Wt.
    rewrite (li_other _ _ _ _ _ _ _ _ L p0), Hw in Wt; [|done|lia|].
    + cbn in Wt. rewrite <-Ep in Hw. rewrite Hw in Wpd. injection Wpd as ->.
      rewrite Ei in *. unfold next in Wt. destruct (huge _); [|done]. by rewrite andb_false_r in Wt.
    + intros E. apply (f_equal length) in E. rewrite length_app in E. cbn in E. lia.
Qed.
End linked_facts.

(** Storing a last-level entry changes the translation of one page. *)
Lemma leaf_write s asp root v pt e :
  phys_ok (phys s) → as_wf s asp root → walk (vmem s) root (path3 v) = Some pt →
  0 <= e < 2 ^ 64 →
  let s' := set_entry pt (pt_index v) e s in
  phys_ok (phys s') ∧ as_wf s' asp root ∧
  (∀ w, leaf (vmem s') root w =
     if decide (full_path w = full_path v) then e else leaf (vmem s) root w) ∧
  (∀ w, no_huge (vmem s) root w → no_huge (vmem s') root w) ∧
  kept (λ a, a = pt + 8 * pt_index v) (phys s) (phys s') ∧
  (∀ p, okp p → (length p <= 3)%nat → walk (vmem s') root p = walk (vmem s) root p) ∧
  gains (phys s) (phys s') (λ _, False).
Proof.
  intros P A Wpt He s'. pose proof (index_range v 12) as Hx. fold (pt_index v) in Hx.
  destruct (aw_tables _ _ _ A (path3 v) pt (okp_path3 v) ltac:(done) Wpt) as [Opt Hpa].
  destruct (set_entry_spec s pt (pt_index v) e P Opt Hx He) as (P' & K & E' & Es). fold s' in P', K, E', Es.
  assert (∀ q u i, okp q → (length q <= 3)%nat → walk (vmem s) root q = Some u → 0 <= i < 512 →
    (q, i) ≠ (path3 v, pt_index v) → entry (vmem s') u i = entry (vmem s) u i) as HE.
  { intros q u i Hq Hql Hu Hii Hne. eapply (kept_entry (phys s)); try done.
    - by apply (aw_tables _ _ _ A q).
    - intros [= -> ->]. apply Hne. f_equal.
      apply (aw_tree _ _ _ A q (path3 v) pt); auto with samos. }
  assert (∀ q u i, okp q → (length q <= 2)%nat → walk (vmem s) root q = Some u → 0 <= i < 512 →
    entry (vmem s') u i = entry (vmem s) u i) as HE2.
  { intros q u i Hq Hql Hu Hii. apply (HE q); try (done || lia).
    intros [= -> _]. cbn in Hql. lia. }
  assert (∀ p, okp p → (length p <= 3)%nat → walk (vmem s') root p = walk (vmem s) root p) as HW.
  { apply walk_ext. intros p u i Hp Hpl Hii Hu. apply next_entry. apply (HE2 p); (done || lia). }
  split_and!; [done| | | |done|done|by apply set_entry_gains].
  - split.
    + rewrite <-(aw_root _ _ _ A). unfold as_pml4. pose proof (kept_entry _ _ _ _ asp 0 K Opt (aw_as _ _ _ A)) as E.
      unfold entry in E. rewrite Z.mul_0_r, Z.add_0_r in E. apply E; [lia|done|congruence].
    + apply K, A.
    + intros p u Hp Hpl Hu. rewrite HW in Hu by done.
      destruct (aw_tables _ _ _ A p u) as [? ?]; [done..|]. split; [by apply K|done].
    + intros p q u Hp Hq Hpl Hql. rewrite !HW by done. by apply (aw_tree _ _ _ A).
    + intros p u i Hp Hpl Hii Hu Hn. rewrite HW in Hu by (done || lia).
      pose proof (HE2 p u i Hp Hpl Hu Hii) as E. rewrite E.
      rewrite (next_entry _ _ _ _ E) in Hn. by apply (aw_small _ _ _ A p).
    + intros p u i Hp Hpl Hii Hu Hn. rewrite HW in Hu by (done || lia).
      rewrite (HE2 p) in * by (done || lia). by apply (aw_upper _ _ _ A p).
  - intros w. unfold leaf. rewrite HW by (done || auto with samos).
    pose proof (index_range w 12) as Hy. fold (pt_index w) in Hy. case_decide as D.
    + apply app_inj_tail in D as [-> ->]. by rewrite Wpt.
    + destruct (walk (vmem s) root (path3 w)) as [u|] eqn:Wu; [|done].
      apply (HE (path3 w)); auto with samos. intros [= E1 E2 E3 E4]. apply D.
      unfold full_path, path3. by rewrite E1, E2, E3, E4.
  - intros w NH pd Wpd. rewrite HW in Wpd by (try (repeat constructor; apply index_range); cbn; lia).
    rewrite (HE2 [pml4_index w; pdpt_index w]); [by apply NH| |done|done|apply index_range].
    repeat constructor; apply index_range.
Qed.

(** ** Mapping a page *)
Lemma page_lor a w : a `mod` PAGE_SIZE = 0 → Z.lor a (Z.land w 0xFFF) = a + w `mod` PAGE_SIZE.
Proof.
  intros Ha. change 0xFFF with (Z.ones 12). rewrite Z.land_ones by lia. change (2 ^ 12) with PAGE_SIZE.
  rewrite <-Z.lxor_lor, <-Z.add_nocarry_lxor; [done|..];
    apply Z.bits_inj'; intros i Hi; rewrite Z.land_spec, Z.bits_0;
    (destruct (Z.lt_ge_cases i 12); [by rewrite page_bits|]);
    rewrite (testbit_lt (w `mod` PAGE_SIZE) 12 i);
    try (apply andb_false_r || lia); by apply Z.mod_pos_bound.
Qed.

Lemma aligned_land v : v `mod` PAGE_SIZE = 0 → Z.land v 0xFFF = 0.
Proof. intros H. change 0xFFF with (Z.ones 12). by rewrite Z.land_ones. Qed.

Lemma table_flags_cases flags :
  table_flags_ok (Z.lor (Z.lor VMM_FLAG_PRESENT VMM_FLAG_WRITE)
    (if negb (Z.land flags VMM_FLAG_USER =? 0) then VMM_FLAG_USER else 0)).
Proof. unfold table_flags_ok. by destruct (negb _); [right|left]. Qed.

Lemma no_huge_pd m root v pd :
  no_huge m root v → walk m root [pml4_index v; pdpt_index v] = Some pd →
  huge (entry m pd (pd_index v)) = false.
Proof. auto. Qed.

(** The tables above the leaf entry, as [vmm_map] builds them. *)
Definition make_path (asp virt table_flags : Z) : M vmm Z :=
  pml4 ← gets (λ s, as_pml4 s asp);
  pdpt ← get_or_create_table pml4 (pml4_index virt) table_flags;
  pd ← get_or_create_table pdpt (pdpt_index virt) table_flags;
  e ← gets (λ s, entry (vmem s) pd (pd_index virt));
  kassert (negb (huge e)) "vmm_map: cannot map through a huge page" ;;
  get_or_create_table pd (pd_index virt) table_flags.

Lemma vmm_map_via asp virt pa flags s :
  vmm_map asp virt pa flags s =
  (kassert (negb (asp =? 0)) "vmm_map: null address space" ;;
   kassert (Z.land virt 0xFFF =? 0) "vmm_map: virtual address is not page aligned" ;;
   kassert (Z.land pa 0xFFF =? 0) "vmm_map: physical address is not page aligned" ;;
   pt ← make_path asp virt (Z.lor (Z.lor VMM_FLAG_PRESENT VMM_FLAG_WRITE)
     (if negb (Z.land flags VMM_FLAG_USER =? 0) then VMM_FLAG_USER else 0));
   e ← gets (λ s, entry (vmem s) pt (pt_index virt));
   kassert (negb (present e)) "vmm_map: virtual page is already mapped" ;;
   modify (set_entry pt (pt_index virt)
     (Z.lor (Z.lor (Z.land pa NOT_FFF) flags) VMM_FLAG_PRESENT)) ;;
   tlb_flush virt) s.
Proof.
  unfold vmm_map, make_path, mbind, M_bind, kassert, gets.
  destruct (negb (asp =? 0)); [|done]. destruct (Z.land virt 0xFFF =? 0); [|done].
  destruct (Z.land pa 0xFFF =? 0); [|done]. cbn -[get_or_create_table Z.lor].
  destruct (get_or_create_table _ (pml4_index virt) _ _) as [pdpt s1|]; [|done].
  destruct (get_or_create_table _ (pdpt_index virt) _ _) as [pd s2|]; [|done].
  by destruct (negb (huge _)).
Qed.

(** [t] is one of the tables of the tree under [root]. *)
Definition tab (s : vmm) (root t : Z) : Prop :=
  ∃ p, okp p ∧ (length p <= 3)%nat ∧ walk (vmem s) root p = Some t.

(** Pages owned in [s] stay owned, and those that are no table of [root]
    keep their contents. *)
Definition outside_kept (s s' : vmm) (root : Z) : Prop :=
  ∀ u, own_page (phys s) u → own_page (phys s') u ∧
    (¬ tab s root u → ∀ i, 0 <= i < 512 → entry (vmem s') u i = entry (vmem s) u i).

(** Two states in which every page translates alike, one with more tables. *)
Record grown (s s' : vmm) (asp root : Z) : Prop := {
  gr_phys : phys_ok (phys s');
  gr_as : as_wf s' asp root;
  gr_same : s' = set_phys (phys s') s;
  gr_leaf : ∀ v, leaf (vmem s') root v = leaf (vmem s) root v;
  gr_huge : ∀ v, no_huge (vmem s) root v → no_huge (vmem s') root v;
  gr_kept : outside_kept s s' root;
  gr_tab : ∀ u, tab s' root u → own_page (phys s) u → tab s root u
}.

Lemma outside_kept_trans s1 s2 s3 root :
  outside_kept s1 s2 root → outside_kept s2 s3 root →
  (∀ u, tab s2 root u → own_page (phys s1) u → tab s1 root u) → outside_kept s1 s3 root.
Proof.
  intros K1 K2 T u Hu. destruct (K1 u Hu) as [Hu2 E1]. destruct (K2 u Hu2) as [Hu3 E2].
  split; [done|]. intros Hn i Hi. rewrite E2; [by apply E1| |done]. intros Ht. by apply Hn, T.
Qed.

Lemma grown_trans s1 s2 s3 asp root : grown s1 s2 asp root → grown s2 s3 asp root → grown s1 s3 asp root.
Proof.
  intros [P1 A1 E1 L1 H1 K1 T1] [P2 A2 E2 L2 H2 K2 T2]. split; [done|done| | | | |].
  - rewrite E2 at 1. rewrite E1. done.
  - intros v. by rewrite L2, L1.
  - intros v ?. by apply H2, H1.
  - by eapply outside_kept_trans.
  - intros u Hu Ho. apply T1; [|done]. apply T2; [done|]. by apply K1.
Qed.

Lemma kept_outside s s' root table index :
  kept (λ a, a = table + 8 * index) (phys s) (phys s') → own_page (phys s) table →
  0 <= index < 512 → tab s root table → outside_kept s s' root.
Proof.
  intros K Ho Hx Ht u Hu. split; [by apply K|]. intros Hn i Hi.
  apply (kept_entry (phys s) (phys s') table index); try done. congruence.
Qed.

Lemma linked_grown s s' asp root p0 table index t :
  as_wf s asp root → linked s s' asp root p0 table index t → okp p0 → (length p0 <= 2)%nat →
  0 <= index < 512 → walk (vmem s) root p0 = Some table → grown s s' asp root.
Proof.
  intros A L Hp Hl Hi Hw. split; try apply L.
  - intros. by eapply linked_leaf.
  - intros. by eapply linked_no_huge.
  - apply (kept_outside s s' root table index); [apply L| |done|].
    + by apply (aw_tables _ _ _ A p0); try lia.
    + exists p0. split_and!; (done || lia).
  - intros u (p & Hop & Hpl & Hu) Ho.
    destruct (decide (p = p0 ++ [index])) as [->|Hne].
    + rewrite (li_walk _ _ _ _ _ _ _ _ L) in Hu. injection Hu as <-.
      destruct (li_new _ _ _ _ _ _ _ _ L) as [W|(_ & N & _)]; [|done]. by exists (p0 ++ [index]).
    + exists p. split_and!; try done. by rewrite <-(li_other _ _ _ _ _ _ _ _ L).
Qed.

(** [u] is one of the tables on the way to [virt]. *)
Definition on_path (s : vmm) (root virt u : Z) : Prop := ∃ p, p `prefix_of` path3 virt ∧ walk (vmem s) root p = Some u.

(** Tables are added, from free pages, and written on the way to [virt] only. *)
Record extended (s s' : vmm) (root virt : Z) : Prop := {
  ext_own : ∀ u, own_page (phys s) u → own_page (phys s') u;
  ext_walk : ∀ p, okp p → (length p <= 3)%nat → walk (vmem s') root p = walk (vmem s) root p ∨
    (p ≠ [] ∧ p `prefix_of` path3 virt ∧ walk (vmem s) root p = None ∧
     ∀ u, walk (vmem s') root p = Some u → ¬ own_page (phys s) u);
  ext_gains : gains (phys s) (phys s') (λ u, ∃ p, p ≠ [] ∧ p `prefix_of` path3 virt ∧ walk (vmem s') root p = Some u);
  ext_keep : ∀ u i, own_page (phys s) u → 0 <= i < 512 → ¬ on_path s root virt u →
    entry (vmem s') u i = entry (vmem s) u i
}.

Lemma okp_prefix p v : p `prefix_of` path3 v → okp p ∧ (length p <= 3)%nat.
Proof.
  intros Hp. split; [|by apply prefix_length in Hp].
  destruct Hp as [q Hq]. pose proof (okp_path3 v) as H. rewrite Hq in H.
  by apply Forall_app in H as [? _].
Qed.

Lemma extended_path s s' root virt u : extended s s' root virt → own_page (phys s) u → on_path s' root virt u → on_path s root virt u.
Proof.
  intros X Hu (p & Hpre & W). destruct (okp_prefix p virt Hpre) as [Hp Hl].
  destruct (ext_walk _ _ _ _ X p Hp Hl) as [E|(_ & _ & _ & N)]; [exists p; by rewrite <-E|by apply N in W].
Qed.

Lemma extended_trans s1 s2 s3 root virt : extended s1 s2 root virt → extended s2 s3 root virt → extended s1 s3 root virt.
Proof.
  intros X [O2 W2 G2 K2]. pose proof X as [O1 W1 G1 K1]. split.
  - intros u Hu. by apply O2, O1.
  - intros p Hp Hl. destruct (W2 p Hp Hl) as [->|(Hne & Hpre & Hn & N)]; [by apply W1|].
    right. split_and!; [done|done| |intros u Hu Ho; by apply (N u Hu), O1].
    destruct (W1 p Hp Hl) as [E|(_ & _ & E & _)]; congruence.
  - intros u Hu. destruct (G2 u Hu) as [Hu2|?]; [|by right]. destruct (G1 u Hu2) as [?|(p & Hne & Hpre & Hw)]; [by left|].
    right. exists p. split_and!; [done|done|]. destruct (okp_prefix p virt Hpre) as [Hp Hl].
    destruct (W2 p Hp Hl) as [->|(_ & _ & E & _)]; congruence.
  - intros u i Hu Hi Hn. rewrite K2; [by apply K1|by apply O1|done|]. intros Hp. by apply Hn, (extended_path s1 s2).
Qed.

Lemma linked_extended s s' asp root p0 table index t virt : linked s s' asp root p0 table index t →
  walk (vmem s) root p0 = Some table → own_page (phys s) table → 0 <= index < 512 →
  (p0 ++ [index]) `prefix_of` path3 virt → extended s s' root virt.
Proof.
  intros L Hw Ho Hi Hpre. destruct (okp_prefix _ _ Hpre) as [Hok Hl].
  assert (p0 ++ [index] ≠ []) as Hne by (by destruct p0). split.
  - intros u Hu. by apply (li_kept _ _ _ _ _ _ _ _ L).
  - intros p Hp Hpl. destruct (decide (p = p0 ++ [index])) as [->|]; [|left; by apply (li_other _ _ _ _ _ _ _ _ L)].
    rewrite (li_walk _ _ _ _ _ _ _ _ L). destruct (li_new _ _ _ _ _ _ _ _ L) as [W|(W & N & _)]; [by left|right].
    split_and!; try done. by intros u [= <-].
  - eapply gains_weaken; [|apply (li_gains _ _ _ _ _ _ _ _ L)]. intros u <-. exists (p0 ++ [index]).
    split_and!; [done|done|apply (li_walk _ _ _ _ _ _ _ _ L)].
  - intros u i Hu Hii Hn. apply (kept_entry _ _ table index u i (li_kept _ _ _ _ _ _ _ _ L)); try done.
    intros [= -> ->]. apply Hn. exists p0. split; [|done]. etransitivity; [|exact Hpre]. by apply prefix_app_r.
Qed.

(** Storing a last-level entry. *)
Lemma leaf_extended s asp root v pt e :
  phys_ok (phys s) → as_wf s asp root → walk (vmem s) root (path3 v) = Some pt → 0 <= e < 2 ^ 64 →
  extended s (set_entry pt (pt_index v) e s) root v.
Proof.
  intros P A W He. destruct (leaf_write s asp root v pt e P A W He) as (_ & _ & _ & _ & K & W' & G).
  destruct (aw_tables _ _ _ A (path3 v) pt (okp_path3 v) ltac:(done) W) as [Ho _]. split.
  - intros u Hu. by apply K.
  - intros p Hp Hl. left. by apply W'.
  - eapply gains_weaken; [|exact G]. done.
  - intros u i Hu Hi Hn. apply (kept_entry _ _ pt (pt_index v) u i K); try done; [apply index_range|].
    intros [= -> ->]. apply Hn. by exists (path3 v).
Qed.

(** With three free pages and no huge page in the way, the path to the page
    table of [virt] exists afterwards and no translation has changed. *)
Lemma make_path_spec s asp root virt fl :
  phys_ok (phys s) → as_wf s asp root → table_flags_ok fl → 3 <= free_pages (phys s) →
  no_huge (vmem s) root virt →
  ∃ pt s', make_path asp virt fl s = Ok pt s' ∧ grown s s' asp root ∧
    walk (vmem s') root (path3 virt) = Some pt ∧ extended s s' root virt ∧ free_pages (phys s) - 3 <= free_pages (phys s').
Proof.
  intros P A Hf F NH. unfold make_path.
  rewrite (bind_Ok _ _ s root s) by (unfold gets; by rewrite (aw_root _ _ _ A)).
  pose proof (index_range virt 39) as I4. pose proof (index_range virt 30) as I3.
  pose proof (index_range virt 21) as I2.
  fold (pml4_index virt) in I4. fold (pdpt_index virt) in I3. fold (pd_index virt) in I2.
  destruct (get_or_create_spec s asp root [] root (pml4_index virt) fl)
    as (pdpt & s1 & E1 & L1); try (done || lia || (by constructor) || (cbn; lia)).
  { intros. by apply (aw_upper _ _ _ A [] root); [constructor|cbn; lia|..]. }
  rewrite (bind_Ok _ _ _ _ _ E1).
  pose proof (linked_grown _ _ _ _ _ _ _ _ A L1 ltac:(constructor) ltac:(cbn; lia) I4 eq_refl) as G1.
  pose proof (li_walk _ _ _ _ _ _ _ _ L1) as W1. pose proof (li_free _ _ _ _ _ _ _ _ L1) as F1.
  assert (okp [pml4_index virt]) as O1 by (repeat first [apply List.Forall_nil | apply List.Forall_cons]; done).
  destruct (get_or_create_spec s1 asp root [pml4_index virt] pdpt (pdpt_index virt) fl)
    as (pd & s2 & E2 & L2); try (done || lia || apply G1 || (cbn; lia)).
  { intros. apply (aw_upper s1 asp root (gr_as _ _ _ _ G1) [pml4_index virt]); (done || cbn; lia). }
  rewrite (bind_Ok _ _ _ _ _ E2).
  pose proof (linked_grown _ _ _ _ _ _ _ _ (gr_as _ _ _ _ G1) L2 O1 ltac:(cbn; lia) I3 W1) as G2.
  pose proof (li_walk _ _ _ _ _ _ _ _ L2) as W2. pose proof (li_free _ _ _ _ _ _ _ _ L2) as F2.
  assert (okp [pml4_index virt; pdpt_index virt]) as O2 by (repeat first [apply List.Forall_nil | apply List.Forall_cons]; done).
  assert (huge (entry (vmem s2) pd (pd_index virt)) = false) as H2.
  { apply (no_huge_pd _ root); [|done]. by apply G2, G1. }
  unfold gets at 1. unfold mbind at 1, M_bind at 1. rewrite H2. cbn [negb kassert].
  destruct (get_or_create_spec s2 asp root [pml4_index virt; pdpt_index virt] pd (pd_index virt) fl)
    as (pt & s3 & E3 & L3); try (done || lia || apply G2 || (cbn; lia)).
  pose proof (linked_grown _ _ _ _ _ _ _ _ (gr_as _ _ _ _ G2) L3 O2 ltac:(cbn; lia) I2 W2) as G3.
  exists pt, s3. split_and!; [done| |apply (li_walk _ _ _ _ _ _ _ _ L3)| |pose proof (li_free _ _ _ _ _ _ _ _ L3); lia].
  - eapply grown_trans; [done|]. by eapply grown_trans.
  - eapply extended_trans; [|eapply extended_trans].
    + apply (linked_extended _ _ _ _ _ _ _ _ _ L1); [done| |done|by exists [pdpt_index virt; pd_index virt]].
      by apply (aw_tables _ _ _ A []); [constructor|cbn; lia|].
    + apply (linked_extended _ _ _ _ _ _ _ _ _ L2); [done| |done|by exists [pd_index virt]].
      apply (aw_tables _ _ _ (gr_as _ _ _ _ G1) [pml4_index virt]); [done|cbn; lia|done].
    + apply (linked_extended _ _ _ _ _ _ _ _ _ L3); [done| |done|done].
      apply (aw_tables _ _ _ (gr_as _ _ _ _ G2) [pml4_index virt; pdpt_index virt]); [done|cbn; lia|done].
Qed.

(** The state after a successful [vmm_map]: the tables have grown, then one
    leaf entry has been stored and its page flushed. *)
Lemma vmm_map_run s asp root virt pa flags :
  phys_ok (phys s) → as_wf s asp root → virt `mod` PAGE_SIZE = 0 →
  pa `mod` PAGE_SIZE = 0 → 0 <= pa < 2 ^ 52 → flags_ok flags → 3 <= free_pages (phys s) →
  no_huge (vmem s) root virt → present (leaf (vmem s) root virt) = false →
  ∃ pt s1, grown s s1 asp root ∧ walk (vmem s1) root (path3 virt) = Some pt ∧ extended s s1 root virt ∧
    free_pages (phys s) - 3 <= free_pages (phys s1) ∧
    vmm_map asp virt pa flags s =
      tlb_flush virt (set_entry pt (pt_index virt) (Z.lor (Z.lor pa flags) VMM_FLAG_PRESENT) s1).
Proof.
  intros P A Hv Hpa Hr Hfl Hfree NH Habs.
  destruct (make_path_spec s asp root virt _ P A (table_flags_cases flags) Hfree NH)
    as (pt & s1 & E & G & W & X & F).
  exists pt, s1. split_and!; [done|done|done|done|]. rewrite vmm_map_via.
  destruct (own_page_range _ _ P (aw_as _ _ _ A)) as (_ & Has & _).
  rewrite (aligned_land virt), (aligned_land pa) by done.
  replace (Z.land pa NOT_FFF) with pa.
  2:{ replace NOT_FFF with (Z.lor ADDR_MASK (Z.shiftl (Z.ones 12) 52)) by done.
      apply Z.bits_inj'. intros i Hi. rewrite Z.land_lor_distr_r, Z.lor_spec, land_ADDR_MASK_bits by done.
      rewrite Z.land_spec, Z.shiftl_spec by done. destruct (Z.lt_ge_cases i 12).
      { by rewrite (page_bits pa). }
      destruct (Z.lt_ge_cases i 52); [|by rewrite (testbit_lt pa 52 i)].
      rewrite (Z.testbit_neg_r _ (i - 52)) by lia.
      destruct (Z.leb_spec 12 i), (Z.ltb_spec i 52); try lia. by destruct (Z.testbit pa i). }
  destruct (Z.eqb_spec asp 0); [lia|].
  unfold kassert. cbn [negb Z.eqb]. unfold mbind at 1 2 3 4, M_bind at 1 2 3 4, mret, M_ret.
  rewrite E. unfold mbind, M_bind, gets, modify.
  assert (entry (vmem s1) pt (pt_index virt) = leaf (vmem s1) root virt) as ->
    by (unfold leaf; by rewrite W).
  by rewrite (gr_leaf _ _ _ _ G), Habs.
Qed.

Lemma map_entry_range pa flags : 0 <= pa < 2 ^ 52 → flags_ok flags →
  0 <= Z.lor (Z.lor pa flags) VMM_FLAG_PRESENT < 2 ^ 64.
Proof. intros ? [? _]. apply lor_range; [lia|apply lor_range; lia|done]. Qed.

Lemma present_lor e : present (Z.lor e VMM_FLAG_PRESENT) = true.
Proof. rewrite present_bit, Z.lor_spec. apply orb_true_r. Qed.

(** The entry of the page after [vmm_map], and nothing else. *)
Lemma vmm_map_ok s asp root virt pa flags :
  phys_ok (phys s) → as_wf s asp root → virt `mod` PAGE_SIZE = 0 →
  pa `mod` PAGE_SIZE = 0 → 0 <= pa < 2 ^ 52 → flags_ok flags → 3 <= free_pages (phys s) →
  no_huge (vmem s) root virt → present (leaf (vmem s) root virt) = false →
  ∃ s', vmm_map asp virt pa flags s = Ok tt s' ∧ phys_ok (phys s') ∧ as_wf s' asp root ∧
    flushed s' = virt :: flushed s ∧ (∀ w, no_huge (vmem s) root w → no_huge (vmem s') root w) ∧
    (∀ w, leaf (vmem s') root w =
      if decide (full_path w = full_path virt) then Z.lor (Z.lor pa flags) VMM_FLAG_PRESENT else leaf (vmem s) root w) ∧
    extended s s' root virt ∧ outside_kept s s' root ∧ (∀ u, tab s' root u → own_page (phys s) u → tab s root u) ∧
    kernel_pml4 s' = kernel_pml4 s ∧ free_pages (phys s) - 3 <= free_pages (phys s').
Proof.
  intros P A Hv Hpa Hr Hfl Hfree NH Habs.
  destruct (vmm_map_run s asp root virt pa flags) as (pt & s1 & G & W & X & F & E); [done..|].
  destruct (leaf_write s1 asp root virt pt _ (gr_phys _ _ _ _ G) (gr_as _ _ _ _ G) W
    (map_entry_range pa flags Hr Hfl)) as (P' & A' & L' & H' & K' & W' & N').
  rewrite E. eexists. split; [done|]. split_and!; [done| |cbn; by rewrite (gr_same _ _ _ _ G)| | | | | |cbn; by rewrite (gr_same _ _ _ _ G)|done].
  - destruct A'. by split.
  - intros w NHw. apply (H' w), (gr_huge _ _ _ _ G w NHw).
  - intros w. transitivity (leaf (vmem (set_entry pt (pt_index virt) (Z.lor (Z.lor pa flags) VMM_FLAG_PRESENT) s1)) root w);
      [done|]. by rewrite L', (gr_leaf _ _ _ _ G).
  - eapply extended_trans; [exact X|]. destruct (leaf_extended s1 asp root virt pt _ (gr_phys _ _ _ _ G) (gr_as _ _ _ _ G) W
      (map_entry_range pa flags Hr Hfl)). by split.
  - eapply outside_kept_trans; [apply (gr_kept _ _ _ _ G)| |apply (gr_tab _ _ _ _ G)].
    apply (kept_outside s1 _ root pt (pt_index virt) K'); [|apply index_range|].
    + apply (aw_tables _ _ _ (gr_as _ _ _ _ G) (path3 virt)); auto with samos.
    + exists (path3 virt); auto with samos.
  - intros u (p & Hp & Hl & Hw). apply (gr_tab _ _ _ _ G). exists p. split_and!; [done|done|]. rewrite <-Hw. symmetry. by apply W'.
Qed.

(** C4. [vmm_map] is total and does what it says: in a well-formed address
    space, with three free pages, page-aligned addresses, no huge page in the
    way and the page not yet mapped, it returns; afterwards the address space
    is well-formed, exactly the page of [virt] translates to [pa] (offset
    included), every other small-page translation is what it was, and the TLB
    entry of the page has been flushed. *)
Theorem vmm_map_spec s asp root virt pa flags :
  phys_ok (phys s) → as_wf s asp root → virt `mod` PAGE_SIZE = 0 →
  pa `mod` PAGE_SIZE = 0 → 0 <= pa < 2 ^ 52 → flags_ok flags → 3 <= free_pages (phys s) →
  no_huge (vmem s) root virt → present (leaf (vmem s) root virt) = false →
  ∃ s', vmm_map asp virt pa flags s = Ok tt s' ∧ phys_ok (phys s') ∧ as_wf s' asp root ∧
    flushed s' = virt :: flushed s ∧
    ∀ w, no_huge (vmem s) root w → vmm_virt_to_phys asp w s' =
      if decide (full_path w = full_path virt) then pa + w `mod` PAGE_SIZE
      else vmm_virt_to_phys asp w s.
Proof.
  intros P A Hv Hpa Hr Hfl Hfree NH Habs.
  destruct (vmm_map_ok s asp root virt pa flags) as (s' & E & P' & A' & F & H' & L' & _); [done..|].
  exists s'. split_and!; [done..|]. intros w NHw.
  rewrite (virt_to_phys_leaf _ _ _ _ A' (H' w NHw)), L'. cbn zeta. case_decide.
  - rewrite present_lor, entry_addr by done. by apply page_lor.
  - by rewrite (virt_to_phys_leaf _ _ _ _ A NHw).
Qed.

(** ** Isolation *)

(** What the lookup of [w] reads in the space at [aspB] belongs to no table of
    the space under [rootA]. *)
Record private (s : vmm) (rootA aspB rootB w : Z) : Prop := {
  pr_as : ¬ tab s rootA aspB;
  pr_tables : ∀ p t, p `prefix_of` path3 w → walk (vmem s) rootB p = Some t → ¬ tab s rootA t
}.

Lemma walk_private s s' rootA aspB rootB w :
  as_wf s aspB rootB → outside_kept s s' rootA → private s rootA aspB rootB w →
  ∀ p, p `prefix_of` path3 w → walk (vmem s') rootB p = walk (vmem s) rootB p.
Proof.
  intros B K Pr p. induction p as [|i p IH] using rev_ind; intros Hp; [done|].
  pose proof (okp_prefix _ _ Hp) as [[Hok Hi]%okp_snoc Hl]. rewrite length_app in Hl. cbn in Hl.
  assert (p `prefix_of` path3 w) as Hp' by (eapply prefix_app_l; done).
  rewrite !walk_snoc, IH by done. destruct (walk (vmem s) rootB p) as [t|] eqn:W; [|done].
  cbn. apply next_entry, K; [|by eapply pr_tables|done].
  by apply (aw_tables _ _ _ B p); try lia.
Qed.

Lemma leaf_private s s' rootA aspB rootB w :
  as_wf s aspB rootB → outside_kept s s' rootA → private s rootA aspB rootB w →
  leaf (vmem s') rootB w = leaf (vmem s) rootB w.
Proof.
  intros B K Pr. unfold leaf. rewrite (walk_private s s' rootA aspB rootB w) by done.
  destruct (walk (vmem s) rootB (path3 w)) as [t|] eqn:W; [|done].
  apply K; [|by eapply pr_tables|apply index_range]. by apply (aw_tables _ _ _ B (path3 w)); auto with samos.
Qed.

(** C17. Isolation: mapping a page in one address space changes neither the
    PML4 pointer of another nor the translation entry of any address whose
    tables the other space does not share with the first. *)
Theorem vmm_map_isolation s aspA rootA virt pa flags s' aspB rootB w :
  phys_ok (phys s) → as_wf s aspA rootA → as_wf s aspB rootB →
  virt `mod` PAGE_SIZE = 0 → pa `mod` PAGE_SIZE = 0 → 0 <= pa < 2 ^ 52 → flags_ok flags →
  3 <= free_pages (phys s) → no_huge (vmem s) rootA virt →
  present (leaf (vmem s) rootA virt) = false →
  private s rootA aspB rootB w → vmm_map aspA virt pa flags s = Ok tt s' →
  as_pml4 s' aspB = rootB ∧ leaf (vmem s') rootB w = leaf (vmem s) rootB w.
Proof.
  intros P A B Hv Hpa Hr Hfl Hfree NH Habs Pr E.
  destruct (vmm_map_run s aspA rootA virt pa flags) as (pt & s1 & G & W & _ & _ & E'); [done..|].
  rewrite E' in E. injection E as <-.
  destruct (leaf_write s1 aspA rootA virt pt _ (gr_phys _ _ _ _ G) (gr_as _ _ _ _ G) W
    (map_entry_range pa flags Hr Hfl)) as (_ & _ & _ & _ & K & _).
  destruct (aw_tables _ _ _ (gr_as _ _ _ _ G) (path3 virt) pt (okp_path3 virt) ltac:(done) W) as [Opt _].
  assert (outside_kept s1 (set_entry pt (pt_index virt) (Z.lor (Z.lor pa flags) VMM_FLAG_PRESENT) s1) rootA) as K1.
  { eapply kept_outside; [done|done|apply index_range|]. exists (path3 virt). auto with samos. }
  pose proof (outside_kept_trans _ _ _ _ (gr_kept _ _ _ _ G) K1 (gr_tab _ _ _ _ G)) as K2.
  split; [|by eapply leaf_private].
  destruct (K2 aspB (aw_as _ _ _ B)) as [_ E0]. specialize (E0 (pr_as _ _ _ _ _ Pr) 0 ltac:(lia)).
  rewrite <-(aw_root _ _ _ B). unfold entry in E0. rewrite Z.mul_0_r, Z.add_0_r in E0. done.
Qed.

(** ** Unmapping *)
Lemma land_NOT_FFF e : 0 <= e < 2 ^ 52 → Z.land e NOT_FFF = Z.land e ADDR_MASK.
Proof.
  intros He. apply Z.bits_inj'. intros i Hi. rewrite land_ADDR_MASK_bits, Z.land_spec by done.
  replace NOT_FFF with (Z.shiftl (Z.ones 52) 12) by done. rewrite Z.shiftl_spec by done.
  destruct (Z.lt_ge_cases i 52); [|by rewrite (testbit_lt e 52 i)].
  rewrite <-andb_assoc. f_equal. rewrite Z.testbit_ones by lia.
  repeat zb_case; simpl; (done || lia).
Qed.

Section unmap.
Context (s : vmm) (asp root virt : Z).
Context (A : as_wf s asp root) (NH : no_huge (vmem s) root virt).

(** One level of the walk in [vmm_unmap] is one level of the tree. *)
Lemma walk_level p t i : okp p → (length p <= 2)%nat → 0 <= i < 512 →
  walk (vmem s) root p = Some t →
  (present (entry (vmem s) t i) = true → huge (entry (vmem s) t i) = false) →
  walk (vmem s) root (p ++ [i]) =
    if present (entry (vmem s) t i) then Some (Z.land (entry (vmem s) t i) NOT_FFF) else None.
Proof.
  intros Hp Hl Hi W Hh. rewrite walk_snoc, W. cbn.
  destruct (present (entry (vmem s) t i)) eqn:Hpr; [|by apply next_absent].
  assert (next (vmem s) t i = Some (Z.land (entry (vmem s) t i) ADDR_MASK)) as E
    by (unfold next; by rewrite Hpr, Hh).
  rewrite land_NOT_FFF; [done|]. split; [apply rd64_range|].
  apply (aw_small _ _ _ A p); try done. by rewrite E.
Qed.

Lemma walk_prefix_None m r p q : walk m r p = None → walk m r (p ++ q) = None.
Proof. intros H. by rewrite walk_app, H. Qed.

(** [vmm_unmap] writes the leaf entry when all tables are there and returns
    without any effect otherwise. *)
Lemma vmm_unmap_run : virt `mod` PAGE_SIZE = 0 → asp ≠ 0 →
  vmm_unmap asp virt s =
    match walk (vmem s) root (path3 virt) with
    | Some pt => tlb_flush virt (set_entry pt (pt_index virt) 0 s)
    | None => Ok tt s
    end.
Proof.
  intros Hv Has. unfold vmm_unmap. rewrite (aligned_land virt) by done.
  unfold kassert, mbind, M_bind, gets, modify, mret, M_ret. destruct (Z.eqb_spec asp 0); [done|].
  cbn [negb Z.eqb]. rewrite (aw_root _ _ _ A).
  pose proof (okp_path3 virt) as O3. unfold path3 in O3.
  apply Forall_cons in O3 as [I4 O3]. apply Forall_cons in O3 as [I3 O3]. apply Forall_cons in O3 as [I2 _].
  assert (okp [pml4_index virt; pdpt_index virt] ∧ okp [pml4_index virt]) as [O2 O1]
    by (split; repeat first [apply List.Forall_nil | apply List.Forall_cons]; done).
  pose proof (walk_level [] root (pml4_index virt) ltac:(constructor) ltac:(cbn; lia) I4 eq_refl
    (aw_upper _ _ _ A [] root _ ltac:(constructor) ltac:(cbn; lia) I4 eq_refl)) as W1. cbn [app] in W1.
  destruct (present (entry (vmem s) root (pml4_index virt))); cbn [negb].
  2:{ by rewrite (walk_prefix_None _ _ [pml4_index virt] [pdpt_index virt; pd_index virt]). }
  set (pdpt := Z.land _ NOT_FFF) in *.
  pose proof (walk_level [pml4_index virt] pdpt (pdpt_index virt) O1 ltac:(cbn; lia) I3 W1
    (aw_upper _ _ _ A _ _ _ O1 ltac:(cbn; lia) I3 W1)) as W2. cbn [app] in W2.
  destruct (present (entry (vmem s) pdpt (pdpt_index virt))); cbn [negb].
  2:{ by rewrite (walk_prefix_None _ _ [pml4_index virt; pdpt_index virt] [pd_index virt]). }
  set (pd := Z.land (entry _ pdpt _) NOT_FFF) in *.
  pose proof (walk_level _ pd (pd_index virt) O2 ltac:(cbn; lia) I2 W2 (λ _, NH _ W2)) as W3.
  cbn [app] in W3. unfold path3. rewrite W3.
  by destruct (present (entry (vmem s) pd (pd_index virt))).
Qed.
End unmap.

(** [vmm_unmap] returns in every well-formed space; afterwards the page
    has no translation, every other small page translates as before, and the
    page is flushed from the TLB if its tables existed.  No frame or table is
    given back. *)
Theorem vmm_unmap_spec s asp root virt :
  phys_ok (phys s) → as_wf s asp root → virt `mod` PAGE_SIZE = 0 → no_huge (vmem s) root virt →
  ∃ s', vmm_unmap asp virt s = Ok tt s' ∧ phys_ok (phys s') ∧ as_wf s' asp root ∧
    free_pages (phys s') = free_pages (phys s) ∧
    flushed s' = (if decide (walk (vmem s) root (path3 virt) = None) then flushed s
                  else virt :: flushed s) ∧
    ∀ w, no_huge (vmem s) root w → vmm_virt_to_phys asp w s' =
      if decide (full_path w = full_path virt) then 0 else vmm_virt_to_phys asp w s.
Proof.
  intros P A Hv NH. destruct (own_page_range _ _ P (aw_as _ _ _ A)) as (_ & Has & _).
  rewrite (vmm_unmap_run s asp root virt A NH Hv) by lia.
  destruct (walk (vmem s) root (path3 virt)) as [pt|] eqn:W.
  - destruct (leaf_write s asp root virt pt 0 P A W ltac:(lia)) as (P' & A' & L' & H' & _).
    eexists. split; [done|]. split_and!; [done|by destruct A'; split|done|done|].
    intros w NHw. transitivity (vmm_virt_to_phys asp w (set_entry pt (pt_index virt) 0 s)); [done|].
    rewrite (virt_to_phys_leaf _ _ _ _ A' (H' w NHw)), L'. cbn zeta. case_decide; [done|].
    by rewrite (virt_to_phys_leaf _ _ _ _ A NHw).
  - exists s. split_and!; try done. intros w NHw. case_decide as D; [|done].
    rewrite (virt_to_phys_leaf _ _ _ _ A NHw). unfold leaf.
    unfold full_path in D. apply app_inj_tail in D as [-> _]. by rewrite W.
Qed.

(** ** A new address space *)
Lemma alloc_page_own s : phys_ok s →
  match pmm_alloc_page s with
  | (a, s') =>
      (free_pages s = 0 ∧ a = 0 ∧ s' = s) ∨
      (0 < free_pages s ∧ a ≠ 0 ∧ phys_ok s' ∧ own_page s' a ∧ ¬ own_page s a ∧
       kept (λ _, False) s s' ∧ free_pages s' = free_pages s - 1)
  end.
Proof.
  intros P. destruct (pmm_alloc_page s) as [a s'] eqn:E.
  destruct (pmm_alloc_page_cases _ _ _ (po_wf _ P) (po_page0 _ P) E) as [(-> & -> & H)|[Ha Al]].
  - left. done.
  - right. destruct (page_alloc_own _ _ _ P Al) as (P1 & O1 & N1 & K1 & _).
    destruct Al as (p & Hp & Hf & _ & St).
    pose proof (take_free_count s s' p (po_wf _ P) ltac:(lia) Hf St) as F.
    pose proof (wf_count _ (po_wf _ P1)) as C.
    pose proof (countb_range (page_free s') (Z.to_nat (total_pages s'))).
    split_and!; (done || lia).
Qed.

(** The entries of the new PML4. *)
Definition fresh_pml4 (s : vmm) (i : Z) : Z :=
  if i =? 0 then Z.lor (entry (vmem s) (kernel_pml4 s) 0) VMM_FLAG_USER
  else if i =? 511 then entry (vmem s) (kernel_pml4 s) 511 else 0.

(** Stores into a page that was not owned in [s0]. *)
Lemma kept_fresh s0 s s' t index :
  kept (λ _, False) s0 s → ¬ own_page s0 t → own_page s t → 0 <= index < 512 →
  kept (λ a, a = t + 8 * index) s s' → kept (λ _, False) s0 s'.
Proof.
  intros K N O Hx K' u Hu. destruct (K u Hu) as [Hu1 E1]. destruct (K' u Hu1) as [Hu2 E2].
  split; [done|]. intros i Hi _. rewrite E2; [rewrite E1; [done|done|tauto]|done|].
  assert (u ≠ t) as Hne by congruence.
  destruct (own_page_disjoint _ _ _ Hu1 O Hne); unfold PAGE_SIZE in *; lia.
Qed.

(** Clearing an owned table. *)
Lemma clear_table_spec s t : phys_ok (phys s) → own_page (phys s) t →
  let s' := set_vmem (fill64 (vmem s) t 512 0) s in
  phys_ok (phys s') ∧ (∀ u, own_page (phys s) u → own_page (phys s') u ∧
    (u ≠ t → ∀ i, 0 <= i < 512 → entry (vmem s') u i = entry (vmem s) u i)) ∧
  (∀ i, 0 <= i < 512 → entry (vmem s') t i = 0) ∧ gains (phys s) (phys s') (λ _, False).
Proof.
  intros P O. cbn zeta.
  destruct (write_page_kept (λ a, t <= a < t + PAGE_SIZE) (phys s) (fill64 (vmem s) t 512 0) t t (t + 4096))
    as [P' K']; [done|done|lia|unfold PAGE_SIZE; lia|apply (fill64_same_outside (vmem s) t 512 0)|unfold PAGE_SIZE; lia|].
  split_and!; [done| | |].
  - intros u Hu. destruct (K' u Hu) as [Hu' E]. split; [done|]. intros Hne i Hi. apply E; [done|].
    destruct (own_page_disjoint _ _ _ Hu O Hne); unfold PAGE_SIZE in *; lia.
  - intros i Hi. unfold entry, vmem, set_vmem. cbn [mem phys set_phys set_mem]. by rewrite rd64_fill64.
  - apply (write_gains _ _ t t (t + 4096) P O); [lia|unfold PAGE_SIZE; lia|apply (fill64_same_outside (vmem s) t 512 0)].
Qed.

Lemma as_pml4_entry s asp : as_pml4 s asp = entry (vmem s) asp 0.
Proof. unfold as_pml4, entry. f_equal. lia. Qed.

Section create.
Context (s : vmm) (P : phys_ok (phys s)) (Hk : own_page (phys s) (kernel_pml4 s)).

Definition fill_pml4 (asp : Z) (s : vmm) : vmm :=
  let s := set_vmem (fill64 (vmem s) (as_pml4 s asp) 512 0) s in
  let s := set_entry (as_pml4 s asp) 0
             (Z.lor (entry (vmem s) (kernel_pml4 s) 0) VMM_FLAG_USER) s in
  set_entry (as_pml4 s asp) 511 (entry (vmem s) (kernel_pml4 s) 511) s.

(** The last three statements, once the structure points to the table. *)
Lemma fill_pml4_spec asp pml4 :
  own_page (phys s) asp → own_page (phys s) pml4 → pml4 ≠ asp → pml4 ≠ kernel_pml4 s →
  as_pml4 s asp = pml4 →
  let s' := fill_pml4 asp s in
  phys_ok (phys s') ∧ as_pml4 s' asp = pml4 ∧
  (∀ u, own_page (phys s) u → own_page (phys s') u ∧
    (u ≠ pml4 → ∀ i, 0 <= i < 512 → entry (vmem s') u i = entry (vmem s) u i)) ∧
  (∀ i, 0 <= i < 512 → entry (vmem s') pml4 i = fresh_pml4 s i) ∧ gains (phys s) (phys s') (λ _, False).
Proof.
  intros Oa Op Hne Hnk Ea. unfold fill_pml4. rewrite Ea.
  destruct (clear_table_spec s pml4 P Op) as (P1 & K1 & Z1 & N1). set (s1 := set_vmem _ s) in *.
  assert (kernel_pml4 s1 = kernel_pml4 s) as Kk1 by done. clearbody s1. cbn zeta.
  assert (as_pml4 s1 asp = pml4) as Ea1.
  { rewrite as_pml4_entry. destruct (K1 asp Oa) as [_ E]. rewrite E by (done || lia).
    by rewrite <-as_pml4_entry. }
  destruct (K1 _ Hk) as [Hk1 Ek]. specialize (Ek ltac:(congruence)).
  assert (∀ i, 0 <= i < 512 → 0 <= entry (vmem s) (kernel_pml4 s) i < 2 ^ 64) as Rk
    by (intros; apply rd64_range).
  rewrite Ea1, Kk1, Ek by lia.
  destruct (set_entry_spec s1 pml4 0 (Z.lor (entry (vmem s) (kernel_pml4 s) 0) VMM_FLAG_USER))
    as (P2 & K2 & E2 & _); [done|by apply K1|lia|apply lor_range; [lia|apply Rk; lia|done]|].
  pose proof (set_entry_gains s1 pml4 0 (Z.lor (entry (vmem s) (kernel_pml4 s) 0) VMM_FLAG_USER)
    P1 (proj1 (K1 _ Op)) ltac:(lia)) as N2.
  set (s2 := set_entry pml4 0 _ s1) in *.
  assert (kernel_pml4 s2 = kernel_pml4 s) as Kk2 by done. clearbody s2.
  assert (∀ u i, own_page (phys s) u → 0 <= i < 512 → (u, i) ≠ (pml4, 0) →
    entry (vmem s2) u i = entry (vmem s1) u i) as H2.
  { intros u i Hu Hi ?. apply (kept_entry (phys s1) (phys s2) pml4 0 u i K2); (done || lia || by apply K1). }
  assert (as_pml4 s2 asp = pml4) as Ea2.
  { rewrite as_pml4_entry, H2 by (done || lia || congruence). by rewrite <-as_pml4_entry. }
  rewrite Ea2, Kk2, H2, Ek by (done || lia || congruence).
  destruct (set_entry_spec s2 pml4 511 (entry (vmem s) (kernel_pml4 s) 511))
    as (P3 & K3 & E3 & _); [done|by apply K2, K1|lia|apply Rk; lia|].
  pose proof (set_entry_gains s2 pml4 511 (entry (vmem s) (kernel_pml4 s) 511)
    P2 (proj1 (K2 _ (proj1 (K1 _ Op)))) ltac:(lia)) as N3.
  set (s3 := set_entry pml4 511 _ s2) in *. clearbody s3.
  assert (∀ u i, own_page (phys s) u → 0 <= i < 512 → (u, i) ≠ (pml4, 511) →
    entry (vmem s3) u i = entry (vmem s2) u i) as H3.
  { intros u i Hu Hi ?. apply (kept_entry (phys s2) (phys s3) pml4 511 u i K3); (done || lia || by apply K2, K1). }
  split_and!; [done| | | |].
  - rewrite as_pml4_entry, H3 by (done || lia || congruence). by rewrite <-as_pml4_entry.
  - intros u Hu. split; [by apply K3, K2, K1|]. intros Hu' i Hi.
    rewrite H3, H2 by (done || congruence). by apply K1.
  - intros i Hi. unfold fresh_pml4. destruct (Z.eqb_spec i 0) as [->|].
    + rewrite H3 by (done || congruence). done.
    + destruct (Z.eqb_spec i 511) as [->|]; [done|]. rewrite H3, H2 by (done || congruence). by apply Z1.
  - eapply gains_weaken; [|eapply gains_trans; [exact N1|eapply gains_trans; [exact N2|exact N3]]]. intros u [[]|[[]|[]]].
Qed.
End create.

Lemma create_eval s asp p1 pml4 s2 :
  pmm_alloc_page (phys s) = (asp, p1) → asp ≠ 0 →
  alloc_page_table (set_phys p1 s) = Ok pml4 s2 →
  vmm_create_address_space s = Ok asp (fill_pml4 asp (set_entry asp 0 pml4 s2)).
Proof.
  intros E1 Ha E2. unfold vmm_create_address_space.
  rewrite (bind_Ok _ _ s asp (set_phys p1 s)) by (unfold zoom, lift; cbn; by rewrite E1).
  destruct (Z.eqb_spec asp 0); [done|]. rewrite (bind_Ok _ _ _ _ _ E2).
  replace (set_entry asp 0 pml4 s2) with (set_vmem (wr64 (vmem s2) asp pml4) s2); [done|].
  unfold set_entry. by rewrite Z.mul_0_r, Z.add_0_r.
Qed.

Lemma virt_to_phys_absent s asp w :
  present (entry (vmem s) (as_pml4 s asp) (pml4_index w)) = false → vmm_virt_to_phys asp w s = 0.
Proof. unfold vmm_virt_to_phys. by intros ->. Qed.

Lemma create_null s :
  pmm_alloc_page (phys s) = (0, phys s) → vmm_create_address_space s = Ok 0 s.
Proof.
  intros E. unfold vmm_create_address_space, zoom, lift, mbind, M_bind.
  cbn. rewrite E. cbn. by destruct s.
Qed.

Lemma create_panic s asp p1 :
  pmm_alloc_page (phys s) = (asp, p1) → asp ≠ 0 → phys_ok p1 →
  free_pages p1 = free_pages (phys s) - 1 → free_pages (phys s) = 1 →
  ∃ s', vmm_create_address_space s = Panic "VMM: out of memory allocating page table" s'.
Proof.
  intros E1 Ha P1 F1 F. exists (set_phys p1 s). unfold vmm_create_address_space.
  rewrite (bind_Ok _ _ s asp (set_phys p1 s)) by (unfold zoom, lift; cbn; by rewrite E1).
  destruct (Z.eqb_spec asp 0); [done|]. apply bind_Panic. unfold alloc_page_table.
  pose proof (alloc_page_own p1 P1) as Al. destruct (pmm_alloc_page p1) as [a p2] eqn:E2.
  destruct Al as [(? & -> & ->)|(? & _)]; [|lia].
  unfold zoom, lift, mbind, M_bind. cbn. by rewrite E2.
Qed.

(** A new address space, when two pages are free. *)
Lemma create_ok s : phys_ok (phys s) → own_page (phys s) (kernel_pml4 s) → 2 <= free_pages (phys s) →
  ∃ asp pml4 s', vmm_create_address_space s = Ok asp s' ∧
     asp ≠ 0 ∧ pml4 ≠ asp ∧ phys_ok (phys s') ∧ as_pml4 s' asp = pml4 ∧ free_pages (phys s') = free_pages (phys s) - 2 ∧
     ¬ own_page (phys s) asp ∧ ¬ own_page (phys s) pml4 ∧
     own_page (phys s') asp ∧ own_page (phys s') pml4 ∧
     (∀ u, own_page (phys s) u → own_page (phys s') u ∧
        ∀ i, 0 <= i < 512 → entry (vmem s') u i = entry (vmem s) u i) ∧
     (∀ i, 0 <= i < 512 → entry (vmem s') pml4 i = fresh_pml4 s i) ∧
     gains (phys s) (phys s') (λ u, u = asp ∨ u = pml4) ∧ kernel_pml4 s' = kernel_pml4 s.
Proof.
  intros P Hk F2. pose proof (alloc_page_own (phys s) P) as Al.
  destruct (pmm_alloc_page (phys s)) as [asp p1] eqn:E1.
  destruct Al as [(F0 & _)|(F & Ha & P1 & O1 & N1 & K1 & F1)]; [lia|].
  destruct (alloc_page_table_spec (set_phys p1 s)) as (pml4 & p2 & E2 & P2 & O2 & N2 & K2 & _ & Fr2);
    [done|cbn; lia|]. cbn in N2, K2, Fr2.
  pose proof (alloc_page_table_gains (set_phys p1 s) pml4 p2 P1 E2) as G2. cbn in G2.
  assert (gains (phys s) p1 (eq asp)) as G1.
  { destruct (pmm_alloc_page_cases _ _ _ (po_wf _ P) (po_page0 _ P) E1) as [(? & _)|[_ Al]]; [done|by apply page_alloc_gains]. }
  set (s2 := set_phys p2 (set_phys p1 s)) in *.
  assert (pml4 ≠ asp) as Hne by congruence.
  destruct (own_page_range _ _ P2 O2) as (_ & ? & ?). unfold PAGE_SIZE in *.
  destruct (set_entry_spec s2 asp 0 pml4 P2 (proj1 (K2 _ O1)) ltac:(lia) ltac:(lia)) as (P3 & K3 & E3 & Es).
  pose proof (set_entry_gains s2 asp 0 pml4 P2 (proj1 (K2 _ O1)) ltac:(lia)) as G3.
  rewrite (create_eval s asp p1 pml4 s2 E1 Ha E2). set (s3 := set_entry asp 0 pml4 s2) in *.
  assert (kernel_pml4 s3 = kernel_pml4 s ∧ free_pages (phys s3) = free_pages (phys s) - 2) as [Kk Kf]
    by (split; [done|cbn; lia]). clearbody s3.
  assert (∀ u, own_page (phys s) u → own_page (phys s3) u ∧
    ∀ i, 0 <= i < 512 → entry (vmem s3) u i = entry (vmem s) u i) as K03.
  { assert (kept (λ _, False) (phys s) (phys s3)) as K.
    { apply (kept_fresh _ p2 _ asp 0); try done; [by eapply kept_trans|by apply K2]. }
    intros u Hu. destruct (K u Hu) as [? E]. split; [done|]. intros i Hi. apply E; [done|tauto]. }
  assert (¬ own_page (phys s) pml4) as N2' by (intros Hold; apply N2, K1, Hold).
  destruct (fill_pml4_spec s3 P3 ltac:(rewrite Kk; by apply K03) asp pml4)
    as (P4 & Ea & K4 & E4 & G4); [by apply K3, K2|by apply K3|done|rewrite Kk; congruence| |].
  { by rewrite as_pml4_entry. }
  set (s4 := fill_pml4 asp s3) in *. assert (free_pages (phys s4) = free_pages (phys s3) ∧ kernel_pml4 s4 = kernel_pml4 s3) as [Kf4 Kk4] by done. clearbody s4.
  assert (∀ i, fresh_pml4 s3 i = fresh_pml4 s i) as Ef.
  { intros i. unfold fresh_pml4. rewrite Kk. by rewrite !(proj2 (K03 _ Hk)) by lia. }
  exists asp, pml4, s4. split_and!; try done; [lia|by apply K4, K3, K2|by apply K4, K3| | | |congruence].
  - intros u Hu. destruct (K03 u Hu) as [Hu3 E0]. destruct (K4 u Hu3) as [Hu4 E1']. split; [done|].
    intros i Hi. rewrite E1' by congruence. by apply E0.
  - intros i Hi. by rewrite E4, Ef.
  - eapply gains_weaken; [|eapply gains_trans; [exact G1|eapply gains_trans; [exact G2|eapply gains_trans; [exact G3|exact G4]]]].
    naive_solver.
Qed.

(** C18. [vmm_create_address_space] on every branch.  With two free pages it
    returns a new structure whose PML4 is a fresh page holding the kernel's
    slot 0 (made user-accessible) and slot 511 and nothing else, so that no
    address of the other 510 slots is mapped, and no owned page changes.  With
    no free page it returns NULL and changes nothing; with exactly one it
    panics. *)
Theorem vmm_create_address_space_spec s :
  phys_ok (phys s) → own_page (phys s) (kernel_pml4 s) →
  (2 <= free_pages (phys s) → ∃ asp pml4 s', vmm_create_address_space s = Ok asp s' ∧
     asp ≠ 0 ∧ phys_ok (phys s') ∧ as_pml4 s' asp = pml4 ∧
     ¬ own_page (phys s) asp ∧ ¬ own_page (phys s) pml4 ∧
     own_page (phys s') asp ∧ own_page (phys s') pml4 ∧
     (∀ u, own_page (phys s) u → own_page (phys s') u ∧
        ∀ i, 0 <= i < 512 → entry (vmem s') u i = entry (vmem s) u i) ∧
     (∀ i, 0 <= i < 512 → entry (vmem s') pml4 i = fresh_pml4 s i) ∧
     ∀ w, pml4_index w ≠ 0 → pml4_index w ≠ 511 → vmm_virt_to_phys asp w s' = 0) ∧
  (free_pages (phys s) = 0 → vmm_create_address_space s = Ok 0 s) ∧
  (free_pages (phys s) = 1 → ∃ s',
     vmm_create_address_space s = Panic "VMM: out of memory allocating page table" s').
Proof.
  intros P Hk. split_and!.
  - intros F2. destruct (create_ok s P Hk F2) as (asp & pml4 & s' & E & H1 & H2 & H3 & H4 & _ & H5 & H6 & H7 & H8 & H9 & H10 & _).
    exists asp, pml4, s'. split_and!; try done. intros w Hw0 H511. apply virt_to_phys_absent.
    rewrite H4, H10 by apply index_range. unfold fresh_pml4. destruct (Z.eqb_spec (pml4_index w) 0); [done|].
    by destruct (Z.eqb_spec (pml4_index w) 511).
  - intros F0. apply create_null. pose proof (alloc_page_own (phys s) P) as Al.
    destruct (pmm_alloc_page (phys s)) as [asp p1]. destruct Al as [(_ & -> & ->)|(F & _)]; [done|lia].
  - intros F1. pose proof (alloc_page_own (phys s) P) as Al. destruct (pmm_alloc_page (phys s)) as [asp p1] eqn:E1.
    destruct Al as [(F0 & _)|(F & Ha & P1 & O1 & N1 & K1 & F1')]; [lia|]. by eapply create_panic.
Qed.

(** ** The tables of a new address space *)

(** The tables below [root] form a tree of owned pages. *)
Record root_wf (s : vmm) (root : Z) : Prop := {
  rw_tables : ∀ p t, okp p → (length p <= 3)%nat → walk (vmem s) root p = Some t → own_page (phys s) t;
  rw_tree : ∀ p q t, okp p → okp q → (length p <= 3)%nat → (length q <= 3)%nat →
    walk (vmem s) root p = Some t → walk (vmem s) root q = Some t → p = q;
  rw_small : ∀ p t i, okp p → (length p <= 2)%nat → 0 <= i < 512 →
    walk (vmem s) root p = Some t → next (vmem s) t i ≠ None → entry (vmem s) t i < 2 ^ 52;
  rw_upper : ∀ p t i, okp p → (length p <= 1)%nat → 0 <= i < 512 →
    walk (vmem s) root p = Some t → present (entry (vmem s) t i) = true → huge (entry (vmem s) t i) = false
}.

(** Owned pages stay owned, with their contents. *)
Definition keeps (s s' : vmm) : Prop :=
  ∀ u, own_page (phys s) u → own_page (phys s') u ∧ ∀ i, 0 <= i < 512 → entry (vmem s') u i = entry (vmem s) u i.

Lemma keeps_byte v v' x : keeps v v' → own_page (phys v) (x / PAGE_SIZE * PAGE_SIZE) → rd8 (vmem v') x = rd8 (vmem v) x.
Proof.
  intros K O. destruct (K _ O) as [_ C]. set (i := x `mod` PAGE_SIZE / 8).
  assert (0 <= i < 512 ∧ x / PAGE_SIZE * PAGE_SIZE + 8 * i <= x < x / PAGE_SIZE * PAGE_SIZE + 8 * i + 8) as [Hi Hx]
    by (subst i; unfold PAGE_SIZE; arith).
  apply (rdn_bytes _ _ _ 8 (C i Hi)). lia.
Qed.

(** The tables of [root] stay owned, with their contents. *)
Definition keeps_tabs (s s' : vmm) (root : Z) : Prop :=
  ∀ u, tab s root u → own_page (phys s') u ∧ ∀ i, 0 <= i < 512 → entry (vmem s') u i = entry (vmem s) u i.

Lemma tabs_walk s s' root : keeps_tabs s s' root →
  ∀ p, okp p → (length p <= 3)%nat → walk (vmem s') root p = walk (vmem s) root p.
Proof.
  intros Hk. apply walk_ext. intros p t i Hp Hl Hi W. apply next_entry.
  apply (Hk t); [|done]. exists p. split_and!; [done|lia|done].
Qed.

Lemma root_wf_tabs s s' root : root_wf s root → keeps_tabs s s' root → root_wf s' root.
Proof.
  intros R Hk. pose proof (tabs_walk s s' root Hk) as W.
  assert (∀ p t i, okp p → (length p <= 3)%nat → 0 <= i < 512 → walk (vmem s) root p = Some t →
    entry (vmem s') t i = entry (vmem s) t i) as E.
  { intros p t i Hp Hl Hi Hw. apply (Hk t); [|done]. by exists p. }
  split.
  - intros p t Hp Hl. rewrite W by done. intros Hw. apply (Hk t). by exists p.
  - intros p q t Hp Hq Hl Hl'. rewrite !W by done. by apply (rw_tree _ _ R).
  - intros p t i Hp Hl Hi. rewrite W by (done || lia). intros Hw. unfold next. rewrite (E p) by (done || lia).
    apply (rw_small _ _ R p t i Hp Hl Hi Hw).
  - intros p t i Hp Hl Hi. rewrite W by (done || lia). intros Hw. rewrite (E p) by (done || lia).
    apply (rw_upper _ _ R p t i Hp Hl Hi Hw).
Qed.

Lemma as_wf_root s asp root : as_wf s asp root → root_wf s root.
Proof. intros [A1 A2 A3 A4 A5 A6]. split; [intros p t ???; by apply (A3 p t)|done..]. Qed.

Lemma as_wf_tabs s s' asp root : as_wf s asp root → keeps_tabs s s' root →
  own_page (phys s') asp → entry (vmem s') asp 0 = entry (vmem s) asp 0 → as_wf s' asp root.
Proof.
  intros A Hk Oa Ea. destruct (root_wf_tabs s s' root (as_wf_root _ _ _ A) Hk) as [R1 R2 R3 R4]. split; try done.
  - rewrite as_pml4_entry, Ea, <-as_pml4_entry. apply A.
  - intros p t Hp Hl Hw. split; [by eapply R1|]. rewrite (tabs_walk s s' root Hk) in Hw by done. by apply (aw_tables _ _ _ A p t).
Qed.

Lemma keeps_keeps_tabs s s' root : root_wf s root → keeps s s' → keeps_tabs s s' root.
Proof. intros R Hk u (p & Hp & Hl & W). apply Hk. by eapply rw_tables. Qed.

Lemma keeps_walk s s' root : root_wf s root → keeps s s' →
  ∀ p, okp p → (length p <= 3)%nat → walk (vmem s') root p = walk (vmem s) root p.
Proof. intros R Hk. by apply tabs_walk, keeps_keeps_tabs. Qed.

Lemma root_wf_keeps s s' root : root_wf s root → keeps s s' → root_wf s' root.
Proof. intros R Hk. by eapply root_wf_tabs, keeps_keeps_tabs. Qed.

Lemma as_wf_keeps s s' asp root : as_wf s asp root → keeps s s' → as_wf s' asp root.
Proof.
  intros A Hk. destruct (Hk asp (aw_as _ _ _ A)) as [Oa Ea].
  apply (as_wf_tabs s); [done|by apply keeps_keeps_tabs, Hk; eapply as_wf_root|done|by apply Ea].
Qed.

(** The user flag changes neither the address nor the kind of an entry. *)
Lemma user_entry e : 0 <= e →
  present (Z.lor e VMM_FLAG_USER) = present e ∧ huge (Z.lor e VMM_FLAG_USER) = huge e ∧
  Z.land (Z.lor e VMM_FLAG_USER) ADDR_MASK = Z.land e ADDR_MASK.
Proof.
  intros He. rewrite !present_bit, !huge_bit, !Z.lor_spec. rewrite !orb_false_r. split_and!; [done|done|].
  rewrite Z.land_lor_distr_l. change (Z.land VMM_FLAG_USER ADDR_MASK) with 0. apply Z.lor_0_r.
Qed.

Section created.
Context (s s' : vmm) (asp pml4 : Z) (R : root_wf s (kernel_pml4 s)).
Context (Ha : as_pml4 s' asp = pml4) (Hne : pml4 ≠ asp).
Context (Na : ¬ own_page (phys s) asp) (Np : ¬ own_page (phys s) pml4).
Context (Oa : own_page (phys s') asp) (Op : own_page (phys s') pml4) (Hk : keeps s s').
Context (He : ∀ i, 0 <= i < 512 → entry (vmem s') pml4 i = fresh_pml4 s i).

Lemma created_next i : 0 <= i < 512 → next (vmem s') pml4 i =
  if decide (i = 0 ∨ i = 511) then next (vmem s) (kernel_pml4 s) i else None.
Proof.
  intros Hi. unfold next. rewrite He by done. unfold fresh_pml4.
  destruct (Z.eqb_spec i 0) as [->|]; [|destruct (Z.eqb_spec i 511) as [->|]].
  - rewrite decide_True by auto. destruct (user_entry (entry (vmem s) (kernel_pml4 s) 0)) as (-> & -> & ->); [apply rd64_range|done].
  - by rewrite decide_True by auto.
  - by rewrite decide_False by lia.
Qed.

Lemma created_walk i p : okp (i :: p) → (length p <= 2)%nat → walk (vmem s') pml4 (i :: p) =
  if decide (i = 0 ∨ i = 511) then walk (vmem s) (kernel_pml4 s) (i :: p) else None.
Proof.
  intros Hp Hl. pose proof Hp as [Hi _]%Forall_cons.
  rewrite <-(keeps_walk s s' _ R Hk (i :: p) Hp ltac:(cbn; lia)). cbn [walk]. rewrite created_next by done.
  assert (next (vmem s') (kernel_pml4 s) i = next (vmem s) (kernel_pml4 s) i) as ->.
  { apply next_entry, Hk; [|done]. by apply (rw_tables _ _ R []); [constructor|cbn; lia|]. }
  by case_decide.
Qed.

Lemma created_table p t : okp p → (length p <= 3)%nat → walk (vmem s') pml4 p = Some t →
  p = [] ∧ t = pml4 ∨ p ≠ [] ∧ own_page (phys s) t ∧ walk (vmem s) (kernel_pml4 s) p = Some t.
Proof.
  intros Hp Hl. destruct p as [|i p]; [intros [= <-]; by left|]. rewrite created_walk by (done || (cbn in Hl; lia)).
  case_decide; [|done]. intros W. right. split; [done|]. split; [|done]. by eapply (rw_tables _ _ R).
Qed.

Lemma created_wf : as_wf s' asp pml4.
Proof.
  split; [done|done|..].
  - intros p t Hp Hl W. destruct (created_table p t Hp Hl W) as [[-> ->]|(_ & O & _)]; [done|].
    split; [by apply Hk|]. by intros ->.
  - intros p q t Hp Hq Hl Hl' W W'.
    destruct (created_table p t Hp Hl W) as [[Ep Et]|(_ & O & V)], (created_table q t Hq Hl' W') as [[Eq Et']|(_ & O' & V')];
      [congruence|by rewrite Et in O'|by rewrite Et' in O|]. by eapply (rw_tree _ _ R).
  - intros p t i Hp Hl Hi W. destruct (created_table p t Hp ltac:(lia) W) as [[-> ->]|(_ & O & V)].
    + rewrite created_next by done. case_decide as D; [|done]. intros Hn. rewrite He by done. unfold fresh_pml4.
      pose proof (rw_small _ _ R [] (kernel_pml4 s) i ltac:(constructor) ltac:(cbn; lia) Hi eq_refl Hn).
      destruct D as [->| ->]; [|done]. cbn [Z.eqb]. apply (lor_range _ VMM_FLAG_USER 52); [lia|split; [apply rd64_range|lia]|done].
    + unfold next. rewrite (proj2 (Hk t O) i Hi). exact (rw_small _ _ R p t i Hp Hl Hi V).
  - intros p t i Hp Hl Hi W. destruct (created_table p t Hp ltac:(lia) W) as [[-> ->]|(_ & O & V)].
    + rewrite He by done. unfold fresh_pml4.
      destruct (Z.eqb_spec i 0) as [->|]; [|destruct (Z.eqb_spec i 511) as [->|]; [|done]].
      * destruct (user_entry (entry (vmem s) (kernel_pml4 s) 0)) as (-> & -> & _); [apply rd64_range|].
        by apply (rw_upper _ _ R [] (kernel_pml4 s)); [constructor|cbn; lia|lia|].
      * by apply (rw_upper _ _ R [] (kernel_pml4 s)); [constructor|cbn; lia|lia|].
    + rewrite (proj2 (Hk t O) i Hi). exact (rw_upper _ _ R p t i Hp Hl Hi V).
Qed.

(** Nothing is mapped outside the two shared slots. *)
Lemma created_private w : pml4_index w ≠ 0 → pml4_index w ≠ 511 →
  no_huge (vmem s') pml4 w ∧ leaf (vmem s') pml4 w = 0.
Proof.
  intros H0 H1. pose proof (okp_path3 w) as O. unfold path3 in O.
  assert (∀ q, okp (pml4_index w :: q) → (length q <= 2)%nat → walk (vmem s') pml4 (pml4_index w :: q) = None) as W.
  { intros q Hq Hl. rewrite created_walk by done. by rewrite decide_False by tauto. }
  pose proof O as [I1 [I2 [I3 _]%Forall_cons]%Forall_cons]%Forall_cons. split.
  - intros pd. rewrite W; [done|repeat first [apply List.Forall_nil | apply List.Forall_cons]; done|cbn; lia].
  - unfold leaf, path3. rewrite W; [done|done|cbn; lia].
Qed.
End created.

(** ** Shared and huge pages *)

(** Slot 0 is not private: two spaces whose slot 0 was copied from the
    kernel translate every address of the first 512 GiB alike in every
    state, and the base address of user programs, 0x2000000000, is one of
    them.  A program loaded for one process is therefore visible, and
    writable, in all. *)
Theorem slot0_shared s aspA aspB k w :
  entry (vmem s) (as_pml4 s aspA) 0 = Z.lor k VMM_FLAG_USER →
  entry (vmem s) (as_pml4 s aspB) 0 = Z.lor k VMM_FLAG_USER →
  pml4_index w = 0 →
  vmm_virt_to_phys aspA w s = vmm_virt_to_phys aspB w s ∧ pml4_index 0x2000000000 = 0.
Proof.
  intros EA EB Hw. split; [|done]. unfold vmm_virt_to_phys. by rewrite Hw, EA, EB.
Qed.

(** ** Examples

    Sixteen pages: 0 to 2 reserved (the bitmap is in page 2), the kernel's
    PML4 in page 3, two empty address spaces in pages 4, 5 and 6, 7. *)
Definition ex_mem : memory := wr64 (wr64 {[ 0x2000 := 255 ]} 0x4000 0x5000) 0x6000 0x7000.
Definition ex_vmm : vmm := Vmm (Pmm ex_mem 0x2000 2 16 8) 0x3000 0x3000 [].

Lemma ex_phys_ok : phys_ok (phys ex_vmm).
Proof.
  split; [split; [cbn; lia|done|by vm_compute]|by vm_compute|done|].
  intros k Hk ??. assert (k = 2) as -> by (unfold PAGE_SIZE in *; cbn in *; lia). by vm_compute.
Qed.

Lemma ex_own k : 3 <= k < 8 → own_page (phys ex_vmm) (k * PAGE_SIZE).
Proof.
  intros Hk. exists k. split_and!; [done|lia|cbn; lia| |right; cbn; unfold PAGE_SIZE; lia].
  assert (k = 3 ∨ k = 4 ∨ k = 5 ∨ k = 6 ∨ k = 7) as Hc by lia.
  destruct Hc as [->|[->|[->|[->| ->]]]]; by vm_compute.
Qed.

Lemma ex_zero a : (0x2001 <= a < 0x4000 ∨ 0x4008 <= a < 0x6000 ∨ 0x6008 <= a) → rd8 ex_mem a = 0.
Proof.
  intros Ha. unfold ex_mem. rewrite !rd8_wr64_out by lia.
  unfold rd8. by rewrite lookup_singleton_ne by lia.
Qed.

Lemma ex_table_zero t i : t = 0x3000 ∨ t = 0x5000 ∨ t = 0x7000 → 0 <= i < 512 →
  entry (vmem ex_vmm) t i = 0.
Proof. intros Ht Hi. apply rdn_zero. intros j Hj. apply ex_zero. cbn in Hj. lia. Qed.

(** A space with an empty PML4. *)
Lemma walk_empty s root p t : (∀ i, 0 <= i < 512 → entry (vmem s) root i = 0) → okp p →
  walk (vmem s) root p = Some t → p = [] ∧ t = root.
Proof.
  intros H Hp W. destruct p as [|i p]; [by simplify_eq/=|]. apply Forall_cons in Hp as [Hi _].
  cbn in W. by rewrite next_absent in W by (by rewrite H).
Qed.

Lemma root_wf_empty s root : own_page (phys s) root → (∀ i, 0 <= i < 512 → entry (vmem s) root i = 0) → root_wf s root.
Proof.
  intros Or H. split.
  - intros p t Hp _ W. by destruct (walk_empty _ _ _ _ H Hp W) as [_ ->].
  - intros p q t Hp Hq _ _ W W'. destruct (walk_empty _ _ _ _ H Hp W) as [-> _].
    by destruct (walk_empty _ _ _ _ H Hq W') as [-> _].
  - intros p t i Hp _ Hi W. destruct (walk_empty _ _ _ _ H Hp W) as [_ ->].
    by rewrite next_absent by (by rewrite H).
  - intros p t i Hp _ Hi W. destruct (walk_empty _ _ _ _ H Hp W) as [_ ->]. by rewrite H.
Qed.

Lemma as_wf_empty s asp root : as_pml4 s asp = root → own_page (phys s) asp →
  own_page (phys s) root → root ≠ asp → (∀ i, 0 <= i < 512 → entry (vmem s) root i = 0) →
  as_wf s asp root.
Proof.
  intros Ha Oa Or Hne H. destruct (root_wf_empty s root Or H) as [R1 R2 R3 R4]. split; try done.
  intros p t Hp _ W. by destruct (walk_empty _ _ _ _ H Hp W) as [_ ->].
Qed.

Lemma empty_no_huge s root w : (∀ i, 0 <= i < 512 → entry (vmem s) root i = 0) → no_huge (vmem s) root w.
Proof.
  intros H pd W. apply walk_empty in W as [? _]; [done|done|]. repeat constructor; apply index_range.
Qed.

Lemma ex_spaces : as_wf ex_vmm 0x4000 0x5000 ∧ as_wf ex_vmm 0x6000 0x7000.
Proof.
  split; (apply as_wf_empty; [by vm_compute| | |done|intros; apply ex_table_zero; auto]).
  - by apply (ex_own 4).
  - by apply (ex_own 5).
  - by apply (ex_own 6).
  - by apply (ex_own 7).
Qed.

Lemma ex_facts w : no_huge (vmem ex_vmm) 0x5000 w ∧ leaf (vmem ex_vmm) 0x5000 w = 0.
Proof.
  assert (∀ i, 0 <= i < 512 → entry (vmem ex_vmm) 0x5000 i = 0) as H
    by (intros; apply ex_table_zero; auto).
  split; [by apply empty_no_huge|]. unfold leaf.
  destruct (walk (vmem ex_vmm) 0x5000 (path3 w)) eqn:W; [|done].
  apply walk_empty in W as [? _]; [done|done|apply okp_path3].
Qed.

Lemma ex_flags : flags_ok 7.
Proof. by split. Qed.

Lemma ex_absent w : present (leaf (vmem ex_vmm) 0x5000 w) = false.
Proof. by rewrite (proj2 (ex_facts w)). Qed.

Lemma ex_free : 3 <= free_pages (phys ex_vmm).
Proof. cbn. lia. Qed.

Lemma vmm_map_spec_witness : ∃ s',
  vmm_map 0x4000 0x8000000000 0xB8000 7 ex_vmm = Ok tt s' ∧
  vmm_virt_to_phys 0x4000 0x8000000123 s' = 0xB8123 ∧ flushed s' = [0x8000000000].
Proof.
  destruct (vmm_map_spec ex_vmm 0x4000 0x5000 0x8000000000 0xB8000 7) as (s' & E & _ & _ & F & T).
  1: apply ex_phys_ok. 1: apply ex_spaces. 1,2: done. 1: lia. 1: apply ex_flags. 1: apply ex_free.
  1: apply ex_facts. 1: apply ex_absent.
  exists s'. split_and!; [done| |done]. rewrite T by apply ex_facts. by vm_compute.
Defined.

Lemma ex_private w : private ex_vmm 0x5000 0x6000 0x7000 w.
Proof.
  assert (∀ t, tab ex_vmm 0x5000 t → t = 0x5000) as H5.
  { intros t (p & Hp & _ & W). by apply walk_empty in W as [_ ->]; [|intros; apply ex_table_zero; auto|]. }
  split; [by intros ?%H5|]. intros p t Hp W Ht%H5.
  apply walk_empty in W as [_ ->]; [done|intros; apply ex_table_zero; auto|].
  by apply (okp_prefix p w).
Qed.

Lemma vmm_map_isolation_witness : ∃ s',
  vmm_map 0x4000 0x8000000000 0xB8000 7 ex_vmm = Ok tt s' ∧ as_pml4 s' 0x6000 = 0x7000.
Proof.
  destruct (vmm_map_run ex_vmm 0x4000 0x5000 0x8000000000 0xB8000 7) as (pt & s1 & _ & _ & _ & _ & E).
  1: apply ex_phys_ok. 1: apply ex_spaces. 1,2: done. 1: lia. 1: apply ex_flags. 1: apply ex_free.
  1: apply ex_facts. 1: apply ex_absent.
  eexists. split; [exact E|].
  apply (vmm_map_isolation ex_vmm 0x4000 0x5000 0x8000000000 0xB8000 7 _ 0x6000 0x7000 0x8000000000).
  1: apply ex_phys_ok. 1: apply ex_spaces. 1: apply ex_spaces. 1,2: done. 1: lia. 1: apply ex_flags.
  1: apply ex_free. 1: apply ex_facts. 1: apply ex_absent. 1: apply ex_private. exact E.
Defined.

Lemma vmm_unmap_spec_witness : ∃ s',
  vmm_unmap 0x4000 0x8000000000 ex_vmm = Ok tt s' ∧ vmm_virt_to_phys 0x4000 0x8000000000 s' = 0.
Proof.
  destruct (vmm_unmap_spec ex_vmm 0x4000 0x5000 0x8000000000) as (s' & E & _ & _ & _ & _ & T);
    [apply ex_phys_ok|apply ex_spaces|done|apply ex_facts|].
  exists s'. split; [done|]. by rewrite T, decide_True by (done || apply ex_facts).
Defined.

Lemma vmm_create_address_space_spec_witness : ∃ asp s',
  vmm_create_address_space ex_vmm = Ok asp s' ∧ vmm_virt_to_phys asp 0x8000000000 s' = 0.
Proof.
  destruct (vmm_create_address_space_spec ex_vmm ex_phys_ok) as [H _]; [by apply (ex_own 3)|].
  destruct H as (asp & pml4 & s' & E & _ & _ & _ & _ & _ & _ & _ & _ & _ & T); [done|].
  exists asp, s'. split; [done|]. by apply T.
Defined.

(** Both spaces with the slot 0 of [vmm_create_address_space]. *)
Definition ex_shared : vmm :=
  Vmm (Pmm (wr64 (wr64 ex_mem 0x5000 7) 0x7000 7) 0x2000 2 16 8) 0x3000 0x3000 [].

Lemma slot0_shared_witness :
  vmm_virt_to_phys 0x4000 0x2000000000 ex_shared = vmm_virt_to_phys 0x6000 0x2000000000 ex_shared.
Proof. apply (slot0_shared ex_shared 0x4000 0x6000 3 0x2000000000); by vm_compute. Defined.

(** A space whose slot 0 maps the first 2 MiB pages as [paging_init] does:
    PDPT in page 8, PD in page 9, PD[1] a huge page at 0x200000. *)
Definition ex_huge : vmm :=
  let m := wr64 ex_mem 0x5000 (Z.lor 0x8000 7) in
  let m := wr64 m 0x8000 (Z.lor 0x9000 7) in
  let m := wr64 m 0x9008 (Z.lor 0x200000 0x83) in
  Vmm (Pmm m 0x2000 2 16 8) 0x3000 0x3000 [].

(** [vmm_virt_to_phys] does not look at the huge-page bit: the address
    0x201234, mapped by a present 2 MiB page to itself, is looked up in the
    mapped memory as if it were a page table, so that it is reported unmapped
    when that memory is zero and anywhere at all when it is not. *)
Theorem virt_to_phys_ignores_huge :
  present (entry (vmem ex_huge) 0x9000 (pd_index 0x201234)) = true ∧
  huge (entry (vmem ex_huge) 0x9000 (pd_index 0x201234)) = true ∧
  vmm_virt_to_phys 0x4000 0x201234 ex_huge = 0 ∧
  ∀ v, 0 <= v < 2 ^ 64 → present v = true →
    vmm_virt_to_phys 0x4000 0x201234 (set_entry 0x200000 1 v ex_huge) =
    Z.lor (Z.land v ADDR_MASK) 0x234.
Proof.
  split; [by vm_compute|]. split; [by vm_compute|]. split; [by vm_compute|]. intros v Hv Hp.
  set (s' := set_entry 0x200000 1 v ex_huge).
  assert (∀ t i, t + 8 * i + 8 <= 0x200008 → entry (vmem s') t i = entry (vmem ex_huge) t i) as Hlow.
  { intros t i Hi. unfold entry. apply (rd64_wr64_ne (vmem ex_huge) (0x200000 + 8 * 1)). lia. }
  assert (entry (vmem s') 0x200000 1 = v) as Ev.
  { transitivity (u64 v); [|by apply u64_small]. apply (rd64_wr64_eq (vmem ex_huge) (0x200000 + 8 * 1)). }
  assert (as_pml4 s' 0x4000 = 0x5000) as Ea by (rewrite as_pml4_entry, Hlow by lia; by vm_compute).
  clearbody s'. unfold vmm_virt_to_phys, phys_to_virt_identity. rewrite Ea.
  change (pml4_index 0x201234) with 0. change (pdpt_index 0x201234) with 0.
  change (pd_index 0x201234) with 1. change (pt_index 0x201234) with 1.
  rewrite (Hlow 0x5000 0) by lia. change (entry (vmem ex_huge) 0x5000 0) with 0x8007.
  cbn [present negb]. change (Z.land 0x8007 ADDR_MASK) with 0x8000.
  rewrite (Hlow 0x8000 0) by lia. change (entry (vmem ex_huge) 0x8000 0) with 0x9007.
  change (Z.land 0x9007 ADDR_MASK) with 0x9000.
  rewrite (Hlow 0x9000 1) by lia. change (entry (vmem ex_huge) 0x9000 1) with 0x200083.
  change (Z.land 0x200083 ADDR_MASK) with 0x200000. rewrite Ev, Hp. done.
Qed.
