(* ===== verification/Teardown.v ===== *)
(** * Destroying an address space (kernel/vmm.c)

    The three nested loops of [vmm_destroy_address_space] against the tree of
    tables: which pages go back to the allocator, and which do not. *)
From stdpp Require Import base gmap list list_numbers.
From Stdlib Require Import ZArith Lia.
From S2P Require Import Prelude Monad Mem Pmm Vmm.

(** ** Giving back a list of pages *)
Definition free_all (l : list Z) (p : pmm) : pmm := fold_left (λ p a, pmm_free_page a p) l p.
Definition freed (l : list Z) (s : vmm) : vmm := set_phys (free_all l (phys s)) s.

(** A page the allocator manages, used or not, apart from page 0 and those of
    the bitmap. *)
Definition plain_page (s : pmm) (u : Z) : Prop :=
  ∃ k, u = k * PAGE_SIZE ∧ 0 < k < total_pages s ∧ (u + PAGE_SIZE <= bitmap s ∨ bitmap s + bitmap_size s <= u).

Lemma own_plain s u : own_page s u → plain_page s u.
Proof. intros (k & ? & ? & _ & ?). by exists k. Qed.

Lemma plain_frame s s' u : pmm_frame s s' → plain_page s u → plain_page s' u.
Proof. intros [E1 E2 E3 _] (k & ? & ? & ?). exists k. by rewrite E1, E2, E3. Qed.

Lemma free_one p a : phys_ok p → plain_page p a → let p' := pmm_free_page a p in
  phys_ok p' ∧ pmm_step p p' (λ q, page_used q p && negb (bool_decide (q * PAGE_SIZE = a))).
Proof.
  intros [W P0 Pt Pb] (k & -> & Hk & Hd).
  destruct (pmm_free_page_step (k * PAGE_SIZE) p W ltac:(unfold PAGE_SIZE; lia)) as (W' & F & U).
  rewrite Z.div_mul in U by done.
  assert (∀ q, 0 <= q < total_pages p → page_used q (pmm_free_page (k * PAGE_SIZE) p) =
    page_used q p && negb (bool_decide (q * PAGE_SIZE = k * PAGE_SIZE))) as U'.
  { intros q Hq. rewrite U by done. unfold PAGE_SIZE. destruct (bool_decide_reflect (q * 4096 = k * 4096)), (decide (q = k ∧ q ≠ 0));
      rewrite ?andb_false_r, ?andb_true_r; (done || lia). }
  pose proof F as [Fb Fs Ft _]. split; [|done]. split; [done| |by rewrite Ft|].
  - rewrite U', P0 by lia. rewrite bool_decide_eq_false_2; [done|]. unfold PAGE_SIZE. lia.
  - intros q. rewrite Fb, Fs, Ft. intros Hq H1 H2. rewrite U', Pb by done. rewrite bool_decide_eq_false_2; [done|].
    unfold PAGE_SIZE in *. lia.
Qed.

Lemma free_all_app l1 l2 p : free_all (l1 ++ l2) p = free_all l2 (free_all l1 p).
Proof. apply fold_left_app. Qed.

Lemma free_all_step l p : phys_ok p → Forall (plain_page p) l →
  phys_ok (free_all l p) ∧ pmm_step p (free_all l p) (λ q, page_used q p && negb (bool_decide (q * PAGE_SIZE ∈ l))).
Proof.
  revert p. induction l as [|a l IH]; intros p P Hl.
  { split; [done|]. split; [apply P|]. split; [apply pmm_frame_refl|]. intros q _.
    rewrite bool_decide_eq_false_2 by apply not_elem_of_nil. by rewrite andb_true_r. }
  apply Forall_cons in Hl as [Ha Hl]. destruct (free_one p a P Ha) as [P1 (W1 & F1 & U1)].
  destruct (IH (pmm_free_page a p)) as [P2 (W2 & F2 & U2)]; [done| |].
  { eapply Forall_impl; [exact Hl|]. intros u. by apply plain_frame. }
  split; [exact P2|]. split; [exact W2|]. split; [by eapply pmm_frame_trans|]. intros q Hq.
  change (free_all (a :: l) p) with (free_all l (pmm_free_page a p)). rewrite U2 by (by rewrite (fr_total _ _ F1)).
  rewrite U1 by done. rewrite <-andb_assoc. f_equal. rewrite <-negb_orb. f_equal.
  rewrite <-bool_decide_or. apply bool_decide_ext. by rewrite elem_of_cons.
Qed.

Lemma free_all_own l p u : phys_ok p → Forall (plain_page p) l → own_page (free_all l p) u ↔ own_page p u ∧ u ∉ l.
Proof.
  intros P Hl. destruct (free_all_step l p P Hl) as [_ (_ & [Fb Fs Ft _] & U)]. unfold own_page. rewrite Fb, Fs, Ft. split.
  - intros (k & -> & Hk & Hu & Hd). rewrite U, andb_true_iff, negb_true_iff, bool_decide_eq_false in Hu by lia.
    destruct Hu as [Hu Hn]. split; [by exists k|done].
  - intros [(k & -> & Hk & Hu & Hd) Hn]. exists k. split; [done|]. split; [done|]. split; [|done]. rewrite U, Hu by lia.
    by rewrite bool_decide_eq_false_2.
Qed.

(** ** The tables below an entry, in the order the loops meet them *)
Fixpoint below (n : nat) (m : memory) (t i : Z) : list Z :=
  match next m t i with
  | None => []
  | Some u => match n with O => [] | S n' => seqZ 0 512 ≫= below n' m u end ++ [u]
  end.

Lemma walk_cons m t i p : walk m t (i :: p) = (next m t i ≫= λ v, walk m v p).
Proof. done. Qed.

Lemma elem_below n m t i u : u ∈ below n m t i ↔ ∃ p, okp p ∧ (length p <= n)%nat ∧ walk m t (i :: p) = Some u.
Proof.
  revert t i. induction n as [|n IH]; intros t i; cbn [below];
    setoid_rewrite walk_cons;
    (destruct (next m t i) as [v|]; [cbn [mbind option_bind]|split; [by intros ?%not_elem_of_nil|by intros (? & _ & _ & ?)]]).
  - cbn [app]. rewrite list_elem_of_singleton. split; [intros ->; exists []; split_and!; [constructor|done|done]|].
    intros ([|? ?] & _ & Hl & W); [by simplify_eq/=|cbn in Hl; lia].
  - rewrite elem_of_app, list_elem_of_bind, list_elem_of_singleton. split.
    + intros [(j & (p & Hp & Hl & W)%IH & Hj%elem_of_seqZ)| ->].
      * exists (j :: p). split_and!; [by constructor|cbn; lia|done].
      * exists []. split_and!; [constructor|cbn; lia|done].
    + intros ([|j p] & Hp & Hl & W); [right; by simplify_eq/=|left]. apply Forall_cons in Hp as [Hj Hp]. exists j.
      split; [|apply elem_of_seqZ; lia]. apply IH. exists p. split_and!; [done|cbn in Hl; lia|done].
Qed.

(** A loop each of whose steps gives back a list of pages. *)
Lemma forZ_frees (g : Z → list Z) (f : Z → M vmm unit) s n i l :
  (∀ j, i <= j < i + Z.of_nat n → Forall (own_page (phys s)) (g j)) →
  (∀ j l, i <= j < i + Z.of_nat n → Forall (own_page (phys s)) l → f j (freed l s) = Ok tt (freed (l ++ g j) s)) →
  Forall (own_page (phys s)) l →
  forZ n i f (freed l s) = Ok tt (freed (l ++ (seqZ i (Z.of_nat n) ≫= g)) s).
Proof.
  revert i l. induction n as [|n IH]; intros i l Hg Hf Hl.
  { cbn. by rewrite app_nil_r. }
  cbn [forZ]. rewrite (bind_Ok _ _ _ _ _ (Hf i l ltac:(lia) Hl)).
  rewrite IH; [|intros; apply Hg; lia|intros; apply Hf; [lia|done]|apply Forall_app; split; [done|apply Hg; lia]].
  rewrite (seqZ_cons i) by lia. rewrite bind_cons, app_assoc.
  replace (Z.succ i) with (i + 1) by lia. by replace (Z.pred (Z.of_nat (S n))) with (Z.of_nat n) by lia.
Qed.

(** ** The loops *)
Section destroy.
Context (s : vmm) (asp root : Z) (P : phys_ok (phys s)) (A : as_wf s asp root).
Local Abbreviation m := (vmem s).
Local Abbreviation own := (own_page (phys s)).

(** The space maps no 2 MiB page outside the shared slots. *)
Context (Hs : ∀ i j l pd, 1 <= i < 511 → 0 <= j < 512 → 0 <= l < 512 → walk m root [i; j] = Some pd →
  present (entry m pd l) = true → huge (entry m pd l) = false).

Lemma freed_entry l t i : Forall own l → own t → 0 <= i < 512 → entry (vmem (freed l s)) t i = entry m t i.
Proof.
  intros Hl Ht Hi. destruct (free_all_step l (phys s) P) as [_ (_ & [_ _ _ Fm] & _)].
  { eapply Forall_impl; [exact Hl|]. intros u. apply own_plain. }
  unfold entry. eapply rd64_same_outside; [exact Fm|]. destruct Ht as (k & -> & _ & _ & Hd). unfold PAGE_SIZE in *. lia.
Qed.

(** One entry of a table on the way: absent, or a table below. *)
Lemma entry_next p t i : okp p → (length p <= 2)%nat → 0 <= i < 512 → walk m root p = Some t →
  (present (entry m t i) = true → huge (entry m t i) = false) →
  next m t i = if present (entry m t i) then Some (Z.land (entry m t i) NOT_FFF) else None.
Proof.
  intros Hp Hl Hi W Hh. pose proof (walk_level s asp root A p t i Hp Hl Hi W Hh) as E.
  by rewrite walk_snoc, W in E.
Qed.

Lemma below_own n p t i : okp p → (length p + S n <= 3)%nat → 0 <= i < 512 → walk m root p = Some t →
  Forall own (below n m t i).
Proof.
  intros Hp Hl Hi W. apply Forall_forall. intros u (q & Hq & Hlq & Wq)%elem_below.
  apply (aw_tables _ _ _ A (p ++ i :: q)).
  - apply Forall_app. split; [done|]. by constructor.
  - rewrite length_app. cbn. lia.
  - by rewrite walk_app, W.
Qed.

Lemma free_freed l a : free_page a (freed l s) = Ok tt (freed (l ++ [a]) s).
Proof. unfold free_page, modify, freed. by rewrite free_all_app. Qed.

(** A loop over the 512 entries of the table at [p]. *)
Lemma table_loop n p t f l : okp p → (length p + S n <= 3)%nat → walk m root p = Some t → Forall own l →
  (∀ i l, 0 <= i < 512 → Forall own l → f i (freed l s) = Ok tt (freed (l ++ below n m t i) s)) →
  forZ 512 0 f (freed l s) = Ok tt (freed (l ++ (seqZ 0 512 ≫= below n m t)) s).
Proof.
  intros Hp Hl W Hfl Hf. apply (forZ_frees (below n m t) f s 512 0 l); [|intros; apply Hf; [lia|done]|done].
  intros i Hi. eapply below_own; [exact Hp|done|lia|done].
Qed.

Lemma destroy_pd_entry_run i j pd x l : 1 <= i < 511 → 0 <= j < 512 → 0 <= x < 512 → walk m root [i; j] = Some pd →
  Forall own l → destroy_pd_entry pd x (freed l s) = Ok tt (freed (l ++ below 0 m pd x) s).
Proof.
  intros Hi Hj Hx W Hl. assert (okp [i; j]) as Hp by (repeat first [apply List.Forall_nil | apply List.Forall_cons]; lia).
  destruct (aw_tables _ _ _ A [i; j] pd Hp ltac:(cbn; lia) W) as [Ho _].
  unfold destroy_pd_entry. unfold gets, mbind at 1, M_bind at 1. rewrite freed_entry by (done || lia). cbn [below].
  rewrite (entry_next [i; j] pd x Hp ltac:(cbn; lia) ltac:(lia) W (Hs i j x pd Hi Hj ltac:(lia) W)).
  destruct (present (entry m pd x)); [apply free_freed|by rewrite app_nil_r].
Qed.

Lemma destroy_pdpt_entry_run i pdpt j l : 1 <= i < 511 → 0 <= j < 512 → walk m root [i] = Some pdpt →
  Forall own l → destroy_pdpt_entry pdpt j (freed l s) = Ok tt (freed (l ++ below 1 m pdpt j) s).
Proof.
  intros Hi Hj W Hl. assert (okp [i]) as Hp by (repeat first [apply List.Forall_nil | apply List.Forall_cons]; lia).
  destruct (aw_tables _ _ _ A [i] pdpt Hp ltac:(cbn; lia) W) as [Ho _].
  unfold destroy_pdpt_entry. unfold gets, mbind at 1, M_bind at 1. rewrite freed_entry by (done || lia).
  pose proof (entry_next [i] pdpt j Hp ltac:(cbn; lia) Hj W (aw_upper _ _ _ A [i] pdpt j Hp ltac:(cbn; lia) Hj W)) as E.
  cbn [below]. rewrite E. destruct (present (entry m pdpt j)); [|by rewrite app_nil_r].
  set (pd := Z.land _ NOT_FFF) in *. assert (walk m root [i; j] = Some pd) as W2.
  { change [i; j] with ([i] ++ [j]). by rewrite walk_snoc, W. }
  assert (okp [i; j]) as Hp2 by (repeat first [apply List.Forall_nil | apply List.Forall_cons]; lia).
  rewrite (bind_Ok _ _ _ _ _ (table_loop 0 [i; j] pd (destroy_pd_entry pd) l Hp2 ltac:(cbn; lia) W2 Hl
    (λ x l' Hx Hl', destroy_pd_entry_run i j pd x l' Hi Hj Hx W2 Hl'))).
  rewrite free_freed. by rewrite <-app_assoc.
Qed.

Lemma destroy_pml4_entry_run i l : 1 <= i < 511 → Forall own l →
  destroy_pml4_entry asp i (freed l s) = Ok tt (freed (l ++ below 2 m root i) s).
Proof.
  intros Hi Hl. assert (okp []) as Hp by constructor.
  destruct (aw_tables _ _ _ A [] root Hp ltac:(cbn; lia) eq_refl) as [Ho _].
  unfold destroy_pml4_entry. unfold gets, mbind at 1, M_bind at 1.
  assert (as_pml4 (freed l s) asp = root) as ->.
  { rewrite as_pml4_entry, freed_entry by (done || lia || apply A). rewrite <-as_pml4_entry. apply A. }
  rewrite freed_entry by (done || lia).
  pose proof (entry_next [] root i Hp ltac:(cbn; lia) ltac:(lia) eq_refl
    (aw_upper _ _ _ A [] root i Hp ltac:(cbn; lia) ltac:(lia) eq_refl)) as E.
  cbn [below]. rewrite E. destruct (present (entry m root i)); [|by rewrite app_nil_r].
  set (pdpt := Z.land _ NOT_FFF) in *. assert (walk m root [i] = Some pdpt) as W by (cbn; by rewrite E).
  assert (okp [i]) as Hp1 by (repeat first [apply List.Forall_nil | apply List.Forall_cons]; lia).
  rewrite (bind_Ok _ _ _ _ _ (table_loop 1 [i] pdpt (destroy_pdpt_entry pdpt) l Hp1 ltac:(cbn; lia) W Hl
    (λ j l' Hj Hl', destroy_pdpt_entry_run i pdpt j l' Hi Hj W Hl'))).
  rewrite free_freed. by rewrite <-app_assoc.
Qed.

Definition private_tables : list Z := seqZ 1 510 ≫= below 2 m root.

Lemma private_own : Forall own private_tables.
Proof.
  apply Forall_forall. intros u (i & Hu & Hi%elem_of_seqZ)%list_elem_of_bind.
  eapply (proj1 (Forall_forall _ _)); [|exact Hu]. eapply (below_own 2 []); [constructor|cbn; lia|lia|done].
Qed.

Lemma destroy_run : vmm_destroy_address_space asp s = Ok tt (freed (private_tables ++ [root; asp]) s).
Proof.
  unfold vmm_destroy_address_space. replace s with (freed [] s) at 1 by (by destruct s).
  erewrite bind_Ok; [|apply (forZ_frees (below 2 m root) _ s 510 1 []); [| |constructor]].
  - change (seqZ 1 (Z.of_nat 510) ≫= below 2 m root) with private_tables. cbn [app]. unfold gets, mbind at 1, M_bind at 1.
    assert (as_pml4 (freed private_tables s) asp = root) as ->.
    { rewrite as_pml4_entry, freed_entry by (done || lia || apply A || apply private_own). rewrite <-as_pml4_entry. apply A. }
    rewrite (bind_Ok _ _ _ _ _ (free_freed _ _)), free_freed. by rewrite <-app_assoc.
  - intros i Hi. eapply (below_own 2 []); [constructor|cbn; lia|lia|done].
  - intros i l Hi Hl. apply destroy_pml4_entry_run; [lia|done].
Qed.

(** A table reached through one of the slots 1 to 510. *)
Definition private_table (u : Z) : Prop :=
  ∃ i p, 1 <= i < 511 ∧ okp p ∧ (length p <= 2)%nat ∧ walk m root (i :: p) = Some u.

Lemma elem_private u : u ∈ private_tables ↔ private_table u.
Proof.
  unfold private_tables, private_table. rewrite list_elem_of_bind. setoid_rewrite elem_below.
  setoid_rewrite elem_of_seqZ. split.
  - intros (i & (p & ? & ? & ?) & ?). exists i, p. split_and!; (done || lia).
  - intros (i & p & ? & ? & ? & ?). exists i. split; [|lia]. by exists p.
Qed.

(** What is left after destruction. *)
Lemma destroy_ok : ∃ s', vmm_destroy_address_space asp s = Ok tt s' ∧ s' = set_phys (phys s') s ∧ phys_ok (phys s') ∧
  pmm_frame (phys s) (phys s') ∧
  ∀ u, own_page (phys s') u ↔ own u ∧ u ≠ asp ∧ u ≠ root ∧ ¬ private_table u.
Proof.
  exists (freed (private_tables ++ [root; asp]) s). split; [apply destroy_run|]. split; [done|].
  destruct (aw_tables _ _ _ A [] root ltac:(constructor) ltac:(cbn; lia) eq_refl) as [Ho _].
  assert (Forall (plain_page (phys s)) (private_tables ++ [root; asp])) as Hl.
  { eapply Forall_impl; [|apply own_plain]. apply Forall_app. split; [apply private_own|].
    repeat constructor; [done|apply A]. }
  destruct (free_all_step _ (phys s) P Hl) as [P' (_ & F & _)]. split_and!; [done|done|]. intros u.
  cbn [phys freed set_phys]. rewrite (free_all_own _ _ u P Hl), elem_of_app, elem_private, !elem_of_cons, elem_of_nil. naive_solver.
Qed.
End destroy.

(** No 2 MiB page outside the two shared slots. *)
Definition small_pages (m : memory) (root : Z) : Prop := ∀ w, 1 <= pml4_index w < 511 → no_huge m root w.

Lemma index_slot i j l : 0 <= i < 512 → 0 <= j < 512 → 0 <= l < 512 → let w := i * 2 ^ 39 + j * 2 ^ 30 + l * 2 ^ 21 in
  pml4_index w = i ∧ pdpt_index w = j ∧ pd_index w = l.
Proof.
  intros Hi Hj Hl w. unfold pml4_index, pdpt_index, pd_index. change 0x1FF with (Z.ones 9).
  rewrite !Z.shiftr_div_pow2, !Z.land_ones by lia. subst w. split_and!; arith.
Qed.

Lemma small_pages_entry m root : small_pages m root → ∀ i j l pd, 1 <= i < 511 → 0 <= j < 512 → 0 <= l < 512 →
  walk m root [i; j] = Some pd → present (entry m pd l) = true → huge (entry m pd l) = false.
Proof.
  intros H i j l pd Hi Hj Hl W _. destruct (index_slot i j l ltac:(lia) Hj Hl) as (E1 & E2 & E3).
  specialize (H (i * 2 ^ 39 + j * 2 ^ 30 + l * 2 ^ 21)). unfold no_huge in H. rewrite E1, E2, E3 in H. by apply H.
Qed.

(** C19. [vmm_destroy_address_space] on a well-formed space without 2 MiB pages
    of its own: it returns, and the pages that go back to the allocator are
    exactly the page of the structure, the PML4 and the tables reached through
    slots 1 to 510.  No other page is freed (not those of the two slots shared
    with the kernel, and not the frames the space maps), no page changes its
    contents, and the kernel's tables and CR3 stay. *)
Theorem vmm_destroy_spec s asp root :
  phys_ok (phys s) → as_wf s asp root → small_pages (vmem s) root →
  ∃ s', vmm_destroy_address_space asp s = Ok tt s' ∧ s' = set_phys (phys s') s ∧ phys_ok (phys s') ∧
    (∀ u, own_page (phys s') u ↔ own_page (phys s) u ∧ u ≠ asp ∧ u ≠ root ∧ ¬ private_table s root u) ∧
    ∀ u i, own_page (phys s) u → 0 <= i < 512 → entry (vmem s') u i = entry (vmem s) u i.
Proof.
  intros P A Hs. destruct (destroy_ok s asp root P A (small_pages_entry _ _ Hs)) as (s' & E & E' & P' & F & O).
  exists s'. split_and!; [done..|]. intros u i (k & -> & _ & _ & Hd) Hi. unfold entry.
  eapply rd64_same_outside; [apply (fr_mem _ _ F)|]. unfold PAGE_SIZE in *. lia.
Qed.

(** Mapping a page in one of the empty spaces of Vmm.v, then destroying it. *)
Lemma vmm_destroy_spec_witness : ∃ s' s'', vmm_map 0x4000 0x8000000000 0xB8000 7 ex_vmm = Ok tt s' ∧
  vmm_destroy_address_space 0x4000 s' = Ok tt s'' ∧ ¬ own_page (phys s'') 0x4000 ∧ own_page (phys s'') 0x6000.
Proof.
  assert (own_page (phys ex_vmm) 0x6000) as O6 by (apply (ex_own 6); lia).
  destruct (vmm_map_ok ex_vmm 0x4000 0x5000 0x8000000000 0xB8000 7) as (s' & E & P' & A' & _ & H' & _ & X & K & T & _).
  1: exact ex_phys_ok. 1: apply ex_spaces. 1,2: reflexivity. 1: lia. 1: exact ex_flags. 1: exact ex_free.
  1: apply ex_facts. 1: apply ex_absent.
  destruct (vmm_destroy_spec s' 0x4000 0x5000 P' A') as (s'' & E' & _ & _ & O & _).
  { intros w _. apply H', ex_facts. }
  exists s', s''. split; [exact E|]. split; [exact E'|]. split; [intros (_ & [] & _)%O; reflexivity|].
  apply O. split; [exact (proj1 (K _ O6))|].
  split; [discriminate|]. split; [discriminate|]. intros (i & p & Hi & Hp & Hl & W).
  assert (tab ex_vmm 0x5000 0x6000) as (q & Hq & _ & Wq).
  { apply T; [|exact O6]. exists (i :: p). split; [constructor; [lia|exact Hp]|]. split; [cbn; lia|exact W]. }
  apply walk_empty in Wq as [_ Eq]; [discriminate Eq| |exact Hq]. intros; apply ex_table_zero; auto.
Defined.
