(* ===== verification/Paging.v ===== *)
(** * Early page tables (kernel/paging.c)

    [paging_init] builds the kernel's page tables right after the kernel
    image: an identity map of all memory in 2 MiB pages and a second map of
    the first gigabyte at the kernel's virtual base, and loads CR3.  The first
    74 lines of paging.c are a commented-out older version.  Console output is
    left out. *)
From stdpp Require Import base gmap list list_numbers.
From Stdlib Require Import ZArith Lia.
From S2P Require Import Prelude Mem Pmm Vmm.

Definition ENTRIES : Z := 512.
Definition PSE_2MB : Z := 0x200000.
Definition PAGE_PRESENT : Z := Z.shiftl 1 0.
Definition PAGE_WRITE : Z := Z.shiftl 1 1.
Definition PAGE_PCD : Z := Z.shiftl 1 4.
Definition PAGE_HUGE : Z := Z.shiftl 1 7.
Definition PAGE_NX : Z := Z.shiftl 1 63.
Definition IDENTITY_MIN_4G : Z := Z.shiftl 1 32.
Definition EFI_CONVENTIONAL_MEMORY : Z := 7.

Record paging := Paging {
  pgmem : memory;
  pml4 : Z; pdpt : Z;
  next_free_table : Z;
  paging_arena_end : Z;
  kernel_cr3 : Z;
  hw_cr3 : Z;
  efer : Z
}.

(** [alloc_table()] on memory and [next_free_table]: the table it returns. *)
Definition alloc_table (m : memory) (next : Z) : Z * memory * Z :=
  (next, fill8 m next 4096 0, u64 (next + PAGE_SIZE)).

Definition ram_top (bi : BootInfo) (m : memory) : Z :=
  fold_left (λ acc d,
    let e := u64 (desc_PhysicalStart m d + u64 (desc_NumberOfPages m d * PAGE_SIZE)) in
    if desc_Type m d =? EFI_CONVENTIONAL_MEMORY then (if acc <? e then e else acc) else acc)
    (descriptors bi) 0.

(** [(x + n - 1) & ~(n - 1)] *)
Definition round_up (x n : Z) : Z := Z.land (u64 (x + n - 1)) (u64 (Z.lnot (n - 1))).

Definition max_memory (bi : BootInfo) (m : memory) : Z :=
  let fb_end := u64 (framebuffer bi + u32 (u32 (height bi * pixels_per_scanline bi) * 4)) in
  let mx := ram_top bi m in
  let mx := if mx <? fb_end then fb_end else mx in
  let mx := if mx <? IDENTITY_MIN_4G then IDENTITY_MIN_4G else mx in
  round_up mx PSE_2MB.

Definition page_flags (addr : Z) : Z :=
  let f := Z.lor (Z.lor (Z.lor PAGE_PRESENT PAGE_WRITE) PAGE_HUGE) PAGE_NX in
  if (addr =? 0xFEC00000) || (addr =? 0xFEE00000) then Z.lor f PAGE_PCD else f.

(** [for (; pd_i < ENTRIES && addr < max_memory; pd_i++)] *)
Fixpoint pd_loop (n : nat) (pd pd_i addr max : Z) (m : memory) : memory * Z :=
  match n with
  | O => (m, addr)
  | S n' =>
      if addr <? max
      then pd_loop n' pd (pd_i + 1) (u64 (addr + PSE_2MB)) max
             (wr64 m (pd + 8 * pd_i) (Z.lor addr (page_flags addr)))
      else (m, addr)
  end.

(** [for (; addr < max_memory && pdpt_i < ENTRIES; pdpt_i++)]: memory and
    [next_free_table]. *)
Fixpoint pdpt_loop (n : nat) (pdpt pdpt_i addr max : Z) (m : memory) (next : Z) : memory * Z :=
  match n with
  | O => (m, next)
  | S n' =>
      if addr <? max then
        let '(pd, m, next) := alloc_table m next in
        let m := wr64 m (pdpt + 8 * pdpt_i) (Z.lor (Z.lor pd PAGE_PRESENT) PAGE_WRITE) in
        let '(m, addr) := pd_loop (Z.to_nat ENTRIES) pd 0 addr max m in
        pdpt_loop n' pdpt (pdpt_i + 1) addr max m next
      else (m, next)
  end.

(** [for (i = 0; i < 512; i++) { pd_hi[i] = phys | 0x83; phys += PSE_2MB; }] *)
Fixpoint hi_loop (n : nat) (pd_hi i phys : Z) (m : memory) : memory :=
  match n with
  | O => m
  | S n' => hi_loop n' pd_hi (i + 1) (u64 (phys + PSE_2MB)) (wr64 m (pd_hi + 8 * i) (Z.lor phys 0x83))
  end.

(** [kernel_end_virt] is [&_kernel_end], a linker symbol. *)
Definition paging_init (kernel_end_virt : Z) (bi : BootInfo) (s : paging) : paging :=
  let m := pgmem s in
  let next := round_up (kernel_end_phys kernel_end_virt) PAGE_SIZE in
  let '(pml4, m, next) := alloc_table m next in
  let '(pdpt, m, next) := alloc_table m next in
  let m := wr64 m pml4 (Z.lor pdpt 0x3) in
  let max := max_memory bi m in
  let '(m, next) := pdpt_loop (Z.to_nat ENTRIES) pdpt 0 0 max m next in
  let '(pdpt_hi, m, next) := alloc_table m next in
  let m := wr64 m (pml4 + 8 * 511) (Z.lor pdpt_hi 0x3) in
  let '(pd_hi, m, next) := alloc_table m next in
  let m := wr64 m (pdpt_hi + 8 * 510) (Z.lor pd_hi 0x3) in
  let m := hi_loop 512 pd_hi 0 0 m in
  Paging m pml4 pdpt next next pml4 pml4 (Z.lor (efer s) (Z.shiftl 1 11)).

(** [pml4[0] = 0;] and the reload of CR3. *)
Definition paging_remove_identity_map (s : paging) : paging :=
  Paging (wr64 (pgmem s) (pml4 s) 0) (pml4 s) (pdpt s) (next_free_table s) (paging_arena_end s)
    (kernel_cr3 s) (hw_cr3 s) (efer s).

(** ** Words of page tables *)
Lemma shifted_land a n w : 0 <= n → 0 <= w → a `mod` 2 ^ n = 0 → 0 <= a < 2 ^ (n + w) →
  Z.land a (Z.shiftl (Z.ones w) n) = a.
Proof.
  intros Hn Hw Ha Hr. rewrite (Z.div_mod a (2 ^ n)), Ha, Z.add_0_r by (apply Z.pow_nonzero; lia).
  rewrite Z.mul_comm, <-Z.shiftl_mul_pow2 by done. rewrite <-Z.shiftl_land, Z.land_ones by done.
  rewrite Z.mod_small; [done|]. rewrite Z.pow_add_r in Hr by done.
  split; [apply Z.div_pos; lia|]. apply Z.div_lt_upper_bound; lia.
Qed.

(** A page or table address with flags outside the address field. *)
Lemma masked a f n w : 0 <= n → 0 <= w → a `mod` 2 ^ n = 0 → 0 <= a < 2 ^ (n + w) →
  Z.land f (Z.shiftl (Z.ones w) n) = 0 → Z.land (Z.lor a f) (Z.shiftl (Z.ones w) n) = a.
Proof. intros. rewrite Z.land_lor_distr_l, shifted_land by done. by rewrite H3, Z.lor_0_r. Qed.

Lemma split_offset va n : 0 <= n → 0 <= va →
  Z.lor (va / 2 ^ n * 2 ^ n) (Z.land va (Z.ones n)) = va.
Proof.
  intros Hn Hv. rewrite <-Z.shiftl_mul_pow2, <-Z.shiftr_div_pow2 by done. apply Z.bits_inj'. intros i Hi.
  rewrite Z.lor_spec, Z.land_spec. destruct (Z.lt_ge_cases i n).
  - rewrite Z.shiftl_spec_low, Z.ones_spec_low by lia. by rewrite andb_true_r.
  - rewrite Z.shiftl_spec, Z.shiftr_spec, Z.ones_spec_high by lia. rewrite andb_false_r, orb_false_r.
    f_equal. lia.
Qed.

Lemma word_present e : present e = Z.testbit e 0.
Proof. unfold present. change VMM_FLAG_PRESENT with (Z.shiftl 1 0). rewrite land_bit_0 by lia. apply negb_involutive. Qed.
Lemma word_huge e : huge e = Z.testbit e 7.
Proof. unfold huge. rewrite land_bit_0 by lia. apply negb_involutive. Qed.

Lemma aligned_bit a n i : 0 <= i < n → a `mod` 2 ^ n = 0 → Z.testbit a i = false.
Proof.
  intros Hi Ha. rewrite (Z.div_mod a (2 ^ n)), Ha, Z.add_0_r by (apply Z.pow_nonzero; lia).
  rewrite Z.mul_comm, <-Z.shiftl_mul_pow2 by lia. apply Z.shiftl_spec_low. lia.
Qed.

(** A pointer to the next table. *)
Lemma table_word t : t `mod` 4096 = 0 → 0 <= t < 2 ^ 52 →
  present (Z.lor t 3) = true ∧ huge (Z.lor t 3) = false ∧ Z.land (Z.lor t 3) ADDR_MASK = t ∧
  0 <= Z.lor t 3 < 2 ^ 64.
Proof.
  intros Ht Hr. rewrite word_present, word_huge, !Z.lor_spec, !(aligned_bit t 12) by (done || lia).
  split_and!; [done|done|apply (masked t 3 12 40); done|apply (lor_range t 3 64); lia..].
Qed.

(** A 2 MiB page. *)
Lemma leaf_word a f va : a = va / 2 ^ 21 * 2 ^ 21 → 0 <= va < 2 ^ 52 → 0 <= f < 2 ^ 64 →
  Z.testbit f 0 = true → Z.testbit f 7 = true → Z.land f 0x000FFFFFFFE00000 = 0 →
  present (Z.lor a f) = true ∧ huge (Z.lor a f) = true ∧
  Z.lor (Z.land (Z.lor a f) 0x000FFFFFFFE00000) (Z.land va 0x1FFFFF) = va ∧ 0 <= Z.lor a f < 2 ^ 64.
Proof.
  intros -> Hva Hf H0 H7 Hm.
  assert (0 <= va / 2 ^ 21 * 2 ^ 21 < 2 ^ 52) as Hr by arith.
  rewrite word_present, word_huge, !Z.lor_spec, H0, H7, !orb_true_r.
  split_and!; [done|done| |apply (lor_range _ f 64); lia..].
  change 0x000FFFFFFFE00000 with (Z.shiftl (Z.ones 31) 21) in *.
  rewrite (masked _ f 21 31) by (done || lia || (apply Z.mod_mul; lia)).
  apply (split_offset va 21); lia.
Qed.

Lemma page_flags_word a : 0 <= page_flags a < 2 ^ 64 ∧ Z.testbit (page_flags a) 0 = true ∧
  Z.testbit (page_flags a) 7 = true ∧ Z.land (page_flags a) 0x000FFFFFFFE00000 = 0.
Proof. unfold page_flags. destruct (_ || _); vm_compute; intuition congruence. Qed.

(** ** The loops *)
Definition leaf (a : Z) : Z := Z.lor a (page_flags a).

Lemma leaf_range a : 0 <= a < 2 ^ 39 → 0 <= leaf a < 2 ^ 64.
Proof. intros. apply (lor_range _ _ 64); [lia|lia|apply page_flags_word]. Qed.

Lemma pd_loop_spec n pd i addr max m : 0 <= addr <= max → max <= 2 ^ 39 → addr `mod` PSE_2MB = 0 → max `mod` PSE_2MB = 0 →
  let '(m', addr') := pd_loop n pd i addr max m in
  addr' = Z.min (addr + Z.of_nat n * PSE_2MB) max ∧
  same_outside (pd + 8 * i) (pd + 8 * (i + Z.of_nat n)) m m' ∧
  ∀ j, 0 <= j < Z.of_nat n → rd64 m' (pd + 8 * (i + j)) =
    if addr + j * PSE_2MB <? max then leaf (addr + j * PSE_2MB) else rd64 m (pd + 8 * (i + j)).
Proof.
  unfold PSE_2MB. revert i addr m. induction n as [|n IH]; intros i addr m Ha Hm Hma Hmm; cbn [pd_loop].
  - split_and!; [lia|by intros ??|lia].
  - destruct (Z.ltb_spec addr max).
    + assert (addr + 0x200000 <= max) as Hle by arith.
      unfold PSE_2MB. rewrite u64_small by lia.
      specialize (IH (i + 1) (addr + 0x200000) (wr64 m (pd + 8 * i) (leaf addr))).
      fold (leaf addr). destruct (pd_loop n _ _ _ _ _) as [m' a'].
      destruct IH as (Ea & Ho & Hj); [lia|lia|arith|done|]. split_and!.
      * rewrite Ea. lia.
      * eapply same_outside_trans; (eapply same_outside_weaken; [| |first [exact Ho|apply wr64_same_outside]]); lia.
      * intros j Hj'. destruct (decide (j = 0)) as [->|].
        -- rewrite Z.mul_0_l, !Z.add_0_r. destruct (Z.ltb_spec addr max); [|lia].
           rewrite (rd64_same_outside _ _ _ _ _ Ho) by lia. rewrite rd64_wr64_eq. apply u64_small, leaf_range. lia.
        -- specialize (Hj (j - 1) ltac:(lia)). replace (i + 1 + (j - 1)) with (i + j) in Hj by lia. rewrite Hj.
           replace (addr + 0x200000 + (j - 1) * 0x200000) with (addr + j * 0x200000) by lia.
           rewrite rd64_wr64_ne by lia. done.
    + split_and!; [lia|by intros ??|]. intros j Hj. destruct (Z.ltb_spec (addr + j * 0x200000) max); [lia|done].
Qed.

Lemma hi_loop_spec n pd i addr m : 0 <= addr → addr + Z.of_nat n * PSE_2MB <= 2 ^ 39 →
  let m' := hi_loop n pd i addr m in
  same_outside (pd + 8 * i) (pd + 8 * (i + Z.of_nat n)) m m' ∧
  ∀ j, 0 <= j < Z.of_nat n → rd64 m' (pd + 8 * (i + j)) = Z.lor (addr + j * PSE_2MB) 0x83.
Proof.
  unfold PSE_2MB. revert i addr m. induction n as [|n IH]; intros i addr m Ha Hm; cbn [hi_loop].
  - split; [by intros ??|lia].
  - unfold PSE_2MB. rewrite u64_small by lia.
    destruct (IH (i + 1) (addr + 0x200000) (wr64 m (pd + 8 * i) (Z.lor addr 0x83))) as [Ho Hj]; [lia|lia|]. split.
    + eapply same_outside_trans; (eapply same_outside_weaken; [| |first [exact Ho|apply wr64_same_outside]]); lia.
    + intros j Hj'. destruct (decide (j = 0)) as [->|].
      * rewrite Z.mul_0_l, !Z.add_0_r. rewrite (rd64_same_outside _ _ _ _ _ Ho) by lia.
        rewrite rd64_wr64_eq. apply u64_small, (lor_range _ _ 64); lia.
      * specialize (Hj (j - 1) ltac:(lia)). replace (i + 1 + (j - 1)) with (i + j) in Hj by lia. rewrite Hj. f_equal. lia.
Qed.

Definition GB : Z := 2 ^ 30.

(** What the outer loop leaves: from entry [k] on, the tables of the memory
    below [max], one after the other from [next]. *)
Record pdpt_done (pdpt k K next max : Z) (m m' : memory) : Prop := {
  pd_frame : ∀ a, a < pdpt + 8 * k ∨ pdpt + 4096 <= a → a < next ∨ next + 4096 * (K - k) <= a → rd8 m' a = rd8 m a;
  pd_tables : ∀ i, k <= i < K → rd64 m' (pdpt + 8 * i) = Z.lor (next + 4096 * (i - k)) 3;
  pd_rest : ∀ i, K <= i < 512 → rd64 m' (pdpt + 8 * i) = rd64 m (pdpt + 8 * i);
  pd_leaves : ∀ i j, k <= i < K → 0 <= j < 512 →
    rd64 m' (next + 4096 * (i - k) + 8 * j) =
      if i * GB + j * PSE_2MB <? max then leaf (i * GB + j * PSE_2MB) else 0
}.

(** One table: cleared, linked and filled. *)
Lemma pd_table pdpt k next max m m2 m3 :
  pdpt + 4096 <= next → 0 <= next → next + 4096 <= 2 ^ 52 → next `mod` 4096 = 0 → 0 <= k < 512 →
  m2 = wr64 (fill8 m next 4096 0) (pdpt + 8 * k) (Z.lor next 3) →
  same_outside next (next + 4096) m2 m3 →
  (∀ j, 0 <= j < 512 → rd64 m3 (next + 8 * j) =
     if k * GB + j * PSE_2MB <? max then leaf (k * GB + j * PSE_2MB) else rd64 m2 (next + 8 * j)) →
  pdpt_done pdpt k (k + 1) next max m m3.
Proof.
  intros Hp Hn Hn' Hal Hk -> Ho Hj. split.
  - intros a H1 H2. rewrite Ho by lia. rewrite rd8_wr64_out by lia. apply fill8_same_outside. lia.
  - intros i Hi. replace i with k by lia. rewrite Z.sub_diag, Z.mul_0_r, Z.add_0_r.
    rewrite (rd64_same_outside _ _ _ _ _ Ho) by lia. rewrite rd64_wr64_eq. apply u64_small.
    apply table_word; lia.
  - intros i Hi. rewrite (rd64_same_outside _ _ _ _ _ Ho) by lia. rewrite rd64_wr64_ne by lia.
    eapply rd64_same_outside; [apply fill8_same_outside|lia].
  - intros i j Hi Hj'. replace i with k by lia. rewrite Z.sub_diag, Z.mul_0_r, Z.add_0_r, Hj by done.
    destruct (_ <? max); [done|]. rewrite rd64_wr64_ne by lia. apply rdn_zero. intros b Hb.
    rewrite rd8_fill8, decide_True by lia. done.
Qed.

Lemma pdpt_done_trans pdpt k K next max m1 m2 m3 : 0 <= k → k + 1 <= K → K <= 512 → pdpt + 4096 <= next →
  pdpt_done pdpt k (k + 1) next max m1 m2 → pdpt_done pdpt (k + 1) K (next + 4096) max m2 m3 →
  pdpt_done pdpt k K next max m1 m3.
Proof.
  intros Hk HK HK' Hn [F1 T1 R1 L1] [F2 T2 R2 L2]. split.
  - intros a H1 H2. rewrite F2, F1 by lia. done.
  - intros i Hi. destruct (decide (i = k)) as [->|].
    + rewrite <-T1 by lia. apply rdn_ext. intros b Hb. apply F2; lia.
    + rewrite T2 by lia. f_equal. lia.
  - intros i Hi. rewrite R2, R1 by lia. done.
  - intros i j Hi Hj. destruct (decide (i = k)) as [->|].
    + rewrite <-L1 by lia. apply rdn_ext. intros b Hb. apply F2; lia.
    + rewrite <-L2 by lia. f_equal. lia.
Qed.

Lemma GB_aligned k : (k * GB) `mod` PSE_2MB = 0.
Proof. unfold GB, PSE_2MB. change (2 ^ 30) with (512 * 0x200000). rewrite Z.mul_assoc. apply Z.mod_mul. lia. Qed.

Lemma pdpt_loop_spec n pdpt k max m next K : 0 <= k → k + Z.of_nat n = 512 →
  0 < max <= 2 ^ 39 → max `mod` PSE_2MB = 0 → max <= K * GB < max + GB → k <= K →
  pdpt + 4096 <= next → 0 <= next → next `mod` 4096 = 0 → next + 4096 * (K - k) <= 2 ^ 52 →
  ∃ m', pdpt_loop n pdpt k (Z.min (k * GB) max) max m next = (m', next + 4096 * (K - k)) ∧
    pdpt_done pdpt k K next max m m'.
Proof.
  revert k m next. induction n as [|n IH]; intros k m next Hk Hn Hmax Hal HK HkK Hp Hn0 Hna Hnb; cbn [pdpt_loop].
  - assert (K = 512) as -> by (unfold GB in *; lia). assert (k = 512) as -> by lia.
    exists m. rewrite Z.sub_diag, Z.mul_0_r, Z.add_0_r. split; [done|]. by split; intros; lia.
  - destruct (Z.ltb_spec (Z.min (k * GB) max) max) as [Hlt|Hge].
    + assert (k + 1 <= K) as HkK' by (unfold GB in *; lia).
      rewrite Z.min_l by lia. unfold alloc_table, PAGE_SIZE. rewrite u64_small by lia.
      change (Z.lor (Z.lor next PAGE_PRESENT) PAGE_WRITE) with (Z.lor (Z.lor next 1) 2).
      rewrite <-Z.lor_assoc. change (Z.lor 1 2) with 3. set (m2 := wr64 _ _ _).
      pose proof (pd_loop_spec (Z.to_nat ENTRIES) next 0 (k * GB) max m2) as Hpd.
      destruct (pd_loop _ _ _ _ _ _) as [m3 a3]. change (Z.of_nat (Z.to_nat ENTRIES)) with 512 in Hpd.
      destruct Hpd as (Ea & Ho & Hj); [unfold GB in *; lia|lia|apply GB_aligned|done|].
      assert (pdpt_done pdpt k (k + 1) next max m m3) as D1.
      { apply (pd_table pdpt k next max m m2); try done; try lia.
        - eapply same_outside_weaken; [| |exact Ho]; lia. }
      destruct (IH (k + 1) m3 (next + 4096)) as (m' & E & D2); [lia|lia|lia|done|done|lia|lia|lia|by rewrite <-Z.add_mod_idemp_r, Z.mod_same, Z.add_0_r by lia|lia|].
      assert (a3 = Z.min ((k + 1) * GB) max) as -> by (rewrite Ea; unfold GB, PSE_2MB; lia).
      exists m'. rewrite E. split; [f_equal; lia|]. eapply pdpt_done_trans; [..|exact D1|exact D2]; unfold GB in *; lia.
    + assert (k = K) as -> by (unfold GB in *; lia).
      exists m. rewrite Z.sub_diag, Z.mul_0_r, Z.add_0_r. split; [done|]. by split; intros; lia.
Qed.

(** ** The tables as a whole *)
Record early_tables (m : memory) (T K max : Z) : Prop := {
  et_low : rd64 m T = Z.lor (T + 4096) 3;
  et_high : rd64 m (T + 8 * 511) = Z.lor (T + 8192 + 4096 * K) 3;
  et_pdpt : ∀ i, 0 <= i < 512 → rd64 m (T + 4096 + 8 * i) =
    if i <? K then Z.lor (T + 8192 + 4096 * i) 3 else 0;
  et_leaf : ∀ i j, 0 <= i < K → 0 <= j < 512 → rd64 m (T + 8192 + 4096 * i + 8 * j) =
    if i * GB + j * PSE_2MB <? max then leaf (i * GB + j * PSE_2MB) else 0;
  et_hi : rd64 m (T + 8192 + 4096 * K + 8 * 510) = Z.lor (T + 8192 + 4096 * K + 4096) 3;
  et_hi_leaf : ∀ j, 0 <= j < 512 → rd64 m (T + 8192 + 4096 * K + 4096 + 8 * j) = Z.lor (j * PSE_2MB) 0x83;
  et_root0 : ∀ i, 0 < i < 511 → rd64 m (T + 8 * i) = 0;
  et_hi0 : ∀ i, 0 <= i < 512 → i ≠ 510 → rd64 m (T + 8192 + 4096 * K + 8 * i) = 0
}.

Lemma rd64_fill8_zero m a n b : a <= b → b + 8 <= a + Z.of_nat n → rd64 (fill8 m a n 0) b = 0.
Proof. intros. apply rdn_zero. intros i Hi. rewrite rd8_fill8, decide_True by lia. done. Qed.

Lemma rd64_fill8_out m a n v b : b + 8 <= a ∨ a + Z.of_nat n <= b → rd64 (fill8 m a n v) b = rd64 m b.
Proof. intros. eapply rd64_same_outside; [apply fill8_same_outside|done]. Qed.

(** ** Walking tables of 2 MiB pages *)
Lemma index_div va n : 0 <= n → Z.land (Z.shiftr va n) 0x1FF = (va / 2 ^ n) `mod` 512.
Proof. intros. rewrite Z.shiftr_div_pow2 by done. by rewrite (Z.land_ones _ 9). Qed.

(** A virtual address whose three entries are present maps to the page's
    address and its own offset. *)
Lemma mmu_huge m T P Q va x f :
  P `mod` 4096 = 0 → 0 <= P < 2 ^ 52 → Q `mod` 4096 = 0 → 0 <= Q < 2 ^ 52 →
  rd64 m (T + 8 * ((va / 2 ^ 39) `mod` 512)) = Z.lor P 3 →
  rd64 m (P + 8 * ((va / 2 ^ 30) `mod` 512)) = Z.lor Q 3 →
  rd64 m (Q + 8 * ((va / 2 ^ 21) `mod` 512)) = Z.lor (x / 2 ^ 21 * 2 ^ 21) f →
  0 <= x < 2 ^ 52 → va `mod` 2 ^ 21 = x `mod` 2 ^ 21 → 0 <= f < 2 ^ 64 →
  Z.testbit f 0 = true → Z.testbit f 7 = true → Z.land f 0x000FFFFFFFE00000 = 0 →
  mmu m T va = Some x.
Proof.
  intros HP HP' HQ HQ' E1 E2 E3 Hx Hv Hf F1 F2 F3. unfold mmu, entry, pml4_index, pdpt_index, pd_index.
  rewrite !index_div by lia. rewrite E1. destruct (table_word P HP HP') as (-> & _ & -> & _). cbn [negb].
  rewrite E2. destruct (table_word Q HQ HQ') as (-> & -> & -> & _). cbn [negb]. rewrite E3.
  destruct (leaf_word _ f x eq_refl Hx Hf F1 F2 F3) as (-> & -> & P3 & _). cbn [negb].
  replace (Z.land va 0x1FFFFF) with (Z.land x 0x1FFFFF); [by rewrite P3|].
  change 0x1FFFFF with (Z.ones 21). by rewrite !Z.land_ones by lia.
Qed.

(** An empty entry at either of the lower two levels. *)
Lemma mmu_absent m T P Q va :
  P `mod` 4096 = 0 → 0 <= P < 2 ^ 52 → Q `mod` 4096 = 0 → 0 <= Q < 2 ^ 52 →
  rd64 m (T + 8 * ((va / 2 ^ 39) `mod` 512)) = Z.lor P 3 →
  (rd64 m (P + 8 * ((va / 2 ^ 30) `mod` 512)) = 0 ∨
   rd64 m (P + 8 * ((va / 2 ^ 30) `mod` 512)) = Z.lor Q 3 ∧
   rd64 m (Q + 8 * ((va / 2 ^ 21) `mod` 512)) = 0) →
  mmu m T va = None.
Proof.
  intros HP HP' HQ HQ' E1 E. unfold mmu, entry, pml4_index, pdpt_index, pd_index.
  rewrite !index_div by lia. rewrite E1. destruct (table_word P HP HP') as (-> & _ & -> & _). cbn [negb].
  destruct E as [-> |[-> E]]; [done|]. destruct (table_word Q HQ HQ') as (-> & -> & -> & _). cbn [negb]. by rewrite E.
Qed.

Section tables.
Context (T K max : Z) (HT : 0 < T) (HTa : T `mod` 4096 = 0) (HTb : T + 4096 * 516 <= 2 ^ 52).
Context (Hmax : 0 < max <= 2 ^ 39) (Hma : max `mod` PSE_2MB = 0) (HK : max <= K * GB < max + GB).

Lemma K_range : 0 < K <= 512.
Proof. unfold GB in *. lia. Qed.

Lemma shifted_aligned n : (T + 4096 * n) `mod` 4096 = 0.
Proof. rewrite Z.mul_comm, Z.mod_add by lia. done. Qed.

(** Memory before the loops: root and first pointer table. *)
Definition after_roots (m0 : memory) : memory :=
  wr64 (fill8 (fill8 m0 T 4096 0) (T + 4096) 4096 0) T (Z.lor (T + 4096) 3).

(** Memory after the kernel's map has been added. *)
Definition after_high (m : memory) : memory :=
  let H := T + 8192 + 4096 * K in
  let m := wr64 (fill8 m H 4096 0) (T + 8 * 511) (Z.lor H 3) in
  let m := wr64 (fill8 m (H + 4096) 4096 0) (H + 8 * 510) (Z.lor (H + 4096) 3) in
  hi_loop 512 (H + 4096) 0 0 m.

Lemma after_high_spec m :
  let H := T + 8192 + 4096 * K in
  let m' := after_high m in
  (∀ a, a < T + 8 * 511 ∨ T + 4096 <= a → a < H ∨ H + 8192 <= a → rd8 m' a = rd8 m a) ∧
  rd64 m' (T + 8 * 511) = Z.lor H 3 ∧ rd64 m' (H + 8 * 510) = Z.lor (H + 4096) 3 ∧
  (∀ j, 0 <= j < 512 → rd64 m' (H + 4096 + 8 * j) = Z.lor (j * PSE_2MB) 0x83) ∧
  ∀ i, 0 <= i < 512 → i ≠ 510 → rd64 m' (H + 8 * i) = 0.
Proof.
  pose proof K_range as KR. cbn zeta. unfold after_high. set (H := T + 8192 + 4096 * K).
  set (m1 := wr64 (fill8 m H 4096 0) _ _). set (m2 := wr64 (fill8 m1 _ 4096 0) _ _).
  destruct (hi_loop_spec 512 (H + 4096) 0 0 m2) as [Ho Hj]; [lia|unfold PSE_2MB; lia|].
  set (m3 := hi_loop 512 (H + 4096) 0 0 m2) in *.
  assert (0 <= Z.lor H 3 < 2 ^ 64 ∧ 0 <= Z.lor (H + 4096) 3 < 2 ^ 64) as [R1 R2].
  { split; apply (lor_range _ 3 64); lia. }
  split_and!.
  - intros a H1 H2. rewrite Ho by lia. unfold m2, m1. rewrite rd8_wr64_out by lia.
    rewrite (fill8_same_outside _ _ _ _ a) by lia. rewrite rd8_wr64_out by lia. apply fill8_same_outside. lia.
  - rewrite (rd64_same_outside _ _ _ _ _ Ho) by lia. unfold m2, m1. rewrite rd64_wr64_ne by lia.
    rewrite rd64_fill8_out, rd64_wr64_eq by lia. by apply u64_small.
  - rewrite (rd64_same_outside _ _ _ _ _ Ho) by lia. unfold m2. rewrite rd64_wr64_eq. by apply u64_small.
  - intros j Hj'. apply (Hj j). lia.
  - intros i Hi Hne. rewrite (rd64_same_outside _ _ _ _ _ Ho) by lia. unfold m2, m1. rewrite rd64_wr64_ne by lia.
    rewrite rd64_fill8_out, rd64_wr64_ne by lia. apply rd64_fill8_zero; lia.
Qed.

Lemma tables_built m0 m1 :
  pdpt_done (T + 4096) 0 K (T + 8192) max (after_roots m0) m1 → early_tables (after_high m1) T K max.
Proof.
  pose proof K_range as KR. intros [F Tb R L]. destruct (after_high_spec m1) as (Ha & H1 & H2 & H3 & H4).
  assert (∀ b, b + 8 <= T + 8 * 511 ∨ T + 4096 <= b → b + 8 <= T + 8192 + 4096 * K → rd64 (after_high m1) b = rd64 m1 b) as Hkeep.
  { intros b Hb Hb'. apply rdn_ext. intros i Hi. apply Ha; lia. }
  assert (∀ b, b + 8 <= T + 4096 → rd64 m1 b = rd64 (after_roots m0) b) as Hroot.
  { intros b Hb. apply rdn_ext. intros i Hi. apply F; lia. }
  split; [| | | |exact H2|exact H3| |exact H4].
  - rewrite Hkeep, Hroot by lia. unfold after_roots. rewrite rd64_wr64_eq. apply u64_small.
    apply (lor_range _ 3 64); lia.
  - exact H1.
  - intros i Hi. rewrite Hkeep by lia. destruct (Z.ltb_spec i K).
    + rewrite Tb by lia. f_equal. lia.
    + rewrite R by lia. unfold after_roots. rewrite rd64_wr64_ne by lia. apply rd64_fill8_zero; lia.
  - intros i j Hi Hj. rewrite Hkeep by lia. rewrite <-(L i j Hi Hj). f_equal. lia.
  - intros i Hi. rewrite Hkeep, Hroot by lia. unfold after_roots. rewrite rd64_wr64_ne by lia.
    rewrite rd64_fill8_out by lia. apply rd64_fill8_zero; lia.
Qed.

(** ** Translation *)
Lemma tables_low m va : early_tables m T K max → 0 <= va < 2 ^ 39 →
  mmu m T va = if va <? max then Some va else None.
Proof.
  intros [E1 _ E3 E4 _ _ _ _] Hva. pose proof K_range as KR. pose proof (shifted_aligned 1) as A1.
  set (i := va / 2 ^ 30). set (j := (va / 2 ^ 21) `mod` 512).
  assert ((va / 2 ^ 39) `mod` 512 = 0 ∧ i `mod` 512 = i ∧ 0 <= i < 512) as (I1 & I2 & Hi) by (subst i; split_and!; arith).
  assert (0 <= j < 512 ∧ i * GB + j * PSE_2MB = va / 2 ^ 21 * 2 ^ 21) as [Hj Hij].
  { split; [apply Z.mod_pos_bound; lia|]. subst i j. unfold GB, PSE_2MB. arith. }
  assert ((T + 8192 + 4096 * Z.min i K) `mod` 4096 = 0) as A2.
  { replace (T + 8192 + 4096 * Z.min i K) with (T + 4096 * (2 + Z.min i K)) by lia. apply shifted_aligned. }
  assert (rd64 m (T + 8 * ((va / 2 ^ 39) `mod` 512)) = Z.lor (T + 4096) 3) as W1 by (by rewrite I1, Z.mul_0_r, Z.add_0_r).
  unfold PSE_2MB in Hma. destruct (Z.ltb_spec va max) as [Hlt|Hge].
  - assert (i < K ∧ va / 2 ^ 21 * 2 ^ 21 < max) as [HiK Hm].
    { split; [subst i; unfold GB in HK; arith|arith]. }
    rewrite Z.min_l in A2 by lia. destruct (page_flags_word (va / 2 ^ 21 * 2 ^ 21)) as (F1 & F2 & F3 & F4).
    eapply (mmu_huge _ _ (T + 4096) (T + 8192 + 4096 * i) va va); try done; try lia.
    + fold i. rewrite I2, E3 by lia. by destruct (Z.ltb_spec i K); [|lia].
    + fold j. rewrite E4, Hij by lia. by destruct (Z.ltb_spec (va / 2 ^ 21 * 2 ^ 21) max); [|lia].
  - eapply (mmu_absent _ _ (T + 4096) (T + 8192 + 4096 * Z.min i K)); try done; try lia. fold i j. rewrite I2, E3 by lia.
    destruct (Z.ltb_spec i K); [right|by left]. rewrite Z.min_l by lia. split; [done|]. rewrite E4, Hij by lia.
    destruct (Z.ltb_spec (va / 2 ^ 21 * 2 ^ 21) max) as [Hm|]; [exfalso; clear -Hge Hm Hma; arith|done].
Qed.

Lemma tables_high m x : early_tables m T K max → 0 <= x < GB → mmu m T (KERNEL_VIRT_BASE + x) = Some x.
Proof.
  intros [_ E2 _ _ E5 E6 _ _] Hx. pose proof K_range as KR. unfold GB in Hx.
  set (va := KERNEL_VIRT_BASE + x).
  assert ((va / 2 ^ 39) `mod` 512 = 511 ∧ (va / 2 ^ 30) `mod` 512 = 510 ∧ (va / 2 ^ 21) `mod` 512 = x / 2 ^ 21 ∧
    va `mod` 2 ^ 21 = x `mod` 2 ^ 21) as (I1 & I2 & I3 & I4).
  { subst va. unfold KERNEL_VIRT_BASE. split_and!; arith. }
  assert (∀ n, (T + 8192 + 4096 * n) `mod` 4096 = 0) as A.
  { intros n. replace (T + 8192 + 4096 * n) with (T + 4096 * (2 + n)) by lia. apply shifted_aligned. }
  eapply (mmu_huge _ _ (T + 8192 + 4096 * K) (T + 8192 + 4096 * K + 4096) va x 0x83); try done; try lia.
  - specialize (A (K + 1)). rewrite Z.mul_add_distr_l, Z.add_assoc in A. exact A.
  - by rewrite I1.
  - by rewrite I2.
  - rewrite I3, E6 by arith. done.
Qed.

(** ** The tables as a tree *)

(** Entries that point to a table, and entries that do not. *)
Lemma next_table m t i n : entry m t i = Z.lor (T + 4096 * n) 3 → 0 <= n < 516 → next m t i = Some (T + 4096 * n).
Proof.
  intros E Hn. unfold next. rewrite E.
  by destruct (table_word (T + 4096 * n)) as (-> & -> & -> & _); [apply shifted_aligned|lia|].
Qed.

Lemma next_leaf m t i a f : entry m t i = Z.lor a f → a `mod` PSE_2MB = 0 → 0 <= a < 2 ^ 39 → 0 <= f < 2 ^ 64 →
  Z.testbit f 0 = true → Z.testbit f 7 = true → Z.land f 0x000FFFFFFFE00000 = 0 → next m t i = None.
Proof.
  intros E Ha Hr Hf F0 F7 Fm. unfold next, PSE_2MB in *. rewrite E.
  destruct (leaf_word a f a) as (-> & -> & _); [arith|lia|done..].
Qed.

(** The page, counted from the root, that a walk from the root reaches. *)
Definition place (p : list Z) : option Z :=
  match p with
  | [] => Some 0
  | [i] => if i =? 0 then Some 1 else if i =? 511 then Some (K + 2) else None
  | [i; j] => if (i =? 0) && (j <? K) then Some (2 + j) else if (i =? 511) && (j =? 510) then Some (K + 3) else None
  | _ => None
  end.

Lemma next_root m i : early_tables m T K max → 0 <= i < 512 → next m T i = (λ n, T + 4096 * n) <$> place [i].
Proof.
  intros [E1 E2 _ _ _ _ E7 _] Hi. pose proof K_range as KR. unfold place. destruct (Z.eqb_spec i 0) as [->|].
  { apply next_table; [|lia]. unfold entry. rewrite Z.mul_0_r, Z.add_0_r, E1. f_equal. }
  destruct (Z.eqb_spec i 511) as [->|].
  { apply next_table; [|lia]. unfold entry. rewrite E2. f_equal. lia. }
  apply next_absent. unfold entry. by rewrite E7 by lia.
Qed.

Lemma next_second m i j n : early_tables m T K max → 0 <= i < 512 → 0 <= j < 512 → place [i] = Some n →
  next m (T + 4096 * n) j = (λ n, T + 4096 * n) <$> place [i; j].
Proof.
  intros [_ _ E3 _ E5 _ _ E8] Hi Hj. pose proof K_range as KR. unfold place.
  destruct (Z.eqb_spec i 0) as [->|]; cbn [andb Z.eqb].
  { intros [= <-]. specialize (E3 j Hj). rewrite Z.mul_1_r. destruct (Z.ltb_spec j K); cbn [fmap option_fmap option_map].
    - apply next_table; [|lia]. unfold entry. rewrite E3. f_equal. lia.
    - apply next_absent. unfold entry. by rewrite E3. }
  destruct (Z.eqb_spec i 511) as [->|]; [|done]. intros [= <-]. cbn [andb].
  replace (T + 4096 * (K + 2)) with (T + 8192 + 4096 * K) by lia.
  destruct (Z.eqb_spec j 510) as [->|]; cbn [fmap option_fmap option_map].
  - apply next_table; [|lia]. unfold entry. rewrite E5. f_equal. lia.
  - apply next_absent. unfold entry. by rewrite E8.
Qed.

Lemma next_third m i j l n : early_tables m T K max → 0 <= i < 512 → 0 <= j < 512 → 0 <= l < 512 → place [i; j] = Some n →
  next m (T + 4096 * n) l = None.
Proof.
  intros [_ _ _ E4 _ E6 _ _] Hi Hj Hl. pose proof K_range as KR. unfold place.
  destruct ((i =? 0) && (j <? K)) eqn:C1.
  { apply andb_true_iff in C1 as [_ Hlt%Z.ltb_lt]. intros [= <-]. specialize (E4 j l ltac:(lia) Hl).
    replace (T + 4096 * (2 + j)) with (T + 8192 + 4096 * j) by lia. destruct (Z.ltb_spec (j * GB + l * PSE_2MB) max).
    - destruct (page_flags_word (j * GB + l * PSE_2MB)) as (F1 & F2 & F3 & F4).
      refine (next_leaf _ _ _ _ _ E4 _ _ F1 F2 F3 F4); unfold GB, PSE_2MB in *; [arith|lia].
    - apply next_absent. unfold entry. by rewrite E4. }
  destruct ((i =? 511) && (j =? 510)); [|done]. intros [= <-]. specialize (E6 l Hl).
  replace (T + 4096 * (K + 3)) with (T + 8192 + 4096 * K + 4096) by lia.
  refine (next_leaf _ _ _ _ _ E6 _ _ _ _ _ _); unfold PSE_2MB in *; [arith|lia|lia|done..].
Qed.

Lemma early_walk m p : early_tables m T K max → okp p → walk m T p = (λ n, T + 4096 * n) <$> place p.
Proof.
  intros E Hp. destruct p as [|i p]; [cbn; f_equal; lia|]. apply Forall_cons in Hp as [Hi Hp].
  change (walk m T (i :: p)) with (next m T i ≫= λ t, walk m t p). rewrite (next_root m i E Hi).
  destruct (place [i]) as [n|] eqn:Ei; cbn [mbind option_bind fmap option_fmap option_map].
  2: { destruct p as [|j [|? ?]]; [by rewrite Ei| |done]. cbn in Ei |- *.
       by destruct (i =? 0), (i =? 511). }
  destruct p as [|j p]; [by rewrite Ei|]. apply Forall_cons in Hp as [Hj Hp].
  change (walk m (T + 4096 * n) (j :: p)) with (next m (T + 4096 * n) j ≫= λ t, walk m t p).
  rewrite (next_second m i j n E Hi Hj Ei). destruct (place [i; j]) as [n'|] eqn:Ej; cbn [mbind option_bind fmap option_fmap option_map].
  2: { destruct p; [by rewrite Ej|done]. }
  destruct p as [|l p]; [by rewrite Ej|]. apply Forall_cons in Hp as [Hl Hp].
  change (walk m (T + 4096 * n') (l :: p)) with (next m (T + 4096 * n') l ≫= λ t, walk m t p).
  by rewrite (next_third m i j l n' E Hi Hj Hl Ej).
Qed.

(** The entries of the upper two levels: absent or a table. *)
Lemma upper_entry m p n i : early_tables m T K max → okp p → (length p <= 1)%nat → place p = Some n → 0 <= i < 512 →
  entry m (T + 4096 * n) i = 0 ∨ ∃ n', 0 <= n' < 516 ∧ entry m (T + 4096 * n) i = Z.lor (T + 4096 * n') 3.
Proof.
  pose proof K_range as KR. intros [E1 E2 E3 _ E5 _ E7 E8] Hp Hl Ep Hi. unfold entry.
  destruct p as [|j [|? ?]]; [|..|cbn in Hl; lia]; cbn in Ep.
  - simplify_eq. rewrite Z.mul_0_r, Z.add_0_r. destruct (decide (i = 0)) as [->|].
    { right. exists 1. rewrite Z.mul_0_r, Z.add_0_r, E1. split; [lia|f_equal]. }
    destruct (decide (i = 511)) as [->|]; [|left; apply E7; lia].
    right. exists (K + 2). rewrite E2. split; [lia|f_equal; lia].
  - destruct (Z.eqb_spec j 0); simplify_eq.
    { rewrite Z.mul_1_r, E3 by done. destruct (Z.ltb_spec i K); [|by left].
      right. exists (2 + i). split; [lia|f_equal; lia]. }
    destruct (Z.eqb_spec j 511); simplify_eq. replace (T + 4096 * (K + 2)) with (T + 8192 + 4096 * K) by lia.
    destruct (decide (i = 510)) as [->|]; [|left; by apply E8].
    right. exists (K + 3). rewrite E5. split; [lia|f_equal; lia].
Qed.

Lemma place_range p n : place p = Some n → okp p → 0 <= n < K + 4.
Proof.
  pose proof K_range as KR. intros E Hp. destruct p as [|i [|j [|? ?]]]; cbn in E; [|..|done]; repeat case_match; simplify_eq; try lia.
  apply Forall_cons in Hp as [_ [Hj _]%Forall_cons]. lia.
Qed.

Lemma place_inj p q n : okp p → okp q → place p = Some n → place q = Some n → p = q.
Proof.
  pose proof K_range as KR. intros Hp Hq Ep Eq.
  assert (∀ r, okp r → place r = Some n → (n = 0 ∧ r = []) ∨ (n = 1 ∧ r = [0]) ∨ (n = K + 2 ∧ r = [511]) ∨
    (n = K + 3 ∧ r = [511; 510]) ∨ (2 <= n < K + 2 ∧ r = [0; n - 2])) as H.
  { clear. intros r Hr E. destruct r as [|i [|j [|? ?]]]; cbn in E; [naive_solver| | |done].
    - destruct (Z.eqb_spec i 0) as [->|]; [naive_solver|]. destruct (Z.eqb_spec i 511) as [->|]; naive_solver.
    - apply Forall_cons in Hr as [_ [Hj _]%Forall_cons].
      destruct ((i =? 0) && (j <? K)) eqn:C1.
      { apply andb_true_iff in C1 as [->%Z.eqb_eq Hlt%Z.ltb_lt]. simplify_eq. do 4 right. split; [lia|]. do 2 f_equal. lia. }
      destruct (Z.eqb_spec i 511) as [->|], (Z.eqb_spec j 510) as [->|]; naive_solver. }
  destruct (H p Hp Ep) as [[? ->]|[[? ->]|[[? ->]|[[? ->]|[? ->]]]]],
    (H q Hq Eq) as [[? ->]|[[? ->]|[[? ->]|[[? ->]|[? ->]]]]]; first [done|lia].
Qed.
End tables.

Lemma land_shifted_aligned x n w : 0 <= n → Z.land x (Z.shiftl (Z.ones w) n) `mod` 2 ^ n = 0.
Proof.
  intros Hn. apply Z.bits_inj'. intros i Hi. rewrite Z.bits_0. destruct (Z.lt_ge_cases i n).
  - rewrite Z.mod_pow2_bits_low, Z.land_spec, Z.shiftl_spec_low, andb_false_r by lia. done.
  - by rewrite Z.mod_pow2_bits_high by lia.
Qed.

(** The memory map is read after the first tables have been written. *)
Lemma max_memory_ext bi m m' : map_same bi m m' → max_memory bi m' = max_memory bi m.
Proof.
  intros H. assert (ram_top bi m' = ram_top bi m) as E; [|unfold max_memory; by rewrite E].
  apply fold_ext. intros x d Hd. by destruct (desc_ext bi m m' d H Hd) as (-> & -> & ->).
Qed.

Lemma alloc_table_eval m next :
  0 <= next → next + 4096 < 2 ^ 64 → alloc_table m next = (next, fill8 m next 4096 0, next + 4096).
Proof.
  intros. unfold alloc_table, PAGE_SIZE. rewrite u64_small by lia.
  reflexivity.
Qed.

(** The tables in closed form. *)
Lemma paging_init_eval kernel_end_virt bi s T K max m1 :
  round_up (kernel_end_phys kernel_end_virt) PAGE_SIZE = T → 0 < T → 0 <= K <= 512 → T + 4096 * 516 <= 2 ^ 52 →
  max_memory bi (after_roots T (pgmem s)) = max →
  pdpt_loop 512 (T + 4096) 0 0 max (after_roots T (pgmem s)) (T + 8192) = (m1, T + 8192 + 4096 * K) →
  paging_init kernel_end_virt bi s =
    Paging (after_high T K m1) T (T + 4096) (T + 4096 * (K + 4)) (T + 4096 * (K + 4)) T T
      (Z.lor (efer s) (Z.shiftl 1 11)).
Proof.
  unfold after_roots, after_high. intros ET HT HK HTb Emax E1. unfold paging_init. rewrite ET.
  rewrite alloc_table_eval by lia. cbv beta iota zeta. rewrite alloc_table_eval by lia. cbv beta iota zeta.
  replace (T + 4096 + 4096) with (T + 8192) by lia. rewrite Emax.
  replace (Z.to_nat ENTRIES) with 512%nat by (vm_compute; reflexivity). rewrite E1. cbv beta iota zeta.
  rewrite alloc_table_eval by lia. cbv beta iota zeta. rewrite alloc_table_eval by lia. cbv beta iota zeta.
  replace (T + 8192 + 4096 * K + 4096 + 4096) with (T + 4096 * (K + 4)) by lia. reflexivity.
Qed.

Lemma gb_count max : 0 < max → max <= (max + GB - 1) / GB * GB < max + GB.
Proof. unfold GB. intros. arith. Qed.

(** The tables [paging_init] leaves, as words. *)
Lemma paging_init_tables kernel_end_virt bi s :
  let T := round_up (kernel_end_phys kernel_end_virt) PAGE_SIZE in
  let max := max_memory bi (pgmem s) in
  let K := (max + GB - 1) / GB in
  let s' := paging_init kernel_end_virt bi s in
  0 < T → T + 4096 * 516 <= 2 ^ 52 → 0 < max <= 2 ^ 39 →
  (∀ d, d ∈ descriptors bi → d + 40 <= T ∨ T + 8192 <= d) →
  T `mod` 4096 = 0 ∧ max `mod` PSE_2MB = 0 ∧ max <= K * GB < max + GB ∧
  hw_cr3 s' = T ∧ kernel_cr3 s' = T ∧ paging_arena_end s' = T + 4096 * (K + 4) ∧
  early_tables (pgmem s') T K max ∧ same_outside T (paging_arena_end s') (pgmem s) (pgmem s').
Proof.
  intros T max K s' HT HTb Hmax Hd.
  assert (T `mod` 4096 = 0) as HTa by (apply (land_shifted_aligned _ 12 52); lia).
  assert (max `mod` PSE_2MB = 0) as Hma by (apply (land_shifted_aligned _ 21 43); lia).
  pose proof (gb_count max (proj1 Hmax) : max <= K * GB < max + GB) as HK.
  pose proof (K_range K max Hmax HK) as KR.
  assert (round_up (kernel_end_phys kernel_end_virt) PAGE_SIZE = T) as ET by done.
  assert (max_memory bi (after_roots T (pgmem s)) = max) as Emax.
  { apply max_memory_ext. intros d a Hin Ha. destruct (Hd d Hin); unfold after_roots;
      (rewrite rd8_wr64_out by lia; rewrite !(fill8_same_outside _ _ _ _ a) by lia; done). }
  clearbody K max T.
  destruct (pdpt_loop_spec 512 (T + 4096) 0 max (after_roots T (pgmem s)) (T + 8192) K)
    as (m1 & E1 & D1); [lia|lia|done|done|done|lia|lia|lia| |lia|].
  { replace (T + 8192) with (T + 4096 * 2) by lia. by apply shifted_aligned. }
  rewrite Z.mul_0_l, Z.min_l, Z.sub_0_r in E1 by lia.
  subst s'. rewrite (paging_init_eval kernel_end_virt bi s T K max m1) by (done || lia).
  cbn [hw_cr3 kernel_cr3 pgmem paging_arena_end].
  split_and!; [done|done|lia|lia|done|done|done|exact (tables_built T K max HT HTb Hmax HK (pgmem s) m1 D1)|].
  intros a Ha. destruct (after_high_spec T K max HT HTb Hmax HK m1) as (Hf & _). rewrite Hf by lia.
  rewrite (pd_frame _ _ _ _ _ _ _ D1) by lia. unfold after_roots. rewrite rd8_wr64_out by lia.
  by rewrite !(fill8_same_outside _ _ _ _ a) by lia.
Qed.

(** C5. The early page tables map what the kernel needs.  For at most 512 GiB
    of memory, a page-aligned place [T] for the tables after the kernel image
    and a memory map that does not lie in the first two of them,
    [paging_init] loads CR3 with [T]; the processor then translates every
    address below the (rounded) top of memory to itself and none above it up
    to 512 GiB, and translates the first gigabyte at the kernel's virtual
    base to physical memory from 0; the tables take as many pages as there
    are gigabytes and four more, and no byte outside them is written. *)
Theorem paging_init_maps kernel_end_virt bi s :
  let T := round_up (kernel_end_phys kernel_end_virt) PAGE_SIZE in
  let max := max_memory bi (pgmem s) in
  let s' := paging_init kernel_end_virt bi s in
  0 < T → T + 4096 * 516 <= 2 ^ 52 → 0 < max <= 2 ^ 39 →
  (∀ d, d ∈ descriptors bi → d + 40 <= T ∨ T + 8192 <= d) →
  hw_cr3 s' = T ∧ kernel_cr3 s' = T ∧
  (∀ va, 0 <= va < 2 ^ 39 → mmu (pgmem s') T va = if va <? max then Some va else None) ∧
  (∀ x, 0 <= x < GB → mmu (pgmem s') T (KERNEL_VIRT_BASE + x) = Some x) ∧
  paging_arena_end s' = T + 4096 * ((max + GB - 1) / GB + 4) ∧
  same_outside T (paging_arena_end s') (pgmem s) (pgmem s').
Proof.
  intros T max s' HT HTb Hmax Hd.
  destruct (paging_init_tables kernel_end_virt bi s HT HTb Hmax Hd) as (HTa & Hma & HK & E1 & E2 & E3 & Tb & O).
  fold T max s' in HTa, Hma, HK, E1, E2, E3, Tb, O. clearbody T max s'. split_and!; [done|done| | |done|done].
  - intros va Hva. by eapply tables_low.
  - intros x Hx. by eapply tables_high.
Qed.

(** ** Example: 4 GiB, a kernel that ends at 2 MiB, a one-entry memory map *)
Definition ex_boot : BootInfo := Build_BootInfo 0x80000000 800 600 800 0x9000 48 48 0.
Definition ex_paging : paging := Paging ∅ 0 0 0 0 0 0 0.

Lemma paging_init_maps_witness :
  mmu (pgmem (paging_init (KERNEL_VIRT_BASE + 0x100000) ex_boot ex_paging)) 0x200000 0xFEE00030 = Some 0xFEE00030.
Proof.
  assert (round_up (kernel_end_phys (KERNEL_VIRT_BASE + 0x100000)) PAGE_SIZE = 0x200000) as ET by (vm_compute; reflexivity).
  assert (max_memory ex_boot ∅ = 2 ^ 32) as EM by (vm_compute; reflexivity).
  destruct (paging_init_maps (KERNEL_VIRT_BASE + 0x100000) ex_boot ex_paging) as (_ & _ & H & _).
  - rewrite ET. lia.
  - rewrite ET. lia.
  - cbn [pgmem ex_paging]. rewrite EM. lia.
  - intros d Hd. rewrite ET. replace (descriptors ex_boot) with [0x9000] in Hd by (vm_compute; reflexivity).
    apply list_elem_of_singleton in Hd. subst d. lia.
  - rewrite ET in H. rewrite H by lia. cbn [pgmem ex_paging]. rewrite EM. reflexivity.
Defined.
