(* ===== verification/Kmalloc.v ===== *)
(** * Kernel heap (kernel/kmalloc.c)

    A first-fit allocator over a singly linked list of blocks whose headers
    live in physical memory in front of the payload.  Arenas come from
    [pmm_alloc_pages].  The loops over the list take a fuel argument; the
    theorems show that a fuel above the length of the list is enough. *)
From stdpp Require Import base gmap list list_numbers strings.
From S2P Require Import Prelude Monad Mem Pmm Vmm.

Definition KMALLOC_ALIGN : Z := 16.
Definition sizeof_KBlock : Z := 32.

(** [struct KBlock]: size at 0, free at 8, next at 16. *)
Definition blk_size (m : memory) (block : Z) : Z := rd64 m block.
Definition blk_free (m : memory) (block : Z) : bool := negb (rd32 m (block + 8) =? 0).
Definition blk_next (m : memory) (block : Z) : Z := rd64 m (block + 16).
Definition set_blk_size (block v : Z) (m : memory) : memory := wr64 m block v.
Definition set_blk_free (block v : Z) (m : memory) : memory := wr32 m (block + 8) v.
Definition set_blk_next (block v : Z) (m : memory) : memory := wr64 m (block + 16) v.

Record heap := Heap { hphys : pmm; heap_head : Z; heap_ready : bool }.

Definition hmem (s : heap) : memory := mem (hphys s).
Definition set_hphys (p : pmm) (s : heap) : heap := Heap p (heap_head s) (heap_ready s).
Definition set_hmem (m : memory) (s : heap) : heap := set_hphys (set_mem m (hphys s)) s.
Definition hphys_lens : lens heap pmm := Lens hphys set_hphys.

Definition align_up (value align : Z) : Z :=
  Z.land (u64 (u64 (value + align) - 1)) (Z.lxor (2 ^ 64 - 1) (u64 (align - 1))).

Definition split_block (block size : Z) (m : memory) : memory :=
  let remaining := u64 (blk_size m block - size) in
  if remaining <=? sizeof_KBlock + KMALLOC_ALIGN then m
  else
    let next := u64 (block + sizeof_KBlock + size) in
    let m := set_blk_size next (remaining - sizeof_KBlock) m in
    let m := set_blk_free next 1 m in
    let m := set_blk_next next (blk_next m block) m in
    let m := set_blk_size block size m in
    set_blk_next block next m.

(** [for (block = ...; block && block->next; block = block->next)];
    [None] when the fuel runs out. *)
Fixpoint coalesce_loop (fuel : nat) (block : Z) (m : memory) : option memory :=
  match fuel with
  | O => None
  | S fuel' =>
      if (block =? 0) || (blk_next m block =? 0) then Some m
      else
        let m := if blk_free m block && blk_free m (blk_next m block) then
                   let m := set_blk_size block
                     (u64 (blk_size m block + u64 (sizeof_KBlock + blk_size m (blk_next m block)))) m in
                   set_blk_next block (blk_next m (blk_next m block)) m
                 else m in
        coalesce_loop fuel' (blk_next m block) m
  end.

(** [while (tail->next) tail = tail->next;] *)
Fixpoint find_tail (fuel : nat) (m : memory) (tail : Z) : option Z :=
  match fuel with
  | O => None
  | S fuel' => if blk_next m tail =? 0 then Some tail else find_tail fuel' m (blk_next m tail)
  end.

(** The search loop of [kmalloc]: the first fitting block, 0 if there is none. *)
Fixpoint find_fit (fuel : nat) (m : memory) (block size : Z) : option Z :=
  match fuel with
  | O => None
  | S fuel' =>
      if block =? 0 then Some 0
      else if blk_free m block && (size <=? blk_size m block) then Some block
      else find_fit fuel' m (blk_next m block) size
  end.

Section ops.
Context (fuel : nat).

(** A loop that needs more than [fuel] iterations. *)
Definition run {A} (r : option A) : M heap A :=
  match r with Some a => mret a | None => panic "list longer than the fuel" end.

Definition coalesce : M heap unit :=
  s ← gets id;
  m ← run (coalesce_loop fuel (heap_head s) (hmem s));
  modify (set_hmem m).

Definition expand_heap (size : Z) : M heap Z :=
  let total := align_up (u64 (size + sizeof_KBlock)) PAGE_SIZE in
  let pages := total / PAGE_SIZE in
  block ← zoom hphys_lens (lift (pmm_alloc_pages pages));
  if block =? 0 then mret 0 else
  modify (λ s, set_hmem (set_blk_size block (u64 (total - sizeof_KBlock)) (hmem s)) s) ;;
  modify (λ s, set_hmem (set_blk_free block 1 (hmem s)) s) ;;
  modify (λ s, set_hmem (set_blk_next block 0 (hmem s)) s) ;;
  s ← gets id;
  if heap_head s =? 0 then
    modify (λ s, Heap (hphys s) block (heap_ready s)) ;; mret block
  else
    tail ← run (find_tail fuel (hmem s) (heap_head s));
    modify (λ s, set_hmem (set_blk_next tail block (hmem s)) s) ;;
    mret block.

Definition kmalloc_init : M heap unit :=
  kassert (Z.land sizeof_KBlock (KMALLOC_ALIGN - 1) =? 0)
    "kmalloc: block header is not allocation-aligned" ;;
  ready ← gets heap_ready;
  if negb ready then
    b ← expand_heap PAGE_SIZE;
    kassert (negb (b =? 0)) "kmalloc: initial heap allocation failed" ;;
    modify (λ s, Heap (hphys s) (heap_head s) true)
  else mret tt.

(** [split_block(block, size); block->free = 0; return block + 1;] *)
Definition take_block (block size : Z) : M heap Z :=
  modify (λ s, set_hmem (split_block block size (hmem s)) s) ;;
  modify (λ s, set_hmem (set_blk_free block 0 (hmem s)) s) ;;
  mret (u64 (block + sizeof_KBlock)).

Definition kmalloc (size : Z) : M heap Z :=
  if size =? 0 then mret 0 else
  ready ← gets heap_ready;
  kassert ready "kmalloc: heap used before kmalloc_init" ;;
  let size := align_up size KMALLOC_ALIGN in
  s ← gets id;
  block ← run (find_fit fuel (hmem s) (heap_head s) size);
  if negb (block =? 0) then take_block block size else
  block ← expand_heap size;
  if block =? 0 then mret 0 else take_block block size.

Definition kzalloc (size : Z) : M heap Z :=
  ptr ← kmalloc size;
  if ptr =? 0 then mret 0 else
  modify (λ s, set_hmem (fill8 (hmem s) ptr (Z.to_nat size) 0) s) ;;
  mret ptr.

Definition kfree (ptr : Z) : M heap unit :=
  if ptr =? 0 then mret tt else
  let block := u64 (ptr - sizeof_KBlock) in
  modify (λ s, set_hmem (set_blk_free block 1 (hmem s)) s) ;;
  coalesce.
End ops.

(** ** Abstract heap: the list of blocks *)
Record blk := Blk { b_addr : Z; b_size : Z; b_free : bool }.

#[export] Instance blk_eq_dec : EqDecision blk.
Proof. solve_decision. Defined.

(** First byte after the block. *)
Definition b_end (b : blk) : Z := b_addr b + sizeof_KBlock + b_size b.

(** The blocks found by following [next] from [a] up to [e]. *)
Fixpoint seg (m : memory) (a : Z) (l : list blk) (e : Z) : Prop :=
  match l with
  | [] => a = e
  | b :: l' => a = b_addr b ∧ blk_size m a = b_size b ∧ blk_free m a = b_free b ∧
               seg m (blk_next m a) l' e
  end.

(** Abstract operations. *)
Definition fits (n : Z) (b : blk) : bool := b_free b && (n <=? b_size b).

Definition split (b : blk) (n : Z) : list blk :=
  if b_size b - n <=? 48 then [Blk (b_addr b) (b_size b) false]
  else [Blk (b_addr b) n false; Blk (b_addr b + 32 + n) (b_size b - n - 32) true].

Fixpoint merge (l : list blk) : list blk :=
  match l with
  | b :: (c :: l') as l1 =>
      if b_free b && b_free c then Blk (b_addr b) (b_size b + 32 + b_size c) true :: merge l'
      else b :: merge l1
  | _ => l
  end.

(** A block is a 16-byte aligned region of pages the heap owns. *)
Record block_ok (p : pmm) (b : blk) : Prop := {
  bo_addr : 0 < b_addr b;
  bo_align : b_addr b `mod` 16 = 0;
  bo_size : 0 <= b_size b;
  bo_size_align : b_size b `mod` 16 = 0;
  bo_own : ∀ x, b_addr b <= x < b_end b → own_page p (x / PAGE_SIZE * PAGE_SIZE)
}.

Definition apart (b c : blk) : Prop := b_end b <= b_addr c ∨ b_end c <= b_addr b.

Record heap_wf (s : heap) (l : list blk) : Prop := {
  hw_phys : phys_ok (hphys s);
  hw_seg : seg (hmem s) (heap_head s) l 0;
  hw_blocks : Forall (block_ok (hphys s)) l;
  hw_apart : ForallOrdPairs apart l
}.

(** ** Lists of blocks in memory *)
Lemma seg_app m a l1 l2 e : seg m a (l1 ++ l2) e ↔ ∃ c, seg m a l1 c ∧ seg m c l2 e.
Proof.
  revert a. induction l1 as [|b l1 IH]; intros a; cbn.
  - split; [intros; by exists a|]. by intros (c & -> & ?).
  - rewrite IH. split.
    + intros (? & ? & ? & c & ? & ?). by exists c.
    + intros (c & (? & ? & ? & ?) & ?). split_and!; try done. by exists c.
Qed.

Lemma seg_ext m m' a l e :
  (∀ b x, b ∈ l → b_addr b <= x < b_addr b + 24 → rd8 m' x = rd8 m x) →
  seg m a l e → seg m' a l e.
Proof.
  revert a. induction l as [|b l IH]; intros a H; [done|]. cbn. intros (-> & Hs & Hf & Hn).
  assert (∀ x, b_addr b <= x < b_addr b + 24 → rd8 m' x = rd8 m x) as Hb
    by (intros; apply (H b); [left|done]).
  unfold blk_size, blk_free, blk_next, rd64, rd32 in *.
  rewrite !(rdn_ext m m') by (intros; apply Hb; lia). split_and!; try done.
  apply IH; [|done]. intros c x Hc. apply H. by right.
Qed.

Lemma find_fit_spec fuel m a l n : seg m a l 0 → Forall (λ b, 0 < b_addr b) l →
  (length l < fuel)%nat →
  find_fit fuel m a n = Some (match List.find (fits n) l with Some b => b_addr b | None => 0 end).
Proof.
  revert a l. induction fuel as [|fuel IH]; intros a l Hs Hp Hl; [lia|].
  destruct l as [|b l]; cbn in *; [by subst|]. destruct Hs as (-> & Hs & Hf & Hn).
  apply Forall_cons in Hp as [Hb Hp]. destruct (Z.eqb_spec (b_addr b) 0); [lia|].
  unfold fits. rewrite Hs, Hf. destruct (b_free b && (n <=? b_size b)); [done|].
  apply IH; (done || lia).
Qed.

Lemma find_tail_spec fuel m a l b : seg m a (l ++ [b]) 0 → Forall (λ b, 0 < b_addr b) (l ++ [b]) →
  (length l < fuel)%nat → find_tail fuel m a = Some (b_addr b).
Proof.
  revert a l. induction fuel as [|fuel IH]; intros a l Hs Hp Hl; [lia|].
  destruct l as [|c l]; cbn in *.
  - destruct Hs as (-> & _ & _ & ->). done.
  - destruct Hs as (-> & _ & _ & Hn). apply Forall_cons in Hp as [_ Hp].
    destruct (Z.eqb_spec (blk_next m (b_addr c)) 0) as [E|].
    + destruct l as [|d l]; cbn in Hn; destruct Hn as (Hd & _);
        apply Forall_cons in Hp as [? _]; lia.
    + apply (IH _ l); (done || lia).
Qed.

(** Reading header fields through header writes. *)
Ltac hfield :=
  unfold blk_size, blk_free, blk_next, set_blk_size, set_blk_free, set_blk_next,
    rd64, rd32, wr64, wr32 in *;
  repeat first [ rewrite rdn_wrn_eq | rewrite rdn_wrn_ne by lia ].

Definition take_mem (a n : Z) (m : memory) : memory := set_blk_free a 0 (split_block a n m).

Lemma u64_id z : 0 <= z < 2 ^ 52 → u64 z = z.
Proof. intros. apply u64_small. lia. Qed.

(** Splitting and taking the block at the head of a list. *)
Lemma take_mem_spec m b n l2 :
  seg m (b_addr b) (b :: l2) 0 → 0 <= n <= b_size b → 0 < b_addr b → b_end b <= 2 ^ 52 →
  (∀ c, c ∈ l2 → apart b c ∧ 0 <= b_size c) →
  seg (take_mem (b_addr b) n m) (b_addr b) (split b n ++ l2) 0 ∧
  same_outside (b_addr b) (b_end b) m (take_mem (b_addr b) n m).
Proof.
  intros (_ & Hs & Hf & Hn) Hr Ha He Hc. unfold b_end, sizeof_KBlock in *.
  set (a := b_addr b) in *. set (nx := blk_next m a) in *.
  assert (0 <= nx < 2 ^ 64) as Hnx by apply rd64_range.
  assert (∀ m', same_outside a (a + 32 + b_size b) m m' → seg m' nx l2 0) as Hl2.
  { intros m' Hm. eapply seg_ext; [|done]. intros c x Hcl Hx. apply Hm.
    destruct (Hc c Hcl) as [[H|H] ?]; unfold b_end, sizeof_KBlock in *; fold a in H; lia. }
  unfold take_mem, split_block. rewrite Hs, (u64_id (b_size b - n)) by lia.
  unfold sizeof_KBlock, KMALLOC_ALIGN, split. fold a.
  destruct (Z.leb_spec (b_size b - n) (32 + 16)), (Z.leb_spec (b_size b - n) 48); try lia.
  - assert (same_outside a (a + 32 + b_size b) m (set_blk_free a 0 m)) as Hm.
    { eapply same_outside_weaken; [| |apply (wrn_same_outside m (a + 8) 4 0)]; lia. }
    split; [|done]. cbn. split_and!; [done| | |].
    + rewrite <-Hs. hfield. done.
    + hfield. done.
    + replace (blk_next (set_blk_free a 0 m) a) with nx by (unfold nx; hfield; done). by apply Hl2.
  - rewrite (u64_id (a + 32 + n)) by lia. set (nb := a + 32 + n).
    set (rem := b_size b - n - 32). fold rem.
    set (m' := set_blk_free a 0 _).
    assert (same_outside a (a + 32 + b_size b) m m') as Hm.
    { intros x Hx. unfold m', set_blk_free, set_blk_next, set_blk_size.
      unfold wr64, wr32. by rewrite !rd8_wrn_out by lia. }
    split; [|done]. cbn. fold nb rem.
    assert (blk_next m' a = nb) as ->.
    { unfold m'. hfield. by apply u64_id; lia. }
    split_and!; try done.
    + unfold m'. hfield. by apply u64_id; lia.
    + unfold m'. hfield. done.
    + unfold m'. hfield. by apply u64_id; unfold rem; lia.
    + unfold m'. hfield. done.
    + replace (blk_next m' nb) with nx; [by apply Hl2|].
      unfold m'. hfield. fold nx. symmetry. by apply (u64_small nx).
Qed.

(** ** Geometry *)
Lemma apart_sym b c : apart b c → apart c b.
Proof. unfold apart. lia. Qed.

Lemma fop_app l1 l2 : ForallOrdPairs apart (l1 ++ l2) ↔
  ForallOrdPairs apart l1 ∧ ForallOrdPairs apart l2 ∧ ∀ b c, b ∈ l1 → c ∈ l2 → apart b c.
Proof.
  induction l1 as [|a l1 IH]; cbn.
  - split; [|by intros (_ & ? & _)]. intros H. split_and!; [constructor|done|].
    intros b c Hb. by apply not_elem_of_nil in Hb.
  - split.
    + inversion 1 as [|? ? Ha Hl]; subst. apply IH in Hl as (H1 & H2 & H3).
      rewrite Forall_app in Ha. destruct Ha as [Ha1 Ha2]. split_and!; [by constructor|done|].
      intros b c [->|Hb]%elem_of_cons Hc; [|by apply H3].
      by apply (proj1 (Forall_forall _ _) Ha2).
    + intros (H1 & H2 & H3). inversion H1 as [|? ? Ha Hl]; subst. constructor.
      * apply Forall_app. split; [done|]. apply Forall_forall. intros c Hc. apply H3; [left|done].
      * apply IH. split_and!; try done. intros b c Hb. apply H3. by right.
Qed.

Lemma block_end p b : phys_ok p → block_ok p b → b_end b <= 2 ^ 52.
Proof.
  intros P B. pose proof (bo_size _ _ B).
  assert (own_page p ((b_end b - 1) / PAGE_SIZE * PAGE_SIZE)) as O
    by (apply (bo_own _ _ B); unfold b_end, sizeof_KBlock; lia).
  destruct (own_page_range _ _ P O) as (_ & _ & H'). unfold b_end, sizeof_KBlock, PAGE_SIZE in *.
  pose proof (Z.mod_pos_bound (b_addr b + 32 + b_size b - 1) 4096 ltac:(lia)).
  pose proof (Z.div_mod (b_addr b + 32 + b_size b - 1) 4096 ltac:(lia)). lia.
Qed.

Lemma block_ok_mono p p' b :
  (∀ u, own_page p u → own_page p' u) → block_ok p b → block_ok p' b.
Proof. intros H []. split; auto. Qed.

(** A write inside pages the heap owns. *)
Lemma own_write p m (U : Z → Prop) :
  phys_ok p → (∀ x, U x → own_page p (x / PAGE_SIZE * PAGE_SIZE)) → (∀ x, ¬ U x → rd8 m x = rd8 (mem p) x) →
  phys_ok (set_mem m p) ∧ ∀ u, own_page p u → own_page (set_mem m p) u.
Proof.
  intros P Ho Hm. destruct (phys_ok_set_mem p m P) as [P' U'].
  { intros b Hb. apply Hm. intros Hin. destruct (own_page_no_bitmap p _ b (Ho b Hin)); [|lia..]. unfold PAGE_SIZE. arith. }
  split; [done|]. intros u Hu. apply (own_page_frame p); try done. intros q ??. by rewrite U'.
Qed.

Lemma heap_write p m lo hi :
  phys_ok p → (∀ x, lo <= x < hi → own_page p (x / PAGE_SIZE * PAGE_SIZE)) →
  same_outside lo hi (mem p) m →
  phys_ok (set_mem m p) ∧ ∀ u, own_page p u → own_page (set_mem m p) u.
Proof. intros P Ho Hm. apply (own_write p m (λ x, lo <= x < hi) P Ho). intros x Hx. apply Hm. lia. Qed.

Lemma split_blocks p b n : block_ok p b → 0 <= n <= b_size b → n `mod` 16 = 0 →
  Forall (block_ok p) (split b n) ∧ ForallOrdPairs apart (split b n) ∧
  ∀ c, c ∈ split b n → b_addr b <= b_addr c ∧ b_end c <= b_end b.
Proof.
  intros [Ha Hal Hs Hsl Ho] Hn Hna. unfold split.
  assert (∀ a z f, b_addr b <= a → a + 32 + z <= b_end b → 0 <= z → a `mod` 16 = 0 → z `mod` 16 = 0 →
    block_ok p (Blk a z f)) as Hsub.
  { intros a z f ?????. split; cbn; try (done || lia).
    intros x Hx. apply Ho. unfold b_end, sizeof_KBlock in *. cbn in Hx. lia. }
  unfold apart, b_end, sizeof_KBlock in *.
  destruct (Z.leb_spec (b_size b - n) 48).
  - split_and!.
    + apply Forall_singleton, Hsub; (done || lia).
    + repeat constructor.
    + intros c ->%list_elem_of_singleton. cbn. lia.
  - split_and!.
    + apply Forall_cons. split; [apply Hsub; (done || lia)|].
      apply Forall_singleton, Hsub; (lia || arith).
    + constructor; [|repeat constructor]. apply Forall_singleton. left. cbn. lia.
    + intros c. rewrite !elem_of_cons, elem_of_nil. intros [->|[->|[]]]; cbn; lia.
Qed.

(** ** Taking a block *)
Lemma heap_wf_sizes s l : heap_wf s l → Forall (λ b, 0 < b_addr b) l ∧ ∀ b, b ∈ l → 0 <= b_size b.
Proof.
  intros W. split.
  - eapply Forall_impl; [apply W|]. by intros b [].
  - intros b Hb. by apply (proj1 (Forall_forall _ _) (hw_blocks _ _ W)) in Hb as [].
Qed.

Lemma take_block_spec s l1 b l2 n :
  heap_wf s (l1 ++ b :: l2) → 0 <= n <= b_size b → n `mod` 16 = 0 →
  let s' := set_hmem (take_mem (b_addr b) n (hmem s)) s in
  take_block (b_addr b) n s = Ok (b_addr b + 32) s' ∧
  heap_wf s' (l1 ++ split b n ++ l2) ∧
  same_outside (b_addr b) (b_end b) (hmem s) (hmem s').
Proof.
  intros W Hn Hna s'. destruct (heap_wf_sizes _ _ W) as [_ Hsz].
  destruct W as [P Hseg Hbl Hap]. apply Forall_app in Hbl as [B1 B]. apply Forall_cons in B as [Bb B2].
  apply fop_app in Hap as (A1 & A & A12). inversion A as [|? ? Ab A2]; subst.
  rewrite Forall_forall in Ab.
  pose proof (block_end _ _ P Bb) as He. pose proof (bo_addr _ _ Bb) as Ha.
  apply seg_app in Hseg as (c & S1 & S2). assert (c = b_addr b) as -> by (by destruct S2).
  destruct (take_mem_spec (hmem s) b n l2 S2 Hn Ha He) as [S2' Hout].
  { intros c Hc. split; [by apply Ab|]. apply Hsz. apply elem_of_app. right. by right. }
  destruct (heap_write (hphys s) (take_mem (b_addr b) n (hmem s)) (b_addr b) (b_end b) P (bo_own _ _ Bb) Hout)
    as [P' O'].
  destruct (split_blocks _ b n Bb Hn Hna) as (Sb & Sa & Sr).
  split_and!; [|split|done].
  - unfold take_block, mbind, M_bind, modify, mret, M_ret. f_equal.
    apply u64_small. pose proof (bo_size _ _ Bb). unfold b_end, sizeof_KBlock in *. lia.
  - exact P'.
  - apply seg_app. exists (b_addr b). split; [|done]. eapply seg_ext; [|done].
    intros c x Hc Hx. apply Hout. pose proof (Hsz c ltac:(apply elem_of_app; by left)).
    destruct (A12 c b Hc ltac:(left)); unfold b_end, sizeof_KBlock in *; lia.
  - rewrite !Forall_app. split_and!; eapply Forall_impl; try done; intros ?; by apply block_ok_mono.
  - apply fop_app. split_and!; [done| |].
    + apply fop_app. split_and!; [done|done|]. intros x y Hx Hy.
      destruct (Sr x Hx), (Ab y Hy); unfold apart; lia.
    + intros x y Hx [Hy|Hy]%elem_of_app; [|apply A12; [done|by right]].
      destruct (Sr y Hy), (A12 x b Hx ltac:(left)); unfold apart; lia.
Qed.

(** ** Growing the heap *)
Lemma align_up_spec v k : 0 <= k < 64 → 0 <= v → v + 2 ^ k < 2 ^ 64 →
  align_up v (2 ^ k) = (v + 2 ^ k - 1) / 2 ^ k * 2 ^ k.
Proof.
  intros Hk Hv Hr. assert (0 < 2 ^ k) by lia. unfold align_up.
  rewrite (u64_small (v + 2 ^ k)), (u64_small (v + 2 ^ k - 1)), (u64_small (2 ^ k - 1)) by lia.
  set (x := v + 2 ^ k - 1). assert (0 <= x < 2 ^ 64) by lia.
  rewrite <-Z.shiftr_div_pow2, <-Z.shiftl_mul_pow2, <-Z.ldiff_ones_r by lia.
  replace (2 ^ 64 - 1) with (Z.ones 64) by done.
  replace (2 ^ k - 1) with (Z.ones k) by (rewrite Z.ones_equiv; lia).
  apply Z.bits_inj'. intros i Hi. rewrite Z.land_spec, Z.lxor_spec, Z.ldiff_spec.
  destruct (Z.lt_ge_cases i 64).
  - by rewrite (Z.ones_spec_low 64 i) by lia.
  - by rewrite (testbit_lt x 64 i) by lia.
Qed.

Lemma pages_alloc_own n s a s' :
  phys_ok s → 0 <= n → pmm_alloc_pages n s = (a, s') →
  (a = 0 ∧ s' = s) ∨
  (0 < a ∧ a `mod` PAGE_SIZE = 0 ∧ 0 < n ∧ phys_ok s' ∧
   (∀ u, own_page s u → own_page s' u) ∧
   (∀ x, a <= x < a + n * PAGE_SIZE →
      own_page s' (x / PAGE_SIZE * PAGE_SIZE) ∧ ¬ own_page s (x / PAGE_SIZE * PAGE_SIZE)) ∧
   same_outside (bitmap s) (bitmap s + bitmap_size s) (mem s) (mem s')).
Proof.
  intros P Hn E. destruct (pmm_alloc_pages_cases n s a s' (po_wf _ P) Hn E)
    as [?|(k & Hk & Hkt & -> & Hn0 & Hfree & W' & F & U)]; [by left|right].
  destruct P as [W P0 Pt Pb]. pose proof F as [Fb Fs Ft Fm].
  assert (∀ q, 0 <= q < total_pages s → page_used q s = true → page_used q s' = true) as Hmono.
  { intros q Hq Hu. rewrite U, Hu by done. apply orb_true_r. }
  split_and!; [unfold PAGE_SIZE; lia|by apply Z.mod_mul|done| | | |done].
  - split; [done|apply Hmono; [lia|done]|by rewrite Ft|].
    intros q. rewrite Fb, Fs, Ft. intros. apply Hmono; [done|]. by apply Pb.
  - intros u Hu. eapply own_page_frame; eauto.
  - intros x Hx. set (q := x / PAGE_SIZE).
    assert (k <= q < k + n) as Hq by (unfold q, PAGE_SIZE in *; arith).
    assert (¬ (q * PAGE_SIZE < bitmap s + bitmap_size s ∧ bitmap s < (q + 1) * PAGE_SIZE)) as Hb.
    { intros [? ?]. pose proof (Pb q ltac:(lia) ltac:(done) ltac:(done)) as Hu.
      by rewrite Hfree in Hu by lia. }
    split.
    + exists q. rewrite Fb, Fs, Ft. split_and!; [done|lia|lia| |unfold PAGE_SIZE in *; lia].
      rewrite U by lia. destruct (Z.leb_spec k q), (Z.ltb_spec q (k + n)); (done || lia).
    + intros (j & Ej & _ & Hu & _). assert (j = q) as -> by (unfold PAGE_SIZE in *; lia).
      rewrite Hfree in Hu by lia. done.
Qed.

(** A block in pages the heap did not own is apart from its blocks. *)
Lemma fresh_apart p b c :
  block_ok p b → 0 <= b_size c →
  (∀ x, b_addr c <= x < b_end c → ¬ own_page p (x / PAGE_SIZE * PAGE_SIZE)) → apart b c.
Proof.
  intros B Hc Hn. pose proof (bo_size _ _ B). unfold apart.
  destruct (Z.le_gt_cases (b_end b) (b_addr c)); [by left|].
  destruct (Z.le_gt_cases (b_end c) (b_addr b)); [by right|].
  exfalso. apply (Hn (Z.max (b_addr b) (b_addr c))).
  - unfold b_end, sizeof_KBlock in *. lia.
  - apply (bo_own _ _ B). unfold b_end, sizeof_KBlock in *. lia.
Qed.

(** [total] of [expand_heap]. *)
Definition arena (n : Z) : Z := (n + 32 + 4095) / 4096 * 4096.

(** Payload of a block: what its owner may write. *)
Definition payload_same (m m' : memory) (b : blk) : Prop :=
  ∀ x, b_addr b + 32 <= x < b_end b → rd8 m' x = rd8 m x.

Definition new_header (a n : Z) (m : memory) : memory :=
  set_blk_next a 0 (set_blk_free a 1 (set_blk_size a (arena n - 32) m)).

Lemma new_header_spec a n m : 0 < a → 0 <= n <= 2 ^ 50 →
  seg (new_header a n m) a [Blk a (arena n - 32) true] 0 ∧ same_outside a (a + 24) m (new_header a n m).
Proof.
  intros Ha Hn. assert (32 <= arena n < 2 ^ 52) by (unfold arena; arith). split.
  - unfold new_header. cbn. hfield. split_and!; try done. apply (u64_small (arena n - 32)). lia.
  - intros x Hx. unfold new_header, set_blk_next, set_blk_free, set_blk_size, wr64, wr32.
    by rewrite !rd8_wrn_out by lia.
Qed.

(** Linking a new last block behind [b]. *)
Lemma link_tail_spec m hd l b a c :
  seg m hd (l ++ [b]) 0 → ForallOrdPairs apart (l ++ [b]) → (∀ d, d ∈ l ++ [b] → 0 <= b_size d ∧ apart d c) →
  a = b_addr c → 0 <= b_size c → seg m a [c] 0 → 0 <= a < 2 ^ 64 →
  let m' := set_blk_next (b_addr b) a m in
  seg m' hd (l ++ [b; c]) 0 ∧ ∀ d, d ∈ l ++ [b; c] → payload_same m m' d.
Proof.
  intros S A Hd -> Hc Sc Ha m'.
  assert (same_outside (b_addr b + 16) (b_addr b + 24) m m') as Hout
    by (intros x Hx; unfold m', set_blk_next, wr64; rewrite rd8_wrn_out; [done|lia]).
  apply fop_app in A as (_ & _ & Alb). assert (b ∈ l ++ [b]) as Hb by (apply elem_of_app; right; left).
  destruct (Hd b Hb) as [Hbs Hbc].
  assert (∀ d, d ∈ l ∨ d = c → apart d b ∧ 0 <= b_size d) as Hdb.
  { intros d [Hl| ->]; [|by split; [apply apart_sym|]]. split; [apply Alb; [done|left]|].
    apply Hd, elem_of_app. by left. }
  assert (∀ d x, d ∈ l ∨ d = c → b_addr d <= x < b_end d → rd8 m' x = rd8 m x) as Hsame.
  { intros d x Hdl Hx. apply Hout. destruct (Hdb d Hdl) as [[?|?] ?]; unfold b_end, sizeof_KBlock in *; lia. }
  split.
  - apply seg_app in S as (e & S1 & S2). apply seg_app. exists e. split.
    + eapply seg_ext; [|done]. intros d x Hdl Hx. apply (Hsame d); [by left|].
      destruct (Hdb d (or_introl Hdl)). unfold b_end, sizeof_KBlock. lia.
    + destruct S2 as (-> & Es & Ef & _). refine (conj eq_refl (conj _ (conj _ _))).
      * rewrite <-Es. unfold m'. hfield. done.
      * rewrite <-Ef. unfold m'. hfield. done.
      * change (seg m' (blk_next m' (b_addr b)) [c] 0).
        replace (blk_next m' (b_addr b)) with (b_addr c)
          by (unfold m'; hfield; symmetry; by apply (u64_small (b_addr c))).
        eapply seg_ext; [|exact Sc]. intros d x ->%list_elem_of_singleton Hx.
        apply (Hsame c); [by right|]. unfold b_end, sizeof_KBlock. lia.
  - intros d Hdl x Hx. apply elem_of_app in Hdl as [Hdl|[->|[->|[]%elem_of_nil]%elem_of_cons]%elem_of_cons].
    + apply (Hsame d); [by left|lia].
    + apply Hout. lia.
    + apply (Hsame c); [by right|lia].
Qed.

Lemma arena_range n : 0 <= n <= 2 ^ 50 →
  0 <= arena n / 4096 ∧ 32 <= arena n < 2 ^ 52 ∧ n + 32 <= arena n ∧ arena n / 4096 * 4096 = arena n ∧
  (arena n - 32) `mod` 16 = 0.
Proof.
  intros Hn. split_and!; [apply Z.div_pos; [|lia]|unfold arena..|]; [unfold arena; arith|arith..|]. unfold arena.
  set (q := (n + 32 + 4095) / 4096). replace (q * 4096 - 32) with ((q * 256 - 2) * 16) by lia.
  by apply Z.mod_mul.
Qed.

(** The heap after allocation and header initialisation of a new arena. *)
Lemma new_arena_spec s l p a n :
  heap_wf s l → 0 <= n <= 2 ^ 50 → pmm_alloc_pages (arena n / 4096) (hphys s) = (a, p) → a ≠ 0 →
  let c := Blk a (arena n - 32) true in
  let s1 := set_hmem (new_header a n (mem p)) (set_hphys p s) in
  phys_ok (hphys s1) ∧ seg (hmem s1) (heap_head s) l 0 ∧ seg (hmem s1) a [c] 0 ∧
  Forall (block_ok (hphys s1)) (l ++ [c]) ∧ ForallOrdPairs apart (l ++ [c]) ∧
  ∀ b, b ∈ l → payload_same (hmem s) (hmem s1) b.
Proof.
  intros W Hn E Ha0 c s1. destruct (heap_wf_sizes _ _ W) as [_ Hsz].
  destruct (arena_range n Hn) as (Hq & Har & _ & Hdiv & Hmod).
  destruct (pages_alloc_own _ _ _ _ (hw_phys _ _ W) Hq E)
    as [[-> _]|(Ha & Hal & _ & P' & O' & Ofresh & Hbm)]; [done|].
  assert (∀ x, b_addr c <= x < b_end c → own_page p (x / PAGE_SIZE * PAGE_SIZE) ∧
    ¬ own_page (hphys s) (x / PAGE_SIZE * PAGE_SIZE)) as Oc.
  { intros x Hx. apply Ofresh. unfold b_end, sizeof_KBlock, c, PAGE_SIZE in *. cbn in Hx. lia. }
  assert (Forall (λ b, apart b c) l) as Hap.
  { eapply Forall_impl; [apply (hw_blocks _ _ W)|]. intros b Hb. eapply fresh_apart; [done|cbn; lia|].
    intros x Hx. by apply Oc. }
  rewrite Forall_forall in Hap.
  destruct (new_header_spec a n (mem p) Ha Hn) as [Sc Hout].
  assert (∀ b x, b ∈ l → b_addr b <= x < b_end b → rd8 (hmem s1) x = rd8 (hmem s) x) as Hsame.
  { intros b x Hb Hx. unfold s1, hmem. cbn. rewrite Hout.
    - apply Hbm. eapply own_page_no_bitmap.
      + apply (bo_own _ b); [by apply (proj1 (Forall_forall _ _) (hw_blocks _ _ W))|done].
      + unfold PAGE_SIZE. arith.
    - destruct (Hap b Hb); unfold c, b_end, sizeof_KBlock in *; cbn in *; lia. }
  destruct (heap_write p (new_header a n (mem p)) a (a + 24) P') as [P1 O1]; [|done|].
  { intros x Hx. apply Oc. unfold c, b_end, sizeof_KBlock. cbn. lia. }
  split_and!; [done| |done| | |].
  - eapply seg_ext; [|apply W]. intros b x Hb Hx. apply (Hsame b); [done|].
    pose proof (Hsz b Hb). unfold b_end, sizeof_KBlock. lia.
  - apply Forall_app. split.
    + eapply Forall_impl; [apply W|]. intros b. apply block_ok_mono. intros u Hu. by apply O1, O'.
    + apply Forall_singleton. split; cbn; try lia; [unfold PAGE_SIZE in *; arith|].
      intros x Hx. by apply O1, Oc.
  - apply fop_app. split_and!; [apply W|repeat constructor|]. intros b d Hb ->%list_elem_of_singleton. by apply Hap.
  - intros b Hb x Hx. apply (Hsame b); [done|lia].
Qed.

Lemma set_hmem_hmem m m' s : set_hmem m (set_hmem m' s) = set_hmem m s.
Proof. by destruct s as [[] ? ?]. Qed.

(** The heap once a new last block is linked behind [b]. *)
Lemma tail_heap s1 l b c : phys_ok (hphys s1) → seg (hmem s1) (heap_head s1) (l ++ [b]) 0 → seg (hmem s1) (b_addr c) [c] 0 →
  Forall (block_ok (hphys s1)) (l ++ [b; c]) → ForallOrdPairs apart (l ++ [b; c]) →
  let s2 := set_hmem (set_blk_next (b_addr b) (b_addr c) (hmem s1)) s1 in
  heap_wf s2 (l ++ [b; c]) ∧ ∀ d, d ∈ l ++ [b] → payload_same (hmem s1) (hmem s2) d.
Proof.
  intros P S Sc B A s2. pose proof B as [Bl [Bb [Bc _]%Forall_cons]%Forall_cons]%Forall_app. rewrite Forall_forall in Bl.
  pose proof A as (A0 & A1 & A2)%fop_app. pose proof (bo_size _ _ Bb). pose proof (bo_size _ _ Bc). pose proof (bo_addr _ _ Bc).
  pose proof (block_end _ _ P Bc). unfold b_end, sizeof_KBlock in *.
  destruct (link_tail_spec (hmem s1) (heap_head s1) l b (b_addr c) c) as [S2 Pl]; try done; [..|lia|].
  - apply fop_app. split_and!; [done|repeat constructor|]. intros x y Hx ->%list_elem_of_singleton. apply A2; [done|left].
  - intros d [Hd| ->%list_elem_of_singleton]%elem_of_app.
    + split; [apply (bo_size _ _ (Bl d Hd))|]. apply A2; [done|right; left].
    + split; [done|]. inversion A1 as [|? ? Hc]; subst. by inversion Hc.
  - destruct (heap_write (hphys s1) (set_blk_next (b_addr b) (b_addr c) (hmem s1)) (b_addr b) (b_end b)) as [P2 O2];
      [done|apply Bb|eapply same_outside_weaken; [| |apply wr64_same_outside]; unfold b_end, sizeof_KBlock; lia|].
    split; [split; try done|].
    + eapply Forall_impl; [exact B|]. intros d. by apply block_ok_mono.
    + intros d Hd. apply Pl. apply elem_of_app in Hd as [?| ->%list_elem_of_singleton]; apply elem_of_app; [by left|right; left].
Qed.

Lemma expand_heap_spec fuel s l n :
  heap_wf s l → 0 <= n <= 2 ^ 50 → (length l <= fuel)%nat →
  (expand_heap fuel n s = Ok 0 s ∧ fst (pmm_alloc_pages (arena n / 4096) (hphys s)) = 0) ∨
  ∃ a s', expand_heap fuel n s = Ok a s' ∧ a ≠ 0 ∧ heap_wf s' (l ++ [Blk a (arena n - 32) true]) ∧
    heap_ready s' = heap_ready s ∧ (∀ b, b ∈ l → payload_same (hmem s) (hmem s') b).
Proof.
  intros W Hn Hf. destruct (heap_wf_sizes _ _ W) as [Hpos Hsz].
  destruct (arena_range n Hn) as (Hq & Har & _ & Hdiv & Hmod).
  unfold expand_heap. unfold sizeof_KBlock. rewrite (u64_id (n + 32)) by lia.
  change PAGE_SIZE with (2 ^ 12). rewrite align_up_spec by lia.
  replace ((n + 32 + 2 ^ 12 - 1) / 2 ^ 12 * 2 ^ 12) with (arena n)
    by (unfold arena; change (2 ^ 12) with 4096; do 2 f_equal; lia).
  change (2 ^ 12) with 4096. rewrite (u64_id (arena n - 32)) by lia.
  destruct (pmm_alloc_pages (arena n / 4096) (hphys s)) as [a p] eqn:E.
  rewrite (bind_Ok _ _ s a (set_hphys p s)) by (unfold zoom, lift; cbn; by rewrite E).
  destruct (Z.eqb_spec a 0) as [->|Ha].
  { left. split; [|done]. destruct (pages_alloc_own _ _ _ _ (hw_phys _ _ W) Hq E)
      as [[_ ->]|(? & _)]; [|lia]. cbn. by destruct s. }
  right. destruct (new_arena_spec s l p a n W Hn E Ha) as (P1 & S1 & Sc & B1 & A1 & Pl).
  set (s1 := set_hmem (new_header a n (mem p)) (set_hphys p s)) in *.
  rewrite (bind_Ok _ _ _ tt (set_hmem (set_blk_size a (arena n - 32) (mem p)) (set_hphys p s))) by done.
  rewrite (bind_Ok _ _ _ tt (set_hmem (set_blk_free a 1 (set_blk_size a (arena n - 32) (mem p)))
    (set_hphys p s))) by done.
  rewrite (bind_Ok _ _ _ tt s1), (bind_Ok _ _ _ s1 s1) by done.
  assert (heap_head s1 = heap_head s ∧ heap_ready s1 = heap_ready s) as [Eh Er] by done.
  rewrite Eh. clearbody s1.
  destruct l as [|b l _] using rev_ind.
  - cbn in S1. rewrite S1. cbn [Z.eqb]. exists a, (Heap (hphys s1) a (heap_ready s1)).
    split_and!; try done.
  - assert (heap_head s ≠ 0) as Hh.
    { destruct l as [|d l]; cbn in S1; destruct S1 as (-> & _); apply Forall_cons in Hpos as [? _]; lia. }
    destruct (Z.eqb_spec (heap_head s) 0); [done|].
    rewrite length_app in Hf. cbn in Hf.
    rewrite (find_tail_spec fuel _ _ l b) by (done || lia). cbn [run].
    rewrite <-app_assoc in *. cbn [app] in *. rewrite <-Eh in S1.
    destruct (tail_heap s1 l b (Blk a (arena n - 32) true) P1 S1 Sc B1 A1) as [W2 Pl2].
    exists a, (set_hmem (set_blk_next (b_addr b) a (hmem s1)) s1). rewrite <-app_assoc. split_and!; try done.
    intros d Hd x Hx. rewrite <-(Pl d Hd x Hx). exact (Pl2 d Hd x Hx).
Qed.

(** ** kmalloc *)
Definition rounded (n : Z) : Z := (n + 15) / 16 * 16.

Lemma rounded_range n : 0 < n <= 2 ^ 48 →
  align_up n KMALLOC_ALIGN = rounded n ∧ n <= rounded n <= 2 ^ 50 ∧ rounded n `mod` 16 = 0.
Proof.
  intros Hn. unfold KMALLOC_ALIGN. change 16 with (2 ^ 4) at 1. rewrite align_up_spec by lia.
  change (2 ^ 4) with 16. split_and!.
  - unfold rounded. do 2 f_equal. lia.
  - unfold rounded. arith.
  - unfold rounded. arith.
  - unfold rounded. by apply Z.mod_mul.
Qed.

Lemma split_head b n : ∃ z, split b n = Blk (b_addr b) z false :: tail (split b n) ∧ (n <= b_size b → n <= z).
Proof.
  unfold split. destruct (Z.leb_spec (b_size b - n) 48); eexists; (split; [done|lia]).
Qed.

(** The result of taking [b] out of [l1 ++ b :: l2], as [kmalloc] promises it
    to its callers. *)
Record kmalloc_result (s s' : heap) (l : list blk) (n p : Z) (l' : list blk) (b : blk) : Prop := {
  kr_wf : heap_wf s' l';
  kr_in : b ∈ l';
  kr_used : b_free b = false;
  kr_ptr : p = b_addr b + 32;
  kr_size : n <= b_size b;
  kr_ready : heap_ready s' = heap_ready s;
  kr_live : ∀ c, c ∈ l → b_free c = false → c ∈ l' ∧ apart b c ∧ payload_same (hmem s) (hmem s') c
}.

Lemma take_result s s1 l l1 b l2 n need :
  heap_wf s1 (l1 ++ b :: l2) → b_free b = true → 0 <= n <= b_size b → need <= n → n `mod` 16 = 0 →
  heap_ready s1 = heap_ready s →
  (∀ c, c ∈ l → b_free c = false → c ∈ l1 ++ b :: l2 ∧ payload_same (hmem s) (hmem s1) c) →
  ∃ s' l' b', take_block (b_addr b) n s1 = Ok (b_addr b + 32) s' ∧
    kmalloc_result s s' l need (b_addr b + 32) l' b'.
Proof.
  intros W Hfree Hn Hneed Hna Hr Hl.
  destruct (take_block_spec s1 l1 b l2 n W Hn Hna) as (E & W' & Hout).
  destruct (split_head b n) as (z & Es & Hz).
  exists (set_hmem (take_mem (b_addr b) n (hmem s1)) s1), (l1 ++ split b n ++ l2), (Blk (b_addr b) z false).
  split; [done|]. split; try done.
  - rewrite Es. apply elem_of_app. right. left.
  - cbn. lia.
  - intros c Hc Hcu. destruct (Hl c Hc Hcu) as [Hin Hpay].
    assert (c ∈ l1 ++ l2) as Hin'.
    { rewrite !elem_of_app, !elem_of_cons in *. destruct Hin as [?|[->|?]]; [by left|congruence|by right]. }
    pose proof (hw_apart _ _ W) as Hap. apply fop_app in Hap as (_ & Hb2 & H1b).
    assert (apart b c) as Hbc.
    { apply elem_of_app in Hin' as [?|?]; [apply apart_sym, H1b; [done|left]|].
      inversion Hb2 as [|? ? Hf]; subst. by apply (proj1 (Forall_forall _ _) Hf). }
    split_and!.
    + rewrite !elem_of_app in *. naive_solver.
    + pose proof (hw_apart _ _ W') as Hap. apply fop_app in Hap as (_ & Hb2' & H1b').
      rewrite Es in Hb2', H1b'. apply elem_of_app in Hin' as [?|Hc2].
      * apply apart_sym, H1b'; [done|]. left.
      * inversion Hb2' as [|? ? Hf]; subst. apply (proj1 (Forall_forall _ _) Hf), elem_of_app. by right.
    + intros x Hx. rewrite <-(Hpay x Hx). apply Hout.
      destruct (heap_wf_sizes _ _ W) as [_ Hsz]. pose proof (Hsz c Hin).
      destruct Hbc; unfold b_end, sizeof_KBlock in *; lia.
Qed.

Lemma kmalloc_run fuel s l n :
  heap_wf s l → heap_ready s = true → 0 < n <= 2 ^ 48 → (length l < fuel)%nat →
  (kmalloc fuel n s = Ok 0 s ∧ Forall (λ b, fits (rounded n) b = false) l ∧
   fst (pmm_alloc_pages (arena (rounded n) / 4096) (hphys s)) = 0) ∨
  ∃ p s' l' b, kmalloc fuel n s = Ok p s' ∧ p ≠ 0 ∧ p `mod` 16 = 0 ∧
    kmalloc_result s s' l n p l' b.
Proof.
  intros W Hr Hn Hf. destruct (heap_wf_sizes _ _ W) as [Hpos Hsz].
  destruct (rounded_range n Hn) as (Ea & Hrn & Hrm).
  unfold kmalloc. destruct (Z.eqb_spec n 0); [lia|].
  rewrite (bind_Ok _ _ s true s) by (unfold gets; by rewrite Hr).
  rewrite (bind_Ok _ _ s tt s), Ea, (bind_Ok _ _ s s s) by done.
  rewrite (find_fit_spec fuel (hmem s) (heap_head s) l (rounded n)) by (done || apply W).
  unfold run. rewrite (bind_Ok _ _ s (match List.find (fits (rounded n)) l with Some b => b_addr b | None => 0 end) s) by done.
  destruct (List.find (fits (rounded n)) l) as [b|] eqn:Ef.
  - right. apply find_some in Ef as [Hin%list_elem_of_In [Hfree Hfit%Z.leb_le]%andb_prop].
    pose proof (proj1 (Forall_forall _ _) Hpos b Hin) as Hb. cbn beta in Hb.
    destruct (Z.eqb_spec (b_addr b) 0); [lia|]. cbn [negb].
    apply list_elem_of_split in Hin as (l1 & l2 & ->).
    pose proof (proj1 (Forall_forall _ _) (hw_blocks _ _ W) b ltac:(apply elem_of_app; right; left)) as Bb.
    destruct (take_result s s (l1 ++ b :: l2) l1 b l2 (rounded n) n) as (s' & l' & b' & E & R); try (done || lia).
    exists (b_addr b + 32), s', l', b'. split_and!; [done|lia| |done].
    pose proof (bo_align _ _ Bb). arith.
  - cbn [negb Z.eqb].
    destruct (expand_heap_spec fuel s l (rounded n) W ltac:(lia) ltac:(lia))
      as [[E E0]|(a & s1 & E & Ha & W1 & Hr1 & Hpay)]; rewrite (bind_Ok _ _ _ _ _ E).
    + left. split_and!; [done| |done]. apply Forall_forall. intros b Hb.
      by apply (find_none _ _ Ef), list_elem_of_In.
    + right. destruct (Z.eqb_spec a 0); [done|].
      destruct (arena_range (rounded n) ltac:(lia)) as (_ & _ & Hge & _ & _).
      set (b := Blk a (arena (rounded n) - 32) true).
      pose proof (proj1 (Forall_forall _ _) (hw_blocks _ _ W1) b ltac:(apply elem_of_app; right; left)) as Bb.
      destruct (take_result s s1 l l b [] (rounded n) n) as (s' & l' & b' & E' & R); try (done || (cbn; lia)).
      { intros c Hc _. split; [apply elem_of_app; by left|by apply Hpay]. }
      exists (a + 32), s', l', b'. pose proof (bo_addr _ _ Bb). pose proof (bo_align _ _ Bb).
      split_and!; [done|cbn in *; lia|cbn in *; arith|done].
Qed.


(** ** kfree *)

(** Induction along [merge], which looks at two blocks and consumes one or two. *)
Lemma blk_ind2 (Q : list blk → Prop) :
  Q [] → (∀ b, Q [b]) → (∀ b c l, Q l → Q (c :: l) → Q (b :: c :: l)) → ∀ l, Q l.
Proof.
  intros H0 H1 H2 l. cut (Q l ∧ ∀ b, Q (b :: l)); [tauto|].
  induction l as [|c l [IH1 IH2]]; split; auto.
Qed.

(** Headers of the blocks of [l] are pairwise apart. *)
Definition headers (l : list blk) : Prop :=
  ForallOrdPairs (λ b c, b_addr b + 24 <= b_addr c ∨ b_addr c + 24 <= b_addr b) l.

(** The body of the loop of [coalesce] on two free neighbours. *)
Definition absorb (a : Z) (m : memory) : memory :=
  let m := set_blk_size a (u64 (blk_size m a + u64 (sizeof_KBlock + blk_size m (blk_next m a)))) m in
  set_blk_next a (blk_next m (blk_next m a)) m.

Lemma absorb_spec m b c :
  blk_size m (b_addr b) = b_size b → blk_next m (b_addr b) = b_addr c →
  blk_size m (b_addr c) = b_size c → 0 <= b_size b < 2 ^ 60 → 0 <= b_size c < 2 ^ 60 →
  b_addr b + 24 <= b_addr c ∨ b_addr c + 24 <= b_addr b →
  let m' := absorb (b_addr b) m in
  blk_size m' (b_addr b) = b_size b + 32 + b_size c ∧ blk_free m' (b_addr b) = blk_free m (b_addr b) ∧
  blk_next m' (b_addr b) = blk_next m (b_addr c) ∧ same_outside (b_addr b) (b_addr b + 24) m m'.
Proof.
  intros Es En Es2 Hb Hc Hd. unfold absorb, sizeof_KBlock. rewrite En, Es, Es2.
  rewrite (u64_small (32 + b_size c)), (u64_small (b_size b + (32 + b_size c))) by lia.
  set (z := b_size b + (32 + b_size c)). set (m1 := set_blk_size (b_addr b) z m).
  assert (blk_next m1 (b_addr b) = b_addr c) as -> by (rewrite <-En; unfold m1; hfield; done).
  assert (blk_next m1 (b_addr c) = blk_next m (b_addr c)) as -> by (unfold m1; hfield; done).
  assert (0 <= blk_next m (b_addr c) < 2 ^ 64) as Hn by apply rd64_range.
  set (nx := blk_next m (b_addr c)) in *. cbn zeta. split_and!.
  - transitivity z; [|unfold z; lia]. unfold m1. hfield. apply (u64_small z). lia.
  - unfold m1. hfield. done.
  - hfield. by apply (u64_small nx).
  - intros x Hx. unfold m1, set_blk_next, set_blk_size, wr64. by rewrite !rd8_wrn_out by lia.
Qed.

(** A list whose first header is untouched, followed by a changed rest. *)
Lemma seg_cons_ext m m' b z f nx l :
  (∀ x, b_addr b <= x < b_addr b + 24 → rd8 m' x = rd8 m x) →
  blk_size m (b_addr b) = z → blk_free m (b_addr b) = f → blk_next m (b_addr b) = nx →
  seg m' nx l 0 → seg m' (b_addr b) (Blk (b_addr b) z f :: l) 0.
Proof.
  intros Hx Es Ef En S. assert (seg m (b_addr b) [Blk (b_addr b) z f] nx) as S1 by done.
  apply (seg_ext m m') in S1; [|by intros d x ->%list_elem_of_singleton; apply Hx].
  destruct S1 as (? & ? & ? & En'). refine (conj eq_refl (conj _ (conj _ _))); try done.
  cbn in En'. by rewrite En'.
Qed.

Lemma coalesce_loop_spec l : ∀ fuel m a,
  seg m a l 0 → Forall (λ b, 0 < b_addr b ∧ 0 <= b_size b < 2 ^ 60) l → headers l →
  (length l < fuel)%nat →
  ∃ m', coalesce_loop fuel a m = Some m' ∧ seg m' a (merge l) 0 ∧
    ∀ x, (∀ b, b ∈ l → x < b_addr b ∨ b_addr b + 24 <= x) → rd8 m' x = rd8 m x.
Proof.
  induction l as [|b|b c l IHl IHc] using blk_ind2; intros fuel m a S Pos Hh Hf.
  - destruct fuel; [cbn in Hf; lia|]. cbn in S. subst. by exists m.
  - destruct fuel; [cbn in Hf; lia|]. destruct S as (-> & ? & ? & En). cbn in En.
    exists m. cbn [coalesce_loop]. rewrite En, orb_true_r. by cbn.
  - destruct fuel as [|fuel]; [cbn in Hf; lia|]. cbn [length] in Hf.
    destruct S as (-> & Es & Ef & (En & Es2 & Ef2 & S)). cbn [coalesce_loop]. rewrite En in *.
    apply Forall_cons in Pos as [[Pb Zb] Pos]. pose proof Pos as [[Pc Zc] Pl]%Forall_cons.
    inversion Hh as [|? ? Hb Hh']; subst. inversion Hh' as [|? ? Hc Hl]; subst.
    pose proof Hb as [Hbc Hbl]%Forall_cons. rewrite Forall_forall in Hb, Hbl.
    destruct (Z.eqb_spec (b_addr b) 0); [lia|]. destruct (Z.eqb_spec (b_addr c) 0); [lia|]. cbn [orb].
    rewrite Ef, Ef2. cbn [merge]. destruct (b_free b && b_free c) eqn:Eff.
    + rewrite <-En. fold (absorb (b_addr b) m).
      destruct (absorb_spec m b c) as (Es' & Ef' & En' & Hout); try done.
      set (m2 := absorb (b_addr b) m) in *. clearbody m2. rewrite En'.
      destruct (IHl fuel m2 (blk_next m (b_addr c))) as (m' & E & S' & Hsame); try (done || lia).
      { eapply seg_ext; [|exact S]. intros d x Hd Hx. apply Hout. pose proof (Hbl d Hd). cbn in *. lia. }
      exists m'. split_and!; [done| |].
      * eapply (seg_cons_ext m2); try done; [|by rewrite Ef', Ef; apply andb_prop in Eff as [-> _]].
        intros x Hx. apply Hsame. intros d Hd. pose proof (Hbl d Hd). cbn in *. lia.
      * intros x Hx. rewrite Hsame; [apply Hout, (Hx b); left|]. intros d Hd. apply Hx. right. by right.
    + destruct (IHc fuel m (b_addr c)) as (m' & E & S' & Hsame); try (done || (cbn; lia)).
      exists m'. rewrite En. split_and!; [done| |].
      * replace b with (Blk (b_addr b) (b_size b) (b_free b)) at 2 by (by destruct b).
        eapply (seg_cons_ext m); try done.
        intros x Hx. apply Hsame. intros d Hd. pose proof (Hb d Hd). cbn in *. lia.
      * intros x Hx. apply Hsame. intros d Hd. apply Hx. by right.
Qed.

(** Neighbouring free blocks of the list are neighbours in memory. *)
Fixpoint joined (l : list blk) : Prop :=
  match l with
  | b :: (c :: _) as l1 => (b_free b && b_free c = true → b_end b = b_addr c) ∧ joined l1
  | _ => True
  end.

Lemma merge_ok p l : Forall (block_ok p) l → ForallOrdPairs apart l → joined l →
  Forall (block_ok p) (merge l) ∧ ForallOrdPairs apart (merge l) ∧
  (∀ d, 0 <= b_size d → (∀ b, b ∈ l → apart d b) → ∀ b, b ∈ merge l → apart d b) ∧
  (∀ b, b ∈ l → b_free b = false → b ∈ merge l).
Proof.
  induction l as [|b|b c l IHl IHc] using blk_ind2; intros B A J; [by auto..|].
  apply Forall_cons in B as [Bb B]. pose proof B as [Bc Bl]%Forall_cons.
  inversion A as [|? ? Ab A']; subst. inversion A' as [|? ? Ac Al]; subst.
  pose proof Ab as [Abc Abl]%Forall_cons. rewrite Forall_forall in Ab, Abl, Ac.
  destruct J as [Jbc J]. assert (joined l) as Jl by (destruct l; [done|apply J]).
  cbn [merge]. destruct (b_free b && b_free c) eqn:Ef.
  - specialize (Jbc eq_refl). apply andb_prop in Ef as [Fb Fc].
    destruct (IHl Bl Al Jl) as (M1 & M2 & M3 & M4).
    pose proof (bo_size _ _ Bb). pose proof (bo_size _ _ Bc).
    set (z := Blk (b_addr b) (b_size b + 32 + b_size c) true).
    assert (b_end z = b_end c) as Ez by (unfold z, b_end, sizeof_KBlock in *; cbn; lia).
    assert (∀ d, 0 <= b_size d → apart d b → apart d c → apart d z) as Hz.
    { intros d Hd. unfold apart. rewrite Ez. unfold z, b_end, sizeof_KBlock in *. cbn. lia. }
    split_and!.
    + apply Forall_cons. split; [|done]. destruct Bb as [Hba Hbm Hbs Hbz Hbo]. split; cbn; try (done || lia).
      * pose proof (bo_size_align _ _ Bc). rewrite <-Zplus_mod_idemp_r, <-(Zplus_mod_idemp_l (b_size b + 32)).
        rewrite <-(Zplus_mod_idemp_l (b_size b)), Hbz. change ((0 + 32) `mod` 16) with 0.
        rewrite Zplus_mod_idemp_r. done.
      * intros x Hx. change (b_addr b <= x < b_end z) in Hx. rewrite Ez in Hx.
        destruct (Z.lt_ge_cases x (b_end b)); [apply Hbo; lia|apply (bo_own _ _ Bc); lia].
    + constructor; [|done]. apply Forall_forall. intros d Hd.
      apply (M3 z); [cbn; lia| |done]. intros e He. apply apart_sym, Hz.
      * by apply (proj1 (Forall_forall _ _) Bl) in He as [].
      * by apply apart_sym, Abl.
      * by apply apart_sym, Ac.
    + intros d Hd Hall e [->|He]%elem_of_cons.
      * apply Hz; [done|apply Hall; left|apply Hall; right; left].
      * apply M3; try done. intros e' He'. apply Hall. right. by right.
    + intros e [->|[->|He]%elem_of_cons]%elem_of_cons Hf; [congruence..|]. right. by apply M4.
  - destruct (IHc B A' J) as (M1 & M2 & M3 & M4). split_and!.
    + by apply Forall_cons.
    + constructor; [|done]. apply Forall_forall. intros d Hd. apply M3; [by destruct Bb|done|done].
    + intros d Hd Hall e [->|He]%elem_of_cons; [apply Hall; left|].
      apply M3; try done. intros e' He'. apply Hall. by right.
    + intros e [->|He]%elem_of_cons Hf; [left|]. right. by apply M4.
Qed.

Lemma apart_headers l : ForallOrdPairs apart l → (∀ b, b ∈ l → 0 <= b_size b) → headers l.
Proof.
  induction 1 as [|b l Hb Hl IH]; intros Hs; constructor.
  - rewrite Forall_forall in *. intros c Hc. pose proof (Hs b ltac:(left)). pose proof (Hs c ltac:(by right)).
    destruct (Hb c Hc); unfold b_end, sizeof_KBlock in *; lia.
  - apply IH. intros c Hc. apply Hs. by right.
Qed.

Definition freed (b : blk) : blk := Blk (b_addr b) (b_size b) true.

(** [block->free = 1] on a block of the list. *)
Lemma mark_free_spec s l1 b l2 : heap_wf s (l1 ++ b :: l2) →
  let m := set_blk_free (b_addr b) 1 (hmem s) in
  heap_wf (set_hmem m s) (l1 ++ freed b :: l2) ∧
  same_outside (b_addr b) (b_addr b + 24) (hmem s) m.
Proof.
  intros W m. destruct (heap_wf_sizes _ _ W) as [_ Hsz]. destruct W as [P S B A].
  assert (same_outside (b_addr b + 8) (b_addr b + 12) (hmem s) m) as Hout.
  { intros x Hx. unfold m, set_blk_free, wr32. rewrite rd8_wrn_out; [done|lia]. }
  assert (same_outside (b_addr b) (b_addr b + 24) (hmem s) m) as Hout'
    by (eapply same_outside_weaken; [| |exact Hout]; lia).
  split; [|done].
  pose proof B as [_ [Bb _]%Forall_cons]%Forall_app. pose proof A as (A1 & A2 & A12)%fop_app.
  destruct (heap_write (hphys s) m (b_addr b) (b_addr b + 24) P) as [P' O']; [|done|].
  { intros x Hx. apply (bo_own _ _ Bb). pose proof (bo_size _ _ Bb). unfold b_end, sizeof_KBlock. lia. }
  assert (∀ l, (∀ c, c ∈ l → apart c b ∧ 0 <= b_size c) → ∀ a e, seg (hmem s) a l e → seg m a l e) as Hx.
  { intros l Hl a e. apply seg_ext. intros c x Hc Hx. apply Hout'. pose proof (bo_size _ _ Bb).
    destruct (Hl c Hc) as [[?|?] ?]; unfold b_end, sizeof_KBlock in *; lia. }
  inversion A2 as [|? ? Hb2 A2']; subst. rewrite Forall_forall in Hb2. split.
  - exact P'.
  - apply seg_app in S as (e & S1 & (-> & Es & Ef & S2)). apply seg_app. exists (b_addr b). split.
    + apply Hx; [|done]. intros c Hc. split; [apply A12; [done|left]|apply Hsz, elem_of_app; by left].
    + refine (conj eq_refl (conj _ (conj _ _))).
      * change (blk_size m (b_addr b) = b_size b). rewrite <-Es. unfold m. hfield. done.
      * change (blk_free m (b_addr b) = true). unfold m. hfield. done.
      * change (seg m (blk_next m (b_addr b)) l2 0).
        replace (blk_next m (b_addr b)) with (blk_next (hmem s) (b_addr b)) by (unfold m; hfield; done).
        apply Hx; [|done]. intros c Hc. split; [by apply apart_sym, Hb2|].
        apply Hsz, elem_of_app. right. by right.
  - eapply Forall_impl; [|intros c; by apply block_ok_mono].
    apply Forall_app in B as [? [? ?]%Forall_cons]. apply Forall_app. split; [done|]. apply Forall_cons.
    split; [|done]. by destruct Bb; split.
  - apply fop_app. split_and!; [done|constructor; [by apply Forall_forall|done]|].
    intros x y Hx1 [->|Hy]%elem_of_cons; [|by apply A12; [|right]]. apply (A12 x b); [done|left].
Qed.

Lemma fop_elem l b c : ForallOrdPairs apart l → b ∈ l → c ∈ l → b = c ∨ apart b c.
Proof.
  induction 1 as [|a l Ha Hl IH]; [by intros ?%not_elem_of_nil|].
  rewrite Forall_forall in Ha. intros [->|Hb]%elem_of_cons [->|Hc]%elem_of_cons; auto.
  right. by apply apart_sym, Ha.
Qed.

Lemma own_byte p x : own_page p (x / PAGE_SIZE * PAGE_SIZE) → ¬ bitmap p <= x < bitmap p + bitmap_size p.
Proof. intros O ?. destruct (own_page_no_bitmap p _ x O); [unfold PAGE_SIZE; arith|lia..]. Qed.

Lemma heap_keep p m : phys_ok p →
  (∀ x, bitmap p <= x < bitmap p + bitmap_size p → rd8 m x = rd8 (mem p) x) →
  phys_ok (set_mem m p) ∧ ∀ u, own_page p u → own_page (set_mem m p) u.
Proof.
  intros P Hm. destruct (phys_ok_set_mem p m P Hm) as [P' U']. split; [done|].
  intros u Hu. apply (own_page_frame p); try done. intros q ??. by rewrite U'.
Qed.

Lemma coalesce_eval fuel s :
  coalesce fuel s =
    match coalesce_loop fuel (heap_head s) (hmem s) with
    | Some m => Ok tt (set_hmem m s)
    | None => Panic "list longer than the fuel" s
    end.
Proof. unfold coalesce, mbind, M_bind, gets, run, id. by destruct (coalesce_loop _ _ _). Qed.

Lemma kfree_run fuel s l1 b l2 :
  heap_wf s (l1 ++ b :: l2) → b_free b = false → joined (l1 ++ freed b :: l2) →
  (length (l1 ++ b :: l2) < fuel)%nat →
  ∃ s', kfree fuel (b_addr b + 32) s = Ok tt s' ∧ heap_wf s' (merge (l1 ++ freed b :: l2)) ∧
    heap_ready s' = heap_ready s ∧ ∀ c, c ∈ l1 ++ l2 → b_free c = false →
      c ∈ merge (l1 ++ freed b :: l2) ∧ payload_same (hmem s) (hmem s') c.
Proof.
  intros W Hlive J Hf. pose proof (hw_blocks _ _ W) as [_ [Bb _]%Forall_cons]%Forall_app.
  pose proof (bo_addr _ _ Bb). pose proof (bo_size _ _ Bb). pose proof (block_end _ _ (hw_phys _ _ W) Bb).
  destruct (mark_free_spec s l1 b l2 W) as [W1 Hout]. set (m1 := set_blk_free (b_addr b) 1 (hmem s)) in *.
  destruct (heap_wf_sizes _ _ W1) as [Hpos Hsz].
  set (l := l1 ++ freed b :: l2) in *.
  assert (∀ c, c ∈ l → block_ok (hphys (set_hmem m1 s)) c) as Hbl
    by (apply Forall_forall, W1).
  destruct (coalesce_loop_spec l fuel m1 (heap_head s)) as (m' & E & S' & Hsame).
  - apply W1.
  - apply Forall_forall. intros c Hc. pose proof (Hbl c Hc) as Bc. pose proof (block_end _ _ (hw_phys _ _ W1) Bc).
    destruct Bc. unfold b_end, sizeof_KBlock in *. lia.
  - apply apart_headers; [apply W1|done].
  - unfold l. rewrite length_app in *. cbn in *. lia.
  - exists (set_hmem m' s). split; [|split; [|split; [done|]]].
    + unfold kfree. destruct (Z.eqb_spec (b_addr b + 32) 0); [lia|].
      unfold sizeof_KBlock. replace (b_addr b + 32 - 32) with (b_addr b) by lia.
      rewrite u64_id by (unfold b_end, sizeof_KBlock in *; lia).
      rewrite (bind_Ok _ _ s tt (set_hmem m1 s)) by done. rewrite coalesce_eval.
      change (coalesce_loop fuel (heap_head (set_hmem m1 s)) (hmem (set_hmem m1 s)))
        with (coalesce_loop fuel (heap_head s) m1). by rewrite E.
    + destruct (merge_ok _ l (hw_blocks _ _ W1) (hw_apart _ _ W1) J) as (M1 & M2 & _ & _).
      destruct (heap_keep (hphys (set_hmem m1 s)) m') as [P' O']; [apply W1| |].
      { intros x Hx. apply Hsame. intros c Hc. pose proof (Hbl c Hc) as Bc.
        destruct (decide (b_addr c <= x < b_addr c + 24)) as [Hin|]; [exfalso|lia].
        apply (own_byte _ x) in Hx; [done|apply (bo_own _ _ Bc)].
        pose proof (bo_size _ _ Bc). unfold b_end, sizeof_KBlock. lia. }
      split; [exact P'|exact S'| |done]. eapply Forall_impl; [exact M1|].
      intros c. by apply block_ok_mono.
    + destruct (merge_ok _ l (hw_blocks _ _ W1) (hw_apart _ _ W1) J) as (_ & _ & _ & M4).
      intros c Hc Hcf. assert (c ∈ l) as Hcl by (unfold l; rewrite elem_of_app, elem_of_cons in *; tauto).
      assert (∀ d x, d ∈ l → b_addr c + 32 <= x < b_end c → x < b_addr d ∨ b_addr d + 24 <= x) as Hd.
      { intros d x Hd Hx. pose proof (Hsz d Hd).
        destruct (fop_elem l d c (hw_apart _ _ W1) Hd Hcl) as [->|[?|?]];
          unfold b_end, sizeof_KBlock in *; lia. }
      split; [by apply M4|]. intros x Hx. change (hmem (set_hmem m' s)) with m'.
      rewrite Hsame by (intros; by apply Hd). apply Hout.
      apply (Hd (freed b)); [apply elem_of_app; right; left|done].
Qed.

(** C14. [kfree] of a live block on a heap where free neighbours of the list
    are also neighbours in memory: it returns, the block is free and merged
    with its neighbour as [merge] says, the heap stays well-formed, and every
    other live block stays with its contents. *)
Theorem kfree_spec fuel s l1 b l2 :
  heap_wf s (l1 ++ b :: l2) → b_free b = false → joined (l1 ++ freed b :: l2) →
  (length (l1 ++ b :: l2) < fuel)%nat →
  ∃ s', kfree fuel (b_addr b + 32) s = Ok tt s' ∧ heap_wf s' (merge (l1 ++ freed b :: l2)) ∧
    ∀ c, c ∈ l1 ++ l2 → b_free c = false →
      c ∈ merge (l1 ++ freed b :: l2) ∧ payload_same (hmem s) (hmem s') c.
Proof.
  intros W Hl J Hf. destruct (kfree_run fuel s l1 b l2 W Hl J Hf) as (s' & E & W' & _ & H). by exists s'.
Qed.

(** [kmalloc] takes the first block that fits. *)
Lemma kmalloc_fit fuel s l1 b l2 n : heap_wf s (l1 ++ b :: l2) → heap_ready s = true → 0 < n <= 2 ^ 48 →
  (length (l1 ++ b :: l2) < fuel)%nat → Forall (λ c, fits (rounded n) c = false) l1 → fits (rounded n) b = true →
  ∃ s', kmalloc fuel n s = Ok (b_addr b + 32) s' ∧ heap_wf s' (l1 ++ split b (rounded n) ++ l2) ∧
    heap_ready s' = true ∧ same_outside (b_addr b) (b_end b) (hmem s) (hmem s') ∧ s' = set_hmem (hmem s') s.
Proof.
  intros W Hr Hn Hf H1 Hb. destruct (heap_wf_sizes _ _ W) as [Hpos Hsz].
  destruct (rounded_range n Hn) as (Ea & Hrn & Hrm). unfold kmalloc. destruct (Z.eqb_spec n 0); [lia|].
  rewrite (bind_Ok _ _ s true s) by (unfold gets; by rewrite Hr).
  rewrite (bind_Ok _ _ s tt s), Ea, (bind_Ok _ _ s s s) by done.
  rewrite (find_fit_spec fuel (hmem s) (heap_head s) _ (rounded n)) by (done || apply W). unfold run.
  assert (List.find (fits (rounded n)) (l1 ++ b :: l2) = Some b) as ->.
  { clear -H1 Hb. induction H1 as [|c l1 Hc _ IH]; cbn; [by rewrite Hb|]. rewrite Hc. exact IH. }
  rewrite (bind_Ok _ _ s (b_addr b) s) by done.
  pose proof (proj1 (Forall_forall _ _) Hpos b ltac:(apply elem_of_app; right; left)) as Hb0. cbn beta in Hb0.
  destruct (Z.eqb_spec (b_addr b) 0); [lia|]. cbn [negb]. apply andb_prop in Hb as [_ Hfit%Z.leb_le].
  destruct (take_block_spec s l1 b l2 (rounded n) W ltac:(lia) Hrm) as (E & W' & O).
  eexists. split; [exact E|]. split_and!; [exact W'|done|exact O|done].
Qed.

(** A heap lives on where its blocks keep their pages and bytes. *)
Lemma heap_wf_bytes p p' hd rdy l : heap_wf (Heap p hd rdy) l → phys_ok p' →
  (∀ b x, b ∈ l → b_addr b <= x < b_end b → own_page p (x / PAGE_SIZE * PAGE_SIZE) →
     own_page p' (x / PAGE_SIZE * PAGE_SIZE) ∧ rd8 (mem p') x = rd8 (mem p) x) →
  heap_wf (Heap p' hd rdy) l.
Proof.
  intros [_ Sg B A] P H. assert (∀ b, b ∈ l → block_ok p b) as Bk by (by apply Forall_forall). split; [done| | |done].
  - eapply seg_ext; [|exact Sg]. intros b x Hb Hx. pose proof (Bk b Hb) as Bb. pose proof (bo_size _ _ Bb).
    apply (H b x Hb); [|apply (bo_own _ _ Bb)]; unfold b_end, sizeof_KBlock; lia.
  - apply Forall_forall. intros b Hb. destruct (Bk b Hb) as [B1 B2 B3 B4 B5]. split; try done.
    intros x Hx. apply (H b x Hb Hx). by apply B5.
Qed.

(** Writing to the payload of a block. *)
Lemma payload_write s l b m : heap_wf s l → b ∈ l → same_outside (b_addr b + 32) (b_end b) (hmem s) m →
  heap_wf (set_hmem m s) l.
Proof.
  intros [P Sg B A] Hb O. pose proof (proj1 (Forall_forall _ _) B b Hb) as Bb.
  destruct (heap_write (hphys s) m (b_addr b + 32) (b_end b) P) as [P' O']; [|done|].
  { intros x Hx. apply (bo_own _ _ Bb). lia. }
  split; [done| |eapply Forall_impl; [exact B|]; intros c; by apply block_ok_mono|done].
  eapply seg_ext; [|exact Sg]. intros c x Hc Hx. apply O.
  pose proof (bo_size _ _ (proj1 (Forall_forall _ _) B c Hc)). pose proof (bo_size _ _ Bb).
  destruct (fop_elem l b c A Hb Hc) as [->|[?|?]]; unfold b_end, sizeof_KBlock in *; lia.
Qed.

(** The first call, with its effect on memory. *)
Lemma kmalloc_init_run fuel s : phys_ok (hphys s) → heap_head s = 0 → heap_ready s = false →
  let '(a, p) := pmm_alloc_pages 2 (hphys s) in
  if a =? 0 then kmalloc_init fuel s = Panic "kmalloc: initial heap allocation failed" s
  else let s' := Heap (set_mem (new_header a PAGE_SIZE (mem p)) p) a true in
    kmalloc_init fuel s = Ok tt s' ∧ heap_wf s' [Blk a 8160 true].
Proof.
  intros P Hh Hr. assert (heap_wf s []) as W by (by split; [|rewrite Hh| |constructor]; try done).
  unfold kmalloc_init. rewrite (bind_Ok _ _ s tt s) by done.
  rewrite (bind_Ok _ _ s false s) by (unfold gets; by rewrite Hr). cbn [negb].
  unfold expand_heap. change (align_up (u64 (PAGE_SIZE + sizeof_KBlock)) PAGE_SIZE) with 8192.
  change (8192 / PAGE_SIZE) with 2. change (u64 (8192 - sizeof_KBlock)) with 8160.
  pose proof (pages_alloc_own 2 (hphys s)) as Al.
  destruct (pmm_alloc_pages 2 (hphys s)) as [a p] eqn:E. unfold zoom, lift, mbind, M_bind. cbn. rewrite E.
  destruct (Z.eqb_spec a 0) as [->|Ha].
  - destruct (Al 0 p P ltac:(lia) eq_refl) as [[_ ->]|(? & _)]; [|lia]. cbn. by destruct s.
  - destruct (new_arena_spec s [] p a PAGE_SIZE W ltac:(done) E Ha) as (P1 & _ & Sc & B1 & A1 & _).
    cbn. rewrite Hh. cbn. destruct (Z.eqb_spec a 0); [done|]. split; [reflexivity|]. by split.
Qed.

(** [kmalloc_init] on a fresh machine either creates a heap of one free
    block of 8160 bytes in two pages of its own, or panics because the page
    allocator has no two adjacent pages; a second call changes nothing. *)
Theorem kmalloc_init_spec fuel s :
  phys_ok (hphys s) → heap_head s = 0 →
  (heap_ready s = true → kmalloc_init fuel s = Ok tt s) ∧
  (heap_ready s = false →
    (∃ a s', kmalloc_init fuel s = Ok tt s' ∧ heap_ready s' = true ∧ heap_wf s' [Blk a 8160 true]) ∨
    (kmalloc_init fuel s = Panic "kmalloc: initial heap allocation failed" s ∧
     fst (pmm_alloc_pages 2 (hphys s)) = 0)).
Proof.
  intros P Hh. split; intros Hr.
  { destruct s. cbn in Hr. by subst. }
  pose proof (kmalloc_init_run fuel s P Hh Hr) as R. destruct (pmm_alloc_pages 2 (hphys s)) as [a p].
  destruct (Z.eqb_spec a 0) as [->|]; [by right|]. destruct R as [E W]. left. eexists a, _. by split; [exact E|].
Qed.

(** The rounding of [kmalloc] wraps: a request of more than 2^64 - 16
    bytes is served with an empty block taken from the first free one. *)
Theorem kmalloc_wraps fuel s b l n :
  heap_wf s (b :: l) → heap_ready s = true → b_free b = true → 2 ^ 64 - 16 < n < 2 ^ 64 →
  (length (b :: l) < fuel)%nat →
  ∃ s', kmalloc fuel n s = Ok (b_addr b + 32) s' ∧ heap_wf s' (split b 0 ++ l).
Proof.
  intros W Hr Hb Hn Hf. destruct (heap_wf_sizes _ _ W) as [Hpos Hsz].
  pose proof (Hsz b ltac:(left)). pose proof (proj1 (proj1 (Forall_cons _ _ _) Hpos)) as Hp. cbn in Hp.
  assert (align_up n KMALLOC_ALIGN = 0) as Ea.
  { unfold align_up, KMALLOC_ALIGN. rewrite (u64_small (16 - 1)) by lia.
    replace (u64 (n + 16)) with (n + 16 - 2 ^ 64) by (unfold u64; arith).
    rewrite u64_small by lia. replace (Z.lxor (2 ^ 64 - 1) (16 - 1)) with (Z.shiftl (Z.ones 60) 4) by done.
    apply Z.bits_inj'. intros i Hi. rewrite Z.land_spec, Z.shiftl_spec, Z.bits_0 by lia.
    destruct (Z.lt_ge_cases i 4); [rewrite (Z.testbit_neg_r _ (i - 4)) by lia; apply andb_false_r|].
    by rewrite (testbit_lt (n + 16 - 2 ^ 64 - 1) 4 i) by lia. }
  destruct (take_block_spec s [] b l 0 W ltac:(lia) ltac:(done)) as (E & W' & _).
  eexists. split; [|exact W'].
  unfold kmalloc. destruct (Z.eqb_spec n 0); [lia|].
  rewrite (bind_Ok _ _ s true s) by (unfold gets; by rewrite Hr).
  rewrite (bind_Ok _ _ s tt s), Ea, (bind_Ok _ _ s s s) by done.
  rewrite (find_fit_spec fuel (hmem s) (heap_head s) (b :: l) 0) by (done || apply W).
  cbn [List.find]. unfold fits. rewrite Hb. destruct (Z.leb_spec 0 (b_size b)); [|lia]. cbn [andb run].
  rewrite (bind_Ok _ _ s (b_addr b) s) by done. by destruct (Z.eqb_spec (b_addr b) 0); [lia|].
Qed.

(** [coalesce] merges list neighbours that are not neighbours in memory.
    After a page has been allocated between two arenas, freeing a block of
    each yields one block that runs over the page in between: the last
    [kmalloc] returns memory that contains the page 0x5000, which belongs to
    the other client of the page allocator. *)
Theorem coalesce_swallows_foreign_page :
  ∃ s', (kmalloc_init 8 ;;
         foreign ← zoom hphys_lens (lift pmm_alloc_page);
         p ← kmalloc 8 8160;
         q ← kmalloc 8 100;
         kfree 8 q ;; kfree 8 p ;;
         r ← kmalloc 8 12000;
         mret (foreign, r)) (Heap ex_pmm 0 false) = Ok (0x5000, 0x3020) s' ∧
        page_used 5 (hphys s') = true ∧ 0x3020 <= 0x5000 < 0x3020 + 12000.
Proof. eexists. split; [vm_compute; reflexivity|]. split; [by vm_compute|lia]. Qed.

(** ** Examples *)
Lemma ex_pmm_phys_ok : phys_ok ex_pmm.
Proof.
  split; [apply ex_pmm_wf|by vm_compute|done|]. intros k Hk ??.
  assert (k = 2) as -> by (unfold PAGE_SIZE in *; cbn in *; lia). by vm_compute.
Qed.

Lemma kmalloc_init_spec_witness : ∃ a s',
  kmalloc_init 4 (Heap ex_pmm 0 false) = Ok tt s' ∧ heap_wf s' [Blk a 8160 true].
Proof.
  destruct (kmalloc_init_spec 4 (Heap ex_pmm 0 false) ex_pmm_phys_ok eq_refl) as [_ H].
  destruct (H eq_refl) as [(a & s' & E & _ & W)|[_ F]]; [by exists a, s'|by vm_compute in F].
Defined.

(** One free block of 8160 bytes in pages 3 and 4. *)
Definition ex_heap : heap :=
  Heap (Pmm (new_header 0x3000 4096 {[ 0x2000 := 31 ]}) 0x2000 2 16 11) 0x3000 true.
Definition ex_blk : blk := Blk 0x3000 8160 true.

Lemma ex_heap_wf : heap_wf ex_heap [ex_blk].
Proof.
  split.
  - split; [split; [cbn; lia|done|by vm_compute]|by vm_compute|done|]. intros k Hk ??.
    assert (k = 2) as -> by (unfold PAGE_SIZE in *; cbn in *; lia). by vm_compute.
  - by vm_compute.
  - apply Forall_singleton. split; [done|done|done|done|].
    intros x Hx. unfold b_end, sizeof_KBlock, ex_blk, PAGE_SIZE in *. cbn in Hx.
    assert (x / 4096 = 3 ∨ x / 4096 = 4) as Hq by arith.
    destruct Hq as [-> | ->]; eexists; (split; [done|]); split_and!; try (by vm_compute); right; by vm_compute.
  - repeat constructor.
Qed.


Lemma kmalloc_wraps_witness : ∃ s', kmalloc 2 (2 ^ 64 - 1) ex_heap = Ok 0x3020 s'.
Proof.
  destruct (kmalloc_wraps 2 ex_heap ex_blk [] (2 ^ 64 - 1) ex_heap_wf) as (s' & E & _);
    [done|done|lia|cbn; lia|]. by exists s'.
Defined.

Definition ex_live : heap := set_hmem (take_mem 0x3000 8160 (hmem ex_heap)) ex_heap.

Lemma ex_live_wf : heap_wf ex_live [Blk 0x3000 8160 false].
Proof. apply (take_block_spec ex_heap [] ex_blk [] 8160 ex_heap_wf); [cbn; lia|done]. Qed.

Lemma kfree_spec_witness : ∃ s', kfree 2 0x3020 ex_live = Ok tt s' ∧ heap_wf s' [Blk 0x3000 8160 true].
Proof.
  destruct (kfree_spec 2 ex_live [] (Blk 0x3000 8160 false) [] ex_live_wf) as (s' & E & W & _);
    [done|done|cbn; lia|]. exists s'. split; [exact E|exact W].
Defined.
