(* ===== verification/Keyboard.v ===== *)
(** * PS/2 keyboard (kernel/keyboard.c)

    A ring buffer of 64 characters between the interrupt handler and the
    shell, and the decoder of scancode set 1 (shift keys, 0xE0 prefix).  The
    buffer is shown to implement a FIFO queue of capacity 63.  The handler
    calls into the interrupt statistics and the scheduler; what it relies on
    is the interface [KbdEnv]. *)
From stdpp Require Import base gmap list list_numbers strings.
From S2P Require Import Prelude Monad.

Definition KB_BUF_SIZE : Z := 64.
Definition KB_EVENT_UP : Z := 0x11.
Definition KB_EVENT_DOWN : Z := 0x12.

Record kbd := Kbd {
  kb_buf : list Z;
  kb_head : Z;
  kb_tail : Z;
  shell_task_id : Z;
  left_shift : Z;
  right_shift : Z;
  have_e0 : Z
}.

Definition scancode_map : list Z :=
  [0; 0; 49; 50; 51; 52; 53; 54; 55; 56; 57; 48; 45; 61; 8; 0;
   113; 119; 101; 114; 116; 121; 117; 105; 111; 112; 91; 93; 10; 0; 97; 115;
   100; 102; 103; 104; 106; 107; 108; 59; 39; 96; 0; 92; 122; 120; 99; 118;
   98; 110; 109; 44; 46; 47; 0; 42; 0; 32; 0].

Definition scancode_map_shift : list Z :=
  [0; 0; 33; 64; 35; 36; 37; 94; 38; 42; 40; 41; 95; 43; 8; 0;
   81; 87; 69; 82; 84; 89; 85; 73; 79; 80; 123; 125; 10; 0; 65; 83;
   68; 70; 71; 72; 74; 75; 76; 58; 34; 126; 0; 124; 90; 88; 67; 86;
   66; 78; 77; 60; 62; 63; 0; 42; 0; 32; 0].

(** [map[scancode]]; entries without an initialiser are 0. *)
Definition map_get (map : list Z) (scancode : Z) : Z := nth (Z.to_nat scancode) map 0.

Definition shift_active (k : kbd) : bool :=
  negb (left_shift k =? 0) || negb (right_shift k =? 0).

Definition translate_scancode (scancode : Z) (k : kbd) : Z :=
  if 128 <=? scancode then 0
  else if shift_active k then map_get scancode_map_shift scancode
  else map_get scancode_map scancode.

Definition keyboard_set_shell_task (id : Z) (k : kbd) : kbd :=
  Kbd (kb_buf k) (kb_head k) (kb_tail k) id (left_shift k) (right_shift k) (have_e0 k).

Definition keyboard_get_state (k : kbd) : Z * Z := (left_shift k, right_shift k).

Definition set_e0 (v : Z) (k : kbd) : kbd :=
  Kbd (kb_buf k) (kb_head k) (kb_tail k) (shell_task_id k) (left_shift k) (right_shift k) v.
Definition set_left (v : Z) (k : kbd) : kbd :=
  Kbd (kb_buf k) (kb_head k) (kb_tail k) (shell_task_id k) v (right_shift k) (have_e0 k).
Definition set_right (v : Z) (k : kbd) : kbd :=
  Kbd (kb_buf k) (kb_head k) (kb_tail k) (shell_task_id k) (left_shift k) v (have_e0 k).

(** [kb_buf[kb_head] = c; kb_head = next;] *)
Definition kb_store (c next : Z) (k : kbd) : kbd :=
  Kbd (<[Z.to_nat (kb_head k) := c]> (kb_buf k)) next (kb_tail k)
      (shell_task_id k) (left_shift k) (right_shift k) (have_e0 k).

Definition kb_getchar (k : kbd) : Z * kbd :=
  if kb_head k =? kb_tail k then (0, k)
  else
    let c := nth (Z.to_nat (kb_tail k)) (kb_buf k) 0 in
    (c, Kbd (kb_buf k) (kb_head k) (u8 ((kb_tail k + 1) `mod` KB_BUF_SIZE))
            (shell_task_id k) (left_shift k) (right_shift k) (have_e0 k)).

Definition kb_available (k : kbd) : bool := negb (kb_head k =? kb_tail k).

(** The last lines of [keyboard_init], after the controller is programmed. *)
Definition keyboard_init_state (k : kbd) : kbd := set_e0 0 (set_right 0 (set_left 0 k)).

(** What the handler relies on: the keyboard is a part of the kernel state,
    and waking a task or counting an interrupt returns and leaves that part
    alone. *)
Class KbdEnv (S : Type) := {
  kbd_of : lens S kbd;
  task_wake : Z → M S unit;
  irq_note_keyboard_irq : M S unit;
  kbd_laws : LensLaws kbd_of;
  task_wake_ok : ∀ id s, ∃ s', task_wake id s = Ok tt s' ∧ lget kbd_of s' = lget kbd_of s;
  note_ok : ∀ s, ∃ s', irq_note_keyboard_irq s = Ok tt s' ∧ lget kbd_of s' = lget kbd_of s
}.

Section ops.
Context {S : Type} `{!KbdEnv S}.

Definition on_kbd (f : kbd → kbd) : M S unit := modify (λ s, lset kbd_of (f (lget kbd_of s)) s).

Definition kb_push (c : Z) : M S unit :=
  k ← gets (lget kbd_of);
  let next := u8 ((kb_head k + 1) `mod` KB_BUF_SIZE) in
  if next =? kb_tail k then mret tt else
  on_kbd (kb_store c next) ;;
  if 0 <=? shell_task_id k then task_wake (shell_task_id k) else mret tt.

(** [scancode] is the byte read from port 0x60. *)
Definition keyboard_handler (scancode : Z) : M S unit :=
  irq_note_keyboard_irq ;;
  if scancode =? 0xE0 then on_kbd (set_e0 1) else
  k ← gets (lget kbd_of);
  if negb (have_e0 k =? 0) then
    on_kbd (set_e0 0) ;;
    if scancode =? 0x48 then kb_push KB_EVENT_UP
    else if scancode =? 0x50 then kb_push KB_EVENT_DOWN else mret tt
  else
    let key := Z.land scancode 0x7F in
    let released := negb (Z.land scancode 0x80 =? 0) in
    (if key =? 0x2A then on_kbd (set_left (if released then 0 else 1))
     else if key =? 0x36 then on_kbd (set_right (if released then 0 else 1))
     else mret tt) ;;
    if released then mret tt else
    k ← gets (lget kbd_of);
    let c := translate_scancode key k in
    if negb (c =? 0) then kb_push c else mret tt.
End ops.

(** ** The queue *)
Record kb_wf (k : kbd) : Prop := {
  kw_len : length (kb_buf k) = 64%nat;
  kw_head : 0 <= kb_head k < 64;
  kw_tail : 0 <= kb_tail k < 64
}.

(** Characters waiting, oldest first. *)
Definition queue (k : kbd) : list Z :=
  map (λ i, nth (Z.to_nat ((kb_tail k + i) `mod` 64)) (kb_buf k) 0)
      (seqZ 0 ((kb_head k - kb_tail k) `mod` 64)).

(** Capacity: one slot stays empty to tell a full buffer from an empty one. *)
Definition enqueue (c : Z) (q : list Z) : list Z := if decide (length q < 63)%nat then q ++ [c] else q.

Lemma queue_length k : Z.of_nat (length (queue k)) = (kb_head k - kb_tail k) `mod` 64.
Proof.
  unfold queue. rewrite length_map, length_seqZ. pose proof (Z.mod_pos_bound (kb_head k - kb_tail k) 64). lia.
Qed.

Lemma mod64_inj a b : 0 <= a < 64 → 0 <= b < 64 → (a - b) `mod` 64 = 0 → a = b.
Proof. intros. arith. Qed.

Lemma kb_store_queue k c : kb_wf k → (kb_head k + 1) `mod` 64 ≠ kb_tail k →
  let k' := kb_store c ((kb_head k + 1) `mod` 64) k in
  kb_wf k' ∧ queue k' = queue k ++ [c] ∧ (length (queue k) < 63)%nat.
Proof.
  intros [Hl Hh Ht] Hfull k'. pose proof (queue_length k) as Hq.
  assert (0 <= (kb_head k - kb_tail k) `mod` 64 < 63) as Hd by arith.
  assert ((kb_head k' - kb_tail k') `mod` 64 = (kb_head k - kb_tail k) `mod` 64 + 1) as Hd' by (cbn; arith).
  split_and!; [split; cbn; [by rewrite length_insert|arith|done]| |lia].
  unfold queue. rewrite Hd'. rewrite seqZ_app by lia. rewrite map_app. f_equal.
  - apply map_ext_in. intros i [? ?]%list_elem_of_In%elem_of_seqZ. cbn.
    rewrite !nth_lookup. rewrite list_lookup_insert_ne; [done|]. intros E.
    assert ((kb_tail k + i) `mod` 64 = kb_head k) as E' by (apply Z2Nat.inj in E; [lia|arith..]). arith.
  - rewrite seqZ_cons, seqZ_nil by lia. cbn [map kb_tail kb_buf k' kb_store].
    replace ((kb_tail k + (0 + (kb_head k - kb_tail k) `mod` 64)) `mod` 64) with (kb_head k) by arith.
    rewrite nth_lookup, list_lookup_insert_eq by lia. done.
Qed.

Lemma kb_getchar_queue k : kb_wf k →
  let '(c, k') := kb_getchar k in
  kb_wf k' ∧ match queue k with
             | [] => c = 0 ∧ k' = k
             | x :: q => c = x ∧ queue k' = q
             end.
Proof.
  intros [Hl Hh Ht]. unfold kb_getchar. pose proof (queue_length k) as Hq.
  destruct (Z.eqb_spec (kb_head k) (kb_tail k)) as [E|Hne].
  - split; [done|]. rewrite E, Z.sub_diag in Hq. by destruct (queue k).
  - assert (0 < (kb_head k - kb_tail k) `mod` 64 < 64) as Hd.
    { pose proof (Z.mod_pos_bound (kb_head k - kb_tail k) 64).
      assert ((kb_head k - kb_tail k) `mod` 64 ≠ 0) by (intros E; by apply Hne, mod64_inj). lia. }
    unfold KB_BUF_SIZE. rewrite u8_small by (pose proof (Z.mod_pos_bound (kb_tail k + 1) 64); lia).
    split; [split; cbn; [done|done|by apply Z.mod_pos_bound]|].
    unfold queue. cbn [kb_head kb_tail kb_buf]. set (d := (kb_head k - kb_tail k) `mod` 64) in *.
    replace ((kb_head k - (kb_tail k + 1) `mod` 64) `mod` 64) with (d - 1) by (unfold d; arith).
    rewrite (seqZ_cons 0 d) by lia. cbn [map]. split.
    + rewrite Z.add_0_r, Z.mod_small by lia. done.
    + replace (seqZ (Z.succ 0) (Z.pred d)) with (Z.add 1 <$> seqZ 0 (d - 1))
        by (rewrite fmap_add_seqZ; f_equal; lia).
      rewrite <-(list_fmap_compose (Z.add 1)).
      apply map_ext_in. intros i [? ?]%list_elem_of_In%elem_of_seqZ. cbn.
      f_equal. f_equal. arith.
Qed.

(** ** Decoding *)

(** A scancode as the keyboard means it. *)
Inductive event :=
| Prefix               (* 0xE0: the next code is an extended one *)
| Press (key : Z)
| Release (key : Z).

Definition event_of (scancode : Z) : event :=
  if scancode =? 0xE0 then Prefix
  else if 128 <=? scancode then Release (scancode - 128) else Press scancode.

(** Decoder state: an extended code is expected, left and right shift held. *)
Record decoder := Decoder { expect_ext : bool; lshift : bool; rshift : bool }.

Definition decode1 (d : decoder) (e : event) : decoder * option Z :=
  match e with
  | Prefix => (Decoder true (lshift d) (rshift d), None)
  | Press key =>
      if expect_ext d then
        (Decoder false (lshift d) (rshift d),
         if key =? 0x48 then Some KB_EVENT_UP else if key =? 0x50 then Some KB_EVENT_DOWN else None)
      else
        let d := Decoder false (if key =? 0x2A then true else lshift d)
                               (if key =? 0x36 then true else rshift d) in
        let c := map_get (if lshift d || rshift d then scancode_map_shift else scancode_map) key in
        (d, if c =? 0 then None else Some c)
  | Release key =>
      if expect_ext d then (Decoder false (lshift d) (rshift d), None)
      else (Decoder false (if key =? 0x2A then false else lshift d)
                          (if key =? 0x36 then false else rshift d), None)
  end.

Definition decoder_of (k : kbd) : decoder :=
  Decoder (negb (have_e0 k =? 0)) (negb (left_shift k =? 0)) (negb (right_shift k =? 0)).

(** The queue and decoder after a sequence of scancodes. *)
Fixpoint type_all (scs : list Z) (d : decoder) (q : list Z) : decoder * list Z :=
  match scs with
  | [] => (d, q)
  | sc :: scs' =>
      let '(d', o) := decode1 d (event_of sc) in
      type_all scs' d' (match o with Some c => enqueue c q | None => q end)
  end.

(** The interrupts for a sequence of scancodes. *)
Fixpoint handle_all {S} `{!KbdEnv S} (scs : list Z) : M S unit :=
  match scs with
  | [] => mret tt
  | sc :: scs' => keyboard_handler sc ;; handle_all scs'
  end.

Section decoding.
Context {S : Type} `{!KbdEnv S}.
Local Abbreviation K s := (lget kbd_of s).

Lemma on_kbd_Ok f s : on_kbd f s = Ok tt (lset kbd_of (f (K s)) s).
Proof. done. Qed.

Lemma K_set k (s : S) : K (lset kbd_of k s) = k.
Proof. apply (lget_lset (LensLaws := kbd_laws)). Qed.

(** Pushing changes the queue and nothing else of the keyboard state. *)
Lemma kb_push_spec c s : kb_wf (K s) →
  ∃ s', kb_push c s = Ok tt s' ∧ kb_wf (K s') ∧ queue (K s') = enqueue c (queue (K s)) ∧
    decoder_of (K s') = decoder_of (K s).
Proof.
  intros W. pose proof W as [Hl Hh Ht]. unfold kb_push. rewrite (bind_Ok _ _ s (K s) s) by done.
  unfold KB_BUF_SIZE. rewrite u8_small by (pose proof (Z.mod_pos_bound (kb_head (K s) + 1) 64); lia).
  destruct (Z.eqb_spec ((kb_head (K s) + 1) `mod` 64) (kb_tail (K s))) as [E|Hne].
  - exists s. split_and!; try done. unfold enqueue. pose proof (queue_length (K s)) as Hq.
    rewrite decide_False; [done|].
    assert ((kb_head (K s) - kb_tail (K s)) `mod` 64 = 63) by arith. lia.
  - destruct (kb_store_queue (K s) c W Hne) as (W' & Eq & Hlt).
    rewrite (bind_Ok _ _ _ _ _ (on_kbd_Ok _ _)). set (s1 := lset kbd_of _ s).
    assert (K s1 = kb_store c ((kb_head (K s) + 1) `mod` 64) (K s)) as E1 by apply K_set.
    assert (enqueue c (queue (K s)) = queue (K s) ++ [c]) as -> by (unfold enqueue; by rewrite decide_True).
    assert (∃ s', (if 0 <=? shell_task_id (K s) then task_wake (shell_task_id (K s)) else mret tt) s1
      = Ok tt s' ∧ K s' = K s1) as (s' & E & E').
    { destruct (0 <=? shell_task_id (K s)); [apply task_wake_ok|by exists s1]. }
    exists s'. rewrite E', E1. done.
Qed.

Lemma queue_set_state (k : kbd) e l r : kb_wf k →
  let k' := Kbd (kb_buf k) (kb_head k) (kb_tail k) (shell_task_id k) l r e in
  kb_wf k' ∧ queue k' = queue k.
Proof. by intros []. Qed.

Lemma scancode_bits sc : 0 <= sc < 256 →
  Z.land sc 0x7F = sc `mod` 128 ∧ negb (Z.land sc 0x80 =? 0) = (128 <=? sc).
Proof.
  intros Hs. split.
  - change 0x7F with (Z.ones 7). by rewrite Z.land_ones.
  - change 0x80 with (Z.shiftl 1 7) at 1. rewrite land_bit_0, negb_involutive by lia.
    rewrite Z.testbit_eqb by lia. change (2 ^ 7) with 128.
    destruct (Z.leb_spec 128 sc); [replace (sc / 128) with 1 by arith|replace (sc / 128) with 0 by arith]; done.
Qed.

(** The shift keys. *)
Lemma shift_step key (released : bool) s : kb_wf (K s) →
  ∃ s', (if key =? 0x2A then on_kbd (set_left (if released then 0 else 1))
         else if key =? 0x36 then on_kbd (set_right (if released then 0 else 1))
         else mret tt) s = Ok tt s' ∧ kb_wf (K s') ∧ queue (K s') = queue (K s) ∧
    decoder_of (K s') = Decoder (expect_ext (decoder_of (K s)))
      (if key =? 0x2A then negb released else lshift (decoder_of (K s)))
      (if key =? 0x36 then negb released else rshift (decoder_of (K s))).
Proof.
  intros W. destruct (Z.eqb_spec key 0x2A) as [->|]; [|destruct (Z.eqb_spec key 0x36)].
  3: by exists s.
  all: eexists; split; [apply on_kbd_Ok|]; rewrite K_set; destruct W; by destruct released.
Qed.

(** One interrupt is one step of the decoder and at most one enqueue. *)
Lemma keyboard_handler_spec sc s : kb_wf (K s) → 0 <= sc < 256 →
  ∃ s', keyboard_handler sc s = Ok tt s' ∧ kb_wf (K s') ∧
    (decoder_of (K s'), queue (K s')) = type_all [sc] (decoder_of (K s)) (queue (K s)).
Proof.
  intros W Hsc. destruct (note_ok s) as (s0 & E0 & EK). unfold keyboard_handler.
  rewrite (bind_Ok _ _ _ _ _ E0). rewrite <-EK in *. clear E0 EK s. rename s0 into s.
  destruct (scancode_bits sc Hsc) as [-> ->]. cbn [type_all]. unfold event_of.
  destruct (Z.eqb_spec sc 0xE0) as [->|Hne].
  { exists (lset kbd_of (set_e0 1 (K s)) s). split; [done|]. rewrite K_set.
    destruct (queue_set_state (K s) 1 (left_shift (K s)) (right_shift (K s)) W) as [W' E]. done. }
  rewrite (bind_Ok _ _ s (K s) s) by done.
  destruct (negb (have_e0 (K s) =? 0)) eqn:He.
  - rewrite (bind_Ok _ _ _ _ _ (on_kbd_Ok _ _)). set (s1 := lset kbd_of _ s).
    assert (K s1 = set_e0 0 (K s)) as E1 by apply K_set.
    destruct (queue_set_state (K s) 0 (left_shift (K s)) (right_shift (K s)) W) as [W1 Q1].
    fold (set_e0 0 (K s)) in W1, Q1. rewrite <-E1 in W1, Q1.
    assert (decoder_of (K s1) = Decoder false (lshift (decoder_of (K s))) (rshift (decoder_of (K s)))) as D1
      by (by rewrite E1).
    assert (expect_ext (decoder_of (K s)) = true) as Hx by done.
    destruct (Z.leb_spec 128 sc).
    + destruct (Z.eqb_spec sc 0x48), (Z.eqb_spec sc 0x50); try lia.
      exists s1. split_and!; try done. cbn [decode1]. rewrite Hx. by rewrite D1, Q1.
    + cbn [decode1]. rewrite Hx, <-D1, <-Q1.
      destruct (Z.eqb_spec sc 0x48); [|destruct (Z.eqb_spec sc 0x50)].
      1,2: destruct (kb_push_spec (if sc =? 0x48 then KB_EVENT_UP else KB_EVENT_DOWN) s1 W1)
        as (s' & E' & W' & Q' & D'); subst sc; exists s'; split_and!; [done|done|by rewrite D', Q'].
      by exists s1.
  - destruct (shift_step (sc `mod` 128) (128 <=? sc) s W) as (s1 & E1 & W1 & Q1 & D1).
    rewrite (bind_Ok _ _ _ _ _ E1).
    assert (expect_ext (decoder_of (K s)) = false) as Hx by done. rewrite Hx in D1.
    destruct (Z.leb_spec 128 sc).
    + exists s1. replace (sc - 128) with (sc `mod` 128) by arith. cbn [decode1]. rewrite Hx, <-Q1.
      by rewrite D1.
    + replace (sc `mod` 128) with sc in * by arith. rewrite (bind_Ok _ _ s1 (K s1) s1) by done.
      cbn [decode1 negb] in *. rewrite Hx, <-D1, <-Q1.
      assert (translate_scancode sc (K s1) = map_get (if lshift (decoder_of (K s1)) || rshift (decoder_of (K s1))
        then scancode_map_shift else scancode_map) sc) as ->.
      { unfold translate_scancode. destruct (Z.leb_spec 128 sc); [lia|]. unfold shift_active.
        cbn. by destruct (_ || _). }
      set (c := map_get _ sc). destruct (Z.eqb_spec c 0); cbn [negb]; [by exists s1|].
      destruct (kb_push_spec c s1 W1) as (s' & E' & W' & Q' & D'). exists s'. by rewrite D', Q'.
Qed.

Lemma handle_all_spec scs : ∀ s, kb_wf (K s) → Forall (λ sc, 0 <= sc < 256) scs →
  ∃ s', handle_all scs s = Ok tt s' ∧ kb_wf (K s') ∧
    (decoder_of (K s'), queue (K s')) = type_all scs (decoder_of (K s)) (queue (K s)).
Proof.
  induction scs as [|sc scs IH]; intros s W Hb; [by exists s|].
  apply Forall_cons in Hb as [Hsc Hb]. cbn [handle_all].
  destruct (keyboard_handler_spec sc s W Hsc) as (s1 & E1 & W1 & D1). rewrite (bind_Ok _ _ _ _ _ E1).
  destruct (IH s1 W1 Hb) as (s' & E' & W' & D'). exists s'. split_and!; [done|done|].
  rewrite D'. cbn [type_all] in D1 |- *. destruct (decode1 _ _) as [d o]. by injection D1 as -> ->.
Qed.
End decoding.

(** C25. Typing is decoded correctly: the interrupts for any sequence of
    scancodes leave in the buffer exactly what the scancode-set-1 decoder
    produces for it (shift state, 0xE0-prefixed arrow keys, releases ignored),
    in order, after what was waiting, dropping what does not fit in 63 places;
    the handler returns for every byte. *)
Theorem keyboard_stream {S} `{!KbdEnv S} (scs : list Z) (s : S) :
  kb_wf (lget kbd_of s) → Forall (λ sc, 0 <= sc < 256) scs →
  ∃ s', handle_all scs s = Ok tt s' ∧ kb_wf (lget kbd_of s') ∧
    (decoder_of (lget kbd_of s'), queue (lget kbd_of s')) =
      type_all scs (decoder_of (lget kbd_of s)) (queue (lget kbd_of s)).
Proof. intros. by apply handle_all_spec. Qed.

(** The ring buffer is a FIFO queue of capacity 63: [kb_push] appends
    the character, or drops it when 63 are waiting, and [kb_getchar] returns
    the oldest one, or 0 when none is waiting; both keep head and tail in
    range. *)
Theorem kb_buffer_fifo {S} `{!KbdEnv S} (c : Z) (s : S) :
  kb_wf (lget kbd_of s) →
  (∃ s', kb_push c s = Ok tt s' ∧ kb_wf (lget kbd_of s') ∧
         queue (lget kbd_of s') = enqueue c (queue (lget kbd_of s))) ∧
  (let '(x, k') := kb_getchar (lget kbd_of s) in
   kb_wf k' ∧ x = default 0 (head (queue (lget kbd_of s))) ∧ queue k' = tail (queue (lget kbd_of s))).
Proof.
  intros W. split.
  - destruct (kb_push_spec c s W) as (s' & ? & ? & ? & _). by exists s'.
  - pose proof (kb_getchar_queue _ W) as H. destruct (kb_getchar _) as [x k'].
    destruct H as [W' H]. destruct (queue (lget kbd_of s)) eqn:Q; destruct H as [-> H]; [|done].
    by subst k'.
Qed.

(** ** Examples: the keyboard alone *)
#[export] Instance kbd_alone : KbdEnv kbd.
Proof.
  refine {| kbd_of := Lens id (λ k _, k); task_wake := λ _, mret tt; irq_note_keyboard_irq := mret tt |}.
  - by split.
  - intros id s. by exists s.
  - intros s. by exists s.
Defined.

Definition ex_kbd : kbd := Kbd (replicate 64 0) 60 60 (-1) 0 0 0.

Lemma ex_kbd_wf : kb_wf ex_kbd.
Proof. by split. Qed.

(** Shift down, h, shift up, i, extended up-arrow: "Hi" and an UP event. *)
Lemma keyboard_stream_witness : ∃ k,
  handle_all [0x2A; 0x23; 0xA3; 0xAA; 0x17; 0xE0; 0x48] ex_kbd = Ok tt k ∧ queue k = [72; 105; 0x11].
Proof.
  destruct (keyboard_stream (S := kbd) (KbdEnv0 := kbd_alone) [0x2A; 0x23; 0xA3; 0xAA; 0x17; 0xE0; 0x48] ex_kbd ex_kbd_wf)
    as (k & E & _ & D).
  { repeat (apply List.Forall_cons; [lia|]). apply List.Forall_nil. }
  exists k. split; [exact E|]. by apply (f_equal snd) in D.
Defined.

Lemma kb_buffer_fifo_witness : ∃ k, kb_push 65 ex_kbd = Ok tt k ∧ queue k = [65].
Proof.
  destruct (kb_buffer_fifo (S := kbd) (KbdEnv0 := kbd_alone) 65 ex_kbd ex_kbd_wf) as [(k & E & _ & Q) _]. by exists k.
Defined.
