(* ===== verification/Kernel.v ===== *)
(** * Kernel state

    The state shared by the scheduler, the process table and the system
    calls: physical memory and page tables, the heap, the task table, the
    process table and the trace of console output.  The memory components run
    inside it through lenses. *)
From stdpp Require Import base gmap list list_numbers strings.
From S2P Require Import Prelude Monad Mem Pmm Vmm Kmalloc.

(** ** Console output

    [print], [print_dec], [print_hex], [display_flush] and [display_clear] as
    events, oldest first. *)
Inductive out :=
| Str (s : string)
| Dec (n : Z)
| Hex (n : Z)
| Chr (c : Z)
| Flush
| Clear.

#[export] Instance out_eq_dec : EqDecision out.
Proof. solve_decision. Defined.

(** ** Tasks (scheduler/task.h) *)
Definition MAX_TASKS : Z := 16.
Definition TASK_STACK_SIZE : Z := 16384.
Definition TICKS_PER_SLICE : Z := 5.

Inductive TaskState := TASK_NEW | TASK_RUNNABLE | TASK_RUNNING | TASK_WAITING | TASK_ZOMBIE.

#[export] Instance TaskState_eq_dec : EqDecision TaskState.
Proof. solve_decision. Defined.

Record Task := MkTask {
  tid : Z;
  pid : Z;
  state : TaskState;
  kernel_rsp : Z;
  kernel_stack_top : Z;
  task_cr3 : Z;
  timeslice : Z;
  exit_code : Z;
  is_user : bool;
  trapframe : Z;
  address_space : Z;
  kernel_stack : Z
}.

(** The static variables of task.c. *)
Record sched := Sched {
  tasks : list Task;
  current_tid : Z;
  slice_ticks : Z;
  switch_count : Z
}.

(** ** Processes (process.h) *)
Definition MAX_PROCESSES : Z := 16.

Record Process := MkProcess {
  used : bool;
  p_pid : Z;
  p_address_space : Z;
  main_tid : Z;
  entry_point : Z;
  user_rsp : Z;
  exited : bool;
  p_exit_code : Z;
  reap_pending : bool
}.

Record ptable := Ptable { proc_table : list Process; next_pid : Z }.

(** ** The state *)
Record kernel := Kernel {
  kvmm : vmm;
  k_heap_head : Z;
  k_heap_ready : bool;
  ksched : sched;
  kproc : ptable;
  kout : list out
}.

Definition set_kvmm (v : vmm) (s : kernel) : kernel :=
  Kernel v (k_heap_head s) (k_heap_ready s) (ksched s) (kproc s) (kout s).
Definition set_ksched (t : sched) (s : kernel) : kernel :=
  Kernel (kvmm s) (k_heap_head s) (k_heap_ready s) t (kproc s) (kout s).
Definition set_kproc (t : ptable) (s : kernel) : kernel :=
  Kernel (kvmm s) (k_heap_head s) (k_heap_ready s) (ksched s) t (kout s).
Definition set_kheap (h : heap) (s : kernel) : kernel :=
  Kernel (set_phys (hphys h) (kvmm s)) (heap_head h) (heap_ready h) (ksched s) (kproc s) (kout s).

Definition vmm_lens : lens kernel vmm := Lens kvmm set_kvmm.
Definition heap_lens : lens kernel heap :=
  Lens (λ s, Heap (phys (kvmm s)) (k_heap_head s) (k_heap_ready s)) set_kheap.
Definition pmm_lens : lens kernel pmm :=
  Lens (λ s, phys (kvmm s)) (λ p s, set_kvmm (set_phys p (kvmm s)) s).

#[export] Instance vmm_lens_laws : LensLaws vmm_lens.
Proof. by split; intros; destruct s. Qed.
#[export] Instance heap_lens_laws : LensLaws heap_lens.
Proof.
  split.
  - by intros [] [].
  - by intros [[]].
  - by intros [] [] [].
Qed.
#[export] Instance pmm_lens_laws : LensLaws pmm_lens.
Proof. by split; intros; destruct s as [[]]. Qed.

Definition kmem (s : kernel) : memory := vmem (kvmm s).
Definition set_kmem (m : memory) (s : kernel) : kernel := set_kvmm (set_vmem m (kvmm s)) s.

Definition put (o : out) : M kernel unit := modify (λ s,
  Kernel (kvmm s) (k_heap_head s) (k_heap_ready s) (ksched s) (kproc s) (kout s ++ [o])).
Definition print (s : string) : M kernel unit := put (Str s).
(** The argument is converted to [uint64_t]. *)
Definition print_dec (n : Z) : M kernel unit := put (Dec (u64 n)).
Definition print_hex (n : Z) : M kernel unit := put (Hex (u64 n)).

(** ** Components at work *)
Lemma at_pmm {A} (f : pmm → A * pmm) v s a p : f (phys v) = (a, p) →
  zoom pmm_lens (lift f) (set_kvmm v s) = Ok a (set_kvmm (set_phys p v) s).
Proof. intros E. unfold zoom, lift. cbn. by rewrite E. Qed.
Lemma at_free a v s : zoom pmm_lens (modify (pmm_free_page a)) (set_kvmm v s) =
  Ok tt (set_kvmm (set_phys (pmm_free_page a (phys v)) v) s).
Proof. done. Qed.
Lemma at_vmm {A} (m : M vmm A) v s a v' : m v = Ok a v' → zoom vmm_lens m (set_kvmm v s) = Ok a (set_kvmm v' s).
Proof. intros E. unfold zoom. cbn. by rewrite E. Qed.

(** ** Table access *)
Definition task0 : Task := MkTask 0 0 TASK_NEW 0 0 0 0 0 false 0 0 0.
Definition task_at (s : sched) (i : Z) : Task := nth (Z.to_nat i) (tasks s) task0.

Definition upd_task (i : Z) (f : Task → Task) (s : sched) : sched :=
  Sched (<[Z.to_nat i := f (task_at s i)]> (tasks s)) (current_tid s) (slice_ticks s) (switch_count s).

Definition on_task (i : Z) (f : Task → Task) : M kernel unit :=
  modify (λ s, set_ksched (upd_task i f (ksched s)) s).

Definition proc0 : Process := MkProcess false 0 0 (-1) 0 0 false 0 false.
Definition proc_at (s : ptable) (i : Z) : Process := nth (Z.to_nat i) (proc_table s) proc0.
Definition upd_proc (i : Z) (f : Process → Process) (s : ptable) : ptable :=
  Ptable (<[Z.to_nat i := f (proc_at s i)]> (proc_table s)) (next_pid s).
Definition on_proc (i : Z) (f : Process → Process) : M kernel unit :=
  modify (λ s, set_kproc (upd_proc i f (kproc s)) s).

(** Field updates. *)
Definition set_state (x : TaskState) (t : Task) : Task :=
  MkTask (tid t) (pid t) x (kernel_rsp t) (kernel_stack_top t) (task_cr3 t) (timeslice t)
    (exit_code t) (is_user t) (trapframe t) (address_space t) (kernel_stack t).
Definition set_rsp (r f : Z) (t : Task) : Task :=
  MkTask (tid t) (pid t) (state t) r (kernel_stack_top t) (task_cr3 t) (timeslice t)
    (exit_code t) (is_user t) f (address_space t) (kernel_stack t).
Definition set_timeslice (x : Z) (t : Task) : Task :=
  MkTask (tid t) (pid t) (state t) (kernel_rsp t) (kernel_stack_top t) (task_cr3 t) x
    (exit_code t) (is_user t) (trapframe t) (address_space t) (kernel_stack t).
Definition set_exit_code (x : Z) (t : Task) : Task :=
  MkTask (tid t) (pid t) (state t) (kernel_rsp t) (kernel_stack_top t) (task_cr3 t) (timeslice t)
    x (is_user t) (trapframe t) (address_space t) (kernel_stack t).
Definition set_kernel_stack (x : Z) (t : Task) : Task :=
  MkTask (tid t) (pid t) (state t) (kernel_rsp t) (kernel_stack_top t) (task_cr3 t) (timeslice t)
    (exit_code t) (is_user t) (trapframe t) (address_space t) x.

(** ** Lemmas on the tables *)
Lemma task_at_upd s i j f : (Z.to_nat i < length (tasks s))%nat → 0 <= i → 0 <= j →
  task_at (upd_task i f s) j = if decide (j = i) then f (task_at s i) else task_at s j.
Proof.
  intros Hi ??. unfold task_at at 1. cbn. rewrite nth_lookup. case_decide as E.
  - subst. by rewrite list_lookup_insert_eq.
  - rewrite list_lookup_insert_ne by lia. unfold task_at. by rewrite nth_lookup.
Qed.

Lemma upd_task_length i f s : length (tasks (upd_task i f s)) = length (tasks s).
Proof. cbn. by rewrite length_insert. Qed.

Lemma proc_at_upd s i j f : (Z.to_nat i < length (proc_table s))%nat → 0 <= i → 0 <= j →
  proc_at (upd_proc i f s) j = if decide (j = i) then f (proc_at s i) else proc_at s j.
Proof.
  intros Hi ??. unfold proc_at at 1. cbn. rewrite nth_lookup. case_decide as E.
  - subst. by rewrite list_lookup_insert_eq.
  - rewrite list_lookup_insert_ne by lia. unfold proc_at. by rewrite nth_lookup.
Qed.
