(* ===== verification/Task.v ===== *)
(** * Scheduler (kernel/scheduler/task.c)

    Sixteen tasks, round-robin selection, context switches on timer ticks and
    from system calls.  [process_reap_deferred] of process.c is here because
    [context_switch_from] starts with it.  A task that executes [int $0x20]
    (sleep, yield, exit) ends its operation with [Trap 0x20]: control goes to
    the timer path. *)
From stdpp Require Import base gmap list list_numbers strings.
From S2P Require Import Prelude Monad Mem Pmm Vmm Kmalloc Kernel.

Inductive trap := Trap (vector : Z).

Definition state_name (s : TaskState) : string :=
  match s with
  | TASK_NEW => "NEW"
  | TASK_RUNNABLE => "RUNNABLE"
  | TASK_RUNNING => "RUNNING"
  | TASK_WAITING => "WAITING"
  | TASK_ZOMBIE => "ZOMBIE"
  end.

Definition log_transition (tag : string) (t : Task) (from to : TaskState) : M kernel unit :=
  print "[task " ;; print tag ;; print " tid=" ;; print_dec (tid t) ;;
  print " pid=" ;; print_dec (pid t) ;; print " " ;; print (state_name from) ;;
  print "->" ;; print (state_name to) ;; print " cr3=" ;; print_hex (task_cr3 t) ;; print "]\n".

Definition all_tasks : list Z := seqZ 0 MAX_TASKS.

(** The first index for which the loop body returns. *)
Definition first_task (P : Task → bool) (s : sched) : option Z :=
  List.find (λ i, P (task_at s i)) all_tasks.

Definition is_state (x : TaskState) (t : Task) : bool := bool_decide (state t = x).

Definition pick_next_runnable (s : sched) : Z :=
  let start := if current_tid s <? 0 then 0 else (current_tid s + 1) `mod` MAX_TASKS in
  default (-1) (List.find
    (λ idx, is_state TASK_RUNNABLE (task_at s idx) || is_state TASK_RUNNING (task_at s idx))
    (map (λ i, (start + i) `mod` MAX_TASKS) (seqZ 0 MAX_TASKS))).

(** The current task, as a table index. *)
Definition task_current (s : kernel) : option Z :=
  if current_tid (ksched s) <? 0 then None else Some (current_tid (ksched s)).

Definition task_current_pid (s : kernel) : Z :=
  match task_current s with Some i => pid (task_at (ksched s) i) | None => -1 end.

(** [p->reap_pending = 0; p->main_tid = -1;], with the address space cleared. *)
Definition reaped (p : Process) : Process :=
  MkProcess (used p) (p_pid p) 0 (-1) (entry_point p) (user_rsp p) (exited p) (p_exit_code p) false.

Definition reap_slot (current_as i : Z) : M kernel unit :=
  p ← gets (λ s, proc_at (kproc s) i);
  if negb (used p) || negb (reap_pending p) then mret tt else
  if p_address_space p =? 0 then on_proc i reaped else
  if current_as =? p_address_space p then mret tt else
  zoom vmm_lens (vmm_destroy_address_space (p_address_space p)) ;;
  on_proc i reaped.

Definition process_reap_deferred : M kernel unit :=
  s ← gets id;
  let current_as := match task_current s with
                    | Some i => address_space (task_at (ksched s) i)
                    | None => 0
                    end in
  forZ (Z.to_nat MAX_PROCESSES) 0 (reap_slot current_as).

Definition load_cr3 (v : Z) : M kernel unit :=
  modify (λ s, set_kvmm (Vmm (phys (kvmm s)) (kernel_pml4 (kvmm s)) v (flushed (kvmm s))) s).

Definition task_switch_address_space (i : Z) : M kernel unit :=
  s ← gets id;
  let t := task_at (ksched s) i in
  if is_user t then
    kassert (negb (address_space t =? 0)) "user task has null address space" ;;
    kassert (negb (task_cr3 t =? 0)) "user task has null CR3" ;;
    load_cr3 (task_cr3 t)
  else
    kassert (negb (kernel_pml4 (kvmm s) =? 0)) "kernel address space missing" ;;
    load_cr3 (kernel_pml4 (kvmm s)).

(** The first block of [context_switch_from]: save the interrupted context. *)
Definition save_current (current_rsp : Z) (s : sched) : sched :=
  if current_tid s <? 0 then s else
  upd_task (current_tid s) (λ t,
    let t := set_rsp current_rsp current_rsp t in
    if is_state TASK_RUNNING t then set_state TASK_RUNNABLE t else t) s.

Definition on_sched (f : sched → sched) : M kernel unit := modify (λ s, set_ksched (f (ksched s)) s).

Definition set_current (i : Z) (s : sched) : sched := Sched (tasks s) i (slice_ticks s) (switch_count s).

Definition context_switch_from (current_rsp : Z) : M kernel Z :=
  process_reap_deferred ;;
  on_sched (save_current current_rsp) ;;
  s ← gets ksched;
  let next_tid := pick_next_runnable s in
  if next_tid <? 0 then
    (if current_tid s <? 0 then mret tt
     else on_task (current_tid s) (set_state TASK_RUNNING)) ;;
    mret 0
  else if next_tid =? current_tid s then
    on_task next_tid (set_state TASK_RUNNING) ;; mret 0
  else
    on_sched (set_current next_tid) ;;
    on_task next_tid (λ t, set_timeslice (u32 (timeslice t + 1)) (set_state TASK_RUNNING t)) ;;
    task_switch_address_space next_tid ;;
    on_sched (λ s, Sched (tasks s) (current_tid s) (slice_ticks s) (u64 (switch_count s + 1))) ;;
    gets (λ s, kernel_rsp (task_at (ksched s) next_tid)).

Definition task_init (s : kernel) : kernel :=
  set_ksched (Sched (map (λ i, MkTask i 0 TASK_NEW 0 0 0 0 0 false 0 0 0) all_tasks) (-1) 0 0) s.

(** [struct InterruptFrame]: 22 quadwords. *)
Definition FRAME_SIZE : Z := 176.
Definition FRAME_RIP : Z := 136.
Definition FRAME_CS : Z := 144.
Definition FRAME_RFLAGS : Z := 152.
Definition FRAME_RSP : Z := 160.
Definition FRAME_SS : Z := 168.
Definition FRAME_RAX : Z := 112.
Definition FRAME_RBX : Z := 104.
Definition FRAME_RCX : Z := 96.

(** r15 to rax, vector and error code are the first 17 words. *)
Definition write_frame (f rip rsp cs ss : Z) (m : memory) : memory :=
  let m := fill64 m f 17 0 in
  let m := wr64 m (f + FRAME_RIP) rip in
  let m := wr64 m (f + FRAME_CS) cs in
  let m := wr64 m (f + FRAME_RFLAGS) 0x202 in
  let m := wr64 m (f + FRAME_RSP) rsp in
  wr64 m (f + FRAME_SS) ss.

Section fueled.
(** [fuel] bounds the heap's list loops; [kernel_as] is [&kernel_address_space]. *)
Context (fuel : nat) (kernel_as : Z).

Definition find_free_slot : M kernel Z :=
  s ← gets ksched;
  match first_task (λ t, (is_state TASK_ZOMBIE t || is_state TASK_NEW t) && (kernel_stack t =? 0)) s with
  | Some i => mret i
  | None =>
  match first_task (λ t, (kernel_stack t =? 0) && is_state TASK_NEW t) s with
  | Some i => mret i
  | None =>
  match first_task (is_state TASK_ZOMBIE) s with
  | Some i =>
      (if negb (kernel_stack (task_at s i) =? 0) then
         zoom heap_lens (kfree fuel (kernel_stack (task_at s i))) ;;
         on_task i (set_kernel_stack 0)
       else mret tt) ;;
      mret i
  | None => mret (-1)
  end end end.

Definition setup_initial_frame (i rip rsp cs ss : Z) : M kernel Z :=
  s ← gets ksched;
  let f := u64 (kernel_stack_top (task_at s i) - FRAME_SIZE) in
  modify (λ s, set_kmem (write_frame f rip rsp cs ss (kmem s)) s) ;;
  on_task i (λ t, set_rsp (kernel_rsp t) f t) ;;
  mret f.

(** The fields of a new task, its initial frame and the transition to
    RUNNABLE, once it has a slot and a stack. *)
Definition task_fill (slot stack : Z) (tag : string) (npid : Z) (cr3 : kernel → Z) (user : bool)
    (as_ rip cs ss : Z) (rsp : Task → Z) : M kernel Z :=
  pml4 ← gets cr3;
  on_task slot (λ t, MkTask (tid t) npid (state t) (kernel_rsp t)
    (Z.land (u64 (stack + TASK_STACK_SIZE)) 0xFFFFFFFFFFFFFFF0) pml4 0 0 user
    (trapframe t) as_ stack) ;;
  t ← gets (λ s, task_at (ksched s) slot);
  f ← setup_initial_frame slot rip (rsp t) cs ss;
  on_task slot (λ t, set_rsp f (trapframe t) t) ;;
  from ← gets (λ s, state (task_at (ksched s) slot));
  on_task slot (set_state TASK_RUNNABLE) ;;
  t ← gets (λ s, task_at (ksched s) slot);
  log_transition tag t from (state t) ;;
  mret (tid t).

(** The common part of [task_create_kernel] and [task_create_user]. *)
Definition task_create (tag : string) (npid : Z) (cr3 : kernel → Z) (user : bool) (as_ rip cs ss : Z)
    (rsp : Task → Z) : M kernel Z :=
  slot ← find_free_slot;
  if slot <? 0 then mret (-1) else
  stack ← zoom heap_lens (kmalloc fuel TASK_STACK_SIZE);
  if stack =? 0 then mret (-1) else
  modify (λ s, set_kmem (fill8 (kmem s) stack (Z.to_nat TASK_STACK_SIZE) 0) s) ;;
  task_fill slot stack tag npid cr3 user as_ rip cs ss rsp.

Definition task_create_kernel (entry : Z) : M kernel Z :=
  task_create "create-k" 0 (λ s, kernel_pml4 (kvmm s)) false kernel_as entry 0x08 0x10 kernel_stack_top.

Definition task_create_user (npid as_ entry user_rsp : Z) : M kernel Z :=
  task_create "create-u" npid (λ s, as_pml4 (kvmm s) as_) true as_ entry 0x1B 0x23 (λ _, user_rsp).
End fueled.

Definition task_sleep : M kernel trap :=
  s ← gets id;
  match task_current s with
  | None => panic "task_sleep called without current task"
  | Some i =>
      kassert (negb (is_user (task_at (ksched s) i))) "task_sleep called from user task" ;;
      on_task i (set_state TASK_WAITING) ;;
      mret (Trap 0x20)
  end.

Definition wake (i : Z) (s : sched) : sched :=
  if (i <? 0) || (MAX_TASKS <=? i) then s
  else if is_state TASK_WAITING (task_at s i) then upd_task i (set_state TASK_RUNNABLE) s else s.

Definition task_wake (i : Z) : M kernel unit := on_sched (wake i).

Definition task_yield : M kernel trap := mret (Trap 0x20).

Definition task_exit (code : Z) : M kernel trap :=
  s ← gets id;
  match task_current s with
  | None => panic "task_exit called without current task"
  | Some i =>
      on_task i (set_exit_code code) ;;
      from ← gets (λ s, state (task_at (ksched s) i));
      on_task i (set_state TASK_ZOMBIE) ;;
      t ← gets (λ s, task_at (ksched s) i);
      log_transition "exit" t from (state t) ;;
      mret (Trap 0x20)
  end.

Definition schedule_on_tick (current_rsp : Z) : M kernel Z :=
  s ← gets ksched;
  if (0 <=? current_tid s) && is_state TASK_RUNNING (task_at s (current_tid s)) then
    on_sched (λ s, Sched (tasks s) (current_tid s) (u32 (slice_ticks s + 1)) (switch_count s)) ;;
    s ← gets ksched;
    if slice_ticks s <? TICKS_PER_SLICE then mret 0 else
    on_sched (λ s, Sched (tasks s) (current_tid s) 0 (switch_count s)) ;;
    context_switch_from current_rsp
  else
    on_sched (λ s, Sched (tasks s) (current_tid s) 0 (switch_count s)) ;;
    context_switch_from current_rsp.

Definition task_schedule_from_interrupt (frame : Z) : M kernel Z :=
  kassert (negb (frame =? 0)) "task_schedule_from_interrupt: null frame" ;;
  context_switch_from frame.

(** The result of [task_kill_pid]: it returned, or the caller is the victim
    and never comes back. *)
Inductive kill_result := Killed (r : Z) | Gone (t : trap).

Definition task_kill_pid (p code : Z) : M kernel kill_result :=
  if p <=? 0 then mret (Killed (-1)) else
  s ← gets ksched;
  match first_task (λ t, (pid t =? p) && negb (is_state TASK_NEW t || is_state TASK_ZOMBIE t)) s with
  | None => mret (Killed (-1))
  | Some i =>
      if i =? current_tid s then t ← task_exit code; mret (Gone t)
      else
        on_task i (set_exit_code code) ;;
        from ← gets (λ s, state (task_at (ksched s) i));
        on_task i (set_state TASK_ZOMBIE) ;;
        t ← gets (λ s, task_at (ksched s) i);
        log_transition "kill" t from (state t) ;;
        mret (Killed 0)
  end.

Definition count_state (x : TaskState) (s : sched) : Z :=
  Z.of_nat (length (List.filter (λ i, is_state x (task_at s i)) all_tasks)).

Definition task_self_check (s : sched) : bool :=
  if existsb (λ i, let t := task_at s i in
       is_user t && negb (is_state TASK_NEW t) && ((address_space t =? 0) || (task_cr3 t =? 0)))
     all_tasks then false
  else if 1 <? count_state TASK_RUNNING s then false
  else if 0 <=? current_tid s then
    if MAX_TASKS <=? current_tid s then false
    else is_state TASK_RUNNING (task_at s (current_tid s))
  else true.

Definition task_get_switch_count (s : sched) : Z := switch_count s.

Definition print_task (i : Z) : M kernel unit :=
  t ← gets (λ s, task_at (ksched s) i);
  if is_state TASK_NEW t then mret tt else
  print "sched: tid=" ;; print_dec (tid t) ;; print " pid=" ;; print_dec (pid t) ;;
  print " state=" ;; print (state_name (state t)) ;; print " user=" ;; print_dec (b2i (is_user t)) ;;
  print " slices=" ;; print_dec (timeslice t) ;; print "\n".

Definition task_print_stats : M kernel unit :=
  s ← gets ksched;
  print "sched: current_tid=" ;;
  (if current_tid s <? 0 then print "none" else print_dec (current_tid s)) ;;
  print " switches=" ;; print_dec (switch_count s) ;; print "\n" ;;
  print "sched: NEW=" ;; print_dec (count_state TASK_NEW s) ;;
  print " RUNNABLE=" ;; print_dec (count_state TASK_RUNNABLE s) ;;
  print " RUNNING=" ;; print_dec (count_state TASK_RUNNING s) ;;
  print " WAITING=" ;; print_dec (count_state TASK_WAITING s) ;;
  print " ZOMBIE=" ;; print_dec (count_state TASK_ZOMBIE s) ;; print "\n" ;;
  forZ (Z.to_nat MAX_TASKS) 0 print_task.

(** ** Round robin *)
Definition ready (t : Task) : bool := is_state TASK_RUNNABLE t || is_state TASK_RUNNING t.

(** How many slots after the current one slot [j] comes, from 0 to 15. *)
Definition distance (s : sched) (j : Z) : Z := (j - current_tid s - 1) `mod` 16.

Lemma find_map_first {A B} (f : A → B) (P : B → bool) l :
  List.find P (map f l) = f <$> List.find (λ x, P (f x)) l.
Proof. induction l as [|x l IH]; [done|]. cbn. destruct (P (f x)); [done|apply IH]. Qed.

Lemma find_seqZ_first (P : Z → bool) n :
  match List.find P (seqZ 0 n) with
  | Some i => 0 <= i < n ∧ P i = true ∧ ∀ j, 0 <= j < i → P j = false
  | None => ∀ j, 0 <= j < n → P j = false
  end.
Proof.
  assert (∀ k m, match List.find P (seqZ m (Z.of_nat k)) with
    | Some i => m <= i < m + Z.of_nat k ∧ P i = true ∧ ∀ j, m <= j < i → P j = false
    | None => ∀ j, m <= j < m + Z.of_nat k → P j = false end) as H.
  { induction k as [|k IH]; intros m.
    - rewrite seqZ_nil by lia. intros j ?. lia.
    - rewrite seqZ_cons by lia. cbn [List.find]. destruct (P m) eqn:E.
      + split_and!; [lia|lia|done|]. intros; lia.
      + replace (Z.pred (Z.of_nat (S k))) with (Z.of_nat k) by lia. specialize (IH (Z.succ m)).
        destruct (List.find P _) as [i|].
        * destruct IH as (? & ? & Hj). split_and!; [lia|lia|done|]. intros j ?.
          destruct (decide (j = m)) as [->|]; [done|apply Hj; lia].
        * intros j ?. destruct (decide (j = m)) as [->|]; [done|apply IH; lia]. }
  destruct (Z.le_gt_cases 0 n) as [Hn|Hn].
  - specialize (H (Z.to_nat n) 0). by rewrite Z2Nat.id in H by lia.
  - rewrite seqZ_nil by lia. intros j Hj. lia.
Qed.

(** [pick_next_runnable] takes the nearest ready slot after the current one,
    the current one last. *)
Lemma pick_next_spec s : -1 <= current_tid s < 16 →
  let r := pick_next_runnable s in
  (r = -1 ∧ ∀ j, 0 <= j < 16 → ready (task_at s j) = false) ∨
  (0 <= r < 16 ∧ ready (task_at s r) = true ∧
   ∀ j, 0 <= j < 16 → ready (task_at s j) = true → distance s r <= distance s j).
Proof.
  intros Hc. unfold pick_next_runnable, MAX_TASKS. rewrite find_map_first.
  set (start := if current_tid s <? 0 then 0 else (current_tid s + 1) `mod` 16).
  assert (0 <= start < 16 ∧ (current_tid s + 1) `mod` 16 = start) as [Hs Hse].
  { unfold start. destruct (Z.ltb_spec (current_tid s) 0); [|arith].
    by replace (current_tid s) with (-1) by lia. }
  assert (∀ j, 0 <= j < 16 → 0 <= distance s j < 16 ∧ (start + distance s j) `mod` 16 = j) as Hd.
  { intros j Hj. unfold distance. rewrite <-Hse. clear -Hj. arith. }
  assert (∀ i, 0 <= i < 16 → distance s ((start + i) `mod` 16) = i) as Hd'.
  { intros i Hi. unfold distance. rewrite <-Hse. clear -Hi. arith. }
  change (λ idx : Z, is_state TASK_RUNNABLE (task_at s idx) || is_state TASK_RUNNING (task_at s idx))
    with (λ idx : Z, ready (task_at s idx)).
  pose proof (find_seqZ_first (λ i, ready (task_at s ((start + i) `mod` 16))) 16) as F.
  cbn beta. destruct (List.find _ (seqZ 0 16)) as [i|]; cbn.
  - right. destruct F as (Hi & Hr & Hmin). split_and!; [arith|arith|done|].
    intros j Hj Hrj. rewrite Hd' by done. destruct (Hd j Hj) as [Hdj Ej].
    destruct (Z.le_gt_cases i (distance s j)); [done|].
    by rewrite <-Ej, Hmin in Hrj by lia.
  - left. split; [done|]. intros j Hj. destruct (Hd j Hj) as [Hdj Ej]. rewrite <-Ej. by apply F.
Qed.

(** ** Context switch *)

(** Table invariant. *)
Record sched_wf (s : sched) : Prop := {
  sw_len : length (tasks s) = 16%nat;
  sw_cur : -1 <= current_tid s < 16;
  sw_tid : ∀ i, 0 <= i < 16 → tid (task_at s i) = i;
  sw_running : ∀ i, 0 <= i < 16 → state (task_at s i) = TASK_RUNNING → i = current_tid s;
  sw_user : ∀ i, 0 <= i < 16 → is_user (task_at s i) = true → state (task_at s i) ≠ TASK_NEW →
    address_space (task_at s i) ≠ 0 ∧ task_cr3 (task_at s i) ≠ 0;
  sw_live : 0 <= current_tid s → state (task_at s (current_tid s)) ≠ TASK_NEW
}.

(** The registers the VMM shares with the rest of the kernel. *)
Definition same_roots (v v' : vmm) : Prop := kernel_pml4 v' = kernel_pml4 v ∧ cr3 v' = cr3 v.

(** Destroying an address space returns for every argument. *)
Lemma destroy_pd_entry_total pd i s : ∃ s', destroy_pd_entry pd i s = Ok tt s' ∧ same_roots s s'.
Proof.
  unfold destroy_pd_entry, gets, mbind, M_bind, free_page, modify, mret, M_ret.
  destruct (present _); by eexists.
Qed.

Lemma loop_total (f : Z → M vmm unit) n i s :
  (∀ j t, ∃ t', f j t = Ok tt t' ∧ same_roots t t') →
  ∃ s', forZ n i f s = Ok tt s' ∧ same_roots s s'.
Proof.
  intros Hf. apply (forZ_inv (λ _ t, same_roots s t)); [done|].
  intros j t _ [E1 E2]. destruct (Hf j t) as (t' & E & E1' & E2'). exists t'. split; [done|].
  split; congruence.
Qed.

Lemma destroy_pdpt_entry_total p i s : ∃ s', destroy_pdpt_entry p i s = Ok tt s' ∧ same_roots s s'.
Proof.
  unfold destroy_pdpt_entry, gets, mbind, M_bind. destruct (present _); [|by eexists].
  destruct (loop_total (destroy_pd_entry (Z.land (entry (vmem s) p i) NOT_FFF)) 512 0 s) as (s1 & E & ?);
    [apply destroy_pd_entry_total|]. rewrite E. by eexists.
Qed.

Lemma destroy_pml4_entry_total p i s : ∃ s', destroy_pml4_entry p i s = Ok tt s' ∧ same_roots s s'.
Proof.
  unfold destroy_pml4_entry, gets, mbind, M_bind. destruct (present _); [|by eexists].
  destruct (loop_total (destroy_pdpt_entry (Z.land (entry (vmem s) (as_pml4 s p) i) NOT_FFF)) 512 0 s)
    as (s1 & E & ?); [apply destroy_pdpt_entry_total|]. rewrite E. by eexists.
Qed.

Lemma vmm_destroy_total a s : ∃ s', vmm_destroy_address_space a s = Ok tt s' ∧ same_roots s s'.
Proof.
  unfold vmm_destroy_address_space.
  destruct (loop_total (destroy_pml4_entry a) 510 1 s) as (s1 & E & ?); [apply destroy_pml4_entry_total|].
  rewrite (bind_Ok _ _ _ _ _ E). by eexists.
Qed.

(** What the reaper leaves alone. *)
Definition reap_frame (s s' : kernel) : Prop :=
  ksched s' = ksched s ∧ same_roots (kvmm s) (kvmm s') ∧ k_heap_head s' = k_heap_head s ∧
  k_heap_ready s' = k_heap_ready s ∧ kout s' = kout s.

Lemma reap_slot_total a i s : ∃ s', reap_slot a i s = Ok tt s' ∧ reap_frame s s'.
Proof.
  unfold reap_slot, gets. unfold mbind at 1, M_bind at 1.
  destruct (negb _ || negb _); [by exists s|].
  destruct (p_address_space (proc_at (kproc s) i) =? 0); [by eexists|].
  destruct (a =? _); [by exists s|].
  destruct (vmm_destroy_total (p_address_space (proc_at (kproc s) i)) (kvmm s)) as (v & E & Hv).
  rewrite (bind_Ok _ _ _ tt (set_kvmm v s)) by (by apply (zoom_Ok vmm_lens)).
  eexists. split; [done|]. by split_and!.
Qed.

Lemma reap_total s : ∃ s', process_reap_deferred s = Ok tt s' ∧ reap_frame s s'.
Proof.
  unfold process_reap_deferred, gets. unfold mbind, M_bind.
  apply (forZ_inv (λ _ t, reap_frame s t)); [by split_and!|].
  intros j t _ (E1 & [E2 E2'] & E3 & E4 & E5).
  destruct (reap_slot_total (match task_current (id s) with
    | Some i => address_space (task_at (ksched (id s)) i) | None => 0 end) j t)
    as (t' & E & F1 & [F2 F2'] & F3 & F4 & F5).
  exists t'. split; [done|]. unfold reap_frame, same_roots. split_and!; congruence.
Qed.

(** The effect of a context switch on the task table. *)
Definition switch_sched (rsp : Z) (s : sched) : sched :=
  let s1 := save_current rsp s in
  let next := pick_next_runnable s1 in
  if next <? 0 then
    if current_tid s <? 0 then s1 else upd_task (current_tid s) (set_state TASK_RUNNING) s1
  else if next =? current_tid s then upd_task next (set_state TASK_RUNNING) s1
  else
    let s2 := upd_task next (λ t, set_timeslice (u32 (timeslice t + 1)) (set_state TASK_RUNNING t)) s1 in
    Sched (tasks s2) next (slice_ticks s2) (u64 (switch_count s2 + 1)).

Lemma save_current_cur rsp s : current_tid (save_current rsp s) = current_tid s.
Proof. unfold save_current. by destruct (current_tid s <? 0). Qed.

Lemma save_current_at rsp s i : sched_wf s → 0 <= i < 16 →
  task_at (save_current rsp s) i =
    if decide (i = current_tid s) then
      set_rsp rsp rsp (if is_state TASK_RUNNING (task_at s i) then set_state TASK_RUNNABLE (task_at s i)
                       else task_at s i)
    else task_at s i.
Proof.
  intros W Hi. pose proof (sw_len _ W). pose proof (sw_cur _ W). unfold save_current.
  destruct (Z.ltb_spec (current_tid s) 0); [by rewrite decide_False by lia|].
  rewrite task_at_upd by lia. case_decide; subst; [|done].
  unfold is_state. cbn. by destruct (bool_decide _).
Qed.

(** What a running kernel provides for a switch. *)
Definition switch_ok (s : kernel) : Prop := sched_wf (ksched s) ∧ kernel_pml4 (kvmm s) ≠ 0.

(** Address space to load for task [i]. *)
Definition root_of (s : kernel) (i : Z) : Z :=
  let t := task_at (ksched s) i in if is_user t then task_cr3 t else kernel_pml4 (kvmm s).

Lemma switch_address_space_run s i :
  (is_user (task_at (ksched s) i) = true →
     address_space (task_at (ksched s) i) ≠ 0 ∧ task_cr3 (task_at (ksched s) i) ≠ 0) →
  kernel_pml4 (kvmm s) ≠ 0 →
  task_switch_address_space i s = load_cr3 (root_of s i) s.
Proof.
  intros Hu Hk. unfold task_switch_address_space, root_of, gets, mbind, M_bind, kassert, id.
  destruct (is_user (task_at (ksched s) i)).
  - destruct Hu as [Ha Hc]; [done|]. by destruct (Z.eqb_spec (address_space (task_at (ksched s) i)) 0),
      (Z.eqb_spec (task_cr3 (task_at (ksched s) i)) 0).
  - by destruct (Z.eqb_spec (kernel_pml4 (kvmm s)) 0).
Qed.

Lemma ready_not_new t : ready t = true → state t ≠ TASK_NEW.
Proof. unfold ready, is_state. intros H E. by rewrite E in H. Qed.

Lemma ready_save t rsp : ready (set_rsp rsp rsp (if is_state TASK_RUNNING t then set_state TASK_RUNNABLE t else t)) = ready t.
Proof. destruct t as [? ? []]; done. Qed.

Lemma context_switch_run s rsp : switch_ok s →
  let next := pick_next_runnable (save_current rsp (ksched s)) in
  let cur := current_tid (ksched s) in
  ∃ r s', context_switch_from rsp s = Ok r s' ∧
    ksched s' = switch_sched rsp (ksched s) ∧ kernel_pml4 (kvmm s') = kernel_pml4 (kvmm s) ∧
    (next < 0 ∨ next = cur → r = 0 ∧ cr3 (kvmm s') = cr3 (kvmm s)) ∧
    (0 <= next → next ≠ cur → r = kernel_rsp (task_at (ksched s) next) ∧
       cr3 (kvmm s') = root_of s next).
Proof.
  intros [W Hk] next cur. pose proof (sw_len _ W) as Hlen. pose proof (sw_cur _ W) as Hcur.
  destruct (reap_total s) as (s0 & E0 & Esch & [Ek Ec] & _).
  unfold context_switch_from. rewrite (bind_Ok _ _ _ _ _ E0).
  set (s1 := set_ksched (save_current rsp (ksched s)) s0).
  rewrite (bind_Ok _ _ s0 tt s1) by (unfold on_sched, modify; by rewrite Esch).
  rewrite (bind_Ok _ _ s1 (save_current rsp (ksched s)) s1) by done.
  fold next. rewrite save_current_cur. fold cur. unfold switch_sched. fold next cur.
  assert (length (tasks (save_current rsp (ksched s))) = 16%nat) as Hlen1.
  { unfold save_current. destruct (current_tid (ksched s) <? 0); [done|by rewrite upd_task_length]. }
  destruct (Z.ltb_spec next 0).
  { destruct (Z.ltb_spec cur 0); (eexists 0, _; split; [done|]);
      (split_and!; [done|exact Ek|intros _; by split|lia]). }
  destruct (Z.eqb_spec next cur).
  { eexists 0, _; split; [done|]. split_and!; [done|exact Ek|intros _; by split|done]. }
  destruct (pick_next_spec (save_current rsp (ksched s))) as [[En _]|(Hn & Hr & _)];
    [by rewrite save_current_cur|change (next = -1) in En; lia|].
  change (0 <= next < 16) in Hn. change (ready (task_at (save_current rsp (ksched s)) next) = true) in Hr.
  rewrite save_current_at in Hr by done. rewrite decide_False in Hr by done.
  set (f := λ t, set_timeslice (u32 (timeslice t + 1)) (set_state TASK_RUNNING t)).
  set (s2 := set_ksched (upd_task next f (set_current next (ksched s1))) s1).
  rewrite (bind_Ok _ _ s1 tt (set_ksched (set_current next (ksched s1)) s1)) by done.
  rewrite (bind_Ok _ _ _ tt s2) by done.
  assert (task_at (ksched s2) next = f (task_at (ksched s) next)) as Et.
  { unfold s2. cbn [ksched set_ksched]. rewrite task_at_upd by (cbn; lia).
    rewrite decide_True by done. f_equal. change (task_at (save_current rsp (ksched s)) next = task_at (ksched s) next).
    rewrite save_current_at by done. by rewrite decide_False. }
  assert (root_of s2 next = root_of s next) as Eroot.
  { unfold root_of. rewrite Et. cbn. by rewrite <-Ek. }
  rewrite (bind_Ok _ _ s2 tt (set_kvmm (Vmm (phys (kvmm s2)) (kernel_pml4 (kvmm s2)) (root_of s next) (flushed (kvmm s2))) s2)).
  2:{ rewrite switch_address_space_run, Eroot; [done| |by change (kernel_pml4 (kvmm s0) ≠ 0); rewrite Ek].
      rewrite Et. cbn. intros Hu. apply (sw_user _ W); [done|done|by apply ready_not_new]. }
  eexists (kernel_rsp (task_at (ksched s) next)), _. split.
  { unfold mbind, M_bind, on_sched, modify, gets. f_equal. 
    change (kernel_rsp (task_at (ksched s2) next) = kernel_rsp (task_at (ksched s) next)). by rewrite Et. }
  split_and!; [done|done|lia|done].
Qed.

(** Everything of a task but its state, saved context and slice count. *)
Definition same_identity (t t' : Task) : Prop :=
  tid t' = tid t ∧ pid t' = pid t ∧ task_cr3 t' = task_cr3 t ∧ is_user t' = is_user t ∧
  address_space t' = address_space t ∧ kernel_stack t' = kernel_stack t ∧
  kernel_stack_top t' = kernel_stack_top t ∧ exit_code t' = exit_code t.

(** A table in which only states, contexts and the current index changed. *)
Lemma sched_wf_states s s' : sched_wf s →
  length (tasks s') = 16%nat → -1 <= current_tid s' < 16 →
  (∀ i, 0 <= i < 16 → same_identity (task_at s i) (task_at s' i)) →
  (∀ i, 0 <= i < 16 → state (task_at s' i) = TASK_RUNNING → i = current_tid s') →
  (∀ i, 0 <= i < 16 → state (task_at s i) = TASK_NEW → state (task_at s' i) = TASK_NEW) →
  (0 <= current_tid s' → state (task_at s' (current_tid s')) ≠ TASK_NEW) →
  sched_wf s'.
Proof.
  intros W Hl Hc Hid Hr Hn Hlive. split; try done.
  - intros i Hi. destruct (Hid i Hi) as (-> & _). by apply W.
  - intros i Hi. destruct (Hid i Hi) as (_ & _ & -> & -> & -> & _). intros Hu Hs.
    apply (sw_user _ W); [done|done|]. intros E. by apply Hs, Hn.
Qed.

Lemma switch_sched_at rsp s i : sched_wf s → 0 <= i < 16 →
  let next := pick_next_runnable (save_current rsp s) in
  let to := if next <? 0 then current_tid s else next in
  task_at (switch_sched rsp s) i =
    let t := task_at (save_current rsp s) i in
    if decide (i = to) then
      (if decide (to = current_tid s) then set_state TASK_RUNNING t
       else set_timeslice (u32 (timeslice t + 1)) (set_state TASK_RUNNING t))
    else t.
Proof.
  intros W Hi next to. pose proof (sw_cur _ W). pose proof (sw_len _ W) as Hlen.
  assert (length (tasks (save_current rsp s)) = 16%nat) as Hlen1.
  { unfold save_current. destruct (current_tid s <? 0); [done|by rewrite upd_task_length]. }
  destruct (pick_next_spec (save_current rsp s)) as [[En _]|(Hn & _ & _)]; [by rewrite save_current_cur|..].
  - change (next = -1) in En. unfold switch_sched, to. fold next. rewrite En. cbn [Z.ltb Z.compare].
    rewrite (decide_True (P := current_tid s = current_tid s)) by done.
    destruct (Z.ltb_spec (current_tid s) 0); [by rewrite decide_False by lia|].
    rewrite task_at_upd by lia. cbn. by case_decide; subst.
  - change (0 <= next < 16) in Hn. unfold switch_sched, to. fold next.
    destruct (Z.ltb_spec next 0); [lia|]. destruct (Z.eqb_spec next (current_tid s)) as [E|Hne].
    + rewrite (decide_True (P := next = current_tid s)) by done.
      rewrite task_at_upd by lia. cbn. by case_decide; subst.
    + rewrite (decide_False (P := next = current_tid s)) by done. cbn zeta.
      change (task_at (Sched (tasks (upd_task next (λ t, set_timeslice (u32 (timeslice t + 1))
        (set_state TASK_RUNNING t)) (save_current rsp s))) next _ _) i)
        with (task_at (upd_task next (λ t, set_timeslice (u32 (timeslice t + 1))
        (set_state TASK_RUNNING t)) (save_current rsp s)) i).
      rewrite task_at_upd by lia. by case_decide; subst.
Qed.

Lemma save_current_state rsp s i : sched_wf s → 0 <= i < 16 →
  state (task_at (save_current rsp s) i) ≠ TASK_RUNNING ∧
  (state (task_at s i) = TASK_NEW → state (task_at (save_current rsp s) i) = TASK_NEW) ∧
  same_identity (task_at s i) (task_at (save_current rsp s) i) ∧
  ready (task_at (save_current rsp s) i) = ready (task_at s i).
Proof.
  intros W Hi. rewrite save_current_at by done. pose proof (sw_running _ W i Hi) as Hr.
  case_decide as E.
  - rewrite ready_save. unfold is_state. case_bool_decide as Es; cbn; split_and!; try done. by rewrite Es.
  - split_and!; try done. intros F. by apply E, Hr.
Qed.

Lemma switch_sched_cur rsp s : sched_wf s →
  current_tid (switch_sched rsp s) =
    (if pick_next_runnable (save_current rsp s) <? 0 then current_tid s
     else pick_next_runnable (save_current rsp s)) ∧
  -1 <= current_tid (switch_sched rsp s) < 16.
Proof.
  intros W. pose proof (sw_cur _ W). apply and_wlog_r.
  2: intros E; rewrite E; destruct (pick_next_spec (save_current rsp s)) as [[En _]|(Hn & Hr & _)];
      [by rewrite save_current_cur|..];
      destruct (Z.ltb_spec (pick_next_runnable (save_current rsp s)) 0); lia.
  unfold switch_sched. destruct (Z.ltb_spec (pick_next_runnable (save_current rsp s)) 0).
  - destruct (Z.ltb_spec (current_tid s) 0); cbn; apply save_current_cur.
  - destruct (Z.eqb_spec (pick_next_runnable (save_current rsp s)) (current_tid s)) as [->|]; [|done].
      cbn. apply save_current_cur.
Qed.

Lemma switch_sched_wf rsp s : sched_wf s → sched_wf (switch_sched rsp s).
Proof.
  intros W. pose proof (sw_cur _ W) as Hcur. pose proof (sw_len _ W) as Hlen.
  assert (length (tasks (switch_sched rsp s)) = 16%nat) as Hl.
  { unfold switch_sched, save_current. repeat case_match; cbn; rewrite ?length_insert; done. }
  destruct (switch_sched_cur rsp s W) as [Ec Hc'].
  assert (∀ i, 0 <= i < 16 → same_identity (task_at s i) (task_at (switch_sched rsp s) i) ∧
    (i ≠ current_tid (switch_sched rsp s) → state (task_at (switch_sched rsp s) i) = state (task_at (save_current rsp s) i)) ∧
    (i = current_tid (switch_sched rsp s) → state (task_at (switch_sched rsp s) i) = TASK_RUNNING)) as H.
  { intros i Hi. destruct (save_current_state rsp s i W Hi) as (_ & _ & Hid & _).
    rewrite (switch_sched_at rsp s i W Hi), <-Ec. cbn zeta.
    case_decide as D; [|by split_and!]. case_decide; by split_and!. }
  apply (sched_wf_states s); try done.
  - intros i Hi. by apply H.
  - intros i Hi Hr. destruct (decide (i = current_tid (switch_sched rsp s))) as [|Hne]; [done|].
    destruct (H i Hi) as (_ & E & _). rewrite (E Hne) in Hr.
    by destruct (save_current_state rsp s i W Hi) as [? _].
  - intros i Hi Hnew. destruct (save_current_state rsp s i W Hi) as (_ & Hs & _ & Hrd).
    destruct (H i Hi) as (_ & E & _). rewrite E; [by apply Hs|]. intros ->.
    destruct (pick_next_spec (save_current rsp s)) as [[En _]|(Hn & Hr & _)]; [by rewrite save_current_cur|..].
    + rewrite Ec, En in Hnew. cbn in Hnew. apply (sw_live _ W); [|done].
      rewrite Ec, En in Hi. cbn in Hi. lia.
    + rewrite Ec in Hnew, Hrd. destruct (Z.ltb_spec (pick_next_runnable (save_current rsp s)) 0); [lia|].
      cbn zeta in Hr. rewrite Hrd in Hr. by apply ready_not_new in Hr.
  - intros H0. destruct (H (current_tid (switch_sched rsp s))) as (_ & _ & E); [lia|]. by rewrite E.
Qed.

Lemma switch_sched_rsp rsp s i : sched_wf s → 0 <= i < 16 →
  kernel_rsp (task_at (switch_sched rsp s) i) =
    if decide (i = current_tid s) then rsp else kernel_rsp (task_at s i).
Proof.
  intros W Hi. rewrite switch_sched_at by done. cbn zeta. rewrite save_current_at by done.
  repeat case_decide; try done; by destruct (is_state _ _).
Qed.

(** [pick_next_runnable] after the save sees the same ready tasks. *)
Lemma pick_saved rsp s : sched_wf s →
  let next := pick_next_runnable (save_current rsp s) in
  (next = -1 ∧ ∀ j, 0 <= j < 16 → ready (task_at s j) = false) ∨
  (0 <= next < 16 ∧ ready (task_at s next) = true ∧
   ∀ j, 0 <= j < 16 → ready (task_at s j) = true → distance s next <= distance s j).
Proof.
  intros W next. pose proof (sw_cur _ W).
  destruct (pick_next_spec (save_current rsp s)) as [[En Hn]|(Hn & Hr & Hd)]; [by rewrite save_current_cur|..].
  - left. split; [done|]. intros j Hj. destruct (save_current_state rsp s j W Hj) as (_ & _ & _ & <-). by apply Hn.
  - right. change (0 <= next < 16) in Hn. split_and!; [lia|lia| |].
    + destruct (save_current_state rsp s next W Hn) as (_ & _ & _ & <-). done.
    + intros j Hj Hrj. specialize (Hd j Hj). unfold distance in *. rewrite save_current_cur in Hd. apply Hd.
      by destruct (save_current_state rsp s j W Hj) as (_ & _ & _ & ->).
Qed.

(** C1. A context switch is total on a well-formed task table and keeps it
    well-formed.  It stores the interrupted stack pointer in the current task
    and in no other; if any task is ready, the nearest ready slot after the
    current one becomes current and RUNNING; when that is another task, its
    saved stack pointer is returned and its address space is loaded (the
    kernel's for a kernel task), and when it is the same task 0 is returned. *)
Theorem context_switch_spec s rsp : switch_ok s →
  ∃ r s', context_switch_from rsp s = Ok r s' ∧ switch_ok s' ∧
    let cur := current_tid (ksched s) in
    let cur' := current_tid (ksched s') in
    (∀ i, 0 <= i < 16 → kernel_rsp (task_at (ksched s') i) =
       if decide (i = cur) then rsp else kernel_rsp (task_at (ksched s) i)) ∧
    ((∃ j, 0 <= j < 16 ∧ ready (task_at (ksched s) j) = true) →
       0 <= cur' < 16 ∧ state (task_at (ksched s') cur') = TASK_RUNNING ∧
       ready (task_at (ksched s) cur') = true ∧
       (∀ j, 0 <= j < 16 → ready (task_at (ksched s) j) = true →
          distance (ksched s) cur' <= distance (ksched s) j) ∧
       (cur' = cur → r = 0) ∧
       (cur' ≠ cur → r = kernel_rsp (task_at (ksched s) cur') ∧ cr3 (kvmm s') = root_of s cur')).
Proof.
  intros Ok. pose proof Ok as [W Hk].
  destruct (context_switch_run s rsp Ok) as (r & s' & E & Es & Ek & H0 & H1).
  exists r, s'. split; [done|]. split; [split; [rewrite Es; by apply switch_sched_wf|by rewrite Ek]|].
  cbn zeta. rewrite Es. destruct (switch_sched_cur rsp (ksched s) W) as [Ec Hc].
  split; [intros; by apply switch_sched_rsp|]. intros (j & Hj & Hrj).
  destruct (pick_saved rsp (ksched s) W) as [[En Hno]|(Hn & Hr & Hd)]; [by rewrite Hno in Hrj|].
  destruct (Z.ltb_spec (pick_next_runnable (save_current rsp (ksched s))) 0) as [|_]; [lia|].
  rewrite !Ec. split_and!; try (done || lia).
  - rewrite switch_sched_at by done. cbn zeta.
    destruct (Z.ltb_spec (pick_next_runnable (save_current rsp (ksched s))) 0); [lia|].
    rewrite decide_True by done. by case_decide.
Qed.

(** ** Fairness *)

(** Runs in which task [j] is ready and is passed over [n] times by context
    switches.  Between switches anything may happen that changes neither the
    current task nor the readiness of [j]. *)
Inductive passed_over (j : Z) : sched → nat → sched → Prop :=
| po_refl s : passed_over j s 0 s
| po_other s n s1 s2 :
    passed_over j s n s1 → sched_wf s2 → current_tid s2 = current_tid s1 →
    ready (task_at s2 j) = true → passed_over j s n s2
| po_switch s n s1 rsp :
    passed_over j s n s1 → sched_wf s1 → ready (task_at s1 j) = true →
    current_tid (switch_sched rsp s1) ≠ j → passed_over j s (S n) (switch_sched rsp s1).

Lemma switch_distance rsp s j : sched_wf s → 0 <= j < 16 → ready (task_at s j) = true →
  current_tid (switch_sched rsp s) ≠ j → distance (switch_sched rsp s) j < distance s j.
Proof.
  intros W Hj Hr Hne. destruct (switch_sched_cur rsp s W) as [Ec Hc].
  destruct (pick_saved rsp s W) as [[_ Hno]|(Hn & _ & Hd)]; [by rewrite Hno in Hr|].
  specialize (Hd j Hj Hr). pose proof (sw_cur _ W).
  destruct (Z.ltb_spec (pick_next_runnable (save_current rsp s)) 0); [lia|]. rewrite <-Ec in *.
  unfold distance in *. set (c := current_tid (switch_sched rsp s)) in *. clearbody c. clear -Hd Hj Hne Hc Hn H.
  set (k := current_tid s) in *. clearbody k. arith.
Qed.


(** ** Time slices *)
Fixpoint tick_all (rsps : list Z) : M kernel (list Z) :=
  match rsps with
  | [] => mret []
  | rsp :: rsps' => r ← schedule_on_tick rsp; rs ← tick_all rsps'; mret (r :: rs)
  end.

Definition set_slice (n : Z) (s : kernel) : kernel :=
  set_ksched (Sched (tasks (ksched s)) (current_tid (ksched s)) n (switch_count (ksched s))) s.

Lemma tick_short s rsp : 0 <= current_tid (ksched s) →
  state (task_at (ksched s) (current_tid (ksched s))) = TASK_RUNNING →
  0 <= slice_ticks (ksched s) < 4 →
  schedule_on_tick rsp s = Ok 0 (set_slice (slice_ticks (ksched s) + 1) s).
Proof.
  intros Hc Hr Hs. unfold schedule_on_tick, mbind, M_bind, gets, on_sched, modify.
  destruct (Z.leb_spec 0 (current_tid (ksched s))); [|lia]. unfold is_state.
  rewrite bool_decide_true by done. cbn [andb ksched set_ksched slice_ticks].
  assert (u32 (slice_ticks (ksched s) + 1) = slice_ticks (ksched s) + 1) as ->
    by (apply Z.mod_small; lia).
  unfold TICKS_PER_SLICE. by destruct (Z.ltb_spec (slice_ticks (ksched s) + 1) 5); [|lia].
Qed.

Lemma tick_full s rsp : 0 <= current_tid (ksched s) →
  state (task_at (ksched s) (current_tid (ksched s))) = TASK_RUNNING →
  slice_ticks (ksched s) = 4 →
  schedule_on_tick rsp s = context_switch_from rsp (set_slice 0 s).
Proof.
  intros Hc Hr Hs. unfold schedule_on_tick, mbind, M_bind, gets, on_sched, modify.
  destruct (Z.leb_spec 0 (current_tid (ksched s))); [|lia]. unfold is_state.
  rewrite bool_decide_true by done. cbn [andb ksched set_ksched slice_ticks]. by rewrite Hs.
Qed.

(** A time slice is five ticks: from the start of its slice a RUNNING
    task is interrupted four times without a switch and without any other
    effect on the kernel state, and the fifth tick is a context switch that
    starts the next slice. *)
Theorem time_slice_five s r1 r2 r3 r4 r5 :
  0 <= current_tid (ksched s) → slice_ticks (ksched s) = 0 →
  state (task_at (ksched s) (current_tid (ksched s))) = TASK_RUNNING →
  tick_all [r1; r2; r3; r4; r5] s =
    (r ← context_switch_from r5; mret [0; 0; 0; 0; r]) (set_slice 0 s).
Proof.
  intros Hc Hs Hr. cbn [tick_all].
  rewrite (bind_Ok _ _ _ _ _ (tick_short s r1 Hc Hr ltac:(lia))), Hs.
  unfold mbind at 1, M_bind at 1. erewrite bind_Ok by (apply tick_short; try done; cbn; lia).
  unfold mbind at 1, M_bind at 1. erewrite bind_Ok by (apply tick_short; try done; cbn; lia).
  unfold mbind at 1, M_bind at 1. erewrite bind_Ok by (apply tick_short; try done; cbn; lia).
  unfold mbind, M_bind, mret, M_ret. rewrite tick_full by done.
  change (set_slice 0 (set_slice _ _)) with (set_slice 0 s). by destruct (context_switch_from r5 _).
Qed.

(** ** Two gaps in the scheduler *)

(** When no task is ready, the switch marks the current task RUNNING
    whatever its state: a task that has exited or gone to sleep is run
    again. *)
Theorem switch_revives_current s rsp :
  switch_ok s → 0 <= current_tid (ksched s) →
  (∀ j, 0 <= j < 16 → ready (task_at (ksched s) j) = false) →
  ∃ s', context_switch_from rsp s = Ok 0 s' ∧ current_tid (ksched s') = current_tid (ksched s) ∧
    state (task_at (ksched s') (current_tid (ksched s))) = TASK_RUNNING.
Proof.
  intros Ok Hc Hno. pose proof Ok as [W _]. pose proof (sw_cur _ W).
  destruct (context_switch_run s rsp Ok) as (r & s' & E & Es & _ & H0 & _).
  destruct (pick_saved rsp (ksched s) W) as [[En _]|(Hn & Hr & _)]; [|by rewrite Hno in Hr].
  destruct H0 as [-> _]; [lia|]. exists s'. split; [done|]. rewrite Es.
  destruct (switch_sched_cur rsp (ksched s) W) as [Ec _]. rewrite En in Ec. split; [done|].
  rewrite switch_sched_at by lia || (try lia; done). cbn zeta. rewrite En. cbn [Z.ltb Z.compare].
  by rewrite !decide_True.
Qed.

(** Where the processor saves the context of an interrupted user task: below
    the one stack pointer in the TSS, which no switch changes. *)
Definition user_frame (rsp0 : Z) : Z := rsp0 - FRAME_SIZE.

(** All user tasks share one trap frame: after two user tasks have been
    interrupted in turn, both saved stack pointers are the same address, so
    the registers of the second have replaced those of the first. *)
Theorem user_frames_collide s rsp0 a b :
  switch_ok s → 0 <= a < 16 → 0 <= b < 16 → a ≠ b → current_tid (ksched s) = a →
  current_tid (switch_sched (user_frame rsp0) (ksched s)) = b →
  let s2 := switch_sched (user_frame rsp0) (switch_sched (user_frame rsp0) (ksched s)) in
  kernel_rsp (task_at s2 a) = user_frame rsp0 ∧ kernel_rsp (task_at s2 b) = user_frame rsp0.
Proof.
  intros [W _] Ha Hb Hab Ec Ec'. cbn zeta. pose proof (switch_sched_wf (user_frame rsp0) _ W) as W1.
  split; rewrite switch_sched_rsp by done; rewrite Ec'.
  - rewrite decide_False by done. rewrite switch_sched_rsp by done. by rewrite decide_True.
  - by rewrite decide_True.
Qed.

(** ** The invariant over all operations *)
Lemma sched_wf_upd s i f : sched_wf s → 0 <= i < 16 →
  tid (f (task_at s i)) = tid (task_at s i) →
  (state (f (task_at s i)) = TASK_RUNNING → i = current_tid s) →
  (is_user (f (task_at s i)) = true → state (f (task_at s i)) ≠ TASK_NEW →
     address_space (f (task_at s i)) ≠ 0 ∧ task_cr3 (f (task_at s i)) ≠ 0) →
  (state (task_at s i) ≠ TASK_NEW → state (f (task_at s i)) ≠ TASK_NEW) →
  sched_wf (upd_task i f s).
Proof.
  intros W Hi Ht Hr Hu Hn. pose proof (sw_len _ W) as Hl. pose proof (sw_cur _ W) as Hc.
  assert (∀ j, 0 <= j → task_at (upd_task i f s) j =
    if decide (j = i) then f (task_at s i) else task_at s j) as Hat.
  { intros j Hj. apply task_at_upd; lia. }
  split; [by rewrite upd_task_length|done|..].
  - intros j Hj. rewrite Hat by lia. case_decide; subst; [rewrite Ht|]; by apply W.
  - intros j Hj. rewrite Hat by lia. case_decide; subst; [done|]. by apply W.
  - intros j Hj. rewrite Hat by lia. case_decide; subst; [done|]. by apply W.
  - cbn [current_tid upd_task]. intros H0. rewrite Hat by done. case_decide; subst; [apply Hn|]; by apply W.
Qed.

Lemma sched_wf_same s s' : tasks s' = tasks s → current_tid s' = current_tid s → sched_wf s → sched_wf s'.
Proof.
  intros Et Ec W. assert (∀ i, task_at s' i = task_at s i) as Ea by (intros; unfold task_at; by rewrite Et).
  destruct W. split; rewrite ?Ec, ?Et; try done; intros; rewrite Ea in *; auto.
Qed.

(** Output returns and touches nothing but the trace. *)
Definition quiet (m : M kernel unit) : Prop := ∀ s, ∃ s', m s = Ok tt s' ∧
  ksched s' = ksched s ∧ kproc s' = kproc s ∧ kvmm s' = kvmm s ∧
  k_heap_head s' = k_heap_head s ∧ k_heap_ready s' = k_heap_ready s.

Lemma quiet_put o : quiet (put o).
Proof. intros s. by eexists. Qed.

Lemma quiet_bind m1 m2 : quiet m1 → quiet m2 → quiet (m1 ;; m2).
Proof.
  intros H1 H2 s. destruct (H1 s) as (s1 & E1 & A1 & B1 & C1 & D1 & F1).
  destruct (H2 s1) as (s2 & E2 & A2 & B2 & C2 & D2 & F2).
  exists s2. rewrite (bind_Ok _ _ _ _ _ E1). split_and!; congruence.
Qed.

Lemma log_quiet tag t a b : quiet (log_transition tag t a b).
Proof. unfold log_transition, print, print_dec, print_hex. repeat (apply quiet_bind; [apply quiet_put|]). apply quiet_put. Qed.

Lemma first_task_Some P s i : first_task P s = Some i → 0 <= i < 16 ∧ P (task_at s i) = true.
Proof.
  intros H. apply find_some in H as [Hin HP]. apply list_elem_of_In, elem_of_seqZ in Hin.
  unfold MAX_TASKS in Hin. split; [lia|done].
Qed.

Lemma find_free_slot_inv fuel s r s' : find_free_slot fuel s = Ok r s' → sched_wf (ksched s) →
  sched_wf (ksched s') ∧ (r = -1 ∨ 0 <= r < 16) ∧ current_tid (ksched s') = current_tid (ksched s) ∧
  kproc s' = kproc s.
Proof.
  unfold find_free_slot. intros H W. mstep H. injection E as <- <-.
  destruct (first_task _ (ksched s)) as [i|] eqn:E1.
  { injection H as <- <-. apply first_task_Some in E1 as [? _]. split_and!; auto. }
  destruct (first_task (λ t, (kernel_stack t =? 0) && _) (ksched s)) as [i|] eqn:E2.
  { injection H as <- <-. apply first_task_Some in E2 as [? _]. split_and!; auto. }
  destruct (first_task (is_state TASK_ZOMBIE) (ksched s)) as [i|] eqn:E3.
  - apply first_task_Some in E3 as [Hi _]. mstep H. injection H as <- <-.
    destruct (negb _).
    + mstep E. apply zoom_inv in E0 as (t & _ & ->). injection E as <- <-. split_and!; [|auto|done|done].
      cbn. apply sched_wf_upd; try done; intros; by apply W.
    + injection E as <- <-. split_and!; auto.
  - injection H as <- <-. split_and!; auto.
Qed.

Lemma sched_wf_state s i x : sched_wf s → 0 <= i < 16 → x ≠ TASK_RUNNING →
  x ≠ TASK_NEW → state (task_at s i) ≠ TASK_NEW → sched_wf (upd_task i (set_state x) s).
Proof.
  intros W Hi Hx Hx' Hs. apply sched_wf_upd; try done. cbn. intros Hu _. by apply (sw_user _ W).
Qed.

Lemma upd_task_upd i f g s : (Z.to_nat i < length (tasks s))%nat → 0 <= i →
  upd_task i g (upd_task i f s) = upd_task i (λ t, g (f t)) s.
Proof.
  intros Hi H0. unfold upd_task at 1. rewrite task_at_upd, decide_True by done.
  unfold upd_task. cbn. by rewrite list_insert_insert_eq.
Qed.

(** The new task entry. *)
Definition new_task (stack npid pml4 : Z) (user : bool) (as_ : Z) (t : Task) : Task :=
  let top := Z.land (u64 (stack + TASK_STACK_SIZE)) 0xFFFFFFFFFFFFFFF0 in
  let f := u64 (top - FRAME_SIZE) in
  MkTask (tid t) npid TASK_RUNNABLE f top pml4 0 0 user f as_ stack.

Lemma task_fill_run slot stack tag npid c user a rip cs ss rsp s :
  length (tasks (ksched s)) = 16%nat → 0 <= slot < 16 →
  ∃ s', task_fill slot stack tag npid c user a rip cs ss rsp s = Ok (tid (task_at (ksched s) slot)) s' ∧
    ksched s' = upd_task slot (new_task stack npid (c s) user a) (ksched s) ∧ kproc s' = kproc s ∧
    ∃ t, kernel_stack_top t = Z.land (u64 (stack + TASK_STACK_SIZE)) 0xFFFFFFFFFFFFFFF0 ∧
      kvmm s' = set_vmem (write_frame (u64 (kernel_stack_top t - FRAME_SIZE)) rip (rsp t) cs ss (kmem s)) (kvmm s) ∧
      k_heap_head s' = k_heap_head s ∧ k_heap_ready s' = k_heap_ready s.
Proof.
  intros Hl Hi. set (top := Z.land (u64 (stack + TASK_STACK_SIZE)) 0xFFFFFFFFFFFFFFF0).
  set (g1 := λ t, MkTask (tid t) npid (state t) (kernel_rsp t) top (c s) 0 0 user (trapframe t) a stack).
  assert (∀ f, task_at (upd_task slot f (ksched s)) slot = f (task_at (ksched s) slot)) as Hat.
  { intros f. rewrite task_at_upd by lia. by rewrite decide_True. }
  assert (∀ f g, upd_task slot g (upd_task slot f (ksched s)) = upd_task slot (λ t, g (f t)) (ksched s)) as Hup.
  { intros. apply upd_task_upd; lia. }
  unfold task_fill, setup_initial_frame. unfold mbind, M_bind, on_task, modify, gets, mret, M_ret.
  cbn [ksched set_ksched set_kmem set_kvmm kproc]. fold top. fold g1. rewrite !Hat.
  change (kernel_stack_top (g1 (task_at (ksched s) slot))) with top.
  set (f := u64 (top - FRAME_SIZE)). rewrite !Hup, Hat.
  match goal with |- context [log_transition ?a ?b ?c ?d ?e] =>
    destruct (log_quiet a b c d e) as (s' & E & Es & Ep & Ev & Eh & Er) end.
  rewrite E. exists s'. split; [done|]. rewrite Es, Ep. split_and!; [done|done|].
  exists (g1 (task_at (ksched s) slot)). rewrite Ev, Eh, Er. by split_and!.
Qed.

(** What creating a task does to the tables: nothing (-1), or a new entry in
    a slot of a well-formed table. *)
Lemma task_create_run fuel tag npid c user a rip cs ss rsp s r s' :
  task_create fuel tag npid c user a rip cs ss rsp s = Ok r s' → sched_wf (ksched s) →
  kproc s' = kproc s ∧
  ((r = -1 ∧ sched_wf (ksched s')) ∨
   ∃ t stack pml4, 0 <= r < 16 ∧ sched_wf t ∧
     ksched s' = upd_task r (new_task stack npid pml4 user a) t).
Proof.
  intros H W. unfold task_create in H. mstep H.
  destruct (find_free_slot_inv _ _ _ _ E W) as (W0 & Hr & Ec0 & Ep).
  destruct (Z.ltb_spec a0 0).
  { injection H as <- <-. split; [done|]. left. split; [lia|done]. }
  destruct Hr as [?|Hr]; [lia|].
  mstep H. apply zoom_inv in E0 as (t & _ & ->).
  destruct (a1 =? 0); [injection H as <- <-; split; [done|by left]|].
  mstep H. injection E0 as <- <-. set (s1 := set_kmem _ _) in H.
  assert (ksched s1 = ksched s0 ∧ kproc s1 = kproc s0) as [E1 Ep1] by done. clearbody s1. rewrite <-E1 in W0.
  destruct (task_fill_run a0 a1 tag npid c user a rip cs ss rsp s1 (sw_len _ W0) Hr) as (s2 & E2 & Es2 & Ep2 & _).
  rewrite E2 in H. injection H as <- <-. rewrite (sw_tid _ W0) by done. split; [congruence|].
  right. exists (ksched s1), a1, (c s1). done.
Qed.

Lemma task_create_inv fuel tag npid c user a rip cs ss rsp s r s' :
  task_create fuel tag npid c user a rip cs ss rsp s = Ok r s' → sched_wf (ksched s) →
  (user = true → a ≠ 0 ∧ (0 <= r → task_cr3 (task_at (ksched s') r) ≠ 0)) →
  sched_wf (ksched s').
Proof.
  intros H W Hu. destruct (task_create_run _ _ _ _ _ _ _ _ _ _ _ _ _ H W)
    as [_ [[_ ?]|(t & stack & pml4 & Hr & Wt & Es)]]; [done|].
  rewrite Es in *. rewrite task_at_upd, decide_True in Hu by (rewrite ?(sw_len _ Wt); lia).
  apply sched_wf_upd; try done. cbn in *. intros Hus _. destruct (Hu Hus) as [? Hc]. split; [done|]. apply Hc. lia.
Qed.

(** The operations of task.c as steps between kernel states. *)
Inductive kstep (fuel : nat) (kernel_as : Z) : kernel → kernel → Prop :=
| ks_switch s rsp r s' : kernel_pml4 (kvmm s) ≠ 0 →
    context_switch_from rsp s = Ok r s' → kstep fuel kernel_as s s'
| ks_tick s rsp r s' : kernel_pml4 (kvmm s) ≠ 0 →
    schedule_on_tick rsp s = Ok r s' → kstep fuel kernel_as s s'
| ks_wake s i s' : task_wake i s = Ok tt s' → kstep fuel kernel_as s s'
| ks_sleep s t s' : task_sleep s = Ok t s' → kstep fuel kernel_as s s'
| ks_exit s c t s' : task_exit c s = Ok t s' → kstep fuel kernel_as s s'
| ks_kill s p c r s' : task_kill_pid p c s = Ok r s' → kstep fuel kernel_as s s'
| ks_create_kernel s e r s' :
    task_create_kernel fuel kernel_as e s = Ok r s' → kstep fuel kernel_as s s'
| ks_create_user s p a e u r s' : a ≠ 0 →
    task_create_user fuel p a e u s = Ok r s' →
    (0 <= r → task_cr3 (task_at (ksched s') r) ≠ 0) → kstep fuel kernel_as s s'
| ks_other s s' : ksched s' = ksched s → kstep fuel kernel_as s s'.

Lemma switch_from_wf s rsp r s' : sched_wf (ksched s) → kernel_pml4 (kvmm s) ≠ 0 →
  context_switch_from rsp s = Ok r s' → sched_wf (ksched s').
Proof.
  intros W Hk E. destruct (context_switch_run s rsp (conj W Hk)) as (r1 & s1 & E1 & Es & _).
  rewrite E in E1. injection E1 as <- <-. rewrite Es. by apply switch_sched_wf.
Qed.

Lemma exit_wf c s t s' : sched_wf (ksched s) → task_exit c s = Ok t s' → sched_wf (ksched s').
Proof.
  intros W H. unfold task_exit in H. mstep H. injection E as <- <-. unfold task_current, id in H.
  pose proof (sw_cur _ W). pose proof (sw_len _ W). destruct (Z.ltb_spec (current_tid (ksched s)) 0); [done|].
  pose proof (sw_live _ W ltac:(lia)) as Hlive. set (i := current_tid (ksched s)) in *.
  mstep H. injection E as <- <-. mstep H. injection E as <- <-. mstep H. injection E as <- <-.
  mstep H. injection E as <- <-. mstep H. injection H as <- <-.
  match type of E with log_transition ?a ?b ?c ?d ?e = _ =>
    destruct (log_quiet a b c d e) as (s2 & E2 & Es & _) end.
  rewrite E in E2. injection E2 as -> <-. rewrite Es. cbn [ksched set_ksched].
  apply sched_wf_state; try done; [|lia|].
  - apply sched_wf_upd; try (done || lia); cbn; intros; apply W; (done || lia).
  - rewrite task_at_upd by lia. by rewrite decide_True.
Qed.

Lemma kill_wf p c s r s' : sched_wf (ksched s) → task_kill_pid p c s = Ok r s' → sched_wf (ksched s').
Proof.
  intros W H. unfold task_kill_pid in H. destruct (p <=? 0); [by injection H as <- <-|].
  mstep H. injection E as <- <-. destruct (first_task _ (ksched s)) as [i|] eqn:F; [|by injection H as <- <-].
  apply first_task_Some in F as [Hi [_ Hs]%andb_prop]. apply negb_true_iff, orb_false_iff in Hs as [Hnew _].
  apply bool_decide_eq_false in Hnew. pose proof (sw_len _ W).
  destruct (i =? current_tid (ksched s)); mstep H; [injection H as <- <-; by eapply exit_wf|].
  injection E as <- <-. mstep H. injection E as <- <-. mstep H. injection E as <- <-.
  mstep H. injection E as <- <-. mstep H. injection H as <- <-.
  match type of E with log_transition ?a ?b ?c ?d ?e = _ =>
    destruct (log_quiet a b c d e) as (s2 & E2 & Es & _) end.
  rewrite E in E2. injection E2 as -> <-. rewrite Es. cbn [ksched set_ksched].
  apply sched_wf_state; try done.
  - apply sched_wf_upd; try (done || lia); cbn; intros; apply W; (done || lia).
  - rewrite task_at_upd by lia. by rewrite decide_True.
Qed.

Lemma kstep_wf fuel ka s s' : kstep fuel ka s s' → sched_wf (ksched s) → sched_wf (ksched s').
Proof.
  intros [s0 rsp r s1 Hk E|s0 rsp r s1 Hk E|s0 i s1 E|s0 t s1 E|s0 c t s1 E|s0 p c r s1 E|s0 e r s1 E|s0 p a e u r s1 Ha E Hc|s0 s1 E] W.
  - by eapply switch_from_wf.
  - unfold schedule_on_tick in E. mstep E. injection E0 as <- <-. destruct (_ && _).
    + mstep E. injection E0 as <- <-. mstep E. injection E0 as <- <-. destruct (_ <? _).
      * injection E as <- <-. by apply (sched_wf_same (ksched s0)).
      * mstep E. injection E0 as <- <-. refine (switch_from_wf _ _ _ _ _ _ E); [by apply (sched_wf_same (ksched s0))|exact Hk].
    + mstep E. injection E0 as <- <-. refine (switch_from_wf _ _ _ _ _ _ E); [by apply (sched_wf_same (ksched s0))|exact Hk].
  - injection E as <-. cbn. unfold wake. destruct (_ || _) eqn:B; [done|].
    unfold MAX_TASKS in B. unfold is_state. case_bool_decide as Es; [|done]. apply sched_wf_state; try done; [lia|].
    by rewrite Es.
  - unfold task_sleep in E. mstep E. injection E0 as <- <-. unfold task_current, id in E.
    pose proof (sw_cur _ W). destruct (Z.ltb_spec (current_tid (ksched s0)) 0); [done|].
    mstep E. mstep E0. mstep E. injection E0 as <- <-. injection E as <- <-. cbn.
    apply sched_wf_state; try done; [lia|]. apply W. lia.
  - by eapply exit_wf.
  - by eapply kill_wf.
  - by eapply task_create_inv.
  - by eapply task_create_inv.
  - by rewrite E.
Qed.

(** Case analysis on the sixteen slots of a concrete table. *)
Lemma slot_cases (P : Z → Prop) : Forall P (seqZ 0 16) → ∀ i, 0 <= i < 16 → P i.
Proof. intros H i Hi. apply (proj1 (Forall_forall _ _) H), elem_of_seqZ. lia. Qed.

Ltac all_slots := refine (slot_cases _ _); change (seqZ 0 16) with
  [0; 1; 2; 3; 4; 5; 6; 7; 8; 9; 10; 11; 12; 13; 14; 15];
  repeat (apply List.Forall_cons; [by cbn|]); apply List.Forall_nil.

Lemma task_init_wf s : sched_wf (ksched (task_init s)).
Proof. split; [done|done|all_slots|all_slots|all_slots|done]. Qed.

(** C15. In every state reachable from [task_init] by creating, waking,
    putting to sleep, killing and exiting tasks, by ticks and by context
    switches, the task table is well-formed: slot [i] holds task [i], only the
    current task is RUNNING, every user task that is not NEW has an address
    space and a page-table root, and the current task is not NEW. *)
Theorem sched_reachable_wf fuel kernel_as s s' :
  rtc (kstep fuel kernel_as) (task_init s) s' → sched_wf (ksched s').
Proof.
  intros H. apply (rtc_invariant (kstep fuel kernel_as) (λ s, sched_wf (ksched s)) (task_init s));
    [intros; by eapply kstep_wf|done|apply task_init_wf].
Qed.

Lemma filter_le_one (P : Z → bool) n c :
  (∀ i, 0 <= i < n → P i = true → i = c) → (length (List.filter P (seqZ 0 n)) <= 1)%nat.
Proof.
  intros H. destruct (List.filter P (seqZ 0 n)) as [|x [|y l]] eqn:E; [cbn; lia..|exfalso].
  assert (NoDup (List.filter P (seqZ 0 n))) as D.
  { apply NoDup_ListNoDup, List.NoDup_filter, NoDup_ListNoDup, NoDup_seqZ. }
  assert (∀ z, z ∈ x :: y :: l → z = c) as Hz.
  { intros z Hz. rewrite <-E in Hz. apply list_elem_of_In, filter_In in Hz as [Hz HP].
    apply list_elem_of_In, elem_of_seqZ in Hz. apply H; [lia|done]. }
  rewrite E in D. apply NoDup_cons in D as [Hx _]. apply Hx.
  pose proof (Hz x ltac:(left)) as Ex. pose proof (Hz y ltac:(right; left)) as Ey.
  rewrite Ex, <-Ey. left.
Qed.

(** The built-in consistency check accepts the table after every context
    switch that finds a ready task. *)
Theorem self_check_after_switch s rsp r s' :
  switch_ok s → (∃ j, 0 <= j < 16 ∧ ready (task_at (ksched s) j) = true) →
  context_switch_from rsp s = Ok r s' → task_self_check (ksched s') = true.
Proof.
  intros Ok (j & Hj & Hrj) E. pose proof Ok as [W Hk].
  destruct (context_switch_run s rsp Ok) as (r1 & s1 & E1 & Es & _).
  rewrite E in E1. injection E1 as <- <-. rewrite Es.
  pose proof (switch_sched_wf rsp _ W) as W'. destruct (switch_sched_cur rsp (ksched s) W) as [Ec Hc].
  destruct (pick_saved rsp (ksched s) W) as [[_ Hno]|(Hn & _ & _)]; [by rewrite Hno in Hrj|].
  assert (state (task_at (switch_sched rsp (ksched s)) (current_tid (switch_sched rsp (ksched s)))) = TASK_RUNNING) as Hst.
  { rewrite Ec. destruct (Z.ltb_spec (pick_next_runnable (save_current rsp (ksched s))) 0) as [|_]; [lia|].
    rewrite switch_sched_at by done. cbn zeta.
    destruct (Z.ltb_spec (pick_next_runnable (save_current rsp (ksched s))) 0); [lia|].
    rewrite decide_True by done. by case_decide. }
  set (t := switch_sched rsp (ksched s)) in *. clearbody t. unfold task_self_check.
  destruct (existsb _ all_tasks) eqn:Ex.
  { apply existsb_exists in Ex as (i & Hi%list_elem_of_In%elem_of_seqZ & Hb). unfold MAX_TASKS in Hi.
    apply andb_prop in Hb as [[Hu Hnew]%andb_prop Hz]. apply negb_true_iff, bool_decide_eq_false in Hnew.
    destruct (sw_user _ W' i) as [Ha Hcr]; [lia|done|done|].
    destruct (Z.eqb_spec (address_space (task_at t i)) 0), (Z.eqb_spec (task_cr3 (task_at t i)) 0); done. }
  assert (count_state TASK_RUNNING t <= 1) as Hcount.
  { unfold count_state, all_tasks, MAX_TASKS.
    pose proof (filter_le_one (λ i, is_state TASK_RUNNING (task_at t i)) 16 (current_tid t)) as F.
    cut (length (List.filter (λ i, is_state TASK_RUNNING (task_at t i)) (seqZ 0 16)) <= 1)%nat; [lia|].
    apply F. intros i Hi Hr%bool_decide_eq_true. by apply (sw_running _ W'). }
  destruct (Z.ltb_spec 1 (count_state TASK_RUNNING t)); [lia|].
  destruct (Z.leb_spec 0 (current_tid t)); [|done]. unfold MAX_TASKS.
  destruct (Z.leb_spec 16 (current_tid t)); [lia|]. unfold is_state. by rewrite Hst.
Qed.

(** ** Examples: kernel tasks 0 and 1 and user tasks 2 and 3, 0 running. *)
Definition ex_task (i : Z) (st : TaskState) (user : bool) : Task :=
  MkTask i (if user then i else 0) st (0x10000 + i * 0x1000) 0 (0x5000 * i) 0 0 user 0 (0x4000 * i) 0x8000.

Definition ex_sched : sched :=
  Sched ([ex_task 0 TASK_RUNNING false; ex_task 1 TASK_WAITING false;
          ex_task 2 TASK_RUNNABLE true; ex_task 3 TASK_RUNNABLE true] ++
         map (λ i, ex_task i TASK_NEW false) (seqZ 4 12)) 0 0 0.

Definition ex_kernel : kernel :=
  Kernel ex_vmm 0 false ex_sched (Ptable (replicate 16 proc0) 1) [].

Lemma ex_sched_wf : sched_wf ex_sched.
Proof. split; [done|done|all_slots|all_slots|all_slots|done]. Qed.

Lemma ex_switch_ok : switch_ok ex_kernel.
Proof. split; [exact ex_sched_wf|done]. Qed.

Lemma context_switch_spec_witness : ∃ s',
  context_switch_from 0x9000 ex_kernel = Ok 0x12000 s' ∧ current_tid (ksched s') = 2 ∧
  cr3 (kvmm s') = 0xA000.
Proof.
  destruct (context_switch_spec ex_kernel 0x9000 ex_switch_ok) as (r & s' & E & _ & _ & H).
  destruct H as (Hc & _ & Hr & Hd & _ & Hsw); [by exists 2|].
  assert (current_tid (ksched s') = 2) as E2.
  { specialize (Hd 2 ltac:(lia) eq_refl). change (distance (ksched ex_kernel) 2) with 1 in Hd.
    change (current_tid (ksched ex_kernel)) with 0 in *.
    unfold distance in Hd. change (current_tid (ksched ex_kernel)) with 0 in Hd.
    assert (current_tid (ksched s') = 1 ∨ current_tid (ksched s') = 2) as Hor by (clear -Hd Hc; arith).
    destruct Hor as [E1|E2]; [|done]. by rewrite E1 in Hr. }
  destruct Hsw as [-> Hcr]; [by rewrite E2|]. exists s'. rewrite E2 in *. split; [exact E|]. split; [done|].
  by rewrite Hcr.
Defined.


Lemma time_slice_five_witness : ∃ s',
  tick_all [1; 2; 3; 4; 5] ex_kernel = Ok [0; 0; 0; 0; 0x12000] s'.
Proof.
  rewrite (time_slice_five ex_kernel 1 2 3 4 5) by (by vm_compute).
  eexists. vm_compute. reflexivity.
Defined.

(** All tasks gone, the last one a zombie. *)
Definition ex_dead : kernel :=
  set_ksched (Sched (ex_task 0 TASK_ZOMBIE false :: map (λ i, ex_task i TASK_NEW false) (seqZ 1 15)) 0 0 0) ex_kernel.

Lemma switch_revives_current_witness : ∃ s',
  context_switch_from 0x9000 ex_dead = Ok 0 s' ∧ state (task_at (ksched s') 0) = TASK_RUNNING.
Proof.
  destruct (switch_revives_current ex_dead 0x9000) as (s' & E & _ & H); [|done|all_slots|by exists s'].
  split; [split; [done|done|all_slots|all_slots|all_slots|done]|done].
Defined.

(** User task 2 running, user task 3 ready. *)
Definition ex_users : kernel :=
  set_ksched (Sched ([ex_task 0 TASK_WAITING false; ex_task 1 TASK_WAITING false;
    ex_task 2 TASK_RUNNING true; ex_task 3 TASK_RUNNABLE true] ++
    map (λ i, ex_task i TASK_NEW false) (seqZ 4 12)) 2 0 0) ex_kernel.

Lemma user_frames_collide_witness :
  kernel_rsp (task_at (switch_sched 0x8F50 (switch_sched 0x8F50 (ksched ex_users))) 2) = 0x8F50 ∧
  kernel_rsp (task_at (switch_sched 0x8F50 (switch_sched 0x8F50 (ksched ex_users))) 3) = 0x8F50.
Proof.
  apply (user_frames_collide ex_users 0x9000 2 3); [|lia|lia|done|done|by vm_compute].
  split; [split; [done|done|all_slots|all_slots|all_slots|done]|done].
Defined.

Lemma sched_reachable_wf_witness : ∃ s',
  schedule_on_tick 0x9000 (task_init ex_kernel) = Ok 0 s' ∧ sched_wf (ksched s').
Proof.
  eexists. split; [vm_compute; reflexivity|].
  apply (sched_reachable_wf 4 0x7000 ex_kernel). eapply rtc_l; [|apply rtc_refl].
  apply (ks_tick _ _ _ 0x9000 0); [done|]. vm_compute. reflexivity.
Defined.

Lemma self_check_after_switch_witness : ∃ s', context_switch_from 0x9000 ex_kernel = Ok 0x12000 s' ∧
  task_self_check (ksched s') = true.
Proof.
  eexists. split; [vm_compute; reflexivity|].
  apply (self_check_after_switch ex_kernel 0x9000 0x12000); [exact ex_switch_ok|by exists 2|].
  vm_compute. reflexivity.
Defined.
