(* ===== verification/Process.v ===== *)
(** * Processes (kernel/process.c)

    The process table, the ELF loader and the life cycle of a process from
    spawn to the collection of its exit code.  [process_reap_deferred] is in
    Task.v. *)
From stdpp Require Import base gmap list list_numbers strings.
From S2P Require Import Prelude Monad Mem Pmm Vmm Kmalloc Kernel Task.

Definition PT_LOAD : Z := 1.
Definition PF_X : Z := 1.
Definition PF_W : Z := 2.
Definition USER_LOWER_LIMIT : Z := 0x0000000000400000.
Definition USER_UPPER_LIMIT : Z := 0x0000800000000000.
Definition PROCESS_STACK_VIRT : Z := 0x00007FFFFFFFE000.
Definition PROCESS_STACK_PAGES : Z := 4.

(** [Elf64_Ehdr] and [Elf64_Phdr], read from the image at [elf]. *)
Definition sizeof_Ehdr : Z := 64.
Definition sizeof_Phdr : Z := 56.
Definition e_ident (m : memory) (elf i : Z) : Z := rd8 m (elf + i).
Definition e_entry (m : memory) (elf : Z) : Z := rd64 m (elf + 24).
Definition e_phoff (m : memory) (elf : Z) : Z := rd64 m (elf + 32).
Definition e_phnum (m : memory) (elf : Z) : Z := rd16 m (elf + 56).
Definition p_type (m : memory) (ph : Z) : Z := rd32 m ph.
Definition p_flags (m : memory) (ph : Z) : Z := rd32 m (ph + 4).
Definition p_offset (m : memory) (ph : Z) : Z := rd64 m (ph + 8).
Definition p_vaddr (m : memory) (ph : Z) : Z := rd64 m (ph + 16).
Definition p_filesz (m : memory) (ph : Z) : Z := rd64 m (ph + 32).
Definition p_memsz (m : memory) (ph : Z) : Z := rd64 m (ph + 40).

Definition all_procs : list Z := seqZ 0 MAX_PROCESSES.

Definition alloc_process_slot (s : ptable) : Z :=
  default (-1) (List.find (λ i, let p := proc_at s i in
    negb (used p) || (exited p && (p_address_space p =? 0) && (main_tid p <? 0))) all_procs).

(** Index of the process, as [Process*]. *)
Definition find_process_by_pid (s : ptable) (pid : Z) : option Z :=
  List.find (λ i, let p := proc_at s i in used p && (p_pid p =? pid)) all_procs.

Definition process_init (s : kernel) : kernel :=
  set_kproc (Ptable (map (λ _, proc0) all_procs) 1) s.

(** [pmm_alloc_page()] and clearing the page. *)
Definition alloc_zero_page : M kernel Z :=
  page ← zoom pmm_lens (lift pmm_alloc_page);
  if page =? 0 then mret 0
  else modify (λ s, set_kmem (fill8 (kmem s) page 4096 0) s) ;; mret page.

Definition map_stack_page (as_ i : Z) : M kernel bool :=
  page ← alloc_zero_page;
  if page =? 0 then mret false else
  let va := PROCESS_STACK_VIRT - (i + 1) * 0x1000 in
  zoom vmm_lens (vmm_map as_ va page
    (Z.lor (Z.lor (Z.lor VMM_FLAG_PRESENT VMM_FLAG_WRITE) VMM_FLAG_USER) VMM_FLAG_NX)) ;;
  mret true.

(** The initial stack pointer, or [None] for -1. *)
Definition map_user_stack (as_ : Z) : M kernel (option Z) :=
  if as_ =? 0 then mret None else
  let stack_base := PROCESS_STACK_VIRT - PROCESS_STACK_PAGES * 0x1000 in
  if (stack_base <? USER_LOWER_LIMIT) || (USER_UPPER_LIMIT <=? PROCESS_STACK_VIRT) then mret None else
  ok ← for_ok (Z.to_nat PROCESS_STACK_PAGES) 0 (map_stack_page as_);
  mret (if ok : bool then Some PROCESS_STACK_VIRT else None).

(** [for (va = seg_start; va < seg_end; va += 0x1000)], [i]-th iteration. *)
Definition load_page (as_ seg_start flags i : Z) : M kernel bool :=
  let va := seg_start + i * 0x1000 in
  phys ← gets (λ s, vmm_virt_to_phys as_ va (kvmm s));
  if negb (phys =? 0) then mret true else
  page ← alloc_zero_page;
  if page =? 0 then mret false else
  zoom vmm_lens (vmm_map as_ va page flags) ;; mret true.

Definition load_byte (as_ vaddr src off : Z) : M kernel bool :=
  phys ← gets (λ s, vmm_virt_to_phys as_ (u64 (vaddr + off)) (kvmm s));
  if phys =? 0 then mret false else
  modify (λ s, set_kmem (wr8 (kmem s) phys (rd8 (kmem s) (u64 (src + off)))) s) ;; mret true.

Definition page_down (a : Z) : Z := Z.land a NOT_FFF.

(** One program header.  The image is not written while it is loaded, so its
    fields are read once. *)
Definition load_segment (as_ elf size phdrs i : Z) : M kernel bool :=
  m ← gets kmem;
  let ph := u64 (phdrs + i * sizeof_Phdr) in
  if negb (p_type m ph =? PT_LOAD) then mret true else
  if p_memsz m ph <? p_filesz m ph then mret false else
  if size <? u64 (p_offset m ph + p_filesz m ph) then mret false else
  let seg_start := page_down (p_vaddr m ph) in
  let seg_end := page_down (u64 (u64 (p_vaddr m ph + p_memsz m ph) + 0xFFF)) in
  if (seg_start <? USER_LOWER_LIMIT) || (USER_UPPER_LIMIT <=? seg_end) then mret false else
  let flags := Z.lor (Z.lor (Z.lor VMM_FLAG_PRESENT VMM_FLAG_USER)
    (if negb (Z.land (p_flags m ph) PF_W =? 0) then VMM_FLAG_WRITE else 0))
    (if Z.land (p_flags m ph) PF_X =? 0 then VMM_FLAG_NX else 0) in
  ok ← for_ok (Z.to_nat ((seg_end - seg_start) / 0x1000)) 0 (load_page as_ seg_start flags);
  if negb ok then mret false else
  for_ok (Z.to_nat (p_filesz m ph)) 0
    (load_byte as_ (p_vaddr m ph) (u64 (elf + p_offset m ph))).

(** The entry point, or [None] for -1. *)
Definition load_elf_into_as (as_ elf size : Z) : M kernel (option Z) :=
  if (as_ =? 0) || (elf =? 0) || (size <? sizeof_Ehdr) then mret None else
  m ← gets kmem;
  if negb ((e_ident m elf 0 =? 0x7F) && (e_ident m elf 1 =? 69) &&
           (e_ident m elf 2 =? 76) && (e_ident m elf 3 =? 70)) then mret None else
  if (e_entry m elf <? USER_LOWER_LIMIT) || (USER_UPPER_LIMIT <=? e_entry m elf) then mret None else
  if size <? u64 (e_phoff m elf + u64 (e_phnum m elf * sizeof_Phdr)) then mret None else
  let phdrs := u64 (elf + e_phoff m elf) in
  ok ← for_ok (Z.to_nat (e_phnum m elf)) 0 (load_segment as_ elf size phdrs);
  if negb ok then mret None else
  e ← gets (λ s, e_entry (kmem s) elf);
  mret (Some e).

Section fueled.
Context (fuel : nat).

Definition process_spawn_from_elf (elf size : Z) : M kernel Z :=
  slot ← gets (λ s, alloc_process_slot (kproc s));
  if slot <? 0 then mret (-1) else
  as_ ← zoom vmm_lens vmm_create_address_space;
  if as_ =? 0 then mret (-1) else
  entry ← load_elf_into_as as_ elf size;
  match entry with
  | None => zoom vmm_lens (vmm_destroy_address_space as_) ;; mret (-1)
  | Some entry =>
  rsp ← map_user_stack as_;
  match rsp with
  | None => zoom vmm_lens (vmm_destroy_address_space as_) ;; mret (-1)
  | Some rsp =>
  npid ← gets (λ s, next_pid (kproc s));
  modify (λ s, set_kproc (Ptable (proc_table (kproc s)) (i32 (npid + 1))) s) ;;
  t ← task_create_user fuel npid as_ entry rsp;
  if t <? 0 then zoom vmm_lens (vmm_destroy_address_space as_) ;; mret (-1) else
  on_proc slot (λ _, MkProcess true npid as_ t entry rsp false 0 false) ;;
  print "[proc spawn pid=" ;; print_dec npid ;; print " tid=" ;; print_dec t ;;
  print " entry=" ;; print_hex entry ;; print "]\n" ;;
  mret npid
  end end.

(** The images the linker embeds: start and end address. *)
Context (hello burn : Z * Z).

Definition process_spawn_builtin (image_id : Z) : M kernel Z :=
  if image_id =? 0 then process_spawn_from_elf (fst hello) (u64 (snd hello - fst hello))
  else if image_id =? 1 then process_spawn_from_elf (fst burn) (u64 (snd burn - fst burn))
  else mret (-1).
End fueled.

(** [p->exited = 1; p->exit_code = code; p->reap_pending = 1;] *)
Definition mark_exited (code : Z) (p : Process) : Process :=
  MkProcess (used p) (p_pid p) (p_address_space p) (main_tid p) (entry_point p) (user_rsp p) true code true.

Definition process_task_exited (pid code : Z) : M kernel unit :=
  s ← gets kproc;
  match find_process_by_pid s pid with
  | None => mret tt
  | Some i =>
      print "[proc exit pid=" ;; print_dec pid ;; print " code=" ;; print_dec code ;; print "]\n" ;;
      on_proc i (mark_exited code)
  end.

Definition dump_slot (i : Z) : M kernel unit :=
  p ← gets (λ s, proc_at (kproc s) i);
  if negb (used p) then mret tt else
  print "proc: " ;; print_dec (p_pid p) ;; print " " ;; print_dec (main_tid p) ;; print " " ;;
  (if exited p then print "EXITED" else print "RUNNING") ;;
  print " " ;; print_dec (p_exit_code p) ;; print "\n".

Definition process_dump_table : M kernel unit :=
  print "proc: pid tid state exit\n" ;; forZ (Z.to_nat MAX_PROCESSES) 0 dump_slot.

Definition process_kill (pid code : Z) : M kernel kill_result :=
  s ← gets kproc;
  match find_process_by_pid s pid with
  | None => mret (Killed (-1))
  | Some i =>
      if exited (proc_at s i) then mret (Killed 1) else
      r ← task_kill_pid pid code;
      match r with
      | Gone t => mret (Gone t)
      | Killed r =>
          if r <? 0 then mret (Killed (-1)) else
          on_proc i (mark_exited code) ;; mret (Killed 0)
      end
  end.

(** Result and, when it is 1, the value stored through [out_code]. *)
Definition process_wait_poll (pid : Z) : M kernel (Z * option Z) :=
  s ← gets kproc;
  match find_process_by_pid s pid with
  | None => mret (-1, None)
  | Some i =>
      let p := proc_at s i in
      if negb (exited p) then mret (0, None) else
      (if negb (reap_pending p) && (p_address_space p =? 0) then
         on_proc i (λ p, MkProcess false 0 (p_address_space p) (-1) 0 0 false 0 (reap_pending p))
       else mret tt) ;;
      mret (1, Some (p_exit_code p))
  end.

Definition process_is_active (pid : Z) (s : ptable) : bool :=
  match find_process_by_pid s pid with
  | None => false
  | Some i => negb (exited (proc_at s i))
  end.

Definition process_count_active (s : ptable) : Z :=
  Z.of_nat (length (List.filter (λ i, used (proc_at s i) && negb (exited (proc_at s i))) all_procs)).

(** ** Operations that touch memory only *)
Definition mem_only {A} (m : M kernel A) : Prop := ∀ s a s', m s = Ok a s' →
  kproc s' = kproc s ∧ ksched s' = ksched s ∧ kout s' = kout s.

Create HintDb memonly.

Lemma mem_only_ret {A} (a : A) : mem_only (mret a).
Proof. by intros s b s' [= _ <-]. Qed.

Lemma mem_only_gets {A} (f : kernel → A) : mem_only (gets f).
Proof. by intros s b s' [= _ <-]. Qed.

Lemma mem_only_bind {A B} (m : M kernel A) (f : A → M kernel B) :
  mem_only m → (∀ a, mem_only (f a)) → mem_only (m ≫= f).
Proof.
  intros Hm Hf s b s' (a & s1 & E1 & E2)%bind_inv.
  destruct (Hm _ _ _ E1) as (? & ? & ?), (Hf _ _ _ _ E2) as (? & ? & ?). split_and!; congruence.
Qed.

Lemma mem_only_vmm {A} (m : M vmm A) : mem_only (zoom vmm_lens m).
Proof. by intros s a s' (t & _ & ->)%zoom_inv. Qed.

Lemma mem_only_pmm {A} (m : M pmm A) : mem_only (zoom pmm_lens m).
Proof. by intros s a s' (t & _ & ->)%zoom_inv. Qed.

Lemma mem_only_kmem f : mem_only (modify (λ s, set_kmem (f s) s)).
Proof. by intros s a s' [= _ <-]. Qed.

Lemma mem_only_if {A} (b : bool) (m1 m2 : M kernel A) :
  mem_only m1 → mem_only m2 → mem_only (if b then m1 else m2).
Proof. by destruct b. Qed.

Lemma mem_only_for_ok n i f : (∀ j, mem_only (f j)) → mem_only (for_ok n i f).
Proof.
  intros Hf. revert i. induction n as [|n IH]; intros i; cbn; [apply mem_only_ret|].
  apply mem_only_bind; [done|]. intros b. apply mem_only_if; [apply IH|apply mem_only_ret].
Qed.

#[export] Hint Resolve mem_only_ret mem_only_gets mem_only_vmm mem_only_pmm mem_only_kmem : memonly.

Ltac mem_only :=
  cbn zeta;
  lazymatch goal with
  | |- mem_only (if _ then _ else _) => apply mem_only_if; mem_only
  | |- mem_only (for_ok _ _ _) => apply mem_only_for_ok; intros ?; mem_only
  | |- mem_only (mbind _ _) => apply mem_only_bind; [mem_only|intros ?; mem_only]
  | |- _ => auto with memonly
  end.

Lemma alloc_zero_page_mem : mem_only alloc_zero_page.
Proof. unfold alloc_zero_page. mem_only. Qed.
#[export] Hint Resolve alloc_zero_page_mem : memonly.

Lemma map_stack_page_mem a i : mem_only (map_stack_page a i).
Proof. unfold map_stack_page. mem_only. Qed.

Lemma load_page_mem a b c i : mem_only (load_page a b c i).
Proof. unfold load_page. mem_only. Qed.

Lemma load_byte_mem a b c i : mem_only (load_byte a b c i).
Proof. unfold load_byte. mem_only. Qed.
#[export] Hint Resolve map_stack_page_mem load_page_mem load_byte_mem : memonly.

Lemma load_segment_mem a elf size ph i : mem_only (load_segment a elf size ph i).
Proof. unfold load_segment. mem_only. Qed.
#[export] Hint Resolve load_segment_mem : memonly.

Lemma map_user_stack_mem a : mem_only (map_user_stack a).
Proof. unfold map_user_stack. mem_only. Qed.

Lemma load_elf_mem a elf size : mem_only (load_elf_into_as a elf size).
Proof. unfold load_elf_into_as. mem_only. Qed.

(** ** The table invariant *)
Record ptable_wf (s : ptable) : Prop := {
  pw_len : length (proc_table s) = 16%nat;
  pw_next : 0 < next_pid s < 2 ^ 31;
  pw_pid : ∀ i, 0 <= i < 16 → used (proc_at s i) = true → 0 < p_pid (proc_at s i) < next_pid s;
  pw_unique : ∀ i j, 0 <= i < 16 → 0 <= j < 16 → used (proc_at s i) = true →
    used (proc_at s j) = true → p_pid (proc_at s i) = p_pid (proc_at s j) → i = j
}.

Lemma find_process_spec s p :
  match find_process_by_pid s p with
  | Some i => 0 <= i < 16 ∧ used (proc_at s i) = true ∧ p_pid (proc_at s i) = p
  | None => ∀ i, 0 <= i < 16 → used (proc_at s i) = true → p_pid (proc_at s i) ≠ p
  end.
Proof.
  unfold find_process_by_pid, all_procs, MAX_PROCESSES.
  pose proof (find_seqZ_first (λ i, used (proc_at s i) && (p_pid (proc_at s i) =? p)) 16) as F.
  destruct (List.find _ _) as [i|].
  - destruct F as (Hi & [Hu Hp%Z.eqb_eq]%andb_prop & _). done.
  - intros i Hi Hu Hp. specialize (F i Hi). cbn in F. by rewrite Hu, Hp, Z.eqb_refl in F.
Qed.

Lemma find_process_unique s i : ptable_wf s → 0 <= i < 16 → used (proc_at s i) = true →
  find_process_by_pid s (p_pid (proc_at s i)) = Some i.
Proof.
  intros W Hi Hu. pose proof (find_process_spec s (p_pid (proc_at s i))) as F.
  destruct (find_process_by_pid s _) as [j|]; [|by destruct (F i Hi Hu)].
  destruct F as (Hj & Huj & Hp). f_equal. by apply (pw_unique _ W).
Qed.

(** An update that keeps the pid of a slot, or frees the slot. *)
Lemma ptable_wf_upd s i f : ptable_wf s → 0 <= i < 16 →
  (used (f (proc_at s i)) = true → used (proc_at s i) = true ∧ p_pid (f (proc_at s i)) = p_pid (proc_at s i)) →
  ptable_wf (upd_proc i f s).
Proof.
  intros [Hl Hn Hp Hu] Hi Hf.
  assert (∀ j, 0 <= j → proc_at (upd_proc i f s) j = if decide (j = i) then f (proc_at s i) else proc_at s j) as Hat
    by (intros; apply proc_at_upd; lia).
  assert (∀ j, 0 <= j < 16 → used (proc_at (upd_proc i f s) j) = true →
    used (proc_at s j) = true ∧ p_pid (proc_at (upd_proc i f s) j) = p_pid (proc_at s j)) as Hk.
  { intros j Hj. rewrite Hat by lia. case_decide; subst; auto. }
  split; [by cbn; rewrite length_insert|done|..].
  - intros j Hj Huj. destruct (Hk j Hj Huj) as [? ->]. by apply Hp.
  - intros j k Hj Hk' Huj Huk. destruct (Hk j Hj Huj) as [? ->], (Hk k Hk' Huk) as [? ->]. by apply Hu.
Qed.

(** ** Spawning *)
Lemma quiet_kproc m s s' : quiet m → m s = Ok tt s' → kproc s' = kproc s ∧ ksched s' = ksched s.
Proof. intros H E. destruct (H s) as (s1 & E1 & ? & ? & _). rewrite E in E1. by injection E1 as <-. Qed.

Lemma alloc_slot_range s : alloc_process_slot s < 0 ∨ 0 <= alloc_process_slot s < 16.
Proof.
  unfold alloc_process_slot, all_procs, MAX_PROCESSES.
  match goal with |- context [List.find ?P _] => pose proof (find_seqZ_first P 16) as F end.
  destruct (List.find _ _) as [i|]; cbn; [right; tauto|left; lia].
Qed.

Lemma spawn_message np t e s r s' :
  (print "[proc spawn pid=" ;; print_dec np ;; print " tid=" ;; print_dec t ;;
   print " entry=" ;; print_hex e ;; print "]\n" ;; mret np) s = Ok r s' →
  r = np ∧ kproc s' = kproc s ∧ ksched s' = ksched s.
Proof. by intros [= <- <-]. Qed.

(** The table after a spawn: unchanged entries and -1, or one new entry with
    the next pid, whose task is ready to run. *)
Lemma spawn_run fuel elf size s r s' :
  process_spawn_from_elf fuel elf size s = Ok r s' → sched_wf (ksched s) →
  (r = -1 ∧ proc_table (kproc s') = proc_table (kproc s) ∧
     (next_pid (kproc s') = next_pid (kproc s) ∨ next_pid (kproc s') = i32 (next_pid (kproc s) + 1))) ∨
  (∃ a t e u slot, r = next_pid (kproc s) ∧ a ≠ 0 ∧ 0 <= t < 16 ∧ slot = alloc_process_slot (kproc s) ∧
     0 <= slot < 16 ∧
     kproc s' = upd_proc slot (λ _, MkProcess true r a t e u false 0 false)
       (Ptable (proc_table (kproc s)) (i32 (next_pid (kproc s) + 1))) ∧
     state (task_at (ksched s') t) = TASK_RUNNABLE ∧ pid (task_at (ksched s') t) = r ∧
     is_user (task_at (ksched s') t) = true ∧ address_space (task_at (ksched s') t) = a).
Proof.
  intros H W. unfold process_spawn_from_elf in H.
  apply bind_inv in H as (slot & s0 & E & H). injection E as <- <-.
  pose proof (alloc_slot_range (kproc s)) as Hslot.
  destruct (Z.ltb_spec (alloc_process_slot (kproc s)) 0); [injection H as <- <-; by left; auto|].
  apply bind_inv in H as (a & s1 & E & H). apply mem_only_vmm in E as (Ep1 & Es1 & _).
  destruct (Z.eqb_spec a 0); [injection H as <- <-; left; rewrite Ep1; by auto|].
  apply bind_inv in H as ([e|] & s2 & E & H); apply load_elf_mem in E as (Ep2 & Es2 & _).
  2:{ apply bind_inv in H as (? & s3 & E & H). apply mem_only_vmm in E as (Ep3 & _). injection H as <- <-.
      left. rewrite Ep3, Ep2, Ep1. auto. }
  apply bind_inv in H as ([u|] & s3 & E & H); apply map_user_stack_mem in E as (Ep3 & Es3 & _).
  2:{ apply bind_inv in H as (? & s4 & E & H). apply mem_only_vmm in E as (Ep4 & _). injection H as <- <-.
      left. rewrite Ep4, Ep3, Ep2, Ep1. auto. }
  apply bind_inv in H as (np & s4 & E & H). injection E as <- <-.
  apply bind_inv in H as ([] & s4 & E & H). injection E as <-.
  apply bind_inv in H as (t & s5 & E & H). unfold task_create_user in E.
  apply task_create_run in E as [Ep4 Hc]; [|cbn; by rewrite Es3, Es2, Es1].
  cbn [kproc set_kproc] in Ep4. rewrite Ep3, Ep2, Ep1 in Ep4, H.
  destruct (Z.ltb_spec t 0).
  { apply bind_inv in H as (? & s6 & E & H). apply mem_only_vmm in E as (Ep5 & _). injection H as <- <-.
    left. rewrite Ep5, Ep4. auto. }
  destruct Hc as [[? _]|(tb & stack & pml4 & Ht & Wt & Est)]; [lia|].
  apply bind_inv in H as ([] & s6 & E & H). injection E as <-.
  apply spawn_message in H as (-> & Epf & Esf). cbn [kproc ksched set_kproc] in Epf, Esf. rewrite Ep4 in Epf.
  right. exists a, t, e, u, (alloc_process_slot (kproc s)). rewrite Esf, Est.
  rewrite task_at_upd, decide_True by (rewrite ?(sw_len _ Wt); lia).
  split_and!; try (done || lia). cbn. by rewrite Ep3, Ep2, Ep1.
Qed.

(** Advancing the pid counter, and entering a process under the next pid. *)
Lemma ptable_wf_bump s k : ptable_wf s → next_pid s <= k < 2 ^ 31 → ptable_wf (Ptable (proc_table s) k).
Proof.
  intros [Wl Wn Wp Wu] Hk. split; [done|cbn; lia| |exact Wu].
  intros i Hi Hu. destruct (Wp i Hi Hu) as [Hp1 Hp2]. split; [apply Hp1|].
  eapply Z.lt_le_trans; [apply Hp2|apply Hk].
Qed.

Lemma ptable_wf_new s i q : ptable_wf s → 0 <= i < 16 → p_pid q = next_pid s → next_pid s < 2 ^ 31 - 1 →
  ptable_wf (upd_proc i (λ _, q) (Ptable (proc_table s) (next_pid s + 1))).
Proof.
  intros [Wl Wn Wp Wu] Hi Hq Hn.
  assert (∀ j, 0 <= j → proc_at (upd_proc i (λ _, q) (Ptable (proc_table s) (next_pid s + 1))) j =
    if decide (j = i) then q else proc_at s j) as Hat.
  { intros j Hj. rewrite proc_at_upd by (cbn; lia). by case_decide. }
  split; [cbn; by rewrite length_insert|cbn; lia|..].
  - intros j Hj. rewrite Hat by lia. cbn [next_pid upd_proc]. case_decide; [lia|].
    intros Hu. pose proof (Wp j Hj Hu). lia.
  - intros j k Hj Hk. rewrite !Hat by lia. repeat case_decide; subst; try done; cbn.
    + intros _ Hu E. pose proof (Wp k Hk Hu). lia.
    + intros Hu _ E. pose proof (Wp j Hj Hu). lia.
    + by apply Wu.
Qed.

Lemma i32_succ n : 0 < n < 2 ^ 31 - 1 → i32 (n + 1) = n + 1.
Proof. intros. unfold i32. rewrite Z.mod_small by lia. lia. Qed.

Lemma spawn_wf fuel elf size s r s' :
  sched_wf (ksched s) → ptable_wf (kproc s) → next_pid (kproc s) < 2 ^ 31 - 1 →
  process_spawn_from_elf fuel elf size s = Ok r s' → ptable_wf (kproc s').
Proof.
  intros Ws W Hn H. pose proof (pw_next _ W).
  destruct (spawn_run _ _ _ _ _ _ H Ws) as [(_ & Ep & Hnp)|(a & t & e & u & i & Hr & _ & _ & _ & Hi & Ep & _)].
  - destruct (kproc s') as [tb k]. cbn in Ep, Hnp. subst tb. apply ptable_wf_bump; [done|].
    rewrite i32_succ in Hnp by lia. lia.
  - rewrite Ep, i32_succ by lia. by apply ptable_wf_new.
Qed.


(** ** Exit, reaping and collection *)

(** The effect of the reaper on one entry. *)
Definition reap1 (current_as : Z) (p : Process) : Process :=
  if used p && reap_pending p && ((p_address_space p =? 0) || negb (current_as =? p_address_space p))
  then reaped p else p.

Definition as_of_current (s : kernel) : Z :=
  match task_current s with Some i => address_space (task_at (ksched s) i) | None => 0 end.

Lemma reap_slot_run c i s : 0 <= i < 16 → length (proc_table (kproc s)) = 16%nat →
  ∃ s', reap_slot c i s = Ok tt s' ∧ ksched s' = ksched s ∧
    kproc s' = upd_proc i (reap1 c) (kproc s).
Proof.
  intros Hi Hl. unfold reap_slot, gets. unfold mbind at 1, M_bind at 1. set (p := proc_at (kproc s) i).
  assert (reap1 c p = p → kproc s = upd_proc i (reap1 c) (kproc s)) as Hid.
  { intros E. unfold upd_proc. fold p. rewrite E. unfold p, proc_at. destruct (kproc s) as [l n]. cbn in *.
    f_equal. symmetry. apply list_insert_id. rewrite nth_lookup.
    destruct (lookup_lt_is_Some_2 l (Z.to_nat i)) as [x Hx]; [lia|]. by rewrite Hx. }
  destruct (negb (used p) || negb (reap_pending p)) eqn:E1.
  { exists s. split_and!; [done|done|]. apply Hid. unfold reap1.
    destruct (used p), (reap_pending p); try done. }
  apply orb_false_iff in E1 as [Hu%negb_false_iff Hr%negb_false_iff].
  destruct (p_address_space p =? 0) eqn:Ez.
  { eexists. split; [done|]. split; [done|]. cbn. unfold upd_proc. fold p. unfold reap1. by rewrite Hu, Hr, Ez. }
  destruct (c =? p_address_space p) eqn:Ec.
  { exists s. split_and!; [done|done|]. apply Hid. unfold reap1. by rewrite Hu, Hr, Ez, Ec. }
  destruct (vmm_destroy_total (p_address_space p) (kvmm s)) as (v & E & _).
  rewrite (bind_Ok _ _ _ tt (set_kvmm v s)) by (by apply (zoom_Ok vmm_lens)).
  eexists. split; [done|]. split; [done|]. cbn. unfold upd_proc. fold p. unfold reap1. by rewrite Hu, Hr, Ez, Ec.
Qed.

Lemma reap_run s : length (proc_table (kproc s)) = 16%nat →
  ∃ s', process_reap_deferred s = Ok tt s' ∧ ksched s' = ksched s ∧
    next_pid (kproc s') = next_pid (kproc s) ∧ length (proc_table (kproc s')) = 16%nat ∧
    ∀ j, 0 <= j < 16 → proc_at (kproc s') j = reap1 (as_of_current s) (proc_at (kproc s) j).
Proof.
  intros Hl. unfold process_reap_deferred, gets. unfold mbind, M_bind. change (id s) with s.
  fold (as_of_current s). set (c := as_of_current s).
  destruct (forZ_inv (λ k t, ksched t = ksched s ∧ next_pid (kproc t) = next_pid (kproc s) ∧
    length (proc_table (kproc t)) = 16%nat ∧
    ∀ j, 0 <= j < 16 → proc_at (kproc t) j =
      if decide (j < k) then reap1 c (proc_at (kproc s) j) else proc_at (kproc s) j)
    16 0 (reap_slot c) s) as (s' & E & H1 & H2 & H3 & H4).
  - split_and!; try done. intros j Hj. by rewrite decide_False by lia.
  - intros k t Hk (I1 & I2 & I3 & I4).
    destruct (reap_slot_run c k t ltac:(lia) I3) as (t' & E & Es & Ep). exists t'. split; [done|].
    rewrite Es, Ep. split_and!; [done|done|cbn; by rewrite length_insert|].
    intros j Hj. rewrite proc_at_upd by lia. rewrite !I4 by lia.
    repeat case_decide; subst; (done || lia).
  - exists s'. split_and!; try done. intros j Hj. rewrite H4 by done. by rewrite decide_True by lia.
Qed.

Lemma find_none s p : (∀ i, 0 <= i < 16 → used (proc_at s i) = true → p_pid (proc_at s i) ≠ p) →
  find_process_by_pid s p = None.
Proof.
  intros H. pose proof (find_process_spec s p) as F. destruct (find_process_by_pid s p) as [i|]; [|done].
  destruct F as (Hi & Hu & Hp). by destruct (H i Hi Hu).
Qed.

Lemma exited_run p code s i : find_process_by_pid (kproc s) p = Some i →
  ∃ s', process_task_exited p code s = Ok tt s' ∧ ksched s' = ksched s ∧
    kproc s' = upd_proc i (mark_exited code) (kproc s).
Proof.
  intros Hf. unfold process_task_exited, gets. unfold mbind at 1, M_bind at 1. rewrite Hf.
  assert (quiet (print "[proc exit pid=" ;; print_dec p ;; print " code=" ;; print_dec code ;; print "]\n")) as Q
    by (unfold print, print_dec; repeat (apply quiet_bind; [apply quiet_put|]); apply quiet_put).
  destruct (Q s) as (s1 & E & Es & Ep & _).
  exists (set_kproc (upd_proc i (mark_exited code) (kproc s1)) s1). split_and!; [|done|by cbn; rewrite Ep].
  unfold mbind, M_bind in *. unfold print, print_dec, put, modify in *. cbn in E. injection E as <-. done.
Qed.

(** C27. The exit code reaches whoever waits.  After a process has exited
    with [code], polling returns 1 with that code and keeps the entry as long
    as its address space has not been destroyed; once the reaper has run from
    another address space, polling returns the code one last time and the
    entry is gone.  No other entry is changed by the exit and the polls. *)
Theorem process_exit_collected s p i code t :
  ptable_wf (kproc s) → find_process_by_pid (kproc s) p = Some i →
  let c := as_of_current (set_ksched t s) in
  p_address_space (proc_at (kproc s) i) ≠ 0 → c ≠ p_address_space (proc_at (kproc s) i) →
  ∃ s1 s2 s3, process_task_exited p code s = Ok tt s1 ∧
    process_wait_poll p s1 = Ok (1, Some code) s1 ∧
    process_reap_deferred (set_ksched t s1) = Ok tt s2 ∧
    process_wait_poll p s2 = Ok (1, Some code) s3 ∧
    find_process_by_pid (kproc s3) p = None ∧ ptable_wf (kproc s3) ∧
    ∀ j, 0 <= j < 16 → j ≠ i → proc_at (kproc s3) j = reap1 c (proc_at (kproc s) j).
Proof.
  intros W Hf c Ha Hc. pose proof (find_process_spec (kproc s) p) as F. rewrite Hf in F.
  destruct F as (Hi & Hu & Hp). pose proof (pw_len _ W) as Hl.
  destruct (exited_run p code s i Hf) as (s1 & E1 & Es1 & Ep1).
  assert (∀ j, 0 <= j → proc_at (kproc s1) j =
    if decide (j = i) then mark_exited code (proc_at (kproc s) i) else proc_at (kproc s) j) as H1.
  { intros j Hj. rewrite Ep1. apply proc_at_upd; lia. }
  assert (ptable_wf (kproc s1)) as W1 by (rewrite Ep1; by apply ptable_wf_upd).
  assert (find_process_by_pid (kproc s1) p = Some i) as Hf1.
  { rewrite <-Hp. replace (p_pid (proc_at (kproc s) i)) with (p_pid (proc_at (kproc s1) i))
      by (rewrite H1, decide_True by (done || lia); done).
    apply find_process_unique; [done|done|]. by rewrite H1, decide_True by (done || lia). }
  destruct (reap_run (set_ksched t s1) (pw_len _ W1)) as (s2 & E2 & _ & En2 & El2 & H2).
  change (as_of_current (set_ksched t s1)) with c in H2. change (kproc (set_ksched t s1)) with (kproc s1) in *.
  assert (proc_at (kproc s2) i = reaped (mark_exited code (proc_at (kproc s) i))) as Hi2.
  { rewrite H2 by done. rewrite H1, decide_True by (done || lia). unfold reap1. cbn. rewrite Hu.
    destruct (Z.eqb_spec (p_address_space (proc_at (kproc s) i)) 0); [done|].
    by destruct (Z.eqb_spec c (p_address_space (proc_at (kproc s) i))). }
  assert (∀ q, used (reap1 c q) = used q ∧ p_pid (reap1 c q) = p_pid q) as Hr1
    by (intros q; unfold reap1; by destruct (_ && _)).
  assert (ptable_wf (kproc s2)) as W2.
  { destruct W1 as [Wl Wn Wp Wu]. split; [done|by rewrite En2|..].
    - intros j Hj. rewrite H2 by done. destruct (Hr1 (proc_at (kproc s1) j)) as [-> ->]. rewrite En2. by apply Wp.
    - intros j k Hj Hk. rewrite !H2 by done. destruct (Hr1 (proc_at (kproc s1) j)) as [-> ->], (Hr1 (proc_at (kproc s1) k)) as [-> ->].
      by apply Wu. }
  assert (find_process_by_pid (kproc s2) p = Some i) as Hf2.
  { pose proof (find_process_unique _ i W2 Hi) as F. rewrite Hi2 in F. cbn in F. rewrite Hp in F. by apply F. }
  set (f := λ p, MkProcess false 0 (p_address_space p) (-1) 0 0 false 0 (reap_pending p)).
  exists s1, s2, (set_kproc (upd_proc i f (kproc s2)) s2).
  assert (∀ j, 0 <= j → proc_at (upd_proc i f (kproc s2)) j =
    if decide (j = i) then f (proc_at (kproc s2) i) else proc_at (kproc s2) j) as H3.
  { intros j Hj. apply proc_at_upd; lia. }
  split_and!; [done| |done| | | |].
  - unfold process_wait_poll, mbind, M_bind, gets. rewrite Hf1, H1, decide_True by (done || lia). done.
  - unfold process_wait_poll, mbind, M_bind, gets. rewrite Hf2, Hi2. done.
  - apply find_none. cbn [kproc set_kproc]. intros j Hj. rewrite H3 by lia. case_decide as D; [done|].
    intros Huj Hpj. apply D. apply (pw_unique _ W2); try done; [by rewrite Hi2|]. rewrite Hi2. cbn. congruence.
  - by apply ptable_wf_upd.
  - intros j Hj Hne. cbn [kproc set_kproc]. rewrite H3, decide_False, H2, H1, decide_False by (done || lia). done.
Qed.

(** ** The invariant over all operations *)
Inductive pstep (fuel : nat) : kernel → kernel → Prop :=
| ps_spawn s elf size r s' : sched_wf (ksched s) → next_pid (kproc s) < 2 ^ 31 - 1 →
    process_spawn_from_elf fuel elf size s = Ok r s' → pstep fuel s s'
| ps_exited s p c s' : process_task_exited p c s = Ok tt s' → pstep fuel s s'
| ps_kill s p c r s' : process_kill p c s = Ok r s' → pstep fuel s s'
| ps_poll s p r s' : process_wait_poll p s = Ok r s' → pstep fuel s s'
| ps_reap s s' : process_reap_deferred s = Ok tt s' → pstep fuel s s'
| ps_other s s' : kproc s' = kproc s → pstep fuel s s'.


Lemma exit_kproc c s t s' : task_exit c s = Ok t s' → kproc s' = kproc s.
Proof.
  intros H. unfold task_exit in H. apply bind_inv in H as (x & s0 & E & H). injection E as <- <-.
  destruct (task_current _); [|done]. 
  apply bind_inv in H as (? & s1 & E & H). injection E as <- <-. apply bind_inv in H as (? & s1 & E & H). injection E as <- <-.
  apply bind_inv in H as (? & s1 & E & H). injection E as <- <-. apply bind_inv in H as (? & s1 & E & H). injection E as <- <-.
  apply bind_inv in H as ([] & s1 & E & H). injection H as <- <-.
  by apply quiet_kproc in E as [-> _]; [|apply log_quiet].
Qed.

Lemma kill_kproc p c s r s' : task_kill_pid p c s = Ok r s' → kproc s' = kproc s.
Proof.
  intros H. unfold task_kill_pid in H. destruct (p <=? 0); [by injection H as <- <-|].
  apply bind_inv in H as (x & s0 & E & H). injection E as <- <-.
  destruct (first_task _ _) as [i|]; [|by injection H as <- <-].
  destruct (i =? _).
  { apply bind_inv in H as (? & s1 & E & H). injection H as <- <-. by eapply exit_kproc. }
  apply bind_inv in H as (? & s1 & E & H). injection E as <- <-. apply bind_inv in H as (? & s1 & E & H). injection E as <- <-.
  apply bind_inv in H as (? & s1 & E & H). injection E as <- <-. apply bind_inv in H as (? & s1 & E & H). injection E as <- <-.
  apply bind_inv in H as ([] & s1 & E & H). injection H as <- <-.
  by apply quiet_kproc in E as [-> _]; [|apply log_quiet].
Qed.

Lemma pstep_wf fuel s s' : pstep fuel s s' → ptable_wf (kproc s) → ptable_wf (kproc s').
Proof.
  intros [s0 elf size r s1 Ws Hn E|s0 p c s1 E|s0 p c r s1 E|s0 p r s1 E|s0 s1 E|s0 s1 E] W.
  - by eapply spawn_wf.
  - pose proof (find_process_spec (kproc s0) p) as F.
    destruct (find_process_by_pid (kproc s0) p) as [i|] eqn:Hf.
    + destruct (exited_run p c s0 i Hf) as (s2 & E2 & _ & Ep). rewrite E in E2. injection E2 as <-.
      rewrite Ep. destruct F as (Hi & Hu & _). by apply ptable_wf_upd.
    + unfold process_task_exited, mbind, M_bind, gets in E. rewrite Hf in E. by injection E as <-.
  - unfold process_kill in E. apply bind_inv in E as (x & s2 & E0 & E). injection E0 as <- <-.
    pose proof (find_process_spec (kproc s0) p) as F.
    destruct (find_process_by_pid (kproc s0) p) as [i|]; [|by injection E as <- <-].
    destruct (exited _); [by injection E as <- <-|]. apply bind_inv in E as (k & s2 & E0 & E).
    apply kill_kproc in E0. destruct k as [k|t]; [|injection E as <- <-; by rewrite E0].
    destruct (k <? 0); [injection E as <- <-; by rewrite E0|].
    apply bind_inv in E as (? & s3 & E1 & E). injection E1 as <- <-. injection E as <- <-. cbn. rewrite E0.
    destruct F as (Hi & Hu & _). by apply ptable_wf_upd.
  - unfold process_wait_poll in E. apply bind_inv in E as (x & s2 & E0 & E). injection E0 as <- <-.
    pose proof (find_process_spec (kproc s0) p) as F.
    destruct (find_process_by_pid (kproc s0) p) as [i|]; [|by injection E as <- <-].
    destruct (negb (exited _)); [by injection E as <- <-|].
    apply bind_inv in E as (? & s2 & E0 & E). injection E as <- <-. destruct F as (Hi & _ & _).
    destruct (_ && _); injection E0 as <- <-; [|done]. cbn. by apply ptable_wf_upd.
  - destruct (reap_run s0 (pw_len _ W)) as (s2 & E2 & _ & En & El & H). rewrite E in E2. injection E2 as <-.
    assert (∀ q, used (reap1 (as_of_current s0) q) = used q ∧ p_pid (reap1 (as_of_current s0) q) = p_pid q) as Hr
      by (intros q; unfold reap1; by destruct (_ && _)).
    destruct W as [Wl Wn Wp Wu]. split; [done|by rewrite En|..].
    + intros j Hj. rewrite H by done. destruct (Hr (proc_at (kproc s0) j)) as [-> ->]. rewrite En. by apply Wp.
    + intros j k Hj Hk. rewrite !H by done.
      destruct (Hr (proc_at (kproc s0) j)) as [-> ->], (Hr (proc_at (kproc s0) k)) as [-> ->]. by apply Wu.
  - by rewrite E.
Qed.


(** ** Examples *)

(** All sixteen entries in use. *)
Definition ex_full : kernel :=
  set_kproc (Ptable (map (λ i, MkProcess true (i + 1) 0x4000 2 0 0 false 0 false) all_procs) 17) ex_kernel.

Lemma ex_full_wf : ptable_wf (kproc ex_full).
Proof.
  assert (∀ i, 0 <= i < 16 → p_pid (proc_at (kproc ex_full) i) = i + 1) as H by all_slots.
  split; [done|done|all_slots|]. intros i j Hi Hj _ _. rewrite !H by done. lia.
Qed.


(** Process 1 with the address space at 0x4000, scheduled from task 0. *)
Definition ex_one : kernel :=
  set_kproc (Ptable (MkProcess true 1 0x4000 2 0x400000 0 false 0 false :: replicate 15 proc0) 2) ex_kernel.

Lemma ex_one_wf : ptable_wf (kproc ex_one).
Proof.
  assert (∀ i, 0 <= i < 16 → used (proc_at (kproc ex_one) i) = true → i = 0) as H by all_slots.
  split; [done|done|all_slots|]. intros i j Hi Hj Hu Hu' _. rewrite (H i), (H j) by done. done.
Qed.

Lemma process_exit_collected_witness : ∃ s1 s2 s3,
  process_task_exited 1 42 ex_one = Ok tt s1 ∧
  process_reap_deferred (set_ksched ex_sched s1) = Ok tt s2 ∧
  process_wait_poll 1 s2 = Ok (1, Some 42) s3 ∧ find_process_by_pid (kproc s3) 1 = None.
Proof.
  destruct (process_exit_collected ex_one 1 0 42 ex_sched ex_one_wf eq_refl)
    as (s1 & s2 & s3 & E1 & _ & E2 & E3 & F & _); [done|done|].
  exists s1, s2, s3. split_and!; [exact E1|exact E2|exact E3|exact F].
Defined.

