(* ===== verification/Syscall.v ===== *)
(** * System calls (kernel/syscall.c)

    The dispatcher behind [int $0x80].  The trap frame lives in memory at the
    address the entry stub passes; user memory is read through the page tables
    in CR3 as the processor does it. *)
From stdpp Require Import base gmap list list_numbers strings.
From S2P Require Import Prelude Monad Mem Pmm Vmm Kmalloc Kernel Task Process.

Definition SYS_WRITE : Z := 0.
Definition SYS_EXIT : Z := 1.
Definition SYS_YIELD : Z := 2.
Definition SYS_SPAWN : Z := 3.
Definition SYS_GETPID : Z := 4.
Definition USER_TOP : Z := 0x0000800000000000.

Definition frame_rax (s : kernel) (frame : Z) : Z := rd64 (kmem s) (frame + FRAME_RAX).
Definition frame_rbx (s : kernel) (frame : Z) : Z := rd64 (kmem s) (frame + FRAME_RBX).
Definition frame_rcx (s : kernel) (frame : Z) : Z := rd64 (kmem s) (frame + FRAME_RCX).

Definition ret_err (errno_val : Z) : Z := u64 (0 - errno_val).

Definition load_user (va : Z) : M kernel Z :=
  s ← gets id;
  match mmu (kmem s) (cr3 (kvmm s)) va with
  | Some p => mret (rd8 (kmem s) p)
  | None => panic "Page Fault"
  end.

Definition user_range_valid (as_ start len : Z) (v : vmm) : bool :=
  if as_ =? 0 then false
  else if len =? 0 then true
  else if USER_TOP <=? start then false
  else if u64 (start + len) <? start then false
  else if USER_TOP <? u64 (start + len) then false
  else
    let from := page_down start in
    let to := page_down (u64 (u64 (start + len) - 1)) in
    forallb (λ i, negb (vmm_virt_to_phys as_ (from + i * 0x1000) v =? 0))
            (seqZ 0 ((to - from) / 0x1000 + 1)).

(** [char out[2] = { s[i], 0 }; print(out);] *)
Definition write_char (s i : Z) : M kernel unit :=
  c ← load_user (u64 (s + i));
  if c =? 0 then mret tt else put (Chr c).

Definition sys_write (frame : Z) : M kernel Z :=
  s ← gets id;
  match task_current s with
  | None => mret (ret_err 1)
  | Some i =>
      let t := task_at (ksched s) i in
      if negb (is_user t) then mret (ret_err 1) else
      let user_ptr := frame_rbx s frame in
      let len := frame_rcx s frame in
      if 4096 <? len then mret (ret_err 22) else
      if negb (user_range_valid (address_space t) user_ptr len (kvmm s)) then mret (ret_err 14) else
      forZ (Z.to_nat len) 0 (write_char user_ptr) ;;
      put Flush ;;
      mret len
  end.

Definition sys_exit (frame : Z) : M kernel Z :=
  s ← gets id;
  let code := i32 (Z.land (frame_rbx s frame) 0xFFFFFFFF) in
  let pid := task_current_pid s in
  process_task_exited pid code ;;
  s ← gets id;
  (match task_current s with
   | Some i => on_task i (set_exit_code code) ;; on_task i (set_state TASK_ZOMBIE)
   | None => mret tt
   end) ;;
  mret (ret_err 11).

Definition sys_yield : M kernel Z := mret 0.

Definition sys_getpid : M kernel Z :=
  s ← gets id;
  let pid := task_current_pid s in
  mret (if pid <? 0 then ret_err 3 else u64 pid).

Section fueled.
Context (fuel : nat) (hello burn : Z * Z).

Definition sys_spawn (frame : Z) : M kernel Z :=
  s ← gets id;
  let image_id := i32 (Z.land (frame_rbx s frame) 0xFFFFFFFF) in
  pid ← process_spawn_builtin fuel hello burn image_id;
  mret (if pid <? 0 then ret_err 12 else u64 pid).

(** The switch on [frame->rax]. *)
Definition syscall_body (frame : Z) : M kernel Z :=
  nr ← gets (λ s, frame_rax s frame);
  if nr =? SYS_WRITE then sys_write frame
  else if nr =? SYS_EXIT then sys_exit frame
  else if nr =? SYS_YIELD then sys_yield
  else if nr =? SYS_SPAWN then sys_spawn frame
  else if nr =? SYS_GETPID then sys_getpid
  else mret (ret_err 38).

Definition syscall_dispatch (frame : Z) : M kernel Z :=
  if frame =? 0 then mret 0 else
  ret ← syscall_body frame;
  modify (λ s, set_kmem (wr64 (kmem s) (frame + FRAME_RAX) ret) s) ;;
  s ← gets id;
  if (frame_rax s frame =? ret_err 11) || (frame_rax s frame =? 0) then
    (match task_current s with
     | Some i =>
         let t := task_at (ksched s) i in
         if negb (is_state TASK_WAITING t) && negb (is_state TASK_ZOMBIE t)
         then on_task i (set_state TASK_RUNNABLE) else mret tt
     | None => mret tt
     end) ;;
    task_schedule_from_interrupt frame
  else mret 0.
End fueled.

(** ** Address ranges *)
Lemma page_down_div a : 0 <= a < 2 ^ 64 → page_down a = a / 4096 * 4096.
Proof.
  intros Ha. unfold page_down. replace NOT_FFF with (Z.shiftl (Z.ones 52) 12) by done.
  change 4096 with (2 ^ 12). rewrite <-Z.shiftr_div_pow2, <-Z.shiftl_mul_pow2 by lia.
  apply Z.bits_inj'. intros i Hi. rewrite Z.land_spec, !Z.shiftl_spec by done.
  destruct (Z.lt_ge_cases i 12).
  { rewrite !(Z.testbit_neg_r _ (i - 12)) by lia. apply andb_false_r. }
  rewrite Z.shiftr_spec by lia. replace (i - 12 + 12) with i by lia.
  destruct (Z.lt_ge_cases i 64); [|by rewrite (testbit_lt a 64 i)].
  rewrite Z.ones_spec_low by lia. apply andb_true_r.
Qed.

Lemma forallb_seqZ (P : Z → bool) n :
  forallb P (seqZ 0 n) = true ↔ ∀ i, 0 <= i < n → P i = true.
Proof.
  rewrite forallb_forall. split.
  - intros H i Hi. apply H, list_elem_of_In, elem_of_seqZ. lia.
  - intros H i Hi%list_elem_of_In%elem_of_seqZ. apply H. lia.
Qed.

Lemma range_valid_spec a start len v : a ≠ 0 → 0 <= start < 2 ^ 64 → 0 <= len < 2 ^ 64 →
  user_range_valid a start len v = true ↔
  len = 0 ∨ (start + len <= USER_TOP ∧
    ∀ x, start <= x < start + len → vmm_virt_to_phys a (x / 4096 * 4096) v ≠ 0).
Proof.
  intros Ha Hs Hl. unfold user_range_valid, USER_TOP in *.
  destruct (Z.eqb_spec a 0); [done|]. destruct (Z.eqb_spec len 0); [by split; [left|]|].
  destruct (Z.leb_spec 0x800000000000 start); [split; [done|intros [?|[? _]]; lia]|].
  destruct (Z.lt_ge_cases (start + len) (2 ^ 64)) as [Hsum|Hsum].
  2:{ replace (u64 (start + len)) with (start + len - 2 ^ 64) by (unfold u64; arith).
      destruct (Z.ltb_spec (start + len - 2 ^ 64) start); [|lia]. split; [done|intros [?|[? _]]; lia]. }
  rewrite (u64_small (start + len)) by lia. destruct (Z.ltb_spec (start + len) start); [lia|].
  destruct (Z.ltb_spec 0x800000000000 (start + len)); [split; [done|intros [?|[? _]]; lia]|].
  rewrite (u64_small (start + len - 1)), !page_down_div, forallb_seqZ by lia.
  set (f := start / 4096). set (t := (start + len - 1) / 4096).
  replace ((t * 4096 - f * 4096) / 4096) with (t - f) by (replace (t * 4096 - f * 4096) with ((t - f) * 4096) by lia; by rewrite Z.div_mul).
  split.
  - intros F. right. split; [lia|]. intros x Hx E.
    specialize (F (x / 4096 - f)). rewrite <-Z.mul_add_distr_r in F.
    replace (f + (x / 4096 - f)) with (x / 4096) in F by lia. rewrite E in F.
    assert (f <= x / 4096 <= t) by (unfold f, t; split; apply Z.div_le_mono; lia). by specialize (F ltac:(lia)).
  - intros [?|[_ F]] i Hi; [lia|]. rewrite <-Z.mul_add_distr_r.
    set (x := Z.max start ((f + i) * 4096)).
    assert (x / 4096 = f + i) as Ex by (unfold x, f in *; arith).
    specialize (F x). rewrite Ex in F. apply negb_true_iff, Z.eqb_neq, F.
    unfold x, f, t in *. arith.
Qed.

(** ** Translation by the processor *)
Lemma index_page x k : 12 <= k → Z.shiftr (x / 4096 * 4096) k = Z.shiftr x k.
Proof.
  intros Hk. change 4096 with (2 ^ 12). rewrite <-Z.shiftr_div_pow2, <-Z.shiftl_mul_pow2 by lia.
  apply Z.bits_inj'. intros i Hi. rewrite !Z.shiftr_spec, Z.shiftl_spec, Z.shiftr_spec by lia. f_equal. lia.
Qed.

Lemma same_page_path x : path3 (x / 4096 * 4096) = path3 x ∧ pt_index (x / 4096 * 4096) = pt_index x.
Proof. unfold path3, pml4_index, pdpt_index, pd_index, pt_index. by rewrite !index_page by lia. Qed.

Lemma leaf_page m root x : leaf m root (x / 4096 * 4096) = leaf m root x.
Proof. destruct (same_page_path x) as [E1 E2]. unfold leaf. by rewrite E1, E2. Qed.

Lemma no_huge_page m root x : no_huge m root x → no_huge m root (x / 4096 * 4096).
Proof.
  unfold no_huge, pml4_index, pdpt_index, pd_index. by rewrite !index_page by lia.
Qed.

(** Where no huge page is involved the processor sees the leaf entry. *)
Lemma mmu_leaf v asp root w : as_wf v asp root → no_huge (vmem v) root w →
  present (leaf (vmem v) root w) = true →
  mmu (vmem v) root w = Some (Z.lor (Z.land (leaf (vmem v) root w) ADDR_MASK) (Z.land w 0xFFF)).
Proof.
  intros A NH. unfold leaf. destruct (walk (vmem v) root (path3 w)) as [pt|] eqn:W; [|done].
  unfold path3 in W. cbn [walk] in W. unfold mmu.
  destruct (next (vmem v) root (pml4_index w)) as [pdpt|] eqn:N4; [|done]. cbn in W.
  destruct (next (vmem v) pdpt (pdpt_index w)) as [pd|] eqn:N3; [|done]. cbn in W.
  destruct (next (vmem v) pd (pd_index w)) as [pt'|] eqn:N2; [|done]. cbn in W. injection W as ->.
  unfold next in N4, N3, N2. intros P1.
  destruct (present (entry (vmem v) root (pml4_index w))); [|done].
  destruct (huge (entry (vmem v) root (pml4_index w))); [done|]. injection N4 as ->. cbn [negb].
  destruct (present (entry (vmem v) pdpt (pdpt_index w))); [|done].
  destruct (huge (entry (vmem v) pdpt (pdpt_index w))); [done|]. injection N3 as ->. cbn [negb].
  destruct (present (entry (vmem v) pd (pd_index w))); [|done].
  destruct (huge (entry (vmem v) pd (pd_index w))); [done|]. injection N2 as ->. cbn [negb].
  by rewrite P1.
Qed.

(** A page accepted by [user_range_valid] is mapped. *)
Lemma valid_mmu v asp root x : as_wf v asp root → no_huge (vmem v) root x →
  vmm_virt_to_phys asp (x / 4096 * 4096) v ≠ 0 → mmu (vmem v) root x = Some (vmm_virt_to_phys asp x v).
Proof.
  intros A NH Hv. rewrite (virt_to_phys_leaf v asp root) in Hv by (done || by apply no_huge_page).
  rewrite leaf_page in Hv. cbn zeta in Hv. destruct (present (leaf (vmem v) root x)) eqn:P; [|done].
  rewrite (virt_to_phys_leaf v asp root x A NH), (mmu_leaf v asp root x A NH P). cbn zeta. by rewrite P.
Qed.

(** ** write *)

(** The characters [write] shows for the bytes [cs]. *)
Definition shown (cs : list Z) : list out := map Chr (List.filter (λ c, negb (c =? 0)) cs).

Definition user_bytes (v : vmm) (asp start n : Z) : list Z :=
  map (λ i, rd8 (vmem v) (vmm_virt_to_phys asp (start + i) v)) (seqZ 0 n).

Lemma shown_app a b : shown (a ++ b) = shown a ++ shown b.
Proof. unfold shown. by rewrite List.filter_app, map_app. Qed.

Definition with_out (o : list out) (s : kernel) : kernel :=
  Kernel (kvmm s) (k_heap_head s) (k_heap_ready s) (ksched s) (kproc s) o.

Lemma write_loop s asp root start len :
  as_wf (kvmm s) asp root → cr3 (kvmm s) = root → 0 <= start → start + len < 2 ^ 64 → 0 <= len →
  (∀ x, start <= x < start + len → no_huge (kmem s) root x ∧
     vmm_virt_to_phys asp (x / 4096 * 4096) (kvmm s) ≠ 0) →
  forZ (Z.to_nat len) 0 (write_char start) s =
    Ok tt (with_out (kout s ++ shown (user_bytes (kvmm s) asp start len)) s).
Proof.
  intros A Hc Hs Hl Hn Hx.
  destruct (forZ_inv (λ k t, t = with_out (kout s ++ shown (user_bytes (kvmm s) asp start k)) s)
    (Z.to_nat len) 0 (write_char start) s) as (s' & E & ->).
  - unfold user_bytes. cbn. rewrite app_nil_r. by destruct s.
  - intros k t Hk ->. assert (start <= start + k < start + len) as Hin by lia.
    destruct (Hx _ Hin) as [NH Hv].
    assert (user_bytes (kvmm s) asp start (k + 1) = user_bytes (kvmm s) asp start k ++
      [rd8 (vmem (kvmm s)) (vmm_virt_to_phys asp (start + k) (kvmm s))]) as ->.
    { unfold user_bytes. by rewrite seqZ_app, map_app by lia. }
    rewrite shown_app. set (c := rd8 _ _).
    assert (shown [c] = if c =? 0 then [] else [Chr c]) as -> by (unfold shown; cbn; by destruct (c =? 0)).
    eexists. split; [|reflexivity].
    unfold write_char, load_user, mbind, M_bind, gets, id. rewrite u64_small by lia.
    change (kmem (with_out _ s)) with (vmem (kvmm s)). change (cr3 (kvmm (with_out _ s))) with (cr3 (kvmm s)).
    rewrite Hc, (valid_mmu (kvmm s) asp root) by done. fold c. cbn [mret M_ret].
    destruct (Z.eqb_spec c 0).
    + unfold mret, M_ret. by rewrite app_nil_r.
    + unfold put, modify. cbn. by rewrite <-app_assoc.
  - rewrite E. by rewrite Z.add_0_l, Z2Nat.id by lia.
Qed.

Lemma sys_write_run s frame i root :
  task_current s = Some i → is_user (task_at (ksched s) i) = true →
  let asp := address_space (task_at (ksched s) i) in
  let ptr := frame_rbx s frame in
  let len := frame_rcx s frame in
  as_wf (kvmm s) asp root → asp ≠ 0 → cr3 (kvmm s) = root →
  (∀ x, ptr <= x < ptr + len → no_huge (kmem s) root x) →
  let valid := len = 0 ∨ (ptr + len <= USER_TOP ∧
    ∀ x, ptr <= x < ptr + len → vmm_virt_to_phys asp (x / 4096 * 4096) (kvmm s) ≠ 0) in
  (4096 < len → sys_write frame s = Ok (ret_err 22) s) ∧
  (len <= 4096 → ¬ valid → sys_write frame s = Ok (ret_err 14) s) ∧
  (len <= 4096 → valid → sys_write frame s =
     Ok len (with_out (kout s ++ shown (user_bytes (kvmm s) asp ptr len) ++ [Flush]) s)).
Proof.
  intros Hc Hu asp ptr len A Ha Hr NH valid.
  assert (0 <= ptr < 2 ^ 64) as Hp by apply rd64_range. assert (0 <= len < 2 ^ 64) as Hl by apply rd64_range.
  pose proof (range_valid_spec asp ptr len (kvmm s) Ha Hp Hl) as V.
  assert (sys_write frame s =
    if 4096 <? len then Ok (ret_err 22) s
    else if negb (user_range_valid asp ptr len (kvmm s)) then Ok (ret_err 14) s
    else (forZ (Z.to_nat len) 0 (write_char ptr) ;; put Flush ;; mret len) s) as E.
  { unfold sys_write, gets. unfold mbind at 1, M_bind at 1. change (id s) with s. rewrite Hc, Hu. cbn [negb].
    fold ptr len asp. destruct (4096 <? len); [done|]. by destruct (negb _). }
  rewrite E. destruct (Z.ltb_spec 4096 len); split_and!; try (done || lia).
  - intros _ Hnv. destruct (user_range_valid asp ptr len (kvmm s)); [|done]. by destruct Hnv; apply V.
  - intros _ Hv. rewrite (proj2 V Hv). cbn [negb].
    assert (len = 0 ∨ ptr + len <= USER_TOP) as Htop by (destruct Hv; tauto). unfold USER_TOP in Htop.
    destruct (decide (len = 0)) as [E0|Hn0].
    + rewrite E0. unfold user_bytes. cbn. unfold put, modify, mbind, M_bind, mret, M_ret. done.
    + rewrite (bind_Ok _ _ _ _ _ (write_loop s asp root ptr len A Hr ltac:(lia) ltac:(lia) ltac:(lia)
        (λ x Hx, conj (NH x Hx) (proj2 (or_ind (λ E, match Hn0 E with end) id Hv) x Hx)))).
      unfold put, modify, mbind, M_bind, mret, M_ret. cbn. by rewrite <-app_assoc.
Qed.


(** ** exit *)
Lemma switch_kproc rsp s r s' : context_switch_from rsp s = Ok r s' →
  ∃ s0, process_reap_deferred s = Ok tt s0 ∧ kproc s' = kproc s0.
Proof.
  intros H. unfold context_switch_from in H. apply bind_inv in H as ([] & s0 & E & H). exists s0. split; [done|].
  apply bind_inv in H as ([] & s1 & E1 & H). injection E1 as <-.
  apply bind_inv in H as (t & s1 & E1 & H). injection E1 as <- <-. 
  destruct (_ <? 0).
  { apply bind_inv in H as ([] & s1 & E1 & H). injection H as <- <-. by destruct (_ <? 0); injection E1 as <-. }
  destruct (_ =? _); [by injection H as <- <-|].
  apply bind_inv in H as ([] & s1 & E1 & H). injection E1 as <-.
  apply bind_inv in H as ([] & s1 & E1 & H). injection E1 as <-.
  apply bind_inv in H as ([] & s1 & E1 & H). apply bind_inv in H as ([] & s2 & E2 & H). injection E2 as <-.
  injection H as <- <-. unfold task_switch_address_space in E1. apply bind_inv in E1 as (x & s2 & E2 & E1).
  injection E2 as <- <-. cbn [kproc set_ksched].
  destruct (is_user _).
  - apply bind_inv in E1 as (? & s3 & Ea & E1). apply kassert_inv in Ea as [_ ->].
    apply bind_inv in E1 as (? & s3 & Ea & E1). apply kassert_inv in Ea as [_ ->]. by injection E1 as <-.
  - apply bind_inv in E1 as (? & s3 & Ea & E1). apply kassert_inv in Ea as [_ ->]. by injection E1 as <-.
Qed.

Lemma ret_err_values : ret_err 11 ≠ 0 ∧ ret_err 38 ≠ ret_err 11 ∧ ret_err 38 ≠ 0 ∧
  ∀ e, 0 <= ret_err e < 2 ^ 64.
Proof. split_and!; try done. intros e. apply u64_range. Qed.

Lemma frame_rax_written s frame v : 0 <= v < 2 ^ 64 →
  frame_rax (set_kmem (wr64 (kmem s) (frame + FRAME_RAX) v) s) frame = v.
Proof.
  intros Hv. unfold frame_rax, kmem. cbn. unfold vmem. cbn. rewrite rd64_wr64_eq. by apply u64_small.
Qed.

(** The state after [sys_exit] and the store to [frame->rax]. *)
Lemma exit_body_run fuel hello burn s frame i k :
  sched_wf (ksched s) → current_tid (ksched s) = i → 0 <= i < 16 →
  find_process_by_pid (kproc s) (pid (task_at (ksched s) i)) = Some k →
  frame ≠ 0 → frame_rax s frame = SYS_EXIT →
  let code := i32 (Z.land (frame_rbx s frame) 0xFFFFFFFF) in
  ∃ s1, syscall_dispatch fuel hello burn frame s = context_switch_from frame s1 ∧
    ksched s1 = upd_task i (λ t, set_state TASK_ZOMBIE (set_exit_code code t)) (ksched s) ∧
    kproc s1 = upd_proc k (mark_exited code) (kproc s) ∧
    kernel_pml4 (kvmm s1) = kernel_pml4 (kvmm s).
Proof.
  intros W Hcur Hi Hf Hfr Hrax code. pose proof (sw_len _ W) as Hl.
  assert (task_current s = Some i) as Htc by (unfold task_current; rewrite Hcur; destruct (Z.ltb_spec i 0); [lia|done]).
  destruct (exited_run (pid (task_at (ksched s) i)) code s k Hf) as (s0 & E0 & Es0 & Ep0).
  assert (kernel_pml4 (kvmm s0) = kernel_pml4 (kvmm s)) as Ek0.
  { unfold process_task_exited, mbind, M_bind, gets in E0. rewrite Hf in E0.
    unfold print, print_dec, put, on_proc, modify in E0. cbn in E0. by injection E0 as <-. }
  assert (task_current s0 = Some i) as Htc0 by (unfold task_current in *; by rewrite Es0).
  set (s2 := set_ksched (upd_task i (set_state TASK_ZOMBIE) (upd_task i (set_exit_code code) (ksched s0))) s0).
  assert (sys_exit frame s = Ok (ret_err 11) s2) as Ex.
  { unfold sys_exit. rewrite (bind_Ok _ _ s s s) by done. fold code.
    unfold task_current_pid at 1. rewrite Htc. rewrite (bind_Ok _ _ _ _ _ E0).
    rewrite (bind_Ok _ _ s0 s0 s0) by done. rewrite Htc0. done. }
  assert (ksched s2 = upd_task i (λ t, set_state TASK_ZOMBIE (set_exit_code code t)) (ksched s)) as Es2.
  { unfold s2. cbn [ksched set_ksched]. rewrite Es0. apply upd_task_upd; lia. }
  set (s3 := set_kmem (wr64 (kmem s2) (frame + FRAME_RAX) (ret_err 11)) s2).
  exists s3. split_and!; [|done|by rewrite <-Ep0|done].
  unfold syscall_dispatch. destruct (Z.eqb_spec frame 0); [done|].
  rewrite (bind_Ok _ _ s (ret_err 11) s2).
  2:{ unfold syscall_body. rewrite (bind_Ok _ _ s SYS_EXIT s) by (unfold gets; by rewrite Hrax). done. }
  rewrite (bind_Ok _ _ s2 tt s3), (bind_Ok _ _ s3 s3 s3) by done.
  unfold s3 at 1 2. rewrite frame_rax_written by apply ret_err_values. rewrite Z.eqb_refl. cbn [orb].
  assert (task_current s3 = Some i) as Htc3.
  { unfold task_current, s3. cbn [ksched set_kmem set_kvmm]. rewrite Es2. cbn. unfold task_current in Htc. exact Htc. }
  rewrite Htc3. assert (state (task_at (ksched s3) i) = TASK_ZOMBIE) as Hz.
  { unfold s3. cbn [ksched set_kmem set_kvmm]. rewrite Es2, task_at_upd, decide_True by (done || lia). done. }
  unfold is_state. rewrite Hz. cbn.
  unfold mbind, M_bind, mret, M_ret, task_schedule_from_interrupt, kassert.
  destruct (Z.eqb_spec frame 0); [done|]. done.
Qed.


(** Calls that do not block leave the scheduler alone: an unknown number
    yields -38 and [getpid] the pid of the caller, each stored in the frame's
    rax with no other effect, and the caller keeps the processor. *)
Theorem syscall_plain_result fuel hello burn s frame :
  frame ≠ 0 →
  (¬ 0 <= frame_rax s frame <= 4 →
     syscall_dispatch fuel hello burn frame s =
     Ok 0 (set_kmem (wr64 (kmem s) (frame + FRAME_RAX) (ret_err 38)) s)) ∧
  (frame_rax s frame = SYS_GETPID → 0 < task_current_pid s < 2 ^ 31 →
     syscall_dispatch fuel hello burn frame s =
     Ok 0 (set_kmem (wr64 (kmem s) (frame + FRAME_RAX) (task_current_pid s)) s)).
Proof.
  intros Hfr. assert (∀ v, syscall_body fuel hello burn frame s = Ok v s → 0 <= v < 2 ^ 64 → v ≠ ret_err 11 → v ≠ 0 →
    syscall_dispatch fuel hello burn frame s = Ok 0 (set_kmem (wr64 (kmem s) (frame + FRAME_RAX) v) s)) as H.
  { intros v Eb Hv H11 H0. unfold syscall_dispatch. destruct (Z.eqb_spec frame 0); [done|].
    rewrite (bind_Ok _ _ _ _ _ Eb). set (s1 := set_kmem _ s).
    rewrite (bind_Ok _ _ s tt s1), (bind_Ok _ _ s1 s1 s1) by done.
    unfold s1 at 1 2. rewrite frame_rax_written by done.
    by destruct (Z.eqb_spec v (ret_err 11)), (Z.eqb_spec v 0). }
  split.
  - intros Hnr. apply H; [|apply ret_err_values..].
    unfold syscall_body. rewrite (bind_Ok _ _ s (frame_rax s frame) s) by done.
    unfold SYS_WRITE, SYS_EXIT, SYS_YIELD, SYS_SPAWN, SYS_GETPID. repeat zb_case; try lia. done.
  - intros Hnr Hp. assert (ret_err 11 = 2 ^ 64 - 11) as E11 by done.
    apply H; [|lia|lia|lia].
    unfold syscall_body. rewrite (bind_Ok _ _ s SYS_GETPID s) by (unfold gets; by rewrite Hnr). cbn.
    unfold sys_getpid, mbind, M_bind, gets, id. destruct (Z.ltb_spec (task_current_pid s) 0); [lia|].
    unfold mret, M_ret. by rewrite u64_small by lia.
Qed.

(** ** Examples: user task 2 of process 2 in the empty space at 0x4000, trap
    frame at 0xA000. *)
Definition ex_frame_mem (rax rbx rcx : Z) : memory :=
  wr64 (wr64 (wr64 ex_mem 0xA060 rcx) 0xA068 rbx) 0xA070 rax.

Definition ex_user_task : Task := MkTask 2 2 TASK_RUNNING 0 0 0x5000 0 0 true 0 0x4000 0x8000.

Definition ex_call (rax rbx rcx : Z) : kernel :=
  Kernel (Vmm (Pmm (ex_frame_mem rax rbx rcx) 0x2000 2 16 8) 0x3000 0x5000 []) 0 false
    (Sched ([ex_task 0 TASK_WAITING false; ex_task 1 TASK_RUNNABLE false; ex_user_task] ++
      map (λ i, ex_task i TASK_NEW false) (seqZ 3 13)) 2 0 0)
    (Ptable (MkProcess true 2 0x4000 2 0x400000 0 false 0 false :: replicate 15 proc0) 3) [].

Lemma ex_call_zero rax rbx rcx i : 0 <= i < 512 → entry (kmem (ex_call rax rbx rcx)) 0x5000 i = 0.
Proof.
  intros Hi. apply rdn_zero. intros j Hj. cbn in Hj. unfold kmem, vmem. cbn. unfold ex_frame_mem.
  rewrite !rd8_wr64_out by lia. apply ex_zero. lia.
Qed.

Lemma ex_call_as : as_wf (kvmm (ex_call 0 0x8000000000 5)) 0x4000 0x5000.
Proof.
  apply as_wf_empty; [by vm_compute| | |done|apply ex_call_zero].
  - exists 4. split_and!; [done|lia|cbn; lia|by vm_compute|right; by vm_compute].
  - exists 5. split_and!; [done|lia|cbn; lia|by vm_compute|right; by vm_compute].
Qed.


Lemma ex_exit_sched_wf : sched_wf (ksched (ex_call 1 7 0)).
Proof. split; [done|done|all_slots|all_slots|all_slots|done]. Qed.

Lemma ex_exit_ptable_wf : ptable_wf (kproc (ex_call 1 7 0)).
Proof.
  assert (∀ i, 0 <= i < 16 → used (proc_at (kproc (ex_call 1 7 0)) i) = true → i = 0) as H by all_slots.
  split; [done|done|all_slots|]. intros i j Hi Hj Hu Hu' _. rewrite (H i), (H j) by done. done.
Qed.


Lemma syscall_plain_result_witness :
  syscall_dispatch 4 (0, 0) (0, 0) 0xA000 (ex_call 99 0 0) =
  Ok 0 (set_kmem (wr64 (kmem (ex_call 99 0 0)) 0xA070 (2 ^ 64 - 38)) (ex_call 99 0 0)).
Proof.
  apply (proj1 (syscall_plain_result 4 (0, 0) (0, 0) (ex_call 99 0 0) 0xA000 ltac:(done))).
  vm_compute. intros [_ H]. by apply H.
Defined.
