(* ===== verification/Cpu.v ===== *)
(** * Descriptor tables (kernel/gdt.c, tss.c, idt.c, percpu.c)

    The segment descriptors, the task-state segment and the interrupt gates
    are packed structures in memory that the processor reads.  They are
    written here field by field into [memory], at the addresses the linker
    gives the static arrays, and read back the way the processor does when it
    delivers an interrupt. *)
From stdpp Require Import base gmap list list_numbers.
From Stdlib Require Import ZArith Lia.
From S2P Require Import Prelude Mem.

Definition GDT_KERNEL_CODE : Z := 0x08.
Definition GDT_TSS : Z := 0x28.
Definition sizeof_TSS : Z := 104.
Definition sizeof_gdt : Z := 7 * 8.
Definition sizeof_idt : Z := 256 * 16.
Definition MSR_KERNEL_GS_BASE : Z := 0xC0000102.

(** Memory and the registers the code loads: GDTR and IDTR as limit and base,
    the task register, the segment registers, CR3 and KERNEL_GS_BASE. *)
Record cpu := Cpu {
  cmem : memory;
  gdtr : Z * Z;
  idtr : Z * Z;
  tr : Z;
  cs : Z;
  data_seg : Z;
  cpu_cr3 : Z;
  kernel_gs_base : Z
}.

Definition set_cmem (m : memory) (s : cpu) : cpu :=
  Cpu m (gdtr s) (idtr s) (tr s) (cs s) (data_seg s) (cpu_cr3 s) (kernel_gs_base s).

(** The addresses of the static objects and of the entry stubs [isr<n>]. *)
Record symbols := Symbols {
  gdt : Z;
  tss : Z;
  idt : Z;
  df_stack : Z;
  kernel_irq_stack : Z;
  syscall_stack : Z;
  percpu_data : Z;
  isr : Z → Z
}.

Section code.
Context (k : symbols).

(** ** gdt.c *)
Definition gdt_set_tss (tss_addr tss_size : Z) (m : memory) : memory :=
  let desc := gdt k + 8 * 5 in
  let m := wr16 m desc (Z.land tss_size 0xFFFF) in
  let m := wr16 m (desc + 2) (Z.land tss_addr 0xFFFF) in
  let m := wr8 m (desc + 4) (Z.land (Z.shiftr tss_addr 16) 0xFF) in
  let m := wr8 m (desc + 5) 0x89 in
  let m := wr8 m (desc + 6) 0x00 in
  let m := wr8 m (desc + 7) (Z.land (Z.shiftr tss_addr 24) 0xFF) in
  let m := wr32 m (desc + 8) (Z.land (Z.shiftr tss_addr 32) 0xFFFFFFFF) in
  wr32 m (desc + 12) 0.

(** [set_entry] of gdt.c. *)
Definition gdt_set_entry (i access granularity : Z) (m : memory) : memory :=
  let e := gdt k + 8 * i in
  let m := wr16 m e 0xFFFF in
  let m := wr16 m (e + 2) 0 in
  let m := wr8 m (e + 4) 0 in
  let m := wr8 m (e + 5) access in
  let m := wr8 m (e + 6) granularity in
  wr8 m (e + 7) 0.

Definition gdt_init (s : cpu) : cpu :=
  let m := fill8 (cmem s) (gdt k) 8 0 in
  let m := gdt_set_entry 1 0x9A 0x20 m in
  let m := gdt_set_entry 2 0x92 0x00 m in
  let m := gdt_set_entry 3 0xFA 0x20 m in
  let m := gdt_set_entry 4 0xF2 0x00 m in
  Cpu m (u16 (sizeof_gdt - 1), gdt k) (idtr s) (tr s) 0x08 0x10 (cpu_cr3 s) (kernel_gs_base s).

(** ** tss.c *)
Definition tss_set_rsp0 (rsp : Z) (m : memory) : memory := wr64 m (tss k + 4) rsp.

Definition tss_init (s : cpu) : cpu :=
  let m := fill8 (cmem s) (tss k) (Z.to_nat sizeof_TSS) 0 in
  let m := wr64 m (tss k + 4) (kernel_irq_stack k + 8192) in
  let m := wr64 m (tss k + 36) (df_stack k + 4096) in
  let m := wr16 m (tss k + 102) sizeof_TSS in
  let m := gdt_set_tss (tss k) (sizeof_TSS - 1) m in
  Cpu m (gdtr s) (idtr s) 0x28 (cs s) (data_seg s) (cpu_cr3 s) (kernel_gs_base s).

(** ** idt.c *)

(** [set_entry] of idt.c. *)
Definition idt_set_entry (vector handler ist type_attr : Z) (m : memory) : memory :=
  let e := idt k + 16 * vector in
  let m := wr16 m e (Z.land handler 0xFFFF) in
  let m := wr16 m (e + 2) GDT_KERNEL_CODE in
  let m := wr8 m (e + 4) ist in
  let m := wr8 m (e + 5) type_attr in
  let m := wr16 m (e + 6) (Z.land (Z.shiftr handler 16) 0xFFFF) in
  let m := wr32 m (e + 8) (Z.land (Z.shiftr handler 32) 0xFFFFFFFF) in
  wr32 m (e + 12) 0.

(** The calls [set_entry(vector, isr<vector>, ist, type_attr)] in order. *)
Definition gates : list (Z * Z * Z) :=
  [(0, 0, 0x8E); (1, 0, 0x8E); (2, 0, 0x8E); (3, 0, 0x8E); (4, 0, 0x8E); (5, 0, 0x8E); (6, 0, 0x8E);
   (7, 0, 0x8E); (8, 1, 0x8E); (9, 0, 0x8E); (10, 0, 0x8E); (11, 0, 0x8E); (12, 0, 0x8E); (13, 0, 0x8E);
   (14, 0, 0x8E); (15, 0, 0x8E); (16, 0, 0x8E); (17, 0, 0x8E); (18, 0, 0x8E); (19, 0, 0x8E); (20, 0, 0x8E);
   (32, 0, 0x8E); (33, 0, 0x8E); (34, 0, 0x8E); (35, 0, 0x8E); (36, 0, 0x8E); (37, 0, 0x8E); (38, 0, 0x8E);
   (39, 0, 0x8E); (40, 0, 0x8E); (41, 0, 0x8E); (42, 0, 0x8E); (43, 0, 0x8E); (44, 0, 0x8E); (45, 0, 0x8E);
   (46, 0, 0x8E); (47, 0, 0x8E); (128, 0, 0xEE)].

Fixpoint set_gates (l : list (Z * Z * Z)) (m : memory) : memory :=
  match l with
  | [] => m
  | (v, ist, attr) :: l' => set_gates l' (idt_set_entry v (isr k v) ist attr m)
  end.

(** [for (i = 0; i < 256; i++) for (j = 0; j < sizeof(IDTEntry); j++) p[j] = 0;] *)
Fixpoint clear_idt (n : nat) (i : Z) (m : memory) : memory :=
  match n with
  | O => m
  | S n' => clear_idt n' (i + 1) (fill8 m (idt k + 16 * i) 16 0)
  end.

Definition idt_init (s : cpu) : cpu :=
  let m := clear_idt 256 0 (cmem s) in
  let m := set_gates gates m in
  Cpu m (gdtr s) (u16 (sizeof_idt - 1), idt k) (tr s) (cs s) (data_seg s) (cpu_cr3 s) (kernel_gs_base s).

(** kernel.c *)
Definition init_descriptor_tables (s : cpu) : cpu := idt_init (tss_init (gdt_init s)).

(** ** percpu.c *)
Definition percpu_init (s : cpu) : cpu :=
  let m := cmem s in
  let m := wr64 m (percpu_data k) (syscall_stack k + 8192) in
  let m := wr64 m (percpu_data k + 8) 0 in
  let m := wr64 m (percpu_data k + 16) (cpu_cr3 s) in
  let m := wr64 m (percpu_data k + 24) 0 in
  let m := tss_set_rsp0 (syscall_stack k + 8192) m in
  Cpu m (gdtr s) (idtr s) (tr s) (cs s) (data_seg s) (cpu_cr3 s) (percpu_data k).
End code.

(** ** The processor *)

(** A code or data segment of the GDT: present, privilege level, code,
    64-bit. *)
Record segment := Segment { seg_present : bool; seg_dpl : Z; seg_code : bool; seg_long : bool }.

Definition read_segment (s : cpu) (sel : Z) : segment :=
  let e := snd (gdtr s) + 8 * (sel / 8) in
  let access := rd8 (cmem s) (e + 5) in
  Segment (Z.testbit access 7) (Z.land (Z.shiftr access 5) 3) (Z.testbit access 4 && Z.testbit access 3)
    (Z.testbit (rd8 (cmem s) (e + 6)) 5).

(** The base of the task-state segment the task register selects. *)
Definition tss_base (s : cpu) : Z :=
  let e := snd (gdtr s) + 8 * (tr s / 8) in
  rd16 (cmem s) (e + 2) + 2 ^ 16 * rd8 (cmem s) (e + 4) + 2 ^ 24 * rd8 (cmem s) (e + 7) +
  2 ^ 32 * rd32 (cmem s) (e + 8).

Record gate := Gate {
  g_offset : Z;
  g_selector : Z;
  g_ist : Z;
  g_type : Z;
  g_dpl : Z
}.

(** The gate of a vector, when its entry lies in the table and is present. *)
Definition read_gate (s : cpu) (v : Z) : option gate :=
  let e := snd (idtr s) + 16 * v in
  let attr := rd8 (cmem s) (e + 5) in
  if (16 * v + 15 <=? fst (idtr s)) && Z.testbit attr 7
  then Some (Gate (rd16 (cmem s) e + 2 ^ 16 * rd16 (cmem s) (e + 6) + 2 ^ 32 * rd32 (cmem s) (e + 8))
               (rd16 (cmem s) (e + 2)) (Z.land (rd8 (cmem s) (e + 4)) 7)
               (Z.land attr 15) (Z.land (Z.shiftr attr 5) 3))
  else None.

(** Delivery of vector [v] to code that runs at privilege level [cpl] with
    stack pointer [rsp]; [soft] is an [int] instruction, which the gate's
    privilege level guards.  The result is the code segment, the entry point
    and the stack the processor pushes the frame on. *)
Definition deliver (s : cpu) (v cpl rsp : Z) (soft : bool) : option (Z * Z * Z) :=
  match read_gate s v with
  | None => None
  | Some g =>
      if soft && (g_dpl g <? cpl) then None
      else
        let dpl := seg_dpl (read_segment s (g_selector g)) in
        let stack :=
          if g_ist g =? 0
          then if dpl <? cpl then rd64 (cmem s) (tss_base s + 4) else rsp
          else rd64 (cmem s) (tss_base s + 28 + 8 * g_ist g) in
        Some (g_selector g, g_offset g, stack)
  end.

(** ** Reading packed structures back *)
Lemma rd8_rdn m a : rd8 m a = rdn m a 1.
Proof. cbn [rdn]. lia. Qed.
Lemma wr8_wrn m a v : wr8 m a v = wrn m a 1 v.
Proof. done. Qed.

(** Evaluates a read through a chain of writes. *)
Ltac mem_read :=
  unfold rd16, rd32, rd64, wr16, wr32, wr64; rewrite ?rd8_rdn, ?wr8_wrn;
  repeat first [rewrite rdn_wrn_eq | rewrite rdn_wrn_ne by lia].

Lemma split_16_16_32 a : 0 <= a < 2 ^ 64 →
  Z.land a 0xFFFF `mod` 256 ^ 2 + 2 ^ 16 * (Z.land (Z.shiftr a 16) 0xFFFF `mod` 256 ^ 2) +
  2 ^ 32 * (Z.land (Z.shiftr a 32) 0xFFFFFFFF `mod` 256 ^ 4) = a.
Proof.
  intros. change 0xFFFF with (Z.ones 16). change 0xFFFFFFFF with (Z.ones 32).
  rewrite !Z.land_ones, !Z.shiftr_div_pow2 by lia. arith.
Qed.

Lemma split_16_8_8_32 a : 0 <= a < 2 ^ 64 →
  Z.land a 0xFFFF `mod` 256 ^ 2 + 2 ^ 16 * (Z.land (Z.shiftr a 16) 0xFF `mod` 256 ^ 1) +
  2 ^ 24 * (Z.land (Z.shiftr a 24) 0xFF `mod` 256 ^ 1) +
  2 ^ 32 * (Z.land (Z.shiftr a 32) 0xFFFFFFFF `mod` 256 ^ 4) = a.
Proof.
  intros. change 0xFFFF with (Z.ones 16). change 0xFF with (Z.ones 8). change 0xFFFFFFFF with (Z.ones 32).
  rewrite !Z.land_ones, !Z.shiftr_div_pow2 by lia. arith.
Qed.

(** The bytes of a gate and of a whole table. *)
Section tables.
Context (k : symbols).

(** The gate at vector [v] as a function of memory. *)
Definition gate_at (m : memory) (v : Z) : Z * Z * Z * Z :=
  let e := idt k + 16 * v in
  (rd16 m e + 2 ^ 16 * rd16 m (e + 6) + 2 ^ 32 * rd32 m (e + 8), rd16 m (e + 2), rd8 m (e + 4), rd8 m (e + 5)).

Lemma set_entry_gate v h ist attr m v' : 0 <= h < 2 ^ 64 → 0 <= ist < 256 → 0 <= attr < 256 →
  gate_at (idt_set_entry k v h ist attr m) v' =
    if decide (v' = v) then (h, GDT_KERNEL_CODE, ist, attr) else gate_at m v'.
Proof.
  intros Hh Hi Ha. unfold gate_at, idt_set_entry. case_decide as E.
  - subst v'. f_equal; [f_equal; [f_equal|]|].
    + mem_read. by apply split_16_16_32.
    + mem_read. done.
    + mem_read. by apply Z.mod_small.
    + mem_read. by apply Z.mod_small.
  - f_equal; [f_equal; [f_equal|]|]; mem_read; done.
Qed.

Lemma set_entry_frame v h ist attr m : 0 <= v < 256 →
  same_outside (idt k) (idt k + sizeof_idt) m (idt_set_entry k v h ist attr m).
Proof.
  intros Hv a Ha. unfold idt_set_entry, sizeof_idt in *. cbv zeta. unfold wr16, wr32.
  rewrite ?wr8_wrn. by rewrite !rd8_wrn_out by lia.
Qed.

(** The last call for a vector decides its gate. *)
Fixpoint last_gate (l : list (Z * Z * Z)) (v : Z) : option (Z * Z) :=
  match l with
  | [] => None
  | (v', ist, attr) :: l' =>
      match last_gate l' v with
      | Some g => Some g
      | None => if v =? v' then Some (ist, attr) else None
      end
  end.

Definition gate_ok (x : Z * Z * Z) : bool :=
  let '(v, ist, attr) := x in
  (0 <=? v) && (v <? 256) && (0 <=? ist) && (ist <? 256) && (0 <=? attr) && (attr <? 256).

Lemma set_gates_spec l m : forallb gate_ok l = true → (∀ v, 0 <= isr k v < 2 ^ 64) →
  same_outside (idt k) (idt k + sizeof_idt) m (set_gates k l m) ∧
  ∀ v, gate_at (set_gates k l m) v =
    match last_gate l v with
    | Some (ist, attr) => (isr k v, GDT_KERNEL_CODE, ist, attr)
    | None => gate_at m v
    end.
Proof.
  intros Hl Hisr. revert m. induction l as [|[[v ist] attr] l IH]; intros m; cbn [set_gates last_gate].
  { split; [by intros a|done]. }
  cbn [forallb] in Hl. apply andb_prop in Hl as [Hx Hl]. unfold gate_ok in Hx.
  destruct (IH Hl (idt_set_entry k v (isr k v) ist attr m)) as [F G]. split.
  - eapply same_outside_trans; [|exact F]. apply set_entry_frame. lia.
  - intros v'. rewrite G. destruct (last_gate l v') as [[]|]; [done|].
    rewrite set_entry_gate by (try apply Hisr; lia). case_decide as E.
    + subst. by rewrite Z.eqb_refl.
    + by destruct (Z.eqb_spec v' v).
Qed.

Lemma clear_idt_low n j m a : a < idt k + 16 * j → rd8 (clear_idt k n j m) a = rd8 m a.
Proof.
  revert j m. induction n as [|n IH]; intros j m Hj; [done|]. cbn [clear_idt].
  rewrite IH by lia. apply fill8_same_outside. lia.
Qed.

Lemma clear_idt_spec n i m : 0 <= i → i + Z.of_nat n <= 256 →
  same_outside (idt k) (idt k + sizeof_idt) m (clear_idt k n i m) ∧
  ∀ a, idt k + 16 * i <= a < idt k + 16 * (i + Z.of_nat n) → rd8 (clear_idt k n i m) a = 0.
Proof.
  revert i m. induction n as [|n IH]; intros i m Hi Hn; cbn [clear_idt].
  { split; [by intros a|lia]. }
  destruct (IH (i + 1) (fill8 m (idt k + 16 * i) 16 0)) as [F Z0]; [lia|lia|]. split.
  - eapply same_outside_trans; [|exact F].
    eapply same_outside_weaken; [| |apply fill8_same_outside]; unfold sizeof_idt; lia.
  - intros a Ha. destruct (Z.lt_ge_cases a (idt k + 16 * (i + 1))); [|apply Z0; lia].
    rewrite clear_idt_low by lia.
    rewrite rd8_fill8. by rewrite decide_True by lia.
Qed.
End tables.

(** ** Delivery of interrupts *)

(** The linker places the tables apart from each other, below 2^64. *)
Record linked (k : symbols) : Prop := {
  lk_gdt_tss : gdt k + sizeof_gdt <= tss k ∨ tss k + sizeof_TSS <= gdt k;
  lk_gdt_idt : gdt k + sizeof_gdt <= idt k ∨ idt k + sizeof_idt <= gdt k;
  lk_tss_idt : tss k + sizeof_TSS <= idt k ∨ idt k + sizeof_idt <= tss k;
  lk_tss : 0 <= tss k < 2 ^ 64;
  lk_irq_stack : 0 <= kernel_irq_stack k < 2 ^ 64 - 8192;
  lk_df_stack : 0 <= df_stack k < 2 ^ 64 - 4096;
  lk_isr : ∀ v, 0 <= isr k v < 2 ^ 64
}.

Section delivery.
Context (k : symbols) (L : linked k).

Lemma gdt_init_spec s : let s' := gdt_init k s in
  same_outside (gdt k) (gdt k + sizeof_gdt) (cmem s) (cmem s') ∧
  read_segment s' 0x08 = Segment true 0 true true ∧ read_segment s' 0x10 = Segment true 0 false false ∧
  read_segment s' 0x1B = Segment true 3 true true ∧ read_segment s' 0x23 = Segment true 3 false false.
Proof.
  cbv zeta. unfold read_segment, gdt_init, gdt_set_entry. cbn [cmem gdtr snd]. cbv zeta. split.
  - intros a Ha. unfold sizeof_gdt in Ha. unfold wr16. rewrite ?wr8_wrn. rewrite !rd8_wrn_out by lia.
    apply fill8_same_outside. lia.
  - change (8 * (8 / 8)) with (8 * 1). change (8 * (16 / 8)) with (8 * 2). change (8 * (0x1B / 8)) with (8 * 3).
    change (8 * (0x23 / 8)) with (8 * 4). split_and!; mem_read; done.
Qed.

Lemma tss_init_spec s : let m := cmem (tss_init k s) in
  (∀ a, a < gdt k + 40 ∨ gdt k + 56 <= a → a < tss k ∨ tss k + sizeof_TSS <= a → rd8 m a = rd8 (cmem s) a) ∧
  rd64 m (tss k + 4) = kernel_irq_stack k + 8192 ∧ rd64 m (tss k + 36) = df_stack k + 4096 ∧
  rd16 m (gdt k + 42) + 2 ^ 16 * rd8 m (gdt k + 44) + 2 ^ 24 * rd8 m (gdt k + 47) +
    2 ^ 32 * rd32 m (gdt k + 48) = tss k.
Proof.
  destruct L. unfold sizeof_gdt, sizeof_TSS, sizeof_idt in *. cbv zeta. unfold tss_init, gdt_set_tss.
  cbn [cmem]. cbv zeta. change (8 * 5) with 40. rewrite <-!Z.add_assoc. cbn [Z.add Pos.add Pos.succ Pos.add_carry].
  change (Z.to_nat sizeof_TSS) with 104%nat. unfold sizeof_TSS. split_and!.
  - intros a Ha Hb. unfold wr16, wr32, wr64. rewrite ?wr8_wrn. rewrite !rd8_wrn_out by lia.
    apply fill8_same_outside. lia.
  - mem_read. apply Z.mod_small. change (256 ^ Z.of_nat 8) with (2 ^ 64). lia.
  - mem_read. apply Z.mod_small. change (256 ^ Z.of_nat 8) with (2 ^ 64). lia.
  - mem_read. rewrite !Z.add_assoc. by apply split_16_8_8_32.
Qed.


(** Vectors with a gate. *)
Definition installed (v : Z) : bool := (v <=? 20) || ((32 <=? v) && (v <=? 47)) || (v =? 128).

Lemma gates_installed v : 0 <= v < 256 →
  last_gate gates v = if installed v then Some (b2i (v =? 8), if v =? 128 then 0xEE else 0x8E) else None.
Proof.
  intros Hv. assert (forallb (λ v, bool_decide (last_gate gates v =
    if installed v then Some (b2i (v =? 8), if v =? 128 then 0xEE else 0x8E) else None)) (seqZ 0 256) = true) as H
    by (vm_compute; reflexivity).
  rewrite forallb_forall in H. specialize (H v). rewrite bool_decide_eq_true in H. apply H.
  apply list_elem_of_In, elem_of_seqZ. lia.
Qed.

(** Memory after the three initialisations. *)
Lemma idt_init_spec s : let s' := idt_init k s in
  same_outside (idt k) (idt k + sizeof_idt) (cmem s) (cmem s') ∧
  ∀ v, 0 <= v < 256 → read_gate s' v =
    if installed v
    then Some (Gate (isr k v) GDT_KERNEL_CODE (b2i (v =? 8)) 14 (if v =? 128 then 3 else 0)) else None.
Proof.
  cbv zeta. unfold idt_init. set (m0 := clear_idt k 256 0 (cmem s)).
  destruct (clear_idt_spec k 256 0 (cmem s)) as [F0 Z0]; [lia|lia|]. fold m0 in F0, Z0.
  destruct (set_gates_spec k gates m0) as [F G]; [vm_compute; reflexivity|apply (lk_isr k L)|].
  split; [eapply same_outside_trans; [exact F0|exact F]|].
  clearbody m0. set (m1 := set_gates k gates m0) in *. clearbody m1.
  intros v Hv. unfold read_gate. cbn [cmem idtr fst snd]. specialize (G v). rewrite gates_installed in G by done.
  unfold gate_at in G. replace (16 * v + 15 <=? u16 (sizeof_idt - 1)) with true
    by (symmetry; apply Z.leb_le; change (u16 (sizeof_idt - 1)) with 4095; lia).
  cbn [andb]. destruct (installed v).
  - injection G as -> -> -> ->. destruct (v =? 128), (v =? 8); reflexivity.
  - assert (rd8 m1 (idt k + 16 * v + 5) = 0) as ->; [|done].
    injection G as _ _ _ ->. apply Z0. lia.
Qed.

(** C22. After [init_descriptor_tables] the processor finds what the kernel
    put in the packed tables: the four code and data segments have the
    intended privilege and mode, the task register leads to the task-state
    segment, and an interrupt is delivered to the stub of its vector in the
    kernel's code segment, on the stack of the double-fault handler for vector
    8, on the interrupt stack when user code is interrupted, and on the
    current stack otherwise; user code can raise no vector by an [int]
    instruction but 128, and vectors without a stub are not delivered. *)
Theorem interrupts_delivered s : let s' := init_descriptor_tables k s in
  cs s' = GDT_KERNEL_CODE ∧ tr s' = GDT_TSS ∧ tss_base s' = tss k ∧
  read_segment s' 0x08 = Segment true 0 true true ∧ read_segment s' 0x10 = Segment true 0 false false ∧
  read_segment s' 0x1B = Segment true 3 true true ∧ read_segment s' 0x23 = Segment true 3 false false ∧
  ∀ v cpl rsp soft, 0 <= v < 256 → cpl = 0 ∨ cpl = 3 →
    deliver s' v cpl rsp soft =
      if installed v && negb (soft && (cpl =? 3) && negb (v =? 128))
      then Some (GDT_KERNEL_CODE, isr k v,
                 if v =? 8 then df_stack k + 4096 else if cpl =? 3 then kernel_irq_stack k + 8192 else rsp)
      else None.
Proof.
  cbv zeta. destruct L as [L1 L2 L3 _ _ _ _]. unfold sizeof_gdt, sizeof_TSS, sizeof_idt in *.
  destruct (gdt_init_spec s) as (_ & S1 & S2 & S3 & S4). destruct (tss_init_spec (gdt_init k s)) as (TF & T1 & T2 & T3).
  destruct (idt_init_spec (tss_init k (gdt_init k s))) as [IF IG]. fold (init_descriptor_tables k s) in IF, IG.
  set (s' := init_descriptor_tables k s) in *.
  assert (∀ sel, 8 <= sel < 40 → read_segment s' sel = read_segment (gdt_init k s) sel) as Hseg.
  { intros sel Hsel. unfold read_segment. cbn [gdtr s' init_descriptor_tables idt_init tss_init gdt_init snd].
    unfold sizeof_idt in IF. rewrite !IF, !TF by (unfold sizeof_TSS; arith). done. }
  assert (∀ a n, a + Z.of_nat n <= idt k ∨ idt k + 4096 <= a →
    rdn (cmem s') a n = rdn (cmem (tss_init k (gdt_init k s))) a n) as Hrd
    by (intros; eapply rdn_same_outside; [exact IF|unfold sizeof_idt; lia]).
  assert (tss_base s' = tss k) as Htss.
  { unfold tss_base. cbn [gdtr tr s' init_descriptor_tables idt_init tss_init gdt_init snd].
    change (8 * (40 / 8)) with 40. unfold rd16, rd32. rewrite !rd8_rdn, !Hrd by lia.
    rewrite <-!Z.add_assoc. rewrite <-T3. rewrite !rd8_rdn. unfold rd16, rd32. rewrite <-!Z.add_assoc. reflexivity. }
  assert (read_segment s' 0x08 = Segment true 0 true true) as Hk by (by rewrite Hseg by lia).
  split_and!; [done|done|done|done|by rewrite Hseg by lia..|].
  - intros v cpl rsp soft Hv Hc. unfold deliver. rewrite (IG v Hv). destruct (installed v); [|done]. cbn [andb].
    cbn [g_dpl g_selector g_ist g_offset]. unfold GDT_KERNEL_CODE. rewrite Hk. cbn [seg_dpl]. rewrite Htss.
    assert (rd64 (cmem s') (tss k + 4) = kernel_irq_stack k + 8192) as R0 by (rewrite <-T1; apply Hrd; lia).
    assert (rd64 (cmem s') (tss k + 28 + 8 * 1) = df_stack k + 4096) as R1.
    { replace (tss k + 28 + 8 * 1) with (tss k + 36) by lia. rewrite <-T2. apply Hrd. lia. }
    destruct (Z.eqb_spec v 8), (Z.eqb_spec v 128), Hc as [-> | ->], soft; try lia;
      cbn [b2i Z.eqb Z.ltb Z.compare andb negb Pos.eqb Pos.compare Pos.compare_cont]; by rewrite ?R0, ?R1.
Qed.
End delivery.

(** ** Example *)
Definition ex_symbols : symbols :=
  Symbols 0x110000 0x111000 0x112000 0x120000 0x130000 0x140000 0x150000 (λ v, 0x100000 + 16 * (v `mod` 256)).

Lemma ex_linked : linked ex_symbols.
Proof. split; cbn; unfold sizeof_gdt, sizeof_TSS, sizeof_idt; [lia..|]. intros v. arith. Qed.

Lemma interrupts_delivered_witness :
  deliver (init_descriptor_tables ex_symbols (Cpu ∅ (0, 0) (0, 0) 0 0 0 0 0)) 14 3 0x7000 false =
    Some (GDT_KERNEL_CODE, 0x1000E0, 0x132000).
Proof.
  destruct (interrupts_delivered ex_symbols ex_linked (Cpu ∅ (0, 0) (0, 0) 0 0 0 0 0))
    as (_ & _ & _ & _ & _ & _ & _ & D).
  exact (D 14 3 0x7000 false ltac:(lia) (or_intror eq_refl)).
Defined.
