(* ===== verification/System.v ===== *)
(** * The running system (kernel/timer.c, idt.c, keyboard.c, irq.c)

    The states of the components put together, and the code that connects
    them: the timer interrupt, the common interrupt handler and the start of
    the keyboard.  Component operations run on their part of the state through
    lenses; the keyboard's interface [KbdEnv] is discharged by the scheduler
    and the interrupt statistics. *)
From stdpp Require Import base gmap list list_numbers strings.
From Stdlib Require Import ZArith Lia.
From S2P Require Import Prelude Monad Mem Display Devices Klog Acpi Irq Pmm Vmm Kmalloc Keyboard Kernel Task Process Syscall.

(** The static variables of timer.c. *)
Record timer := Timer { ticks : Z; flush_needed : bool; timer_hz : Z }.

(** The device belongs to the interrupt controllers' part; the log keeps its
    own variables. *)
Record os (D : Type) := Os {
  o_kernel : kernel;
  o_irq : irqc D;
  o_log : klog unit;
  o_acpi : acpi;
  o_timer : timer;
  o_kbd : kbd;
  o_if : bool
}.
Arguments Os {D}.
Arguments o_kernel {D}.
Arguments o_irq {D}.
Arguments o_log {D}.
Arguments o_acpi {D}.
Arguments o_timer {D}.
Arguments o_kbd {D}.
Arguments o_if {D}.

Section lenses.
Context {D : Type}.

Definition k_lens : lens (os D) kernel :=
  Lens o_kernel (λ k s, Os k (o_irq s) (o_log s) (o_acpi s) (o_timer s) (o_kbd s) (o_if s)).
Definition irq_lens : lens (os D) (irqc D) :=
  Lens o_irq (λ i s, Os (o_kernel s) i (o_log s) (o_acpi s) (o_timer s) (o_kbd s) (o_if s)).
Definition kbd_lens : lens (os D) kbd :=
  Lens o_kbd (λ k s, Os (o_kernel s) (o_irq s) (o_log s) (o_acpi s) (o_timer s) k (o_if s)).
Definition set_timer (t : timer) (s : os D) : os D :=
  Os (o_kernel s) (o_irq s) (o_log s) (o_acpi s) t (o_kbd s) (o_if s).

Definition with_dev {A} (d : A) (k : klog unit) : klog A :=
  Klog d (serial_ready k) (g_ring k) (g_ring_head k) (g_ring_count k) (g_last_panic k) (screen k).
Definition without_dev (k : klog D) : klog unit :=
  Klog tt (serial_ready k) (g_ring k) (g_ring_head k) (g_ring_count k) (g_last_panic k) (screen k).
Definition set_idev (d : D) (i : irqc D) : irqc D :=
  Irqc d (g_addrs i) (g_backend i) (g_irq_gsi i) (g_stats i) (inotes i).
Definition dev_of : lens (os D) D :=
  Lens (λ s, idev (o_irq s)) (λ d s,
    Os (o_kernel s) (set_idev d (o_irq s)) (o_log s) (o_acpi s) (o_timer s) (o_kbd s) (o_if s)).
Definition log_lens : lens (os D) (klog D) :=
  Lens (λ s, with_dev (idev (o_irq s)) (o_log s)) (λ k s,
    Os (o_kernel s) (set_idev (dev k) (o_irq s)) (without_dev k) (o_acpi s) (o_timer s) (o_kbd s) (o_if s)).

#[export] Instance k_lens_laws : LensLaws k_lens.
Proof. by split; intros; destruct s. Qed.
#[export] Instance irq_lens_laws : LensLaws irq_lens.
Proof. by split; intros; destruct s. Qed.
#[export] Instance kbd_lens_laws : LensLaws kbd_lens.
Proof. by split; intros; destruct s. Qed.
#[export] Instance dev_of_laws : LensLaws dev_of.
Proof. by split; intros; destruct s as [? []]. Qed.
#[export] Instance log_lens_laws : LensLaws log_lens.
Proof. by split; [intros [] []|intros [? [] [[]]]|intros [] [] [? [] [[]]]]. Qed.
End lenses.

Section code.
Context {D : Type} (hw : machine D) (fuel : nat) (hello burn : Z * Z).
Implicit Types s : os D.

Definition oprint (t : string) : M (os D) unit := zoom k_lens (Kernel.print t).
Definition oprint_dec (n : Z) : M (os D) unit := zoom k_lens (Kernel.print_dec n).
Definition oprint_hex (n : Z) : M (os D) unit := zoom k_lens (Kernel.print_hex n).
Definition oprint_text (l : list Z) : M (os D) unit :=
  modify (λ s, lset k_lens (let k := o_kernel s in
    Kernel (kvmm k) (k_heap_head k) (k_heap_ready k) (ksched k) (kproc k) (kout k ++ map Chr l)) s).
Definition oflush : M (os D) unit := zoom k_lens (put Flush).
Definition on_port {A} (m : M D A) : M (os D) A := zoom dev_of m.

(** A call of klog.c: the text it gives the screen joins the console output. *)
Definition log_call {A} (m : M (klog D) A) : M (os D) A :=
  a ← zoom log_lens m;
  t ← gets (λ s, screen (o_log s));
  oprint_text t ;;
  modify (λ s, let k := o_log s in
    Os (o_kernel s) (o_irq s)
       (Klog tt (serial_ready k) (g_ring k) (g_ring_head k) (g_ring_count k) (g_last_panic k) [])
       (o_acpi s) (o_timer s) (o_kbd s) (o_if s)) ;;
  mret a.

(** ** timer.c *)
Definition timer_init (frequency : Z) : M (os D) unit :=
  (if frequency =? 0 then panic "timer_init: frequency must be non-zero" else mret tt) ;;
  let divisor := 1193182 / frequency in
  let divisor := if divisor =? 0 then 1 else divisor in
  let divisor := if 0xFFFF <? divisor then 0xFFFF else divisor in
  on_port (outb hw 0x43 0x36) ;;
  on_port (outb hw 0x40 (Z.land divisor 0xFF)) ;;
  on_port (outb hw 0x40 (Z.land (Z.shiftr divisor 8) 0xFF)) ;;
  modify (λ s, set_timer (Timer (ticks (o_timer s)) (flush_needed (o_timer s)) frequency) s) ;;
  oprint "Timer initialized at " ;; oprint_dec frequency ;; oprint " Hz\n".

Definition timer_tick (current_rsp : Z) : M (os D) Z :=
  zoom irq_lens (irq_send_eoi hw 0) ;;
  zoom irq_lens irq_note_timer_irq ;;
  modify (λ s, set_timer (Timer (u64 (ticks (o_timer s) + 1)) true (timer_hz (o_timer s))) s) ;;
  zoom k_lens (schedule_on_tick current_rsp).

Definition timer_flush_needed : M (os D) bool :=
  t ← gets o_timer;
  if flush_needed t then modify (set_timer (Timer (ticks t) false (timer_hz t))) ;; mret true
  else mret false.

(** The interrupt flag is saved, cleared and restored around the read. *)
Definition set_if (b : bool) (s : os D) : os D :=
  Os (o_kernel s) (o_irq s) (o_log s) (o_acpi s) (o_timer s) (o_kbd s) b.

Definition timer_get_ticks : M (os D) Z :=
  flags ← gets o_if;
  modify (set_if false) ;;
  t ← gets (λ s, ticks (o_timer s));
  (if flags : bool then modify (set_if true) else mret tt) ;;
  mret t.

Definition timer_get_frequency : M (os D) Z := gets (λ s, timer_hz (o_timer s)).

(** ** keyboard.c: the interface and the controller *)
#[export] Program Instance os_KbdEnv : KbdEnv (os D) := {|
  kbd_of := kbd_lens;
  Keyboard.task_wake := λ id, zoom k_lens (Task.task_wake id);
  Keyboard.irq_note_keyboard_irq := zoom irq_lens Irq.irq_note_keyboard_irq
|}.
Next Obligation. intros id s. eexists. split; [reflexivity|done]. Qed.
Next Obligation. intros s. eexists. split; [reflexivity|done]. Qed.

Definition keyboard_init : M (os D) unit :=
  poll fuel (v ← on_port (inb hw 0x64);
             if Z.land v 0x01 =? 0 then mret false else on_port (inb hw 0x60) ;; mret true) ;;
  on_port (outb hw 0x64 0x20) ;;
  poll fuel (v ← on_port (inb hw 0x64); mret (Z.land v 0x01 =? 0)) ;;
  config ← on_port (inb hw 0x60);
  let config := Z.lor (Z.lor config (Z.shiftl 1 6)) (Z.shiftl 1 0) in
  on_port (outb hw 0x64 0x60) ;;
  poll fuel (v ← on_port (inb hw 0x64); mret (negb (Z.land v 0x02 =? 0))) ;;
  on_port (outb hw 0x60 config) ;;
  on_port (outb hw 0x64 0xAE) ;;
  modify (λ s, lset kbd_lens (keyboard_init_state (o_kbd s)) s) ;;
  oprint "Keyboard initialized\n".

(** ** irq.c: output *)
Definition dump_route (irq : Z) : M (os D) unit :=
  i ← gets o_irq;
  oprint "irq: irq" ;; oprint_dec irq ;;
  oprint " -> gsi " ;; oprint_dec (irq_resolve_gsi irq i) ;;
  oprint " vec " ;; oprint_hex (IRQ_VECTOR_BASE + irq) ;; oprint "\n".

Definition irq_dump_routes : M (os D) unit :=
  i ← gets o_irq;
  oprint "irq: backend=" ;; oprint_text (irq_controller_name i) ;;
  oprint " base_vector=" ;; oprint_hex IRQ_VECTOR_BASE ;; oprint "\n" ;;
  for_range 0 16 dump_route.

(** ** idt.c: the handler *)
Definition exception_names : list string :=
  ["Divide By Zero"; "Debug"; "NMI"; "Breakpoint"; "Overflow"; "Bound Range"; "Invalid Opcode";
   "Device Not Available"; "Double Fault"; "Coprocessor Overrun"; "Invalid TSS"; "Segment Not Present";
   "Stack Fault"; "General Protection Fault"; "Page Fault"; "Reserved"; "x87 FPU"; "Alignment Check";
   "Machine Check"; "SIMD FPU"; "Virtualization Fault"]%string.

Definition FRAME_VECTOR : Z := 120.
Definition FRAME_ERROR : Z := 128.
Definition frame_field (off frame : Z) (s : os D) : Z := rd64 (kmem (o_kernel s)) (frame + off).

(** The report of an exception; the machine halts after it.  [cr2] is the
    faulting address the processor holds. *)
Definition exception_report (cr2 frame : Z) : M (os D) unit :=
  s ← gets (λ s, s);
  let vector := frame_field FRAME_VECTOR frame s in
  oprint "\n--- EXCEPTION ---\n" ;;
  (if vector <=? 20 then oprint (nth (Z.to_nat vector) exception_names ""%string) else mret tt) ;;
  oprint "\nVector: " ;; oprint_dec vector ;;
  oprint "\nError:  " ;; oprint_hex (frame_field FRAME_ERROR frame s) ;;
  oprint "\nRIP:    " ;; oprint_hex (frame_field FRAME_RIP frame s) ;;
  oprint "\nRSP:    " ;; oprint_hex (frame_field FRAME_RSP frame s) ;;
  oprint "\nRFLAGS: " ;; oprint_hex (frame_field FRAME_RFLAGS frame s) ;;
  (match task_current (o_kernel s) with
   | Some i =>
       let t := task_at (ksched (o_kernel s)) i in
       oprint "\nTID:    " ;; oprint_dec (tid t) ;;
       oprint "\nPID:    " ;; oprint_dec (pid t) ;;
       oprint "\nCR3:    " ;; oprint_hex (task_cr3 t)
   | None => mret tt
   end) ;;
  (if vector =? 14 then oprint "\nCR2:    " ;; oprint_hex cr2 else mret tt) ;;
  oprint "\n--- HALTED ---\n" ;;
  oflush.

(** A halted machine is a [Panic] outcome. *)
Definition interrupt_handler (cr2 frame : Z) : M (os D) Z :=
  kassert (negb (frame =? 0)) "interrupt_handler: null frame" ;;
  vector ← gets (frame_field FRAME_VECTOR frame);
  kassert (vector <? 256) "interrupt_handler: invalid vector" ;;
  if vector <? 32 then exception_report cr2 frame ;; panic "halted" else
  if vector =? 128 then zoom k_lens (syscall_dispatch fuel hello burn frame) else
  let irq := u8 (vector - 32) in
  spurious ← zoom irq_lens (irq_is_spurious hw irq);
  if spurious : bool then mret 0 else
  (if irq =? 1 then sc ← on_port (inb hw 0x60); keyboard_handler sc else mret tt) ;;
  (if negb (irq =? 0) then zoom irq_lens (irq_send_eoi hw irq) else mret tt) ;;
  mret 0.
End code.

(** ** From a key press to the shell *)
Section keypress.
Context {D : Type} (hw : machine D) (fuel : nat) (hello burn : Z * Z).
Implicit Types s : os D.

(** An end-of-interrupt is counted and changes the device only. *)
Lemma send_eoi_run irq (i : irqc D) : ∃ d,
  irq_send_eoi hw irq i =
    Ok tt (Irqc d (g_addrs i) (g_backend i) (g_irq_gsi i) (bump_eoi (g_stats i)) (inotes i)).
Proof.
  destruct i as [d a [] g t n].
  - unfold irq_send_eoi, pic_send_eoi, on_hw, zoom. cbn. destruct (8 <=? irq); eexists; reflexivity.
  - unfold irq_send_eoi, apic_send_eoi, lapic_write, mbind, M_bind, on_stats, modify, gets. cbn.
    destruct (a_lapic a =? 0); eexists; reflexivity.
Qed.

Lemma spurious_keyboard (i : irqc D) : irq_is_spurious hw 1 i = Ok false i.
Proof. by destruct i as [d a []]. Qed.

(** A plain key: pressed, not a shift key, with a character. *)
Record plain_key (k : kbd) (sc c : Z) : Prop := {
  pk_code : 0 <= sc < 128;
  pk_shift : sc ≠ 0x2A ∧ sc ≠ 0x36;
  pk_e0 : have_e0 k = 0;
  pk_char : translate_scancode sc k = c ∧ c ≠ 0
}.

Lemma kb_push_run c s i : kb_wf (o_kbd s) → (length (queue (o_kbd s)) < 63)%nat → shell_task_id (o_kbd s) = i → 0 <= i →
  ∃ k, kb_wf k ∧ queue k = queue (o_kbd s) ++ [c] ∧ shell_task_id k = i ∧
    kb_push c s = Ok tt (Os (set_ksched (wake i (ksched (o_kernel s))) (o_kernel s)) (o_irq s) (o_log s)
      (o_acpi s) (o_timer s) k (o_if s)).
Proof.
  intros W Hq Hi H0. pose proof W as [_ Hh Ht]. pose proof (queue_length (o_kbd s)) as Hl.
  assert ((kb_head (o_kbd s) + 1) `mod` 64 ≠ kb_tail (o_kbd s)) as Hne by arith.
  destruct (kb_store_queue (o_kbd s) c W Hne) as (W' & Eq & _). eexists. split; [exact W'|]. split; [done|].
  split; [done|]. unfold kb_push, KB_BUF_SIZE. cbn [mbind M_bind gets lget kbd_of os_KbdEnv kbd_lens].
  unfold mbind, M_bind, gets. rewrite u8_small by (pose proof (Z.mod_pos_bound (kb_head (o_kbd s) + 1) 64); lia).
  destruct (Z.eqb_spec ((kb_head (o_kbd s) + 1) `mod` 64) (kb_tail (o_kbd s))); [done|]. rewrite Hi.
  destruct (Z.leb_spec 0 i); [|lia]. by destruct s.
Qed.

Lemma plain_key_run s sc c i : kb_wf (o_kbd s) → (length (queue (o_kbd s)) < 63)%nat →
  shell_task_id (o_kbd s) = i → 0 <= i → plain_key (o_kbd s) sc c →
  ∃ k, kb_wf k ∧ queue k = queue (o_kbd s) ++ [c] ∧ shell_task_id k = i ∧
    keyboard_handler sc s = Ok tt (Os (set_ksched (wake i (ksched (o_kernel s))) (o_kernel s))
      (Irqc (idev (o_irq s)) (g_addrs (o_irq s)) (g_backend (o_irq s)) (g_irq_gsi (o_irq s))
        (bump_keyboard (g_stats (o_irq s))) (inotes (o_irq s)))
      (o_log s) (o_acpi s) (o_timer s) k (o_if s)).
Proof.
  intros W Hq Hi H0 [Hsc [Hl Hr] He [Hc Hc0]].
  set (s1 := Os (o_kernel s) (Irqc (idev (o_irq s)) (g_addrs (o_irq s)) (g_backend (o_irq s)) (g_irq_gsi (o_irq s))
        (bump_keyboard (g_stats (o_irq s))) (inotes (o_irq s))) (o_log s) (o_acpi s) (o_timer s) (o_kbd s) (o_if s)).
  destruct (kb_push_run c s1 i W Hq Hi H0) as (k & Wk & Qk & Ik & Ek). exists k.
  split; [done|]. split; [done|]. split; [done|]. unfold keyboard_handler.
  rewrite (bind_Ok _ _ s tt s1) by done.
  destruct (Z.eqb_spec sc 0xE0); [lia|]. rewrite (bind_Ok _ _ s1 (o_kbd s) s1) by done.
  rewrite He. cbn [Z.eqb negb]. destruct (scancode_bits sc ltac:(lia)) as [-> ->]. rewrite Z.mod_small by lia.
  destruct (Z.eqb_spec sc 0x2A); [done|]. destruct (Z.eqb_spec sc 0x36); [done|].
  destruct (Z.leb_spec 128 sc); [lia|]. rewrite (bind_Ok _ _ s1 tt s1) by done.
  rewrite (bind_Ok _ _ s1 (o_kbd s) s1) by done. rewrite Hc.
  destruct (Z.eqb_spec c 0); [done|]. cbn [negb]. exact Ek.
Qed.

(** The keyboard interrupt for a plain key. *)
Lemma key_interrupt cr2 frame s sc c i d :
  frame ≠ 0 → frame_field FRAME_VECTOR frame s = 33 → in8 hw 0x60 (idev (o_irq s)) = (sc, d) →
  kb_wf (o_kbd s) → (length (queue (o_kbd s)) < 63)%nat → shell_task_id (o_kbd s) = i → 0 <= i →
  plain_key (o_kbd s) sc c →
  ∃ s', interrupt_handler hw fuel hello burn cr2 frame s = Ok 0 s' ∧
    o_kernel s' = set_ksched (wake i (ksched (o_kernel s))) (o_kernel s) ∧
    g_stats (o_irq s') = bump_eoi (bump_keyboard (g_stats (o_irq s))) ∧
    kb_wf (o_kbd s') ∧ queue (o_kbd s') = queue (o_kbd s) ++ [c].
Proof.
  intros Hf Hv Hin W Hq Hi H0 Pk. pose proof (pk_code _ _ _ Pk) as Hsc. unfold interrupt_handler.
  destruct (Z.eqb_spec frame 0); [done|]. cbn [negb kassert]. rewrite (bind_Ok _ _ s tt s) by done.
  rewrite (bind_Ok _ _ s 33 s) by (unfold gets; by rewrite Hv).
  change (33 <? 256) with true. change (33 <? 32) with false. change (33 =? 128) with false.
  change (u8 (33 - 32)) with 1. cbn [kassert]. rewrite (bind_Ok _ _ s tt s) by done. cbv zeta.
  assert (∀ s, zoom irq_lens (irq_is_spurious hw 1) s = Ok false s) as Hsp.
  { intros t. unfold zoom. rewrite spurious_keyboard. by rewrite lset_lget. }
  rewrite (bind_Ok _ _ _ _ _ (Hsp s)). change (1 =? 1) with true. change (1 =? 0) with false. cbn [negb].
  set (s1 := lset dev_of d s).
  assert (on_port (inb hw 0x60) s = Ok sc s1) as Hp.
  { unfold on_port, zoom, inb, lift, mbind, M_bind. cbn [lget dev_of]. rewrite Hin. unfold mret, M_ret.
    by rewrite u8_small by lia. }
  destruct (plain_key_run s1 sc c i W Hq Hi H0 Pk) as (k & Wk & Qk & Ik & Ek).
  set (s2 := Os _ _ _ _ _ _ _) in Ek.
  rewrite (bind_Ok _ _ s tt s2) by (rewrite (bind_Ok _ _ _ _ _ Hp); exact Ek).
  destruct (send_eoi_run 1 (o_irq s2)) as [d' Ed].
  rewrite (bind_Ok _ _ s2 tt (lset irq_lens (Irqc d' (g_addrs (o_irq s2)) (g_backend (o_irq s2)) (g_irq_gsi (o_irq s2))
    (bump_eoi (g_stats (o_irq s2))) (inotes (o_irq s2))) s2)) by (unfold zoom; cbn [lget irq_lens]; by rewrite Ed).
  eexists. split; [reflexivity|]. done.
Qed.


(** A key can be lost between the shell's last look at the queue and its
    sleep: when the interrupt arrives there, the wake-up has no effect on the
    still running shell, and the shell then sleeps with a character waiting. *)
Theorem sleep_misses_key cr2 frame s sc c i d :
  frame ≠ 0 → frame_field FRAME_VECTOR frame s = 33 → in8 hw 0x60 (idev (o_irq s)) = (sc, d) →
  kb_wf (o_kbd s) → queue (o_kbd s) = [] → shell_task_id (o_kbd s) = i → 0 <= i < 16 →
  plain_key (o_kbd s) sc c → length (tasks (ksched (o_kernel s))) = 16%nat →
  current_tid (ksched (o_kernel s)) = i → is_user (task_at (ksched (o_kernel s)) i) = false →
  state (task_at (ksched (o_kernel s)) i) = TASK_RUNNING →
  kb_getchar (o_kbd s) = (0, o_kbd s) ∧
  ∃ s', (interrupt_handler hw fuel hello burn cr2 frame ;; zoom k_lens task_sleep) s = Ok (Trap 0x20) s' ∧
    queue (o_kbd s') = [c] ∧ state (task_at (ksched (o_kernel s')) i) = TASK_WAITING.
Proof.
  intros Hf Hv Hin W Hq Hi H0 Pk Hlen Hc Hu Hr. split.
  { pose proof (kb_getchar_queue _ W) as G. rewrite Hq in G. destruct (kb_getchar (o_kbd s)) as [x k].
    by destruct G as (_ & -> & ->). }
  destruct (key_interrupt cr2 frame s sc c i d) as (s1 & E & Ek & _ & _ & Qk); try done; [by rewrite Hq; cbn; lia|lia|].
  assert (wake i (ksched (o_kernel s)) = ksched (o_kernel s)) as Hwk.
  { unfold wake, is_state, MAX_TASKS. destruct (Z.ltb_spec i 0), (Z.leb_spec 16 i); try lia. cbn [orb].
    rewrite bool_decide_false by (by rewrite Hr). done. }
  rewrite Hwk in Ek. assert (o_kernel s1 = o_kernel s) as Ek' by (rewrite Ek; by destruct (o_kernel s)).
  eexists. split.
  { rewrite (bind_Ok _ _ _ _ _ E). unfold zoom. cbn [lget k_lens]. rewrite Ek'.
    unfold task_sleep, task_current, mbind, M_bind, gets. cbv [id]. rewrite Hc.
    destruct (Z.ltb_spec i 0); [lia|]. rewrite Hu. reflexivity. }
  cbn [o_kbd o_kernel lset k_lens ksched set_ksched]. split; [by rewrite Qk, Hq|].
  rewrite task_at_upd by lia. by rewrite decide_True.
Qed.
End keypress.

(** ** Example: the key A on a controller that holds its scancode *)
Definition ex_keys : machine unit :=
  Machine (λ p d, (if p =? 0x60 then 0x1E else 0, d)) (λ _ _ d, d) (λ _ d, (0, d)) (λ _ _ d, d)
    (λ _ d, (0, d)) (λ _ _ d, d) (λ _ d, (0, d)) (λ _ _ d, d).

(** Vector 33 in the frame at 0xA000; the shell is task [shell]. *)
Definition ex_os (shell : Z) : os unit :=
  Os (set_kmem (wr64 (kmem ex_kernel) 0xA078 33) ex_kernel)
    (Irqc tt (Addrs 0 0 0) IRQ_BACKEND_PIC [] (Stats 0 0 0 0 0 0) []) (Klog tt false [] 0 0 [] [])
    (Acpi ∅ 0 0 madt_zero 0 0 0 0 0 0 false []) (Timer 0 false 0)
    (Kbd (replicate 64 0) 60 60 shell 0 0 0) true.

Lemma ex_plain shell : plain_key (o_kbd (ex_os shell)) 0x1E 97.
Proof. by split. Qed.


Lemma sleep_misses_key_witness : ∃ s',
  (interrupt_handler ex_keys 0 (0, 0) (0, 0) 0 0xA000 ;; zoom k_lens task_sleep) (ex_os 0) = Ok (Trap 0x20) s' ∧
  queue (o_kbd s') = [97] ∧ state (task_at (ksched (o_kernel s')) 0) = TASK_WAITING.
Proof.
  destruct (sleep_misses_key ex_keys 0 (0, 0) (0, 0) 0 0xA000 (ex_os 0) 0x1E 97 0 tt)
    as (_ & s' & E & Q & R); [done|by vm_compute|done|by split|by vm_compute|done|lia|apply ex_plain|done..|].
  exists s'. split; [exact E|]. split; [exact Q|exact R].
Defined.
