(* ===== verification/Panic.v ===== *)
(** * The panic report (kernel/panic.c)

    [panic] masks interrupts, keeps the message, reports it and the current
    task on the serial line and on the screen, and halts.  The operations of
    the other files end in the outcome [Panic] with the message;
    [panic_report] is what the machine does then, up to the final [hlt] loop. *)
From stdpp Require Import base gmap list list_numbers strings.
From Stdlib Require Import ZArith Lia.
From S2P Require Import Prelude Monad Mem Cbuf Devices Display Klog Acpi Irq Pmm Vmm Keyboard Kernel Task Process Syscall System.

Section code.
Context {D : Type} (hw : machine D) (fuel : nat).

Definition on_serial (m : M (klog D) unit) : M (os D) unit := zoom log_lens m.

(** The lines about the current task, in slot [i]. *)
Definition report_task (t : Task) : M (os D) unit :=
  oprint "tid=" ;; oprint_dec (tid t) ;;
  oprint " pid=" ;; oprint_dec (pid t) ;;
  oprint " cr3=" ;; oprint_hex (task_cr3 t) ;; oprint "\n" ;;
  on_serial (serial_puts hw fuel (chars "tid=")) ;; on_serial (serial_write_dec hw fuel (u64 (tid t))) ;;
  on_serial (serial_puts hw fuel (chars " pid=")) ;; on_serial (serial_write_dec hw fuel (u64 (pid t))) ;;
  on_serial (serial_puts hw fuel (chars " cr3=")) ;; on_serial (serial_write_hex hw fuel (task_cr3 t)) ;;
  on_serial (serial_puts hw fuel newline).

Definition panic_report (message : option (list Z)) : M (os D) unit :=
  modify (set_if false) ;;
  on_serial (panic_store_last message) ;;
  on_serial (serial_puts hw fuel (newline ++ chars "[PANIC] ")) ;;
  on_serial (serial_write hw fuel message) ;;
  on_serial (serial_puts hw fuel newline) ;;
  oprint "\n*** KERNEL PANIC ***\n" ;;
  (match message with None => panic "null dereference" | Some m => oprint_text m end) ;;
  oprint "\n" ;;
  k ← gets o_kernel;
  (match task_current k with Some i => report_task (task_at (ksched k) i) | None => mret tt end) ;;
  oflush.
End code.

(** ** What is reported *)
Definition task_text (t : Task) : list Z :=
  chars "tid=" ++ dec_text (u64 (tid t)) ++ chars " pid=" ++ dec_text (u64 (pid t)) ++
  chars " cr3=" ++ hex_text (task_cr3 t) ++ newline.
Definition task_out (t : Task) : list out :=
  [Str "tid="; Dec (u64 (tid t)); Str " pid="; Dec (u64 (pid t)); Str " cr3="; Hex (u64 (task_cr3 t)); Str "\n"].

Definition current_task (k : kernel) : option Task := (λ i, task_at (ksched k) i) <$> task_current k.

Lemma dec_text_digits v : 0 <= v < 2 ^ 64 → Forall (λ c, 0 <= c < 256) (dec_text v) ∧
  (v ≠ 0 → ∃ l, dec_buf 32 v = Some l ∧ dec_text v = rev l).
Proof.
  intros Hv. unfold dec_text. destruct (Z.eqb_spec v 0) as [->|Hne].
  { split; [repeat constructor; lia|done]. }
  destruct (dec_buf_spec 20 v) as (l & E & _ & Hd & _); [lia|].
  pose proof (dec_buf_more 20 12 v _ E) as E'. cbn [Nat.add] in E'. rewrite E'. cbn. split; [|by exists l].
  apply Forall_rev. eapply Forall_impl; [exact Hd|]. cbn. lia.
Qed.

Lemma hex_chars_bytes v : Forall (λ c, 0 <= c < 256) (hex_chars v).
Proof.
  unfold hex_chars. apply Forall_fmap, Forall_forall. intros k _. change (0 <= hex_digit v (60 - 4 * k) < 256). unfold hex_digit.
  assert (0 <= Z.land (Z.shiftr v (60 - 4 * k)) 0xF < 16) as H by (rewrite (Z.land_ones _ 4) by lia; by apply Z.mod_pos_bound).
  cbv zeta. destruct (Z.land (Z.shiftr v (60 - 4 * k)) 0xF <? 10); lia.
Qed.

Section spec.
Context {D : Type} (hw : machine D) (sent : D → list Z) (busy : D → nat) (bound : nat) (I : D → Prop).
Context `{!Uart hw sent busy bound I} (fuel : nat) (Hfuel : (bound < fuel)%nat).
Implicit Types s : os D.

(** From [s0], the text [t] has gone to the serial line and [o] to the screen;
    [lp] is the message kept. *)
Record reported (s0 : os D) (lp t : list Z) (o : list out) (s : os D) : Prop := {
  re_kernel : o_kernel s = with_out (kout (o_kernel s0) ++ o) (o_kernel s0);
  re_ready : serial_ready (o_log s) = true;
  re_dev : I (idev (o_irq s));
  re_sent : sent (idev (o_irq s)) = sent (idev (o_irq s0)) ++ crlf t;
  re_if : o_if s = false;
  re_last : cstr (g_last_panic (o_log s)) = lp
}.

Lemma report_serial s0 lp t o s str (m : M (klog D) unit) :
  (∀ k, serial_ready k = true → I (dev k) → wp m (λ _, sends sent I str k) k) →
  reported s0 lp t o s → wp (on_serial m) (λ _, reported s0 lp (t ++ str) o) s.
Proof.
  intros Hm [R1 R2 R3 R4 R5 R6]. apply zoom_wp. eapply wp_mono; [by apply Hm|].
  intros [] k (d & -> & Hd & Ed). split; try done. cbn in Ed |- *. by rewrite Ed, R4, crlf_app, app_assoc.
Qed.

Lemma report_puts s0 lp t o s str : Forall (λ c, 0 <= c < 256) str → reported s0 lp t o s →
  wp (on_serial (serial_puts hw fuel str)) (λ _, reported s0 lp (t ++ str) o) s.
Proof. intros Hs. apply report_serial. intros k Hr Hi. by eapply serial_puts_wp. Qed.

Lemma report_dec s0 lp t o s v : 0 <= v < 2 ^ 64 → reported s0 lp t o s →
  wp (on_serial (serial_write_dec hw fuel v)) (λ _, reported s0 lp (t ++ dec_text v) o) s.
Proof.
  intros Hv. apply report_serial. intros k Hr Hi. destruct (dec_text_digits v Hv) as [Hd He].
  unfold serial_write_dec. destruct (Z.eqb_spec v 0) as [->|Hne].
  - by eapply serial_write_char_wp.
  - destruct (He Hne) as (l & -> & E). rewrite E in *. by eapply serial_puts_wp.
Qed.

Lemma report_print s0 lp t o s (m : M (os D) unit) x :
  (∀ s, m s = Ok tt (lset k_lens (with_out (kout (o_kernel s) ++ x) (o_kernel s)) s)) →
  reported s0 lp t o s → wp m (λ _, reported s0 lp t (o ++ x)) s.
Proof.
  intros Hm [R1 R2 R3 R4 R5 R6]. unfold wp. rewrite Hm. split; try done. cbn. rewrite R1. cbn. by rewrite app_assoc.
Qed.
Lemma report_hex s0 lp t o s v : reported s0 lp t o s →
  wp (on_serial (serial_write_hex hw fuel v)) (λ _, reported s0 lp (t ++ hex_text v) o) s.
Proof.
  apply report_serial. intros k Hr Hi. unfold serial_write_hex. apply wp_bind.
  eapply wp_mono; [eapply serial_puts_wp; [done|done|done|done|]; by repeat constructor|].
  intros [] k1 (d1 & -> & H1 & E1). eapply wp_mono; [eapply serial_puts_wp; try done; apply hex_chars_bytes|].
  intros [] k2 (d2 & -> & H2 & E2). exists d2. split_and!; [done|done|]. cbn in E2.
  unfold hex_text. by rewrite E2, E1, crlf_app, app_assoc.
Qed.

Lemma report_task_wp s0 lp t o s k : reported s0 lp t o s →
  wp (report_task hw fuel k) (λ _, reported s0 lp (t ++ task_text k) (o ++ task_out k)) s.
Proof.
  intros R. unfold report_task.
  do 7 (apply wp_bind; eapply wp_mono; [eapply report_print; [|exact R]; reflexivity|clear s R; intros [] s R]).
  assert (∀ v, 0 <= u64 v < 2 ^ 64) as Hu by apply u64_range.
  apply wp_bind; eapply wp_mono; [eapply report_puts; [|exact R]; by repeat constructor|clear s R; intros [] s R].
  apply wp_bind; eapply wp_mono; [eapply report_dec; [|exact R]; apply Hu|clear s R; intros [] s R].
  apply wp_bind; eapply wp_mono; [eapply report_puts; [|exact R]; by repeat constructor|clear s R; intros [] s R].
  apply wp_bind; eapply wp_mono; [eapply report_dec; [|exact R]; apply Hu|clear s R; intros [] s R].
  apply wp_bind; eapply wp_mono; [eapply report_puts; [|exact R]; by repeat constructor|clear s R; intros [] s R].
  apply wp_bind; eapply wp_mono; [eapply report_hex; exact R|clear s R; intros [] s R].
  eapply wp_mono; [eapply report_puts; [|exact R]; by repeat constructor|clear s R; intros [] s R].
  unfold task_text, task_out. by rewrite <-!app_assoc in R.
Qed.
(** The message kept: the first 127 characters. *)
Lemma report_store msg s : length (g_last_panic (o_log s)) = 128%nat → Forall (λ c, 0 < c < 256) msg →
  serial_ready (o_log s) = true → I (idev (o_irq s)) → o_if s = false →
  wp (on_serial (panic_store_last (Some msg))) (λ _, reported s (take 127 msg) [] []) s.
Proof.
  intros Hl Hm Hr HI Hf. apply zoom_wp. unfold panic_store_last. apply wp_bind, wp_get.
  change (g_last_panic (lget log_lens s)) with (g_last_panic (o_log s)). set (buf := g_last_panic (o_log s)) in *.
  change (buf, 0) with (wrote buf []). change (128 - 1) with (Z.of_nat 127).
  rewrite (emit_while_wrote buf 127) by (cbn; lia). cbn [mbind option_bind app length message_or_null default from_option].
  change (127 - 0)%nat with 127%nat. rewrite emit_wrote by (rewrite length_take; lia). cbn [fmap option_fmap option_map fst wrote].
  apply wp_modify. split; try done; [cbn; by rewrite app_nil_r; destruct s as [[]]|cbn; by rewrite app_nil_r|].
  cbn [g_last_panic o_log lset log_lens without_dev]. rewrite <-app_assoc. apply cstr_wrote.
  apply Forall_take. eapply Forall_impl; [exact Hm|]. cbn. lia.
Qed.

End spec.

(** ** Example: task 0 fails *)
Definition ex_failing : os (list Z) :=
  Os ex_kernel (Irqc [] (Addrs 0 0 0) IRQ_BACKEND_PIC [] (Stats 0 0 0 0 0 0) [])
    (Klog tt true [] 0 0 (replicate 128 0) []) (Acpi ∅ 0 0 madt_zero 0 0 0 0 0 0 false []) (Timer 0 false 0)
    (Kbd (replicate 64 0) 0 0 1 0 0 0) true.

