(* ===== verification/User.v ===== *)
(** * The user programs (user/hello.c, burn.c, syscall.h)

    A program is what it asks of the kernel: a tree of [int $0x80]
    instructions with their four argument registers, branching on the value
    returned in RAX, that ends in the empty loop after [sys_exit].  String
    literals are data of the image; [lit] gives the address of each. *)
From stdpp Require Import base gmap list list_numbers strings.
From Stdlib Require Import ZArith Lia.
From S2P Require Import Prelude Monad Mem Klog Pmm Vmm Kernel Task Process Syscall.

Inductive prog :=
| Int80 (rax rbx rcx rdx : Z) (k : Z → prog)
| Spin.

Definition i64 (z : Z) : Z := (z + 2 ^ 63) `mod` 2 ^ 64 - 2 ^ 63.

(** ** user/syscall.h *)
Definition syscall3 (num a0 a1 a2 : Z) (k : Z → prog) : prog := Int80 num a0 a1 a2 k.
Definition u_write (s len : Z) (k : Z → prog) : prog := syscall3 SYS_WRITE s len 0 k.
Definition u_exit (code : Z) : prog := syscall3 SYS_EXIT (u64 code) 0 0 (λ _, Spin).
Definition u_yield (k : prog) : prog := syscall3 SYS_YIELD 0 0 0 (λ _, k).
Definition u_spawn (image_id : Z) (k : Z → prog) : prog := syscall3 SYS_SPAWN (u64 image_id) 0 0 (λ r, k (i64 r)).
Definition u_getpid (k : Z → prog) : prog := syscall3 SYS_GETPID 0 0 0 (λ r, k (i64 r)).

(** ** The literals *)
Definition text_online : list Z := chars "[hello] userspace online" ++ newline.
Definition text_tick : list Z := chars "[hello] tick" ++ newline.
Definition text_hello_exit : list Z := chars "[hello] exit" ++ newline.
Definition text_start : list Z := chars "[burn] cpu-bound start" ++ newline.
Definition text_running : list Z := chars "[burn] still running" ++ newline.
Definition text_burn_exit : list Z := chars "[burn] exit" ++ newline.

Definition literals : list (list Z) :=
  [text_online; text_tick; text_hello_exit; text_start; text_running; text_burn_exit].

Section programs.
Context (lit : list Z → Z).

(** ** user/hello.c *)
Fixpoint hello_ticks (n : nat) (k : prog) : prog :=
  match n with
  | O => k
  | S n' => u_write (lit text_tick) 13 (λ _, u_yield (hello_ticks n' k))
  end.

Definition hello_start : prog :=
  u_getpid (λ _,
  u_write (lit text_online) 25 (λ _,
  hello_ticks 8 (
  u_write (lit text_hello_exit) 13 (λ _,
  u_exit 0)))).

(** ** user/burn.c *)
Fixpoint fib_loop (n : nat) (a b : Z) : Z :=
  match n with O => a | S n' => fib_loop n' b (u64 (a + b)) end.
Definition fib (n : Z) : Z := fib_loop (Z.to_nat n) 0 1.

(** The value of [acc] after one round; the program drops it. *)
Definition burn_acc : Z := fold_left (λ acc i, Z.lxor acc (fib (i `mod` 24 + 8))) (seqZ 0 50000) 0.

Fixpoint burn_rounds (n : nat) (round : Z) (k : prog) : prog :=
  match n with
  | O => k
  | S n' =>
      let acc := burn_acc in
      let rest := u_yield (burn_rounds n' (round + 1) k) in
      if round `mod` 3 =? 0 then u_write (lit text_running) 21 (λ _, rest) else rest
  end.

Definition burn_start : prog :=
  u_write (lit text_start) 23 (λ _,
  burn_rounds 12 0 (
  u_write (lit text_burn_exit) 12 (λ _,
  u_exit 0))).
End programs.

(** ** What a program asks for *)
Record call := Call { c_rax : Z; c_rbx : Z; c_rcx : Z; c_rdx : Z }.

(** The calls in order, when the kernel answers the [n]th with [ans n]. *)
Fixpoint calls (ans : nat → Z) (n : nat) (p : prog) : list call :=
  match p with
  | Spin => []
  | Int80 a b c d k => Call a b c d :: calls ans (S n) (k (ans n))
  end.

(** The Fibonacci numbers. *)
Fixpoint fibonacci (n : nat) : Z :=
  match n with O => 0 | S m => match m with O => 1 | S k => fibonacci m + fibonacci k end end.

Lemma fibonacci_step n : fibonacci (S (S n)) = fibonacci (S n) + fibonacci n.
Proof. done. Qed.

Lemma fib_loop_spec n k : fib_loop n (u64 (fibonacci k)) (u64 (fibonacci (S k))) = u64 (fibonacci (n + k)).
Proof.
  revert k. induction n as [|n IH]; intros k; [done|]. cbn [fib_loop].
  replace (u64 (u64 (fibonacci k) + u64 (fibonacci (S k)))) with (u64 (fibonacci (S (S k)))).
  - rewrite IH. f_equal. f_equal. lia.
  - rewrite fibonacci_step, Z.add_comm. unfold u64. by rewrite <-Z.add_mod by lia.
Qed.

(** [fib] computes Fibonacci numbers modulo 2^64. *)
Lemma fib_spec n : 0 <= n → fib n = u64 (fibonacci (Z.to_nat n)).
Proof.
  intros Hn. unfold fib. change (fib_loop (Z.to_nat n) 0 1) with (fib_loop (Z.to_nat n) (u64 (fibonacci 0)) (u64 (fibonacci 1))).
  rewrite fib_loop_spec. f_equal. f_equal. lia.
Qed.

(** A call that is no [write], or writes a whole literal. *)
Definition well_formed_call (lit : list Z → Z) (c : call) : Prop :=
  c_rax c = SYS_WRITE → ∃ l, l ∈ literals ∧ c_rbx c = lit l ∧ c_rcx c = Z.of_nat (length l).

Section calls.
Context (lit : list Z → Z) (ans : nat → Z).
Local Abbreviation ok n p := (Forall (well_formed_call lit) (calls ans n p)).

Lemma ok_write l len k n : l ∈ literals → len = Z.of_nat (length l) → ok (S n) (k (ans n)) → ok n (u_write (lit l) len k).
Proof. intros Hl -> Hk. constructor; [|done]. intros _. by exists l. Qed.

Lemma ok_other a b c d k n : a ≠ SYS_WRITE → ok (S n) (k (ans n)) → ok n (syscall3 a b c d k).
Proof. intros Ha Hk. constructor; [|done]. by intros ?. Qed.

Lemma ok_exit c n : ok n (u_exit c).
Proof. by apply ok_other. Qed.

Lemma hello_calls : ok 0 (hello_start lit).
Proof.
  assert (∀ m n p, (∀ n, ok n p) → ok n (hello_ticks lit m p)) as Ht.
  { induction m as [|m IH]; intros n p Hp; [done|]. cbn [hello_ticks]. apply ok_write; [|done|].
    - by do 1 right; left.
    - apply ok_other; [done|]. by apply IH. }
  apply ok_other; [done|]. apply ok_write; [left|done|]. apply Ht. intros n.
  apply ok_write; [by do 2 right; left|done|apply ok_exit].
Qed.

Lemma burn_calls : ok 0 (burn_start lit).
Proof.
  assert (∀ m r n p, (∀ n, ok n p) → ok n (burn_rounds lit m r p)) as Ht.
  { induction m as [|m IH]; intros r n p Hp; [done|]. cbn [burn_rounds]. cbv zeta.
    assert (∀ n, ok n (u_yield (burn_rounds lit m (r + 1) p))) as Hy by (intros; apply ok_other; [done|by apply IH]).
    destruct (r `mod` 3 =? 0); [|done]. apply ok_write; [by do 4 right; left|done|done]. }
  apply ok_write; [by do 3 right; left|done|]. apply Ht. intros n.
  apply ok_write; [by do 5 right; left|done|apply ok_exit].
Qed.
End calls.

(** The literals are in the memory of the space, below USER_TOP and in small
    pages. *)
Record image_in (v : vmm) (asp root : Z) (lit : list Z → Z) : Prop := {
  im_range : ∀ l, l ∈ literals → 0 <= lit l ∧ lit l + Z.of_nat (length l) <= USER_TOP;
  im_mapped : ∀ l x, l ∈ literals → lit l <= x < lit l + Z.of_nat (length l) →
    no_huge (vmem v) root x ∧ vmm_virt_to_phys asp (x / 4096 * 4096) v ≠ 0;
  im_text : ∀ l, l ∈ literals → user_bytes v asp (lit l) (Z.of_nat (length l)) = l
}.

Lemma literal_facts l : l ∈ literals → Z.of_nat (length l) <= 4096 ∧ shown l = map Chr l.
Proof.
  unfold literals. rewrite !elem_of_cons, elem_of_nil. intros [->|[->|[->|[->|[->|[->|[]]]]]]]; (split; [vm_compute; discriminate|reflexivity]).
Qed.


(** ** Example: hello.c in a space that maps one page at 2^39 *)
Definition ex_lit (l : list Z) : Z :=
  0x8000000000 + 64 * Z.of_nat (default 0%nat (fst <$> list_find (l =.) literals)).

Fixpoint store_bytes (a : Z) (l : list Z) (m : memory) : memory :=
  match l with [] => m | c :: l' => store_bytes (a + 1) l' (wr8 m a c) end.

(** The literals in page 15, the trap frame of the first [write] in page 14. *)
Definition ex_image_mem : memory :=
  let m := fold_left (λ m l, store_bytes (ex_lit l - 0x8000000000 + 0xF000) l m) literals ex_mem in
  wr64 (wr64 (wr64 m (0xE000 + FRAME_RAX) SYS_WRITE) (0xE000 + FRAME_RBX) (ex_lit text_online)) (0xE000 + FRAME_RCX) 25.
Definition ex_user_vmm : vmm := Vmm (Pmm ex_image_mem 0x2000 2 16 8) 0x3000 0x5000 [].

Lemma store_bytes_out l a m b : b < a ∨ a + Z.of_nat (length l) <= b → rd8 (store_bytes a l m) b = rd8 m b.
Proof.
  revert a m. induction l as [|c l IH]; intros a m Hb; [done|]. cbn [store_bytes length] in *.
  rewrite IH by lia. rewrite rd8_wr8. by rewrite decide_False by lia.
Qed.

Lemma ex_image_low b : b < 0xE000 → rd8 ex_image_mem b = rd8 ex_mem b.
Proof.
  intros Hb. unfold ex_image_mem. rewrite !rd8_wr64_out by (unfold FRAME_RAX, FRAME_RBX, FRAME_RCX; lia).
  unfold literals. cbn [fold_left].
  assert (∀ l, 0xF000 <= ex_lit l - 0x8000000000 + 0xF000) as Hl by (intros l; unfold ex_lit; lia).
  rewrite !store_bytes_out by (pose proof (Hl text_online); pose proof (Hl text_tick); pose proof (Hl text_hello_exit);
    pose proof (Hl text_start); pose proof (Hl text_running); pose proof (Hl text_burn_exit); lia). done.
Qed.

Lemma ex_user_entry t i : t = 0x3000 ∨ t = 0x5000 → 0 <= i < 512 → entry (vmem ex_user_vmm) t i = 0.
Proof.
  intros Ht Hi. apply rdn_zero. intros j Hj. cbn in Hj. change (rd8 ex_image_mem j = 0).
  rewrite ex_image_low by lia. apply ex_zero. lia.
Qed.

Lemma ex_user_phys : phys_ok (phys ex_user_vmm).
Proof.
  split; [split; [cbn; lia|done|by vm_compute]|by vm_compute|done|].
  intros k Hk ??. assert (k = 2) as -> by (unfold PAGE_SIZE in *; cbn in *; lia). by vm_compute.
Qed.

Lemma ex_user_as : as_wf ex_user_vmm 0x4000 0x5000.
Proof.
  apply as_wf_empty; [by vm_compute| | |done|intros; apply ex_user_entry; auto].
  - exists 4. split_and!; [done|lia|cbn; lia|by vm_compute|right; by vm_compute].
  - exists 5. split_and!; [done|lia|cbn; lia|by vm_compute|right; by vm_compute].
Qed.

Definition ex_user_kernel (v : vmm) : kernel :=
  Kernel v 0 false (ksched (ex_call 0 0 0)) (kproc (ex_call 0 0 0)) [].

Definition ex_image_ok (v : vmm) : bool :=
  let s := ex_user_kernel v in
  (frame_rax s 0xE000 =? SYS_WRITE) && (frame_rbx s 0xE000 =? ex_lit text_online) && (frame_rcx s 0xE000 =? 25) &&
  (cr3 v =? 0x5000) && negb (vmm_virt_to_phys 0x4000 0x8000000000 v =? 0) &&
  forallb (λ l, bool_decide (user_bytes v 0x4000 (ex_lit l) (Z.of_nat (length l)) = l) &&
    (ex_lit l + Z.of_nat (length l) <=? 0x8000001000)) literals.

Lemma ex_image_check : match vmm_map 0x4000 0x8000000000 0xF000 7 ex_user_vmm with
  | Ok _ v => ex_image_ok v | Panic _ _ => false end = true.
Proof. vm_compute. reflexivity. Qed.

Lemma ex_image_in : ∃ v, vmm_map 0x4000 0x8000000000 0xF000 7 ex_user_vmm = Ok tt v ∧ as_wf v 0x4000 0x5000 ∧
  image_in v 0x4000 0x5000 ex_lit ∧ cr3 v = 0x5000 ∧ frame_rax (ex_user_kernel v) 0xE000 = SYS_WRITE ∧
  frame_rbx (ex_user_kernel v) 0xE000 = ex_lit text_online ∧ frame_rcx (ex_user_kernel v) 0xE000 = 25.
Proof.
  assert (∀ i, 0 <= i < 512 → entry (vmem ex_user_vmm) 0x5000 i = 0) as Hz by (intros; apply ex_user_entry; auto).
  pose proof ex_image_check as C.
  destruct (vmm_map_ok ex_user_vmm 0x4000 0x5000 0x8000000000 0xF000 7) as (v & E & _ & A & _ & H & _).
  1: exact ex_user_phys. 1: exact ex_user_as. 1,2: reflexivity. 1: lia. 1: exact ex_flags. 1: cbn; lia.
  1: by apply empty_no_huge.
  { unfold leaf. destruct (walk (vmem ex_user_vmm) 0x5000 (path3 0x8000000000)) eqn:W; [|done].
    apply walk_empty in W as [? _]; [discriminate|exact Hz|apply okp_path3]. }
  rewrite E in C. exists v. split; [exact E|]. clear E. unfold ex_image_ok in C. rewrite !andb_true_iff, !Z.eqb_eq, negb_true_iff, Z.eqb_neq in C.
  destruct C as (((((C1 & C2) & C3) & C4) & C5) & C6). rewrite forallb_forall in C6.
  assert (∀ l, l ∈ literals → user_bytes v 0x4000 (ex_lit l) (Z.of_nat (length l)) = l ∧
    0x8000000000 <= ex_lit l ∧ ex_lit l + Z.of_nat (length l) <= 0x8000001000) as L.
  { intros l Hl. apply list_elem_of_In, C6 in Hl. apply andb_true_iff in Hl as [Hb%bool_decide_eq_true Hr%Z.leb_le].
    split; [exact Hb|]. unfold ex_lit in *. lia. }
  split; [exact A|]. split; [|split; [exact C4|split; [exact C1|split; [exact C2|exact C3]]]]. split.
  - intros l Hl. destruct (L l Hl) as (_ & ? & ?). unfold USER_TOP. lia.
  - intros l x Hl Hx. destruct (L l Hl) as (_ & H1 & H2). split; [by apply H, empty_no_huge|].
    replace (x / 4096 * 4096) with 0x8000000000 by arith. exact C5.
  - intros l Hl. apply (L l Hl).
Qed.

