(* ===== verification/Trap.v ===== *)
(** * Interrupt entry and exit (kernel/isr.S, scheduler/task.c)

    The stubs of isr.S and [schedule] of task.c as register transfers: what
    the processor and the stub push on the stack, the call of the C handler,
    and the pops up to [iretq].  The handler's own use of the stack below the
    frame is left out. *)
From stdpp Require Import base gmap list list_numbers strings.
From Stdlib Require Import ZArith Lia.
From S2P Require Import Prelude Monad Mem Devices Klog Acpi Irq Pmm Vmm Kmalloc Keyboard Kernel Task Process Syscall System.

(** The registers a task runs with.  [gpr] holds the fifteen general
    registers in the order of [InterruptFrame]: r15, r14, r13, r12, r11, r10,
    r9, r8, rbp, rdi, rsi, rdx, rcx, rbx, rax. *)
Record regs := Regs { gpr : list Z; r_rip : Z; r_cs : Z; r_rflags : Z; r_rsp : Z; r_ss : Z }.

(** ** Stack instructions *)
Definition push (v : Z) (st : memory * Z) : memory * Z :=
  let sp := u64 (snd st - 8) in (wr64 (fst st) sp v, sp).
Definition pushes (l : list Z) (st : memory * Z) : memory * Z := fold_left (λ st v, push v st) l st.

Fixpoint pops (n : nat) (m : memory) (sp : Z) : list Z * Z :=
  match n with
  | O => ([], sp)
  | S n' => let '(l, sp') := pops n' m (u64 (sp + 8)) in (rd64 m sp :: l, sp')
  end.

(** ** Entry *)

(** Vectors for which the processor pushes an error code. *)
Definition cpu_pushes_error (vector : Z) : bool := existsb (Z.eqb vector) [8; 10; 11; 12; 13; 14; 17; 21; 29; 30].

(** The processor, with the stack pointer it has chosen. *)
Definition cpu_enter (vector err : Z) (r : regs) (stack : Z) (m : memory) : memory * Z :=
  pushes ([r_ss r; r_rsp r; r_rflags r; r_cs r; r_rip r] ++ (if cpu_pushes_error vector then [err] else []))
    (m, Z.land stack 0xFFFFFFFFFFFFFFF0).

(** Stubs that push only the vector. *)
Definition stub_has_error (vector : Z) : bool := existsb (Z.eqb vector) [8; 10; 11; 12; 13; 14; 17].

Definition isr_push (vector : Z) (r : regs) (st : memory * Z) : memory * Z :=
  pushes ((if stub_has_error vector then [] else [0]) ++ [vector] ++ rev (gpr r)) st.

Definition enter (vector err : Z) (r : regs) (stack : Z) (m : memory) : memory * Z :=
  isr_push vector r (cpu_enter vector err r stack m).

(** ** Exit: fifteen pops, [addq $16, %rsp], [iretq] *)
Definition leave (m : memory) (sp : Z) : regs :=
  let '(g, sp) := pops 15 m sp in
  let sp := u64 (sp + 16) in
  match fst (pops 5 m sp) with
  | [rip; cs; rflags; rsp; ss] => Regs g rip cs rflags rsp ss
  | _ => Regs [] 0 0 0 0 0
  end.

(** ** The stubs and [schedule] *)
Section code.
Context {D : Type} (hw : machine D) (fuel : nat) (hello burn : Z * Z).

Definition set_mem_of (m : memory) (s : os D) : os D := lset k_lens (set_kmem m (o_kernel s)) s.

(** [isr32] calls [timer_tick], every other stub [interrupt_handler]. *)
Definition isr (vector err cr2 : Z) (r : regs) (stack : Z) : M (os D) regs :=
  m ← gets (λ s, kmem (o_kernel s));
  let '(m', frame) := enter vector err r stack m in
  modify (set_mem_of m') ;;
  new_rsp ← (if vector =? 32 then timer_tick hw frame else interrupt_handler hw fuel hello burn cr2 frame);
  m ← gets (λ s, kmem (o_kernel s));
  mret (leave m (if new_rsp =? 0 then frame else new_rsp)).

(** [None]: no task to run, the call returns. *)
Definition schedule : M kernel (option regs) :=
  next_rsp ← context_switch_from 0;
  if next_rsp =? 0 then mret None else
  m ← gets kmem;
  mret (Some (leave m next_rsp)).
End code.

(** ** The frame in memory *)
Definition frame_words (vector err : Z) (r : regs) : list Z :=
  gpr r ++ [vector; err; r_rip r; r_cs r; r_rflags r; r_rsp r; r_ss r].

(** [l] lies at [sp], one quadword each. *)
Definition words_at (m : memory) (sp : Z) (l : list Z) : Prop :=
  ∀ k w, l !! k = Some w → rd64 m (sp + 8 * Z.of_nat k) = w.

Lemma words_cons m sp w l : words_at m sp (w :: l) ↔ rd64 m sp = w ∧ words_at m (sp + 8) l.
Proof.
  split.
  - intros H. split; [specialize (H 0%nat w eq_refl); by rewrite Z.add_0_r in H|].
    intros k v Hk. specialize (H (S k) v Hk). rewrite <-H. f_equal. lia.
  - intros [H0 H] [|k] v Hk; [cbn in Hk; simplify_eq; by rewrite Z.add_0_r|]. rewrite <-(H k v Hk). f_equal. lia.
Qed.

(** Pushing a list leaves it in memory, last word first. *)
Lemma pushes_spec l m sp : 8 * Z.of_nat (length l) <= sp < 2 ^ 64 → Forall (λ w, 0 <= w < 2 ^ 64) l →
  let '(m', sp') := pushes l (m, sp) in
  sp' = sp - 8 * Z.of_nat (length l) ∧ words_at m' sp' (rev l) ∧ same_outside sp' sp m m'.
Proof.
  revert m sp. induction l as [|v l IH]; intros m sp Hsp Hl; cbn [pushes fold_left length] in *.
  { split_and!; [lia|by intros [|k] w|by intros a]. }
  apply Forall_cons in Hl as [Hv Hl]. change (fold_left (λ st v, push v st) l (push v (m, sp))) with (pushes l (push v (m, sp))).
  unfold push. cbn [fst snd]. rewrite u64_small by lia. specialize (IH (wr64 m (sp - 8) v) (sp - 8) ltac:(lia) Hl).
  destruct (pushes l _) as [m' sp']. destruct IH as (-> & W & O). split_and!; [lia| |].
  - intros k w Hk. cbn [rev] in Hk. apply lookup_app_Some in Hk as [Hk|[Hk Hk']]; [by apply W|].
    rewrite length_rev in Hk, Hk'. destruct (k - length l)%nat eqn:E; [|done]. cbn in Hk'. simplify_eq.
    replace (sp - 8 - 8 * Z.of_nat (length l) + 8 * Z.of_nat k) with (sp - 8) by lia.
    rewrite (rd64_same_outside _ _ _ _ _ O) by lia. rewrite rd64_wr64_eq. by apply u64_small.
  - intros a Ha. rewrite O by lia. apply rd8_wr64_out. lia.
Qed.

Lemma pops_spec n m sp l : length l = n → 0 <= sp → sp + 8 * Z.of_nat n < 2 ^ 64 → words_at m sp l →
  pops n m sp = (l, sp + 8 * Z.of_nat n).
Proof.
  revert sp l. induction n as [|n IH]; intros sp l Hl Hs Hb W; cbn [pops].
  { apply nil_length_inv in Hl as ->. f_equal. lia. }
  destruct l as [|w l]; [done|]. apply words_cons in W as [W0 W]. rewrite u64_small by lia.
  rewrite (IH (sp + 8) l) by (done || lia || (cbn in Hl; lia)). rewrite W0. f_equal. lia.
Qed.

Lemma leave_words m sp g x y rip cs fl rsp ss : length g = 15%nat → 0 <= sp → sp + 176 < 2 ^ 64 →
  words_at m sp (g ++ [x; y; rip; cs; fl; rsp; ss]) → leave m sp = Regs g rip cs fl rsp ss.
Proof.
  intros Hg Hs Hb W. unfold leave. rewrite (pops_spec 15 m sp g); [|done|done|lia|].
  2: { intros k w Hk. apply W. by apply lookup_app_l_Some. }
  rewrite u64_small by lia. rewrite (pops_spec 5 m _ [rip; cs; fl; rsp; ss]); [done|done|lia|lia|].
  intros k w Hk. rewrite <-(W (17 + k)%nat w); [f_equal; lia|]. rewrite lookup_app_r by lia.
  rewrite Hg. by replace (17 + k - 15)%nat with (2 + k)%nat by lia.
Qed.

(** ** Entry and exit *)
Record regs_ok (r : regs) : Prop := {
  ro_len : length (gpr r) = 15%nat;
  ro_range : Forall (λ w, 0 <= w < 2 ^ 64) (gpr r ++ [r_rip r; r_cs r; r_rflags r; r_rsp r; r_ss r])
}.

(** The vectors idt.c installs. *)
Definition installed (v : Z) : Prop := 0 <= v <= 20 ∨ 32 <= v <= 47 ∨ v = 128.

(** Stubs and processor agree on the error code. *)
Lemma error_agree v : installed v → stub_has_error v = cpu_pushes_error v.
Proof.
  intros H. assert (v ∈ seqZ 0 21 ++ seqZ 32 16 ++ [128]) as Hv.
  { rewrite !elem_of_app, !elem_of_seqZ, list_elem_of_singleton. unfold installed in H. lia. }
  assert (Forall (λ v, stub_has_error v = cpu_pushes_error v) (seqZ 0 21 ++ seqZ 32 16 ++ [128])) as F
    by (repeat constructor). by apply (proj1 (Forall_forall _ _) F).
Qed.

Lemma align16 x : 0 <= x < 2 ^ 64 → Z.land x 0xFFFFFFFFFFFFFFF0 = x / 16 * 16.
Proof.
  intros Hx. change 0xFFFFFFFFFFFFFFF0 with (Z.shiftl (Z.ones 60) 4). change 16 with (2 ^ 4).
  rewrite <-Z.shiftr_div_pow2, <-Z.shiftl_mul_pow2 by lia. apply Z.bits_inj'. intros i Hi.
  rewrite Z.land_spec, !Z.shiftl_spec by done. destruct (Z.lt_ge_cases i 4).
  { rewrite !(Z.testbit_neg_r _ (i - 4)) by lia. apply andb_false_r. }
  rewrite Z.shiftr_spec by lia. replace (i - 4 + 4) with i by lia. destruct (Z.lt_ge_cases i 64).
  - rewrite Z.ones_spec_low by lia. apply andb_true_r.
  - by rewrite (testbit_lt x 64 i) by lia.
Qed.

Lemma enter_spec v err r stack m : installed v → regs_ok r → 0 <= err < 2 ^ 64 → 192 <= stack < 2 ^ 64 →
  let '(m', f) := enter v err r stack m in
  f = stack / 16 * 16 - FRAME_SIZE ∧
  words_at m' f (frame_words v (if cpu_pushes_error v then err else 0) r) ∧ same_outside f (f + FRAME_SIZE) m m'.
Proof.
  intros Hv [Hg Hr] He Hs. unfold enter, isr_push, cpu_enter. rewrite align16, (error_agree v Hv) by lia.
  apply Forall_app in Hr as [Rg Rr]. set (e := if cpu_pushes_error v then err else 0).
  assert (∀ l1 l2 st, pushes l2 (pushes l1 st) = pushes (l1 ++ l2) st) as Hp by (intros; symmetry; apply fold_left_app).
  rewrite Hp. set (l := ((_ ++ _) ++ _)).
  assert (l = [r_ss r; r_rsp r; r_rflags r; r_cs r; r_rip r; e; v] ++ rev (gpr r)) as ->.
  { subst l e. by destruct (cpu_pushes_error v). }
  assert (rev ([r_ss r; r_rsp r; r_rflags r; r_cs r; r_rip r; e; v] ++ rev (gpr r)) = frame_words v e r) as Er.
  { rewrite rev_app_distr, rev_involutive. done. }
  pose proof (pushes_spec ([r_ss r; r_rsp r; r_rflags r; r_cs r; r_rip r; e; v] ++ rev (gpr r)) m (stack / 16 * 16)) as P.
  rewrite length_app, length_rev, Hg, Er in P. change (Z.of_nat (length [r_ss r; r_rsp r; r_rflags r; r_cs r; r_rip r; e; v] + 15)) with 22 in P.
  destruct (pushes _ _) as [m' f]. destruct P as (-> & W & O).
  - arith.
  - apply Forall_app. split; [|by apply Forall_rev]. rewrite !Forall_cons in Rr. destruct Rr as (? & ? & ? & ? & ? & _).
    assert (0 <= e < 2 ^ 64) by (subst e; destruct (cpu_pushes_error v); lia).
    assert (0 <= v < 2 ^ 64) by (unfold installed in Hv; lia).
    repeat first [apply List.Forall_nil | apply List.Forall_cons]; done.
  - unfold FRAME_SIZE. split_and!; [lia|done|]. by replace (stack / 16 * 16 - 8 * 22 + 176) with (stack / 16 * 16) by lia.
Qed.

(** C23. Interrupts save and restore every register.  For every installed
    vector, the stub leaves on the stack exactly the [InterruptFrame] the C
    code reads: the fifteen general registers, the vector, the error code (0
    where the processor pushes none) and the processor's five words, below the
    aligned stack pointer, and writes nothing else; and as long as these words
    stay, the exit code of the stubs and of [schedule] continues the
    interrupted code with all its registers. *)
Theorem trap_roundtrip v err r stack m : installed v → regs_ok r → 0 <= err < 2 ^ 64 → 192 <= stack < 2 ^ 64 →
  let '(m', f) := enter v err r stack m in
  f = stack / 16 * 16 - FRAME_SIZE ∧ same_outside f (f + FRAME_SIZE) m m' ∧
  rd64 m' (f + FRAME_VECTOR) = v ∧ rd64 m' (f + FRAME_ERROR) = (if cpu_pushes_error v then err else 0) ∧
  Some (rd64 m' (f + FRAME_RAX)) = gpr r !! 14%nat ∧ Some (rd64 m' (f + FRAME_RBX)) = gpr r !! 13%nat ∧
  Some (rd64 m' (f + FRAME_RCX)) = gpr r !! 12%nat ∧ rd64 m' (f + FRAME_RIP) = r_rip r ∧
  ∀ m'', (∀ a, f <= a < f + FRAME_SIZE → rd8 m'' a = rd8 m' a) → leave m'' f = r.
Proof.
  intros Hv Hr He Hs. pose proof (enter_spec v err r stack m Hv Hr He Hs) as E. destruct (enter v err r stack m) as [m' f].
  destruct E as (Ef & W & O). set (e := if cpu_pushes_error v then err else 0) in *. destruct Hr as [Hg Hr].
  assert (∀ k w, frame_words v e r !! k = Some w → rd64 m' (f + 8 * Z.of_nat k) = w) as W' by exact W.
  assert (∀ k w, gpr r !! k = Some w → frame_words v e r !! k = Some w) as Hk by (intros k w ?; by apply lookup_app_l_Some).
  assert (∀ k w, [v; e; r_rip r] !! k = Some w → frame_words v e r !! (15 + k)%nat = Some w) as Hk'.
  { intros k w Hkw. unfold frame_words. rewrite lookup_app_r, Hg by lia. replace (15 + k - 15)%nat with k by lia.
    by apply (lookup_app_l_Some _ [r_cs r; r_rflags r; r_rsp r; r_ss r]) in Hkw. }
  assert (∀ k, (k < 15)%nat → Some (rd64 m' (f + 8 * Z.of_nat k)) = gpr r !! k) as Hgk.
  { intros k Hlt. destruct (lookup_lt_is_Some_2 (gpr r) k ltac:(lia)) as [w Ew]. rewrite Ew. f_equal. by apply W', Hk. }
  split_and!; [done|done|apply (W' 15%nat), (Hk' 0%nat); done|apply (W' 16%nat), (Hk' 1%nat); done|
    apply (Hgk 14%nat); lia|apply (Hgk 13%nat); lia|apply (Hgk 12%nat); lia|apply (W' 17%nat), (Hk' 2%nat); done|].
  intros m'' Hm. destruct r as [g rip cs fl rsp ss]. unfold FRAME_SIZE in *. eapply leave_words; [done|arith|arith|].
  intros k w Hw. rewrite <-(W' k w Hw). apply rdn_ext. intros a Ha. apply Hm.
  apply lookup_lt_Some in Hw. rewrite length_app in Hw. cbn in Hw, Hg. rewrite Hg in Hw. lia.
Qed.

Lemma trap_roundtrip_witness :
  let r := Regs (seqZ 1 15) 0x400123 0x1B 0x202 0x7FFFF0 0x23 in
  let '(m', f) := enter 33 0 r 0x9008 ∅ in f = 0x8F50 ∧ rd64 m' (f + FRAME_VECTOR) = 33 ∧ leave m' f = r.
Proof.
  intros r. pose proof (trap_roundtrip 33 0 r 0x9008 ∅ ltac:(unfold installed; lia)) as T.
  destruct (enter 33 0 r 0x9008 ∅) as [m' f]. destruct T as (Ef & _ & Ev & _ & _ & _ & _ & _ & Hl); [|lia|lia|].
  - split; [done|]. repeat first [apply List.Forall_nil | apply List.Forall_cons]; cbn; lia.
  - split_and!; [by rewrite Ef|done|by apply Hl].
Defined.

(** ** The timer interrupt *)

(** No exited process waits for its address space to be destroyed. *)
Definition nothing_pending (s : kernel) : Prop :=
  ∀ i, 0 <= i < 16 → used (proc_at (kproc s) i) && reap_pending (proc_at (kproc s) i) = false.

Lemma reap_idle s : nothing_pending s → process_reap_deferred s = Ok tt s.
Proof.
  intros H. unfold process_reap_deferred, gets. unfold mbind, M_bind.
  destruct (forZ_inv (λ _ t, t = s) (Z.to_nat MAX_PROCESSES) 0
    (reap_slot match task_current (id s) with Some i => address_space (task_at (ksched (id s)) i) | None => 0 end) s)
    as (s' & E & ->); [done| |done].
  intros j t Hj ->. exists s. split; [|done]. unfold reap_slot, gets, mbind, M_bind.
  specialize (H j Hj). by destruct (used (proc_at (kproc s) j)), (reap_pending (proc_at (kproc s) j)).
Qed.

(** A switch touches memory only through the reaper. *)
Lemma switch_mem s rsp r s' : nothing_pending s → context_switch_from rsp s = Ok r s' →
  kmem s' = kmem s ∧ kproc s' = kproc s.
Proof.
  intros Hn. unfold context_switch_from. rewrite (bind_Ok _ _ _ _ _ (reap_idle s Hn)).
  unfold task_switch_address_space, kassert, on_sched, on_task, load_cr3, mbind, M_bind, gets, modify, mret, M_ret, panic.
  repeat case_match; intros; simplify_eq; done.
Qed.

Section timer.
Context {D : Type} (hw : machine D) (fuel : nat) (hello burn : Z * Z).
Implicit Types s : os D.

Lemma timer_tick_run s rsp n k : schedule_on_tick rsp (o_kernel s) = Ok n k →
  ∃ s', timer_tick hw rsp s = Ok n s' ∧ o_kernel s' = k ∧ o_timer s' = Timer (u64 (ticks (o_timer s) + 1)) true (timer_hz (o_timer s)).
Proof.
  intros E. unfold timer_tick. destruct (send_eoi_run hw 0 (o_irq s)) as [d Ed].
  erewrite (bind_Ok _ _ s tt) by (unfold zoom; cbn [lget irq_lens]; rewrite Ed; reflexivity).
  unfold irq_note_timer_irq, on_stats, modify, zoom, mbind, M_bind. cbn. rewrite E. by eexists.
Qed.

(** [isr32] around [schedule_on_tick]. *)
Lemma isr_timer s cr2 r stack m' f n k :
  enter 32 0 r stack (kmem (o_kernel s)) = (m', f) →
  schedule_on_tick f (set_kmem m' (o_kernel s)) = Ok n k →
  ∃ s', isr hw fuel hello burn 32 0 cr2 r stack s = Ok (leave (kmem k) (if n =? 0 then f else n)) s' ∧
    o_kernel s' = k ∧ ticks (o_timer s') = u64 (ticks (o_timer s) + 1).
Proof.
  intros He E. destruct (timer_tick_run (set_mem_of m' s) f n k E) as (s' & Et & Ek & Ht).
  exists s'. split; [|split; [done|by rewrite Ht]]. unfold isr.
  rewrite (bind_Ok _ _ s (kmem (o_kernel s)) s) by done. rewrite He.
  rewrite (bind_Ok _ _ s tt (set_mem_of m' s)) by done.
  rewrite (bind_Ok _ _ _ _ _ Et). unfold gets, mbind, M_bind. by rewrite Ek.
Qed.

(** The selection does not look at the slice counter. *)
Lemma switch_cur_slice rsp (g : sched) n :
  current_tid (switch_sched rsp (Sched (tasks g) (current_tid g) n (switch_count g))) = current_tid (switch_sched rsp g).
Proof.
  destruct g as [l c k w]. cbn [tasks current_tid switch_count]. unfold switch_sched.
  assert (pick_next_runnable (save_current rsp (Sched l c n w)) = pick_next_runnable (save_current rsp (Sched l c k w))) as ->
    by (unfold save_current; cbn [current_tid]; by destruct (c <? 0)).
  generalize (pick_next_runnable (save_current rsp (Sched l c k w))). intros next.
  unfold save_current. cbn [current_tid]. by destruct (c <? 0), (next <? 0), (next =? c).
Qed.

(** A running task within its time slice. *)
Record in_slice (s : kernel) (n : Z) : Prop := {
  is_cur : 0 <= current_tid (ksched s);
  is_run : state (task_at (ksched s) (current_tid (ksched s))) = TASK_RUNNING;
  is_ticks : slice_ticks (ksched s) = n
}.

Lemma enter_timer r stack m : regs_ok r → 192 <= stack < 2 ^ 64 →
  ∃ m' f, enter 32 0 r stack m = (m', f) ∧ f = stack / 16 * 16 - FRAME_SIZE ∧
    words_at m' f (frame_words 32 0 r) ∧ same_outside f (f + FRAME_SIZE) m m'.
Proof.
  intros Hr Hs. pose proof (enter_spec 32 0 r stack m ltac:(unfold installed; lia) Hr ltac:(lia) Hs) as E.
  destruct (enter 32 0 r stack m) as [m' f]. exists m', f. destruct E as (? & ? & ?). by split_and!.
Qed.

Lemma leave_frame r v e m f : regs_ok r → 0 <= f → f + FRAME_SIZE < 2 ^ 64 → words_at m f (frame_words v e r) → leave m f = r.
Proof. intros [Hg _] ? ? W. destruct r. by eapply leave_words. Qed.

(** A timer tick inside the slice is invisible to the task. *)
Lemma tick_transparent s cr2 r stack n : in_slice (o_kernel s) n → 0 <= n < 4 → regs_ok r → 192 <= stack < 2 ^ 64 →
  let f := stack / 16 * 16 - FRAME_SIZE in
  ∃ s', isr hw fuel hello burn 32 0 cr2 r stack s = Ok r s' ∧
    ksched (o_kernel s') = ksched (set_slice (n + 1) (o_kernel s)) ∧
    same_outside f (f + FRAME_SIZE) (kmem (o_kernel s)) (kmem (o_kernel s')) ∧
    ticks (o_timer s') = u64 (ticks (o_timer s) + 1).
Proof.
  intros [Hc Hr Hn] Hb Rk Hs f. destruct (enter_timer r stack (kmem (o_kernel s)) Rk Hs) as (m' & g & E & Eg & W & O).
  pose proof (tick_short (set_kmem m' (o_kernel s)) g Hc Hr) as T. cbn in T. rewrite Hn in T. specialize (T Hb).
  destruct (isr_timer s cr2 r stack m' g 0 _ E T) as (s' & Ei & Ek & Et). subst f. rewrite <-Eg.
  exists s'. rewrite Ek. split_and!; [|done|done|done].
  rewrite Ei. f_equal. change (if 0 =? 0 then g else 0) with g. unfold FRAME_SIZE in *. eapply leave_frame; [done|arith|unfold FRAME_SIZE; arith|exact W].
Qed.

(** The tick that ends the slice: a context switch on the new frame. *)
Lemma tick_switches s cr2 r stack : switch_ok (o_kernel s) → in_slice (o_kernel s) 4 → regs_ok r → 192 <= stack < 2 ^ 64 →
  let f := stack / 16 * 16 - FRAME_SIZE in
  let cur := current_tid (ksched (o_kernel s)) in
  ∃ m' n k s', isr hw fuel hello burn 32 0 cr2 r stack s = Ok (leave (kmem k) (if n =? 0 then f else n)) s' ∧
    o_kernel s' = k ∧ words_at m' f (frame_words 32 0 r) ∧ same_outside f (f + FRAME_SIZE) (kmem (o_kernel s)) m' ∧
    (nothing_pending (o_kernel s) → kmem k = m' ∧ kproc k = kproc (o_kernel s)) ∧ switch_ok k ∧
    (∀ i, 0 <= i < 16 → kernel_rsp (task_at (ksched k) i) =
       if decide (i = cur) then f else kernel_rsp (task_at (ksched (o_kernel s)) i)) ∧
    current_tid (ksched k) = current_tid (switch_sched f (ksched (o_kernel s))) ∧
    (current_tid (ksched k) = cur → n = 0) ∧
    (current_tid (ksched k) ≠ cur → n = kernel_rsp (task_at (ksched (o_kernel s)) (current_tid (ksched k)))).
Proof.
  intros Ok [Hc Hr Hn] Rk Hs f cur. destruct (enter_timer r stack (kmem (o_kernel s)) Rk Hs) as (m' & g & E & Eg & W & O).
  fold f in Eg. subst g. set (k0 := set_slice 0 (set_kmem m' (o_kernel s))).
  assert (switch_ok k0) as Ok0. { destruct Ok as [[] Hk]. by split. }
  destruct (context_switch_run k0 f Ok0) as (n & k & Ec & Es & Ekp & H0 & H1).
  destruct (isr_timer s cr2 r stack m' f n k E) as (s' & Ei & Ek & _); [by rewrite tick_full|].
  exists m', n, k, s'. pose proof Ok0 as [W0 _].
  destruct (switch_sched_cur f (ksched k0) W0) as [Ecur _].
  split_and!; [done|done|done|done| | | | | |].
  - intros Hp. by apply (switch_mem k0 f n k Hp).
  - split; [rewrite Es; by apply switch_sched_wf|by rewrite Ekp; destruct Ok0].
  - intros i Hi. rewrite Es. by rewrite switch_sched_rsp.
  - rewrite Es. apply (switch_cur_slice f (ksched (o_kernel s)) 0).
  - rewrite Es, Ecur. intros H. apply H0.
    destruct (Z.ltb_spec (pick_next_runnable (save_current f (ksched k0))) 0); [by left|by right].
  - rewrite Es, Ecur.
    destruct (Z.ltb_spec (pick_next_runnable (save_current f (ksched k0))) 0); [done|]. intros Hne.
    by destruct (H1 ltac:(lia) Hne) as [-> _].
Qed.

(** C2. A preempted task continues with its own registers.  When the timer
    interrupt ends the slice of task [a], the interrupt returns and [a] keeps
    the address of the frame with its registers; if [a] itself is selected
    again it continues unchanged; and whenever a later timer interrupt of
    another task selects [a], after anything that has left the frame and the
    saved stack pointer alone, [a] continues with exactly the registers it was
    interrupted with. *)
Theorem preempted_task_resumes s cr2 r stack :
  switch_ok (o_kernel s) → in_slice (o_kernel s) 4 → nothing_pending (o_kernel s) → regs_ok r → 192 <= stack < 2 ^ 64 →
  let a := current_tid (ksched (o_kernel s)) in
  let f := stack / 16 * 16 - FRAME_SIZE in
  ∃ r1 s1, isr hw fuel hello burn 32 0 cr2 r stack s = Ok r1 s1 ∧ switch_ok (o_kernel s1) ∧
    (current_tid (ksched (o_kernel s1)) = a → r1 = r) ∧ kernel_rsp (task_at (ksched (o_kernel s1)) a) = f ∧
    ∀ s2 cr2' r2 stack2,
      switch_ok (o_kernel s2) → in_slice (o_kernel s2) 4 → nothing_pending (o_kernel s2) → regs_ok r2 → 192 <= stack2 < 2 ^ 64 →
      current_tid (ksched (o_kernel s2)) ≠ a → kernel_rsp (task_at (ksched (o_kernel s2)) a) = f →
      (∀ x, f <= x < f + FRAME_SIZE → rd8 (kmem (o_kernel s2)) x = rd8 (kmem (o_kernel s1)) x) →
      (stack2 / 16 * 16 <= f ∨ f + FRAME_SIZE <= stack2 / 16 * 16 - FRAME_SIZE) →
      current_tid (switch_sched (stack2 / 16 * 16 - FRAME_SIZE) (ksched (o_kernel s2))) = a →
      ∃ s3, isr hw fuel hello burn 32 0 cr2' r2 stack2 s2 = Ok r s3 ∧ current_tid (ksched (o_kernel s3)) = a.
Proof.
  intros Ok Hi Hp Rk Hs a f. destruct (tick_switches s cr2 r stack Ok Hi Rk Hs) as (m1 & n1 & k1 & s1 & E1 & <- & W1 & _ & Hm & Ok1 & Hk & _ & H0 & _).
  fold f in E1, W1. destruct (Hm Hp) as [<- _]. assert (0 <= a < 16) as Ha by (pose proof (sw_cur _ (proj1 Ok)); pose proof (is_cur _ _ Hi); lia).
  assert (0 < f ∧ f + FRAME_SIZE < 2 ^ 64) as [Hf Hf'] by (subst f; unfold FRAME_SIZE; arith).
  eexists _, s1. split; [exact E1|]. split_and!; [done| | |].
  - intros Hc. rewrite (H0 Hc). change (if 0 =? 0 then f else 0) with f. eapply leave_frame; [done|lia|done|exact W1].
  - rewrite Hk by done. by rewrite decide_True.
  - intros s2 cr2' r2 stack2 Ok2 Hi2 Hp2 Rk2 Hs2 Hne Hf2 Hsame Hdis Hsel.
    destruct (tick_switches s2 cr2' r2 stack2 Ok2 Hi2 Rk2 Hs2) as (m3 & n3 & k3 & s3 & E3 & <- & _ & O3 & Hm3 & _ & _ & Hc & _ & Hn3).
    destruct (Hm3 Hp2) as [<- _]. rewrite Hsel in Hc. exists s3. split; [|done]. rewrite E3. f_equal.
    rewrite Hn3, Hc, Hf2 by congruence. destruct (Z.eqb_spec f 0); [lia|]. eapply leave_frame; [done|lia|done|].
    intros i w Hw. rewrite <-(W1 i w Hw). apply lookup_lt_Some in Hw as Hl.
    assert (length (frame_words 32 0 r) = 22%nat) as El by (unfold frame_words; rewrite length_app, (ro_len _ Rk); done). rewrite El in Hl.
    apply rdn_ext. intros x Hx. unfold FRAME_SIZE in *. rewrite O3 by lia. apply Hsame. lia.
Qed.

End timer.

(** ** The first task *)
Lemma write_frame_words f rip rsp cs ss m : Forall (λ w, 0 <= w < 2 ^ 64) [rip; cs; rsp; ss] →
  words_at (write_frame f rip rsp cs ss m) f (replicate 15 0 ++ [0; 0; rip; cs; 0x202; rsp; ss]).
Proof.
  rewrite !Forall_cons. intros (? & ? & ? & ? & _) k w Hk. unfold write_frame, FRAME_RIP, FRAME_CS, FRAME_RFLAGS, FRAME_RSP, FRAME_SS.
  destruct (decide (k < 17)%nat) as [Hlt|Hge].
  - assert (w = 0) as -> by (do 17 (destruct k as [|k]; [cbn in Hk; by simplify_eq|]); lia).
    rewrite !rd64_wr64_ne by lia. by rewrite rd64_fill64 by lia.
  - do 17 (destruct k as [|k]; [lia|]). cbn in Hk.
    do 5 (destruct k as [|k]; [cbn in Hk; simplify_eq; rewrite ?rd64_wr64_ne by lia; rewrite rd64_wr64_eq; by apply u64_small|]).
    done.
Qed.

Lemma write_frame_outside f rip rsp cs ss m : same_outside f (f + FRAME_SIZE) m (write_frame f rip rsp cs ss m).
Proof.
  intros a Ha. unfold write_frame, FRAME_SIZE, FRAME_RIP, FRAME_CS, FRAME_RFLAGS, FRAME_RSP, FRAME_SS in *.
  rewrite !rd8_wr64_out by lia. apply (fill64_same_outside m f 17 0). lia.
Qed.

(** A stack top is 16-byte aligned. *)
Lemma stack_top p : 0 < p → p `mod` 16 = 0 → p + TASK_STACK_SIZE < 2 ^ 64 →
  Z.land (u64 (p + TASK_STACK_SIZE)) 0xFFFFFFFFFFFFFFF0 = p + TASK_STACK_SIZE.
Proof. unfold TASK_STACK_SIZE. intros. rewrite u64_small, align16 by lia. arith. Qed.

(** The rest of [task_create] once the stack at [p] has been allocated. *)
Lemma task_filled tag npid c user a rip cs ss rsp s i p :
  length (tasks (ksched s)) = 16%nat → 0 <= i < 16 → 0 < p → p `mod` 16 = 0 → p + TASK_STACK_SIZE < 2 ^ 64 →
  (∀ t, kernel_stack_top t = p + TASK_STACK_SIZE → Forall (λ w, 0 <= w < 2 ^ 64) [rip; cs; rsp t; ss]) →
  ∃ m1 m2 t s', (modify (λ s, set_kmem (fill8 (kmem s) p (Z.to_nat TASK_STACK_SIZE) 0) s) ;;
      task_fill i p tag npid c user a rip cs ss rsp) s = Ok (tid (task_at (ksched s) i)) s' ∧
    ksched s' = upd_task i (new_task p npid (c (set_kmem m1 s)) user a) (ksched s) ∧ kproc s' = kproc s ∧
    kvmm s' = set_vmem m2 (kvmm s) ∧ k_heap_head s' = k_heap_head s ∧ k_heap_ready s' = k_heap_ready s ∧
    same_outside p (p + TASK_STACK_SIZE) (kmem s) m1 ∧ same_outside p (p + TASK_STACK_SIZE) (kmem s) m2 ∧
    kernel_stack_top t = p + TASK_STACK_SIZE ∧
    leave m2 (p + TASK_STACK_SIZE - FRAME_SIZE) = Regs (replicate 15 0) rip cs 0x202 (rsp t) ss.
Proof.
  intros Hl Hi Hp Hal Hlt Hrg.
  rewrite (bind_Ok _ _ s tt (set_kmem (fill8 (kmem s) p (Z.to_nat TASK_STACK_SIZE) 0) s)) by reflexivity.
  pose proof (fill8_same_outside (kmem s) p (Z.to_nat TASK_STACK_SIZE) 0) as O1. revert O1.
  rewrite Z2Nat.id by (unfold TASK_STACK_SIZE; lia). generalize (fill8 (kmem s) p (Z.to_nat TASK_STACK_SIZE) 0).
  intros m1 O1. destruct (task_fill_run i p tag npid c user a rip cs ss rsp (set_kmem m1 s) Hl Hi)
    as (s' & E' & Es & Epr & t & Et & Ev & Eh & Ehr).
  rewrite Et, stack_top in Ev by done. rewrite stack_top in Et by done.
  rewrite u64_small in Ev by (unfold TASK_STACK_SIZE, FRAME_SIZE in *; lia).
  exists m1, (write_frame (p + TASK_STACK_SIZE - FRAME_SIZE) rip (rsp t) cs ss m1), t, s'.
  split_and!; [exact E'|exact Es|exact Epr|exact Ev|done|done|done| |done|].
  - intros x Hx. rewrite write_frame_outside by (unfold TASK_STACK_SIZE, FRAME_SIZE in *; lia). by apply O1.
  - unfold TASK_STACK_SIZE, FRAME_SIZE in *. eapply (leave_words _ _ (replicate 15 0) 0 0); [done|lia|lia|].
    by apply write_frame_words, Hrg.
Qed.

(** Creating a kernel task: no memory, or a stack of its own with the initial frame on it. *)
Lemma kernel_task_created fuel kas entry s l i :
  heap_wf (lget heap_lens s) l → k_heap_ready s = true → (length l < fuel)%nat → length (tasks (ksched s)) = 16%nat →
  find_free_slot fuel s = Ok i s → 0 <= i < 16 → 0 <= entry < 2 ^ 64 →
  task_create_kernel fuel kas entry s = Ok (-1) s ∨
  ∃ p s' l' b, task_create_kernel fuel kas entry s = Ok (tid (task_at (ksched s) i)) s' ∧
    ksched s' = upd_task i (new_task p 0 (kernel_pml4 (kvmm s)) false kas) (ksched s) ∧ kproc s' = kproc s ∧
    kernel_pml4 (kvmm s') = kernel_pml4 (kvmm s) ∧
    heap_wf (lget heap_lens s') l' ∧ b ∈ l' ∧ b_free b = false ∧ p = b_addr b + 32 ∧ p + TASK_STACK_SIZE <= b_end b ∧
    0 < p ∧ p + TASK_STACK_SIZE < 2 ^ 64 ∧ p `mod` 16 = 0 ∧
    leave (kmem s') (p + TASK_STACK_SIZE - FRAME_SIZE) =
      Regs (replicate 15 0) entry 0x08 0x202 (p + TASK_STACK_SIZE) 0x10.
Proof.
  intros W Hr Hf Hl Ei Hi He. unfold task_create_kernel, task_create. rewrite (bind_Ok _ _ _ _ _ Ei).
  destruct (Z.ltb_spec i 0); [lia|].
  destruct (kmalloc_run fuel (lget heap_lens s) l TASK_STACK_SIZE W Hr ltac:(unfold TASK_STACK_SIZE; lia) Hf)
    as [(E & _)|(p & h & l' & b & E & Hp & Hal & R)].
  { left. rewrite (bind_Ok _ _ s 0 s) by (unfold zoom; rewrite E; by destruct s as [[] ? ? ? ? ?]). done. }
  right. rewrite (bind_Ok _ _ s p (lset heap_lens h s)) by (unfold zoom; by rewrite E).
  destruct (Z.eqb_spec p 0); [done|]. destruct R as [W' Hb Hu Ep Hsz Hrd _].
  pose proof (proj1 (Forall_forall _ _) (hw_blocks _ _ W') b Hb) as Bb.
  pose proof (block_end _ _ (hw_phys _ _ W') Bb). pose proof (bo_addr _ _ Bb). unfold b_end, sizeof_KBlock in *.
  assert (p + TASK_STACK_SIZE < 2 ^ 64) as Hlt by lia.
  destruct (task_filled "create-k" 0 (λ s, kernel_pml4 (kvmm s)) false kas entry 0x08 0x10 kernel_stack_top
    (lset heap_lens h s) i p Hl Hi ltac:(lia) Hal Hlt) as (m1 & m2 & t & s' & E' & Es & Epr & Ev & Eh & Ehr & _ & O2 & Et & Lv).
  { intros t ->. repeat first [apply List.Forall_nil | apply List.Forall_cons]; (lia || (unfold TASK_STACK_SIZE in *; lia)). }
  exists p, s', l', b. assert (kmem s' = m2) as Em by (unfold kmem; by rewrite Ev).
  split_and!; [exact E'|exact Es|exact Epr|by rewrite Ev| |done|done|done|lia|lia|done|done|by rewrite Em, Lv, Et].
  assert (lget heap_lens s' = set_hmem m2 h) as ->.
  { cbn. rewrite Ev, Eh, Ehr. destruct h as [[] ? ?]. done. }
  apply (payload_write h l' b _ W' Hb). rewrite <-Ep. unfold b_end, sizeof_KBlock. intros x Hx. apply O2. lia.
Qed.

(** C9. The first task is entered as it was created.  On a fresh task table
    and a well-formed heap, [task_create_kernel] either reports that there is
    no memory, without effect, or gives slot 0 a stack in a live heap block;
    [schedule] then does not return: it continues at the task's entry point in
    kernel mode with interrupts enabled, all general registers zero and the
    stack pointer at the aligned top of that stack, with the task current and
    RUNNING and the kernel page tables loaded. *)
Theorem first_task_entered fuel kas entry s l :
  heap_wf (lget heap_lens s) l → k_heap_ready s = true → (length l < fuel)%nat → 0 <= entry < 2 ^ 64 →
  kernel_pml4 (kvmm s) ≠ 0 → nothing_pending s →
  task_create_kernel fuel kas entry (task_init s) = Ok (-1) (task_init s) ∨
  ∃ s1 s2 l' b, task_create_kernel fuel kas entry (task_init s) = Ok 0 s1 ∧
    heap_wf (lget heap_lens s1) l' ∧ b ∈ l' ∧ b_free b = false ∧
    let p := kernel_stack (task_at (ksched s1) 0) in
    p = b_addr b + 32 ∧ p + TASK_STACK_SIZE <= b_end b ∧
    schedule s1 = Ok (Some (Regs (replicate 15 0) entry 0x08 0x202 (p + TASK_STACK_SIZE) 0x10)) s2 ∧
    current_tid (ksched s2) = 0 ∧ state (task_at (ksched s2) 0) = TASK_RUNNING ∧
    cr3 (kvmm s2) = kernel_pml4 (kvmm s).
Proof.
  intros W Hr Hf He Hk Hp.
  destruct (kernel_task_created fuel kas entry (task_init s) l 0 W Hr Hf eq_refl eq_refl ltac:(lia) He)
    as [E|(p & s1 & l' & b & E & Es & Epr & Ek & W' & Hb & Hu & Eb & Hsz & Hp0 & Hlt & Hal & L)]; [by left|right].
  assert (switch_ok s1) as Ok1.
  { split; [|by rewrite Ek]. rewrite Es. apply sched_wf_upd; try done. apply task_init_wf. }
  set (nt := new_task p 0 (kernel_pml4 (kvmm (task_init s))) false kas (task_at (ksched (task_init s)) 0)).
  assert (pick_next_runnable (save_current 0 (ksched s1)) = 0 ∧ current_tid (ksched s1) = -1 ∧
    task_at (ksched s1) 0 = nt) as (Epk & Ecur & Et) by (by rewrite Es).
  destruct (context_switch_run s1 0 Ok1) as (n & s2 & Ec & Es2 & _ & _ & H1). rewrite Epk, Ecur, Et in H1.
  destruct (H1 ltac:(lia) ltac:(lia)) as [-> Ecr].
  assert (kernel_rsp nt = p + TASK_STACK_SIZE - FRAME_SIZE) as En.
  { unfold nt, new_task. cbn [kernel_rsp]. rewrite stack_top by done. apply u64_small. unfold TASK_STACK_SIZE, FRAME_SIZE in *. lia. }
  exists s1, s2, l', b. rewrite Et. cbn zeta. change (kernel_stack nt) with p. split_and!; try done.
  - unfold schedule. rewrite (bind_Ok _ _ _ _ _ Ec), En.
    destruct (Z.eqb_spec (p + TASK_STACK_SIZE - FRAME_SIZE) 0); [unfold TASK_STACK_SIZE, FRAME_SIZE in *; lia|].
    rewrite (bind_Ok _ _ s2 (kmem s2) s2) by done. unfold mret, M_ret. do 2 f_equal. rewrite <-L. f_equal.
    eapply (switch_mem s1 0); [|exact Ec]. intros j Hj. rewrite Epr. by apply Hp.
  - destruct (switch_sched_cur 0 (ksched s1) (proj1 Ok1)) as [Ecs _]. by rewrite Es2, Ecs, Epk.
  - rewrite Es2, switch_sched_at by (try done; apply Ok1). cbn zeta. by rewrite Epk, Ecur.
  - rewrite Ecr. unfold root_of. rewrite Et. cbn [is_user nt new_task]. exact Ek.
Qed.

(** ** Example: user tasks 2 and 3 take turns *)
Definition ex_regs (x : Z) : regs := Regs (seqZ x 15) 0x400123 0x1B 0x202 0x7FFFF0 0x23.

Lemma ex_regs_ok x : 0 <= x < 1000 → regs_ok (ex_regs x).
Proof. intros Hx. split; [done|]. repeat first [apply List.Forall_nil | apply List.Forall_cons]; cbn; lia. Qed.

(** Task [cur] at the end of its slice; task 2 has been saved at [rsp]. *)
Definition ex_turn (cur rsp : Z) (m : memory) : os unit :=
  let st i := if i =? cur then TASK_RUNNING else TASK_RUNNABLE in
  set_mem_of m (lset k_lens (set_ksched (Sched
    ([ex_task 0 TASK_WAITING false; ex_task 1 TASK_WAITING false;
      set_rsp rsp rsp (ex_task 2 (st 2) true); ex_task 3 (st 3) true] ++
     map (λ i, ex_task i TASK_NEW false) (seqZ 4 12)) cur 4 0) (o_kernel (ex_os 1))) (ex_os 1)).

Lemma ex_turn_ok cur rsp m : cur = 2 ∨ cur = 3 → switch_ok (o_kernel (ex_turn cur rsp m)) ∧
  in_slice (o_kernel (ex_turn cur rsp m)) 4 ∧ nothing_pending (o_kernel (ex_turn cur rsp m)).
Proof.
  intros [-> | ->]; (split_and!; [split; [split; [done|done|all_slots|all_slots|all_slots|done]|done]|done|all_slots]).
Qed.

Lemma preempted_task_resumes_witness :
  ∃ r1 s1 s3, isr ex_keys 0 (0, 0) (0, 0) 32 0 0 (ex_regs 1) 0x9000 (ex_turn 2 0 ∅) = Ok r1 s1 ∧
    isr ex_keys 0 (0, 0) (0, 0) 32 0 0 (ex_regs 50) 0xB000 (ex_turn 3 0x8F50 (kmem (o_kernel s1))) = Ok (ex_regs 1) s3 ∧
    current_tid (ksched (o_kernel s3)) = 2.
Proof.
  destruct (ex_turn_ok 2 0 ∅ ltac:(lia)) as (H1 & H2 & H3).
  destruct (preempted_task_resumes ex_keys 0 (0, 0) (0, 0) (ex_turn 2 0 ∅) 0 (ex_regs 1) 0x9000)
    as (r1 & s1 & E1 & _ & _ & _ & Hres); [done|done|done|by apply ex_regs_ok|lia|].
  destruct (ex_turn_ok 3 0x8F50 (kmem (o_kernel s1)) ltac:(lia)) as (K1 & K2 & K3).
  destruct (Hres (ex_turn 3 0x8F50 (kmem (o_kernel s1))) 0 (ex_regs 50) 0xB000)
    as (s3 & E3 & Hr); [done|done|done|by apply ex_regs_ok|lia|done|done|done|by right|by vm_compute|].
  exists r1, s1, s3. split_and!; [exact E1|exact E3|exact Hr].
Defined.


(** A kernel whose heap must grow for the stack. *)
Definition ex_first : kernel :=
  Kernel (Vmm (hphys ex_heap) 0x3000 0x3000 []) 0x3000 true ex_sched (Ptable (replicate 16 proc0) 1) [].

Lemma first_task_entered_witness : ∃ s1 s2 p,
  task_create_kernel 2 0x7000 0x123456 (task_init ex_first) = Ok 0 s1 ∧
  schedule s1 = Ok (Some (Regs (replicate 15 0) 0x123456 0x08 0x202 (p + TASK_STACK_SIZE) 0x10)) s2.
Proof.
  destruct (first_task_entered 2 0x7000 0x123456 ex_first [ex_blk])
    as [E|(s1 & s2 & l' & b & E & _ & _ & _ & _ & _ & Es & _)]; [exact ex_heap_wf|done|cbn; lia|lia|done|all_slots| |].
  - exfalso. apply (f_equal (λ o, match o with Ok r _ => r | Panic _ _ => 0 end)) in E. vm_compute in E. lia.
  - exists s1, s2, (kernel_stack (task_at (ksched s1) 0)). split; [exact E|exact Es].
Defined.
