(* ===== verification/Loader.v ===== *)
(** * What a loaded program sees (kernel/process.c)

    [load_elf_into_as] and [map_user_stack] against the page tables: the
    bytes and permissions a program finds at its addresses once the loader
    has returned, and what the loader leaves alone. *)
From stdpp Require Import base gmap list list_numbers strings.
From Stdlib Require Import ZArith Lia.
From S2P Require Import Prelude Monad Mem Pmm Vmm Kmalloc Kernel Task Process Syscall Trap.

(** ** Pages and translations *)

(** An address with 48 bits is its four table indices and its offset. *)
Lemma full_path_page w w' : 0 <= w < 2 ^ 48 → 0 <= w' < 2 ^ 48 →
  full_path w = full_path w' ↔ w / 4096 = w' / 4096.
Proof.
  intros Hw Hw'. split.
  - unfold full_path, path3, pml4_index, pdpt_index, pd_index, pt_index. cbn. intros [= E4 E3 E2 E1].
    revert E4 E3 E2 E1. change 0x1FF with (Z.ones 9). rewrite !Z.shiftr_div_pow2, !Z.land_ones by lia. intros.
    change (2 ^ 39) with 549755813888 in *. change (2 ^ 30) with 1073741824 in *. change (2 ^ 21) with 2097152 in *.
    change (2 ^ 12) with 4096 in *. change (2 ^ 9) with 512 in *. arith.
  - intros E. unfold full_path. destruct (same_page_path w) as [<- <-], (same_page_path w') as [<- <-]. by rewrite E.
Qed.

Lemma page_no w : 0 <= w < 2 ^ 48 → 0 <= w / 4096 < 2 ^ 36.
Proof. intros H. split; [apply Z.div_pos; lia|apply Z.div_lt_upper_bound; lia]. Qed.

(** The bytes of a page follow its words. *)
Lemma page_byte m m' u k : (∀ i, 0 <= i < 512 → entry m' u i = entry m u i) → 0 <= k < 4096 → rd8 m' (u + k) = rd8 m (u + k).
Proof. intros E Hk. apply (rdn_bytes m m' (u + 8 * (k / 8)) 8); [apply E; arith|arith]. Qed.

(** Pages in use stay in use, and those that are no table of [root] stay so,
    with their contents. *)
Definition stable (v v' : vmm) (root : Z) : Prop := ∀ u, own_page (phys v) u → own_page (phys v') u ∧
  (¬ tab v root u → ¬ tab v' root u ∧ ∀ i, 0 <= i < 512 → entry (vmem v') u i = entry (vmem v) u i).

Lemma stable_trans v1 v2 v3 root : stable v1 v2 root → stable v2 v3 root → stable v1 v3 root.
Proof.
  intros S1 S2 u Hu. destruct (S1 u Hu) as [Hu2 H1]. destruct (S2 u Hu2) as [Hu3 H2]. split; [done|].
  intros N. destruct (H1 N) as [N2 E1]. destruct (H2 N2) as [N3 E2]. split; [done|]. intros i Hi. by rewrite E2, E1.
Qed.

Section keeps.
Context (v v' : vmm) (root : Z) (R : root_wf v root) (K : keeps_tabs v v' root).

Lemma keeps_tab u : tab v' root u ↔ tab v root u.
Proof.
  pose proof (tabs_walk v v' root K) as W. split; intros (p & Hp & Hl & E); exists p; (split_and!; [done|done|]);
    [rewrite <-W by done|rewrite W by done]; done.
Qed.

Lemma keeps_leaf w : leaf (vmem v') root w = leaf (vmem v) root w.
Proof.
  unfold leaf. rewrite (tabs_walk v v' root K) by auto with samos.
  destruct (walk (vmem v) root (path3 w)) as [t|] eqn:E; [|done]. apply K; [|apply index_range].
  exists (path3 w). split_and!; [apply okp_path3|done|done].
Qed.

Lemma keeps_no_huge w : no_huge (vmem v) root w → no_huge (vmem v') root w.
Proof.
  intros H t W. assert (okp [pml4_index w; pdpt_index w]) as Hp by (repeat constructor; apply index_range).
  rewrite (tabs_walk v v' root K) in W by (done || cbn; lia).
  rewrite (proj2 (K t ltac:(exists [pml4_index w; pdpt_index w]; cbn; split_and!; (done || lia)))) by apply index_range.
  by apply H.
Qed.
End keeps.

Lemma keeps_stable v v' root : root_wf v root → keeps v v' → stable v v' root.
Proof.
  intros R K u Hu. destruct (K u Hu) as [Hu' E]. split; [done|]. intros N. split; [|done].
  by rewrite (keeps_tab v v' root (keeps_keeps_tabs _ _ _ R K)).
Qed.

(** ** Fresh pages *)

(** The common part of [map_stack_page] and [load_page]. *)
Definition map_zero_page (as_ va flags : Z) : M kernel bool :=
  page ← alloc_zero_page;
  if page =? 0 then mret false else
  zoom vmm_lens (vmm_map as_ va page flags) ;; mret true.

Lemma alloc_zero_page_spec v s : phys_ok (phys v) → 0 < free_pages (phys v) →
  ∃ a p', alloc_zero_page (set_kvmm v s) = Ok a (set_kvmm (set_phys p' v) s) ∧ a ≠ 0 ∧ phys_ok p' ∧ own_page p' a ∧
    ¬ own_page (phys v) a ∧ keeps v (set_phys p' v) ∧ free_pages p' = free_pages (phys v) - 1 ∧
    ∀ k, 0 <= k < 4096 → rd8 (mem p') (a + k) = 0.
Proof.
  intros P F. pose proof (alloc_page_own (phys v) P) as Al. destruct (pmm_alloc_page (phys v)) as [a p1] eqn:E.
  destruct Al as [(? & _)|(_ & Ha & P1 & O1 & N1 & K1 & F1)]; [lia|].
  pose proof (fill8_same_outside (mem p1) a 4096 0) as Hout.
  destruct (write_page_kept (λ x, a <= x < a + PAGE_SIZE) p1 (fill8 (mem p1) a 4096 0) a a (a + 4096))
    as [P2 K2]; [done|done|lia|unfold PAGE_SIZE; lia|done|unfold PAGE_SIZE; lia|].
  exists a, (set_mem (fill8 (mem p1) a 4096 0) p1). split_and!; [|done|done|by apply K2|done| |done|].
  - unfold alloc_zero_page. rewrite (bind_Ok _ _ _ _ _ (at_pmm pmm_alloc_page v s a p1 E)).
    destruct (Z.eqb_spec a 0); [done|]. reflexivity.
  - intros u Hu. destruct (K1 u Hu) as [Hu1 E1]. destruct (K2 u Hu1) as [Hu2 E2].
    split; [done|]. intros i Hi. cbn [vmem phys set_phys]. rewrite E2; [apply E1; [done|tauto]|done|].
    assert (u ≠ a) as Hne by congruence.
    destruct (own_page_disjoint _ _ _ Hu1 O1 Hne); unfold PAGE_SIZE in *; lia.
  - intros k Hk. cbn [mem set_mem]. rewrite rd8_fill8. by rewrite decide_True by lia.
Qed.

(** ** What the image asks for *)

(** First page, number of pages and page-table flags of a segment. *)
Definition seg_first (m : memory) (ph : Z) : Z := p_vaddr m ph / 4096.
Definition seg_count (m : memory) (ph : Z) : Z := (p_vaddr m ph + p_memsz m ph + 4095) / 4096 - seg_first m ph.
Definition seg_flags (m : memory) (ph : Z) : Z :=
  Z.lor (Z.lor (Z.lor VMM_FLAG_PRESENT VMM_FLAG_USER)
    (if negb (Z.land (p_flags m ph) PF_W =? 0) then VMM_FLAG_WRITE else 0))
    (if Z.land (p_flags m ph) PF_X =? 0 then VMM_FLAG_NX else 0).

(** The flags of each page once [n] pages have been added: the first segment
    on a page decides. *)
Definition add_pages (first n fl : Z) (g : Z → option Z) (p : Z) : option Z :=
  match g p with Some x => Some x | None => if decide (first <= p < first + n) then Some fl else None end.

(** The bytes once [n] bytes from [src] have been stored at [va]. *)
Definition put_bytes (m : memory) (va src n : Z) (f : Z → Z) (w : Z) : Z :=
  if decide (va <= w < va + n) then rd8 m (src + (w - va)) else f w.

Definition phdrs (m : memory) (elf : Z) : list Z := (λ i, elf + e_phoff m elf + i * sizeof_Phdr) <$> seqZ 0 (e_phnum m elf).

Definition seg_bytes (m : memory) (elf : Z) (f : Z → Z) (ph : Z) : Z → Z :=
  if p_type m ph =? PT_LOAD then put_bytes m (p_vaddr m ph) (elf + p_offset m ph) (p_filesz m ph) f else f.
Definition seg_perms (m : memory) (g : Z → option Z) (ph : Z) : Z → option Z :=
  if p_type m ph =? PT_LOAD then add_pages (seg_first m ph) (seg_count m ph) (seg_flags m ph) g else g.
Definition seg_size (m : memory) (ph : Z) : Z := if p_type m ph =? PT_LOAD then seg_count m ph else 0.

(** The bytes, the permissions and the number of pages of the whole image. *)
Definition image_bytes (m : memory) (elf : Z) : Z → Z := fold_left (seg_bytes m elf) (phdrs m elf) (λ _, 0).
Definition image_perms (m : memory) (elf : Z) : Z → option Z := fold_left (seg_perms m) (phdrs m elf) (λ _, None).
Definition image_pages (m : memory) (elf : Z) : Z := fold_left (λ n ph, n + seg_size m ph) (phdrs m elf) 0.

(** The page above the user stack, and the flags of the stack. *)
Definition stack_page : Z := PROCESS_STACK_VIRT / 4096.
Definition stack_flags : Z := Z.lor (Z.lor (Z.lor VMM_FLAG_PRESENT VMM_FLAG_WRITE) VMM_FLAG_USER) VMM_FLAG_NX.

(** The permissions of a process: image and stack. *)
Definition process_perms (m : memory) (elf : Z) : Z → option Z :=
  add_pages (stack_page - PROCESS_STACK_PAGES) PROCESS_STACK_PAGES stack_flags (image_perms m elf).

Record seg_ok (m : memory) (size ph : Z) : Prop := {
  so_file : p_filesz m ph <= p_memsz m ph;
  so_src : p_offset m ph + p_filesz m ph <= size;
  so_low : USER_LOWER_LIMIT <= seg_first m ph * 4096;
  so_high : (seg_first m ph + seg_count m ph) * 4096 < USER_UPPER_LIMIT
}.

(** An image of [size] bytes at [elf] the loader accepts. *)
Record elf_ok (m : memory) (elf size : Z) : Prop := {
  eo_place : 0 < elf ∧ sizeof_Ehdr <= size ∧ elf + size <= 2 ^ 52;
  eo_magic : e_ident m elf 0 = 0x7F ∧ e_ident m elf 1 = 69 ∧ e_ident m elf 2 = 76 ∧ e_ident m elf 3 = 70;
  eo_entry : USER_LOWER_LIMIT <= e_entry m elf < USER_UPPER_LIMIT;
  eo_phdrs : e_phoff m elf + e_phnum m elf * sizeof_Phdr <= size;
  eo_segs : ∀ ph, ph ∈ phdrs m elf → p_type m ph = PT_LOAD → seg_ok m size ph
}.

(** The headers lie inside the image. *)
Lemma phdr_place_of m elf size (Eo : elf_ok m elf size) i ph : phdrs m elf !! i = Some ph →
  ph = elf + e_phoff m elf + Z.of_nat i * sizeof_Phdr ∧ elf <= ph ∧ ph + sizeof_Phdr <= elf + size.
Proof.
  intros H. apply list_lookup_fmap_Some in H as (k & -> & Hk). apply lookup_seqZ in Hk as [-> Hk].
  pose proof (eo_phdrs _ _ _ Eo). pose proof (rd64_range m (elf + 32)). unfold e_phoff, sizeof_Phdr in *. split_and!; lia.
Qed.

(** ** The state while a program is loaded *)
Section loading.
(** The state [v0] before, the address space, and the pages the program
    occupies, none of them mapped in [v0]. *)
Context (v0 : vmm) (asp root : Z) (T : Z → Prop).
Context (T_range : ∀ p, T p → 0 <= p < 2 ^ 36).
Context (T_huge : ∀ p, T p → no_huge (vmem v0) root (p * 4096)).
Context (asp_own : own_page (phys v0) asp).
Context (T_free : ∀ p, T p → present (leaf (vmem v0) root (p * 4096)) = false).

(** [X] has the physical page and the flags of every page mapped so far, [f]
    the byte at every address. *)
Record loaded (v : vmm) (X : gmap Z (Z * Z)) (f : Z → Z) : Prop := {
  ld_phys : phys_ok (phys v);
  ld_as : as_wf v asp root;
  ld_kernel : kernel_pml4 v = kernel_pml4 v0;
  ld_stable : stable v0 v root;
  ld_huge : ∀ p, T p → no_huge (vmem v) root (p * 4096);
  ld_page : ∀ p pa fl, X !! p = Some (pa, fl) → T p ∧ own_page (phys v) pa ∧ ¬ own_page (phys v0) pa ∧ ¬ tab v root pa ∧
    flags_ok fl ∧ leaf (vmem v) root (p * 4096) = Z.lor (Z.lor pa fl) VMM_FLAG_PRESENT;
  ld_inj : ∀ p q pa fl fl', X !! p = Some (pa, fl) → X !! q = Some (pa, fl') → p = q;
  ld_byte : ∀ p pa fl k, X !! p = Some (pa, fl) → 0 <= k < 4096 → rd8 (vmem v) (pa + k) = f (p * 4096 + k);
  ld_rest : ∀ p, 0 <= p < 2 ^ 36 → X !! p = None → leaf (vmem v) root (p * 4096) = leaf (vmem v0) root (p * 4096);
  ld_zero : ∀ p k, X !! p = None → 0 <= k < 4096 → f (p * 4096 + k) = 0
}.

Lemma loaded_init : phys_ok (phys v0) → as_wf v0 asp root → loaded v0 ∅ (λ _, 0).
Proof. intros P A. by split. Qed.

Lemma loaded_ext v X f g : loaded v X f → (∀ w, f w = g w) → loaded v X g.
Proof.
  intros [H1 H2 H3 H4 H5 H6 H7 H8 H9 H10] E. split; try done.
  - intros p pa fl k Hp Hk. rewrite <-E. by eapply H8.
  - intros p k Hp Hk. rewrite <-E. by apply H10.
Qed.

(** What a page of the program translates to. *)
Lemma loaded_leaf v X f w : loaded v X f → 0 <= w < 2 ^ 48 → leaf (vmem v) root w =
  match X !! (w / 4096) with
  | Some (pa, fl) => Z.lor (Z.lor pa fl) VMM_FLAG_PRESENT
  | None => leaf (vmem v0) root w
  end.
Proof.
  intros L Hw. rewrite <-(leaf_page _ _ w). destruct (X !! (w / 4096)) as [[pa fl]|] eqn:E.
  - by apply (ld_page _ _ _ L _ _ _ E).
  - rewrite (ld_rest _ _ _ L _ (page_no w Hw) E). apply leaf_page.
Qed.

Lemma no_huge_of p w m : w / 4096 = p → no_huge m root (p * 4096) → no_huge m root w.
Proof. intros <-. unfold no_huge, pml4_index, pdpt_index, pd_index. by rewrite !index_page by lia. Qed.

Lemma loaded_phys v X f w pa fl : loaded v X f → 0 <= w < 2 ^ 48 → X !! (w / 4096) = Some (pa, fl) →
  vmm_virt_to_phys asp w v = pa + w `mod` 4096.
Proof.
  intros L Hw E. destruct (ld_page _ _ _ L _ _ _ E) as (HTp & O & _ & _ & Fl & _).
  destruct (own_page_range _ _ (ld_phys _ _ _ L) O) as (Ha & Hp & Hp').
  rewrite (virt_to_phys_leaf v asp root w (ld_as _ _ _ L)) by (eapply no_huge_of; [done|by apply (ld_huge _ _ _ L)]).
  rewrite (loaded_leaf v X f w L Hw), E. cbn zeta.
  rewrite present_lor, entry_addr by (done || (unfold PAGE_SIZE in *; lia)). by apply page_lor.
Qed.

Lemma absent_phys v X f p : loaded v X f → T p → X !! p = None → vmm_virt_to_phys asp (p * 4096) v = 0.
Proof.
  intros L Hp E. rewrite (virt_to_phys_leaf v asp root _ (ld_as _ _ _ L)) by (by apply (ld_huge _ _ _ L)).
  cbn zeta. by rewrite (ld_rest _ _ _ L p (T_range p Hp) E), T_free.
Qed.

(** Changes outside the pages of the program. *)
Lemma loaded_keeps v v' X f : loaded v X f → phys_ok (phys v') → keeps v v' → kernel_pml4 v' = kernel_pml4 v → loaded v' X f.
Proof.
  intros [P A Ek S H Pg I B Rs Z] P' K Ek'. pose proof (as_wf_root _ _ _ A) as R.
  pose proof (keeps_keeps_tabs _ _ _ R K) as Kt. pose proof (keeps_leaf v v' root Kt) as Lf. split; try done.
  - by eapply as_wf_keeps.
  - congruence.
  - eapply stable_trans; [exact S|by apply keeps_stable].
  - intros p Hp. by apply (keeps_no_huge v v' root Kt), H.
  - intros p pa fl E. destruct (Pg p pa fl E) as (? & O & ? & N & ? & ?).
    rewrite Lf, (keeps_tab v v' root Kt). split_and!; try done. by apply K.
  - intros p pa fl k E Hk. rewrite <-(B p pa fl k E Hk). apply page_byte; [|done]. apply K. by apply (Pg p pa fl E).
  - intros p Hp E. rewrite Lf. by apply Rs.
Qed.

(** Mapping a page that is in use and holds zeros. *)
Lemma loaded_vmm_map v X f p a fl : loaded v X f → T p → X !! p = None → flags_ok fl → 3 <= free_pages (phys v) →
  own_page (phys v) a → ¬ own_page (phys v0) a → ¬ tab v root a → (∀ q fl', X !! q ≠ Some (a, fl')) →
  (∀ k, 0 <= k < 4096 → rd8 (vmem v) (a + k) = 0) →
  ∃ v', vmm_map asp (p * 4096) a fl v = Ok tt v' ∧ loaded v' (<[p := (a, fl)]> X) f ∧
    free_pages (phys v) - 3 <= free_pages (phys v').
Proof.
  intros L Hp Hx Fl F Oa Na Ta Ua Za. pose proof (T_range p Hp) as Rp. pose proof L as [P A Ek S H Pg I B Rs Z].
  destruct (own_page_range _ _ P Oa) as (Ha & Ha0 & Ha1).
  destruct (vmm_map_ok v asp root (p * 4096) a fl P A) as (v' & E & P' & A' & _ & H' & L' & X' & K' & Tb & Ek' & F');
    [by apply Z.mod_mul|done|unfold PAGE_SIZE in *; lia|done|done|by apply H|by rewrite Rs, T_free|].
  assert (stable v v' root) as Sv.
  { intros u Hu. destruct (K' u Hu) as [Hu' Eu]. split; [done|]. intros N. split; [|by apply Eu]. intros Ht. by apply N, Tb. }
  assert (∀ q, 0 <= q < 2 ^ 36 → leaf (vmem v') root (q * 4096) =
    if decide (q = p) then Z.lor (Z.lor a fl) VMM_FLAG_PRESENT else leaf (vmem v) root (q * 4096)) as Lf.
  { intros q Hq. rewrite L'. assert (full_path (q * 4096) = full_path (p * 4096) ↔ q = p) as Hqp.
    { rewrite full_path_page by lia. rewrite !Z.div_mul by done. done. }
    case_decide as D1; case_decide as D2; try done; tauto. }
  exists v'. split_and!; [done| |done]. split; try done.
  - congruence.
  - by eapply stable_trans.
  - intros q Hq. by apply H', H.
  - intros q pa fl' [[-> [= <- <-]]|[Hne Eq]]%lookup_insert_Some.
    + destruct (Sv a Oa) as [Oa' N']. rewrite Lf by done. rewrite decide_True by done. split_and!; try done. by apply N'.
    + destruct (Pg q pa fl' Eq) as (Hq & O & N & Nt & Fl' & El). destruct (Sv pa O) as [O' N'].
      rewrite Lf by (by apply T_range). rewrite decide_False by done. split_and!; try done. by apply N'.
  - intros q1 q2 pa fl1 fl2 [[-> [= <- <-]]|[Hn1 E1]]%lookup_insert_Some [[-> E2]|[Hn2 E2]]%lookup_insert_Some;
      [done|by apply Ua in E2|injection E2 as <- <-; by apply Ua in E1|by eapply I].
  - intros q pa fl' k Hq Hk.
    assert (own_page (phys v) pa ∧ ¬ tab v root pa) as [O N].
    { apply lookup_insert_Some in Hq as [[-> [= <- <-]]|[_ Eq]]; [done|]. by destruct (Pg q pa fl' Eq) as (_ & ? & _ & ? & _). }
    rewrite (page_byte (vmem v) (vmem v')) by (done || by apply (Sv pa O)).
    apply lookup_insert_Some in Hq as [[-> [= <- <-]]|[_ Eq]]; [|by eapply B]. rewrite Za by done. symmetry. by apply Z.
  - intros q Hq [Eq Hne]%lookup_insert_None. rewrite Lf by done. rewrite decide_False by done. by apply Rs.
  - intros q k [Eq _]%lookup_insert_None. by apply Z.
Qed.

Lemma loaded_map v X f p fl s : loaded v X f → T p → X !! p = None → flags_ok fl → 4 <= free_pages (phys v) →
  ∃ a v', map_zero_page asp (p * 4096) fl (set_kvmm v s) = Ok true (set_kvmm v' s) ∧
    loaded v' (<[p := (a, fl)]> X) f ∧ free_pages (phys v) - 4 <= free_pages (phys v').
Proof.
  intros L Hp Hx Fl F. destruct (alloc_zero_page_spec v s (ld_phys _ _ _ L) ltac:(lia)) as (a & p1 & E & Ha & P1 & O1 & N1 & K1 & F1 & Z1).
  pose proof (loaded_keeps v (set_phys p1 v) X f L P1 K1 eq_refl) as L1.
  destruct (loaded_vmm_map (set_phys p1 v) X f p a fl L1 Hp Hx Fl) as (v' & E' & L' & F'); try done.
  - cbn [phys set_phys]. lia.
  - intros O. by apply N1, (ld_stable _ _ _ L).
  - rewrite (keeps_tab v _ root) by (by apply keeps_keeps_tabs; [eapply as_wf_root, L|]). intros (q & Hq & Hl & W).
    by apply N1, (aw_tables _ _ _ (ld_as _ _ _ L) q a).
  - intros q fl' Eq. apply N1. by apply (ld_page _ _ _ L q a fl').
  - exists a, v'. split_and!; [|done|cbn [phys set_phys] in F'; lia]. unfold map_zero_page. rewrite (bind_Ok _ _ _ _ _ E).
    destruct (Z.eqb_spec a 0); [done|]. by rewrite (bind_Ok _ _ _ _ _ (at_vmm _ _ s _ _ E')).
Qed.

(** Storing a byte of the program. *)
Lemma loaded_store v X f w pa fl b : loaded v X f → 0 <= w < 2 ^ 48 → X !! (w / 4096) = Some (pa, fl) → 0 <= b < 256 →
  loaded (set_vmem (wr8 (vmem v) (pa + w `mod` 4096) b) v) X (λ x, if decide (x = w) then b else f x).
Proof.
  intros L Hw Ew Hb. pose proof L as [P A Ek S H Pg I B Rs Z]. destruct (Pg _ _ _ Ew) as (_ & O & N0 & Nt & _).
  pose proof (Z.mod_pos_bound w 4096 ltac:(lia)) as Hk. set (a := pa + w `mod` 4096) in *. set (m := wr8 (vmem v) a b).
  pose proof (wr8_same_outside (vmem v) a b) as So. fold m in So.
  destruct (write_page_kept (λ x, pa <= x < pa + PAGE_SIZE) (phys v) m pa a (a + 1)) as [P' K'];
    [done|done|lia|unfold PAGE_SIZE; lia|done|unfold PAGE_SIZE; lia|]. set (v' := set_vmem m v).
  assert (∀ u, own_page (phys v) u → own_page (phys v') u ∧ (u ≠ pa → ∀ i, 0 <= i < 512 → entry (vmem v') u i = entry (vmem v) u i)) as Kp.
  { intros u Hu. destruct (K' u Hu) as [Hu' E]. split; [done|]. intros Hne i Hi. apply E; [done|].
    destruct (own_page_disjoint _ _ _ Hu O Hne); unfold PAGE_SIZE in *; lia. }
  assert (keeps_tabs v v' root) as Kt.
  { intros u Hu. assert (own_page (phys v) u) as Ou by (destruct Hu as (q & ? & ? & ?); by apply (aw_tables _ _ _ A q u)).
    destruct (Kp u Ou) as [? E]. split; [done|]. apply E. by intros ->. }
  pose proof (keeps_leaf v v' root Kt) as Lf. pose proof (aw_as _ _ _ A) as Oa.
  assert (asp ≠ pa) as Hne by (by intros <-).
  assert (stable v0 v' root) as Sv.
  { intros u Hu. destruct (S u Hu) as [Hu1 E1]. destruct (Kp u Hu1) as [Hu2 E2]. split; [done|]. intros N.
    destruct (E1 N) as [N1 C1]. split; [by rewrite (keeps_tab v v' root Kt)|]. intros i Hi. rewrite E2; [by apply C1| |done].
    by intros ->. }
  split; try done.
  - apply (as_wf_tabs v); [done|done|by apply Kp|by apply Kp].
  - intros p Hp. by apply (keeps_no_huge v v' root Kt), H.
  - intros p pa' fl' E. destruct (Pg p pa' fl' E) as (? & O' & ? & ? & ? & ?).
    rewrite Lf, (keeps_tab v v' root Kt). split_and!; try done. by apply Kp.
  - intros p pa' fl' k E Hkk. change (vmem v') with m. destruct (decide (p * 4096 + k = w)) as [Ep|Ep].
    + assert (p = w / 4096 ∧ k = w `mod` 4096) as [-> ->] by arith. rewrite Ew in E. injection E as <- <-.
      unfold m. rewrite rd8_wr8_eq. by apply u8_small.
    + rewrite <-(B p pa' fl' k E Hkk). unfold m. rewrite rd8_wr8_ne; [done|]. intros Ea.
      destruct (decide (pa' = pa)) as [->|Hd].
      * pose proof (I _ _ _ _ _ E Ew). subst a. arith.
      * destruct (Pg p pa' fl' E) as (_ & O' & _). destruct (own_page_disjoint _ _ _ O' O Hd); subst a; unfold PAGE_SIZE in *; lia.
  - intros p Hp E. rewrite Lf. by apply Rs.
  - intros p k E Hkk. rewrite decide_False; [by apply Z|]. intros Ep. assert (w / 4096 = p) as Ed by (rewrite <-Ep; arith). by rewrite Ed, E in Ew.
Qed.

(** ** The loops *)
Lemma load_pages fl s : flags_ok fl → ∀ n first i v X f, loaded v X f → (∀ p, first + i <= p < first + i + Z.of_nat n → T p) →
  4 * Z.of_nat n <= free_pages (phys v) →
  ∃ v' X', for_ok n i (load_page asp (first * 4096) fl) (set_kvmm v s) = Ok true (set_kvmm v' s) ∧ loaded v' X' f ∧
    (∀ p, snd <$> X' !! p = add_pages (first + i) (Z.of_nat n) fl (λ p, snd <$> X !! p) p) ∧
    free_pages (phys v) - 4 * Z.of_nat n <= free_pages (phys v').
Proof.
  intros Fl. induction n as [|n IH]; intros first i v X f L Ht F.
  { exists v, X. split_and!; [done|done| |lia]. intros p. unfold add_pages. destruct (X !! p); [done|]. cbn. by rewrite decide_False by lia. }
  cbn [for_ok]. set (p := first + i). assert (T p) as Hp by (apply Ht; lia).
  assert (∃ v1 X1, load_page asp (first * 4096) fl i (set_kvmm v s) = Ok true (set_kvmm v1 s) ∧ loaded v1 X1 f ∧
    (∀ q, snd <$> X1 !! q = add_pages p 1 fl (λ q, snd <$> X !! q) q) ∧ free_pages (phys v) - 4 <= free_pages (phys v1)) as (v1 & X1 & E1 & L1 & G1 & F1).
  { unfold load_page. replace (first * 4096 + i * 0x1000) with (p * 4096) by (subst p; lia).
    unfold gets at 1. unfold mbind at 1, M_bind at 1. cbn [kvmm set_kvmm]. destruct (X !! p) as [[pa fl']|] eqn:E.
    - pose proof (T_range p Hp). rewrite (loaded_phys v X f (p * 4096) pa fl' L) by (lia || by rewrite Z.div_mul).
      rewrite Z.mod_mul by done. destruct (ld_page _ _ _ L _ _ _ E) as (_ & O & _).
      destruct (own_page_range _ _ (ld_phys _ _ _ L) O) as (_ & Ha & _). destruct (Z.eqb_spec (pa + 0) 0); [lia|].
      exists v, X. split_and!; [done|done| |lia]. intros q. unfold add_pages. destruct (decide (q = p)) as [->|]; [by rewrite E|].
      destruct (X !! q); [done|]. cbn. by rewrite decide_False by lia.
    - rewrite (absent_phys v X f p L Hp E). cbn [Z.eqb negb].
      destruct (loaded_map v X f p fl s L Hp E Fl ltac:(lia)) as (a & v1 & E1 & L1 & F1).
      exists v1, (<[p := (a, fl)]> X). split_and!; [exact E1|done| |done]. intros q. unfold add_pages.
      destruct (decide (q = p)) as [->|].
      + rewrite lookup_insert_eq, E. cbn. by rewrite decide_True by lia.
      + rewrite lookup_insert_ne by done. destruct (X !! q); [done|]. cbn. by rewrite decide_False by lia. }
  rewrite (bind_Ok _ _ _ _ _ E1). destruct (IH first (i + 1) v1 X1 f L1) as (v' & X' & E' & L' & G' & F'); [intros; apply Ht; lia|lia|].
  exists v', X'. split_and!; [done|done| |lia]. intros q. rewrite G'. unfold add_pages. rewrite G1. unfold add_pages.
  destruct (snd <$> X !! q); [done|]. repeat case_decide; (done || lia).
Qed.

(** What the loader reads stays what it was. *)
Definition readable (lo hi : Z) : Prop :=
  ∀ x, lo <= x < hi → own_page (phys v0) (x / 4096 * 4096) ∧ ¬ tab v0 root (x / 4096 * 4096).

Lemma readable_byte v X f lo hi x : loaded v X f → readable lo hi → lo <= x < hi → rd8 (vmem v) x = rd8 (vmem v0) x.
Proof.
  intros L Hr Hx. destruct (Hr x Hx) as [O N]. destruct (ld_stable _ _ _ L _ O) as [_ E].
  replace x with (x / 4096 * 4096 + x `mod` 4096) by arith. apply page_byte; [by apply E|arith].
Qed.

Lemma load_bytes s va src lo hi : readable lo hi → 0 <= lo → hi <= 2 ^ 52 →
  ∀ n i v X f, loaded v X f → 0 <= i → 0 <= va → va + i + Z.of_nat n < 2 ^ 48 → lo <= src → src + i + Z.of_nat n <= hi →
  (∀ w, va + i <= w < va + i + Z.of_nat n → is_Some (X !! (w / 4096))) →
  ∃ v', for_ok n i (load_byte asp va src) (set_kvmm v s) = Ok true (set_kvmm v' s) ∧
    loaded v' X (put_bytes (vmem v0) (va + i) (src + i) (Z.of_nat n) f) ∧ free_pages (phys v') = free_pages (phys v).
Proof.
  intros Hr Hlo Hhi. induction n as [|n IH]; intros i v X f L Hi Hva Hv Hs1 Hs2 Hm.
  { exists v. split_and!; [done| |done]. eapply loaded_ext; [exact L|]. intros w. unfold put_bytes. by rewrite decide_False by lia. }
  cbn [for_ok]. destruct (Hm (va + i) ltac:(lia)) as [[pa fl] E].
  set (b := rd8 (vmem v0) (src + i)). set (v1 := set_vmem (wr8 (vmem v) (pa + (va + i) `mod` 4096) b) v).
  assert (load_byte asp va src i (set_kvmm v s) = Ok true (set_kvmm v1 s)) as E1.
  { unfold load_byte. rewrite !u64_small by lia. unfold gets at 1. unfold mbind at 1, M_bind at 1. cbn [kvmm set_kvmm].
    rewrite (loaded_phys v X f (va + i) pa fl L) by (done || lia). destruct (ld_page _ _ _ L _ _ _ E) as (_ & O & _).
    destruct (own_page_range _ _ (ld_phys _ _ _ L) O) as (_ & Ha & _). pose proof (Z.mod_pos_bound (va + i) 4096 ltac:(lia)).
    destruct (Z.eqb_spec (pa + (va + i) `mod` 4096) 0); [lia|]. unfold mbind, M_bind, modify, mret, M_ret. do 2 f_equal.
    unfold set_kmem, v1, kmem. cbn [kvmm set_kvmm]. unfold b. by rewrite (readable_byte v X f lo hi) by (done || lia). }
  rewrite (bind_Ok _ _ _ _ _ E1). pose proof (loaded_store v X f (va + i) pa fl b L ltac:(lia) E ltac:(apply rd8_range)) as L1.
  destruct (IH (i + 1) v1 X _ L1) as (v' & E' & L' & F'); [lia|lia|lia|lia|lia|intros w Hw; apply Hm; lia|].
  exists v'. split_and!; [done| |done]. eapply loaded_ext; [exact L'|]. intros w. unfold put_bytes, b.
  repeat case_decide; try (done || lia); f_equal; lia.
Qed.

(** ** Segments *)
Lemma seg_flags_ok m ph : flags_ok (seg_flags m ph).
Proof. unfold seg_flags. destruct (negb _), (Z.land (p_flags m ph) PF_X =? 0); by vm_compute. Qed.

Lemma seg_count_pos m ph : 0 <= seg_count m ph.
Proof. unfold seg_count, seg_first, p_vaddr, p_memsz. pose proof (rd64_range m (ph + 40)). arith. Qed.

Lemma readable_rdn v X f lo hi a n : loaded v X f → readable lo hi → lo <= a → a + Z.of_nat n <= hi →
  rdn (vmem v) a n = rdn (vmem v0) a n.
Proof. intros L Hr H1 H2. apply rdn_ext. intros x Hx. apply (readable_byte v X f lo hi); (done || lia). Qed.

Section image.
Context (elf size : Z) (Eo : elf_ok (vmem v0) elf size) (Hr : readable elf (elf + size)) (s : kernel).
Notation m0 := (vmem v0).

Lemma load_segment_run i ph v X f : phdrs m0 elf !! i = Some ph → loaded v X f →
  (∀ p, p_type m0 ph = PT_LOAD → seg_first m0 ph <= p < seg_first m0 ph + seg_count m0 ph → T p) →
  4 * seg_size m0 ph <= free_pages (phys v) →
  ∃ v' X', load_segment asp elf size (elf + e_phoff m0 elf) (Z.of_nat i) (set_kvmm v s) = Ok true (set_kvmm v' s) ∧
    loaded v' X' (seg_bytes m0 elf f ph) ∧ (∀ p, snd <$> X' !! p = seg_perms m0 (λ p, snd <$> X !! p) ph p) ∧
    free_pages (phys v) - 4 * seg_size m0 ph <= free_pages (phys v').
Proof.
  intros Hi L Ht F. destruct (phdr_place_of m0 elf size Eo i ph Hi) as (Eph & Hp1 & Hp2). destruct (eo_place _ _ _ Eo) as (He & _ & Hs).
  unfold load_segment. rewrite (bind_Ok _ _ _ (vmem v) (set_kvmm v s)) by done. rewrite <-Eph, u64_small by (unfold sizeof_Phdr in *; lia).
  unfold sizeof_Phdr in *. unfold seg_bytes, seg_perms, seg_size in *.
  assert (p_type (vmem v) ph = p_type m0 ph ∧ p_flags (vmem v) ph = p_flags m0 ph ∧ p_offset (vmem v) ph = p_offset m0 ph ∧
    p_vaddr (vmem v) ph = p_vaddr m0 ph ∧ p_filesz (vmem v) ph = p_filesz m0 ph ∧ p_memsz (vmem v) ph = p_memsz m0 ph)
    as (E1 & E2 & E3 & E4 & E5 & E6) by (split_and!; apply (readable_rdn v X f elf (elf + size)); (done || lia)).
  rewrite E1, E2, E3, E4, E5, E6. destruct (Z.eqb_spec (p_type m0 ph) PT_LOAD) as [Et|]; cbn [negb].
  2:{ exists v, X. split_and!; (done || lia). }
  destruct (eo_segs _ _ _ Eo ph ltac:(by eapply list_elem_of_lookup_2) Et) as [H1 H2 H3 H4].
  pose proof (rd64_range m0 (ph + 8)) as R1. pose proof (rd64_range m0 (ph + 16)) as R2.
  pose proof (rd64_range m0 (ph + 32)) as R3. pose proof (rd64_range m0 (ph + 40)) as R4.
  fold (p_offset m0 ph) in R1. fold (p_vaddr m0 ph) in R2. fold (p_filesz m0 ph) in R3. fold (p_memsz m0 ph) in R4.
  unfold seg_count, seg_first, USER_LOWER_LIMIT, USER_UPPER_LIMIT in *.
  set (va := p_vaddr m0 ph) in *. set (off := p_offset m0 ph) in *. set (fs := p_filesz m0 ph) in *. set (ms := p_memsz m0 ph) in *.
  assert (va + ms + 4095 < 2 ^ 47 + 4096) as Hva by arith.
  destruct (Z.ltb_spec ms fs); [lia|].
  rewrite (u64_small (off + fs)), (u64_small (va + ms)), (u64_small (va + ms + 0xFFF)), (u64_small (elf + off)) by lia.
  destruct (Z.ltb_spec size (off + fs)); [lia|].
  change 0xFFF with 4095. rewrite !page_down_div by lia.
  destruct (Z.ltb_spec (va / 4096 * 4096) 0x400000); [lia|].
  replace (va / 4096 + ((va + ms + 4095) / 4096 - va / 4096)) with ((va + ms + 4095) / 4096) in * by lia.
  destruct (Z.leb_spec 0x800000000000 ((va + ms + 4095) / 4096 * 4096)); [lia|]. cbn [orb].
  replace (((va + ms + 4095) / 4096 * 4096 - va / 4096 * 4096) / 0x1000) with ((va + ms + 4095) / 4096 - va / 4096)
    by (rewrite <-Z.mul_sub_distr_r; symmetry; by apply Z.div_mul).
  set (n := (va + ms + 4095) / 4096 - va / 4096) in *. assert (0 <= n) as Hn by (subst n; arith).
  change (Z.lor (Z.lor (Z.lor VMM_FLAG_PRESENT VMM_FLAG_USER) _) _) with (seg_flags m0 ph).
  destruct (load_pages (seg_flags m0 ph) s (seg_flags_ok m0 ph) (Z.to_nat n) (va / 4096) 0 v X f L)
    as (v1 & X1 & Ev1 & L1 & G1 & F1); [intros p Hp; apply Ht; [done|subst n; lia]|lia|].
  rewrite Z2Nat.id, Z.add_0_r in G1 by done. rewrite Z2Nat.id in F1 by done.
  rewrite (bind_Ok _ _ _ _ _ Ev1). cbn [negb].
  destruct (load_bytes s va (elf + off) elf (elf + size) Hr ltac:(lia) ltac:(lia) (Z.to_nat fs) 0 v1 X1 f L1)
    as (v2 & Ev2 & L2 & F2); [lia|lia|lia|lia|lia| |].
  { intros w Hw. specialize (G1 (w / 4096)). unfold add_pages in G1. rewrite Z.add_0_r, Z2Nat.id in Hw by lia.
    destruct (X1 !! (w / 4096)); [done|]. cbn in G1. destruct (snd <$> X !! (w / 4096)); [done|].
    rewrite decide_True in G1; [done|]. subst n. arith. }
  exists v2, X1. split_and!; [exact Ev2| |done|lia].
  rewrite !Z.add_0_r, Z2Nat.id in L2 by lia. exact L2.
Qed.

(** The whole table of program headers. *)
Lemma seg_perms_ext l g g' p : (∀ p, g p = g' p) → fold_left (seg_perms m0) l g p = fold_left (seg_perms m0) l g' p.
Proof.
  revert g g'. induction l as [|ph l IH]; intros g g' E; cbn; [done|]. apply IH. intros q. unfold seg_perms.
  case_match; [|done]. unfold add_pages. by rewrite E.
Qed.

Definition pages_of (l : list Z) : Z := fold_left (λ n ph, n + seg_size m0 ph) l 0.

Lemma pages_cons ph l : pages_of (ph :: l) = seg_size m0 ph + pages_of l.
Proof.
  unfold pages_of. cbn [fold_left]. assert (∀ l a, fold_left (λ n ph, n + seg_size m0 ph) l a = a + fold_left (λ n ph, n + seg_size m0 ph) l 0) as H.
  { clear. induction l as [|q l IH]; intros a; cbn [fold_left]; [lia|]. rewrite IH, (IH (0 + _)). lia. }
  rewrite H. lia.
Qed.

Lemma load_segments l : ∀ i v X f, drop i (phdrs m0 elf) = l → loaded v X f →
  (∀ ph p, ph ∈ l → p_type m0 ph = PT_LOAD → seg_first m0 ph <= p < seg_first m0 ph + seg_count m0 ph → T p) →
  4 * pages_of l <= free_pages (phys v) →
  ∃ v' X', for_ok (length l) (Z.of_nat i) (load_segment asp elf size (elf + e_phoff m0 elf)) (set_kvmm v s) = Ok true (set_kvmm v' s) ∧
    loaded v' X' (fold_left (seg_bytes m0 elf) l f) ∧
    (∀ p, snd <$> X' !! p = fold_left (seg_perms m0) l (λ p, snd <$> X !! p) p) ∧
    free_pages (phys v) - 4 * pages_of l <= free_pages (phys v').
Proof.
  induction l as [|ph l IH]; intros i v X f Hd L Ht F; cbn [for_ok length fold_left].
  { exists v, X. split_and!; (done || (unfold pages_of in *; cbn in *; lia)). }
  rewrite pages_cons in *. assert (phdrs m0 elf !! i = Some ph) as Hi by (by rewrite <-(Nat.add_0_r i), <-lookup_drop, Hd).
  assert (0 <= seg_size m0 ph) as Hz by (unfold seg_size; case_match; [apply seg_count_pos|lia]).
  assert (0 <= pages_of l) as Hz'.
  { clear. induction l as [|q l IH]; [done|]. rewrite pages_cons. assert (0 <= seg_size m0 q) by (unfold seg_size; case_match; [apply seg_count_pos|lia]). lia. }
  destruct (load_segment_run i ph v X f Hi L) as (v1 & X1 & E1 & L1 & G1 & F1); [intros p; apply Ht; by left|lia|].
  rewrite (bind_Ok _ _ _ _ _ E1).
  destruct (IH (S i) v1 X1 _ ltac:(by erewrite <-drop_drop, Nat.add_1_r in Hd || (rewrite <-Nat.add_1_r, <-drop_drop, Hd; done)) L1) as (v' & X' & E' & L' & G' & F');
    [intros q p Hq; apply Ht; by right|lia|].
  rewrite Nat2Z.inj_succ, <-Z.add_1_r in E'. exists v', X'. split_and!; [done|done| |lia].
  intros p. rewrite G'. by apply seg_perms_ext.
Qed.

Lemma load_elf_run : phys_ok (phys v0) → as_wf v0 asp root →
  (∀ ph p, ph ∈ phdrs m0 elf → p_type m0 ph = PT_LOAD → seg_first m0 ph <= p < seg_first m0 ph + seg_count m0 ph → T p) →
  4 * image_pages m0 elf <= free_pages (phys v0) →
  ∃ v X, load_elf_into_as asp elf size (set_kvmm v0 s) = Ok (Some (e_entry m0 elf)) (set_kvmm v s) ∧
    loaded v X (image_bytes m0 elf) ∧ (∀ p, snd <$> X !! p = image_perms m0 elf p) ∧
    free_pages (phys v0) - 4 * image_pages m0 elf <= free_pages (phys v).
Proof.
  intros P A Ht F. pose proof Eo as [(He & Hs & Hb) (M0 & M1 & M2 & M3) Hen Hph Hseg].
  destruct (own_page_range _ _ P asp_own) as (_ & Ha & _). unfold load_elf_into_as.
  destruct (Z.eqb_spec asp 0), (Z.eqb_spec elf 0), (Z.ltb_spec size sizeof_Ehdr); try lia. cbn [orb].
  rewrite (bind_Ok _ _ _ m0 (set_kvmm v0 s)) by done. rewrite M0, M1, M2, M3, !Z.eqb_refl. cbn [andb negb].
  destruct (Z.ltb_spec (e_entry m0 elf) USER_LOWER_LIMIT), (Z.leb_spec USER_UPPER_LIMIT (e_entry m0 elf)); try lia. cbn [orb].
  pose proof (rd64_range m0 (elf + 32)) as R1. fold (e_phoff m0 elf) in R1.
  assert (0 <= e_phnum m0 elf < 2 ^ 16) as R2 by apply (rdn_range m0 (elf + 56) 2).
  unfold sizeof_Phdr in *. rewrite (u64_small (e_phnum m0 elf * 56)), (u64_small (e_phoff m0 elf + _)), (u64_small (elf + _)) by lia.
  destruct (Z.ltb_spec size (e_phoff m0 elf + e_phnum m0 elf * 56)); [lia|].
  destruct (load_segments (phdrs m0 elf) 0 v0 ∅ (λ _, 0) eq_refl (loaded_init P A) Ht F) as (v & X & E & L & G & F').
  replace (length (phdrs m0 elf)) with (Z.to_nat (e_phnum m0 elf)) in E by (unfold phdrs; rewrite length_fmap, length_seqZ; done).
  rewrite (bind_Ok _ _ _ _ _ E). cbn [negb]. exists v, X. split_and!; [|done|done|done].
  assert (e_entry (vmem v) elf = e_entry m0 elf) as <-; [|done].
  apply (readable_rdn v X _ elf (elf + size) (elf + 24) 8 L Hr); unfold sizeof_Ehdr in *; lia.
Qed.
End image.

(** ** The user stack *)
Lemma map_stack s n : ∀ i v X f, loaded v X f → 0 <= i →
  (∀ p, stack_page - i - Z.of_nat n <= p < stack_page - i → T p ∧ X !! p = None) → 4 * Z.of_nat n <= free_pages (phys v) →
  ∃ v' X', for_ok n i (map_stack_page asp) (set_kvmm v s) = Ok true (set_kvmm v' s) ∧ loaded v' X' f ∧
    (∀ p, snd <$> X' !! p = add_pages (stack_page - i - Z.of_nat n) (Z.of_nat n) stack_flags (λ p, snd <$> X !! p) p) ∧
    free_pages (phys v) - 4 * Z.of_nat n <= free_pages (phys v').
Proof.
  induction n as [|n IH]; intros i v X f L Hi Ht F; cbn [for_ok].
  { exists v, X. split_and!; [done|done| |lia]. intros p. unfold add_pages. destruct (X !! p); [done|]. cbn. by rewrite decide_False by lia. }
  set (p := stack_page - i - 1). destruct (Ht p ltac:(lia)) as [Hp Hx].
  destruct (loaded_map v X f p stack_flags s L Hp Hx ltac:(by vm_compute) ltac:(lia)) as (a & v1 & E1 & L1 & F1).
  assert (map_stack_page asp i (set_kvmm v s) = Ok true (set_kvmm v1 s)) as E.
  { rewrite <-E1. unfold map_stack_page, map_zero_page, stack_flags.
    replace (PROCESS_STACK_VIRT - (i + 1) * 0x1000) with (p * 4096) by (subst p; change PROCESS_STACK_VIRT with (stack_page * 4096); lia). done. }
  rewrite (bind_Ok _ _ _ _ _ E). destruct (IH (i + 1) v1 _ f L1) as (v' & X' & E' & L' & G' & F'); [lia| |lia|].
  { intros q Hq. destruct (Ht q ltac:(lia)) as [Hq1 Hq2]. split; [done|]. rewrite lookup_insert_ne by lia. done. }
  exists v', X'. split_and!; [done|done| |lia]. intros q. rewrite G'. unfold add_pages. destruct (decide (q = p)) as [->|Hne].
  - rewrite lookup_insert_eq, Hx. cbn. by rewrite decide_True by lia.
  - rewrite lookup_insert_ne by done. destruct (X !! q); [done|]. cbn. repeat case_decide; (done || lia).
Qed.

Lemma map_user_stack_run s v X f : loaded v X f → asp ≠ 0 →
  (∀ p, stack_page - PROCESS_STACK_PAGES <= p < stack_page → T p ∧ X !! p = None) → 16 <= free_pages (phys v) →
  ∃ v' X', map_user_stack asp (set_kvmm v s) = Ok (Some PROCESS_STACK_VIRT) (set_kvmm v' s) ∧ loaded v' X' f ∧
    (∀ p, snd <$> X' !! p = add_pages (stack_page - PROCESS_STACK_PAGES) PROCESS_STACK_PAGES stack_flags (λ p, snd <$> X !! p) p).
Proof.
  intros L Ha Ht F. destruct (map_stack s 4 0 v X f L ltac:(lia)) as (v' & X' & E & L' & G & _);
    [intros p Hp; apply Ht; unfold PROCESS_STACK_PAGES; lia|lia|].
  exists v', X'. split_and!; [|done|done]. unfold map_user_stack. destruct (Z.eqb_spec asp 0); [done|].
  change (Z.to_nat PROCESS_STACK_PAGES) with 4%nat. replace ((_ <? _) || (_ <=? _)) with false by done. by rewrite (bind_Ok _ _ _ _ _ E).
Qed.

(** ** What the processor sees *)
Lemma loaded_view v X f w pa fl : loaded v X f → 0 <= w < 2 ^ 48 → X !! (w / 4096) = Some (pa, fl) →
  mmu (vmem v) root w = Some (pa + w `mod` 4096) ∧ rd8 (vmem v) (pa + w `mod` 4096) = f w ∧
  Z.land (leaf (vmem v) root w) ADDR_MASK = pa.
Proof.
  intros L Hw E. destruct (ld_page _ _ _ L _ _ _ E) as (Hp & O & _ & _ & Fl & _).
  destruct (own_page_range _ _ (ld_phys _ _ _ L) O) as (Ha & Ha0 & Ha1).
  assert (Z.land (leaf (vmem v) root w) ADDR_MASK = pa) as El.
  { rewrite (loaded_leaf v X f w L Hw), E. apply entry_addr; (done || (unfold PAGE_SIZE in *; lia)). }
  split_and!; [|rewrite (ld_byte _ _ _ L _ _ _ _ E) by arith; f_equal; arith|done].
  rewrite (mmu_leaf v asp root w (ld_as _ _ _ L)).
  - rewrite El. f_equal. by apply page_lor.
  - eapply no_huge_of; [done|by apply (ld_huge _ _ _ L)].
  - rewrite (loaded_leaf v X f w L Hw), E. apply present_lor.
Qed.

(** Writes to pages in use before, apart from the tables, change nothing of this. *)
Lemma loaded_view_outside v X f (U : Z → Prop) m : loaded v X f →
  (∀ x, U x → own_page (phys v0) (x / 4096 * 4096) ∧ ¬ tab v0 root (x / 4096 * 4096) ∧ x / 4096 * 4096 ≠ asp) →
  (∀ x, ¬ U x → rd8 m x = rd8 (vmem v) x) →
  as_wf (set_vmem m v) asp root ∧ (∀ p, T p → no_huge m root (p * 4096)) ∧
  ∀ w pa fl, 0 <= w < 2 ^ 48 → X !! (w / 4096) = Some (pa, fl) →
    mmu m root w = Some (pa + w `mod` 4096) ∧ rd8 m (pa + w `mod` 4096) = f w ∧
    leaf m root w = Z.lor (Z.lor pa fl) VMM_FLAG_PRESENT.
Proof.
  intros L Hr So. set (v' := set_vmem m v). pose proof (ld_as _ _ _ L) as A. pose proof (ld_phys _ _ _ L) as P.
  assert (∀ u k, own_page (phys v) u → (tab v root u ∨ u = asp ∨ ¬ own_page (phys v0) u) → 0 <= k < 4096 →
    rd8 m (u + k) = rd8 (vmem v) (u + k)) as Hout.
  { intros u k Ou Hu Hk. apply So. intros Hin. destruct (Hr _ Hin) as (O0 & N0 & Ha).
    assert ((u + k) / 4096 * 4096 = u) as Eu by (destruct (own_page_range _ _ P Ou) as (Hu' & _); unfold PAGE_SIZE in *; arith).
    rewrite Eu in *. destruct (ld_stable _ _ _ L _ O0) as [_ N1]. destruct (N1 N0) as [N2 _]. tauto. }
  destruct (own_write (phys v) m U P) as [P' O']; [|done|].
  { intros x Hx. apply (ld_stable _ _ _ L). apply (Hr x Hx). }
  assert (∀ u, own_page (phys v) u → (tab v root u ∨ u = asp ∨ ¬ own_page (phys v0) u) → ∀ i, 0 <= i < 512 →
    entry m u i = entry (vmem v) u i) as He.
  { intros u Ou Hu i Hi. apply rdn_ext. intros x Hx. replace x with (u + (x - u)) by lia. apply Hout; (done || lia). }
  assert (keeps_tabs v v' root) as Kt.
  { intros u Hu. assert (own_page (phys v) u) as Ou by (destruct Hu as (q & ? & ? & ?); by apply (aw_tables _ _ _ A q u)).
    split; [by apply O'|]. apply He; [done|by left]. }
  assert (as_wf v' asp root) as A'.
  { apply (as_wf_tabs v); [done|done|by apply O', A|]. apply He; [apply A|by right; left|lia]. }
  split; [exact A'|]. split; [intros p Hp; by apply (keeps_no_huge v v' root Kt), (ld_huge _ _ _ L)|].
  intros w pa fl Hw E. destruct (loaded_view v X f w pa fl L Hw E) as (V1 & V2 & V3).
  destruct (ld_page _ _ _ L _ _ _ E) as (Hp & O & N & _). pose proof (keeps_leaf v v' root Kt w) as El. change (vmem v') with m in El.
  rewrite El. split_and!; [|rewrite <-V2; apply Hout; [done|by right; right|arith]|by rewrite (loaded_leaf v X f w L Hw), E].
  rewrite <-V1. change m with (vmem v'). pose proof (no_huge_of _ w _ eq_refl (ld_huge _ _ _ L _ Hp)) as NH.
  assert (present (leaf (vmem v) root w) = true) as Pr by (rewrite (loaded_leaf v X f w L Hw), E; apply present_lor).
  rewrite (mmu_leaf v' asp root w A' (keeps_no_huge v v' root Kt w NH)), (mmu_leaf v asp root w A NH) by (done || by rewrite (keeps_leaf v v' root Kt)).
  by rewrite (keeps_leaf v v' root Kt).
Qed.
End loading.
