(* ===== verification/Spawn.v ===== *)
(** * From an image to a running process (kernel/process.c, scheduler/task.c)

    [process_spawn_from_elf] put together: a new address space, the loader,
    the user stack, the task with its first frame, and the page tables the
    processor uses when the task runs. *)
From stdpp Require Import base gmap list list_numbers strings.
From Stdlib Require Import ZArith Lia.
From S2P Require Import Prelude Monad Mem Pmm Vmm Kmalloc Kernel Task Process Syscall Trap Loader.

Lemma map_seqZ_add {A} (f : Z → A) a n : map (λ i, f (a + i)) (seqZ 0 n) = map f (seqZ a n).
Proof. pose proof (fmap_add_seqZ a 0 n) as E. rewrite Z.add_0_r in E. rewrite <-E. symmetry. apply map_map. Qed.

(** ** An image is its bytes *)
Section same_image.
Context (m m' : memory) (elf size : Z) (Eo : elf_ok m elf size).
Context (Hb : ∀ x, elf <= x < elf + size → rd8 m' x = rd8 m x).

Lemma image_rdn a n : elf <= a → a + Z.of_nat n <= elf + size → rdn m' a n = rdn m a n.
Proof. intros H1 H2. apply rdn_ext. intros x Hx. apply Hb. lia. Qed.

Lemma same_header : e_entry m' elf = e_entry m elf ∧ e_phoff m' elf = e_phoff m elf ∧ e_phnum m' elf = e_phnum m elf ∧
  (∀ i, 0 <= i < 4 → e_ident m' elf i = e_ident m elf i) ∧ phdrs m' elf = phdrs m elf.
Proof.
  destruct (eo_place _ _ _ Eo) as (_ & Hs & _). unfold sizeof_Ehdr in Hs.
  assert (e_phoff m' elf = e_phoff m elf) as E1 by (apply image_rdn; lia).
  assert (e_phnum m' elf = e_phnum m elf) as E2 by (apply image_rdn; lia).
  split_and!; [apply image_rdn; lia|done|done|intros i Hi; apply Hb; lia|]. unfold phdrs. by rewrite E1, E2.
Qed.

Lemma same_phdr ph : ph ∈ phdrs m elf → p_type m' ph = p_type m ph ∧ p_flags m' ph = p_flags m ph ∧ p_offset m' ph = p_offset m ph ∧
  p_vaddr m' ph = p_vaddr m ph ∧ p_filesz m' ph = p_filesz m ph ∧ p_memsz m' ph = p_memsz m ph.
Proof.
  intros H. apply list_elem_of_lookup in H as [i H]. destruct (phdr_place_of m elf size Eo i ph H) as (_ & H1 & H2).
  unfold sizeof_Phdr in H2. split_and!; apply image_rdn; lia.
Qed.

Lemma same_seg ph : ph ∈ phdrs m elf → p_type m' ph = p_type m ph ∧ seg_first m' ph = seg_first m ph ∧
  seg_count m' ph = seg_count m ph ∧ seg_flags m' ph = seg_flags m ph.
Proof.
  intros H. destruct (same_phdr ph H) as (E1 & E2 & _ & E4 & _ & E6). unfold seg_count, seg_first, seg_flags. by rewrite E1, E2, E4, E6.
Qed.

Lemma same_elf_ok : elf_ok m' elf size.
Proof.
  destruct same_header as (E1 & E2 & E3 & E4 & E5). destruct Eo as [Hp (M0 & M1 & M2 & M3) He Hh Hs].
  split; [done|by rewrite !E4 by lia|by rewrite E1|by rewrite E2, E3|]. intros ph. rewrite E5. intros Hin.
  destruct (same_phdr ph Hin) as (F1 & _ & F3 & _ & F5 & F6). destruct (same_seg ph Hin) as (_ & G1 & G2 & _).
  rewrite F1. intros Ht. destruct (Hs ph Hin Ht). split; by rewrite ?F3, ?F5, ?F6, ?G1, ?G2.
Qed.

Lemma same_perms p : image_perms m' elf p = image_perms m elf p.
Proof.
  destruct same_header as (_ & _ & _ & _ & E5). unfold image_perms. rewrite E5. clear E5.
  assert (∀ l g g', (∀ ph, ph ∈ l → ph ∈ phdrs m elf) → (∀ p, g p = g' p) →
    ∀ p, fold_left (seg_perms m') l g p = fold_left (seg_perms m) l g' p) as H; [|by apply H].
  induction l as [|ph l IH]; intros g g' Hin Hg; cbn [fold_left]; [done|]. apply IH; [intros; apply Hin; by right|]. intros q.
  destruct (same_seg ph ltac:(apply Hin; by left)) as (E1 & E2 & E3 & E4). unfold seg_perms. rewrite E1. case_match; [|done].
  unfold add_pages. by rewrite E2, E3, E4, Hg.
Qed.

Lemma same_pages : image_pages m' elf = image_pages m elf.
Proof.
  destruct same_header as (_ & _ & _ & _ & E5). unfold image_pages. rewrite E5. clear E5.
  assert (∀ l a, (∀ ph, ph ∈ l → ph ∈ phdrs m elf) → fold_left (λ n ph, n + seg_size m' ph) l a = fold_left (λ n ph, n + seg_size m ph) l a) as H; [|by apply H].
  induction l as [|ph l IH]; intros a Hin; cbn [fold_left]; [done|]. rewrite IH by (intros; apply Hin; by right).
  destruct (same_seg ph ltac:(apply Hin; by left)) as (E1 & _ & E3 & _). unfold seg_size. by rewrite E1, E3.
Qed.

Lemma same_bytes w : image_bytes m' elf w = image_bytes m elf w.
Proof.
  destruct same_header as (_ & _ & _ & _ & E5). unfold image_bytes. rewrite E5. clear E5.
  assert (∀ l g g', (∀ ph, ph ∈ l → ph ∈ phdrs m elf) → (∀ p, g p = g' p) →
    ∀ p, fold_left (seg_bytes m' elf) l g p = fold_left (seg_bytes m elf) l g' p) as H; [|by apply H].
  induction l as [|ph l IH]; intros g g' Hin Hg; cbn [fold_left]; [done|]. apply IH; [intros; apply Hin; by right|]. intros q.
  pose proof (Hin ph ltac:(by left)) as Hph. destruct (same_phdr ph Hph) as (E1 & _ & E3 & E4 & E5 & _). unfold seg_bytes. rewrite E1, E3, E4, E5.
  destruct (Z.eqb_spec (p_type m ph) PT_LOAD) as [Ht|]; [|done]. unfold put_bytes. case_decide; [|done].
  destruct (eo_segs _ _ _ Eo ph Hph Ht) as [_ Hs _ _]. pose proof (rd64_range m (ph + 8)). unfold p_offset in *. apply Hb. lia.
Qed.
End same_image.

(** The pages of an image are those of its segments. *)
Lemma perms_pages m elf p : image_perms m elf p ≠ None ↔
  ∃ ph, ph ∈ phdrs m elf ∧ p_type m ph = PT_LOAD ∧ seg_first m ph <= p < seg_first m ph + seg_count m ph.
Proof.
  unfold image_perms. assert (∀ l g, fold_left (seg_perms m) l g p ≠ None ↔ g p ≠ None ∨
    ∃ ph, ph ∈ l ∧ p_type m ph = PT_LOAD ∧ seg_first m ph <= p < seg_first m ph + seg_count m ph) as H.
  2:{ rewrite H. naive_solver. }
  induction l as [|ph l IH]; intros g; cbn [fold_left].
  { split; [by left|]. intros [?|(ph & Hin & _)]; [done|]. by apply not_elem_of_nil in Hin. }
  rewrite IH. assert (seg_perms m g ph p ≠ None ↔ g p ≠ None ∨ p_type m ph = PT_LOAD ∧ seg_first m ph <= p < seg_first m ph + seg_count m ph) as ->.
  { unfold seg_perms. destruct (Z.eqb_spec (p_type m ph) PT_LOAD); [|naive_solver]. unfold add_pages.
    destruct (g p); [naive_solver|]. case_decide; naive_solver. }
  setoid_rewrite elem_of_cons. naive_solver.
Qed.

(** ** The address space of a new process *)

(** A page in use that is no table of the kernel. *)
Definition plain (s : kernel) (x : Z) : Prop :=
  own_page (phys (kvmm s)) (x / 4096 * 4096) ∧ ¬ tab (kvmm s) (kernel_pml4 (kvmm s)) (x / 4096 * 4096).

(** A kernel that can take the image: its tables are a tree of pages in use,
    the image is in pages in use, the addresses of image and stack are not
    mapped, the image leaves the stack free, and there are pages enough. *)
Record loadable (s : kernel) (elf size : Z) : Prop := {
  lo_phys : phys_ok (phys (kvmm s));
  lo_root : root_wf (kvmm s) (kernel_pml4 (kvmm s));
  lo_elf : elf_ok (kmem s) elf size;
  lo_image : ∀ x, elf <= x < elf + size → plain s x;
  lo_unmapped : ∀ p, process_perms (kmem s) elf p ≠ None →
    no_huge (kmem s) (kernel_pml4 (kvmm s)) (p * 4096) ∧ present (leaf (kmem s) (kernel_pml4 (kvmm s)) (p * 4096)) = false;
  lo_stack : ∀ p, stack_page - PROCESS_STACK_PAGES <= p < stack_page → image_perms (kmem s) elf p = None;
  lo_room : 4 * image_pages (kmem s) elf + 18 <= free_pages (phys (kvmm s))
}.

Lemma process_perms_range m elf size p : elf_ok m elf size → process_perms m elf p ≠ None → 0 <= p < 2 ^ 36.
Proof.
  intros Eo. unfold process_perms, add_pages. destruct (image_perms m elf p) eqn:E.
  - intros _. destruct (proj1 (perms_pages m elf p) ltac:(by rewrite E)) as (ph & Hin & Ht & Hp).
    destruct (eo_segs _ _ _ Eo ph Hin Ht) as [_ _ H1 H2]. unfold USER_LOWER_LIMIT, USER_UPPER_LIMIT in *. lia.
  - case_decide as D; [|done]. intros _. revert D. change stack_page with 0x7FFFFFFFE. unfold PROCESS_STACK_PAGES. lia.
Qed.

Lemma seg_pages_pos m elf : 0 <= image_pages m elf.
Proof.
  unfold image_pages. assert (∀ l a, 0 <= a → 0 <= fold_left (λ n ph, n + seg_size m ph) l a) as H; [|by apply H].
  induction l as [|ph l IH]; intros a Ha; cbn [fold_left]; [done|]. apply IH.
  assert (0 <= seg_size m ph) by (unfold seg_size; case_match; [apply seg_count_pos|lia]). lia.
Qed.

(** What the kernel does not map a new space does not map either. *)
Lemma created_unmapped v0 vc root w : root_wf v0 (kernel_pml4 v0) → keeps v0 vc →
  (∀ i, 0 <= i < 512 → entry (vmem vc) root i = fresh_pml4 v0 i) →
  no_huge (vmem v0) (kernel_pml4 v0) w → present (leaf (vmem v0) (kernel_pml4 v0) w) = false →
  no_huge (vmem vc) root w ∧ present (leaf (vmem vc) root w) = false.
Proof.
  intros R K He NH Hl. pose proof (keeps_keeps_tabs _ _ _ R K) as Kt. pose proof (index_range w 39) as I1.
  destruct (decide (pml4_index w = 0 ∨ pml4_index w = 511)) as [D|D].
  2:{ destruct (created_private v0 vc root R K He w) as [? ->]; [tauto|tauto|done]. }
  assert (∀ q, okp (pml4_index w :: q) → (length q <= 2)%nat → walk (vmem vc) root (pml4_index w :: q) = walk (vmem v0) (kernel_pml4 v0) (pml4_index w :: q)) as W.
  { intros q Hq Hlq. rewrite (created_walk v0 vc root R K He) by done. by rewrite decide_True. }
  assert (okp (path3 w)) as O by apply okp_path3. split.
  - intros pd Wpd. rewrite W in Wpd; [|repeat first [apply List.Forall_nil | apply List.Forall_cons]; apply index_range|cbn; lia].
    rewrite (proj2 (Kt pd ltac:(exists [pml4_index w; pdpt_index w]; cbn; split_and!; [repeat first [apply List.Forall_nil | apply List.Forall_cons]; apply index_range|lia|done]))) by apply index_range.
    by apply NH.
  - rewrite <-Hl. f_equal. unfold leaf, path3. rewrite W by (done || (cbn; lia)).
    destruct (walk (vmem v0) (kernel_pml4 v0) _) as [t|] eqn:E; [|done]. apply Kt; [|apply index_range].
    exists (path3 w). by split_and!.
Qed.

(** What an address space shows of the image at [elf] in [m0]: a physical
    page for every page of image and stack, different ones for different
    pages, none of them in [old], and there the bytes of the image. *)
Definition shows (m m0 : memory) (root elf : Z) (old : Z → Prop) : Prop := ∃ page : Z → Z,
  (∀ p q, process_perms m0 elf p ≠ None → process_perms m0 elf q ≠ None → page p = page q → p = q) ∧
  (∀ p, process_perms m0 elf p ≠ None → 0 < page p ∧ ¬ old (page p)) ∧
  ∀ w fl, 0 <= w → process_perms m0 elf (w / 4096) = Some fl →
    mmu m root w = Some (page (w / 4096) + w `mod` 4096) ∧ rd8 m (page (w / 4096) + w `mod` 4096) = image_bytes m0 elf w ∧
    leaf m root w = Z.lor (Z.lor (page (w / 4096)) fl) VMM_FLAG_PRESENT.

(** The address space of a process in the state [v]. *)
Record process_space (v : vmm) (m0 : memory) (asp root elf : Z) (old : Z → Prop) : Prop := {
  ps_as : as_wf v asp root;
  ps_huge : ∀ p, process_perms m0 elf p ≠ None → no_huge (vmem v) root (p * 4096);
  ps_shows : shows (vmem v) m0 root elf old
}.

(** The state between: [vc] after the creation, [v] after loading. *)
Record prepared (s : kernel) (elf asp root : Z) (vc v : vmm) (X : gmap Z (Z * Z)) (f : Z → Z) : Prop := {
  pp_loaded : loaded vc asp root (λ p, process_perms (kmem s) elf p ≠ None) v X f;
  pp_asp : asp ≠ 0 ∧ ¬ own_page (phys (kvmm s)) asp;
  pp_own : own_page (phys vc) asp;
  pp_plain : ∀ x, plain s x → own_page (phys vc) (x / 4096 * 4096) ∧ ¬ tab vc root (x / 4096 * 4096);
  pp_keeps : keeps (kvmm s) vc;
  pp_perms : ∀ p, snd <$> X !! p = process_perms (kmem s) elf p;
  pp_bytes : ∀ w, f w = image_bytes (kmem s) elf w
}.

Lemma prepare_run s elf size : loadable s elf size →
  ∃ asp root vc v1 v2 X f, zoom vmm_lens vmm_create_address_space s = Ok asp (set_kvmm vc s) ∧
    load_elf_into_as asp elf size (set_kvmm vc s) = Ok (Some (e_entry (kmem s) elf)) (set_kvmm v1 s) ∧
    map_user_stack asp (set_kvmm v1 s) = Ok (Some PROCESS_STACK_VIRT) (set_kvmm v2 s) ∧ prepared s elf asp root vc v2 X f.
Proof.
  intros [P R Eo Im Un St Fr]. set (v0 := kvmm s) in *. set (k := kernel_pml4 v0) in *.
  destruct (create_ok v0 P) as (asp & root & vc & Ec & Hasp & Hne & Pc & Er & Fc & Na & Np & Oa & Op & Kc & Hent & _ & Ek).
  { by apply (rw_tables _ _ R []); [constructor|cbn; lia|]. }
  { pose proof (seg_pages_pos (kmem s) elf). lia. }
  pose proof (created_wf v0 vc asp root R Er Hne Na Np Oa Op Kc Hent) as Ac.
  assert (∀ x, elf <= x < elf + size → rd8 (vmem vc) x = rd8 (kmem s) x) as Hb.
  { intros x Hx. apply (keeps_byte v0 vc x Kc). by apply (Im x Hx). }
  pose proof (same_elf_ok (kmem s) (vmem vc) elf size Eo Hb) as Eo'.
  pose proof (same_perms (kmem s) (vmem vc) elf size Eo Hb) as Sp.
  assert (∀ x, plain s x → own_page (phys vc) (x / 4096 * 4096) ∧ ¬ tab vc root (x / 4096 * 4096)) as Hpl.
  { intros x [Ox Nx]. split; [by apply Kc|]. intros (p & Hp & Hl & W).
    destruct (created_table v0 vc root R Kc Hent p _ Hp Hl W) as [[_ Ex]|(_ & _ & W')]; [by rewrite Ex in Ox|]. apply Nx. by exists p. }
  set (T := λ p, process_perms (kmem s) elf p ≠ None).
  assert (∀ p, T p → no_huge (vmem vc) root (p * 4096) ∧ present (leaf (vmem vc) root (p * 4096)) = false) as Ht.
  { intros p Hp. destruct (Un p Hp) as [H1 H2]. exact (created_unmapped v0 vc root _ R Kc Hent H1 H2). }
  assert (∀ p, T p → 0 <= p < 2 ^ 36) as Hrange by (intros p Hp; exact (process_perms_range (kmem s) elf size p Eo Hp)).
  destruct (load_elf_run vc asp root T Hrange (λ p H, proj1 (Ht p H)) Oa (λ p H, proj2 (Ht p H)) elf size Eo' (λ x H, Hpl x (Im x H)) s Pc Ac)
    as (v1 & X1 & E1 & L1 & G1 & F1).
  { intros ph p Hin Hty Hp. unfold T, process_perms, add_pages. assert (image_perms (kmem s) elf p ≠ None) as Hn.
    { rewrite <-Sp. apply perms_pages. by exists ph. }
    by destruct (image_perms (kmem s) elf p). }
  { rewrite (same_pages (kmem s) (vmem vc) elf size Eo Hb). lia. }
  destruct (map_user_stack_run vc asp root T Hrange (λ p H, proj2 (Ht p H)) s v1 X1 _ L1 Hasp)
    as (v2 & X2 & E2 & L2 & G2).
  { intros p Hp. specialize (St p Hp). split.
    - unfold T, process_perms, add_pages. rewrite St, decide_True; [done|]. lia.
    - specialize (G1 p). rewrite Sp, St in G1. by destruct (X1 !! p). }
  { rewrite (same_pages (kmem s) (vmem vc) elf size Eo Hb) in F1. lia. }
  exists asp, root, vc, v1, v2, X2, (image_bytes (vmem vc) elf). split_and!.
  - unfold zoom. change (lget vmm_lens s) with v0. by rewrite Ec.
  - rewrite E1. f_equal. f_equal. by apply (same_header (kmem s) (vmem vc) elf size Eo Hb).
  - done.
  - split; try done.
    + intros p. rewrite G2. unfold process_perms, add_pages. by rewrite G1, Sp.
    + intros w. by apply (same_bytes (kmem s) (vmem vc) elf size Eo Hb).
Qed.

(** ** The process *)
Record spawnable (fuel : nat) (s : kernel) (elf size : Z) (l1 : list blk) (b : blk) (l2 : list blk) (i : Z) : Prop := {
  ss_load : loadable s elf size;
  ss_sched : sched_wf (ksched s);
  ss_table : length (proc_table (kproc s)) = 16%nat ∧ 0 <= alloc_process_slot (kproc s);
  (** a task slot without a stack *)
  ss_slot : first_task (λ t, (is_state TASK_ZOMBIE t || is_state TASK_NEW t) && (kernel_stack t =? 0)) (ksched s) = Some i;
  (** a free block for the kernel stack *)
  ss_heap : heap_wf (lget heap_lens s) (l1 ++ b :: l2);
  ss_ready : k_heap_ready s = true ∧ (length (l1 ++ b :: l2) < fuel)%nat;
  ss_fit : Forall (λ c, fits (rounded TASK_STACK_SIZE) c = false) l1 ∧ fits (rounded TASK_STACK_SIZE) b = true;
  ss_plain : ∀ c x, c ∈ l1 ++ b :: l2 → b_addr c <= x < b_end c → plain s x
}.

Section spawn.
Context (fuel : nat) (s : kernel) (elf size : Z) (l1 : list blk) (b : blk) (l2 : list blk) (i : Z).
Context (Sp : spawnable fuel s elf size l1 b l2 i).

(** The heap after loading. *)
Lemma heap_after asp root vc v X f : prepared s elf asp root vc v X f →
  heap_wf (Heap (phys v) (k_heap_head s) (k_heap_ready s)) (l1 ++ b :: l2).
Proof.
  intros [L _ _ Pl K _ _]. apply (heap_wf_bytes (phys (kvmm s))); [exact (ss_heap _ _ _ _ _ _ _ _ Sp)|apply (ld_phys _ _ _ _ _ _ _ L)|].
  intros c x Hc Hx _. pose proof (ss_plain _ _ _ _ _ _ _ _ Sp c x Hc Hx) as Hpl. destruct (Pl x Hpl) as [O N].
  destruct (ld_stable _ _ _ _ _ _ _ L _ O) as [O' E']. split; [done|]. destruct (E' N) as [_ E].
  change (rd8 (vmem v) x = rd8 (vmem (kvmm s)) x). rewrite <-(keeps_byte (kvmm s) vc x K) by apply Hpl.
  replace x with (x / 4096 * 4096 + x `mod` 4096) by arith. apply page_byte; [done|arith].
Qed.

(** The loaded space after any change of plain memory. *)
Lemma prepared_space asp root vc v X f m : prepared s elf asp root vc v X f → (∀ x, ¬ plain s x → rd8 m x = rd8 (vmem v) x) →
  process_space (set_vmem m v) (kmem s) asp root elf (own_page (phys (kvmm s))).
Proof.
  intros [L [Ha Na] Oa Hpl K Hp Hby] Hm. pose proof (ss_load _ _ _ _ _ _ _ _ Sp) as Lo.
  assert (∀ x, plain s x → own_page (phys vc) (x / 4096 * 4096) ∧ ¬ tab vc root (x / 4096 * 4096) ∧ x / 4096 * 4096 ≠ asp) as Hr.
  { intros x Hx. destruct (Hpl x Hx) as [? ?]. split_and!; [done|done|]. intros Ex. destruct Hx as [Ox _]. by rewrite Ex in Ox. }
  destruct (loaded_view_outside vc asp root _ v X f (plain s) m L Hr Hm) as (A & NH & V).
  split; [done|exact NH|]. change (vmem (set_vmem m v)) with m.
  assert (∀ p, process_perms (kmem s) elf p ≠ None → ∃ pa fl, X !! p = Some (pa, fl) ∧ process_perms (kmem s) elf p = Some fl) as HX.
  { intros q Hq. rewrite <-Hp in Hq |- *. destruct (X !! q) as [[pa fl]|]; [|done]. by exists pa, fl. }
  exists (λ p, match X !! p with Some (pa, _) => pa | None => 0 end). split_and!.
  - intros q1 q2 H1 H2. destruct (HX q1 H1) as (a1 & f1 & E1 & _), (HX q2 H2) as (a2 & f2 & E2 & _). rewrite E1, E2. intros ->.
    by eapply (ld_inj _ _ _ _ _ _ _ L).
  - intros q Hq. destruct (HX q Hq) as (pa & fl & Eq & _). rewrite Eq. destruct (ld_page _ _ _ _ _ _ _ L q pa fl Eq) as (_ & O & N & _).
    destruct (own_page_range _ _ (ld_phys _ _ _ _ _ _ _ L) O) as (_ & ? & _). split; [done|]. intros Ho. by apply N, K.
  - intros w fl Hw Hpp. assert (0 <= w < 2 ^ 48) as Hw48.
    { pose proof (process_perms_range (kmem s) elf size (w / 4096) (lo_elf _ _ _ Lo) ltac:(by rewrite Hpp)). arith. }
    destruct (HX (w / 4096) ltac:(by rewrite Hpp)) as (pa & fl' & Ex & Ef). rewrite Ex. rewrite Hpp in Ef. injection Ef as <-.
    destruct (V w pa fl Hw48 Ex) as (V1 & V2 & V3). split_and!; [done|by rewrite V2|done].
Qed.

(** The user task on top of the loaded space. *)
Lemma user_task asp root vc v X f np tb : prepared s elf asp root vc v X f →
  let s1 := set_kproc tb (set_kvmm v s) in
  ∃ s', task_create_user fuel np asp (e_entry (kmem s) elf) PROCESS_STACK_VIRT s1 = Ok i s' ∧ kproc s' = tb ∧
    ksched s' = upd_task i (new_task (b_addr b + 32) np root true asp) (ksched s) ∧
    leave (kmem s') (kernel_rsp (task_at (ksched s') i)) =
      Regs (replicate 15 0) (e_entry (kmem s) elf) 0x1B 0x202 PROCESS_STACK_VIRT 0x23 ∧
    ∀ m, (∀ x, ¬ plain s x → rd8 m x = rd8 (kmem s') x) → process_space (set_vmem m (kvmm s')) (kmem s) asp root elf (own_page (phys (kvmm s))).
Proof.
  intros Pr s1. pose proof (heap_after asp root vc v X f Pr) as W. pose proof Sp as [Lo Sw _ Sl _ [Hrd Hfu] [F1 Fb] Pl].
  pose proof Pr as [L [Ha Na] Oa Hpl K Hp Hby]. apply first_task_Some in Sl as Hi. destruct Hi as [Hi _].
  assert (Forall (block_ok (phys v)) (l1 ++ b :: l2)) as Bk by apply W.
  pose proof (proj1 (Forall_forall _ _) Bk b ltac:(apply elem_of_app; right; left)) as Bb.
  pose proof (block_end _ _ (ld_phys _ _ _ _ _ _ _ L) Bb) as Hend. pose proof (bo_addr _ _ Bb) as Hb0. pose proof (bo_align _ _ Bb) as Hb16.
  destruct (rounded_range TASK_STACK_SIZE ltac:(unfold TASK_STACK_SIZE; lia)) as (_ & Hro & _).
  pose proof Fb as [_ Hsz%Z.leb_le]%andb_prop. unfold b_end, sizeof_KBlock in Hend. set (p := b_addr b + 32).
  destruct (kmalloc_fit fuel (lget heap_lens s1) l1 b l2 TASK_STACK_SIZE W Hrd ltac:(unfold TASK_STACK_SIZE; lia) Hfu F1 Fb)
    as (h & Eh & _ & _ & Oh & Esh).
  assert (lset heap_lens h s1 = set_kmem (hmem h) s1) as Es2 by (rewrite Esh; destruct s as [[] ? ? ? ? ?]; by destruct v).
  unfold task_create_user, task_create.
  rewrite (bind_Ok _ _ s1 i s1) by (unfold find_free_slot, gets, mbind, M_bind; change (ksched s1) with (ksched s); by rewrite Sl).
  destruct (Z.ltb_spec i 0); [lia|]. rewrite (bind_Ok _ _ s1 p (lset heap_lens h s1)) by (unfold zoom; by rewrite Eh).
  destruct (Z.eqb_spec p 0); [lia|]. rewrite Es2.
  destruct (task_filled "create-u" np (λ s, as_pml4 (kvmm s) asp) true asp (e_entry (kmem s) elf) 0x1B 0x23 (λ _, PROCESS_STACK_VIRT)
    (set_kmem (hmem h) s1) i p (sw_len _ Sw) Hi ltac:(lia) ltac:(subst p; arith) ltac:(subst p; lia))
    as (m1 & m2 & t & s' & E' & Es & Epr & Ev & _ & _ & O1 & O2 & _ & Lv).
  { intros t _. pose proof (eo_entry _ _ _ (lo_elf _ _ _ Lo)). unfold USER_LOWER_LIMIT, USER_UPPER_LIMIT, PROCESS_STACK_VIRT in *.
    repeat first [apply List.Forall_nil | apply List.Forall_cons]; lia. }
  change (same_outside (b_addr b) (b_end b) (vmem v) (hmem h)) in Oh.
  change (kmem (set_kmem (hmem h) s1)) with (hmem h) in O1, O2.
  assert (∀ x, b_addr b <= x < b_end b → plain s x) as Hbp by (intros x; apply (Pl b x); apply elem_of_app; right; left).
  assert (∀ m, same_outside p (p + TASK_STACK_SIZE) (hmem h) m → ∀ x, ¬ plain s x → rd8 m x = rd8 (vmem v) x) as Wd.
  { intros m Hm x Hx. assert (x < b_addr b ∨ b_end b <= x) as Hd by (destruct (decide (b_addr b <= x < b_end b)); [by destruct Hx; apply Hbp|lia]).
    unfold b_end, sizeof_KBlock in *. rewrite Hm by (subst p; lia). apply Oh. unfold b_end, sizeof_KBlock. lia. }
  pose proof (ps_as _ _ _ _ _ _ (prepared_space asp root vc v X f m1 Pr (Wd m1 O1))) as A1.
  pose proof (aw_root _ _ _ A1) as Er.
  assert (kmem s' = m2) as Em by (unfold kmem; by rewrite Ev).
  change (as_pml4 (kvmm (set_kmem m1 (set_kmem (hmem h) s1))) asp) with (as_pml4 (set_vmem m1 v) asp) in Es. rewrite Er in Es.
  change (ksched (set_kmem (hmem h) s1)) with (ksched s) in E', Es. rewrite (sw_tid _ Sw i Hi) in E'.
  exists s'. split_and!; [exact E'|exact Epr|exact Es| |].
  - rewrite Es, task_at_upd, decide_True by (done || (try rewrite (sw_len _ Sw); lia)). cbn [new_task kernel_rsp].
    rewrite stack_top by (subst p; (lia || arith)). rewrite u64_small by (unfold TASK_STACK_SIZE, FRAME_SIZE in *; subst p; lia).
    by rewrite Em.
  - intros m Hm. assert (∀ x, ¬ plain s x → rd8 m x = rd8 (vmem v) x) as Hm' by (intros x Hx; rewrite Hm, Em by done; by apply Wd).
    replace (set_vmem m (kvmm s')) with (set_vmem m v) by (by rewrite Ev). by apply (prepared_space asp root vc v X f m Pr).
Qed.

(** The entry in the table and the message. *)
Lemma put_keeps o (k : M kernel Z) s0 s1 r : kvmm s1 = kvmm s0 → ksched s1 = ksched s0 → kproc s1 = kproc s0 →
  (∀ s2, kvmm s2 = kvmm s0 → ksched s2 = ksched s0 → kproc s2 = kproc s0 → ∃ s6, k s2 = Ok r s6 ∧ kvmm s6 = kvmm s0 ∧ ksched s6 = ksched s0 ∧ kproc s6 = kproc s0) →
  ∃ s6, (put o ;; k) s1 = Ok r s6 ∧ kvmm s6 = kvmm s0 ∧ ksched s6 = ksched s0 ∧ kproc s6 = kproc s0.
Proof. intros E1 E2 E3 H. rewrite (bind_Ok _ _ s1 tt _) by reflexivity. by apply H. Qed.

Lemma spawn_entry slot g np t e s5 : ∃ s6, (on_proc slot g ;; print "[proc spawn pid=" ;; print_dec np ;; print " tid=" ;; print_dec t ;;
    print " entry=" ;; print_hex e ;; print "]\n" ;; mret np) s5 = Ok np s6 ∧
  kvmm s6 = kvmm s5 ∧ ksched s6 = ksched s5 ∧ kproc s6 = upd_proc slot g (kproc s5).
Proof.
  set (s0 := set_kproc (upd_proc slot g (kproc s5)) s5). rewrite (bind_Ok _ _ s5 tt s0) by reflexivity.
  unfold print, print_dec, print_hex. change (kvmm s5) with (kvmm s0). change (ksched s5) with (ksched s0).
  change (upd_proc slot g (kproc s5)) with (kproc s0). clearbody s0.
  do 7 (apply put_keeps; [done|done|done|intros ? ? ? ?]). eexists. by split_and!.
Qed.

Lemma spawn_run_ok : ∃ s' asp root,
  process_spawn_from_elf fuel elf size s = Ok (next_pid (kproc s)) s' ∧
  proc_at (kproc s') (alloc_process_slot (kproc s)) =
    MkProcess true (next_pid (kproc s)) asp i (e_entry (kmem s) elf) PROCESS_STACK_VIRT false 0 false ∧
  (∀ j, 0 <= j < 16 → j ≠ i → task_at (ksched s') j = task_at (ksched s) j) ∧
  let t := task_at (ksched s') i in
  state t = TASK_RUNNABLE ∧ is_user t = true ∧ pid t = next_pid (kproc s) ∧ address_space t = asp ∧ task_cr3 t = root ∧ asp ≠ 0 ∧
  leave (kmem s') (kernel_rsp t) = Regs (replicate 15 0) (e_entry (kmem s) elf) 0x1B 0x202 PROCESS_STACK_VIRT 0x23 ∧
  ∀ m, (∀ x, ¬ plain s x → rd8 m x = rd8 (kmem s') x) → process_space (set_vmem m (kvmm s')) (kmem s) asp root elf (own_page (phys (kvmm s))).
Proof.
  destruct (prepare_run s elf size (ss_load _ _ _ _ _ _ _ _ Sp)) as (asp & root & vc & v1 & v2 & X & f & E1 & E2 & E3 & Pr).
  destruct (ss_table _ _ _ _ _ _ _ _ Sp) as [Hl Hs]. pose proof (alloc_slot_range (kproc s)) as Hsr.
  pose proof (ss_sched _ _ _ _ _ _ _ _ Sp) as Sw. destruct (first_task_Some _ _ _ (ss_slot _ _ _ _ _ _ _ _ Sp)) as [Hi _].
  set (np := next_pid (kproc s)). set (tb := Ptable (proc_table (kproc s)) (i32 (np + 1))).
  destruct (user_task asp root vc v2 X f np tb Pr) as (s' & E4 & Ep & Es & Lv & Sh).
  unfold process_spawn_from_elf. rewrite (bind_Ok _ _ s (alloc_process_slot (kproc s)) s) by done.
  destruct (Z.ltb_spec (alloc_process_slot (kproc s)) 0); [lia|]. rewrite (bind_Ok _ _ _ _ _ E1).
  destruct (Z.eqb_spec asp 0); [by destruct (pp_asp _ _ _ _ _ _ _ _ Pr)|].
  rewrite (bind_Ok _ _ _ _ _ E2), (bind_Ok _ _ _ _ _ E3), (bind_Ok _ _ _ np (set_kvmm v2 s)) by done.
  rewrite (bind_Ok _ _ _ tt (set_kproc tb (set_kvmm v2 s))) by done. rewrite (bind_Ok _ _ _ _ _ E4). destruct (Z.ltb_spec i 0); [lia|].
  destruct (spawn_entry (alloc_process_slot (kproc s)) (λ _, MkProcess true np asp i (e_entry (kmem s) elf) PROCESS_STACK_VIRT false 0 false)
    np i (e_entry (kmem s) elf) s') as (s6 & E6 & Ev6 & Es6 & Ep6).
  exists s6, asp, root. split; [exact E6|]. assert (kmem s6 = kmem s') as Em by (unfold kmem; by rewrite Ev6).
  rewrite Ep6, Es6, Ep, Es, Em, Ev6. cbn zeta. rewrite Es in Lv.
  rewrite task_at_upd, decide_True in Lv |- * by (done || (rewrite (sw_len _ Sw); lia) || lia). split_and!; try done.
  - rewrite proc_at_upd by (cbn [proc_table tb]; rewrite ?Hl; lia). by rewrite decide_True.
  - intros j Hj Hne. rewrite task_at_upd by (rewrite ?(sw_len _ Sw); lia). by rewrite decide_False.
Qed.

(** C3. A spawned process runs its program.  For a well-formed image whose
    addresses are free, with enough pages and a free block for the kernel
    stack, [process_spawn_from_elf] returns the next pid.  The free slot of
    the process table then describes the process, and one task, the others
    untouched, is ready to enter user mode at the image's entry point, with
    interrupts enabled, all registers zero and the stack pointer at the top of
    the user stack; under the page tables loaded for it the processor finds
    every page of the image and of the stack, with the flags of the first
    segment on the page, each in memory of its own, holding the bytes of the
    image and zeros elsewhere. *)
Theorem spawned_process_runs : ∃ s' asp root,
  process_spawn_from_elf fuel elf size s = Ok (next_pid (kproc s)) s' ∧
  proc_at (kproc s') (alloc_process_slot (kproc s)) =
    MkProcess true (next_pid (kproc s)) asp i (e_entry (kmem s) elf) PROCESS_STACK_VIRT false 0 false ∧
  (∀ j, 0 <= j < 16 → j ≠ i → task_at (ksched s') j = task_at (ksched s) j) ∧
  let t := task_at (ksched s') i in
  state t = TASK_RUNNABLE ∧ is_user t = true ∧ pid t = next_pid (kproc s) ∧ address_space t = asp ∧ task_cr3 t = root ∧
  leave (kmem s') (kernel_rsp t) = Regs (replicate 15 0) (e_entry (kmem s) elf) 0x1B 0x202 PROCESS_STACK_VIRT 0x23 ∧
  shows (kmem s') (kmem s) root elf (own_page (phys (kvmm s))).
Proof.
  destruct spawn_run_ok as (s' & asp & root & E & Ep & Et & H1 & H2 & H3 & H4 & H5 & _ & Lv & Ps). exists s', asp, root. cbn zeta.
  split_and!; try done. destruct (Ps (kmem s') ltac:(done)) as [_ _ Sh]. exact Sh.
Qed.

(** A page of the process is valid for the kernel's checks too. *)
Lemma space_phys v m0 asp root old x : process_space v m0 asp root elf old → 0 <= x → process_perms m0 elf (x / 4096) ≠ None →
  no_huge (vmem v) root x ∧ vmm_virt_to_phys asp (x / 4096 * 4096) v ≠ 0 ∧ rd8 (vmem v) (vmm_virt_to_phys asp x v) = image_bytes m0 elf x.
Proof.
  intros [A NH (page & _ & Hold & Sh)] Hx Hp.
  assert (∀ y, 0 <= y → y / 4096 = x / 4096 → no_huge (vmem v) root y ∧ vmm_virt_to_phys asp y v = page (x / 4096) + y `mod` 4096 ∧
    rd8 (vmem v) (page (x / 4096) + y `mod` 4096) = image_bytes m0 elf y) as H.
  { intros y Hy Eyx. destruct (process_perms m0 elf (x / 4096)) as [fl|] eqn:E; [|done]. rewrite <-Eyx in E.
    destruct (Sh y fl Hy E) as (V1 & V2 & V3). rewrite Eyx in V1, V2, V3.
    pose proof (no_huge_of root (y / 4096) y (vmem v) eq_refl (NH _ ltac:(by rewrite E))) as NHy.
    assert (present (leaf (vmem v) root y) = true) as Pr by (rewrite V3; apply present_lor). split_and!; [done| |done].
    rewrite (virt_to_phys_leaf v asp root y A NHy). cbn zeta. rewrite Pr. rewrite (mmu_leaf v asp root y A NHy Pr) in V1. by injection V1. }
  destruct (H x Hx eq_refl) as (N & Ev & Eb). split_and!; [done| |by rewrite Ev].
  destruct (H (x / 4096 * 4096)) as (_ & -> & _); [arith|by rewrite Z.div_mul|]. rewrite Z.mod_mul by done.
  destruct (Hold _ Hp). lia.
Qed.

(** C30. From the file to the screen.  After a spawn as in
    [spawned_process_runs], let the new task run: it is current, its page
    tables are loaded, and memory has changed at most in pages the kernel used
    before.  Then a [write] system call with an address and a length inside
    the pages of image and stack shows exactly the bytes the image holds for
    these addresses, flushes the screen and returns the length. *)
Theorem spawned_text_written : ∃ s', process_spawn_from_elf fuel elf size s = Ok (next_pid (kproc s)) s' ∧
  let t := task_at (ksched s') i in
  ∀ s2 frame m, kvmm s2 = Vmm (set_mem m (phys (kvmm s'))) (kernel_pml4 (kvmm s')) (task_cr3 t) (flushed (kvmm s2)) →
    (∀ x, ¬ plain s x → rd8 m x = rd8 (kmem s') x) →
    task_current s2 = Some i →
    is_user (task_at (ksched s2) i) = is_user t → address_space (task_at (ksched s2) i) = address_space t →
    let ptr := frame_rbx s2 frame in
    let len := frame_rcx s2 frame in
    len <= 4096 → ptr + len <= USER_TOP → (∀ x, ptr <= x < ptr + len → process_perms (kmem s) elf (x / 4096) ≠ None) →
    sys_write frame s2 = Ok len (with_out (kout s2 ++ shown (map (image_bytes (kmem s) elf) (seqZ ptr len)) ++ [Flush]) s2).
Proof.
  destruct spawn_run_ok as (s' & asp & root & E & _ & _ & _ & Eu & _ & Ea & Er & Ha & _ & Ps). exists s'.
  split; [done|]. cbn zeta. rewrite Eu, Ea, Er. intros s2 frame m Ev Hm Hc Hu Has H1 H2 H3.
  set (ptr := frame_rbx s2 frame) in *. set (len := frame_rcx s2 frame) in *.
  pose proof (Ps m Hm) as Sp2. assert (process_space (kvmm s2) (kmem s) asp root elf (own_page (phys (kvmm s)))) as Sp'.
  { destruct Sp2 as [A NH Sh]. rewrite Ev. split; [|done|done]. destruct A. by split. }
  assert (0 <= ptr) as Hptr by apply rd64_range. pose proof (ps_as _ _ _ _ _ _ Sp') as A.
  assert (∀ x, ptr <= x < ptr + len → no_huge (kmem s2) root x ∧ vmm_virt_to_phys asp (x / 4096 * 4096) (kvmm s2) ≠ 0 ∧
    rd8 (kmem s2) (vmm_virt_to_phys asp x (kvmm s2)) = image_bytes (kmem s) elf x) as Hx.
  { intros x Hx. apply (space_phys _ _ asp root _ x Sp'); [lia|by apply H3]. }
  destruct (sys_write_run s2 frame i root Hc Hu ltac:(by rewrite Has) ltac:(by rewrite Has) ltac:(by rewrite Ev)) as (_ & _ & H);
    [intros x ?; by apply Hx|]. rewrite Has in H. rewrite H; [|done|right; split; [done|intros x ?; by apply Hx]].
  do 5 f_equal. unfold user_bytes. rewrite <-(map_seqZ_add (image_bytes (kmem s) elf) ptr len).
  apply map_ext_in. intros k Hk%list_elem_of_In%elem_of_seqZ. apply Hx. subst ptr len. lia.
Qed.
End spawn.

(** ** Example: a four-byte program

    Sixty-four pages, the first ten in use: the bitmap in page 2, the kernel's
    empty PML4 in page 3, the image in page 4 and a heap of one block in pages
    5 to 9. *)
Definition ex_img : memory :=
  let m : memory := wr64 ∅ 0x2000 0x3FF in
  let m := wr32 m 0x4000 0x464C457F in
  let m := wr64 m 0x4018 0x2000000000 in
  let m := wr64 m 0x4020 64 in
  let m := wr8 m 0x4038 1 in
  let m := wr32 (wr32 m 0x4040 1) 0x4044 5 in
  let m := wr64 (wr64 m 0x4048 120) 0x4050 0x2000000000 in
  let m := wr64 (wr64 m 0x4060 4) 0x4068 8 in
  let m := wr32 m 0x4078 0x90C3CC90 in
  new_header 0x5000 16384 m.

Definition ex_spawn : kernel :=
  task_init (Kernel (Vmm (Pmm ex_img 0x2000 8 64 54) 0x3000 0x3000 []) 0x5000 true ex_sched (Ptable (replicate 16 proc0) 7) []).

Lemma ex_spawn_phys : phys_ok (phys (kvmm ex_spawn)).
Proof.
  split; [split; [cbn; lia|done|by vm_compute]|by vm_compute|cbn; lia|].
  intros k Hk ??. assert (k = 2) as -> by (unfold PAGE_SIZE in *; cbn in *; lia). by vm_compute.
Qed.

Lemma ex_spawn_own k : 3 <= k < 10 → own_page (phys (kvmm ex_spawn)) (k * PAGE_SIZE).
Proof.
  intros Hk. exists k. split_and!; [done|lia|cbn; lia| |right; cbn; unfold PAGE_SIZE; lia].
  assert (forallb (λ k, page_used k (phys (kvmm ex_spawn))) (seqZ 3 7) = true) as F by (vm_compute; reflexivity).
  apply (proj1 (forallb_forall _ _) F), list_elem_of_In, elem_of_seqZ. lia.
Qed.

Lemma ex_spawn_empty i : 0 <= i < 512 → entry (kmem ex_spawn) 0x3000 i = 0.
Proof.
  intros Hi. unfold entry. change (kmem ex_spawn) with ex_img. unfold ex_img, new_header, set_blk_next, set_blk_free, set_blk_size.
  unfold rd64. apply rdn_zero. intros x Hx. unfold wr64, wr32. rewrite ?rd8_wr64_out by lia.
  repeat first [rewrite rd8_wrn_out by lia | rewrite rd8_wr8_ne by lia]. done.
Qed.

Lemma ex_spawn_plain x : 0x4000 <= x < 0xA000 → plain ex_spawn x.
Proof.
  intros Hx. assert (4 <= x / 4096 < 10) as Hk by arith. split; [apply (ex_spawn_own (x / 4096)); lia|].
  intros (p & Hp & _ & W). destruct (walk_empty _ _ _ _ ex_spawn_empty Hp W) as [_ E].
  change (kernel_pml4 (kvmm ex_spawn)) with 0x3000 in E. lia.
Qed.

Lemma ex_spawn_phdrs : phdrs (kmem ex_spawn) 0x4000 = [0x4040].
Proof. vm_compute. reflexivity. Qed.

Lemma ex_spawn_seg : let m := kmem ex_spawn in p_type m 0x4040 = 1 ∧ seg_first m 0x4040 = 0x2000000 ∧ seg_count m 0x4040 = 1 ∧
  p_filesz m 0x4040 = 4 ∧ p_memsz m 0x4040 = 8 ∧ p_offset m 0x4040 = 120.
Proof. vm_compute. split_and!; reflexivity. Qed.

Lemma ex_spawn_elf : elf_ok (kmem ex_spawn) 0x4000 124.
Proof.
  destruct ex_spawn_seg as (E1 & E2 & E3 & E4 & E5 & E6).
  split; [unfold sizeof_Ehdr; lia|vm_compute; split_and!; reflexivity| | |].
  - assert (e_entry (kmem ex_spawn) 0x4000 = 0x2000000000) as -> by (vm_compute; reflexivity).
    unfold USER_LOWER_LIMIT, USER_UPPER_LIMIT. lia.
  - assert (e_phoff (kmem ex_spawn) 0x4000 = 64 ∧ e_phnum (kmem ex_spawn) 0x4000 = 1) as [-> ->] by (vm_compute; split; reflexivity).
    unfold sizeof_Phdr. lia.
  - rewrite ex_spawn_phdrs. intros ph ->%list_elem_of_singleton _. split; rewrite ?E2, ?E3, ?E4, ?E5, ?E6;
      unfold USER_LOWER_LIMIT, USER_UPPER_LIMIT; lia.
Qed.

Lemma ex_spawn_perms p : image_perms (kmem ex_spawn) 0x4000 p ≠ None → p = 0x2000000.
Proof.
  destruct ex_spawn_seg as (_ & E2 & E3 & _). intros (ph & Hin & _ & Hp)%perms_pages. rewrite ex_spawn_phdrs in Hin.
  apply list_elem_of_singleton in Hin as ->. rewrite E2, E3 in Hp. lia.
Qed.

Lemma ex_spawn_loadable : loadable ex_spawn 0x4000 124.
Proof.
  split; [exact ex_spawn_phys| |exact ex_spawn_elf|intros x Hx; apply ex_spawn_plain; lia| | |].
  - apply (root_wf_empty _ 0x3000 (ex_spawn_own 3 ltac:(lia))). exact ex_spawn_empty.
  - intros p _. split; [exact (empty_no_huge (kvmm ex_spawn) 0x3000 _ ex_spawn_empty)|]. unfold leaf.
    destruct (walk (kmem ex_spawn) _ (path3 (p * 4096))) eqn:W; [|done].
    by destruct (walk_empty (kvmm ex_spawn) 0x3000 _ _ ex_spawn_empty (okp_path3 _) W).
  - intros p Hp. destruct (image_perms (kmem ex_spawn) 0x4000 p) eqn:E; [|done]. exfalso.
    pose proof (ex_spawn_perms p ltac:(by rewrite E)) as ->. revert Hp. change stack_page with 0x7FFFFFFFE. unfold PROCESS_STACK_PAGES. lia.
  - assert (image_pages (kmem ex_spawn) 0x4000 = 1) as -> by (vm_compute; reflexivity). cbn. lia.
Qed.

Lemma ex_spawn_heap : heap_wf (lget heap_lens ex_spawn) [Blk 0x5000 20448 true].
Proof.
  split; [exact ex_spawn_phys|vm_compute; split_and!; reflexivity| |repeat constructor].
  apply Forall_singleton. split; [done|done|done|done|]. intros x Hx. unfold b_end, sizeof_KBlock in Hx. cbn in Hx.
  apply (ex_spawn_own (x / PAGE_SIZE)). unfold PAGE_SIZE. arith.
Qed.

Lemma ex_spawnable : spawnable 2 ex_spawn 0x4000 124 [] (Blk 0x5000 20448 true) [] 0.
Proof.
  split; [exact ex_spawn_loadable|apply task_init_wf|split; [done|by vm_compute]|by vm_compute|exact ex_spawn_heap|split; [done|cbn; lia]|by split|].
  intros c x Hc. apply list_elem_of_singleton in Hc as ->. unfold b_end, sizeof_KBlock. cbn [b_addr b_size]. intros Hx. apply ex_spawn_plain. lia.
Qed.

Lemma spawned_process_runs_witness : ∃ s' root pa,
  process_spawn_from_elf 2 0x4000 124 ex_spawn = Ok 7 s' ∧ task_cr3 (task_at (ksched s') 0) = root ∧
  mmu (kmem s') root 0x2000000002 = Some (pa + 2) ∧ rd8 (kmem s') (pa + 2) = 0xC3.
Proof.
  destruct (spawned_process_runs 2 ex_spawn 0x4000 124 [] (Blk 0x5000 20448 true) [] 0 ex_spawnable)
    as (s' & asp & root & E & _ & _ & _ & _ & _ & _ & Er & _ & Sh).
  assert (process_perms (kmem ex_spawn) 0x4000 (0x2000000002 / 4096) = Some (Z.lor 5 0)) as Hp by (vm_compute; reflexivity).
  destruct Sh as (page & _ & _ & Sh). destruct (Sh 0x2000000002 _ ltac:(lia) Hp) as (V1 & V2 & _).
  change (0x2000000002 `mod` 4096) with 2 in V1, V2. set (pa := page (0x2000000002 / 4096)) in V1, V2.
  exists s', root, pa. split; [exact E|]. split; [exact Er|]. split; [exact V1|]. rewrite V2. vm_compute. reflexivity.
Defined.

(** The program of the example asks for its first three bytes to be written;
    the frame of the system call is at 0x6000, in the heap. *)
Definition ex_write (s' : kernel) : kernel :=
  let m := wr64 (wr64 (kmem s') (0x6000 + FRAME_RBX) 0x2000000000) (0x6000 + FRAME_RCX) 3 in
  let v := Vmm (set_mem m (phys (kvmm s'))) (kernel_pml4 (kvmm s')) (task_cr3 (task_at (ksched s') 0)) [] in
  Kernel v (k_heap_head s') (k_heap_ready s') (set_current 0 (ksched s')) (kproc s') [].

Lemma spawned_text_written_witness : ∃ s', process_spawn_from_elf 2 0x4000 124 ex_spawn = Ok 7 s' ∧
  sys_write 0x6000 (ex_write s') = Ok 3 (with_out [Chr 0x90; Chr 0xCC; Chr 0xC3; Flush] (ex_write s')).
Proof.
  destruct (spawned_text_written 2 ex_spawn 0x4000 124 [] (Blk 0x5000 20448 true) [] 0 ex_spawnable) as (s' & E & H).
  exists s'. split; [exact E|]. set (m := wr64 (wr64 (kmem s') (0x6000 + FRAME_RBX) 0x2000000000) (0x6000 + FRAME_RCX) 3).
  assert (frame_rbx (ex_write s') 0x6000 = 0x2000000000) as Eb.
  { unfold frame_rbx. change (kmem (ex_write s')) with m. unfold m. rewrite rd64_wr64_ne by (unfold FRAME_RBX, FRAME_RCX; lia).
    by rewrite rd64_wr64_eq. }
  assert (frame_rcx (ex_write s') 0x6000 = 3) as Ec.
  { unfold frame_rcx. change (kmem (ex_write s')) with m. unfold m. by rewrite rd64_wr64_eq. }
  specialize (H (ex_write s') 0x6000 m eq_refl). cbn zeta in H. rewrite Eb, Ec in H. rewrite H.
  - assert (shown (map (image_bytes (kmem ex_spawn) 0x4000) (seqZ 0x2000000000 3)) = [Chr 0x90; Chr 0xCC; Chr 0xC3]) as -> by (vm_compute; reflexivity). reflexivity.
  - intros x Hx. unfold m, wr64. assert (x < 0x6000 ∨ 0x7000 <= x).
    { destruct (decide (0x6000 <= x < 0x7000)); [|lia]. destruct Hx. apply ex_spawn_plain. lia. }
    unfold FRAME_RBX, FRAME_RCX. rewrite !rd8_wrn_out by lia. reflexivity.
  - reflexivity.
  - reflexivity.
  - reflexivity.
  - lia.
  - unfold USER_TOP. lia.
  - intros x Hx. assert (x / 4096 = 0x2000000) as -> by (clear -Hx; arith). vm_compute. discriminate.
Defined.
