(* ===== verification/Shell.v ===== *)
(** * The shell (kernel/shell.c, string.c)

    A line editor with a history of sixteen commands on top of the keyboard
    queue, and the commands.  C strings are lists of characters without the
    terminator; an array write outside the array is a [Panic] outcome.  The
    text the shell prints joins the console output as [Chr] events. *)
From stdpp Require Import base gmap list list_numbers strings.
From Stdlib Require Import ZArith Lia.
From S2P Require Import Prelude Monad Mem Display Cbuf Devices Rtc Klog Acpi Irq Pmm Vmm Kmalloc Keyboard Kernel Task Process Syscall System.

(** ** string.c *)

(** [char] is signed. *)
Definition i8 (c : Z) : Z := (c + 128) `mod` 256 - 128.

Fixpoint kstrcmp (a b : list Z) : Z :=
  match a, b with
  | x :: a', y :: b' => if x =? y then kstrcmp a' b' else i8 x - i8 y
  | x :: _, [] => i8 x
  | [], y :: _ => 0 - i8 y
  | [], [] => 0
  end.

(** ** shell.c: strings *)
Fixpoint str_prefix (s prefix : list Z) : bool :=
  match prefix, s with
  | [], _ => true
  | y :: prefix', x :: s' => if x =? y then str_prefix s' prefix' else false
  | _ :: _, [] => false
  end.

Fixpoint skip_spaces (s : list Z) : list Z :=
  match s with c :: s' => if c =? 32 then skip_spaces s' else s | [] => [] end.

Definition is_digit (c : Z) : bool := (48 <=? c) && (c <=? 57).

(** The loop [while ( *s >= '0' && *s <= '9' )]: the value and [any]. *)
Fixpoint digits_loop (s : list Z) (v : Z) (any : bool) : Z * bool :=
  match s with
  | c :: s' => if is_digit c then digits_loop s' (u64 (u64 (v * 10) + u64 (c - 48))) true else (v, any)
  | [] => (v, any)
  end.

Definition parse_u64 (s : list Z) : option Z :=
  match skip_spaces s with
  | [] => None
  | s => let '(v, any) := digits_loop s 0 false in if any : bool then Some v else None
  end.

(** [while ( *rest && *rest != ' ' ) rest++;] *)
Fixpoint skip_word (s : list Z) : list Z :=
  match s with c :: s' => if c =? 32 then s else skip_word s' | [] => [] end.

(** ** State *)
Definition INPUT_MAX : Z := 256.
Definition HISTORY_MAX : Z := 16.

Record shell := Shell {
  input_buf : list Z;
  input_len : Z;
  input_overflow : bool;
  history : list (list Z);
  history_count : Z;
  history_cursor : Z;
  watch_irq : bool;
  watch_sched : bool
}.

Record sys (D : Type) := Sys { s_os : os D; s_sh : shell }.
Arguments Sys {D}.
Arguments s_os {D}.
Arguments s_sh {D}.

Definition os_lens {D} : lens (sys D) (os D) := Lens s_os (λ o s, Sys o (s_sh s)).

Definition set_input (b : list Z) (n : Z) (sh : shell) : shell :=
  Shell b n (input_overflow sh) (history sh) (history_count sh) (history_cursor sh) (watch_irq sh) (watch_sched sh).
Definition set_overflow (v : bool) (sh : shell) : shell :=
  Shell (input_buf sh) (input_len sh) v (history sh) (history_count sh) (history_cursor sh) (watch_irq sh) (watch_sched sh).
Definition set_history (h : list (list Z)) (n : Z) (sh : shell) : shell :=
  Shell (input_buf sh) (input_len sh) (input_overflow sh) h n (history_cursor sh) (watch_irq sh) (watch_sched sh).
Definition set_hcursor (c : Z) (sh : shell) : shell :=
  Shell (input_buf sh) (input_len sh) (input_overflow sh) (history sh) (history_count sh) c (watch_irq sh) (watch_sched sh).
Definition set_watch (i c : bool) (sh : shell) : shell :=
  Shell (input_buf sh) (input_len sh) (input_overflow sh) (history sh) (history_count sh) (history_cursor sh) i c.

Section code.
Context {D : Type} (hw : machine D) (fuel : nat) (hello burn : Z * Z).

Definition sh_get {A} (f : shell → A) : M (sys D) A := gets (λ s, f (s_sh s)).
Definition sh_mod (f : shell → shell) : M (sys D) unit := modify (λ s, Sys (s_os s) (f (s_sh s))).
Definition on_os {A} (m : M (os D) A) : M (sys D) A := zoom os_lens m.
Definition on_k {A} (m : M kernel A) : M (sys D) A := on_os (zoom k_lens m).

Definition say (t : list Z) : M (sys D) unit := on_os (oprint_text t).
Definition say_dec (n : Z) : M (sys D) unit := say (dec_text (u64 n)).
Definition say_hex (n : Z) : M (sys D) unit := say (hex_text (u64 n)).
Definition sflush : M (sys D) unit := on_os oflush.

(** [input_buf[i] = c;] *)
Definition input_store (i c : Z) : M (sys D) unit :=
  b ← sh_get input_buf;
  if (0 <=? i) && (i <? Z.of_nat (length b))
  then sh_mod (λ sh, set_input (<[Z.to_nat i := c]> (input_buf sh)) (input_len sh) sh)
  else panic "input_buf out of bounds".

(** The date as text, [rtc_format(&dt, ts, sizeof(ts))] with 24 bytes. *)
Definition rtc_text : M (sys D) (list Z) :=
  dt ← on_os (on_port (rtc_read_datetime hw fuel));
  match rtc_format (Some dt) (replicate 24 0) 24 with
  | Some ts => mret (cstr ts)
  | None => panic "ts out of bounds"
  end.

Definition print_prompt : M (sys D) unit :=
  ts ← rtc_text;
  say (chars "[") ;; say ts ;; say (chars "] ") ;; say (chars "sam> ").

(** ["\b \b"] *)
Definition rubout : list Z := [8; 32; 8].

Definition rub_one (i : Z) : M (sys D) unit :=
  say rubout ;; sh_mod (λ sh, set_input (input_buf sh) (input_len sh - 1) sh).

Definition clear_typed_line : M (sys D) unit :=
  n ← sh_get input_len;
  for_range 0 n rub_one ;;
  input_store 0 0.

(** ** History *)
Definition history_push (cmd : list Z) : M (sys D) unit :=
  match cmd with
  | [] => mret tt
  | _ =>
      sh ← sh_get (λ sh, sh);
      let same := if 0 <? history_count sh
        then kstrcmp (cstr (nth (Z.to_nat ((history_count sh - 1) `mod` HISTORY_MAX)) (history sh) [])) cmd =? 0
        else false in
      if same then mret tt else
      let idx := history_count sh `mod` HISTORY_MAX in
      match history sh !! Z.to_nat idx ≫= (λ row, s ← emit_while (INPUT_MAX - 1) cmd (row, 0); fst <$> emit 0 s) with
      | None => panic "history out of bounds"
      | Some row => sh_mod (λ sh, set_history (<[Z.to_nat idx := row]> (history sh)) (history_count sh + 1) sh)
      end
  end.

(** The copy loop of [history_apply]. *)
Fixpoint type_text (src : list Z) : M (sys D) unit :=
  match src with
  | [] => mret tt
  | c :: src' =>
      n ← sh_get input_len;
      if n <? INPUT_MAX - 1 then
        input_store n c ;;
        sh_mod (λ sh, set_input (input_buf sh) (input_len sh + 1) sh) ;;
        say [c] ;;
        type_text src'
      else mret tt
  end.

Definition history_apply (absolute_index : Z) : M (sys D) unit :=
  sh ← sh_get (λ sh, sh);
  let oldest := if HISTORY_MAX <? history_count sh then history_count sh - HISTORY_MAX else 0 in
  if (absolute_index <? oldest) || (history_count sh <=? absolute_index) then mret tt else
  let idx := absolute_index `mod` HISTORY_MAX in
  clear_typed_line ;;
  type_text (cstr (nth (Z.to_nat idx) (history sh) [])) ;;
  n ← sh_get input_len;
  input_store n 0 ;;
  sflush.

Definition handle_history_up : M (sys D) unit :=
  sh ← sh_get (λ sh, sh);
  if history_count sh <=? 0 then mret tt else
  let c := if history_cursor sh <? 0 then history_count sh - 1
           else if 0 <? history_cursor sh then history_cursor sh - 1 else history_cursor sh in
  sh_mod (set_hcursor c) ;;
  history_apply c.

Definition handle_history_down : M (sys D) unit :=
  sh ← sh_get (λ sh, sh);
  if (history_count sh <=? 0) || (history_cursor sh <? 0) then mret tt else
  let c := history_cursor sh + 1 in
  if history_count sh <=? c then
    sh_mod (set_hcursor (-1)) ;; clear_typed_line ;; sflush
  else
    sh_mod (set_hcursor c) ;; history_apply c.

(** ** Reports *)
Definition print_irq_stats : M (sys D) unit :=
  i ← gets (λ s, o_irq (s_os s));
  let st := irq_get_stats i in
  say (chars "irqstat: backend=") ;; say (irq_controller_name i) ;;
  say (chars " timer=") ;; say_dec (timer_irq_count st) ;;
  say (chars " keyboard=") ;; say_dec (keyboard_irq_count st) ;;
  say (chars " spurious=") ;; say_dec (spurious_irq_count st) ;;
  say (chars " eoi=") ;; say_dec (eoi_count st) ;;
  say (chars " route_fail=") ;; say_dec (apic_route_failures st) ;;
  say (chars " health_fault=") ;; say_dec (health_faults st) ;;
  say newline.

Definition uptime (ticks hz : Z) : Z := if hz =? 0 then 0 else ticks / hz.

Definition print_status : M (sys D) unit :=
  ticks ← on_os timer_get_ticks;
  hz ← on_os timer_get_frequency;
  s ← gets s_os;
  say (chars "status: irq=") ;; say (irq_controller_name (o_irq s)) ;;
  say (chars " ticks=") ;; say_dec ticks ;;
  say (chars " up_s=") ;; say_dec (uptime ticks hz) ;;
  say (chars " free_pages=") ;; say_dec (pmm_get_free_pages (phys (kvmm (o_kernel s)))) ;;
  say (chars " procs=") ;; say_dec (process_count_active (kproc (o_kernel s))) ;;
  say (chars " switches=") ;; say_dec (task_get_switch_count (ksched (o_kernel s))) ;;
  say newline.

Definition run_watch_if_enabled : M (sys D) unit :=
  i ← sh_get watch_irq;
  (if i : bool then print_irq_stats else mret tt) ;;
  c ← sh_get watch_sched;
  if c : bool then on_k task_print_stats else mret tt.

(** ** Commands *)
Definition cmd_spawn (name : list Z) (image : Z) : M (sys D) unit :=
  pid ← on_k (process_spawn_builtin fuel hello burn image);
  say (chars "spawn ") ;; say name ;; say (chars " pid=") ;;
  if pid <? 0 then say (chars "err" ++ newline) else say_dec pid ;; say newline.

(** The shell has pid 0 and is not the victim: [process_kill] returns. *)
Definition cmd_kill (line : list Z) : M (sys D) unit :=
  let rest := skip_spaces (drop 4 line) in
  match parse_u64 rest with
  | None => say (chars "kill: usage kill <pid> [code]" ++ newline)
  | Some pid =>
      let rest := skip_word rest in
      let code := match rest with
                  | [] => 137
                  | _ => default 137 (parse_u64 rest)
                  end in
      r ← on_k (process_kill (i32 pid) (i32 code));
      match r with
      | Gone _ => panic "the shell has exited"
      | Killed rc =>
          if rc <? 0 then say (chars "kill: no such pid" ++ newline)
          else if 0 <? rc then say (chars "kill: already exited" ++ newline)
          else say (chars "kill: sent to pid ") ;; say_dec pid ;; say newline
      end
  end.

(** What the rest of the system does between [task_yield] and the next time
    the shell runs. *)
Context (others : M (os D) unit).

Fixpoint wait_loop (n : nat) (pid : Z) : M (sys D) unit :=
  match n with
  | O => panic "waited too long"
  | S n' =>
      on_k process_reap_deferred ;;
      r ← on_k (process_wait_poll (i32 pid));
      if fst r <? 0 then say (chars "wait: no such pid" ++ newline)
      else if 0 <? fst r then
        say (chars "wait: pid ") ;; say_dec pid ;; say (chars " exit=") ;; say_dec (default 0 (snd r)) ;; say newline
      else on_k task_yield ;; on_os others ;; wait_loop n' pid
  end.

Definition cmd_wait (line : list Z) : M (sys D) unit :=
  match parse_u64 (skip_spaces (drop 4 line)) with
  | None => say (chars "wait: usage wait <pid>" ++ newline)
  | Some pid => wait_loop fuel pid
  end.

Definition cmd_dmesg (line : list Z) : M (sys D) unit :=
  let n := default 32 (parse_u64 (skip_spaces (drop 10 line))) in
  on_os (log_call (klog_dump_recent (u32 n))).

Definition on_off (b : bool) : list Z := if b then chars "on" ++ newline else chars "off" ++ newline.

Definition cmd_watch (line : list Z) : M (sys D) unit :=
  let rest := skip_spaces (drop 5 line) in
  sh ← sh_get (λ sh, sh);
  if kstrcmp rest (chars "irq") =? 0 then
    sh_mod (λ sh, set_watch (negb (watch_irq sh)) (watch_sched sh) sh) ;;
    say (chars "watch irq: ") ;; say (on_off (negb (watch_irq sh)))
  else if kstrcmp rest (chars "sched") =? 0 then
    sh_mod (λ sh, set_watch (watch_irq sh) (negb (watch_sched sh)) sh) ;;
    say (chars "watch sched: ") ;; say (on_off (negb (watch_sched sh)))
  else say (chars "watch: usage watch irq|sched" ++ newline).

Definition cmd_hw : M (sys D) unit :=
  madt ← gets (λ s, acpi_get_madt_info (o_acpi (s_os s)));
  if negb (Acpi.present madt) then say (chars "hw: ACPI MADT unavailable" ++ newline) else
  say (chars "hw: LAPIC=") ;; say_hex (lapic_addr madt) ;;
  say (chars " IOAPIC=") ;; say_hex (ioapic_addr madt) ;;
  say (chars " GSI_BASE=") ;; say_dec (ioapic_gsi_base madt) ;;
  say (chars " CPUs=") ;; say_dec (cpu_lapic_count madt) ;;
  say newline.

Definition help_text : list Z :=
  chars "commands: help clear ticks sched schedcheck about shutdown spawnh spawnb time irq irqstat clocksrc hw ps kill wait memstat uptime status dmesg-lite watch" ++ newline.

(** The command on a line: the first branch of the chain that applies. *)
Definition run_command (line : list Z) : M (sys D) unit :=
  let cmd t := kstrcmp line (chars t) =? 0 in
  if cmd "help" then say help_text
  else if cmd "clear" then on_k (put Clear)
  else if cmd "ticks" then t ← on_os timer_get_ticks; say (chars "ticks: ") ;; say_dec t ;; say newline
  else if cmd "about" then say (chars "SamOS built from scratch" ++ newline)
  else if cmd "sched" then on_k task_print_stats
  else if cmd "schedcheck" then
    ok ← gets (λ s, task_self_check (ksched (o_kernel (s_os s))));
    say (chars "schedcheck: ") ;; say (chars (if ok : bool then "ok" else "fail")) ;; say newline
  else if cmd "spawnh" then cmd_spawn (chars "hello") 0
  else if cmd "spawnb" then cmd_spawn (chars "burn") 1
  else if cmd "ps" then on_k process_dump_table
  else if str_prefix line (chars "kill") then cmd_kill line
  else if str_prefix line (chars "wait") then cmd_wait line
  else if cmd "time" then ts ← rtc_text; say (chars "time: ") ;; say ts ;; say newline
  else if cmd "irq" then on_os irq_dump_routes
  else if cmd "irqstat" then print_irq_stats
  else if cmd "clocksrc" then
    hz ← on_os timer_get_frequency;
    say (chars "clock source: PIT(") ;; say_dec hz ;; say (chars "Hz) + CMOS RTC" ++ newline)
  else if cmd "memstat" then
    p ← gets (λ s, phys (kvmm (o_kernel (s_os s))));
    say (chars "mem: free_pages=") ;; say_dec (pmm_get_free_pages p) ;;
    say (chars " total_pages=") ;; say_dec (pmm_get_total_pages p) ;; say newline
  else if cmd "uptime" then
    t ← on_os timer_get_ticks;
    hz ← on_os timer_get_frequency;
    say (chars "uptime: ") ;; say_dec (uptime t hz) ;; say (chars " s" ++ newline)
  else if cmd "status" then print_status
  else if str_prefix line (chars "dmesg-lite") then cmd_dmesg line
  else if str_prefix line (chars "watch") then cmd_watch line
  else if cmd "hw" then cmd_hw
  else if cmd "shutdown" then
    say (chars "SamOS shutting down" ++ newline) ;;
    a ← gets (λ s, o_acpi (s_os s));
    on_os (on_port (shutdown hw a))
  else if cmd "paniclast" then
    t ← on_os (zoom log_lens panic_get_last);
    say (chars "paniclast: ") ;; say t ;; say newline
  else
    n ← sh_get input_len;
    if 0 <? n then say (chars "unknown: ") ;; say line ;; say newline else mret tt.

Definition process_command : M (sys D) unit :=
  n ← sh_get input_len;
  input_store n 0 ;;
  line ← sh_get (λ sh, cstr (input_buf sh));
  (if 0 <? n then history_push line else mret tt) ;;
  sh_mod (set_hcursor (-1)) ;;
  run_command line ;;
  on_k process_reap_deferred ;;
  run_watch_if_enabled ;;
  sh_mod (λ sh, set_overflow false (set_input (input_buf sh) 0 sh)) ;;
  print_prompt ;;
  sflush.

(** ** The main loop *)

(** The body of the inner loop for one character. *)
Definition shell_key (c : Z) : M (sys D) unit :=
  if (c =? 10) || (c =? 13) then say newline ;; process_command
  else if c =? 8 then
    n ← sh_get input_len;
    if 0 <? n then
      sh_mod (λ sh, set_input (input_buf sh) (n - 1) sh) ;;
      input_store (n - 1) 0 ;;
      say rubout ;; sflush
    else mret tt
  else if c =? KB_EVENT_UP then handle_history_up
  else if c =? KB_EVENT_DOWN then handle_history_down
  else if (32 <=? i8 c) && (i8 c <=? 126) then
    n ← sh_get input_len;
    if n <? INPUT_MAX - 1 then
      input_store n c ;;
      sh_mod (λ sh, set_input (input_buf sh) (n + 1) sh) ;;
      input_store (n + 1) 0 ;;
      say [c] ;; sflush
    else
      o ← sh_get input_overflow;
      if negb o then
        sh_mod (set_overflow true) ;;
        say (newline ++ chars "[input buffer full]" ++ newline) ;;
        print_prompt ;;
        for_range 0 n (λ i, b ← sh_get input_buf; say [nth (Z.to_nat i) b 0]) ;;
        sflush
      else mret tt
  else mret tt.

(** [while ((c = kb_getchar()) != 0)] for [n] characters. *)
Fixpoint drain (n : nat) : M (sys D) unit :=
  match n with
  | O => mret tt
  | S n' =>
      c ← on_os (zoom kbd_lens (lift kb_getchar));
      if c =? 0 then mret tt else shell_key c ;; drain n'
  end.

(** One turn of [while (1)]: the shell sleeps; when it runs again it empties
    the keyboard queue, which holds at most 63 characters. *)
Definition shell_turn : M (sys D) unit :=
  on_k task_sleep ;; on_os others ;; drain 64.

Definition shell_start : M (sys D) unit := print_prompt ;; sflush.
End code.

(** ** Strings *)
Lemma i8_byte c : 0 <= c < 256 → i8 c = if c <? 128 then c else c - 256.
Proof. intros. unfold i8. destruct (Z.ltb_spec c 128); arith. Qed.

Lemma kstrcmp_eq a b : Forall (λ c, 0 < c < 256) a → Forall (λ c, 0 < c < 256) b →
  (kstrcmp a b =? 0) = bool_decide (a = b).
Proof.
  intros Ha. revert b. induction Ha as [|x a Hx Ha IH]; intros b Hb; destruct Hb as [|y b Hy Hb]; cbn [kstrcmp].
  - done.
  - rewrite bool_decide_false by done. apply Z.eqb_neq. rewrite i8_byte by lia. destruct (Z.ltb_spec y 128); lia.
  - rewrite bool_decide_false by done. apply Z.eqb_neq. rewrite i8_byte by lia. destruct (Z.ltb_spec x 128); lia.
  - destruct (Z.eqb_spec x y) as [->|Hne].
    + rewrite IH by done. apply bool_decide_ext. split; [by intros ->|by intros [= ->]].
    + rewrite bool_decide_false by (by intros [= -> _]). apply Z.eqb_neq. rewrite !i8_byte by lia.
      destruct (Z.ltb_spec x 128), (Z.ltb_spec y 128); lia.
Qed.

(** ** The line editor

    What the user sees: the text on the console, where a backspace takes the
    last character away. *)
Definition text_step (t : list Z) (o : out) : list Z :=
  match o with
  | Chr c => if c =? 8 then take (length t - 1) t else t ++ [c]
  | _ => t
  end.
Definition text (t : list Z) (l : list out) : list Z := fold_left text_step l t.
Definition plain (o : out) : Prop := match o with Chr _ | Flush => True | _ => False end.

Lemma text_app t l1 l2 : text t (l1 ++ l2) = text (text t l1) l2.
Proof. apply fold_left_app. Qed.

Lemma text_chars t cs : Forall (λ c, c ≠ 8) cs → text t (map Chr cs) = t ++ cs.
Proof.
  intros Hc. revert t. induction Hc as [|c cs Hc Hcs IH]; intros t; cbn; [by rewrite app_nil_r|].
  destruct (Z.eqb_spec c 8); [done|]. unfold text in IH. rewrite IH. by rewrite <-app_assoc.
Qed.

Lemma text_rubout t c : text (t ++ [c]) (map Chr rubout) = t.
Proof.
  unfold text, rubout. cbn [map fold_left text_step Z.eqb Pos.eqb].
  rewrite !length_app. cbn [length]. rewrite take_app_length' by lia.
  replace (length t + 1 - 1)%nat with (length t) by lia. by rewrite take_app_length.
Qed.

(** The editor as the user thinks of it: the line, all commands entered so
    far, the position in them ([-1] when not browsing), whether the full
    buffer has been reported, and the text on the screen before the line. *)
Record editor := Editor {
  ed_line : list Z;
  ed_hist : list (list Z);
  ed_pos : Z;
  ed_full : bool;
  ed_text : list Z
}.

Definition set_line (l : list Z) (e : editor) : editor :=
  Editor l (ed_hist e) (ed_pos e) (ed_full e) (ed_text e).
Definition set_pos (p : Z) (e : editor) : editor :=
  Editor (ed_line e) (ed_hist e) p (ed_full e) (ed_text e).

(** The last sixteen commands can be recalled. *)
Definition recall (i : Z) (e : editor) : editor :=
  let n := Z.of_nat (length (ed_hist e)) in
  if (Z.max 0 (n - 16) <=? i) && (i <? n) then set_line (nth (Z.to_nat i) (ed_hist e) []) e else e.

Definition edit_up (e : editor) : editor :=
  match ed_hist e with
  | [] => e
  | _ =>
      let p := if ed_pos e <? 0 then Z.of_nat (length (ed_hist e)) - 1 else Z.max 0 (ed_pos e - 1) in
      recall p (set_pos p e)
  end.

Definition edit_down (e : editor) : editor :=
  if (ed_pos e <? 0) then e
  else if ed_pos e + 1 <? Z.of_nat (length (ed_hist e)) then recall (ed_pos e + 1) (set_pos (ed_pos e + 1) e)
  else set_line [] (set_pos (-1) e).

(** One key other than Enter, with [prompt] the text of a new prompt. *)
Definition edit (prompt : list Z) (e : editor) (c : Z) : editor :=
  if c =? 8 then set_line (take (length (ed_line e) - 1) (ed_line e)) e
  else if c =? KB_EVENT_UP then edit_up e
  else if c =? KB_EVENT_DOWN then edit_down e
  else if (32 <=? c) && (c <=? 126) then
    if (length (ed_line e) <? 255)%nat then set_line (ed_line e ++ [c]) e
    else if ed_full e then e
    else Editor (ed_line e) (ed_hist e) (ed_pos e) true
           (ed_text e ++ ed_line e ++ newline ++ chars "[input buffer full]" ++ newline ++ prompt)
  else e.

Definition printable_line (l : list Z) : Prop := Forall (λ c, 32 <= c <= 126) l ∧ (length l <= 255)%nat.

(** The shell's variables hold the editor. *)
Record holds (sh : shell) (e : editor) : Prop := {
  h_buf : length (input_buf sh) = 256%nat;
  h_len : input_len sh = Z.of_nat (length (ed_line e));
  h_line : take (length (ed_line e)) (input_buf sh) = ed_line e;
  h_chars : printable_line (ed_line e);
  h_full : input_overflow sh = ed_full e;
  h_rows : length (history sh) = 16%nat;
  h_row : Forall (λ r, length r = 256%nat) (history sh);
  h_count : history_count sh = Z.of_nat (length (ed_hist e));
  h_hist : ∀ i, Z.max 0 (Z.of_nat (length (ed_hist e)) - 16) <= i < Z.of_nat (length (ed_hist e)) →
    cstr (nth (Z.to_nat (i `mod` 16)) (history sh) []) = nth (Z.to_nat i) (ed_hist e) [];
  h_cmds : Forall printable_line (ed_hist e);
  h_pos : history_cursor sh = ed_pos e ∧ -1 <= ed_pos e < Z.of_nat (length (ed_hist e))
}.

Section editing.
Context {D : Type} (hw : machine D) (fuel : nat) (hello burn : Z * Z) (others : M (os D) unit).

(** The states of an editing session: [o] with [l] printed since its start. *)
Definition out_add (l : list out) (o : os D) : os D :=
  Os (let k := o_kernel o in
      Kernel (kvmm k) (k_heap_head k) (k_heap_ready k) (ksched k) (kproc k) (kout k ++ l))
     (o_irq o) (o_log o) (o_acpi o) (o_timer o) (o_kbd o) (o_if o).
Definition st (o : os D) (l : list out) (sh : shell) : sys D := Sys (out_add l o) sh.

Lemma say_run t o l sh : say t (st o l sh) = Ok tt (st o (l ++ map Chr t) sh).
Proof. unfold st, out_add. cbn. by rewrite app_assoc. Qed.

Lemma sflush_run o l sh : sflush (st o l sh) = Ok tt (st o (l ++ [Flush]) sh).
Proof. unfold st, out_add. cbn. by rewrite app_assoc. Qed.

Lemma sh_mod_run f o l sh : sh_mod f (st o l sh) = Ok tt (st o l (f sh)).
Proof. done. Qed.

Lemma store_run i c o l sh : 0 <= i < Z.of_nat (length (input_buf sh)) →
  input_store i c (st o l sh) =
    Ok tt (st o l (set_input (<[Z.to_nat i := c]> (input_buf sh)) (input_len sh) sh)).
Proof.
  intros Hi. unfold input_store, mbind, M_bind, sh_get, gets. cbn [s_sh st].
  destruct (Z.leb_spec 0 i), (Z.ltb_spec i (Z.of_nat (length (input_buf sh)))); try lia. done.
Qed.

Lemma rub_loop n i o l sh : forZ n i rub_one (st o l sh) =
  Ok tt (st o (l ++ concat (replicate n (map Chr rubout)))
    (set_input (input_buf sh) (input_len sh - Z.of_nat n) sh)).
Proof.
  revert i l sh. induction n as [|n IH]; intros i l sh; cbn [forZ replicate concat].
  - rewrite app_nil_r, Z.sub_0_r. by destruct sh.
  - rewrite (bind_Ok _ _ _ tt (st o (l ++ map Chr rubout) (set_input (input_buf sh) (input_len sh - 1) sh))).
    2: { unfold rub_one. rewrite (bind_Ok _ _ _ _ _ (say_run _ _ _ _)). done. }
    rewrite IH. cbn [input_len input_buf set_input]. rewrite <-app_assoc. unfold set_input. cbn. do 3 f_equal. lia.
Qed.

Lemma clear_line_run o l sh : 0 <= input_len sh → (0 < length (input_buf sh))%nat →
  clear_typed_line (st o l sh) =
    Ok tt (st o (l ++ concat (replicate (Z.to_nat (input_len sh)) (map Chr rubout)))
      (set_input (<[0%nat := 0]> (input_buf sh)) 0 sh)).
Proof.
  intros Hn Hb. unfold clear_typed_line. rewrite (bind_Ok _ _ _ (input_len sh) (st o l sh)) by done.
  unfold for_range. rewrite Z.sub_0_r. rewrite (bind_Ok _ _ _ _ _ (rub_loop _ _ _ _ _)).
  rewrite store_run by (cbn; lia). cbn. do 2 f_equal. unfold set_input. cbn. f_equal. lia.
Qed.

Lemma type_text_run src o l sh : 0 <= input_len sh → Z.of_nat (length src) + input_len sh <= 255 →
  length (input_buf sh) = 256%nat →
  ∃ b, type_text src (st o l sh) =
    Ok tt (st o (l ++ map Chr src) (set_input b (input_len sh + Z.of_nat (length src)) sh)) ∧
    length b = 256%nat ∧
    take (Z.to_nat (input_len sh) + length src) b = take (Z.to_nat (input_len sh)) (input_buf sh) ++ src.
Proof.
  revert l sh. induction src as [|c src IH]; intros l sh Hn Hs Hb; cbn [type_text map length].
  - exists (input_buf sh). rewrite !app_nil_r, Z.add_0_r, Nat.add_0_r. by destruct sh.
  - cbn [length] in Hs. rewrite (bind_Ok _ _ _ (input_len sh) (st o l sh)) by done.
    unfold INPUT_MAX. destruct (Z.ltb_spec (input_len sh) (256 - 1)); [|lia].
    rewrite (bind_Ok _ _ _ _ _ (store_run (input_len sh) c o l sh ltac:(lia))).
    rewrite (bind_Ok _ _ _ _ _ (sh_mod_run _ _ _ _)), (bind_Ok _ _ _ _ _ (say_run _ _ _ _)).
    cbn [input_buf input_len set_input].
    set (sh1 := set_input (<[Z.to_nat (input_len sh) := c]> (input_buf sh)) (input_len sh + 1) sh).
    destruct (IH (l ++ map Chr [c]) sh1) as (b & E & Lb & Tb); [cbn; lia|cbn; lia|cbn; by rewrite length_insert|].
    exists b. cbn [input_len input_buf sh1 set_input] in Tb. split_and!; [|done|].
    + etrans; [exact E|]. unfold sh1, set_input. cbn. rewrite <-app_assoc. do 3 f_equal. lia.
    + replace (Z.to_nat (input_len sh) + S (length src))%nat with (Z.to_nat (input_len sh + 1) + length src)%nat by lia.
      rewrite Tb. replace (Z.to_nat (input_len sh + 1)) with (S (Z.to_nat (input_len sh))) by lia.
      rewrite (take_S_r _ _ c) by (rewrite list_lookup_insert_eq by lia; done).
      rewrite take_insert_ge by lia. by rewrite <-app_assoc.
Qed.

Lemma text_clear T line : text (T ++ line) (concat (replicate (length line) (map Chr rubout))) = T.
Proof.
  induction line as [|c line IH] using rev_ind; [by rewrite app_nil_r|].
  rewrite length_app, Nat.add_1_r. cbn [replicate concat]. rewrite text_app, app_assoc, text_rubout. apply IH.
Qed.

Lemma plain_chars cs : Forall plain (map Chr cs).
Proof. apply List.Forall_map, List.Forall_forall. done. Qed.

Lemma plain_rubouts n : Forall plain (concat (replicate n (map Chr rubout))).
Proof. induction n; cbn; repeat constructor; done. Qed.

Lemma printable_not8 line : printable_line line → Forall (λ c, c ≠ 8) line.
Proof. intros [H _]. eapply List.Forall_impl; [|exact H]. cbn. lia. Qed.

Lemma holds_line sh e b line : holds sh e → length b = 256%nat → printable_line line →
  take (length line) b = line → holds (set_input b (Z.of_nat (length line)) sh) (set_line line e).
Proof. intros [] ???. split; done. Qed.

Lemma holds_pos sh e p : holds sh e → -1 <= p < Z.of_nat (length (ed_hist e)) →
  holds (set_hcursor p sh) (set_pos p e).
Proof. intros [] ?. split; done. Qed.

Lemma recalled_line e i : Forall printable_line (ed_hist e) → printable_line (nth i (ed_hist e) []).
Proof.
  intros H. destruct (nth_in_or_default i (ed_hist e) []) as [Hin| ->].
  - rewrite List.Forall_forall in H. by apply H.
  - split; [constructor|cbn; lia].
Qed.

(** An editing session that began with the text [T0] on the screen. *)
Definition session (T0 : list Z) (l : list out) (sh : shell) (e : editor) : Prop :=
  holds sh e ∧ Forall plain l ∧ text T0 l = ed_text e ++ ed_line e.

Lemma clear_session T0 o l sh e : session T0 l sh e →
  ∃ l' b, clear_typed_line (st o l sh) = Ok tt (st o l' (set_input b 0 sh)) ∧
    session T0 l' (set_input b 0 sh) (set_line [] e) ∧ length b = 256%nat.
Proof.
  intros (H & Hp & Ht). pose proof H as [Hb Hl _ _ _ _ _ _ _ _ _].
  rewrite clear_line_run by lia. eexists _, _. split; [reflexivity|]. rewrite length_insert. split; [|done].
  rewrite Hl, Nat2Z.id. split; [|split].
  - apply (holds_line sh e _ []); [done|by rewrite length_insert|split; [constructor|cbn; lia]|done].
  - apply Forall_app. split; [done|apply plain_rubouts].
  - rewrite text_app, Ht, text_clear. cbn. by rewrite app_nil_r.
Qed.

Lemma apply_session T0 o l sh e i : session T0 l sh e →
  ∃ l' sh', history_apply i (st o l sh) = Ok tt (st o l' sh') ∧ session T0 l' sh' (recall i e).
Proof.
  intros S. pose proof S as (H & _). pose proof H as [Hb Hl _ _ _ _ _ Hc Hh Hcm _].
  unfold history_apply, recall. rewrite (bind_Ok _ _ _ sh (st o l sh)) by done. unfold HISTORY_MAX. rewrite Hc.
  set (n := Z.of_nat (length (ed_hist e))) in *.
  assert ((i <? (if 16 <? n then n - 16 else 0)) || (n <=? i) = negb ((Z.max 0 (n - 16) <=? i) && (i <? n))) as ->.
  { destruct (Z.ltb_spec 16 n), (Z.leb_spec n i), (Z.ltb_spec i n), (Z.leb_spec (Z.max 0 (n - 16)) i); try lia;
      zb_case; try lia; done. }
  destruct ((Z.max 0 (n - 16) <=? i) && (i <? n)) eqn:E; cbn [negb]; [|by exists l, sh].
  destruct (clear_session T0 o l sh e S) as (l1 & b1 & E1 & (H1 & P1 & T1) & L1).
  rewrite (bind_Ok _ _ _ _ _ E1). rewrite Hh by lia. set (cmd := nth (Z.to_nat i) (ed_hist e) []).
  assert (printable_line cmd) as Hcmd by (by apply recalled_line).
  destruct (type_text_run cmd o l1 (set_input b1 0 sh)) as (b & E2 & Lb & Tb); [cbn; lia|cbn; destruct Hcmd; lia|done|].
  rewrite (bind_Ok _ _ _ _ _ E2). cbn [input_len set_input input_buf] in *.
  rewrite Z.add_0_l. rewrite (bind_Ok _ _ _ (Z.of_nat (length cmd)) _) by done.
  rewrite (bind_Ok _ _ _ _ _ (store_run (Z.of_nat (length cmd)) 0 o (l1 ++ map Chr cmd)
    (set_input b (Z.of_nat (length cmd)) (set_input b1 0 sh)) ltac:(cbn; destruct Hcmd; lia))).
  rewrite sflush_run. eexists _, _. split; [reflexivity|]. cbn [input_buf input_len set_input]. rewrite Nat2Z.id.
  split; [|split].
  - apply (holds_line sh e); [done|by rewrite length_insert|done|].
    rewrite take_insert_ge by lia. exact Tb.
  - rewrite !List.Forall_app. split; [split; [done|apply plain_chars]|by repeat constructor].
  - rewrite !text_app, T1. cbn [ed_text ed_line set_line]. rewrite app_nil_r, text_chars by (by apply printable_not8).
    done.
Qed.

Lemma up_session T0 o l sh e : session T0 l sh e →
  ∃ l' sh', handle_history_up (st o l sh) = Ok tt (st o l' sh') ∧ session T0 l' sh' (edit_up e).
Proof.
  intros S. pose proof S as (H & P & T). pose proof H as [_ _ _ _ _ _ _ Hc _ _ [Hp Hr]].
  unfold handle_history_up, edit_up. rewrite (bind_Ok _ _ _ sh (st o l sh)) by done. rewrite Hc, Hp.
  destruct (ed_hist e) as [|x h] eqn:Eh; [by exists l, sh|].
  destruct (Z.leb_spec (Z.of_nat (length (x :: h))) 0); [cbn [length] in *; lia|].
  set (p := if ed_pos e <? 0 then _ else Z.max _ _).
  rewrite (bind_Ok _ _ _ tt (st o l (set_hcursor p sh))).
  2: { unfold p. rewrite sh_mod_run. do 3 f_equal. destruct (Z.ltb_spec (ed_pos e) 0); [done|].
       destruct (Z.ltb_spec 0 (ed_pos e)); lia. }
  assert (-1 <= p < Z.of_nat (length (ed_hist e))) as Hpr.
  { rewrite Eh. unfold p. destruct (Z.ltb_spec (ed_pos e) 0); lia. }
  replace (if ed_pos e <? 0 then Z.of_nat (length (x :: h)) - 1 else if 0 <? ed_pos e then ed_pos e - 1 else ed_pos e)
    with p by (unfold p; destruct (Z.ltb_spec (ed_pos e) 0); [done|]; destruct (Z.ltb_spec 0 (ed_pos e)); lia).
  apply apply_session. split; [by apply holds_pos|done].
Qed.

Lemma down_session T0 o l sh e : session T0 l sh e →
  ∃ l' sh', handle_history_down (st o l sh) = Ok tt (st o l' sh') ∧ session T0 l' sh' (edit_down e).
Proof.
  intros S. pose proof S as (H & P & T). pose proof H as [_ _ _ _ _ _ _ Hc _ _ [Hp Hr]].
  unfold handle_history_down, edit_down. rewrite (bind_Ok _ _ _ sh (st o l sh)) by done. rewrite Hc, Hp.
  destruct (Z.ltb_spec (ed_pos e) 0); [rewrite orb_true_r; by exists l, sh|].
  destruct (Z.leb_spec (Z.of_nat (length (ed_hist e))) 0); [lia|]. cbn [orb].
  destruct (Z.leb_spec (Z.of_nat (length (ed_hist e))) (ed_pos e + 1)), (Z.ltb_spec (ed_pos e + 1) (Z.of_nat (length (ed_hist e))));
    try lia.
  - rewrite (bind_Ok _ _ _ _ _ (sh_mod_run _ _ _ _)).
    destruct (clear_session T0 o l (set_hcursor (-1) sh) (set_pos (-1) e)) as (l1 & b & E & (HH1 & P1 & T1) & _).
    { split; [apply holds_pos; [done|lia]|done]. }
    rewrite (bind_Ok _ _ _ _ _ E), sflush_run. eexists _, _. split; [reflexivity|].
    split; [done|]. split; [apply List.Forall_app; split; [done|by repeat constructor]|]. by rewrite text_app, T1.
  - rewrite (bind_Ok _ _ _ _ _ (sh_mod_run _ _ _ _)). apply apply_session.
    split; [apply holds_pos; [done|lia]|done].
Qed.

Lemma backspace_session T0 o l sh e : session T0 l sh e →
  ∃ l' sh', shell_key hw fuel hello burn others 8 (st o l sh) = Ok tt (st o l' sh') ∧
    session T0 l' sh' (set_line (take (length (ed_line e) - 1) (ed_line e)) e).
Proof.
  intros (H & P & T). pose proof H as [Hb Hl Ht [Hch Hlt] _ _ _ _ _ _ _].
  unfold shell_key. cbn [Z.eqb Pos.eqb orb]. rewrite (bind_Ok _ _ _ (input_len sh) (st o l sh)) by done.
  rewrite Hl. destruct (Z.ltb_spec 0 (Z.of_nat (length (ed_line e)))) as [Hpos|].
  2: { exists l, sh. split; [done|]. destruct e as [[|c line] ? ? ? ?]; [done|cbn in *; lia]. }
  set (n := Z.of_nat (length (ed_line e))) in *.
  rewrite (bind_Ok _ _ _ _ _ (sh_mod_run _ _ _ _)).
  rewrite (bind_Ok _ _ _ _ _ (store_run (n - 1) 0 o l (set_input (input_buf sh) (n - 1) sh) ltac:(cbn; lia))).
  rewrite (bind_Ok _ _ _ _ _ (say_run _ _ _ _)), sflush_run. eexists _, _. split; [reflexivity|].
  cbn [input_buf input_len set_input]. set (line := take (length (ed_line e) - 1) (ed_line e)).
  assert (length line = (length (ed_line e) - 1)%nat) as Ll by (unfold line; rewrite length_take; lia).
  split; [|split].
  - replace (n - 1) with (Z.of_nat (length line)) at 2 by lia.
    apply (holds_line sh e); [done|by rewrite length_insert|split; [by apply Forall_take|lia]|].
    rewrite take_insert_ge by lia. rewrite Ll. unfold line.
    rewrite <-(f_equal (take (length (ed_line e) - 1)) Ht), take_take. f_equal. lia.
  - rewrite !List.Forall_app. split; [split; [done|apply plain_chars]|by repeat constructor].
  - rewrite !text_app, T. cbn [ed_text ed_line set_line].
    destruct (ed_line e) as [|c line' _] eqn:El using rev_ind; [cbn in *; lia|].
    assert (line = line') as -> by (unfold line; rewrite length_app; cbn; rewrite take_app_length'; [done|lia]).
    by rewrite app_assoc, text_rubout.
Qed.

Lemma char_session T0 o l sh e c : session T0 l sh e → 32 <= c <= 126 → (length (ed_line e) < 255)%nat →
  ∃ l' sh', shell_key hw fuel hello burn others c (st o l sh) = Ok tt (st o l' sh') ∧
    session T0 l' sh' (set_line (ed_line e ++ [c]) e).
Proof.
  intros (H & P & T) Hc Hlt. pose proof H as [Hb Hl Ht [Hch _] _ _ _ _ _ _ _].
  unfold shell_key, KB_EVENT_UP, KB_EVENT_DOWN. rewrite i8_byte by lia.
  destruct (Z.eqb_spec c 10), (Z.eqb_spec c 13), (Z.eqb_spec c 8), (Z.eqb_spec c 17), (Z.eqb_spec c 18),
    (Z.ltb_spec c 128), (Z.leb_spec 32 c), (Z.leb_spec c 126); try lia. cbn [orb andb].
  rewrite (bind_Ok _ _ _ (input_len sh) (st o l sh)) by done. rewrite Hl. unfold INPUT_MAX.
  destruct (Z.ltb_spec (Z.of_nat (length (ed_line e))) (256 - 1)); [|lia].
  set (len := Z.of_nat (length (ed_line e))) in *.
  rewrite (bind_Ok _ _ _ _ _ (store_run len c o l sh ltac:(lia))), (bind_Ok _ _ _ _ _ (sh_mod_run _ _ _ _)).
  cbn [input_buf input_len set_input].
  rewrite (bind_Ok _ _ _ _ _ (store_run (len + 1) 0 o l (set_input (<[Z.to_nat len := c]> (input_buf sh)) (len + 1) sh)
    ltac:(cbn; rewrite length_insert; lia))).
  rewrite (bind_Ok _ _ _ _ _ (say_run _ _ _ _)), sflush_run. eexists _, _. split; [reflexivity|].
  cbn [input_buf input_len set_input]. split; [|split].
  - replace (len + 1) with (Z.of_nat (length (ed_line e ++ [c]))) at 2 by (rewrite length_app; cbn; lia).
    apply (holds_line sh e); [done|by rewrite !length_insert| |].
    { split; [apply List.Forall_app; split; [done|by repeat constructor]|rewrite length_app; cbn; lia]. }
    rewrite length_app. cbn [length]. rewrite take_insert_ge by lia. rewrite Nat.add_1_r.
    rewrite (take_S_r _ _ c) by (unfold len; rewrite Nat2Z.id; rewrite list_lookup_insert_eq by lia; done).
    rewrite take_insert_ge by lia. by rewrite Ht.
  - rewrite !List.Forall_app. split; [split; [done|apply plain_chars]|by repeat constructor].
  - rewrite !text_app, T. cbn [ed_text ed_line set_line]. rewrite text_chars by (repeat constructor; lia).
    by rewrite app_assoc.
Qed.
End editing.

(** ** The prompt, and any key *)
Definition prompt_text (t : RtcDateTime) : list Z :=
  chars "[" ++ timestamp t ++ chars "] " ++ chars "sam> ".

Lemma timestamp_chars t : Forall (λ c, 32 <= c <= 126) (timestamp t).
Proof.
  assert (∀ v, 32 <= 48 + v `mod` 10 <= 126) as H by (intros; arith).
  unfold timestamp, four, two. rewrite !List.Forall_app. split_and!; repeat (apply List.Forall_cons; [apply H || lia|]);
    apply List.Forall_nil.
Qed.

Lemma prompt_not8 t : Forall (λ c, c ≠ 8) (prompt_text t).
Proof.
  unfold prompt_text. rewrite !List.Forall_app. split_and!; [by repeat constructor| |by repeat constructor..].
  eapply List.Forall_impl; [|apply timestamp_chars]. cbn. lia.
Qed.

Section keys.
Context {D : Type} (hw : machine D) (fuel : nat) (hello burn : Z * Z) (others : M (os D) unit).
Context (regs : Z → Z) (I : D → Prop) `{!CmosStable hw regs I}.
Context (t : RtcDateTime) (Ht : valid_time t) (Hr : cmos_holds regs t) (Hf : (0 < fuel)%nat).

Lemma prompt_run o l sh : I (idev (o_irq o)) →
  ∃ d, I d ∧ print_prompt hw fuel (st o l sh) = Ok tt (st (lset dev_of d o) (l ++ map Chr (prompt_text t)) sh).
Proof.
  intros HI.
  assert (wp (rtc_read_datetime hw fuel) (λ r d, r = t ∧ I d) (idev (o_irq o))) as W
    by (by apply (rtc_read_datetime_wp hw regs I t)).
  apply wp_Ok in W as (r & d & E & -> & Hd). exists d. split; [done|]. unfold print_prompt.
  rewrite (bind_Ok _ _ _ (timestamp t) (st (lset dev_of d o) l sh)).
  2: { unfold rtc_text. rewrite (bind_Ok _ _ _ t (st (lset dev_of d o) l sh)).
       2: { unfold on_os, on_port, zoom. cbn [lget os_lens st s_os dev_of out_add o_irq]. by rewrite E. }
       destruct (rtc_format_run t (replicate 24 0) 24) as (w & -> & _ & Hw); [cbn; lia..|].
       rewrite Hw by (cbn; lia). rewrite cstr_wrote; [done|].
       eapply List.Forall_impl; [|apply timestamp_chars]. cbn. lia. }
  rewrite !(bind_Ok _ _ _ _ _ (say_run _ _ _ _)), say_run. unfold prompt_text. rewrite !map_app, !app_assoc. done.
Qed.

(** Redisplay of the buffer. *)
Lemma echo_run (o : os D) l sh n i : (Z.to_nat i + n <= length (input_buf sh))%nat → 0 <= i →
  forZ n i (λ i, b ← sh_get input_buf; say [nth (Z.to_nat i) b 0]) (st o l sh) =
    Ok tt (st o (l ++ map Chr (take n (drop (Z.to_nat i) (input_buf sh)))) sh).
Proof.
  revert i l. induction n as [|n IH]; intros i l Hn Hi; cbn [forZ].
  { by rewrite app_nil_r. }
  assert (Z.to_nat i < length (input_buf sh))%nat as Hl by lia.
  rewrite (bind_Ok _ _ _ tt (st o (l ++ map Chr [nth (Z.to_nat i) (input_buf sh) 0]) sh)).
  2: { rewrite (bind_Ok _ _ _ (input_buf sh) (st o l sh)) by done. apply say_run. }
  rewrite IH by lia. replace (Z.to_nat (i + 1)) with (S (Z.to_nat i)) by lia.
  destruct (lookup_lt_is_Some_2 (input_buf sh) (Z.to_nat i) Hl) as [x Hx].
  rewrite (drop_S _ x (Z.to_nat i)) by done. cbn [take map]. rewrite (nth_lookup_Some _ _ _ _ Hx), <-app_assoc. done.
Qed.

Lemma full_session T0 o l sh e c : I (idev (o_irq o)) → session T0 l sh e → 32 <= c <= 126 →
  (255 <= length (ed_line e))%nat →
  ∃ d l' sh', I d ∧ shell_key hw fuel hello burn others c (st o l sh) = Ok tt (st (lset dev_of d o) l' sh') ∧
    session T0 l' sh' (edit (prompt_text t) e c).
Proof.
  intros HI S Hc Hge. pose proof S as (H & P & T). pose proof H as [Hb Hl Hln [Hch Hle] Hfl H6 H7 H8 H9 H10 H11].
  unfold shell_key, edit, KB_EVENT_UP, KB_EVENT_DOWN. rewrite i8_byte by lia.
  destruct (Z.eqb_spec c 10), (Z.eqb_spec c 13), (Z.eqb_spec c 8), (Z.eqb_spec c 17), (Z.eqb_spec c 18),
    (Z.ltb_spec c 128), (Z.leb_spec 32 c), (Z.leb_spec c 126); try lia. cbn [orb andb].
  rewrite (bind_Ok _ _ _ (input_len sh) (st o l sh)) by done. rewrite Hl. unfold INPUT_MAX.
  destruct (Z.ltb_spec (Z.of_nat (length (ed_line e))) (256 - 1)); [lia|].
  destruct (Nat.ltb_spec (length (ed_line e)) 255); [lia|].
  rewrite (bind_Ok _ _ _ (ed_full e) (st o l sh)) by (unfold sh_get, gets; cbn; by rewrite Hfl).
  assert (lset dev_of (idev (o_irq o)) o = o) as Hid by (by destruct o as [? []]).
  destruct (ed_full e) eqn:Ef; cbn [negb].
  { exists (idev (o_irq o)), l, sh. by rewrite Hid. }
  rewrite (bind_Ok _ _ _ _ _ (sh_mod_run _ _ _ _)), (bind_Ok _ _ _ _ _ (say_run _ _ _ _)).
  destruct (prompt_run o (l ++ map Chr (newline ++ chars "[input buffer full]" ++ newline)) (set_overflow true sh) HI)
    as (d & Hd & E). rewrite (bind_Ok _ _ _ _ _ E). unfold for_range. rewrite Z.sub_0_r, Nat2Z.id.
  rewrite (bind_Ok _ _ _ _ _ (echo_run _ _ (set_overflow true sh) (length (ed_line e)) 0 ltac:(cbn; lia) ltac:(lia))).
  rewrite sflush_run. eexists d, _, _. split; [done|]. split; [reflexivity|]. split; [|split].
  - split; done.
  - rewrite !List.Forall_app. split_and!; [done|apply plain_chars..|by repeat constructor].
  - change (drop (Z.to_nat 0) (input_buf (set_overflow true sh))) with (input_buf sh). rewrite Hln.
    assert (Forall (λ c, c ≠ 8) (ed_line e)) as H8l by (by apply printable_not8).
    rewrite !text_app, T, !text_chars; [cbn [ed_text ed_line]; by rewrite <-!app_assoc|..].
    all: first [done|apply prompt_not8|by repeat constructor].
Qed.

(** Any key but Enter. *)
Lemma key_session T0 o l sh e c : I (idev (o_irq o)) → session T0 l sh e → 0 < c < 256 → c ≠ 10 → c ≠ 13 →
  ∃ d l' sh', I d ∧ shell_key hw fuel hello burn others c (st o l sh) = Ok tt (st (lset dev_of d o) l' sh') ∧
    session T0 l' sh' (edit (prompt_text t) e c).
Proof.
  intros HI S Hc H10 H13.
  assert (∀ m e', (∃ l' sh', m = Ok tt (st o l' sh') ∧ session T0 l' sh' e') →
    ∃ d l' sh', I d ∧ m = Ok tt (st (lset dev_of d o) l' sh') ∧ session T0 l' sh' e') as Hlift.
  { intros m e' (l' & sh' & E & S'). exists (idev (o_irq o)), l', sh'. split; [done|]. split; [|done].
    rewrite E. by destruct o as [? []]. }
  destruct (decide (32 <= c <= 126 ∧ (255 <= length (ed_line e))%nat)) as [[]|Hn]; [by apply full_session|].
  apply Hlift. unfold edit, KB_EVENT_UP, KB_EVENT_DOWN. destruct (Z.eqb_spec c 8) as [->|H8].
  { by apply backspace_session. }
  destruct (Z.eqb_spec c 17) as [->|H17]; [by apply up_session|].
  destruct (Z.eqb_spec c 18) as [->|H18]; [by apply down_session|].
  destruct (Z.leb_spec 32 c), (Z.leb_spec c 126); cbn [andb].
  - destruct (Nat.ltb_spec (length (ed_line e)) 255); [by apply char_session|lia].
  - exists l, sh. split; [|done]. unfold shell_key, KB_EVENT_UP, KB_EVENT_DOWN. rewrite i8_byte by lia.
    repeat zb_case; try lia; done.
  - exists l, sh. split; [|done]. unfold shell_key, KB_EVENT_UP, KB_EVENT_DOWN. rewrite i8_byte by lia.
    repeat zb_case; try lia; done.
  - lia.
Qed.

Fixpoint type_keys (keys : list Z) : M (sys D) unit :=
  match keys with
  | [] => mret tt
  | c :: keys' => shell_key hw fuel hello burn others c ;; type_keys keys'
  end.

Definition edit_key (c : Z) : Prop := 0 < c < 256 ∧ c ≠ 10 ∧ c ≠ 13.

Lemma keys_session keys T0 o l sh e : I (idev (o_irq o)) → session T0 l sh e → Forall edit_key keys →
  ∃ d l' sh', I d ∧ type_keys keys (st o l sh) = Ok tt (st (lset dev_of d o) l' sh') ∧
    session T0 l' sh' (fold_left (edit (prompt_text t)) keys e).
Proof.
  intros HI S Hk. revert o l sh e HI S. induction Hk as [|c keys [Hc [H10 H13]] Hk IH]; intros o l sh e HI S.
  - exists (idev (o_irq o)), l, sh. split; [done|]. split; [|done]. by destruct o as [? []].
  - cbn [type_keys fold_left].
    destruct (key_session T0 o l sh e c HI S Hc H10 H13) as (d & l1 & sh1 & Hd & E & S1).
    rewrite (bind_Ok _ _ _ _ _ E). destruct (IH (lset dev_of d o) l1 sh1 _ Hd S1) as (d' & l' & sh' & Hd' & E' & S').
    exists d', l', sh'. split; [done|]. split; [|done]. rewrite E'. by destruct o as [? []].
Qed.

(** C21. The line editor.  From a state whose variables hold an editor, any
    sequence of keys other than Enter is handled without leaving the arrays,
    and leaves the state of the editor a user expects: characters are added up
    to 255, backspace removes the last one, the arrow keys recall the last
    sixteen commands.  What is on the screen is the text before the line and
    then exactly the line; nothing else of the system changes but the clock
    device. *)
Theorem line_editor keys s e :
  holds (s_sh s) e → I (idev (o_irq (s_os s))) → Forall edit_key keys →
  let e' := fold_left (edit (prompt_text t)) keys e in
  ∃ d l sh', type_keys keys s = Ok tt (Sys (out_add l (lset dev_of d (s_os s))) sh') ∧
    holds sh' e' ∧ Forall plain l ∧ text (ed_text e ++ ed_line e) l = ed_text e' ++ ed_line e' ∧ I d.
Proof.
  intros H HI Hk. assert (s = st (s_os s) [] (s_sh s)) as Es.
  { destruct s as [[[] ? ? ? ? ? ?] ?]. unfold st, out_add. cbn. by rewrite app_nil_r. }
  destruct (keys_session keys (ed_text e ++ ed_line e) (s_os s) [] (s_sh s) e HI) as (d & l & sh' & Hd & E & H' & P & T);
    [split; [done|split; [constructor|done]]|done|].
  exists d, l, sh'. rewrite Es at 1. split; [exact E|]. done.
Qed.
End keys.

(** ** Entering a command *)

(** The command history as a list: a command is added unless it is empty or
    repeats the last one. *)
Definition push_cmd (h : list (list Z)) (cmd : list Z) : list (list Z) :=
  if bool_decide (cmd = []) || bool_decide (last h = Some cmd) then h else h ++ [cmd].

Lemma printable_bytes l : printable_line l → Forall (λ c, 0 < c < 256) l.
Proof. intros [H _]. eapply List.Forall_impl; [|exact H]. cbn. lia. Qed.

Lemma printable_nonzero l : printable_line l → Forall (λ c, c ≠ 0) l.
Proof. intros [H _]. eapply List.Forall_impl; [|exact H]. cbn. lia. Qed.

(** A command is stored as a terminated string in its row. *)
Lemma row_written row cmd : length row = 256%nat → printable_line cmd →
  ∃ row', (s ← emit_while (INPUT_MAX - 1) cmd (row, 0); fst <$> emit 0 s) = Some row' ∧
    length row' = 256%nat ∧ cstr row' = cmd.
Proof.
  intros Hr Hc. pose proof Hc as [_ Hl]. change (row, 0) with (wrote row []). change (INPUT_MAX - 1) with (Z.of_nat 255).
  rewrite emit_while_wrote by (cbn [length]; lia). cbn [length app mbind option_bind].
  rewrite (take_ge cmd) by lia. rewrite emit_wrote by lia. eexists. split; [reflexivity|].
  cbn [fst wrote]. rewrite <-app_assoc. split; [|by apply cstr_wrote, printable_nonzero].
  rewrite !length_app, length_drop. cbn [length]. lia.
Qed.

Lemma last_nth {A} (l : list A) d x : last l = Some x → nth (length l - 1) l d = x ∧ l ≠ [].
Proof.
  intros H. destruct l as [|y l _] using rev_ind; [done|]. rewrite last_snoc in H. injection H as ->.
  rewrite length_app. cbn. rewrite Nat.add_sub, nth_middle. split; [done|]. by destruct l.
Qed.

Definition set_hist (h : list (list Z)) (e : editor) : editor :=
  Editor (ed_line e) h (ed_pos e) (ed_full e) (ed_text e).

Section enter.
Context {D : Type} (hw : machine D) (fuel : nat) (hello burn : Z * Z) (others : M (os D) unit).

(** The comparison with the newest entry. *)
Lemma same_as_last sh e cmd : holds sh e → printable_line cmd →
  (if 0 <? history_count sh
   then kstrcmp (cstr (nth (Z.to_nat ((history_count sh - 1) `mod` HISTORY_MAX)) (history sh) [])) cmd =? 0
   else false) = bool_decide (last (ed_hist e) = Some cmd).
Proof.
  intros [_ _ _ _ _ _ _ Hc Hh Hp _] Hcmd. rewrite Hc. unfold HISTORY_MAX.
  destruct (last (ed_hist e)) as [x|] eqn:El.
  - destruct (last_nth _ [] _ El) as [Hx Hne].
    destruct (Z.ltb_spec 0 (Z.of_nat (length (ed_hist e)))) as [Hpos|].
    2: { destruct (ed_hist e); [done|cbn in *; lia]. }
    rewrite Hh by lia. replace (Z.to_nat (Z.of_nat (length (ed_hist e)) - 1)) with (length (ed_hist e) - 1)%nat by lia.
    rewrite Hx. rewrite kstrcmp_eq by (first [by apply printable_bytes|rewrite <-Hx; apply printable_bytes, recalled_line; done]).
    apply bool_decide_ext. split; [by intros ->|by intros [= ->]].
  - apply last_None in El. rewrite El. done.
Qed.

Lemma push_session o l sh e cmd : holds sh e → printable_line cmd →
  ∃ sh', history_push cmd (st (D := D) o l sh) = Ok tt (st o l sh') ∧
    holds sh' (set_hist (push_cmd (ed_hist e) cmd) e) ∧
    input_buf sh' = input_buf sh ∧ watch_irq sh' = watch_irq sh ∧ watch_sched sh' = watch_sched sh.
Proof.
  intros H Hcmd. pose proof H as [H1 H2 H3 H4 H5 H6 H7 Hc Hh Hp [Hpos Hr]]. unfold push_cmd.
  destruct cmd as [|x cmd'] eqn:Ecmd; [exists sh; destruct e; done|]. rewrite <-Ecmd in *.
  assert (∀ {A} (a b : A), match cmd with [] => a | _ :: _ => b end = b) as Hm by (intros; by rewrite Ecmd).
  rewrite (bool_decide_false (cmd = [])) by (by rewrite Ecmd). cbn [orb].
  unfold history_push. rewrite Hm. rewrite (bind_Ok _ _ _ sh (st o l sh)) by done. cbv zeta.
  rewrite (same_as_last sh e cmd H Hcmd).
  destruct (bool_decide (last (ed_hist e) = Some cmd)); [exists sh; destruct e; done|].
  rewrite Hc. unfold HISTORY_MAX. set (n := Z.of_nat (length (ed_hist e))) in *.
  assert (0 <= n `mod` 16 < 16) as Hm16 by (apply Z.mod_pos_bound; lia).
  destruct (lookup_lt_is_Some_2 (history sh) (Z.to_nat (n `mod` 16))) as [row Erow]; [lia|].
  rewrite Erow. cbn [mbind option_bind].
  assert (length row = 256%nat) as Lrow
    by (rewrite List.Forall_forall in H7; apply H7, list_elem_of_In, list_elem_of_lookup_2 with (1 := Erow)).
  destruct (row_written row cmd Lrow Hcmd) as (row' & -> & Lr' & Cr').
  rewrite sh_mod_run. eexists. split; [reflexivity|]. split; [|done].
  split; cbn [set_hist set_history ed_line ed_hist ed_pos ed_full input_buf input_len input_overflow history
              history_count history_cursor]; try done.
  - by rewrite length_insert.
  - by apply Forall_insert.
  - rewrite length_app. cbn. lia.
  - rewrite length_app. cbn [length]. intros i Hi. rewrite nth_lookup.
    destruct (decide (i = n)) as [->|Hne].
    + rewrite list_lookup_insert_eq by lia. cbn. rewrite Cr'. unfold n. rewrite Nat2Z.id, nth_middle. done.
    + rewrite list_lookup_insert_ne by (clear -Hi Hne; unfold n in *; arith). rewrite <-nth_lookup.
      rewrite Hh by lia. rewrite app_nth1 by lia. done.
  - apply List.Forall_app. split; [done|]. apply List.Forall_cons; [done|apply List.Forall_nil].
  - rewrite length_app. cbn. split; [done|lia].
Qed.

(** Enter runs exactly the line on the screen.  With the variables holding
    an editor, [process_command] first puts the line in the history, unless it
    is empty or repeats the newest entry, forgets the position in the history,
    and then behaves as the command [ed_line e] followed by reaping, the
    watches, an empty line and a new prompt. *)
Theorem enter_runs_line s e : holds (s_sh s) e →
  ∃ sh', holds sh' (set_pos (-1) (set_hist (push_cmd (ed_hist e) (ed_line e)) e)) ∧
    process_command hw fuel hello burn others s =
      (run_command hw fuel hello burn others (ed_line e) ;;
       on_k process_reap_deferred ;;
       run_watch_if_enabled ;;
       sh_mod (λ sh, set_overflow false (set_input (input_buf sh) 0 sh)) ;;
       print_prompt hw fuel ;;
       sflush) (Sys (s_os s) sh').
Proof.
  intros H. pose proof H as [Hb Hl Hln Hch _ _ _ _ _ _ _]. pose proof Hch as [_ Hle].
  assert (s = st (s_os s) [] (s_sh s)) as Es.
  { destruct s as [[[] ? ? ? ? ? ?] ?]. unfold st, out_add. cbn. by rewrite app_nil_r. }
  set (n := Z.of_nat (length (ed_line e))) in *. set (b := <[Z.to_nat n := 0]> (input_buf (s_sh s))).
  set (sh1 := set_input b (input_len (s_sh s)) (s_sh s)).
  assert (cstr b = ed_line e) as Cb.
  { unfold b. rewrite <-(take_drop (length (ed_line e)) (input_buf (s_sh s))). rewrite Hln. unfold n. rewrite Nat2Z.id.
    rewrite <-(Nat.add_0_r (length (ed_line e))) at 1. rewrite insert_app_r.
    destruct (drop (length (ed_line e)) (input_buf (s_sh s))) as [|x r] eqn:Ed.
    { apply (f_equal length) in Ed. rewrite length_drop in Ed. cbn in Ed. lia. }
    by apply cstr_wrote, printable_nonzero. }
  assert (holds sh1 e) as H1.
  { unfold sh1. rewrite Hl. destruct e as [line h p f tx]. cbn in *.
    apply (holds_line (s_sh s) (Editor line h p f tx)); [done|unfold b; by rewrite length_insert|done|].
    unfold b. rewrite take_insert_ge by lia. done. }
  assert (∃ sh2, (if 0 <? n then history_push (ed_line e) else mret tt) (st (s_os s) [] sh1) = Ok tt (st (s_os s) [] sh2) ∧
    holds sh2 (set_hist (push_cmd (ed_hist e) (ed_line e)) e)) as (sh2 & E2 & H2).
  { destruct (push_session (s_os s) [] sh1 e (ed_line e) H1 Hch) as (sh2 & E2 & H2 & _).
    destruct (Z.ltb_spec 0 n); [by exists sh2|]. exists sh1. split; [done|].
    destruct e as [[|c line] h p f tx]; [done|cbn in *; lia]. }
  exists (set_hcursor (-1) sh2). split; [apply holds_pos; [done|cbn; lia]|].
  assert (∀ sh, Sys (s_os s) sh = st (s_os s) [] sh) as Est.
  { intros sh. apply (f_equal s_os) in Es. cbn in Es. unfold st. by rewrite <-Es. }
  unfold process_command. rewrite Es at 1. rewrite (bind_Ok _ _ _ n (st (s_os s) [] (s_sh s))) by (unfold sh_get, gets; cbn; by rewrite Hl).
  rewrite (bind_Ok _ _ _ tt (st (s_os s) [] sh1)) by (rewrite store_run by lia; done).
  rewrite (bind_Ok _ _ _ (ed_line e) (st (s_os s) [] sh1)) by (unfold sh_get, gets; cbn; by rewrite Cb).
  rewrite (bind_Ok _ _ _ _ _ E2), (bind_Ok _ _ _ _ _ (sh_mod_run _ _ _ _)). by rewrite Est.
Qed.
End enter.

(** ** Numbers on the command line *)
Definition numeral (l : list Z) : Prop := l ≠ [] ∧ Forall (λ c, is_digit c = true) l.

(** The value of a numeral, most significant digit first. *)
Definition num (l : list Z) : Z := dec_value (rev l).

Lemma dec_value_app l c : dec_value (l ++ [c]) = dec_value l + 10 ^ Z.of_nat (length l) * (c - 48).
Proof.
  induction l as [|x l IH]; [cbn; lia|]. cbn [app dec_value length]. rewrite IH, Nat2Z.inj_succ, Z.pow_succ_r by lia. lia.
Qed.

Lemma num_cons c l : num (c :: l) = (c - 48) * 10 ^ Z.of_nat (length l) + num l.
Proof. unfold num. cbn [rev]. rewrite dec_value_app, length_rev. lia. Qed.

(** The loop computes modulo 2^64, starting from [v]. *)
Lemma digits_loop_spec l rest v any : Forall (λ c, is_digit c = true) l →
  match rest with c :: _ => is_digit c = false | [] => True end →
  digits_loop (l ++ rest) (u64 v) any =
    (u64 (v * 10 ^ Z.of_nat (length l) + num l), any || negb (length l =? 0)%nat).
Proof.
  intros Hl Hr. revert v any. induction Hl as [|c l Hc Hl IH]; intros v any; cbn [app digits_loop].
  - replace (v * 10 ^ Z.of_nat (length []) + num []) with v by (unfold num; cbn; lia).
    cbn [length Nat.eqb negb]. rewrite orb_false_r. destruct rest as [|c rest]; cbn [digits_loop]; [done|]. by rewrite Hr.
  - rewrite Hc. replace (u64 (u64 (u64 v * 10) + u64 (c - 48))) with (u64 (v * 10 + (c - 48))).
    2: { unfold u64. rewrite <-Z.add_mod by lia. rewrite <-(Z.add_mod_idemp_l (v `mod` _ * 10)) by lia.
         rewrite Z.mul_mod_idemp_l by lia. by rewrite Z.add_mod_idemp_l by lia. }
    rewrite IH. rewrite num_cons. cbn [length Nat.eqb negb]. rewrite orb_true_r, Nat2Z.inj_succ, Z.pow_succ_r by lia.
    do 2 f_equal. lia.
Qed.

Lemma digit_not_space c : is_digit c = true → (c =? 32) = false.
Proof. unfold is_digit. intros. zb_case; lia. Qed.

Lemma skip_spaces_numeral n l rest : numeral l → skip_spaces (replicate n 32 ++ l ++ rest) = l ++ rest.
Proof.
  intros [Hne Hl]. induction n as [|n IH]; [|exact IH]. cbn [replicate app].
  destruct l as [|c l]; [done|]. cbn [app skip_spaces]. inversion Hl; subst. by rewrite digit_not_space.
Qed.

(** Any number of spaces, a numeral, and something that is not a digit. *)
Lemma parse_u64_numeral n l rest : numeral l → match rest with c :: _ => is_digit c = false | [] => True end →
  parse_u64 (replicate n 32 ++ l ++ rest) = Some (u64 (num l)).
Proof.
  intros Hl Hr. unfold parse_u64. rewrite skip_spaces_numeral by done. pose proof Hl as [Hne Hd].
  pose proof (digits_loop_spec l rest 0 false Hd Hr) as E. change (u64 0) with 0 in E.
  destruct l as [|c l]; [done|]. cbn [app] in *. rewrite E. done.
Qed.

Lemma skip_word_numeral l rest : numeral l → skip_word (l ++ 32 :: rest) = 32 :: rest.
Proof.
  intros [_ Hl]. induction Hl as [|c l Hc Hl IH]; [done|]. cbn. by rewrite digit_not_space.
Qed.

Lemma skip_word_end l : numeral l → skip_word l = [].
Proof. intros [_ Hl]. induction Hl as [|c l Hc Hl IH]; [done|]. cbn. by rewrite digit_not_space. Qed.

(** What [print_dec] shows is a numeral of the value. *)
Lemma dec_text_numeral v : 0 <= v < 2 ^ 64 → numeral (dec_text v) ∧ num (dec_text v) = v.
Proof.
  intros Hv. unfold dec_text. destruct (Z.eqb_spec v 0) as [->|].
  { split; [split; [done|by repeat constructor]|done]. }
  destruct (dec_buf_spec 20 v) as (l & E & Ev & Hd & Hl & Hlast); [lia|].
  pose proof (dec_buf_more 20 12 v _ E) as E'. cbn [Nat.add] in E'. rewrite E'. cbn [default from_option id].
  unfold num. rewrite rev_involutive. split; [split|done].
  - destruct Hlast as (l' & c & -> & _); [lia|]. rewrite rev_app_distr. done.
  - apply List.Forall_rev. eapply List.Forall_impl; [|exact Hd]. unfold is_digit. cbn. intros c Hc.
    destruct (Z.leb_spec 48 c), (Z.leb_spec c 57); try lia; done.
Qed.

Lemma i32_id z : - 2 ^ 31 <= z < 2 ^ 31 → i32 z = z.
Proof. intros. unfold i32. rewrite Z.mod_small; lia. Qed.

(** A kill command is read as it is meant: for every pid and exit code
    below 2^31, written in decimal as [print_dec] would show them, the line
    [kill <pid> <code>] calls [process_kill] with exactly these numbers and
    reports its result; without a code the exit code is 137. *)
Theorem kill_command {D} (hw : machine D) fuel hello burn others pid code :
  0 <= pid < 2 ^ 31 → 0 <= code < 2 ^ 31 →
  let reports c := r ← on_k (process_kill pid c);
    match r with
    | Gone _ => panic "the shell has exited"
    | Killed rc =>
        if rc <? 0 then say (chars "kill: no such pid" ++ newline)
        else if 0 <? rc then say (chars "kill: already exited" ++ newline)
        else say (chars "kill: sent to pid ") ;; say (dec_text pid) ;; say newline
    end in
  run_command hw fuel hello burn others (chars "kill " ++ dec_text pid ++ [32] ++ dec_text code) = reports code ∧
  run_command hw fuel hello burn others (chars "kill " ++ dec_text pid) = reports 137.
Proof.
  intros Hp Hc reports.
  destruct (dec_text_numeral pid ltac:(lia)) as [Np Vp], (dec_text_numeral code ltac:(lia)) as [Nc Vc].
  assert (∀ rest, run_command hw fuel hello burn others (chars "kill " ++ rest) = cmd_kill (chars "kill " ++ rest)) as Hrun
    by done.
  assert (∀ rest, drop 4 (chars "kill " ++ rest) = replicate 1 32 ++ rest) as Hdrop by done.
  assert (parse_u64 (dec_text pid ++ [32] ++ dec_text code) = Some pid) as P1.
  { rewrite <-Vp at 2. rewrite <-(u64_small (num (dec_text pid))) by lia. by apply (parse_u64_numeral 0). }
  assert (parse_u64 (dec_text pid) = Some pid) as P2.
  { rewrite <-Vp at 2. rewrite <-(u64_small (num (dec_text pid))) by lia. rewrite <-(app_nil_r (dec_text pid)) at 1.
    by apply (parse_u64_numeral 0). }
  assert (parse_u64 (32 :: dec_text code) = Some code) as P3.
  { rewrite <-Vc at 2. rewrite <-(u64_small (num (dec_text code))) by lia. rewrite <-(app_nil_r (dec_text code)) at 1.
    by apply (parse_u64_numeral 1). }
  assert (skip_spaces (replicate 1 32 ++ dec_text pid) = dec_text pid) as S2.
  { rewrite <-(app_nil_r (dec_text pid)) at 1. rewrite skip_spaces_numeral by done. apply app_nil_r. }
  rewrite !Hrun. unfold cmd_kill. rewrite !Hdrop, (skip_spaces_numeral 1), P1, S2, P2 by done.
  unfold say_dec. change ([32] ++ dec_text code) with (32 :: dec_text code).
  rewrite (skip_word_numeral _ _ Np), (skip_word_end _ Np), P3. cbn [default from_option id].
  rewrite u64_small, !i32_id by lia. done.
Qed.

(** ** Examples: "hi", backspace, arrow up over a history of one command *)
Definition ex_shell : shell :=
  Shell (replicate 256 0) 0 false ((chars "ps" ++ replicate 254 0) :: replicate 15 (replicate 256 0)) 1 (-1) false false.

Definition ex_editor : editor := Editor [] [chars "ps"] (-1) false (chars "sam> ").

Definition ex_sys : sys Z :=
  Sys (Os ex_kernel (Irqc 0 (Addrs 0 0 0) IRQ_BACKEND_PIC [] (Stats 0 0 0 0 0 0) []) (Klog tt false [] 0 0 [] [])
    (Acpi ∅ 0 0 madt_zero 0 0 0 0 0 0 false []) (Timer 0 false 0)
    (Kbd (replicate 64 0) 0 0 0 0 0 0) true) ex_shell.

Lemma ex_holds : holds ex_shell ex_editor.
Proof.
  split; try done.
  - split; [constructor|cbn; lia].
  - apply List.Forall_cons; [done|]. by apply Forall_replicate.
  - intros i Hi. cbn in Hi. assert (i = 0) as -> by lia. by vm_compute.
  - repeat constructor; cbn; lia.
Qed.

Lemma line_editor_witness : ∃ d l sh',
  type_keys ex_cmos 1 (0, 0) (0, 0) (mret tt) [104; 105; 8; KB_EVENT_UP; 33] ex_sys =
    Ok tt (Sys (out_add l (lset dev_of d (s_os ex_sys))) sh') ∧
  text (chars "sam> ") l = chars "sam> ps!".
Proof.
  destruct (line_editor ex_cmos 1 (0, 0) (0, 0) (mret tt) ex_regs (λ _, True) (CmosStable0 := ex_cmos_stable) ex_time)
    with (keys := [104; 105; 8; KB_EVENT_UP; 33]) (s := ex_sys) (e := ex_editor)
    as (d & l & sh' & E & _ & _ & T & _);
    [vm_compute; intuition congruence|vm_compute; intuition congruence|lia|exact ex_holds|done| |].
  { repeat (apply List.Forall_cons; [by split_and!; vm_compute|]). apply List.Forall_nil. }
  exists d, l, sh'. split; [exact E|]. cbn [ed_text ed_line ex_editor] in T. rewrite app_nil_r in T. rewrite T. by vm_compute.
Defined.

Lemma enter_runs_line_witness : ∃ sh',
  holds sh' (set_pos (-1) (set_hist (push_cmd [chars "ps"] []) ex_editor)).
Proof.
  destruct (enter_runs_line ex_cmos 1 (0, 0) (0, 0) (mret tt) ex_sys ex_editor ex_holds) as (sh' & H & _).
  by exists sh'.
Defined.

Lemma kill_command_witness :
  run_command ex_cmos 1 (0, 0) (0, 0) (mret tt) (chars "kill 7 9") ex_sys =
    Ok tt (Sys (out_add (map Chr (chars "kill: no such pid" ++ newline)) (s_os ex_sys)) ex_shell).
Proof.
  destruct (kill_command ex_cmos 1 (0, 0) (0, 0) (mret tt) 7 9) as [E _]; [lia|lia|].
  change (chars "kill 7 9") with (chars "kill " ++ dec_text 7 ++ [32] ++ dec_text 9). rewrite E.
  vm_compute. reflexivity.
Defined.
