(* ===== verification/Boot.v ===== *)
(** * The boot loader (boot/bootloader.c)

    A UEFI program: it loads the kernel's ELF segments, builds the first page
    tables, collects the boot information and jumps to the kernel.  The
    firmware is outside the program: its services are the record [firmware],
    over a state of the firmware's own beside the machine's memory.  A loop
    [while(1);] after an error is a [Panic] outcome with the message shown.
    The first 292 lines of the file are a commented-out older version. *)
From stdpp Require Import base gmap list list_numbers strings.
From Stdlib Require Import ZArith Lia.
From S2P Require Import Prelude Monad Mem Pmm Vmm Paging.

(** ** Structures *)
Definition EHDR_SIZE : Z := 64.
Definition PHDR_SIZE : Z := 56.
Definition BOOTINFO_SIZE : Z := 56.
Definition BOOT_PT_LOAD : Z := 1.

Definition eh_ident (m : memory) (e i : Z) : Z := rd8 m (e + i).
Definition eh_type (m : memory) (e : Z) : Z := rd16 m (e + 16).
Definition eh_machine (m : memory) (e : Z) : Z := rd16 m (e + 18).
Definition eh_entry (m : memory) (e : Z) : Z := rd64 m (e + 24).
Definition eh_phoff (m : memory) (e : Z) : Z := rd64 m (e + 32).
Definition eh_phnum (m : memory) (e : Z) : Z := rd16 m (e + 56).
Definition ph_type (m : memory) (p : Z) : Z := rd32 m p.
Definition ph_offset (m : memory) (p : Z) : Z := rd64 m (p + 8).
Definition ph_paddr (m : memory) (p : Z) : Z := rd64 m (p + 24).
Definition ph_filesz (m : memory) (p : Z) : Z := rd64 m (p + 32).
Definition ph_memsz (m : memory) (p : Z) : Z := rd64 m (p + 40).

Record boot (F : Type) := Boot { bmem : memory; bfw : F }.
Arguments Boot {F}.
Arguments bmem {F}.
Arguments bfw {F}.

(** The graphics mode the firmware reports. *)
Record gop_mode := Gop { FrameBufferBase : Z; HorizontalResolution : Z; VerticalResolution : Z; PixelsPerScanLine : Z }.

(** The services used.  A Boolean is [!EFI_ERROR(status)]. *)
Record firmware (F : Type) := Firmware {
  (** [AllocatePages(AllocateAddress, EfiLoaderData, pages, &address)] *)
  alloc_address : Z → Z → M (boot F) bool;
  (** [AllocatePool(EfiLoaderData, size, &p)]: the address *)
  alloc_pool : Z → M (boot F) Z;
  (** [HandleProtocol], [OpenVolume] and [Open] of kernel.elf *)
  loaded_image : M (boot F) bool;
  filesystem : M (boot F) bool;
  open_volume : M (boot F) bool;
  open_file : string → M (boot F) bool;
  (** [SetPosition(position)], [Read(&size, buffer)], [Close] *)
  set_position : Z → M (boot F) unit;
  read_file : Z → Z → M (boot F) unit;
  close_files : M (boot F) unit;
  (** [LocateProtocol] of the graphics output *)
  locate_gop : M (boot F) gop_mode;
  (** [GetMemoryMap] into a buffer of the given size, 0 for none: success,
      size of the map, key, descriptor size *)
  get_memory_map : Z → Z → M (boot F) (bool * Z * Z * Z);
  exit_boot_services : Z → M (boot F) bool
}.
Arguments alloc_address {F}.
Arguments alloc_pool {F}.
Arguments loaded_image {F}.
Arguments filesystem {F}.
Arguments open_volume {F}.
Arguments open_file {F}.
Arguments set_position {F}.
Arguments read_file {F}.
Arguments close_files {F}.
Arguments locate_gop {F}.
Arguments get_memory_map {F}.
Arguments exit_boot_services {F}.

(** ** The ACPI table pointer *)

(** [EFI_GUID] at an address: Data1, Data2, Data3 and eight bytes. *)
Fixpoint data4_equal (m : memory) (a b : Z) (n : nat) : bool :=
  match n with
  | O => true
  | S n' => if rd8 m a =? rd8 m b then data4_equal m (a + 1) (b + 1) n' else false
  end.

Definition guid_equal (m : memory) (a b : Z) : bool :=
  if negb (rd32 m a =? rd32 m b) || negb (rd16 m (a + 4) =? rd16 m (b + 4)) || negb (rd16 m (a + 6) =? rd16 m (b + 6))
  then false else data4_equal m (a + 8) (b + 8) 8.

(** The loop over [ConfigurationTable], entries of 24 bytes; [acpi20] and
    [acpi10] are the addresses of the two GUIDs. *)
Fixpoint rsdp_loop (n : nat) (m : memory) (table acpi20 acpi10 fallback : Z) : Z :=
  match n with
  | O => fallback
  | S n' =>
      if guid_equal m table acpi20 then rd64 m (table + 16)
      else rsdp_loop n' m (table + 24) acpi20 acpi10
             (if guid_equal m table acpi10 then rd64 m (table + 16) else fallback)
  end.

Definition write_guid (m : memory) (a d1 d2 d3 : Z) (d4 : list Z) : memory :=
  let m := wr16 (wr16 (wr32 m a d1) (a + 4) d2) (a + 6) d3 in
  foldl (λ m p, wr8 m (a + 8 + fst p) (snd p)) m (zip (seqZ 0 8) d4).

Definition ACPI20_GUID : Z * Z * Z * list Z :=
  (0x8868e871, 0xe4f1, 0x11d3, [0xbc; 0x22; 0x00; 0x80; 0xc7; 0x3c; 0x88; 0x81]).
Definition ACPI10_GUID : Z * Z * Z * list Z :=
  (0xeb9d2d30, 0x2d88, 0x11d3, [0x9a; 0x16; 0x00; 0x90; 0x27; 0x3f; 0xc1; 0x4d]).

Definition put_guid (m : memory) (a : Z) (g : Z * Z * Z * list Z) : memory :=
  let '(d1, d2, d3, d4) := g in write_guid m a d1 d2 d3 d4.

(** [find_rsdp]: the two GUIDs are locals at [locals]. *)
Definition find_rsdp {F} (locals table entries : Z) : M (boot F) Z :=
  modify (λ s, Boot (put_guid (put_guid (bmem s) locals ACPI20_GUID) (locals + 16) ACPI10_GUID) (bfw s)) ;;
  gets (λ s, rsdp_loop (Z.to_nat entries) (bmem s) table locals (locals + 16) 0).

(** ** Page tables *)
Definition pt_base : Z := 0x600000.

(** [pd[i] = (p * 0x40000000 + i * 0x200000) | 0x83;] for 512 entries. *)
Fixpoint boot_pd_loop (n : nat) (pd base i : Z) (m : memory) : memory :=
  match n with
  | O => m
  | S n' => boot_pd_loop n' pd base (i + 1) (wr64 m (pd + 8 * i) (Z.lor (u64 (base + u64 (i * 0x200000))) 0x83))
  end.

Fixpoint boot_pdpt_loop (n : nat) (p : Z) (m : memory) : memory :=
  match n with
  | O => m
  | S n' =>
      let pd := pt_base + 0x4000 + p * 0x1000 in
      let m := wr64 m (pt_base + 0x1000 + 8 * p) (Z.lor pd 0x3) in
      boot_pdpt_loop n' (p + 1) (boot_pd_loop 512 pd (u64 (p * 0x40000000)) 0 m)
  end.

(** How many gigabytes are mapped: up to the end of the framebuffer and one
    more, at most 28. *)
Definition num_pdpt (g : gop_mode) : Z :=
  let fb_end := u64 (FrameBufferBase g + u32 (u32 (VerticalResolution g * PixelsPerScanLine g) * 4)) in
  let map_top := Z.land (u64 (fb_end + 0x3FFFFFFF)) (u64 (Z.lnot 0x3FFFFFFF)) in
  let map_top := u64 (map_top + 0x40000000) in
  let n := map_top / 0x40000000 in
  if 28 <? n then 28 else n.

(** [for (i = 0; i < 512 * 32; i++) ((uint64_t* )pt_base)[i] = 0;] *)
Definition clear_boot_tables (m : memory) : memory := fill64 m pt_base (Z.to_nat (512 * 32)) 0.

Definition build_tables (g : gop_mode) (m : memory) : memory :=
  let m := wr64 m pt_base (Z.lor (pt_base + 0x1000) 0x3) in
  let m := boot_pdpt_loop (Z.to_nat (num_pdpt g)) 0 m in
  let m := wr64 m (pt_base + 8 * 511) (Z.lor (pt_base + 0x2000) 0x3) in
  let m := wr64 m (pt_base + 0x2000 + 8 * 510) (Z.lor (pt_base + 0x3000) 0x3) in
  boot_pd_loop 512 (pt_base + 0x3000) 0 0 m.

(** ** Loading the kernel *)
Section loader.
Context {F : Type} (fw : firmware F).

Definition on_mem (f : memory → memory) : M (boot F) unit := modify (λ s, Boot (f (bmem s)) (bfw s)).
Definition memset (dest value count : Z) : M (boot F) unit :=
  on_mem (λ m, fill8 m dest (Z.to_nat count) value).
Definition check (ok : bool) (message : string) : M (boot F) unit :=
  if ok then mret tt else panic message.

Definition load_program_header (ph : Z) : M (boot F) unit :=
  m ← gets bmem;
  if negb (ph_type m ph =? BOOT_PT_LOAD) then mret tt else
  let pages := u64 (u64 (ph_memsz m ph + 0x1000) - 1) / 0x1000 in
  let segment := ph_paddr m ph in
  ok ← alloc_address fw segment pages;
  check ok "[ERROR] Alloc failed" ;;
  m ← gets bmem;
  memset segment 0 (ph_memsz m ph) ;;
  m ← gets bmem;
  if 0 <? ph_filesz m ph then
    set_position fw (ph_offset m ph) ;;
    m ← gets bmem;
    read_file fw (ph_filesz m ph) segment
  else mret tt.

(** The loop over the program headers; [elf_header] is the address of the
    local structure. *)
Definition load_kernel (elf_header : Z) : M (boot F) unit :=
  read_file fw EHDR_SIZE elf_header ;;
  m ← gets bmem;
  check ((eh_ident m elf_header 0 =? 0x7F) && (eh_ident m elf_header 1 =? 69) &&
         (eh_ident m elf_header 2 =? 76) && (eh_ident m elf_header 3 =? 70)) "[ERROR] Invalid ELF" ;;
  check (eh_machine m elf_header =? 0x3E) "[ERROR] Not x86_64" ;;
  check (eh_type m elf_header =? 2) "[ERROR] Not executable" ;;
  set_position fw (eh_phoff m elf_header) ;;
  m ← gets bmem;
  let ph_array_size := eh_phnum m elf_header * PHDR_SIZE in
  program_headers ← alloc_pool fw ph_array_size;
  read_file fw ph_array_size program_headers ;;
  n ← gets (λ s, eh_phnum (bmem s) elf_header);
  for_range 0 n (λ i, load_program_header (program_headers + i * PHDR_SIZE)).

Definition open_kernel : M (boot F) unit :=
  ok ← loaded_image fw;
  check ok "[ERROR] LoadedImage failed" ;;
  ok ← filesystem fw;
  check ok "[ERROR] Filesystem failed" ;;
  ok ← open_volume fw;
  check ok "[ERROR] OpenVolume failed" ;;
  ok ← open_file fw "kernel.elf";
  ok ← (if ok : bool then mret true else open_file fw "KERNEL.ELF");
  ok ← (if ok : bool then mret true else open_file fw "\kernel.elf");
  check ok "[ERROR] kernel.elf not found".

(** [bootInfo->field = v]: the structure is packed by the compiler as in
    bootinfo.h. *)
Definition write_mode (b : Z) (g : gop_mode) (m : memory) : memory :=
  let m := wr64 m b (FrameBufferBase g) in
  let m := wr32 m (b + 8) (HorizontalResolution g) in
  let m := wr32 m (b + 12) (VerticalResolution g) in
  wr32 m (b + 16) (PixelsPerScanLine g).

Definition fill_bootinfo (locals table entries b : Z) (g : gop_mode) : M (boot F) unit :=
  on_mem (write_mode b g) ;;
  rsdp ← find_rsdp locals table entries;
  on_mem (λ m, wr64 m (b + 48) rsdp).

(** The two attempts to get the memory map and leave boot services. *)
Fixpoint exit_loop (attempts : nat) (b mmap_size : Z) : M (boot F) bool :=
  match attempts with
  | O => mret false
  | S attempts' =>
      buf ← gets (λ s, rd64 (bmem s) (b + 24));
      r ← get_memory_map fw mmap_size buf;
      let '(ok, sz, key, _) := r in
      on_mem (λ m, wr64 m (b + 32) sz) ;;
      check ok "GetMemoryMap failed" ;;
      ok ← exit_boot_services fw key;
      if ok : bool then mret true else exit_loop attempts' b mmap_size
  end.

Definition leave_firmware (b : Z) : M (boot F) unit :=
  r ← get_memory_map fw 0 0;
  let '(_, size, _, desc_size) := r in
  let mmap_size := u64 (size + u64 (desc_size * 8)) in
  p ← alloc_pool fw mmap_size;
  on_mem (λ m, wr64 m (b + 24) p) ;;
  on_mem (λ m, wr64 m (b + 40) desc_size) ;;
  ok ← exit_loop 2 b mmap_size;
  check ok "ExitBootServices failed".

(** The jump at the end: CR3, the argument in rdi and the entry point. *)
Record handoff := Handoff { h_cr3 : Z; h_rdi : Z; h_entry : Z }.

(** [elf_header] and [locals] are stack addresses; [table] and [entries] are
    the system table's configuration table. *)
Definition efi_main (elf_header locals table entries : Z) : M (boot F) handoff :=
  ok ← alloc_address fw pt_base 32;
  check ok "[ERROR] PT alloc failed" ;;
  on_mem clear_boot_tables ;;
  open_kernel ;;
  load_kernel elf_header ;;
  kernel_entry ← gets (λ s, eh_entry (bmem s) elf_header);
  close_files fw ;;
  g ← locate_gop fw;
  b ← alloc_pool fw BOOTINFO_SIZE;
  fill_bootinfo locals table entries b g ;;
  on_mem (build_tables g) ;;
  leave_firmware b ;;
  mret (Handoff pt_base b kernel_entry).
End loader.

(** ** The first page tables *)
Lemma boot_pd_eq n pd base i m : 0 <= base → 0 <= i → base + (i + Z.of_nat n) * 0x200000 <= 2 ^ 39 →
  boot_pd_loop n pd base i m = hi_loop n pd i (base + i * 0x200000) m.
Proof.
  revert i m. induction n as [|n IH]; intros i m Hb Hi Hn; [done|]. cbn [boot_pd_loop hi_loop].
  rewrite IH by lia. rewrite (u64_small (i * _)), !u64_small by (unfold PSE_2MB; lia). f_equal. unfold PSE_2MB. lia.
Qed.

Record boot_pdpt_done (p q : Z) (m m' : memory) : Prop := {
  bp_frame : ∀ a, a < pt_base + 0x1000 + 8 * p ∨ pt_base + 0x1000 + 8 * q <= a →
    a < pt_base + 0x4000 + p * 0x1000 ∨ pt_base + 0x4000 + q * 0x1000 <= a → rd8 m' a = rd8 m a;
  bp_tables : ∀ i, p <= i < q → rd64 m' (pt_base + 0x1000 + 8 * i) = Z.lor (pt_base + 0x4000 + i * 0x1000) 3;
  bp_leaves : ∀ i j, p <= i < q → 0 <= j < 512 →
    rd64 m' (pt_base + 0x4000 + i * 0x1000 + 8 * j) = Z.lor (i * GB + j * PSE_2MB) 0x83
}.

Lemma boot_pdpt_one p m : 0 <= p < 28 →
  let pd := pt_base + 0x4000 + p * 0x1000 in
  boot_pdpt_done p (p + 1) m
    (boot_pd_loop 512 pd (u64 (p * 0x40000000)) 0 (wr64 m (pt_base + 0x1000 + 8 * p) (Z.lor pd 0x3))).
Proof.
  intros Hp. cbn zeta. rewrite (u64_small (p * _)) by lia. rewrite boot_pd_eq by lia. rewrite Z.mul_0_l, Z.add_0_r.
  set (m1 := wr64 m _ _). unfold pt_base in *.
  destruct (hi_loop_spec 512 (0x600000 + 0x4000 + p * 0x1000) 0 (p * 0x40000000) m1) as [Ho Hj]; [lia|unfold PSE_2MB; lia|].
  set (m2 := hi_loop 512 _ _ _ m1) in *. clearbody m2. split; unfold pt_base.
  - intros a H1 H2. rewrite Ho by lia. unfold m1. apply rd8_wr64_out. lia.
  - intros i Hi. replace i with p by lia. rewrite (rd64_same_outside _ _ _ _ _ Ho) by lia. unfold m1.
    rewrite rd64_wr64_eq. apply u64_small, (lor_range _ 3 64); lia.
  - intros i j Hi Hj'. replace i with p by lia. rewrite <-(Z.add_0_l j) at 1. rewrite Hj by lia. done.
Qed.

Lemma boot_pdpt_trans p r q m1 m2 m3 : 0 <= p <= r → r <= q <= 28 →
  boot_pdpt_done p r m1 m2 → boot_pdpt_done r q m2 m3 → boot_pdpt_done p q m1 m3.
Proof.
  intros Hp Hq [F1 T1 L1] [F2 T2 L2]. unfold pt_base in *. split; unfold pt_base.
  - intros a H1 H2. rewrite F2, F1 by lia. done.
  - intros i Hi. destruct (Z.lt_ge_cases i r); [|apply T2; lia].
    rewrite <-T1 by lia. apply rdn_ext. intros b Hb. apply F2; lia.
  - intros i j Hi Hj. destruct (Z.lt_ge_cases i r); [|apply L2; lia].
    rewrite <-L1 by lia. apply rdn_ext. intros b Hb. apply F2; lia.
Qed.

Lemma boot_pdpt_spec n p m : 0 <= p → p + Z.of_nat n <= 28 →
  boot_pdpt_done p (p + Z.of_nat n) m (boot_pdpt_loop n p m).
Proof.
  revert p m. induction n as [|n IH]; intros p m Hp Hn; cbn [boot_pdpt_loop].
  - rewrite Z.add_0_r. split; intros; (done || lia).
  - eapply boot_pdpt_trans; [| |apply boot_pdpt_one; lia|]; [lia| |].
    2: { replace (p + Z.of_nat (S n)) with (p + 1 + Z.of_nat n) by lia. apply IH; lia. }
    lia.
Qed.

Lemma num_pdpt_range g : 0 <= num_pdpt g <= 28.
Proof.
  unfold num_pdpt. cbv zeta.
  match goal with |- context [28 <? u64 ?x / ?y] =>
    assert (0 <= u64 x / y) by (apply Z.div_pos; [apply u64_range|lia]); destruct (Z.ltb_spec 28 (u64 x / y)); lia
  end.
Qed.

(** The framebuffer is mapped when it ends below 27 GiB. *)
Definition fb_end (g : gop_mode) : Z := FrameBufferBase g + u32 (u32 (VerticalResolution g * PixelsPerScanLine g) * 4).

Lemma num_pdpt_covers g : 0 <= fb_end g <= 27 * GB → fb_end g <= num_pdpt g * GB.
Proof.
  unfold GB, fb_end. intros Hf. unfold num_pdpt. set (x := FrameBufferBase g + _) in *. rewrite (u64_small x) by lia.
  rewrite (u64_small (x + _)) by lia. change (u64 (Z.lnot 0x3FFFFFFF)) with (Z.shiftl (Z.ones 34) 30).
  assert (Z.land (x + 0x3FFFFFFF) (Z.shiftl (Z.ones 34) 30) = (x + 0x3FFFFFFF) / 2 ^ 30 * 2 ^ 30) as ->.
  { rewrite <-Z.shiftl_mul_pow2, <-Z.shiftr_div_pow2 by lia. apply Z.bits_inj'. intros i Hi.
    rewrite Z.land_spec. destruct (Z.lt_ge_cases i 30).
    - rewrite !Z.shiftl_spec_low by lia. apply andb_false_r.
    - rewrite !Z.shiftl_spec, Z.shiftr_spec by lia. replace (i - 30 + 30) with i by lia.
      destruct (Z.lt_ge_cases i 64); [rewrite Z.ones_spec_low by lia; apply andb_true_r|].
      rewrite (testbit_lt _ 64 i) by lia. done. }
  rewrite u64_small by arith. destruct (Z.ltb_spec 28 (((x + 0x3FFFFFFF) / 2 ^ 30 * 2 ^ 30 + 0x40000000) / 0x40000000)); arith.
Qed.

(** The thirty-two table pages are empty. *)
Definition tables_clear (m : memory) : Prop := ∀ a, pt_base <= a < pt_base + 0x20000 → rd8 m a = 0.

Record boot_tables (N : Z) (m m' : memory) : Prop := {
  bt_frame : same_outside pt_base (pt_base + 0x20000) m m';
  bt_low : rd64 m' pt_base = Z.lor (pt_base + 0x1000) 3;
  bt_high : rd64 m' (pt_base + 8 * 511) = Z.lor (pt_base + 0x2000) 3;
  bt_pdpt : ∀ i, 0 <= i < 512 → rd64 m' (pt_base + 0x1000 + 8 * i) =
    if i <? N then Z.lor (pt_base + 0x4000 + i * 0x1000) 3 else 0;
  bt_leaf : ∀ i j, 0 <= i < N → 0 <= j < 512 →
    rd64 m' (pt_base + 0x4000 + i * 0x1000 + 8 * j) = Z.lor (i * GB + j * PSE_2MB) 0x83;
  bt_hi : rd64 m' (pt_base + 0x2000 + 8 * 510) = Z.lor (pt_base + 0x3000) 3;
  bt_hi_leaf : ∀ j, 0 <= j < 512 → rd64 m' (pt_base + 0x3000 + 8 * j) = Z.lor (j * PSE_2MB) 0x83
}.

Lemma build_tables_spec g m : tables_clear m → boot_tables (num_pdpt g) m (build_tables g m).
Proof.
  intros Hz. pose proof (num_pdpt_range g) as HN. unfold build_tables. cbv zeta. set (N := num_pdpt g) in *.
  set (m1 := wr64 m pt_base _). pose proof (boot_pdpt_spec (Z.to_nat N) 0 m1 ltac:(lia) ltac:(lia)) as [F T L].
  rewrite Z.add_0_l, Z2Nat.id in F, T, L by lia. set (m2 := boot_pdpt_loop (Z.to_nat N) 0 m1) in *.
  set (m3 := wr64 m2 _ _). set (m4 := wr64 m3 _ _). rewrite boot_pd_eq by lia. rewrite Z.mul_0_l, Z.add_0_r.
  destruct (hi_loop_spec 512 (pt_base + 0x3000) 0 0 m4) as [Ho Hj]; [lia|unfold PSE_2MB; lia|].
  set (m5 := hi_loop 512 _ _ _ m4) in *. clearbody m5. unfold tables_clear, pt_base in *.
  assert (∀ a, a < 0x600000 + 4088 ∨ 0x600000 + 4096 <= a → a < 0x600000 + 0x2FF0 ∨ 0x600000 + 0x4000 <= a →
    rd8 m5 a = rd8 m2 a) as H5.
  { intros a H1 H2. rewrite Ho by lia. unfold m4, m3. rewrite !rd8_wr64_out by lia. done. }
  clearbody m2. split; unfold pt_base.
  - intros a Ha. rewrite H5, F by lia. unfold m1. apply rd8_wr64_out. lia.
  - rewrite <-(u64_small (Z.lor _ 3)), <-(rd64_wr64_eq m 0x600000) by (vm_compute; done). fold m1.
    apply rdn_ext. intros i Hi. rewrite H5, F by lia. done.
  - rewrite (rd64_same_outside _ _ _ _ _ Ho) by lia. unfold m4, m3. rewrite rd64_wr64_ne, rd64_wr64_eq by lia. done.
  - intros i Hi. destruct (Z.ltb_spec i N).
    + rewrite <-T by lia. apply rdn_ext. intros b Hb. apply H5; lia.
    + apply rdn_zero. intros b Hb. rewrite H5, F by lia. unfold m1. rewrite rd8_wr64_out by lia. apply Hz. lia.
  - intros i j Hi Hj'. rewrite <-L by lia. apply rdn_ext. intros b Hb. apply H5; lia.
  - rewrite (rd64_same_outside _ _ _ _ _ Ho) by lia. unfold m4. rewrite rd64_wr64_eq. done.
  - intros j Hj'. apply (Hj j). lia.
Qed.

Lemma page_align_k k : (pt_base + k * 0x1000) `mod` 4096 = 0.
Proof. unfold pt_base. rewrite Z.mod_add by lia. done. Qed.

Lemma boot_low N m m' va : boot_tables N m m' → 0 <= N <= 28 → 0 <= va < 2 ^ 39 →
  mmu m' pt_base va = if va <? N * GB then Some va else None.
Proof.
  intros [_ E1 _ E3 E4 _ _] HN Hva. unfold GB in *.
  set (i := va / 2 ^ 30). set (j := (va / 2 ^ 21) `mod` 512).
  assert ((va / 2 ^ 39) `mod` 512 = 0 ∧ i `mod` 512 = i ∧ 0 <= i < 512) as (I1 & I2 & Hi) by (subst i; split_and!; arith).
  assert (0 <= j < 512 ∧ i * 2 ^ 30 + j * PSE_2MB = va / 2 ^ 21 * 2 ^ 21) as [Hj Hij].
  { split; [apply Z.mod_pos_bound; lia|]. subst i j. unfold PSE_2MB. arith. }
  assert (rd64 m' (pt_base + 8 * ((va / 2 ^ 39) `mod` 512)) = Z.lor (pt_base + 0x1000) 3) as W1
    by (by rewrite I1, Z.mul_0_r, Z.add_0_r).
  destruct (Z.ltb_spec va (N * 2 ^ 30)).
  - assert (i < N) as HiN by (subst i; arith).
    eapply (mmu_huge _ _ (pt_base + 0x1000) (pt_base + 0x4000 + i * 0x1000) va va 0x83); try done; try (unfold pt_base; lia).
    + replace (pt_base + 0x4000 + i * 0x1000) with (pt_base + (4 + i) * 0x1000) by lia. apply page_align_k.
    + fold i. rewrite I2, E3 by lia. by destruct (Z.ltb_spec i N); [|lia].
    + fold j. by rewrite E4, Hij by lia.
  - eapply (mmu_absent _ _ (pt_base + 0x1000) (pt_base + 0x4000)); try done. left. fold i. rewrite I2, E3 by lia.
    destruct (Z.ltb_spec i N); [subst i; arith|done].
Qed.

Lemma boot_high N m m' x : boot_tables N m m' → 0 <= x < GB → mmu m' pt_base (KERNEL_VIRT_BASE + x) = Some x.
Proof.
  intros [_ _ E2 _ _ E5 E6] Hx. unfold GB in *. set (va := KERNEL_VIRT_BASE + x).
  assert ((va / 2 ^ 39) `mod` 512 = 511 ∧ (va / 2 ^ 30) `mod` 512 = 510 ∧ (va / 2 ^ 21) `mod` 512 = x / 2 ^ 21 ∧
    va `mod` 2 ^ 21 = x `mod` 2 ^ 21) as (I1 & I2 & I3 & I4).
  { subst va. unfold KERNEL_VIRT_BASE. split_and!; arith. }
  eapply (mmu_huge _ _ (pt_base + 0x2000) (pt_base + 0x3000) va x 0x83); try done; try lia.
  - by rewrite I1.
  - by rewrite I2.
  - rewrite I3, E6 by arith. done.
Qed.

(** ** What the firmware promises *)

(** Memory that belongs to the loader is changed by the firmware only where a
    service is asked to write. *)
Section promises.

(** What the firmware can still give: the byte of memory at an address, to a
    request by address, or [n] bytes of pool memory. *)
Inductive resource := At (a : Z) | Pool (n : Z).
Definition at_ (P : Z → Prop) (r : resource) : Prop := match r with At a => P a | Pool _ => False end.
Definition is_pool (r : resource) : Prop := match r with At _ => False | Pool _ => True end.

Context {F : Type} (mine : F → Z → Prop) (avail : F → resource → Prop).

Definition frame (R : Z → Prop) (s s' : boot F) : Prop :=
  ∀ a, mine (bfw s) a → mine (bfw s') a ∧ (¬ R a → rd8 (bmem s') a = rd8 (bmem s) a).
Definition span (lo n a : Z) : Prop := lo <= a < lo + n.
Definition nowhere (a : Z) : Prop := False.
Definition fresh (lo n : Z) (s s' : boot F) : Prop :=
  ∀ a, span lo n a → ¬ mine (bfw s) a ∧ mine (bfw s') a.

(** What the firmware can give it still can afterwards, except for [X]. *)
Definition stays (X : resource → Prop) (s s' : boot F) : Prop :=
  ∀ r, avail (bfw s) r → ¬ X r → avail (bfw s') r.
Definition quiet (R : Z → Prop) (s s' : boot F) : Prop := frame R s s' ∧ stays (at_ nowhere) s s'.

(** [file] and [size] are the contents of kernel.elf, [pos] the position in
    it.  A request by address is granted when the memory is available, one for
    pool memory when enough is left.  The memory map takes [need] bytes, in
    descriptors of [dsize] bytes, and a pool allocation adds at most eight
    descriptors to it.  Opening files and leaving the firmware may fail,
    which they do not when the firmware is [coop]erative; the graphics protocol
    and file operations, whose status the loader does not look at, succeed. *)
Class FirmwareOk (fw : firmware F) (file : Z → Z) (size : Z) (pos need : F → Z) (dsize map_max : Z) (coop : Prop) : Prop := {
  fl_need : ∀ f, 0 <= need f ∧ 0 <= dsize ∧ need f + dsize * 8 <= map_max < 2 ^ 64;
  fl_alloc : ∀ a n s, ∃ b s', alloc_address fw a n s = Ok b s' ∧ frame nowhere s s' ∧
    stays (at_ (span a (n * 4096))) s s' ∧
    (if b then fresh a (n * 4096) s s' else ¬ ∀ x, span a (n * 4096) x → avail (bfw s) (At x));
  fl_pool : ∀ n k s, 0 <= n → 0 <= k → avail (bfw s) (Pool (n + k)) → ∃ p s', alloc_pool fw n s = Ok p s' ∧ frame nowhere s s' ∧
    stays is_pool s s' ∧ avail (bfw s') (Pool k) ∧ fresh p n s s' ∧ 0 <= p < 2 ^ 64 ∧ pos (bfw s') = pos (bfw s) ∧
    need (bfw s') <= need (bfw s) + dsize * 8;
  fl_image : ∀ s, ∃ b s', loaded_image fw s = Ok b s' ∧ quiet nowhere s s' ∧ (b = false → ¬ coop);
  fl_fs : ∀ s, ∃ b s', filesystem fw s = Ok b s' ∧ quiet nowhere s s' ∧ (b = false → ¬ coop);
  fl_volume : ∀ s, ∃ b s', open_volume fw s = Ok b s' ∧ quiet nowhere s s' ∧ (b = false → ¬ coop);
  fl_open : ∀ name s, ∃ b s', open_file fw name s = Ok b s' ∧ quiet nowhere s s' ∧
    (if b then pos (bfw s') = 0 else ¬ coop);
  fl_seek : ∀ p s, ∃ s', set_position fw p s = Ok tt s' ∧ quiet nowhere s s' ∧ pos (bfw s') = p;
  fl_read : ∀ n buf s, (∀ a, span buf n a → mine (bfw s) a) → 0 <= pos (bfw s) → pos (bfw s) + n <= size →
    ∃ s', read_file fw n buf s = Ok tt s' ∧ quiet (span buf n) s s' ∧
      ∀ a, span buf n a → rd8 (bmem s') a = file (pos (bfw s) + (a - buf));
  fl_close : ∀ s, ∃ s', close_files fw s = Ok tt s' ∧ quiet nowhere s s';
  fl_gop : ∀ s, ∃ g s', locate_gop fw s = Ok g s' ∧ quiet nowhere s s';
  fl_map : ∀ n buf s, ∃ ok key s', get_memory_map fw n buf s = Ok (ok, need (bfw s), key, dsize) s' ∧
    quiet (span buf n) s s' ∧ need (bfw s') = need (bfw s) ∧ (ok = false → need (bfw s) <= n → ¬ coop);
  fl_exit : ∀ key s, ∃ b s', exit_boot_services fw key s = Ok b s' ∧ quiet nowhere s s' ∧
    need (bfw s') = need (bfw s) ∧ (b = false → ¬ coop)
}.
End promises.
Arguments fl_need {_ _ _ _ _ _ _ _ _ _ _ _}.
Arguments fl_alloc {_ _ _ _ _ _ _ _ _ _ _ _}.
Arguments fl_pool {_ _ _ _ _ _ _ _ _ _ _ _}.
Arguments fl_image {_ _ _ _ _ _ _ _ _ _ _ _}.
Arguments fl_fs {_ _ _ _ _ _ _ _ _ _ _ _}.
Arguments fl_volume {_ _ _ _ _ _ _ _ _ _ _ _}.
Arguments fl_open {_ _ _ _ _ _ _ _ _ _ _ _}.
Arguments fl_seek {_ _ _ _ _ _ _ _ _ _ _ _}.
Arguments fl_read {_ _ _ _ _ _ _ _ _ _ _ _}.
Arguments fl_close {_ _ _ _ _ _ _ _ _ _ _ _}.
Arguments fl_gop {_ _ _ _ _ _ _ _ _ _ _ _}.
Arguments fl_map {_ _ _ _ _ _ _ _ _ _ _ _}.
Arguments fl_exit {_ _ _ _ _ _ _ _ _ _ _ _}.

(** The program returns with [Q], or stops for the reason [bad]. *)
Definition ends {S A} (bad : Prop) (m : M S A) (Q : A → S → Prop) (s : S) : Prop :=
  match m s with Ok a s' => Q a s' | Panic _ _ => bad end.

Section ends.
Context {S : Type} (bad : Prop).

Lemma ends_ret {A} (a : A) (Q : A → S → Prop) s : Q a s → ends bad (mret a) Q s.
Proof. done. Qed.

Lemma ends_bind {A B} (m : M S A) (f : A → M S B) Q s :
  ends bad m (λ a s', ends bad (f a) Q s') s → ends bad (m ≫= f) Q s.
Proof. unfold ends, mbind, M_bind. by destruct (m s). Qed.

Lemma ends_mono {A} (m : M S A) (Q Q' : A → S → Prop) s :
  ends bad m Q s → (∀ a s', Q a s' → Q' a s') → ends bad m Q' s.
Proof. unfold ends. destruct (m s); auto. Qed.

Lemma ends_step {A B} (m : M S A) (f : A → M S B) Q s a s' :
  m s = Ok a s' → ends bad (f a) Q s' → ends bad (m ≫= f) Q s.
Proof. intros E H. unfold ends. by rewrite (bind_Ok _ _ _ _ _ E). Qed.
End ends.

(** ** The kernel image *)

(** Little-endian numbers of the file. *)
Fixpoint fdn (file : Z → Z) (o : Z) (n : nat) : Z :=
  match n with O => 0 | S n' => file o + 256 * fdn file (o + 1) n' end.

Lemma rdn_fdn m file a o n : (∀ i, 0 <= i < Z.of_nat n → rd8 m (a + i) = file (o + i)) → rdn m a n = fdn file o n.
Proof.
  revert a o. induction n as [|n IH]; intros a o H; [done|]. cbn [rdn fdn].
  rewrite <-(Z.add_0_r a) at 1. rewrite H, Z.add_0_r by lia. do 2 f_equal. apply IH. intros i Hi.
  replace (a + 1 + i) with (a + (1 + i)) by lia. rewrite H by lia. f_equal. lia.
Qed.

(** The fields of the file's headers. *)
Record elf_segment := Seg { seg_load : bool; seg_offset : Z; seg_paddr : Z; seg_filesz : Z; seg_memsz : Z }.
Definition elf_entry (file : Z → Z) : Z := fdn file 24 8.
Definition elf_phoff (file : Z → Z) : Z := fdn file 32 8.
Definition elf_phnum (file : Z → Z) : Z := fdn file 56 2.
Definition elf_seg (file : Z → Z) (i : Z) : elf_segment :=
  let p := elf_phoff file + i * 56 in
  Seg (fdn file p 4 =? 1) (fdn file (p + 8) 8) (fdn file (p + 24) 8) (fdn file (p + 32) 8) (fdn file (p + 40) 8).

(** A well-formed x86-64 executable: its segments lie in the file. *)
Record elf_ok (file : Z → Z) (size : Z) : Prop := {
  eo_bytes : ∀ o, 0 <= file o < 256;
  eo_magic : file 0 = 0x7F ∧ file 1 = 69 ∧ file 2 = 76 ∧ file 3 = 70;
  eo_machine : fdn file 18 2 = 0x3E;
  eo_type : fdn file 16 2 = 2;
  eo_table : 64 <= size ∧ elf_phoff file + elf_phnum file * 56 <= size;
  eo_seg : ∀ i, 0 <= i < elf_phnum file → let g := elf_seg file i in seg_load g = true →
    seg_filesz g <= seg_memsz g ∧ seg_offset g + seg_filesz g <= size ∧
    seg_memsz g + 0x1000 < 2 ^ 64
}.

(** A segment in memory: the file's bytes and then zeros. *)
Definition seg_in (file : Z → Z) (g : elf_segment) (m : memory) : Prop :=
  ∀ j, 0 <= j < seg_memsz g → rd8 m (seg_paddr g + j) =
    if j <? seg_filesz g then file (seg_offset g + j) else 0.

Lemma fdn_range file o n : (∀ o, 0 <= file o < 256) → 0 <= fdn file o n < 256 ^ Z.of_nat n.
Proof.
  intros H. revert o. induction n as [|n IH]; intros o; [done|]. cbn [fdn].
  rewrite Nat2Z.inj_succ, Z.pow_succ_r by lia. pose proof (H o). pose proof (IH (o + 1)). lia.
Qed.

Section loading.
Context {F : Type} (mine : F → Z → Prop) (avail : F → resource → Prop) (fw : firmware F) (file : Z → Z) (size : Z).
Context (pos need : F → Z) (dsize map_max : Z) (coop : Prop).
Context `{HF : !FirmwareOk mine avail fw file size pos need dsize map_max coop}.
Context (Helf : elf_ok file size).
Local Abbreviation frame := (frame mine).
Local Abbreviation fresh := (fresh mine).
Local Abbreviation stays := (stays avail).

(** The condition under which the loader must get to its end. *)
Context (G : Prop) (HG : G → coop).

Lemma frame_refl R s : frame R s s.
Proof. done. Qed.
Lemma frame_trans R s1 s2 s3 : frame R s1 s2 → frame R s2 s3 → frame R s1 s3.
Proof. intros H1 H2 a Ha. destruct (H1 a Ha) as [M1 E1], (H2 a M1) as [M2 E2]. split; [done|]. intros. by rewrite E2, E1. Qed.
Lemma frame_weaken (R R' : Z → Prop) s s' : (∀ a, mine (bfw s) a → R a → R' a) → frame R s s' → frame R' s s'.
Proof. intros Hi H a Ha. destruct (H a Ha) as [M1 E1]. split; [done|]. intros Hn. apply E1. eauto. Qed.
Lemma quiet_trans R s1 s2 s3 : quiet mine avail R s1 s2 → quiet mine avail R s2 s3 → quiet mine avail R s1 s3.
Proof.
  intros [F1 A1] [F2 A2]. split; [by eapply frame_trans|]. intros a Ha Hn. apply A2; [by apply A1|done].
Qed.
Lemma frame_nowhere R s s' : frame nowhere s s' → frame R s s'.
Proof. apply frame_weaken. done. Qed.
Lemma frame_same s s' a : frame nowhere s s' → mine (bfw s) a → rd8 (bmem s') a = rd8 (bmem s) a.
Proof. intros H Ha. destruct (H a Ha) as [_ E]. apply E. by intros []. Qed.

(** Writes to memory that was not the loader's at [s] change nothing it had. *)
Lemma frame_fresh R s s1 s2 : frame nowhere s s1 → frame R s1 s2 → (∀ a, R a → ¬ mine (bfw s) a) → frame nowhere s s2.
Proof.
  intros H1 H2 HR a Ha. destruct (H1 a Ha) as [M1 E1], (H2 a M1) as [M2 E2]. split; [done|]. intros Hn.
  rewrite E2, E1; [done|done|]. intros Hr. by apply (HR a).
Qed.
Lemma frame_zeroed s a n : frame (span a n) s (Boot (fill8 (bmem s) a (Z.to_nat n) 0) (bfw s)).
Proof. intros x Hx. split; [done|]. unfold span. intros Hn. cbn [bmem]. rewrite rd8_fill8. case_decide; [lia|done]. Qed.

(** The header at [ph] describes the segment [g]. *)
Definition hdr (m : memory) (ph : Z) (g : elf_segment) : Prop :=
  (ph_type m ph =? BOOT_PT_LOAD) = seg_load g ∧ ph_offset m ph = seg_offset g ∧ ph_paddr m ph = seg_paddr g ∧
  ph_filesz m ph = seg_filesz g ∧ ph_memsz m ph = seg_memsz g.

Lemma hdr_ext m m' ph g : (∀ a, span ph 56 a → rd8 m' a = rd8 m a) → hdr m ph g → hdr m' ph g.
Proof.
  unfold hdr, ph_type, ph_offset, ph_paddr, ph_filesz, ph_memsz, rd32, rd64, span. intros H.
  rewrite !(rdn_ext m m') by (intros; apply H; lia). done.
Qed.

(** The pages requested for a segment. *)
Definition seg_pages (g : elf_segment) : Z := u64 (u64 (seg_memsz g + 0x1000) - 1) / 0x1000.
Definition seg_span (g : elf_segment) (a : Z) : Prop :=
  seg_load g = true ∧ span (seg_paddr g) (seg_pages g * 4096) a.

Lemma load_ph_ends ph g s : (G → ∀ x, seg_span g x → avail (bfw s) (At x)) →
  hdr (bmem s) ph g → (∀ a, span ph 56 a → mine (bfw s) a) → 0 <= seg_filesz g → 0 <= seg_offset g →
  (seg_load g = true → seg_filesz g <= seg_memsz g ∧ seg_offset g + seg_filesz g <= size ∧ seg_memsz g + 0x1000 < 2 ^ 64) →
  ends (¬ G) (load_program_header fw ph) (λ _ s', frame nowhere s s' ∧ stays (at_ (seg_span g)) s s' ∧
    (seg_load g = true → seg_in file g (bmem s') ∧ fresh (seg_paddr g) (seg_memsz g) s s')) s.
Proof.
  intros Hav Hh Hm Hfz Hoff Hok. unfold load_program_header.
  eapply ends_step; [reflexivity|]. pose proof Hh as (Et & Eo & Ep & Ef & Em). rewrite Et.
  destruct (seg_load g) eqn:El; cbn [negb].
  2: { apply ends_ret. split_and!; [done|by intros ???|done]. }
  destruct (Hok eq_refl) as (H1 & H2 & H3).
  rewrite Ep, Em. fold (seg_pages g). set (n := seg_pages g).
  assert (seg_memsz g <= n * 4096) as Hn by (unfold n, seg_pages; rewrite (u64_small (seg_memsz g + _)), u64_small by lia; arith).
  destruct (fl_alloc (seg_paddr g) n s) as ([] & s1 & E1 & F1 & A1 & R1).
  2: { eapply ends_step; [exact E1|]. intros HG'. apply R1. intros x Hx. by apply Hav. }
  eapply ends_step; [exact E1|]. cbn [check]. eapply ends_step; [reflexivity|]. eapply ends_step; [reflexivity|].
  assert (∀ t, frame nowhere s t → hdr (bmem t) ph g) as Hkeep.
  { intros t Ht. apply (hdr_ext (bmem s)); [|done]. intros a Ha. apply (frame_same s t a Ht (Hm a Ha)). }
  pose proof (Hkeep s1 F1) as Hh1.
  pose proof Hh1 as (_ & _ & _ & _ & Em1). rewrite Em1.
  eapply ends_step; [reflexivity|]. cbv beta.
  set (s2 := Boot (fill8 (bmem s1) (seg_paddr g) (Z.to_nat (seg_memsz g)) 0) (bfw s1)).
  assert (∀ a, span (seg_paddr g) (seg_memsz g) a → ¬ mine (bfw s) a ∧ mine (bfw s1) a) as Hfr
    by (intros a Ha; apply R1; unfold span in *; lia).
  assert (frame nowhere s s2) as F2.
  { eapply frame_fresh; [exact F1|apply frame_zeroed|]. intros a Ha. by apply Hfr. }
  assert (∀ j, 0 <= j < seg_memsz g → rd8 (bmem s2) (seg_paddr g + j) = 0) as Hz.
  { intros j Hj. cbn [bmem s2]. rewrite rd8_fill8, decide_True by lia. done. }
  pose proof (Hkeep s2 F2) as Hh2.
  eapply ends_step; [reflexivity|]. pose proof Hh2 as (_ & Eo2 & _ & Ef2 & _). cbv beta. rewrite Ef2.
  destruct (Z.ltb_spec 0 (seg_filesz g)).
  - rewrite Eo2. destruct (fl_seek (seg_offset g) s2) as (s3 & E3 & [F3 A3] & P3).
    eapply ends_step; [exact E3|]. eapply ends_step; [reflexivity|]. cbv beta.
    assert (frame nowhere s s3) as F23 by (eapply frame_trans; done).
    pose proof (Hkeep s3 F23) as (_ & _ & _ & Ef3 & _). rewrite Ef3.
    destruct (fl_read (seg_filesz g) (seg_paddr g) s3) as (s4 & E4 & [F4 A4] & B4);
      [intros a Ha; apply F3; apply Hfr; unfold span in *; lia|rewrite P3; lia|rewrite P3; lia|].
    unfold ends. rewrite E4. split; [|split; [|intros _; split]].
    + eapply frame_fresh; [exact F23|exact F4|]. intros a Ha. apply Hfr. unfold span in *. lia.
    + intros a Ha Hn'. apply A4; [|by destruct a; intros []]. apply A3; [|by destruct a; intros []]. apply A1; [done|]. destruct a; [|by intros []]. intros Hs. by apply Hn'.
    + intros j Hj. destruct (Z.ltb_spec j (seg_filesz g)).
      * rewrite B4 by (unfold span; lia). rewrite P3. f_equal. lia.
      * destruct (F3 (seg_paddr g + j)) as [M3 E]; [apply Hfr; unfold span; lia|]. destruct (F4 _ M3) as [_ E'].
        rewrite E', E; [by apply Hz|by intros []|unfold span; lia].
    + intros a Ha. destruct (Hfr a Ha) as [N1 M1]. split; [done|]. by apply F4, F3.
  - apply ends_ret. split; [done|]. split; [intros [a|a] Ha Hn'; (apply A1; [done|]); [intros Hs; by apply Hn'|by intros []]|].
    intros _. split; [|done]. intros j Hj. rewrite Hz by done.
    by destruct (Z.ltb_spec j (seg_filesz g)); [lia|].
Qed.

(** The whole image: every loadable segment up to [n], in memory of the
    loader that was free at [s0]. *)
Definition image_in (n : Z) (s0 s : boot F) : Prop :=
  ∀ i, 0 <= i < n → seg_load (elf_seg file i) = true →
    seg_in file (elf_seg file i) (bmem s) ∧
    fresh (seg_paddr (elf_seg file i)) (seg_memsz (elf_seg file i)) s0 s.

Lemma image_frame n s0 s s' (R : Z → Prop) : (∀ a, R a → mine (bfw s0) a ∨ ¬ mine (bfw s) a) →
  frame R s s' → image_in n s0 s → image_in n s0 s'.
Proof.
  intros HR Hf H i Hi Hl. destruct (H i Hi Hl) as [S Fr]. split.
  - intros j Hj. destruct (Fr (seg_paddr (elf_seg file i) + j)) as [N1 M1]; [unfold span; lia|].
    destruct (Hf _ M1) as [_ E]. rewrite E; [by apply S|]. intros Hr. destruct (HR _ Hr); done.
  - intros a Ha. destruct (Fr a Ha) as [N1 M1]. split; [done|]. by apply Hf.
Qed.

(** No two loadable segments share a page. *)
Definition segs_apart : Prop := ∀ i j x, 0 <= i < elf_phnum file → 0 <= j < elf_phnum file →
  seg_span (elf_seg file i) x → seg_span (elf_seg file j) x → i = j.

Lemma load_loop_ends n i phs s0 s : (G → segs_apart) →
  (G → ∀ k x, i <= k < elf_phnum file → seg_span (elf_seg file k) x → avail (bfw s) (At x)) → 0 <= i → i + Z.of_nat n = elf_phnum file →
  (∀ k, 0 <= k < elf_phnum file → hdr (bmem s) (phs + k * 56) (elf_seg file k)) →
  (∀ a, span phs (elf_phnum file * 56) a → mine (bfw s) a) →
  frame (λ _, True) s0 s → image_in i s0 s →
  ends (¬ G) (forZ n i (λ i, load_program_header fw (phs + i * PHDR_SIZE)))
    (λ _ s', frame nowhere s s' ∧ (∀ p, avail (bfw s) (Pool p) → avail (bfw s') (Pool p)) ∧ image_in (elf_phnum file) s0 s') s.
Proof.
  intros Hap. revert i s. induction n as [|n IH]; intros i s Hav Hi Hn Hh Hm H0 Him; cbn [forZ].
  { apply ends_ret. split; [done|]. by replace (elf_phnum file) with i by lia. }
  apply ends_bind. eapply ends_mono.
  - apply (load_ph_ends _ (elf_seg file i) s); [intros g x Hx; apply (Hav g i x); [lia|done]|apply Hh; lia| | | |].
    + intros a Ha. apply Hm. unfold span, PHDR_SIZE in *. lia.
    + apply fdn_range, (eo_bytes _ _ Helf).
    + apply fdn_range, (eo_bytes _ _ Helf).
    + apply (eo_seg _ _ Helf). lia.
  - intros _ s1 (F1 & A1 & S1). eapply ends_mono; [apply (IH (i + 1) s1)|]; [|lia|lia|..].
    + intros g k x Hk Hx. apply A1; [apply (Hav g k x); [lia|done]|]. intros Hx'.
      pose proof (Hap g k i x ltac:(lia) ltac:(lia) Hx Hx'). lia.
    + intros k Hk. apply (hdr_ext (bmem s)); [|by apply Hh]. intros a Ha. apply (frame_same s s1 a F1).
      apply Hm. unfold span in *. lia.
    + intros a Ha. by apply F1, Hm.
    + eapply frame_trans; [exact H0|]. by apply frame_nowhere.
    + intros k Hk Hl. destruct (decide (k = i)) as [->|].
      * destruct (S1 Hl) as [S Fr]. split; [done|]. intros a Ha. destruct (Fr a Ha) as [N1 M1]. split; [|done].
        intros Hc. by apply N1, H0.
      * apply (image_frame i s0 s s1 nowhere); [by intros a []|done|done|lia|done].
    + intros [] s2 (F2 & Q2 & I2). split_and!; [by eapply frame_trans| |done].
      intros p Hp. by apply Q2, A1; [|intros []].
Qed.

(** The program headers as read from the file. *)
Lemma hdr_read m p k : 0 <= k < elf_phnum file →
  (∀ a, span p (elf_phnum file * 56) a → rd8 m a = file (elf_phoff file + (a - p))) →
  hdr m (p + k * 56) (elf_seg file k).
Proof.
  intros Hk H. unfold hdr, ph_type, ph_offset, ph_paddr, ph_filesz, ph_memsz, rd32, rd64, elf_seg, span in *.
  cbn [seg_load seg_offset seg_paddr seg_filesz seg_memsz]. set (o := elf_phoff file + k * 56).
  assert (∀ d n, 0 <= d → d + Z.of_nat n <= 56 → rdn m (p + k * 56 + d) n = fdn file (o + d) n) as Hr.
  { intros d n Hd Hn. apply rdn_fdn. intros i Hi. rewrite H by lia. f_equal. unfold o. lia. }
  rewrite <-(Z.add_0_r (p + k * 56)) at 1. rewrite !Hr by lia. by rewrite Z.add_0_r.
Qed.

(** The file header in memory at [eh]. *)
Lemma header_rdn eh m d n : (∀ i, 0 <= i < 64 → rd8 m (eh + i) = file i) → 0 <= d → d + Z.of_nat n <= 64 →
  rdn m (eh + d) n = fdn file d n.
Proof. intros Hm Hd Hn. apply rdn_fdn. intros i Hi. rewrite <-Z.add_assoc, Hm by lia. done. Qed.

Lemma load_kernel_ends eh q s : 0 <= q → (G → segs_apart) →
  (G → ∀ k x, 0 <= k < elf_phnum file → seg_span (elf_seg file k) x → avail (bfw s) (At x)) →
  avail (bfw s) (Pool (elf_phnum file * 56 + q)) → pos (bfw s) = 0 → (∀ a, span eh 64 a → mine (bfw s) a) →
  ends (¬ G) (load_kernel fw eh) (λ _ s', frame (span eh 64) s s' ∧ avail (bfw s') (Pool q) ∧ image_in (elf_phnum file) s s' ∧
    ∀ i, 0 <= i < 64 → rd8 (bmem s') (eh + i) = file i) s.
Proof.
  intros Hq0 Hap Hav Hq Hp Hm. destruct (eo_table _ _ Helf) as [Hsz Htab]. destruct (eo_magic _ _ Helf) as (G0 & G1 & G2 & G3).
  unfold load_kernel.
  destruct (fl_read EHDR_SIZE eh s) as (s1 & E1 & [F1 A1] & B1); [done|lia|unfold EHDR_SIZE; lia|].
  eapply ends_step; [exact E1|]. eapply ends_step; [reflexivity|]. cbv beta.
  assert (∀ i, 0 <= i < 64 → rd8 (bmem s1) (eh + i) = file i) as H1.
  { intros i Hi. rewrite B1 by (unfold span, EHDR_SIZE; lia). rewrite Hp. f_equal. lia. }
  unfold eh_ident, eh_machine, eh_type, rd16. rewrite !(header_rdn eh (bmem s1)), !H1 by (done || lia).
  rewrite G0, G1, G2, G3, (eo_machine _ _ Helf), (eo_type _ _ Helf). cbn [Z.eqb Pos.eqb andb check].
  do 3 (eapply ends_step; [reflexivity|]). unfold eh_phoff at 1, rd64. rewrite (header_rdn eh (bmem s1)) by (done || lia). fold (elf_phoff file).
  destruct (fl_seek (elf_phoff file) s1) as (s2 & E2 & [F2 A2] & P2). eapply ends_step; [exact E2|].
  eapply ends_step; [reflexivity|]. cbv beta.
  assert (∀ i, 0 <= i < 64 → rd8 (bmem s2) (eh + i) = file i) as H2.
  { intros i Hi. rewrite (frame_same s1 s2) by (done || (apply F1, Hm; unfold span; lia)). by apply H1. }
  assert (∀ m, (∀ i, 0 <= i < 64 → rd8 m (eh + i) = file i) → eh_phnum m eh = elf_phnum file) as Hnum
    by (intros m Hm'; apply (header_rdn eh m 56 2%nat Hm'); lia).
  rewrite (Hnum (bmem s2) H2). change PHDR_SIZE with 56.
  destruct (fl_pool (elf_phnum file * 56) q s2) as (p & s3 & E3 & F3 & A3 & Q3 & Fr3 & Hp3 & P3 & _).
  { apply Z.mul_nonneg_nonneg; [apply fdn_range, (eo_bytes _ _ Helf)|done]. }
  { done. }
  { apply A2; [|by intros []]. by apply A1; [|intros []]. }
  eapply ends_step; [exact E3|].
  destruct (fl_read (elf_phnum file * 56) p s3) as (s4 & E4 & [F4 A4] & B4); [intros a Ha; by apply Fr3| | |].
  { rewrite P3, P2. apply fdn_range, (eo_bytes _ _ Helf). }
  { rewrite P3, P2. lia. }
  rewrite P3, P2 in B4. eapply ends_step; [exact E4|]. eapply ends_step; [reflexivity|]. cbv beta.
  assert (frame nowhere s1 s4) as F14.
  { eapply frame_fresh; [exact (frame_trans _ _ _ _ F2 F3)|exact F4|]. intros a Hs Ha. apply (proj1 (Fr3 a Hs)). by apply F2. }
  assert (∀ i, 0 <= i < 64 → rd8 (bmem s4) (eh + i) = file i) as H4.
  { intros i Hi. rewrite (frame_same s1 s4) by (done || (apply F1, Hm; unfold span; lia)). by apply H1. }
  rewrite (Hnum (bmem s4) H4). unfold for_range. rewrite Z.sub_0_r. eapply ends_mono; [apply (load_loop_ends _ 0 p s s4 Hap)|].
  - intros g k x Hk Hx. apply A4; [|by intros []]. apply A3; [|by intros []]. apply A2; [|by intros []].
    apply A1; [|by intros []]. by apply (Hav g k).
  - lia.
  - pose proof (fdn_range file 56 2 (eo_bytes _ _ Helf)). unfold elf_phnum. lia.
  - intros k Hk. by apply hdr_read.
  - intros a Ha. by apply F4, Fr3.
  - eapply frame_trans; [|apply frame_nowhere; exact F14]. eapply frame_weaken; [|exact F1]. done.
  - intros i Hi. lia.
  - intros [] s5 (F5 & Q5 & I5). split_and!; [|by apply Q5, A4; [|intros []]|done|].
    + eapply frame_trans; [exact F1|]. apply frame_nowhere. by eapply frame_trans.
    + intros i Hi. rewrite (frame_same s4 s5) by (done || (apply F14, F1, Hm; unfold span; lia)). by apply H4.
Qed.

(** ** Handing over to the kernel *)
Lemma check_ends {A} (ok : bool) msg (f : unit → M (boot F) A) Q s :
  (ok = false → ¬ coop) → (ok = true → ends (¬ G) (f tt) Q s) → ends (¬ G) (check ok msg ≫= f) Q s.
Proof. destruct ok; intros H1 H2; [by apply H2|]. intros g. by apply (H1 eq_refl), HG. Qed.

Lemma open_kernel_ends s : ends (¬ G) (open_kernel fw) (λ _ s', quiet mine avail nowhere s s' ∧ pos (bfw s') = 0) s.
Proof.
  unfold open_kernel. destruct (fl_image s) as (b1 & s1 & E1 & F1 & C1). eapply ends_step; [exact E1|].
  apply check_ends; [done|]. intros _. destruct (fl_fs s1) as (b2 & s2 & E2 & F2 & C2). eapply ends_step; [exact E2|].
  apply check_ends; [done|]. intros _. destruct (fl_volume s2) as (b3 & s3 & E3 & F3 & C3). eapply ends_step; [exact E3|].
  apply check_ends; [done|]. intros _.
  assert (quiet mine avail nowhere s s3) as F03 by (eapply quiet_trans; [exact F1|]; by eapply quiet_trans).
  assert (∀ name (b : bool) t, quiet mine avail nowhere s t → (if b then pos (bfw t) = 0 else ¬ coop) →
    ∃ b' t', (if b : bool then mret true else open_file fw name) t = Ok b' t' ∧ quiet mine avail nowhere s t' ∧
      (if b' then pos (bfw t') = 0 else ¬ coop)) as Hopen.
  { intros name b t Ft Hb. destruct b; [by exists true, t|].
    destruct (fl_open name t) as (b' & t' & E & Ft' & H'). exists b', t'. split; [done|]. split; [by eapply quiet_trans|done]. }
  destruct (fl_open "kernel.elf" s3) as (b4 & s4 & E4 & F4 & C4). eapply ends_step; [exact E4|].
  destruct (Hopen "KERNEL.ELF" b4 s4) as (b5 & s5 & E5 & F5 & C5); [by eapply quiet_trans|done|]. eapply ends_step; [exact E5|].
  destruct (Hopen "\kernel.elf" b5 s5) as (b6 & s6 & E6 & F6 & C6); [done|done|]. eapply ends_step; [exact E6|].
  destruct b6; [by apply ends_ret|]. intros g. by apply C6, HG.
Qed.

(** A write to memory of the loader. *)
Lemma frame_write s f (R : Z → Prop) : (∀ a, ¬ R a → rd8 (f (bmem s)) a = rd8 (bmem s) a) →
  frame R s (Boot (f (bmem s)) (bfw s)).
Proof. intros H a Ha. by split; [|apply H]. Qed.

(** The attempts to leave write the size of the map and the map. *)
Lemma exit_loop_ends n b p size' s :
  rd64 (bmem s) (b + 24) = p → (∀ a, span b 56 a → mine (bfw s) a) →
  (∀ a, span p size' a → mine (bfw s) a) → (∀ a, span b 56 a → ¬ span p size' a) →
  (0 < n)%nat → need (bfw s) <= size' →
  ends (¬ G) (exit_loop fw n b size') (λ ok s', frame (λ a, span (b + 32) 8 a ∨ span p size' a) s s' ∧
    (ok = false → ¬ coop)) s.
Proof.
  revert s. induction n as [|n IH]; intros s Hp Hb Hm Hd Hn Hsz; [lia|]. cbn [exit_loop].
  eapply ends_step; [reflexivity|]. cbv beta. rewrite Hp.
  destruct (fl_map size' p s) as (ok & key & s1 & E1 & [F1 _] & N1 & C1). eapply ends_step; [exact E1|].
  eapply ends_step; [reflexivity|]. apply check_ends; [intros H; by apply C1|]. intros _.
  set (s2 := Boot (wr64 (bmem s1) (b + 32) (need (bfw s))) (bfw s1)).
  assert (frame (λ a, span (b + 32) 8 a ∨ span p size' a) s s2) as F2.
  { intros a Ha. destruct (F1 a Ha) as [M1 E]. split; [done|]. intros Hn'. cbn [bmem s2].
    rewrite rd8_wr64_out; [apply E; tauto|]. unfold span in Hn'. lia. }
  destruct (fl_exit key s2) as (b' & s3 & E3 & [F3 _] & N3 & C3). eapply ends_step; [exact E3|].
  assert (frame (λ a, span (b + 32) 8 a ∨ span p size' a) s s3) as F03.
  { eapply frame_trans; [exact F2|]. by apply frame_nowhere. }
  destruct b'; [by apply ends_ret|]. destruct n as [|n]; [by apply ends_ret|].
  eapply ends_mono; [apply IH|]; [|intros a Ha; by apply F03, Hb|intros a Ha; by apply F03, Hm|done|lia|rewrite N3; cbn [bfw s2]; by rewrite N1|].
  - rewrite <-Hp. apply rdn_ext. intros i Hi. destruct (F03 i) as [_ E]; [apply Hb; unfold span; lia|]. apply E.
    intros [Hs|Hs]; [unfold span in Hs; lia|]. apply (Hd i); [unfold span; lia|done].
  - intros ok' s' [F' C']. split; [by eapply frame_trans|done].
Qed.

Lemma leave_ends b s : avail (bfw s) (Pool map_max) → (∀ a, span b 56 a → mine (bfw s) a) →
  ends (¬ G) (leave_firmware fw b) (λ _ s', frame (span (b + 24) 24) s s') s.
Proof.
  intros Hq Hb. unfold leave_firmware. destruct (fl_map 0 0 s) as (ok & key & s1 & E1 & [F1 A1] & N1 & _).
  eapply ends_step; [exact E1|]. cbv beta iota zeta.
  pose proof (fl_need (bfw s)) as (Hn0 & Hd0 & Hmm). rewrite (u64_small (dsize * 8)), u64_small by lia. set (n := need (bfw s) + dsize * 8).
  assert (frame nowhere s s1) as F01 by (eapply frame_weaken; [|exact F1]; unfold span; intros; lia).
  destruct (fl_pool n (map_max - n) s1) as (p & s2 & E2 & F2 & _ & _ & Fr2 & Hp & _ & N2).
  { lia. }
  { lia. }
  { rewrite Zplus_minus. by apply A1; [|intros []]. }
  eapply ends_step; [exact E2|].
  eapply ends_step; [reflexivity|]. eapply ends_step; [reflexivity|]. cbn [bmem bfw].
  set (s3 := Boot (wr64 (wr64 (bmem s2) (b + 24) p) (b + 40) dsize) (bfw s2)).
  assert (frame (span (b + 24) 24) s2 s3) as F3.
  { apply (frame_write s2 (λ m, wr64 (wr64 m (b + 24) p) (b + 40) dsize)). intros a Ha. unfold span in Ha.
    by rewrite !rd8_wr64_out by lia. }
  apply ends_bind. eapply ends_mono; [apply (exit_loop_ends 2 b p n s3)|].
  - cbn [bmem s3]. rewrite rd64_wr64_ne, rd64_wr64_eq by lia. by apply u64_small.
  - intros a Ha. apply F3, F2, F01, Hb, Ha.
  - intros a Ha. apply F3, Fr2, Ha.
  - intros a Ha Hs. apply (proj1 (Fr2 a Hs)), F01, Hb, Ha.
  - lia.
  - cbn [bfw s3]. lia.
  - intros ok' s' [F' C']. destruct ok'; [|intros g; by apply (C' eq_refl), HG]. apply ends_ret.
    intros a Ha. destruct (F01 a Ha) as [M1 Ea1], (F2 a M1) as [M2 Ea2], (F3 a M2) as [M3 Ea3], (F' a M3) as [M4 Ea4].
    split; [done|]. intros Hn. rewrite Ea4, Ea3, Ea2, Ea1; try done; try (by intros []).
    intros [Hs|Hs]; [apply Hn; unfold span in *; lia|]. by apply (proj1 (Fr2 a Hs)).
Qed.

Lemma rd8_wrn_zero m a n b : a <= b < a + Z.of_nat n → rd8 (wrn m a n 0) b = 0.
Proof.
  revert m a. induction n as [|n IH]; intros m a Hb; [lia|]. cbn [wrn]. rewrite Z.div_0_l by lia.
  destruct (decide (b = a)) as [->|]; [rewrite rd8_wrn_out, rd8_wr8_eq by lia; done|apply IH; lia].
Qed.

Lemma rd8_fill64_zero m a n b : a <= b < a + 8 * Z.of_nat n → rd8 (fill64 m a n 0) b = 0.
Proof.
  revert m a. induction n as [|n IH]; intros m a Hb; [lia|].
  change (fill64 m a (S n) 0) with (fill64 (wr64 m a 0) (a + 8) n 0).
  destruct (Z.lt_ge_cases b (a + 8)); [|apply IH; lia].
  rewrite (fill64_same_outside _ (a + 8) n 0 b) by lia. apply (rd8_wrn_zero m a 8). lia.
Qed.

Lemma tables_cleared m : tables_clear (clear_boot_tables m) ∧ same_outside pt_base (pt_base + 0x20000) m (clear_boot_tables m).
Proof.
  unfold tables_clear, clear_boot_tables, pt_base. generalize (Z.to_nat (512 * 32)) (Z2Nat.id (512 * 32) ltac:(lia)). intros n Hn.
  split; [intros a Ha; apply rd8_fill64_zero; lia|].
  eapply same_outside_weaken; [| |apply fill64_same_outside]; lia.
Qed.

Lemma boot_tables_agree N m m' m'' : boot_tables N m m' →
  (∀ a, span pt_base 0x20000 a → rd8 m'' a = rd8 m' a) → 0 <= N <= 28 → boot_tables N m'' m''.
Proof.
  intros [_ E1 E2 E3 E4 E5 E6] H HN.
  assert (∀ a, pt_base <= a → a + 8 <= pt_base + 0x20000 → rd64 m'' a = rd64 m' a) as Hr
    by (intros a ? ?; apply rdn_ext; intros i Hi; apply H; unfold span; lia).
  unfold pt_base in *. split; unfold pt_base; [done|..]; intros; rewrite Hr by lia; auto.
Qed.

Lemma put_guids_outside locals m : same_outside locals (locals + 32) m
  (put_guid (put_guid m locals ACPI20_GUID) (locals + 16) ACPI10_GUID).
Proof.
  assert (∀ a l m, Forall (λ p : Z * Z, 0 <= fst p < 8) l →
    same_outside a (a + 16) m (foldl (λ m p, wr8 m (a + 8 + fst p) (snd p)) m l)) as Hl.
  { intros a l m0 Hl. revert m0. induction Hl as [|[i v] l Hi Hl IH]; intros m0; [by intros x|]. cbn [foldl fst snd] in *.
    eapply same_outside_trans; [|apply IH]. eapply same_outside_weaken; [| |apply wr8_same_outside]; lia. }
  assert (∀ a g m, same_outside a (a + 16) m (put_guid m a g)) as H.
  { intros a [[[d1 d2] d3] d4] m0. unfold put_guid, write_guid. cbv zeta. eapply same_outside_trans; [|apply Hl].
    - intros x Hx. unfold wr16, wr32. by rewrite !rd8_wrn_out by lia.
    - apply List.Forall_forall. intros [i v] Hin%in_combine_l. apply list_elem_of_In, elem_of_seqZ in Hin. cbn. lia. }
  eapply same_outside_trans; (eapply same_outside_weaken; [| |apply H; done]); lia.
Qed.

(** The boot information at [b] holds the graphics mode [g]. *)
Definition mode_at (m : memory) (b : Z) (g : gop_mode) : Prop :=
  rd64 m b = u64 (FrameBufferBase g) ∧ rd32 m (b + 8) = u32 (HorizontalResolution g) ∧
  rd32 m (b + 12) = u32 (VerticalResolution g) ∧ rd32 m (b + 16) = u32 (PixelsPerScanLine g).

Lemma mode_at_ext m m' b g : (∀ a, span b 24 a → rd8 m' a = rd8 m a) → mode_at m b g → mode_at m' b g.
Proof.
  unfold mode_at, rd64, rd32, span. intros H. rewrite !(rdn_ext m m') by (intros; apply H; lia). done.
Qed.

Lemma write_mode_spec b g m : mode_at (write_mode b g m) b g ∧ same_outside b (b + 56) m (write_mode b g m).
Proof.
  unfold mode_at, write_mode, rd64, rd32, wr64, wr32. cbv zeta. split; [split_and!|].
  1-4: repeat first [rewrite rdn_wrn_eq | rewrite rdn_wrn_ne by lia]; done.
  intros a Ha. by rewrite !rd8_wrn_out by lia.
Qed.

(** Filling in the boot information, with the loader's locals elsewhere. *)
Lemma fill_bootinfo_run locals table entries b g (s : boot F) : (∀ a, span b 56 a → ¬ span locals 32 a) →
  ∃ m, fill_bootinfo locals table entries b g s = Ok tt (Boot m (bfw s)) ∧ mode_at m b g ∧
    ∀ a, ¬ span b 56 a → ¬ span locals 32 a → rd8 m a = rd8 (bmem s) a.
Proof.
  intros Hd. eexists. split; [reflexivity|]. cbn [bmem bfw].
  destruct (write_mode_spec b g (bmem s)) as [M1 O1]. set (m1 := write_mode b g (bmem s)) in *.
  pose proof (put_guids_outside locals m1) as O2. set (m2 := put_guid _ _ _) in *. clearbody m1 m2. split.
  - apply (mode_at_ext m1); [|done]. intros a Ha. unfold span in *. rewrite rd8_wr64_out by lia.
    apply O2. specialize (Hd a ltac:(lia)). lia.
  - intros a H1 H2. unfold span in *. rewrite rd8_wr64_out, O2, O1 by lia. done.
Qed.

(** What the kernel finds. *)
Record handed_over (h : handoff) (m : memory) : Prop := {
  ho_cr3 : h_cr3 h = pt_base;
  ho_entry : h_entry h = elf_entry file;
  ho_image : ∀ i, 0 <= i < elf_phnum file → seg_load (elf_seg file i) = true → seg_in file (elf_seg file i) m;
  ho_high : ∀ x, 0 <= x < GB → mmu m pt_base (KERNEL_VIRT_BASE + x) = Some x;
  ho_info : ∃ g, mode_at m (h_rdi h) g ∧
    (∀ va, 0 <= va < 2 ^ 39 → mmu m pt_base va = if va <? num_pdpt g * GB then Some va else None) ∧
    (0 <= FrameBufferBase g → fb_end g <= 27 * GB → ∀ x, FrameBufferBase g <= x < fb_end g → mmu m pt_base x = Some x)
}.

(** The memory [m] the kernel gets: the tables built in [m5], the boot
    information at [b], and what the loader had at [s] outside of them. *)
Lemma handed_over_intro b g entry m5 m sl s : tables_clear m5 → mode_at m5 b g →
  (∀ a, span b 56 a → ¬ span pt_base 0x20000 a) → (∀ a, span pt_base 0x20000 a → mine (bfw sl) a) →
  (∀ a, span b 56 a → ¬ mine (bfw s) a) →
  (∀ a, span pt_base 0x20000 a ∨ span b 24 a ∨ mine (bfw s) a → ¬ span (b + 24) 24 a → rd8 m a = rd8 (build_tables g m5) a) →
  (∀ a, mine (bfw s) a → ¬ mine (bfw sl) a → rd8 m5 a = rd8 (bmem s) a) →
  image_in (elf_phnum file) sl s → entry = elf_entry file → handed_over (Handoff pt_base b entry) m.
Proof.
  intros Hz Hi Hbt Hpt Hbs Hm Hk Him He. pose proof (build_tables_spec g m5 Hz) as BT. pose proof (num_pdpt_range g) as HN.
  assert (boot_tables (num_pdpt g) m m) as BT7.
  { eapply boot_tables_agree; [exact BT| |lia]. intros a Ha. apply Hm; [by left|].
    intros Hs. apply (Hbt a); [unfold span in *; lia|done]. }
  assert (∀ a, ¬ span pt_base 0x20000 a → rd8 (build_tables g m5) a = rd8 m5 a) as Hb5.
  { intros a Ha. apply (bt_frame _ _ _ BT). unfold span in Ha. lia. }
  split; cbn [h_cr3 h_entry h_rdi].
  - done.
  - done.
  - intros i Hi' Hld. destruct (Him i Hi' Hld) as [S Fi]. intros j Hj.
    destruct (Fi (seg_paddr (elf_seg file i) + j)) as [N1 M1]; [unfold span; lia|]. rewrite <-S by done.
    rewrite Hm, Hb5; [by apply Hk|by intros Hs; apply N1, Hpt|by auto|].
    intros Hs. apply (Hbs (seg_paddr (elf_seg file i) + j)); [unfold span in *; lia|done].
  - intros x Hx. by eapply boot_high.
  - exists g. split; [|split; [intros va Hva; by eapply boot_low|]].
    2: { intros Hf Hg x Hx. pose proof (num_pdpt_covers g ltac:(lia)).
         rewrite (boot_low _ _ _ _ BT7) by (unfold GB in *; lia). by destruct (Z.ltb_spec x (num_pdpt g * GB)); [|lia]. }
    apply (mode_at_ext m5); [|done]. intros a Ha. rewrite Hm; [|by auto|unfold span in *; lia].
    apply Hb5, Hbt. unfold span in *. lia.
Qed.

(** From the loaded kernel to the jump. *)
Lemma finish_ends locals table entries entry s0 sl s : avail (bfw s) (Pool (BOOTINFO_SIZE + map_max)) →
  (∀ a, span locals 32 a → mine (bfw s0) a) → frame (λ _, True) s0 sl →
  tables_clear (bmem s) → fresh pt_base 0x20000 s0 sl → frame (λ _, True) sl s →
  image_in (elf_phnum file) sl s → entry = elf_entry file →
  ends (¬ G) (close_files fw ;;
    g ← locate_gop fw;
    b ← alloc_pool fw BOOTINFO_SIZE;
    fill_bootinfo locals table entries b g ;;
    on_mem (build_tables g) ;;
    leave_firmware fw b ;;
    mret (Handoff pt_base b entry)) (λ h s', handed_over h (bmem s')) s.
Proof.
  intros Hq Hl H0 Hz Ht' Hls Him He.
  destruct (fl_close s) as (s1 & E1 & [F1 A1]). eapply ends_step; [exact E1|].
  destruct (fl_gop s1) as (g & s2 & E2 & [F2 A2]). eapply ends_step; [exact E2|].
  destruct (fl_pool BOOTINFO_SIZE map_max s2) as (b & s3 & E3 & F3 & _ & Q3 & Fr & Hb & _).
  { unfold BOOTINFO_SIZE. lia. }
  { pose proof (fl_need (bfw s)). lia. }
  { apply A2; [|by intros []]. by apply A1; [|intros []]. }
  eapply ends_step; [exact E3|].
  assert (frame nowhere s s3) as F03 by (eapply frame_trans; [exact F1|]; by eapply frame_trans).
  assert (∀ a, span b 56 a → ¬ mine (bfw s) a) as Hbs by (intros a Hs Ha; by apply (proj1 (Fr a Hs)), F2, F1).
  assert (∀ a, span pt_base 0x20000 a → mine (bfw s) a) as Hts by (intros a Ha; by apply Hls, Ht').
  destruct (fill_bootinfo_run locals table entries b g s3) as (m5 & E5 & I5 & O5).
  { intros a Hs Ha. by apply (Hbs a), Hls, H0, Hl. }
  eapply ends_step; [exact E5|]. eapply ends_step; [reflexivity|]. cbn [bmem bfw].
  set (s6 := Boot (build_tables g m5) (bfw s3)).
  (* what is neither on the stack nor new keeps its contents up to here *)
  assert (∀ a, mine (bfw s) a → ¬ mine (bfw s0) a → rd8 m5 a = rd8 (bmem s) a) as Hkeep.
  { intros a Ha Hn. rewrite O5; [by apply frame_same| |].
    - intros Hs. by apply (Hbs a).
    - intros Hs. by apply Hn, Hl. }
  apply ends_bind. eapply ends_mono; [apply (leave_ends b s6)|].
  { done. }
  { intros a Ha. by apply Fr. }
  intros [] s7 F7. apply ends_ret. apply (handed_over_intro b g entry m5 _ sl s); try done.
  - intros a Ha. assert (span pt_base 0x20000 a) as Hs by (unfold span; lia).
    rewrite Hkeep; [by apply Hz|by apply Hts|by apply Ht'].
  - intros a Hs Ha. by apply (Hbs a), Hts.
  - intros a Ha. by apply Ht'.
  - intros a Ha Hn. destruct (F7 a) as [_ E]; [|by apply E].
    destruct Ha as [Ha|[Ha|Ha]]; [by apply F03, Hts|apply Fr; unfold span, BOOTINFO_SIZE in *; lia|by apply F03].
  - intros a Ha Hn. apply Hkeep; [done|]. intros Hc. by apply Hn, H0.
Qed.

Lemma efi_main_ends eh locals table entries s : (G → segs_apart) →
  (G → ∀ x, span pt_base 0x20000 x → avail (bfw s) (At x)) →
  (G → ∀ k x, 0 <= k < elf_phnum file → seg_span (elf_seg file k) x → avail (bfw s) (At x) ∧ ¬ span pt_base 0x20000 x) →
  avail (bfw s) (Pool (elf_phnum file * 56 + (BOOTINFO_SIZE + map_max))) →
  (∀ a, span eh 64 a ∨ span locals 32 a → mine (bfw s) a) →
  ends (¬ G) (efi_main fw eh locals table entries) (λ h s', handed_over h (bmem s')) s.
Proof.
  intros Hap Hpt Hseg Hq Hst.
  unfold efi_main. destruct (fl_alloc pt_base 32 s) as (ok & s1 & E1 & F1 & A1 & R1). eapply ends_step; [exact E1|].
  destruct ok; [|intros g; by apply R1, Hpt]. eapply ends_step; [reflexivity|]. eapply ends_step; [reflexivity|].
  set (s2 := Boot (clear_boot_tables (bmem s1)) (bfw s1)). destruct (tables_cleared (bmem s1)) as [Z2 O2].
  apply ends_bind. eapply ends_mono; [apply (open_kernel_ends s2)|]. intros [] s3 [[F3 A3] P3].
  assert (fresh pt_base 0x20000 s s3) as T3.
  { intros a Ha. destruct (R1 a Ha). split; [done|]. by apply F3. }
  assert (frame (λ _, True) s s3) as F03.
  { intros a Ha. split; [|done]. by apply F3, F1. }
  apply ends_bind. eapply ends_mono; [apply (load_kernel_ends eh (BOOTINFO_SIZE + map_max) s3)|]; [|done| | |done|..].
  { pose proof (fl_need (bfw s)). unfold BOOTINFO_SIZE. lia. }
  { intros g k x Hk Hx. destruct (Hseg g k x Hk Hx). apply A3; [|by intros []]. by apply A1. }
  { apply A3; [|by intros []]. by apply A1; [exact Hq|intros []]. }
  { intros a Ha. apply F03, Hst. by left. }
  intros [] s4 (F4 & Q4 & I4 & H4). eapply ends_step; [reflexivity|]. cbv beta.
  apply (finish_ends locals table entries _ s s3 s4); try done.
  - intros a Ha. apply Hst. by right.
  - intros a Ha. assert (span pt_base 0x20000 a) as Hs by (unfold span; lia). destruct (T3 a Hs) as [N3 M3].
    destruct (F4 a M3) as [_ E]. rewrite E by (intros Hs'; apply N3, Hst; by left).
    rewrite (frame_same s2 s3) by (done || (apply R1; unfold span in *; lia)). by apply Z2.
  - eapply frame_weaken; [|exact F4]. done.
  - unfold eh_entry. apply rdn_fdn. intros i Hi. rewrite <-Z.add_assoc. rewrite H4 by lia. done.
Qed.
End loading.

(** What must be granted for the loader to get to its end: files and the exit
    succeed, and the memory for the page tables and for the segments is free
    and apart. *)
Record granted {F} (avail : F → resource → Prop) (file : Z → Z) (coop : Prop) (s : boot F) : Prop := {
  gr_coop : coop;
  gr_tables : ∀ x, span pt_base 0x20000 x → avail (bfw s) (At x);
  gr_segs : ∀ k x, 0 <= k < elf_phnum file → seg_span (elf_seg file k) x → avail (bfw s) (At x) ∧ ¬ span pt_base 0x20000 x;
  gr_apart : segs_apart file
}.


(** ** A firmware

    It grants requests by address below 1 TiB and takes pool memory from
    there upwards. *)
Module Sample.

Record state := St { given : Z → bool; used : N; fpos : Z }.
Definition next (f : state) : Z := 2 ^ 40 + Z.of_N (used f).
Definition mine (f : state) (x : Z) : Prop := (x < 2 ^ 40 ∧ given f x = true) ∨ 2 ^ 40 <= x < next f.
Definition avail (f : state) (r : resource) : Prop :=
  match r with At x => x < 2 ^ 40 ∧ given f x = false | Pool n => next f + n < 2 ^ 64 end.
Definition free (f : state) (a n : Z) : bool := forallb (λ x, (x <? 2 ^ 40) && negb (given f x)) (seqZ a n).

(** The bytes of an executable with one segment: eight bytes at 1 MiB, four
    of them in the file. *)
Definition elf : list Z :=
  [0x7F; 69; 76; 70] ++ replicate 12 0 ++ [2; 0; 0x3E; 0] ++ replicate 4 0 ++ [0; 0; 16; 0; 0; 0; 0; 0] ++
  [64] ++ replicate 7 0 ++ replicate 16 0 ++ [1; 0] ++ replicate 6 0 ++
  [1; 0; 0; 0; 0; 0; 0; 0] ++ [120] ++ replicate 7 0 ++ replicate 8 0 ++ [0; 0; 16; 0; 0; 0; 0; 0] ++
  [4] ++ replicate 7 0 ++ [8] ++ replicate 7 0 ++ replicate 8 0 ++ [0xEB; 0xFE; 0x90; 0x90].
Definition file (o : Z) : Z := nth (Z.to_nat o) elf 0.

Fixpoint read_loop (n : nat) (o buf : Z) (m : memory) : memory :=
  match n with O => m | S n' => read_loop n' (o + 1) (buf + 1) (wr8 m buf (file o)) end.

Definition services : firmware state := {|
  alloc_address := λ a n s, let f := bfw s in
    if free f a (n * 4096)
    then Ok true (Boot (bmem s) (St (λ x, (a <=? x) && (x <? a + n * 4096) || given f x) (used f) (fpos f)))
    else Ok false s;
  alloc_pool := λ n s, let f := bfw s in
    Ok (next f) (Boot (bmem s) (St (given f) (used f + Z.to_N n) (fpos f)));
  loaded_image := mret true;
  filesystem := mret true;
  open_volume := mret true;
  open_file := λ _ s, Ok true (Boot (bmem s) (St (given (bfw s)) (used (bfw s)) 0));
  set_position := λ p s, Ok tt (Boot (bmem s) (St (given (bfw s)) (used (bfw s)) p));
  read_file := λ n buf s, Ok tt (Boot (read_loop (Z.to_nat n) (fpos (bfw s)) buf (bmem s))
    (St (given (bfw s)) (used (bfw s)) (fpos (bfw s) + n)));
  close_files := mret tt;
  locate_gop := mret (Gop 0x80000000 1024 768 1024);
  get_memory_map := λ n _, mret (480 <=? n, 480, 7, 48);
  exit_boot_services := λ _, mret true
|}.

Lemma read_loop_spec n o buf m a : rd8 (read_loop n o buf m) a =
  if decide (buf <= a < buf + Z.of_nat n) then u8 (file (o + (a - buf))) else rd8 m a.
Proof.
  revert o buf m. induction n as [|n IH]; intros o buf m; cbn [read_loop]; [by rewrite decide_False by lia|].
  rewrite IH, rd8_wr8. repeat case_decide; try lia; subst; try done; do 2 f_equal; lia.
Qed.

Lemma file_byte o : 0 <= file o < 256.
Proof.
  unfold file. destruct (nth_in_or_default (Z.to_nat o) elf 0) as [H| ->]; [|lia].
  apply list_elem_of_In in H. revert H. revert o. assert (Forall (λ v, 0 <= v < 256) elf) as Hf
    by (apply (bool_decide_unpack _); by vm_compute).
  intros o. by apply (proj1 (Forall_forall _ _) Hf).
Qed.

Lemma elf_is_ok : elf_ok file 124.
Proof.
  split; [apply file_byte|done|done|done|by vm_compute|]. intros i Hi.
  change (elf_phnum file) with 1 in Hi. replace i with 0 by lia. by vm_compute.
Qed.

Lemma free_spec f a n : free f a n = true ↔ ∀ x, span a n x → avail f (At x).
Proof.
  unfold free, span. rewrite forallb_forall. split; intros H x Hx.
  - specialize (H x). rewrite <-list_elem_of_In, elem_of_seqZ in H. specialize (H Hx).
    apply andb_true_iff in H as [H1 H2]. split; [lia|]. by apply negb_true_iff.
  - apply list_elem_of_In, elem_of_seqZ in Hx. destruct (H x Hx) as [H1 H2]. rewrite H2. lia.
Qed.

(** A service that leaves the state alone but for the position. *)
Lemma quiet_same R m s p : (∀ a, ¬ R a → rd8 m a = rd8 (bmem s) a) →
  quiet mine avail R s (Boot m (St (given (bfw s)) (used (bfw s)) p)).
Proof. intros H. split; [intros a Ha; by split; [|apply H]|by intros [] ??]. Qed.

#[global] Instance services_ok : FirmwareOk mine avail services file 124 fpos (λ _, 480) 48 1000 True.
Proof.
  split.
  - lia.
  - intros a n [m [gv u p]]. cbn [alloc_address services bfw bmem given used fpos].
    destruct (free (St gv u p) a (n * 4096)) eqn:E; eexists _, _; (split; [reflexivity|]); split_and!.
    + intros x Hx. split; [|done]. destruct Hx as [[H1 H2]|H]; [left|by right]. cbn in *. rewrite H2. split; [done|apply orb_true_r].
    + intros [x|x] Hx Hn; [|done]. cbn in Hx, Hn |- *. unfold span in Hn. split; [lia|]. destruct Hx as [_ ->]. lia.
    + intros x Hx. pose proof (proj1 (free_spec _ _ _) E x Hx) as [H1 H2]. cbn in H2. unfold span in Hx. split.
      * intros [[_ H]|H]; cbn in H; [congruence|unfold next in H; lia].
      * left. cbn. split; [lia|]. lia.
    + intros x Hx. done.
    + by intros [] ??.
    + intros H. apply free_spec in H. cbn [bfw] in H. congruence.
  - intros n k [m [gv u p]] Hn Hk0 Hk. unfold avail, next in Hk. cbn [bfw used] in Hk.
    eexists _, _. split; [reflexivity|]. unfold fresh, span, frame, stays, mine, avail, next.
    cbn [bfw bmem used given fpos]. split_and!; try lia.
    + intros x [Hx|Hx]; (split; [|done]); [by left|right; lia].
    + by intros [x|x] Hx Hn'; [|destruct Hn'].
  - intros s. eexists true, s. by split_and!; [|destruct s as [? []]; apply quiet_same|].
  - intros s. eexists true, s. by split_and!; [|destruct s as [? []]; apply quiet_same|].
  - intros s. eexists true, s. by split_and!; [|destruct s as [? []]; apply quiet_same|].
  - intros name s. eexists _, _. split; [reflexivity|]. split; [by apply quiet_same|done].
  - intros p s. eexists. split; [reflexivity|]. split; [by apply quiet_same|done].
  - intros n buf s _ Hp _. eexists. split; [reflexivity|]. split; [apply quiet_same|]; intros a; unfold span; intros Ha; cbn [bmem].
    + rewrite read_loop_spec. case_decide; [lia|done].
    + rewrite read_loop_spec, decide_True by lia. apply u8_small, file_byte.
  - intros s. eexists. split; [reflexivity|]. by destruct s as [? []]; apply quiet_same.
  - intros s. eexists _, _. split; [reflexivity|]. by destruct s as [? []]; apply quiet_same.
  - intros n buf s. eexists _, _, _. split; [reflexivity|]. split; [by destruct s as [? []]; apply quiet_same|]. split; [done|lia].
  - intros key s. eexists true, _. split; [reflexivity|]. split; [by destruct s as [? []]; apply quiet_same|done].
Qed.

(** The stack is one page below 1 MiB. *)
Definition start : boot state := Boot ∅ (St (λ x, (0x70000 <=? x) && (x <? 0x71000)) 0 0).
End Sample.

