(* ===== verification/Main.v ===== *)
(** * Kernel entry (kernel/kernel.c)

    [kernel_main] starts the components one after the other.  The state is
    that of System.v together with the processor's registers, the display's
    variables and those of the early page tables; memory and CR3 are those of
    the kernel state, and the lenses put them in and take them out.  Console
    output of components whose own files leave it out is left out here too. *)
From stdpp Require Import base gmap list list_numbers strings.
From Stdlib Require Import ZArith Lia.
From S2P Require Import Prelude Monad Mem Display Devices Rtc Klog Acpi Irq Pmm Vmm Paging Kmalloc Keyboard Kernel Task Process Syscall Cpu System.

Definition SCREEN_BG : Z := 0x00303030.
Definition TIMER_HZ : Z := 100.
Definition SPAWN_IMAGE_HELLO : Z := 0.
Definition SPAWN_IMAGE_BURN : Z := 1.

Record computer (D : Type) := Computer {
  m_os : os D;
  m_cpu : cpu;
  m_disp : display;
  m_paging : paging
}.
Arguments Computer {D}.
Arguments m_os {D}.
Arguments m_cpu {D}.
Arguments m_disp {D}.
Arguments m_paging {D}.

Section lenses.
Context {D : Type}.
Implicit Types s : computer D.

Definition mkernel s : kernel := o_kernel (m_os s).
Definition mmem s : memory := kmem (mkernel s).
Definition set_kernel (k : kernel) s : computer D :=
  Computer (lset k_lens k (m_os s)) (m_cpu s) (m_disp s) (m_paging s).
Definition set_cr3 (c : Z) (v : vmm) : vmm := Vmm (phys v) (kernel_pml4 v) c (flushed v).

Definition sys_lens : lens (computer D) (os D) :=
  Lens m_os (λ o s, Computer o (m_cpu s) (m_disp s) (m_paging s)).
Definition mk_lens : lens (computer D) kernel := Lens mkernel set_kernel.
Definition mem_lens : lens (computer D) memory :=
  Lens mmem (λ m s, set_kernel (set_kmem m (mkernel s)) s).
Definition disp_lens : lens (computer D) display :=
  Lens (λ s, set_dmem (mmem s) (m_disp s)) (λ d s,
    let s := set_kernel (set_kmem (dmem d) (mkernel s)) s in Computer (m_os s) (m_cpu s) d (m_paging s)).
(** [cpu] and [paging] share CR3 with the kernel state. *)
Definition cpu_lens : lens (computer D) cpu :=
  Lens (λ s, let c := m_cpu s in
         Cpu (mmem s) (gdtr c) (idtr c) (tr c) (cs c) (data_seg c) (cr3 (kvmm (mkernel s))) (kernel_gs_base c))
       (λ c s,
         let k := mkernel s in
         let s := set_kernel (set_kvmm (set_cr3 (cpu_cr3 c) (set_vmem (cmem c) (kvmm k))) k) s in
         Computer (m_os s) c (m_disp s) (m_paging s)).
Definition paging_lens : lens (computer D) paging :=
  Lens (λ s, let p := m_paging s in
         Paging (mmem s) (pml4 p) (pdpt p) (next_free_table p) (paging_arena_end p) (kernel_cr3 p)
                (cr3 (kvmm (mkernel s))) (efer p))
       (λ p s,
         let k := mkernel s in
         let s := set_kernel (set_kvmm (set_cr3 (hw_cr3 p) (set_vmem (pgmem p) (kvmm k))) k) s in
         Computer (m_os s) (m_cpu s) (m_disp s) p).
(** The ACPI tables are read from the same memory. *)
Definition acpi_lens : lens (computer D) acpi :=
  Lens (λ s, let a := o_acpi (m_os s) in
         Acpi (mmem s) (rsdt a) (xsdt a) (g_madt a) (g_pm1a_cnt_port a) (g_pm1b_cnt_port a) (g_slp_typa a)
              (g_slp_typb a) (g_smi_cmd a) (g_acpi_enable a) (g_have_acpi_poweroff a) (notes a))
       (λ a s, let o := m_os s in
         Computer (Os (o_kernel o) (o_irq o) (o_log o) a (o_timer o) (o_kbd o) (o_if o))
                  (m_cpu s) (m_disp s) (m_paging s)).
End lenses.

(** [for (i = 0; i < n; i++) p[i] = v;] for a [uint32_t* p]. *)
Fixpoint fill32 (n : nat) (p v : Z) (m : memory) : memory :=
  match n with O => m | S n' => fill32 n' (p + 4) v (wr32 m p v) end.

(** The rows of [clear_framebuffer] from [y] on; [y * pixels_per_scanline] is
    computed in [uint32_t]. *)
Fixpoint clear_fb_rows (n : nat) (y : Z) (bi : BootInfo) (m : memory) : memory :=
  match n with
  | O => m
  | S n' =>
      let row := framebuffer bi + 4 * u32 (y * pixels_per_scanline bi) in
      clear_fb_rows n' (y + 1) bi (fill32 (Z.to_nat (pixels_per_scanline bi)) row SCREEN_BG m)
  end.

Definition clear_framebuffer (bi : BootInfo) (m : memory) : memory :=
  clear_fb_rows (Z.to_nat (height bi)) 0 bi m.

Definition conventional_ram_bytes (bi : BootInfo) (m : memory) : Z :=
  fold_left (λ n d, if desc_Type m d =? 7 then u64 (n + u64 (desc_NumberOfPages m d * 4096)) else n)
    (descriptors bi) 0.

Section kernel.
Context {D : Type} (hw : machine D) (fuel : nat) (hello burn : Z * Z).
(** Addresses of the static objects, of the kernel image and of the two
    kernel tasks. *)
Context (k : symbols) (kernel_start kernel_end kernel_as shell_task idle_task : Z).

Definition on_sys {A} (m : M (os D) A) : M (computer D) A := zoom sys_lens m.
Definition on_kernel {A} (m : M kernel A) : M (computer D) A := zoom mk_lens m.
Definition mprint (t : string) : M (computer D) unit := on_kernel (Kernel.print t).
Definition mprint_dec (n : Z) : M (computer D) unit := on_kernel (Kernel.print_dec n).
Definition mprint_hex (n : Z) : M (computer D) unit := on_kernel (Kernel.print_hex n).
Definition on_cpu (f : cpu → cpu) : M (computer D) unit := zoom cpu_lens (modify f).
Definition on_memory (f : memory → memory) : M (computer D) unit := zoom mem_lens (modify f).

Definition print_total_ram (bi : BootInfo) : M (computer D) unit :=
  n ← gets (λ s, conventional_ram_bytes bi (mmem s));
  mprint "Usable RAM: " ;; mprint_dec (n / (1024 * 1024)) ;; mprint " MiB\n".

Definition print_descriptor (bi : BootInfo) (i : Z) : M (computer D) unit :=
  m ← gets mmem;
  let desc := memory_map bi + i * memory_map_descriptor_size bi in
  mprint "Type " ;; mprint_dec (desc_Type m desc) ;;
  mprint " | Addr " ;; mprint_hex (desc_PhysicalStart m desc) ;;
  mprint " | Pages " ;; mprint_dec (desc_NumberOfPages m desc) ;; mprint "\n".

Definition print_memory_map (bi : BootInfo) (limit : Z) : M (computer D) unit :=
  let entries := memory_map_size bi / memory_map_descriptor_size bi in
  let limit := if entries <? limit then entries else limit in
  mprint "Memory Map Entries:\n" ;;
  for_range 0 limit (print_descriptor bi).

Definition print_boot_summary (bi : BootInfo) : M (computer D) unit :=
  mprint "SamOS Kernel\n\n" ;;
  print_total_ram bi ;;
  mprint "Memory map size: " ;; mprint_dec (memory_map_size bi) ;;
  mprint "\nDescriptor size: " ;; mprint_dec (memory_map_descriptor_size bi) ;;
  mprint "\nFramebuffer: " ;; mprint_hex (framebuffer bi) ;;
  mprint "\nKernel start: " ;; mprint_hex kernel_start ;;
  mprint "\nKernel end: " ;; mprint_hex kernel_end ;;
  mprint "\n\n" ;;
  print_memory_map bi 16 ;;
  mprint "\n".

Definition init_display (bi : BootInfo) : M (computer D) unit :=
  zoom disp_lens (display_init (framebuffer bi) (width bi) (height bi) (pixels_per_scanline bi)) ;;
  on_memory (clear_framebuffer bi).

Definition rtc_init : M (os D) unit := log_call (klog_info hw fuel (Some (chars "RTC: CMOS wall clock ready"))).

Definition init_irq_devices : M (computer D) unit :=
  on_sys (zoom irq_lens (irq_controller_init hw)) ;;
  on_sys (timer_init hw TIMER_HZ) ;;
  on_sys (keyboard_init hw fuel) ;;
  on_sys rtc_init.

(** [shadow = pmm_alloc_pages(fb_pages)] and filling it. *)
Definition init_shadow : M (computer D) unit :=
  h ← zoom disp_lens display_get_height;
  p ← zoom disp_lens display_get_pitch;
  let fb_pixels := u64 (h * p) in
  let fb_bytes := u64 (fb_pixels * 4) in
  let fb_pages := u64 (u64 (fb_bytes + PAGE_SIZE) - 1) / PAGE_SIZE in
  shadow ← on_kernel (zoom pmm_lens (lift (pmm_alloc_pages fb_pages)));
  kassert (negb (shadow =? 0)) "display shadow buffer allocation failed" ;;
  zoom disp_lens (display_set_shadow shadow) ;;
  on_memory (fill32 (Z.to_nat fb_pixels) shadow SCREEN_BG).

Definition pmm_start (bi : BootInfo) : M (computer D) unit :=
  modify (λ s, lset mk_lens (lset pmm_lens
    (pmm_init kernel_end (paging_arena_end (m_paging s)) bi (mmem s)) (mkernel s)) s).

Definition init_memory (bi : BootInfo) : M (computer D) unit :=
  zoom paging_lens (modify (paging_init kernel_end bi)) ;;
  on_cpu (gdt_init k) ;;
  on_cpu (tss_init k) ;;
  pmm_start bi ;;
  on_kernel (zoom heap_lens (kmalloc_init fuel)) ;;
  init_shadow ;;
  on_kernel (zoom vmm_lens vmm_init) ;;
  mprint "VMM initialized\n".

Definition smoke_flags : Z := Z.lor (Z.lor VMM_FLAG_PRESENT VMM_FLAG_WRITE) VMM_FLAG_USER.

Definition run_memory_smoke_tests : M kernel unit :=
  page ← zoom pmm_lens (lift pmm_alloc_page);
  kassert (negb (page =? 0)) "PMM smoke test: allocation failed" ;;
  kassert (Z.land page (PAGE_SIZE - 1) =? 0) "PMM smoke test: page is not aligned" ;;
  zoom pmm_lens (modify (pmm_free_page page)) ;;
  test_as ← zoom vmm_lens vmm_create_address_space;
  kassert (negb (test_as =? 0)) "VMM smoke test: address space allocation failed" ;;
  phys ← zoom pmm_lens (lift pmm_alloc_page);
  kassert (negb (phys =? 0)) "VMM smoke test: backing page allocation failed" ;;
  let test_va := 0x8000000000 in
  zoom vmm_lens (vmm_map test_as test_va phys smoke_flags) ;;
  got ← gets (λ s : kernel, vmm_virt_to_phys test_as test_va (kvmm s));
  kassert (got =? phys) "VMM smoke test: virtual address did not resolve" ;;
  zoom vmm_lens (vmm_unmap test_as test_va) ;;
  zoom pmm_lens (modify (pmm_free_page phys)) ;;
  zoom vmm_lens (vmm_destroy_address_space test_as) ;;
  Kernel.print "PMM/VMM smoke tests passed\n".

Definition run_heap_smoke_tests : M (os D) unit :=
  small ← zoom k_lens (zoom heap_lens (kmalloc fuel 24));
  medium ← zoom k_lens (zoom heap_lens (kmalloc fuel 800));
  zeroed ← zoom k_lens (zoom heap_lens (kzalloc fuel 64));
  kassert (negb (small =? 0)) "heap smoke test: small allocation failed" ;;
  kassert (negb (medium =? 0)) "heap smoke test: medium allocation failed" ;;
  kassert (negb (zeroed =? 0)) "heap smoke test: zeroed allocation failed" ;;
  kassert (Z.land small 0xF =? 0) "heap smoke test: small allocation alignment failed" ;;
  kassert (Z.land medium 0xF =? 0) "heap smoke test: medium allocation alignment failed" ;;
  for_range 0 64 (λ i,
    z ← gets (λ s, rd8 (kmem (o_kernel s)) (zeroed + i));
    kassert (z =? 0) "heap smoke test: kzalloc returned dirty memory") ;;
  zoom k_lens (zoom heap_lens (kfree fuel small)) ;;
  zoom k_lens (zoom heap_lens (kfree fuel medium)) ;;
  zoom k_lens (zoom heap_lens (kfree fuel zeroed)) ;;
  log_call (klog_info hw fuel (Some (chars "Heap smoke tests passed"))).

Definition enable_interrupts : M (os D) unit :=
  zoom irq_lens (irq_unmask hw 0) ;;
  zoom irq_lens (irq_unmask hw 1) ;;
  modify (set_if true).

Definition print_irq_boot_banner : M (os D) unit :=
  oprint "IRQ diagnostics:\n" ;;
  oprint "  backend: " ;;
  i ← gets o_irq;
  oprint_text (irq_controller_name i) ;; oprint "\n" ;;
  oprint "  vector map: IRQ0->0x20 IRQ1->0x21\n" ;;
  oprint "  timer source: PIT " ;;
  hz ← timer_get_frequency;
  oprint_dec hz ;; oprint " Hz\n" ;;
  irq_dump_routes.

(** Tasks and processes, up to the keyboard's wake-up. *)
Definition start_tasks : M (os D) unit :=
  zoom k_lens (modify task_init) ;;
  zoom k_lens (modify process_init) ;;
  shell_id ← zoom k_lens (task_create_kernel fuel kernel_as shell_task);
  zoom k_lens (task_create_kernel fuel kernel_as idle_task) ;;
  modify (λ s, lset kbd_lens (keyboard_set_shell_task shell_id (o_kbd s)) s) ;;
  zoom k_lens (process_spawn_builtin fuel hello burn SPAWN_IMAGE_HELLO) ;;
  zoom k_lens (process_spawn_builtin fuel hello burn SPAWN_IMAGE_BURN) ;;
  mret tt.

(** [None] is the halt on a null pointer; otherwise control is at
    [schedule()], which enters the first task and does not return. *)
Definition kernel_main (bootInfo : option BootInfo) : M (computer D) unit :=
  match bootInfo with
  | None => panic "halt_forever"
  | Some bi =>
      on_sys (log_call (klog_init hw fuel)) ;;
      init_display bi ;;
      kassert (negb (framebuffer bi =? 0)) "bootinfo: missing framebuffer" ;;
      kassert (negb (memory_map bi =? 0)) "bootinfo: missing memory map" ;;
      kassert (negb (memory_map_descriptor_size bi =? 0)) "bootinfo: invalid memory map descriptor size" ;;
      print_boot_summary bi ;;
      on_cpu (init_descriptor_tables k) ;;
      init_irq_devices ;;
      init_memory bi ;;
      on_kernel run_memory_smoke_tests ;;
      on_sys run_heap_smoke_tests ;;
      zoom acpi_lens (acpi_init fuel (rsdp bi)) ;;
      ac ← gets (λ s, lget acpi_lens s);
      on_sys (zoom irq_lens (irq_try_enable_apic hw ac)) ;;
      on_sys (i ← gets o_irq; oprint "IRQ mode: " ;; oprint_text (irq_controller_name i) ;; oprint "\n") ;;
      on_sys print_irq_boot_banner ;;
      healthy ← gets (λ s, irq_backend_health (o_irq (m_os s)));
      (if healthy : bool then mret tt
       else on_sys (log_call (klog_warn hw fuel
         (Some (chars "IRQ backend health has faults; safe-mode fallback recommended next boot"))))) ;;
      on_sys start_tasks ;;
      on_sys enable_interrupts ;;
      on_kernel (put Clear) ;;
      mprint "SamOS\n" ;;
      on_kernel (put Flush)
  end.
End kernel.

(** ** Starting memory management *)

(** Filling an array of words. *)
Lemma fill32_spec n p v m : same_outside p (p + 4 * Z.of_nat n) m (fill32 n p v m) ∧
  ∀ i, 0 <= i < Z.of_nat n → rd32 (fill32 n p v m) (p + 4 * i) = u32 v.
Proof.
  revert p m. induction n as [|n IH]; intros p m; cbn [fill32].
  { split; [by intros a Ha|lia]. }
  destruct (IH (p + 4) (wr32 m p v)) as [O R]. split.
  - intros a Ha. rewrite O by lia. apply rd8_wrn_out. lia.
  - intros i Hi. destruct (decide (i = 0)) as [->|].
    + rewrite Z.mul_0_r, Z.add_0_r. rewrite (rd32_same_outside _ _ _ _ _ O) by lia. apply rd32_wr32_eq.
    + replace (p + 4 * i) with (p + 4 + 4 * (i - 1)) by lia. apply R. lia.
Qed.

(** The pages of a range are in use, and hold no part of the bitmap. *)
Definition held (p : pmm) (lo hi : Z) : Prop :=
  ∀ y, lo <= y < hi → ¬ (bitmap p <= y < bitmap p + bitmap_size p) ∧
    (y / PAGE_SIZE < total_pages p → own_page p (y / PAGE_SIZE * PAGE_SIZE)).

(** An allocation followed by a write to the new pages leaves held ranges
    alone. *)
Lemma alloc_write_keeps n p a p' m' lo hi : phys_ok p → 0 <= n → pmm_alloc_pages n p = (a, p') → a ≠ 0 →
  same_outside a (a + n * PAGE_SIZE) (mem p') m' → held p lo hi →
  held (set_mem m' p') lo hi ∧ total_pages p' = total_pages p ∧ ∀ y, lo <= y < hi → rd8 m' y = rd8 (mem p) y ∧ ¬ (a <= y < a + n * PAGE_SIZE).
Proof.
  intros P Hn E Ha Ho H.
  destruct (pages_alloc_own n p a p' P Hn E) as [[-> _]|(_ & _ & _ & P' & Om & Of & Bm)]; [done|].
  destruct (pmm_alloc_pages_cases n p a p' (po_wf _ P) Hn E) as [[-> _]|(j & _ & _ & _ & _ & _ & _ & Fr & _)]; [done|].
  pose proof Fr as [Fb Fs Ft _].
  destruct (heap_write p' m' a (a + n * PAGE_SIZE) P') as [_ Ow]; [intros x Hx; by apply Of|done|].
  assert (∀ y, lo <= y < hi → ¬ (a <= y < a + n * PAGE_SIZE)) as Hap.
  { intros y Hy Hin. destruct (Of y Hin) as [(q & Eq & Hq & _) Hno]. apply Hno, (H y Hy).
    rewrite <-Ft. assert (q = y / PAGE_SIZE) as <- by (unfold PAGE_SIZE in *; lia). lia. }
  split_and!; [|done|].
  - intros y Hy. destruct (H y Hy) as [H1 H2]. cbn [bitmap bitmap_size total_pages set_mem]. rewrite Fb, Fs, Ft.
    split; [done|]. intros Ht. by apply Ow, Om, H2.
  - intros y Hy. pose proof (Hap y Hy) as Hn'. split; [|done]. rewrite Ho by lia. apply Bm.
    destruct (H y Hy) as [H1 _]. lia.
Qed.

(** The new pages are held themselves. *)
Lemma alloc_write_held n p a p' m' : phys_ok p → 0 <= n → pmm_alloc_pages n p = (a, p') → a ≠ 0 →
  same_outside a (a + n * PAGE_SIZE) (mem p') m' →
  phys_ok (set_mem m' p') ∧ (∀ u, own_page p u → own_page (set_mem m' p') u) ∧ 0 < a ∧
  held (set_mem m' p') a (a + n * PAGE_SIZE) ∧
  ∀ x, a <= x < a + n * PAGE_SIZE → own_page (set_mem m' p') (x / PAGE_SIZE * PAGE_SIZE).
Proof.
  intros P Hn E Ha Ho.
  destruct (pages_alloc_own n p a p' P Hn E) as [[-> _]|(Ha0 & _ & _ & P' & Om & Of & _)]; [done|].
  destruct (heap_write p' m' a (a + n * PAGE_SIZE) P') as [Pw Ow]; [intros x Hx; by apply Of|done|].
  assert (∀ x, a <= x < a + n * PAGE_SIZE → own_page (set_mem m' p') (x / PAGE_SIZE * PAGE_SIZE)) as Hx
    by (intros x Hx; by apply Ow, Of).
  split_and!; [done|intros u Hu; by apply Ow, Om|done| |done].
  intros y Hy. split; [by apply own_byte, Hx|]. intros _. by apply Hx.
Qed.

Lemma early_tables_agree m m' T K max : early_tables m T K max → 0 <= K <= 512 →
  (∀ a, T <= a < T + 4096 * (K + 4) → rd8 m' a = rd8 m a) → early_tables m' T K max.
Proof.
  intros [E1 E2 E3 E4 E5 E6 E7 E8] HK H.
  assert (∀ a, T <= a → a + 8 <= T + 4096 * (K + 4) → rd64 m' a = rd64 m a) as Hr
    by (intros a ??; apply rdn_ext; intros i Hi; apply H; lia).
  split; intros; rewrite Hr by lia; auto.
Qed.

(** The early tables as the tables of an address space. *)
Lemma early_root_wf v T K max : 0 < T → T `mod` 4096 = 0 → T + 4096 * 516 <= 2 ^ 52 → 0 < max <= 2 ^ 39 →
  max <= K * GB < max + GB → early_tables (vmem v) T K max → held (phys v) T (T + 4096 * (K + 4)) →
  T + 4096 * (K + 4) <= total_pages (phys v) * PAGE_SIZE → root_wf v T.
Proof.
  intros HT HTa HTb Hm HK E Hh Ht. pose proof (K_range K max Hm HK) as KR.
  assert (∀ p t, okp p → walk (vmem v) T p = Some t → ∃ n, place K p = Some n ∧ t = T + 4096 * n ∧ 0 <= n < K + 4) as W.
  { intros p t Hp. rewrite (early_walk T K max HT HTa HTb Hm HK _ p E Hp). destruct (place K p) as [n|] eqn:Ep; [|done].
    intros [= <-]. exists n. pose proof (place_range K max Hm HK p n Ep Hp). done. }
  split.
  - intros p t Hp _ Hw. destruct (W p t Hp Hw) as (n & _ & -> & Hn).
    destruct (Hh (T + 4096 * n)) as [_ H]; [lia|]. unfold PAGE_SIZE in *.
    replace ((T + 4096 * n) / 4096 * 4096) with (T + 4096 * n) in H by arith. apply H. arith.
  - intros p q t Hp Hq _ _ Hw Hw'. destruct (W p t Hp Hw) as (n & Ep & -> & _).
    destruct (W q _ Hq Hw') as (n' & Eq & Hnn & _). assert (n' = n) as -> by lia. by eapply (place_inj K max).
  - intros p t i Hp Hl Hi Hw Hn. destruct (W p t Hp Hw) as (n & Ep & -> & _).
    destruct (decide (length p = 2%nat)) as [H2|].
    { destruct p as [|a [|b [|? ?]]]; try done. apply Forall_cons in Hp as [Ha [Hb _]%Forall_cons].
      destruct Hn. exact (next_third T K max Hm HK _ a b i n E Ha Hb Hi Ep). }
    destruct (upper_entry T K max Hm HK _ p n i E Hp ltac:(lia) Ep Hi) as [-> |(n' & Hn' & ->)]; [done|].
    apply (lor_range _ 3 52); lia.
  - intros p t i Hp Hl Hi Hw Hpr. destruct (W p t Hp Hw) as (n & Ep & -> & _).
    destruct (upper_entry T K max Hm HK _ p n i E Hp Hl Ep Hi) as [Z0|(n' & Hn' & ->)]; [by rewrite Z0 in Hpr|].
    apply table_word; [by apply shifted_aligned|lia].
Qed.

Lemma pmm_init_phys kend arena bi m : boot_ok kend arena bi m →
  0 < max_addr_of m bi / PAGE_SIZE <= 2 ^ 40 → phys_ok (pmm_init kend arena bi m).
Proof.
  intros B Ht. destruct (pmm_init_run kend arena bi m B) as (W & E1 & E2 & E3 & _ & U).
  split; rewrite ?E1, ?E2, ?E3; [done|rewrite U by lia; done|done|].
  intros q Hq H1 H2. rewrite U by done. destruct (bo_arena _ _ _ _ B) as ((Ha & Hb) & Hm & _).
  unfold reserved. replace (KERNEL_PHYS_BASE <=? q * PAGE_SIZE) with true by (unfold PAGE_SIZE in *; arith).
  replace (q * PAGE_SIZE <? _) with true by lia. by rewrite orb_true_r.
Qed.

(** The pages between the kernel image and the bitmap are in use. *)
Lemma pmm_init_held kend arena bi m lo : boot_ok kend arena bi m → KERNEL_PHYS_BASE <= lo → lo `mod` PAGE_SIZE = 0 →
  held (pmm_init kend arena bi m) lo arena.
Proof.
  intros B Hlo Hm. destruct (pmm_init_run kend arena bi m B) as (W & E1 & E2 & E3 & _ & U).
  destruct (bo_arena _ _ _ _ B) as (_ & Ha & _). intros y Hy. rewrite E1, E2, E3. split; [lia|].
  intros Ht. exists (y / PAGE_SIZE). rewrite E1, E2, E3. unfold KERNEL_PHYS_BASE, PAGE_SIZE in *.
  split_and!; [done|arith|lia| |left; arith]. rewrite U by arith.
  unfold reserved, PAGE_SIZE, KERNEL_PHYS_BASE. replace (_ <=? y / 4096 * 4096) with true by arith.
  replace (y / 4096 * 4096 <? _) with true; [by rewrite orb_true_r|]. symmetry. apply Z.ltb_lt.
  pose proof (wf_size _ W) as Hs. pose proof (wf_total _ W). rewrite E2, E3 in Hs. rewrite E3 in *. unfold PAGE_SIZE in *. arith.
Qed.

Lemma cpu_lget_lset {D} c (s : computer D) : lget cpu_lens (lset cpu_lens c s) = c.
Proof. by destruct c. Qed.
Lemma cpu_lset_mem {D} c (s : computer D) : mmem (lset cpu_lens c s) = cmem c.
Proof. done. Qed.
Lemma cpu_lget_mem {D} (s : computer D) : cmem (lget cpu_lens s) = mmem s.
Proof. done. Qed.
Lemma cpu_lset_rest {D} c (s : computer D) : cr3 (kvmm (mkernel (lset cpu_lens c s))) = cpu_cr3 c ∧
  m_paging (lset cpu_lens c s) = m_paging s ∧ m_disp (lset cpu_lens c s) = m_disp s ∧
  k_heap_head (mkernel (lset cpu_lens c s)) = k_heap_head (mkernel s) ∧
  k_heap_ready (mkernel (lset cpu_lens c s)) = k_heap_ready (mkernel s).
Proof. done. Qed.
Lemma paging_lset {D} p (s : computer D) : mmem (lset paging_lens p s) = pgmem p ∧
  cr3 (kvmm (mkernel (lset paging_lens p s))) = hw_cr3 p ∧ m_paging (lset paging_lens p s) = p ∧
  m_disp (lset paging_lens p s) = m_disp s ∧
  k_heap_head (mkernel (lset paging_lens p s)) = k_heap_head (mkernel s) ∧
  k_heap_ready (mkernel (lset paging_lens p s)) = k_heap_ready (mkernel s).
Proof. done. Qed.

(** Reloading the descriptor tables. *)
Definition reload {D} (k : symbols) (s : computer D) : computer D :=
  let s := lset cpu_lens (gdt_init k (lget cpu_lens s)) s in
  lset cpu_lens (tss_init k (lget cpu_lens s)) s.

Lemma reload_cr3 k c : cpu_cr3 (tss_init k (gdt_init k c)) = cpu_cr3 c.
Proof. done. Qed.

Lemma reload_spec {D} k (s : computer D) : linked k → let s' := reload k s in
  (∀ a, (a < gdt k ∨ gdt k + sizeof_gdt <= a) → (a < tss k ∨ tss k + sizeof_TSS <= a) →
    rd8 (mmem s') a = rd8 (mmem s) a) ∧
  cr3 (kvmm (mkernel s')) = cr3 (kvmm (mkernel s)) ∧ m_paging s' = m_paging s ∧ m_disp s' = m_disp s ∧
  k_heap_head (mkernel s') = k_heap_head (mkernel s) ∧ k_heap_ready (mkernel s') = k_heap_ready (mkernel s).
Proof.
  intros L. unfold reload. cbv zeta. rewrite cpu_lget_lset.
  destruct (gdt_init_spec k (lget cpu_lens s)) as (O1 & _).
  destruct (tss_init_spec k L (gdt_init k (lget cpu_lens s))) as (O2 & _).
  pose proof (reload_cr3 k (lget cpu_lens s)) as E. rewrite cpu_lget_mem in O1.
  revert O1 O2 E. generalize (gdt_init k (lget cpu_lens s)). intros c O1 O2 E. revert O2 E.
  generalize (tss_init k c). intros c' O2 E. split; [|done].
  intros a H1 H2. rewrite cpu_lset_mem. unfold sizeof_gdt in *. rewrite O2, O1 by lia. done.
Qed.

Lemma reload_run {D A} k (f : M (computer D) A) (s : computer D) :
  (on_cpu (gdt_init k) ;; on_cpu (tss_init k) ;; f) s = f (reload k s).
Proof. done. Qed.

Lemma zoom_modify {S V} (l : lens S V) f s : zoom l (modify f) s = Ok tt (lset l (f (lget l s)) s).
Proof. done. Qed.

(** Replacing the page allocator, or the heap with it. *)
Definition with_phys {D} (p : pmm) (s : computer D) : computer D := lset mk_lens (lset pmm_lens p (mkernel s)) s.
Definition with_heap {D} (h : heap) (s : computer D) : computer D := lset mk_lens (lset heap_lens h (mkernel s)) s.

Lemma pmm_start_run {D A} kernel_end bi (f : M (computer D) A) s :
  (pmm_start kernel_end bi ;; f) s =
    f (with_phys (pmm_init kernel_end (paging_arena_end (m_paging s)) bi (mmem s)) s).
Proof. done. Qed.

Lemma heap_step {D} fuel (s : computer D) p : phys_ok p →
  k_heap_head (mkernel s) = 0 → k_heap_ready (mkernel s) = false →
  let '(a, q) := pmm_alloc_pages 2 p in
  on_kernel (zoom heap_lens (kmalloc_init fuel)) (with_phys p s) =
    if a =? 0 then Panic "kmalloc: initial heap allocation failed" (with_phys p s)
    else Ok tt (with_heap (Heap (set_mem (new_header a PAGE_SIZE (mem q)) q) a true) s).
Proof.
  intros P Hh Hr. destruct s as [[[[ph kp c fl] hh hr sc pr o] i l ac ti kb fi] cp d pg].
  cbn in Hh, Hr. subst hh hr. pose proof (kmalloc_init_run fuel (Heap p 0 false) P eq_refl eq_refl) as R.
  cbn [hphys] in R. destruct (pmm_alloc_pages 2 p) as [a q].
  set (s := Computer _ cp d pg). assert (lget heap_lens (lget mk_lens (with_phys p s)) = Heap p 0 false) as Eg by done.
  unfold on_kernel, zoom. rewrite Eg. destruct (a =? 0); [by rewrite R|]. destruct R as [-> _]. done.
Qed.

Lemma shadow_step {D} (h : heap) (s : computer D) :
  let px := screen_h (m_disp s) * pitch (m_disp s) in
  phys_ok (hphys h) → 0 <= px * 4 < 2 ^ 48 →
  let '(a, p) := pmm_alloc_pages ((px * 4 + 4095) / 4096) (hphys h) in
  if a =? 0 then ∃ s', init_shadow (with_heap h s) = Panic "display shadow buffer allocation failed" s' ∧
    phys (kvmm (mkernel s')) = hphys h
  else ∃ s', init_shadow (with_heap h s) = Ok tt s' ∧ sb (m_disp s') = a ∧
    mkernel s' = lset heap_lens (Heap (set_mem (fill32 (Z.to_nat px) a SCREEN_BG (mem p)) p) (heap_head h) (heap_ready h))
      (mkernel s).
Proof.
  intros px P Hpx. pose proof (pages_alloc_own ((px * 4 + 4095) / 4096) (hphys h)) as Al.
  assert (u64 px = px) as Ep by (apply u64_small; lia).
  assert (u64 (u64 (u64 (px * 4) + PAGE_SIZE) - 1) / PAGE_SIZE = (px * 4 + 4095) / 4096) as En.
  { rewrite (u64_small (px * 4)), (u64_small (_ + PAGE_SIZE)), u64_small by (unfold PAGE_SIZE; lia).
    unfold PAGE_SIZE. f_equal. lia. }
  destruct (pmm_alloc_pages _ (hphys h)) as [a p] eqn:E. unfold init_shadow.
  do 2 (erewrite bind_Ok; [|reflexivity]). cbv zeta.
  set (s1 := lset disp_lens _ _). change (screen_h _ * pitch _) with px. rewrite Ep, En.
  assert (mkernel s1 = lset heap_lens h (mkernel s) ∧ m_disp s1 = set_dmem (hmem h) (m_disp s)) as [K1 D1].
  { subst s1. destruct s as [[[[]]]], h as [[]]. done. }
  clearbody s1.
  erewrite bind_Ok; [|unfold on_kernel, zoom, lift; cbn [lget mk_lens pmm_lens]; rewrite K1; cbn [kvmm lset heap_lens set_kheap phys set_phys]; rewrite E; reflexivity].
  destruct (Z.eqb_spec a 0) as [->|Ha]; cbn [negb].
  - eexists. split; [reflexivity|]. cbn. destruct (Al 0 p P ltac:(apply Z.div_pos; lia) eq_refl) as [[_ ->]|(? & _)]; [done|lia].
  - eexists. split; [reflexivity|]. split; [done|]. destruct (mkernel s) as [[]]. reflexivity.
Qed.

Lemma heap_lset h (s : kernel) : phys (kvmm (lset heap_lens h s)) = hphys h ∧
  cr3 (kvmm (lset heap_lens h s)) = cr3 (kvmm s) ∧ lget heap_lens (lset heap_lens h s) = h ∧
  k_heap_ready (lset heap_lens h s) = heap_ready h.
Proof. by destruct h. Qed.

Lemma vmm_step {D} (s : computer D) t : ∃ s', (on_kernel (zoom vmm_lens vmm_init) ;; mprint t) s = Ok tt s' ∧
  m_disp s' = m_disp s ∧ phys (kvmm (mkernel s')) = phys (kvmm (mkernel s)) ∧
  cr3 (kvmm (mkernel s')) = cr3 (kvmm (mkernel s)) ∧ kernel_pml4 (kvmm (mkernel s')) = cr3 (kvmm (mkernel s)) ∧
  lget heap_lens (mkernel s') = lget heap_lens (mkernel s) ∧ k_heap_ready (mkernel s') = k_heap_ready (mkernel s).
Proof. eexists. split; [reflexivity|]. done. Qed.

Section start.
Context {D : Type} (fuel : nat) (k : symbols) (Hk : linked k) (kernel_end : Z) (bi : BootInfo) (s : computer D).

(** The place of the page tables, the top of memory, the gigabytes to map and
    the end of the tables. *)
Definition tables_at : Z := round_up (kernel_end_phys kernel_end) PAGE_SIZE.
Definition top_of_memory : Z := max_memory bi (mmem s).
Definition gigabytes : Z := (top_of_memory + GB - 1) / GB.
Definition tables_end : Z := tables_at + 4096 * (gigabytes + 4).

(** [x] to [x + n] is neither in the page tables nor in the memory map. *)
Definition clear_of (x n : Z) : Prop :=
  (x + n <= tables_at ∨ tables_end <= x) ∧ ∀ d, d ∈ descriptors bi → d + 40 <= x ∨ x + n <= d.

(** What the boot loader and the linker provide. *)
Record startable : Prop := {
  st_place : KERNEL_PHYS_BASE <= tables_at ∧ tables_at + 4096 * 516 <= 2 ^ 52;
  st_top : 0 < top_of_memory <= 2 ^ 39;
  st_boot : boot_ok kernel_end tables_end bi (mmem s);
  st_total : 0 < max_addr_of (mmem s) bi / PAGE_SIZE <= 2 ^ 40;
  st_managed : tables_end <= max_addr_of (mmem s) bi / PAGE_SIZE * PAGE_SIZE;
  st_map : ∀ d, d ∈ descriptors bi → d + 40 <= tables_at ∨ tables_end <= d;
  st_gdt : clear_of (gdt k) sizeof_gdt;
  st_tss : clear_of (tss k) sizeof_TSS;
  st_heap : k_heap_head (mkernel s) = 0 ∧ k_heap_ready (mkernel s) = false;
  st_screen : 0 <= screen_h (m_disp s) * pitch (m_disp s) * 4 < 2 ^ 48
}.

Context (S : startable).
Local Abbreviation T := tables_at.
Local Abbreviation K := gigabytes.

Definition after_tss : computer D :=
  reload k (lset paging_lens (paging_init kernel_end bi (lget paging_lens s)) s).

Lemma after_tss_spec : let m := mmem after_tss in
  T `mod` PAGE_SIZE = 0 ∧ top_of_memory `mod` PSE_2MB = 0 ∧ top_of_memory <= K * GB < top_of_memory + GB ∧
  cr3 (kvmm (mkernel after_tss)) = T ∧ paging_arena_end (m_paging after_tss) = tables_end ∧
  early_tables m T K top_of_memory ∧ map_same bi (mmem s) m ∧
  m_disp after_tss = m_disp s ∧ k_heap_head (mkernel after_tss) = 0 ∧ k_heap_ready (mkernel after_tss) = false.
Proof.
  destruct S as [[Hp Hp'] Ht _ _ _ Hmap [G1 G2] [T1 T2] [Hh Hr] _]. unfold KERNEL_PHYS_BASE in Hp.
  assert (0 < K) as HK0 by (unfold gigabytes, GB in *; arith).
  destruct (paging_init_tables kernel_end bi (lget paging_lens s)) as (HTa & Hma & HK & E1 & _ & E3 & Tb & O);
    fold tables_at in *; change (max_memory bi (pgmem (lget paging_lens s))) with top_of_memory in *; [lia|lia|done| |].
  { intros d Hd. destruct (Hmap d Hd); unfold tables_end in *; [by left|right; lia]. }
  fold gigabytes tables_end in *. change (pgmem (lget paging_lens s)) with (mmem s) in O.
  destruct (paging_lset (paging_init kernel_end bi (lget paging_lens s)) s) as (L1 & L2 & L3 & L4 & L5 & L6).
  unfold after_tss. revert L1 L2 L3 L4 L5 L6.
  generalize (lset paging_lens (paging_init kernel_end bi (lget paging_lens s)) s). intros s1 L1 L2 L3 L4 L5 L6.
  rewrite <-L1 in Tb, O. rewrite <-L3 in E3, O. rewrite E1 in L2. clear E1 L1 L3.
  destruct (reload_spec k s1 Hk) as (Hout & -> & -> & -> & -> & ->).
  pose proof (K_range K top_of_memory Ht HK) as KR.
  cbv zeta. split_and!; try done; try lia; try congruence.
  - eapply early_tables_agree; [exact Tb|lia|]. intros a Ha. unfold tables_end in *. apply Hout; lia.
  - intros d a Hd Ha. destruct (Hmap d Hd), (G2 d Hd), (T2 d Hd); rewrite Hout by lia; apply O; rewrite E3; lia.
Qed.

(** The page allocator. *)
Definition pool : pmm := pmm_init kernel_end tables_end bi (mmem after_tss).

Lemma pool_spec : phys_ok pool ∧ held pool T tables_end ∧ tables_end <= total_pages pool * PAGE_SIZE ∧ early_tables (mem pool) T K top_of_memory.
Proof.
  destruct after_tss_spec as (HTa & _ & HK & _ & _ & Tb & Hm & _).
  pose proof (boot_ok_ext _ _ _ _ _ Hm (st_boot S)) as B. destruct (st_place S) as [Hp _].
  pose proof (K_range K top_of_memory (st_top S) HK) as KR.
  split_and!.
  - apply pmm_init_phys; [done|]. rewrite (max_addr_ext _ _ _ Hm). apply (st_total S).
  - by apply pmm_init_held.
  - destruct (pmm_init_run kernel_end tables_end bi _ B) as (_ & _ & _ & Et & _). unfold pool. rewrite Et, (max_addr_ext _ _ _ Hm).
    apply (st_managed S).
  - destruct (pmm_init_run kernel_end tables_end bi _ B) as (_ & _ & _ & _ & O & _).
    eapply early_tables_agree; [exact Tb|lia|]. intros a Ha. apply O. unfold tables_end. lia.
Qed.

(** The heap's first two pages, and the allocator after them. *)
Definition heap_at : Z := fst (pmm_alloc_pages 2 pool).
Definition heap_pool : pmm :=
  let p := snd (pmm_alloc_pages 2 pool) in set_mem (new_header heap_at PAGE_SIZE (mem p)) p.

Lemma heap_pool_spec : heap_at ≠ 0 →
  heap_wf (Heap heap_pool heap_at true) [Blk heap_at 8160 true] ∧
  held heap_pool T tables_end ∧ tables_end <= total_pages heap_pool * PAGE_SIZE ∧ held heap_pool heap_at (heap_at + 8192) ∧
  early_tables (mem heap_pool) T K top_of_memory.
Proof.
  destruct pool_spec as (P & Hh & Htot & Tb). destruct after_tss_spec as (_ & _ & HK & _).
  pose proof (K_range K top_of_memory (st_top S) HK) as KR.
  pose proof (kmalloc_init_run 0 (Heap pool 0 false) P eq_refl eq_refl) as R. cbn [hphys] in R.
  unfold heap_pool, heap_at. destruct (pmm_alloc_pages 2 pool) as [a p] eqn:E. cbn [fst snd]. intros Ha.
  destruct (Z.eqb_spec a 0) as [|_]; [done|]. destruct R as [_ W].
  destruct (pages_alloc_own 2 pool a p P ltac:(lia) E) as [[-> _]|(Ha0 & _)]; [done|].
  destruct (new_header_spec a PAGE_SIZE (mem p) Ha0 ltac:(done)) as [_ O].
  assert (same_outside a (a + 2 * PAGE_SIZE) (mem p) (new_header a PAGE_SIZE (mem p))) as O'
    by (eapply same_outside_weaken; [| |exact O]; unfold PAGE_SIZE; lia).
  destruct (alloc_write_keeps 2 pool a p _ T tables_end P ltac:(lia) E Ha O' Hh) as (H1 & Ht' & H2).
  destruct (alloc_write_held 2 pool a p _ P ltac:(lia) E Ha O') as (_ & _ & _ & H3 & _).
  split_and!; [done|done|cbn; by rewrite Ht'|exact H3|]. eapply early_tables_agree; [exact Tb|lia|].
  intros y Hy. by apply H2.
Qed.

(** The shadow buffer, and memory after it is filled. *)
Definition pixels : Z := screen_h (m_disp s) * pitch (m_disp s).
Definition shadow_pages : Z := (pixels * 4 + 4095) / 4096.
Definition shadow_at : Z := fst (pmm_alloc_pages shadow_pages heap_pool).
Definition shadow_pool : pmm :=
  let p := snd (pmm_alloc_pages shadow_pages heap_pool) in
  set_mem (fill32 (Z.to_nat pixels) shadow_at SCREEN_BG (mem p)) p.

Lemma shadow_pool_spec : heap_at ≠ 0 → shadow_at ≠ 0 →
  heap_wf (Heap shadow_pool heap_at true) [Blk heap_at 8160 true] ∧
  early_tables (mem shadow_pool) T K top_of_memory ∧
  held shadow_pool T tables_end ∧ tables_end <= total_pages shadow_pool * PAGE_SIZE ∧
  (∀ i, 0 <= i < pixels → rd32 (mem shadow_pool) (shadow_at + 4 * i) = SCREEN_BG) ∧
  (∀ x, shadow_at <= x < shadow_at + 4 * pixels → own_page shadow_pool (x / PAGE_SIZE * PAGE_SIZE) ∧
     ¬ heap_at <= x < heap_at + 8192).
Proof.
  intros Hha Hs. destruct (heap_pool_spec Hha) as (W & H1 & Htot & H2 & Tb). destruct after_tss_spec as (_ & _ & HK & _).
  pose proof (K_range K top_of_memory (st_top S) HK) as KR.
  assert (0 <= pixels) as Hpx by (pose proof (st_screen S); unfold pixels; lia).
  assert (0 <= shadow_pages ∧ pixels * 4 <= shadow_pages * PAGE_SIZE) as [Hn Hn'] by (unfold shadow_pages, PAGE_SIZE; arith).
  unfold shadow_pool, shadow_at in *. destruct (pmm_alloc_pages shadow_pages heap_pool) as [a p] eqn:E. cbn [fst snd] in *.
  destruct (fill32_spec (Z.to_nat pixels) a SCREEN_BG (mem p)) as [O R]. rewrite Z2Nat.id in O, R by done.
  assert (same_outside a (a + shadow_pages * PAGE_SIZE) (mem p) (fill32 (Z.to_nat pixels) a SCREEN_BG (mem p))) as O'
    by (eapply same_outside_weaken; [| |exact O]; lia).
  pose proof (hw_phys _ _ W) as P. cbn [hphys] in P.
  destruct (alloc_write_keeps _ _ a p _ _ _ P Hn E Hs O' H1) as (H1' & Ht' & K1).
  destruct (alloc_write_keeps _ _ a p _ _ _ P Hn E Hs O' H2) as (_ & _ & K2).
  destruct (alloc_write_held _ _ a p _ P Hn E Hs O') as (P3 & Om & _ & _ & Of).
  split_and!.
  - destruct W as [_ Hseg Hb Hap]. split; [done| |eapply Forall_impl; [exact Hb|]; intros b; by apply block_ok_mono|done].
    eapply seg_ext; [|exact Hseg]. intros b x ->%list_elem_of_singleton Hx. cbn [b_addr] in Hx. apply K2. lia.
  - eapply early_tables_agree; [exact Tb|lia|]. intros y Hy. by apply K1.
  - done.
  - cbn. by rewrite Ht'.
  - intros i Hi. by apply R.
  - intros x Hx. split; [apply Of; lia|]. intros Hx'. apply (K2 x Hx'). lia.
Qed.

(** What [init_memory] leaves. *)
Record memory_ready (s' : computer D) : Prop := {
  mr_cr3 : cr3 (kvmm (mkernel s')) = T ∧ kernel_pml4 (kvmm (mkernel s')) = T;
  mr_root : phys_ok (phys (kvmm (mkernel s'))) ∧ root_wf (kvmm (mkernel s')) T;
  mr_low : ∀ va, 0 <= va < 2 ^ 39 → mmu (mmem s') T va = if va <? top_of_memory then Some va else None;
  mr_high : ∀ x, 0 <= x < GB → mmu (mmem s') T (KERNEL_VIRT_BASE + x) = Some x;
  mr_shadow : sb (m_disp s') ≠ 0 ∧
    (∀ i, 0 <= i < pixels → rd32 (mmem s') (sb (m_disp s') + 4 * i) = SCREEN_BG) ∧
    ∀ x, sb (m_disp s') <= x < sb (m_disp s') + 4 * pixels →
      own_page (phys (kvmm (mkernel s'))) (x / PAGE_SIZE * PAGE_SIZE);
  mr_heap : k_heap_ready (mkernel s') = true ∧ ∃ a, heap_wf (lget heap_lens (mkernel s')) [Blk a 8160 true] ∧
    ∀ x, sb (m_disp s') <= x < sb (m_disp s') + 4 * pixels → ¬ a <= x < a + 8192
}.

Lemma init_memory_run :
  (∃ s', init_memory fuel k kernel_end bi s = Ok tt s' ∧ memory_ready s') ∨
  (∃ s', init_memory fuel k kernel_end bi s = Panic "kmalloc: initial heap allocation failed" s' ∧
     fst (pmm_alloc_pages 2 (phys (kvmm (mkernel s')))) = 0) ∨
  (∃ s', init_memory fuel k kernel_end bi s = Panic "display shadow buffer allocation failed" s' ∧
     fst (pmm_alloc_pages shadow_pages (phys (kvmm (mkernel s')))) = 0).
Proof.
  destruct after_tss_spec as (HTa & Hma & HK & Ecr & Ear & _ & _ & Ed & Eh & Er). destruct pool_spec as (P & _).
  assert (init_memory fuel k kernel_end bi s = (on_kernel (zoom heap_lens (kmalloc_init fuel)) ;; init_shadow ;;
    on_kernel (zoom vmm_lens vmm_init) ;; mprint "VMM initialized\n") (with_phys pool after_tss)) as ->.
  { unfold init_memory. rewrite (bind_Ok _ _ _ _ _ (zoom_modify _ _ _)), reload_run. fold after_tss.
    rewrite pmm_start_run, Ear. done. }
  pose proof (heap_step fuel after_tss pool P Eh Er) as ES. pose proof heap_pool_spec as HP. pose proof shadow_pool_spec as SP.
  unfold shadow_pool, shadow_at, heap_pool, heap_at in HP, SP.
  destruct (pmm_alloc_pages 2 pool) as [a q] eqn:E. cbn [fst snd] in HP, SP. destruct (Z.eqb_spec a 0) as [->|Ha].
  { right. left. eexists. split; [by apply bind_Panic|]. cbn. by rewrite E. }
  rewrite (bind_Ok _ _ _ _ _ ES). clear ES E. destruct (HP Ha) as (W & _). specialize (SP Ha). clear HP.
  set (h := Heap (set_mem _ q) a true) in *. change (set_mem (new_header a PAGE_SIZE (mem q)) q) with (hphys h) in SP.
  pose proof (shadow_step h after_tss) as SS. cbv zeta in SS. rewrite Ed in SS. fold pixels in SS. fold shadow_pages in SS.
  specialize (SS (hw_phys _ _ W) (st_screen S)).
  destruct (pmm_alloc_pages shadow_pages (hphys h)) as [b p] eqn:E2. cbn [fst snd] in SP. destruct (Z.eqb_spec b 0) as [->|Hb].
  { right. right. destruct SS as (s' & Es & Ep). eexists. split; [by apply bind_Panic|]. by rewrite Ep, E2. }
  left. destruct SS as (s5 & Es & Esb & Ek). rewrite (bind_Ok _ _ _ _ _ Es). destruct (SP Hb) as (W' & Tb & Th & Tt & Px & Ow).
  destruct (vmm_step s5 "VMM initialized\n") as (s' & E' & Dd & Pp & C1 & C2 & Lh & Hr). exists s'. split; [exact E'|].
  set (p3 := set_mem (fill32 _ b _ _) p) in *. destruct (heap_lset (Heap p3 (heap_head h) (heap_ready h)) (mkernel after_tss)) as (Q1 & Q2 & Q3 & Q4).
  rewrite Ek in Pp, C1, C2, Lh, Hr. rewrite Q1 in Pp. rewrite Q2, Ecr in C1, C2. rewrite Q3 in Lh. rewrite Q4 in Hr. cbn [hphys heap_ready h] in *.
  assert (mmem s' = mem p3) as Em by (unfold mmem, kmem, vmem; by rewrite Pp). destruct (st_place S) as [Hp Hp'].
  unfold KERNEL_PHYS_BASE in Hp. unfold tables_end in Th, Tt. split; rewrite ?Em, ?Dd, ?Esb, ?Pp.
  - done.
  - split; [exact (hw_phys _ _ W')|]. eapply (early_root_wf _ T K top_of_memory); rewrite ?Pp; try done; try lia; [apply (st_top S)|].
    unfold vmem. by rewrite Pp.
  - intros va Hva. by eapply tables_low with (K := K); try done; try lia; apply (st_top S).
  - intros x Hx. by eapply tables_high with (K := K); try done; try lia; apply (st_top S).
  - split_and!; [done|done|]. intros x Hx. by apply Ow.
  - split; [done|]. exists a. rewrite Lh. split; [exact W'|]. intros x Hx. by apply Ow.
Qed.
End start.

(** ** Example: the memory map of Pmm.v *)
Definition ex_statics : symbols :=
  Symbols 0x100000 0x100100 0x100200 0x20000 0x22000 0x24000 0x26000 (λ v, 0x100000 + 16 * (v `mod` 256)).

Definition ex_computer : computer unit :=
  Computer
    (Os (Kernel (Vmm (Pmm ex_boot_mem 0 0 0 0) 0 0x600000 []) 0 false (Sched [] (-1) 0 0) (Ptable [] 1) [])
      (Irqc tt (Addrs 0 0 0) IRQ_BACKEND_PIC [] (Stats 0 0 0 0 0 0) []) (Klog tt false [] 0 0 [] [])
      (Acpi ∅ 0 0 madt_zero 0 0 0 0 0 0 false []) (Timer 0 false 0) (Kbd (replicate 64 0) 0 0 (-1) 0 0 0) false)
    (Cpu ∅ (0, 0) (0, 0) 0 0 0 0 0)
    (Display ∅ 0 0x200000 2 2 2 0 0 0x00FFFFFF 0x00303030 [] 0)
    (Paging ∅ 0 0 0 0 0 0 0).

Definition ex_end : Z := KERNEL_VIRT_BASE + 0x2000.

Lemma ex_statics_linked : linked ex_statics.
Proof. split; cbn; unfold sizeof_gdt, sizeof_TSS, sizeof_idt; [lia..|]. intros v. arith. Qed.

Lemma ex_startable : startable ex_statics ex_end Pmm.ex_boot ex_computer.
Proof.
  assert (tables_at ex_end = 0x102000) as ET by (vm_compute; reflexivity).
  assert (top_of_memory Pmm.ex_boot ex_computer = 2 ^ 32) as EM by (vm_compute; reflexivity).
  assert (tables_end ex_end Pmm.ex_boot ex_computer = 0x10A000) as EE by (vm_compute; reflexivity).
  assert (descriptors Pmm.ex_boot = [0x5000; 0x5030]) as Ed by (by vm_compute).
  assert (∀ d, d ∈ descriptors Pmm.ex_boot → d + 40 <= 0x6000) as Hd
    by (intros d; rewrite Ed, !elem_of_cons, elem_of_nil; intros [->|[->|[]]]; lia).
  assert (∀ x n, 0x6000 <= x → x + n <= 0x102000 → clear_of ex_end Pmm.ex_boot ex_computer x n) as Hc.
  { intros x n H1 H2. unfold clear_of. rewrite ET. split; [by left|]. intros d Hin. pose proof (Hd d Hin). lia. }
  assert (max_addr_of (mmem ex_computer) Pmm.ex_boot = 0x130000) as EA by (vm_compute; reflexivity).
  split; rewrite ?ET, ?EM, ?EE.
  - unfold KERNEL_PHYS_BASE. lia.
  - lia.
  - change (boot_ok ex_end 0x10A000 Pmm.ex_boot ex_boot_mem). destruct ex_boot_ok as [B1 B2 B3 B4 B5 B6 B7].
    split; [done..| | |done|done].
    + intros d Hin. left. pose proof (Hd d Hin). lia.
    + vm_compute. by split_and!.
  - rewrite EA. change (0x130000 / PAGE_SIZE) with 304. lia.
  - rewrite EA. change (0x130000 / PAGE_SIZE * PAGE_SIZE) with 0x130000. lia.
  - intros d Hin. pose proof (Hd d Hin). lia.
  - apply Hc; cbn; unfold sizeof_gdt; lia.
  - apply Hc; cbn; unfold sizeof_TSS; lia.
  - split; reflexivity.
  - cbn [m_disp screen_h pitch ex_computer]. lia.
Qed.

Definition returns {S A} (r : outcome S A) : bool := match r with Ok _ _ => true | Panic _ _ => false end.

