(* ===== verification/Selftest.v ===== *)
(** * The self-tests at boot (kernel/kernel.c)

    [run_memory_smoke_tests] and [run_heap_smoke_tests] pass on the state
    [init_memory] leaves, and what they leave behind. *)
From stdpp Require Import base gmap list list_numbers strings.
From Stdlib Require Import ZArith Lia.
From S2P Require Import Prelude Monad Mem Devices Display Klog Irq Pmm Vmm Teardown Paging Kmalloc Kernel Task Process Cpu System Main.

(** ** Pages *)

(** Taking a page and giving it back. *)
Lemma page_test p : phys_ok p → 0 < free_pages p → ∃ a p', pmm_alloc_page p = (a, p') ∧ a ≠ 0 ∧
  Z.land a (PAGE_SIZE - 1) = 0 ∧ let q := pmm_free_page a p' in
  phys_ok q ∧ free_pages q = free_pages p ∧
  ∀ u, (own_page q u ↔ own_page p u) ∧ ∀ i, entry (mem q) u i = entry (mem p) u i.
Proof.
  intros P F. pose proof (alloc_page_own p P) as Al. destruct (pmm_alloc_page p) as [a p'] eqn:E.
  destruct Al as [(? & _)|(_ & Ha & P' & O & _)]; [lia|]. exists a, p'.
  destruct (own_page_range _ _ P' O) as (Hm & _).
  split_and!; [done|done|change (PAGE_SIZE - 1) with (Z.ones 12); by rewrite Z.land_ones by lia|].
  destruct (pmm_alloc_free_roundtrip p a p' (po_wf _ P) (po_page0 _ P) E Ha) as (M & Fr & [F1 F2 F3 _] & _).
  set (q := pmm_free_page a p') in *. assert (q = set_mem (mem q) p) as Eq by (destruct q, p; cbn in *; by subst).
  destruct (heap_keep p (mem q) P) as [Pq Oq]; [intros x _; apply M|]. rewrite <-Eq in Pq, Oq.
  split_and!; [done|done|]. intros u. split; [split; [|by apply Oq]|intros i; apply rdn_ext; intros x _; apply M].
  intros (k & -> & Hk & Hu & Hd). exists k. rewrite F1, F2, F3 in *. split_and!; try done; try lia.
  rewrite <-Hu. symmetry. apply page_used_frame; [done|apply M].
Qed.

(** The state with one page less. *)
Lemma free_keeps v asp root pa : phys_ok (phys v) → as_wf v asp root → own_page (phys v) pa → ¬ tab v root pa → pa ≠ asp →
  let v' := set_phys (pmm_free_page pa (phys v)) v in
  phys_ok (phys v') ∧ as_wf v' asp root ∧ keeps_tabs v v' root ∧
  (∀ u, own_page (phys v') u ↔ own_page (phys v) u ∧ u ≠ pa) ∧
  ∀ u i, own_page (phys v) u → 0 <= i < 512 → entry (vmem v') u i = entry (vmem v) u i.
Proof.
  intros P A O Nt Na v'. pose proof (own_plain _ _ O) as Hpl.
  destruct (free_all_step [pa] (phys v) P) as [P' (_ & F & _)]; [by repeat constructor|].
  assert (∀ u, own_page (phys v') u ↔ own_page (phys v) u ∧ u ≠ pa) as Ho.
  { intros u. rewrite <-list_elem_of_singleton. apply (free_all_own [pa] (phys v) u P). by repeat constructor. }
  assert (∀ u i, own_page (phys v) u → 0 <= i < 512 → entry (vmem v') u i = entry (vmem v) u i) as He.
  { intros u i (k & -> & _ & _ & Hd) Hi. eapply rd64_same_outside; [apply (fr_mem _ _ F)|]. unfold PAGE_SIZE in *. lia. }
  assert (keeps_tabs v v' root) as Hk.
  { intros u Hu. pose proof Hu as (p & Hp & Hl & W). destruct (aw_tables _ _ _ A p u Hp Hl W) as [Ou _].
    split; [|intros; by apply He]. apply Ho. split; [done|]. by intros ->. }
  split_and!; [done| |done|done|done]. pose proof (aw_as _ _ _ A).
  apply (as_wf_tabs v); [done|done|by apply Ho|by apply He].
Qed.

(** ** The test space *)
Local Abbreviation test_va := 0x8000000000.

(** A new space [asp] and a page [pa] for it, against the state [v1] before. *)
Record test_space (v1 v : vmm) (asp root pa : Z) : Prop := {
  ts_phys : phys_ok (phys v);
  ts_as : as_wf v asp root;
  ts_small : small_pages (vmem v) root;
  ts_leaf : Vmm.leaf (vmem v) root test_va = 0;
  ts_free : 3 <= free_pages (phys v);
  ts_pa : own_page (phys v) pa;
  ts_new : ¬ own_page (phys v1) asp ∧ ¬ own_page (phys v1) root ∧ ¬ own_page (phys v1) pa ∧ pa ≠ asp ∧ pa ≠ root;
  ts_own : gains (phys v1) (phys v) (λ u, u = asp ∨ u = root ∨ u = pa);
  ts_keeps : keeps v1 v;
  ts_tab : ∀ u, tab v root u → u = root ∨ own_page (phys v1) u;
  ts_empty : ∀ i p, 1 <= i < 511 → okp p → (length p <= 2)%nat → walk (vmem v) root (i :: p) = None;
  ts_kernel : kernel_pml4 v = kernel_pml4 v1
}.

Lemma create_test v1 : phys_ok (phys v1) → root_wf v1 (kernel_pml4 v1) → 6 <= free_pages (phys v1) →
  ∃ asp root v2 pa p3, vmm_create_address_space v1 = Ok asp v2 ∧ asp ≠ 0 ∧
    pmm_alloc_page (phys v2) = (pa, p3) ∧ pa ≠ 0 ∧ test_space v1 (set_phys p3 v2) asp root pa.
Proof.
  intros P1 R F. destruct (create_ok v1 P1) as (asp & root & v2 & E & Hasp & Hne & P2 & Er & F2 & Na & Np & Oa & Op & K2 & Hent & G2 & Ek).
  { by apply (rw_tables _ _ R []); [constructor|cbn; lia|]. }
  { lia. }
  pose proof (alloc_page_own (phys v2) P2) as Al. destruct (pmm_alloc_page (phys v2)) as [pa p3] eqn:E3.
  destruct Al as [(? & _)|(_ & Hpa & P3 & O3 & N3 & K3 & F3)]; [lia|].
  assert (gains (phys v2) p3 (eq pa)) as G3.
  { destruct (pmm_alloc_page_cases _ _ _ (po_wf _ P2) (po_page0 _ P2) E3) as [(? & _)|[_ Al]]; [done|by apply page_alloc_gains]. }
  exists asp, root, v2, pa, p3. split_and!; [done..|]. set (v3 := set_phys p3 v2).
  assert (keeps v2 v3) as K23 by (intros u Hu; destruct (K3 u Hu) as [? X]; split; [done|]; intros i Hi; by apply X; [|intros []]).
  assert (keeps v1 v3) as K13.
  { intros u Hu. destruct (K2 u Hu) as [Hu2 X]. destruct (K23 u Hu2) as [Hu3 X']. split; [done|]. intros i Hi. by rewrite X', X. }
  assert (∀ i, 0 <= i < 512 → entry (vmem v3) root i = fresh_pml4 v1 i) as Hent3
    by (intros i Hi; rewrite (proj2 (K23 root Op)) by done; by apply Hent).
  assert (as_pml4 v3 asp = root) as Er3 by (rewrite as_pml4_entry, (proj2 (K23 asp Oa)) by lia; by rewrite <-as_pml4_entry).
  split; try done.
  - exact (created_wf v1 v3 asp root R Er3 Hne Na Np (proj1 (K23 _ Oa)) (proj1 (K23 _ Op)) K13 Hent3).
  - intros w Hw. apply (created_private v1 v3 root R K13 Hent3 w); lia.
  - by apply (created_private v1 v3 root R K13 Hent3 test_va).
  - cbn. lia.
  - split_and!; [done|done|intros Ho; apply N3, (K2 pa Ho)|by intros ->|by intros ->].
  - eapply gains_weaken; [|eapply gains_trans; [exact G2|exact G3]]. naive_solver.
  - intros u (p & Hp & Hl & W). destruct (created_table v1 v3 root R K13 Hent3 p u Hp Hl W) as [[_ ->]|(_ & ? & _)]; auto.
  - intros i p Hi Hp Hl. rewrite (created_walk v1 v3 root R K13 Hent3 i p) by (done || (constructor; [lia|done])).
    by rewrite decide_False by lia.
Qed.

Lemma smoke_flags_ok : flags_ok smoke_flags.
Proof. by vm_compute. Qed.

(** Mapping, translating and unmapping the test page. *)
Lemma map_test v1 v asp root pa : test_space v1 v asp root pa →
  ∃ v' v'', vmm_map asp test_va pa smoke_flags v = Ok tt v' ∧ vmm_virt_to_phys asp test_va v' = pa ∧
    vmm_unmap asp test_va v' = Ok tt v'' ∧ phys_ok (phys v'') ∧ as_wf v'' asp root ∧ small_pages (vmem v'') root ∧
    extended v v'' root test_va ∧ kernel_pml4 v'' = kernel_pml4 v.
Proof.
  intros [P A Sm L F O _ _ _ _ _ _]. destruct (own_page_range _ _ P O) as (Hm & Hp & Hp').
  pose proof (Sm test_va ltac:(done)) as NH.
  destruct (vmm_map_ok v asp root test_va pa smoke_flags P A ltac:(done) Hm ltac:(unfold PAGE_SIZE in *; lia) smoke_flags_ok F NH)
    as (v' & E & P' & A' & _ & H' & L' & X & _ & _ & Ek & _); [by rewrite L|].
  exists v'. destruct (own_page_range _ _ P' (aw_as _ _ _ A')) as (_ & Ha & _).
  pose proof (vmm_unmap_run v' asp root test_va A' (H' _ NH) ltac:(done) ltac:(lia)) as U.
  assert (∃ v'', vmm_unmap asp test_va v' = Ok tt v'' ∧ phys_ok (phys v'') ∧ as_wf v'' asp root ∧
    (∀ w, no_huge (vmem v') root w → no_huge (vmem v'') root w) ∧ extended v' v'' root test_va ∧
    kernel_pml4 v'' = kernel_pml4 v') as (v'' & E'' & P'' & A'' & H'' & X'' & Ek'').
  { rewrite U. destruct (walk (vmem v') root (path3 test_va)) as [pt|] eqn:W.
    - destruct (leaf_write v' asp root test_va pt 0 P' A' W ltac:(lia)) as (P'' & A'' & _ & H'' & _).
      pose proof (leaf_extended v' asp root test_va pt 0 P' A' W ltac:(lia)) as X''.
      eexists. split_and!; [done|done|by destruct A''; split|done|by destruct X''; split|done].
    - exists v'. split_and!; try done. split; try done; [by intros; left|by intros ?; left]. }
  exists v''. split_and!; [done| |done|done|done| |by eapply extended_trans|congruence].
  - rewrite (virt_to_phys_leaf _ _ _ _ A' (H' _ NH)), L', decide_True by done. cbn zeta.
    rewrite present_lor, entry_addr by (done || apply smoke_flags_ok || (unfold PAGE_SIZE in *; lia)).
    change (Z.land test_va 0xFFF) with 0. apply Z.lor_0_r.
  - intros w Hw. by apply H'', H', Sm.
Qed.

(** The tables written by the test are none of those the kernel had. *)
Lemma path_test p u v root : p `prefix_of` path3 test_va → p ≠ [] → walk (vmem v) root p = Some u → private_table v root u.
Proof.
  intros Hpre Hne W. destruct (okp_prefix p _ Hpre) as [Hp Hl]. destruct p as [|i p]; [done|].
  change (path3 test_va) with [1; 0; 0] in Hpre. apply prefix_cons_inv_1 in Hpre as ->.
  apply Forall_cons in Hp as [_ Hp]. exists 1, p. split_and!; (done || lia || (cbn in Hl; lia)).
Qed.

Lemma test_off v1 v asp root pa : test_space v1 v asp root pa → ∀ u, own_page (phys v1) u → ¬ on_path v root test_va u.
Proof.
  intros S u Hu (p & Hpre & W). destruct (decide (p = [])) as [->|Hne].
  - cbn in W. simplify_eq. destruct (ts_new _ _ _ _ _ S) as (_ & N & _). by apply N.
  - destruct (path_test p u v root Hpre Hne W) as (i & q & Hi & Hq & Hl & W'). by rewrite (ts_empty _ _ _ _ _ S) in W'.
Qed.

Lemma test_page v1 v v5 asp root pa : test_space v1 v asp root pa → extended v v5 root test_va → ¬ tab v5 root pa.
Proof.
  intros S X (p & Hp & Hl & W). destruct (ts_new _ _ _ _ _ S) as (_ & _ & N3 & _ & N5).
  destruct (ext_walk _ _ _ _ X p Hp Hl) as [E|(_ & _ & _ & N)]; [|by apply (N pa W), (ts_pa _ _ _ _ _ S)].
  destruct (ts_tab _ _ _ _ _ S pa); [|done..]. exists p. by rewrite <-E.
Qed.

(** Giving everything back leaves the pages of [v1], with their contents. *)
Lemma teardown_test v1 v v5 asp root pa : test_space v1 v asp root pa → extended v v5 root test_va →
  phys_ok (phys v5) → as_wf v5 asp root → small_pages (vmem v5) root → kernel_pml4 v5 = kernel_pml4 v →
  ∃ v6, vmm_destroy_address_space asp (set_phys (pmm_free_page pa (phys v5)) v5) = Ok tt v6 ∧ phys_ok (phys v6) ∧
    (∀ u, own_page (phys v6) u ↔ own_page (phys v1) u) ∧ keeps v1 v6 ∧ kernel_pml4 v6 = kernel_pml4 v1.
Proof.
  intros S X P5 A5 S5 Ek5. pose proof (test_off v1 v asp root pa S) as Off. pose proof (test_page v1 v v5 asp root pa S X) as Npa.
  destruct S as [P A Sm L F Opa (N1 & N2 & N3 & N4 & N5) G K T Em Ek].
  destruct (free_keeps v5 asp root pa P5 A5 (ext_own _ _ _ _ X _ Opa) Npa N4) as (P6 & A6 & K6 & O6 & C6).
  set (v6 := set_phys (pmm_free_page pa (phys v5)) v5) in *.
  assert (∀ p, okp p → (length p <= 3)%nat → walk (vmem v6) root p = walk (vmem v5) root p) as W6 by (by apply tabs_walk).
  assert (small_pages (vmem v6) root) as S6.
  { intros w Hw pd Wpd. assert (okp [pml4_index w; pdpt_index w]) as Hok by (repeat constructor; apply index_range).
    rewrite W6 in Wpd by (done || cbn; lia). rewrite (proj2 (K6 pd ltac:(exists [pml4_index w; pdpt_index w]; cbn; split_and!; (done || lia)))) by apply index_range.
    by apply S5. }
  destruct (destroy_ok v6 asp root P6 A6 (small_pages_entry _ _ S6)) as (v7 & E7 & Es & P7 & F7 & O7).
  assert (∀ u, own_page (phys v1) u → own_page (phys v7) u) as Fwd.
  { intros u Hu. apply O7. pose proof (ext_own _ _ _ _ X _ (proj1 (K u Hu))) as Hu5. split_and!; [|by intros ->|by intros ->|].
    - apply O6. split; [done|]. by intros ->.
    - intros (i & p & Hi & Hp & Hl & W). assert (okp (i :: p)) as Hp' by (constructor; [lia|done]).
      rewrite W6 in W by (done || cbn; lia). destruct (ext_walk _ _ _ _ X (i :: p) Hp' ltac:(cbn; lia)) as [E|(_ & _ & _ & N)].
      + by rewrite E, Em in W.
      + apply (N u W), (K u Hu). }
  exists v7. split_and!; [done|done| | |].
  - intros u. split; [|by apply Fwd]. intros ([Hu Hne]%O6 & Ha & Hr & Hn)%O7.
    destruct (ext_gains _ _ _ _ X u Hu) as [Hv|(p & Hp0 & Hpre & W)].
    + destruct (G u Hv) as [|[|[|]]]; congruence.
    + destruct Hn. destruct (okp_prefix p _ Hpre) as [Hp Hl]. rewrite <-W6 in W by done. by eapply path_test.
  - intros u Hu. split; [by apply Fwd|]. intros i Hi. destruct (K u Hu) as [Hv Hc]. rewrite <-Hc by done.
    pose proof (ext_own _ _ _ _ X _ Hv) as Hu5.
    rewrite <-(ext_keep _ _ _ _ X u i Hv Hi (Off u Hu)). rewrite <-C6 by done.
    assert (own_page (phys v6) u) as (k & -> & _ & _ & Hd) by (apply O6; split; [done|]; by intros ->).
    eapply rd64_same_outside; [apply (fr_mem _ _ F7)|]. unfold PAGE_SIZE in *. lia.
  - rewrite Es. cbn. congruence.
Qed.

Lemma memory_test_run s :
  phys_ok (phys (kvmm s)) → root_wf (kvmm s) (kernel_pml4 (kvmm s)) → 6 <= free_pages (phys (kvmm s)) →
  ∃ v, run_memory_smoke_tests s =
      Ok tt (Kernel v (k_heap_head s) (k_heap_ready s) (ksched s) (kproc s) (kout s ++ [Str "PMM/VMM smoke tests passed\n"])) ∧
    phys_ok (phys v) ∧ kernel_pml4 v = kernel_pml4 (kvmm s) ∧
    (∀ u, own_page (phys v) u ↔ own_page (phys (kvmm s)) u) ∧ keeps (kvmm s) v.
Proof.
  intros P R F. destruct s as [v hh hr sc pr o]. cbn [kvmm] in *. set (s := Kernel v hh hr sc pr o).
  change s with (set_kvmm v s). unfold run_memory_smoke_tests.
  destruct (page_test (phys v) P ltac:(lia)) as (a & p & E1 & Ha & Hal & P1 & F1 & O1).
  rewrite (bind_Ok _ _ _ _ _ (at_pmm _ v s a p E1)). destruct (Z.eqb_spec a 0); [done|]. rewrite Hal.
  do 2 (erewrite bind_Ok; [|reflexivity]). rewrite (bind_Ok _ _ _ _ _ (at_free _ _ _)). cbn [phys set_phys].
  set (v1 := set_phys _ (set_phys p v)). assert (keeps v v1) as K1.
  { intros u Hu. destruct (O1 u) as [Hu' He]. split; [by apply Hu'|]. intros i _. apply He. }
  assert (∀ u, own_page (phys v1) u ↔ own_page (phys v) u) as Ov1 by apply O1.
  assert (phys_ok (phys v1) ∧ kernel_pml4 v1 = kernel_pml4 v ∧ free_pages (phys v1) = free_pages (phys v)) as (Pv1 & Ev1 & Fv1) by done.
  clearbody v1. pose proof (root_wf_keeps v v1 _ R K1) as R1. rewrite <-Ev1 in R1.
  destruct (create_test v1 Pv1 R1 ltac:(lia)) as (asp & root & v2 & pa & p3 & E2 & Hasp & E3 & Hpa & S).
  rewrite (bind_Ok _ _ _ _ _ (at_vmm _ _ s _ _ E2)). destruct (Z.eqb_spec asp 0); [done|].
  erewrite bind_Ok; [|reflexivity].
  rewrite (bind_Ok _ _ _ _ _ (at_pmm _ v2 s pa p3 E3)). destruct (Z.eqb_spec pa 0); [done|].
  erewrite bind_Ok; [|reflexivity]. set (v3 := set_phys p3 v2) in *.
  destruct (map_test v1 v3 asp root pa S) as (v4 & v5 & E4 & T4 & E5 & P5 & A5 & S5 & X5 & Ek5).
  rewrite (bind_Ok _ _ _ _ _ (at_vmm _ _ s _ _ E4)). erewrite bind_Ok; [|reflexivity]. cbn [kvmm set_kvmm]. rewrite T4, Z.eqb_refl.
  erewrite bind_Ok; [|reflexivity]. rewrite (bind_Ok _ _ _ _ _ (at_vmm _ _ s _ _ E5)), (bind_Ok _ _ _ _ _ (at_free _ _ _)).
  destruct (teardown_test v1 v3 v5 asp root pa S X5 P5 A5 S5 Ek5) as (v6 & E6 & P6 & O6 & K6 & Ek6).
  rewrite (bind_Ok _ _ _ _ _ (at_vmm _ _ s _ _ E6)). exists v6. split_and!; [done|done|congruence| |].
  - intros u. by rewrite O6, Ov1.
  - intros u Hu. destruct (K1 u Hu) as [Hu1 C1]. destruct (K6 u Hu1) as [Hu6 C6]. split; [done|]. intros i Hi. by rewrite C6, C1.
Qed.

(** The memory self-test passes and leaks nothing: whenever six pages are
    free and the kernel's own tables are a tree of pages in use,
    [run_memory_smoke_tests] runs to its end without a failed assertion,
    through page allocation, a new address space, mapping, translation,
    unmapping and destruction; afterwards exactly the pages in use before are
    in use, each with its contents, and the heap's variables, the scheduler
    and the process table are as they were. *)
Theorem memory_smoke_tests_pass s :
  phys_ok (phys (kvmm s)) → root_wf (kvmm s) (kernel_pml4 (kvmm s)) → 6 <= free_pages (phys (kvmm s)) →
  ∃ v, run_memory_smoke_tests s =
      Ok tt (Kernel v (k_heap_head s) (k_heap_ready s) (ksched s) (kproc s) (kout s ++ [Str "PMM/VMM smoke tests passed\n"])) ∧
    phys_ok (phys v) ∧ kernel_pml4 v = kernel_pml4 (kvmm s) ∧
    ∀ u, (own_page (phys v) u ↔ own_page (phys (kvmm s)) u) ∧
      (own_page (phys v) u → ∀ i, 0 <= i < 512 → entry (vmem v) u i = entry (vmem (kvmm s)) u i).
Proof.
  intros P R F. destruct (memory_test_run s P R F) as (v & E & P' & Ek & O & K). exists v. split_and!; [done..|].
  intros u. split; [done|]. intros Hu. by apply K, O.
Qed.

(** ** The heap *)
Section heap_test.
Context {D : Type} (hw : machine D) (fuel : nat).

(** [s] with the heap [h]. *)
Definition in_heap (h : heap) (s : os D) : os D := lset k_lens (lset heap_lens h (o_kernel s)) s.

Lemma at_heap {A} (m : M heap A) h (s : os D) a h' : m h = Ok a h' →
  zoom k_lens (zoom heap_lens m) (in_heap h s) = Ok a (in_heap h' s).
Proof.
  intros E. unfold zoom, in_heap. cbn -[heap_lens].
  by rewrite (lget_lset (l := heap_lens)), E, (lset_lset (l := heap_lens)).
Qed.

Lemma in_heap_self s : in_heap (lget heap_lens (o_kernel s)) s = s.
Proof. unfold in_heap. rewrite (lset_lget (l := heap_lens)). by destruct s. Qed.

Lemma in_heap_mem h s : kmem (o_kernel (in_heap h s)) = hmem h.
Proof. done. Qed.

(** The three allocations on a fresh heap. *)
Lemma heap_test_alloc h a : heap_wf h [Blk a 8160 true] → heap_ready h = true → (5 <= fuel)%nat →
  ∃ h1 h2 h3, kmalloc fuel 24 h = Ok (a + 32) h1 ∧ kmalloc fuel 800 h1 = Ok (a + 96) h2 ∧
    kzalloc fuel 64 h2 = Ok (a + 928) h3 ∧ heap_ready h3 = true ∧
    heap_wf h3 [Blk a 32 false; Blk (a + 64) 800 false; Blk (a + 896) 64 false; Blk (a + 992) 7168 true] ∧
    ∀ i, 0 <= i < 64 → rd8 (hmem h3) (a + 928 + i) = 0.
Proof.
  intros W R Hf.
  destruct (kmalloc_fit fuel h [] (Blk a 8160 true) [] 24 W R ltac:(lia) ltac:(cbn; lia) ltac:(constructor) eq_refl)
    as (h1 & E1 & W1 & R1 & _).
  change ([] ++ split (Blk a 8160 true) (rounded 24) ++ []) with ([Blk a 32 false] ++ Blk (a + 32 + 32) 8096 true :: []) in W1.
  destruct (kmalloc_fit fuel h1 [Blk a 32 false] (Blk (a + 32 + 32) 8096 true) [] 800 W1 R1 ltac:(lia) ltac:(cbn; lia)
    ltac:(by repeat constructor) eq_refl) as (h2 & E2 & W2 & R2 & _).
  change ([Blk a 32 false] ++ split (Blk (a + 32 + 32) 8096 true) (rounded 800) ++ [])
    with ([Blk a 32 false; Blk (a + 32 + 32) 800 false] ++ Blk (a + 32 + 32 + 32 + 800) 7264 true :: []) in W2.
  destruct (kmalloc_fit fuel h2 _ (Blk (a + 32 + 32 + 32 + 800) 7264 true) [] 64 W2 R2 ltac:(lia) ltac:(cbn; lia)
    ltac:(by repeat constructor) eq_refl) as (h3 & E3 & W3 & R3 & _).
  change (_ ++ split _ (rounded 64) ++ []) with [Blk a 32 false; Blk (a + 32 + 32) 800 false;
    Blk (a + 32 + 32 + 32 + 800) 64 false; Blk (a + 32 + 32 + 32 + 800 + 32 + 64) 7168 true] in W3.
  cbn [b_addr] in E1, E2, E3.
  replace (a + 32 + 32 + 32 + 800 + 32 + 64) with (a + 992) in * by lia.
  replace (a + 32 + 32 + 32 + 800) with (a + 896) in * by lia. replace (a + 32 + 32) with (a + 64) in * by lia.
  replace (a + 896 + 32) with (a + 928) in * by lia. replace (a + 64 + 32) with (a + 96) in * by lia.
  assert (0 < a) as Ha by (destruct (heap_wf_sizes _ _ W) as [[? _]%Forall_cons _]; done).
  exists h1, h2, (set_hmem (fill8 (hmem h3) (a + 928) 64 0) h3). split_and!; [done|done| |done| |].
  - unfold kzalloc. rewrite (bind_Ok _ _ _ _ _ E3). by destruct (Z.eqb_spec (a + 928) 0); [lia|].
  - apply (payload_write h3 _ (Blk (a + 896) 64 false)); [done|by do 2 right; left|].
    unfold b_end, sizeof_KBlock. cbn [b_addr b_size]. pose proof (fill8_same_outside (hmem h3) (a + 928) 64 0) as O.
    eapply same_outside_weaken; [| |exact O]; lia.
  - intros i Hi. cbn. rewrite rd8_fill8, decide_True by lia. done.
Qed.

(** The three releases. *)
Lemma heap_test_free h a : heap_ready h = true → (5 <= fuel)%nat →
  heap_wf h [Blk a 32 false; Blk (a + 64) 800 false; Blk (a + 896) 64 false; Blk (a + 992) 7168 true] →
  ∃ h1 h2 h3, kfree fuel (a + 32) h = Ok tt h1 ∧ kfree fuel (a + 96) h1 = Ok tt h2 ∧ kfree fuel (a + 928) h2 = Ok tt h3 ∧
    heap_ready h3 = true ∧ heap_wf h3 [Blk a 960 true; Blk (a + 992) 7168 true].
Proof.
  intros R Hf W.
  destruct (kfree_run fuel h [] (Blk a 32 false) _ W eq_refl) as (h1 & E1 & W1 & R1 & _); [by repeat split|cbn; lia|].
  change (merge _) with [Blk a 32 true; Blk (a + 64) 800 false; Blk (a + 896) 64 false; Blk (a + 992) 7168 true] in W1.
  destruct (kfree_run fuel h1 [Blk a 32 true] (Blk (a + 64) 800 false) _ W1 eq_refl) as (h2 & E2 & W2 & R2 & _);
    [cbn [joined app]; repeat split; unfold b_end, sizeof_KBlock; cbn [b_addr b_size b_free freed andb]; (done || lia)|cbn; lia|].
  change (merge _) with [Blk a 864 true; Blk (a + 896) 64 false; Blk (a + 992) 7168 true] in W2.
  destruct (kfree_run fuel h2 [Blk a 864 true] (Blk (a + 896) 64 false) _ W2 eq_refl) as (h3 & E3 & W3 & R3 & _);
    [cbn [joined app]; repeat split; unfold b_end, sizeof_KBlock; cbn [b_addr b_size b_free freed andb]; (done || lia)|cbn; lia|].
  change (merge _) with [Blk a 960 true; Blk (a + 992) 7168 true] in W3. cbn [b_addr] in E1, E2, E3.
  replace (a + 64 + 32) with (a + 96) in E2 by lia. replace (a + 896 + 32) with (a + 928) in E3 by lia.
  exists h1, h2, h3. split_and!; [done..|congruence|done].
Qed.

(** The loop over the zeroed bytes. *)
Lemma zero_test h (s : os D) z : (∀ i, 0 <= i < 64 → rd8 (hmem h) (z + i) = 0) →
  for_range 0 64 (λ i, b ← gets (λ s : os D, rd8 (kmem (o_kernel s)) (z + i));
    kassert (b =? 0) "heap smoke test: kzalloc returned dirty memory") (in_heap h s) = Ok tt (in_heap h s).
Proof.
  intros H. unfold for_range. destruct (forZ_inv (λ _ t, t = in_heap h s) (Z.to_nat (64 - 0)) 0 (λ i,
    b ← gets (λ s : os D, rd8 (kmem (o_kernel s)) (z + i)); kassert (b =? 0) "heap smoke test: kzalloc returned dirty memory")
    (in_heap h s)) as (s' & E & ->); [done| |done].
  intros j t Hj ->. exists (in_heap h s). split; [|done]. erewrite bind_Ok; [|reflexivity].
  rewrite in_heap_mem, H by lia. done.
Qed.

Lemma heap_test_run s a : heap_wf (lget heap_lens (o_kernel s)) [Blk a 8160 true] → k_heap_ready (o_kernel s) = true →
  (5 <= fuel)%nat → ∃ h, heap_wf h [Blk a 960 true; Blk (a + 992) 7168 true] ∧ heap_ready h = true ∧
    run_heap_smoke_tests hw fuel s = log_call (klog_info hw fuel (Some (chars "Heap smoke tests passed"))) (in_heap h s).
Proof.
  intros W R Hf.
  destruct (heap_test_alloc _ a W R Hf) as (h1 & h2 & h3 & E1 & E2 & E3 & R3 & W3 & Z3).
  destruct (heap_test_free h3 a R3 Hf W3) as (h4 & h5 & h6 & E4 & E5 & E6 & R6 & W6). exists h6. split_and!; [done|done|].
  transitivity (run_heap_smoke_tests hw fuel (in_heap (lget heap_lens (o_kernel s)) s)); [by rewrite in_heap_self|].
  assert (0 < a ∧ a `mod` 16 = 0) as [Ha Hm] by (pose proof (hw_blocks _ _ W) as [[] _]%Forall_cons; done).
  assert (∀ k, k `mod` 16 = 0 → Z.land (a + k) 0xF = 0) as Hal.
  { intros k Hk. change 0xF with (Z.ones 4). rewrite Z.land_ones by lia. change (2 ^ 4) with 16. arith. }
  unfold run_heap_smoke_tests. rewrite (bind_Ok _ _ _ _ _ (at_heap _ _ _ _ _ E1)), (bind_Ok _ _ _ _ _ (at_heap _ _ _ _ _ E2)),
    (bind_Ok _ _ _ _ _ (at_heap _ _ _ _ _ E3)), !Hal by done.
  destruct (Z.eqb_spec (a + 32) 0), (Z.eqb_spec (a + 96) 0), (Z.eqb_spec (a + 928) 0); try lia.
  do 5 (erewrite bind_Ok; [|reflexivity]). rewrite (bind_Ok _ _ _ _ _ (zero_test h3 s (a + 928) Z3)).
  by rewrite (bind_Ok _ _ _ _ _ (at_heap _ _ _ _ _ E4)), (bind_Ok _ _ _ _ _ (at_heap _ _ _ _ _ E5)),
    (bind_Ok _ _ _ _ _ (at_heap _ _ _ _ _ E6)).
Qed.
End heap_test.

(** ** Both tests after [init_memory] *)
Lemma heap_wf_keeps v v' hd rdy l : keeps v v' → phys_ok (phys v') →
  heap_wf (Heap (phys v) hd rdy) l → heap_wf (Heap (phys v') hd rdy) l.
Proof. intros K P W. apply (heap_wf_bytes (phys v)); [done|done|]. intros b x _ _ O. split; [by apply K|by apply (keeps_byte v v')]. Qed.

(** C10. The boot sequence of kernel.c from [init_memory] through both
    self-tests: whenever [init_memory] returns with six pages left, the
    memory test and then the heap test run to their ends, that is to the
    heap test's last log message, without a failed assertion; the kernel's
    PML4 is still the one [init_memory] installed, the scheduler is untouched,
    and the heap consists of two free blocks: the last [kfree] merges the
    first two of three free neighbours and leaves the third apart. *)
Theorem boot_self_tests {D} (hw : machine D) fuel k kernel_end bi (s s' : computer D) :
  Cpu.linked k → startable k kernel_end bi s → init_memory fuel k kernel_end bi s = Ok tt s' →
  6 <= free_pages (phys (kvmm (mkernel s'))) → (5 <= fuel)%nat →
  ∃ s'' a, (on_kernel run_memory_smoke_tests ;; on_sys (run_heap_smoke_tests hw fuel)) s' =
      on_sys (log_call (klog_info hw fuel (Some (chars "Heap smoke tests passed")))) s'' ∧
    kernel_pml4 (kvmm (mkernel s'')) = tables_at kernel_end ∧ ksched (mkernel s'') = ksched (mkernel s') ∧
    heap_wf (lget heap_lens (mkernel s'')) [Blk a 960 true; Blk (a + 992) 7168 true].
Proof.
  intros L S E F Hf. destruct (init_memory_run fuel k L kernel_end bi s S) as [(t & E' & M)|[(t & E' & _)|(t & E' & _)]];
    rewrite E in E'; simplify_eq.
  destruct M as [[_ Ek] [P R] _ _ _ [Hr (a & W & _)]].
  destruct (memory_test_run (mkernel t) P ltac:(by rewrite Ek) F) as (v & Et & Pv & Ekv & _ & Kv).
  set (k' := Kernel v _ _ _ _ _) in Et. set (s1 := set_kernel k' t).
  destruct (heap_test_run hw fuel (m_os s1) a) as (h & Wh & _ & Eh); [|done|done|].
  { exact (heap_wf_keeps _ v _ _ _ Kv Pv W). }
  exists (lset sys_lens (in_heap h (m_os s1)) s1), a. split_and!; [|by rewrite <-Ek|done|].
  - rewrite (bind_Ok _ _ t tt s1) by (unfold on_kernel, zoom; cbn; by rewrite Et).
    unfold on_sys, zoom. change (lget sys_lens (lset sys_lens (in_heap h (m_os s1)) s1)) with (in_heap h (m_os s1)).
    change (lget sys_lens s1) with (m_os s1). rewrite Eh. by destruct (log_call _ _).
  - change (lget heap_lens (mkernel (lset sys_lens (in_heap h (m_os s1)) s1))) with (lget heap_lens (lset heap_lens h k')).
    by rewrite lget_lset.
Qed.

(** ** Example *)
Lemma ex_root_wf : root_wf ex_vmm 0x3000.
Proof. apply root_wf_empty; [by apply (ex_own 3)|intros; apply ex_table_zero; auto]. Qed.

Lemma memory_smoke_tests_pass_witness : ∃ v, run_memory_smoke_tests ex_kernel =
    Ok tt (Kernel v 0 false ex_sched (Ptable (replicate 16 proc0) 1) [Str "PMM/VMM smoke tests passed\n"]) ∧
  own_page (phys v) 0x3000.
Proof.
  assert (own_page (phys ex_vmm) 0x3000) as O3 by (apply (ex_own 3); lia).
  destruct (memory_smoke_tests_pass ex_kernel) as (v & E & _ & _ & O); [exact ex_phys_ok|exact ex_root_wf|cbn; lia|].
  exists v. split; [exact E|]. destruct (O 0x3000) as [[_ H] _]. exact (H O3).
Defined.

(** Ports that always read as ready. *)
Definition ex_ports : machine unit :=
  Machine (λ _ d, (0x20, d)) (λ _ _ d, d) (λ _ d, (0, d)) (λ _ _ d, d)
    (λ _ d, (0, d)) (λ _ _ d, d) (λ _ d, (0, d)) (λ _ _ d, d).

Lemma boot_self_tests_witness : ∃ s' s'' a, init_memory 5 ex_statics ex_end Pmm.ex_boot ex_computer = Ok tt s' ∧
  (on_kernel run_memory_smoke_tests ;; on_sys (run_heap_smoke_tests ex_ports 5)) s' =
    on_sys (log_call (klog_info ex_ports 5 (Some (chars "Heap smoke tests passed")))) s'' ∧
  heap_wf (lget heap_lens (mkernel s'')) [Blk a 960 true; Blk (a + 992) 7168 true].
Proof.
  assert (match init_memory 5 ex_statics ex_end Pmm.ex_boot ex_computer with
    | Ok _ s => 6 <=? free_pages (phys (kvmm (mkernel s))) | Panic _ _ => false end = true) as R by (vm_compute; reflexivity).
  destruct (init_memory 5 ex_statics ex_end Pmm.ex_boot ex_computer) as [[] s'|] eqn:E; [|discriminate R].
  destruct (boot_self_tests ex_ports 5 ex_statics ex_end Pmm.ex_boot ex_computer s') as (s'' & a & H & _ & _ & W).
  - exact ex_statics_linked.
  - exact ex_startable.
  - exact E.
  - apply Z.leb_le. exact R.
  - lia.
  - exists s', s'', a. split; [reflexivity|]. split; [exact H|exact W].
Defined.
